(* ===== verification/_CoqProject ===== *)
-Q . S2P
Prelude.v
GoStrings.v
OS.v
API.v
DeepCopy.v
Kube.v
Scheme.v
Fake.v
ParamsFile.v
Overlay.v
Params.v
Settle.v
Crash.v
Progress.v
PlatformConfig.v
Releases.v
Status.v
Render.v
PlatformFilter.v
Dependencies.v
NotebookRBAC.v
OwnedGC.v
Controller.v
Liveness.v
RBAC.v
Operands.v
Transitions.v
Reports.v
Convergence.v
Following.v
Lifecycle.v
Shipped.v
Manager.v
UnitTests.v
TestUtils.v
TestCommands.v
