(* ===== verification/Prelude.v ===== *)
(** * The Ray module operator: a verification library

    The program is a Kubernetes operator.  It watches one cluster-scoped custom
    resource, the [Ray] named [default-ray], and keeps the KubeRay operator
    deployed in the namespace the resource names, or takes it away again when
    the resource says [Removed] or is deleted.  [cmd/main.go] starts the process;
    [internal/controller] holds the reconciler, which is a list of actions a
    platform framework runs in order, on one reconciliation request they share;
    [api/v1alpha1] is the data of the resource.

    ** How the code is modelled

    A Go function is a computation [M S A] (this file): it maps a state to a
    value, an error or a panic, together with the state it leaves, whatever the
    outcome.  [error] keeps what the program can see of an error: the answers of
    the predicates of [k8serr] and [meta], the error number of a system call, or
    the format, arguments and cause of a [fmt.Errorf].

    An action is a computation on [Kube.State]: the reconciliation request
    (instance, extensions, manifests, resources and the generated flag; a nil
    map, a nil client and an instance of another kind are states of it), the
    cluster, the operating system, and the two variables [filterPlatformResources]
    closes over.  What an action does to the request before it returns an error
    stays done.

    The operating system ([OS.v]) is a file system, an environment, and a
    schedule that says which system calls fail and how much a failing write has
    written.  A statement about every state of it is a statement about every
    pattern of failures.

    ** Code the program calls and does not contain

    It is a parameter, and what is relied on is a class of laws:
    - [Kube.KubeAPI]: the client on a cluster of any type.  [NotebookRBAC.RoleStore]
      and [OwnedGC.ObjectStore] are the promises of an API server about roles and
      about listed objects; a call can fail at any time, and deleting an object
      that has finalizers only marks it.  [Controller.FinalizerLaws] is
      [controllerutil.RemoveFinalizer].
    - [Kube.Unstructured] and [Kube.UnstructuredLaws]: accessors of rendered objects.
    - [Kube.Framework]: condition manager, kustomize engine, and the framework's
      own actions (deploy, deployment status, garbage collection);
      [Controller.Reconciler] is the order in which it runs the actions,
      [Controller.RespectfulFramework] that its actions do not panic,
      [Controller.RequestLaws] that they keep the request, and
      [Controller.FrameworkLaws] what marking a condition, deploying nothing and
      collecting do.
    - [Transitions.ReadingEngine] and [Transitions.FrameworkFrame]: the engine and the
      framework's actions write no file, and leave the extensions of the request.
    - [Liveness.ServingAPI] and [Liveness.ServingFramework]: while it serves, the API
      server answers every call, with an absence at worst, and the framework's
      actions succeed; only the theorems that a pass completes ask for them.
    - [Convergence.ConfigFrame] and [Convergence.DeterministicEngine]: what is deployed is
      not the ConfigMap of the platform, and the same files render to the same
      objects; only the theorems on the exact outcome of a pass ask for them.
    - [Following.Watch]: a change of a ConfigMap gives an event about it;
      [Lifecycle.Deploys]: a deployment that succeeded stored the objects it was
      handed, with the labels they have.
    - [DeepCopy.CopierLaws]: the copies of the metadata and status types are deep;
      [Scheme.SchemeLaws]: types that were added to a scheme are known to it.
    - [Kube.Semver], [OS.MapRange] (the order in which Go ranges over a map is any
      order), [Manager.TLSLibrary], [Manager.OtherFlags] (flags bound by others).

    [Fake.v] implements the first three on a cluster in memory, proves their
    laws, and is what the witnesses run on.  Only witnesses depend on it.

    ** The files

    - [Prelude]: results, errors, the effect and its laws, computations that do
      not panic, the tactics [run], [case_run], [no_panic].
    - [GoStrings]: [strings], [bufio.Scanner] and [path/filepath] on bytes.
    - [OS]: the part of [os] the program uses.
    - [API]: [ray_types.go], [constants.go]; the two CEL rules, evaluated with
      CEL's errors, and the histories of objects they accept.
    - [DeepCopy]: [zz_generated.deepcopy.go], on a memory of cells that references
      share.  [Scheme]: [groupversion_info.go] and the [init] of [main.go].
    - [Kube], [Fake]: the interfaces above.
    - [ParamsFile], [Overlay], [Params]: [params.go].  [applyParams] rewrites
      [params.env]; [setOverlayNamespace] rewrites the kustomization, with the
      regular expression and the expansion of its replacement text;
      [writableManifestsBase] and [applyImageParamsAction].  [Settle]: the action run
      again on what it left.  [Crash]: the action killed at any system call.
      [Progress]: that it succeeds on a machine that does not fail, also after a crash.
    - [PlatformConfig], [Releases], [Status]: [configmap.go], [releases.go],
      [status.go].
    - [Render], [PlatformFilter], [Dependencies]: [render.go],
      [platform_filter.go], [dependencies.go].
    - [NotebookRBAC], [OwnedGC]: [notebook_rbac.go], [owned_gc.go].
    - [Controller]: [ray_controller.go]: its actions, the predicate of the watch,
      the PreApply condition, the finalizer, and [SetupWithManager] as the record
      it hands to the builder, split at the deployment into [prepare_actions],
      [deployAction] and [report_actions] ([told_actions] are those of the last before
      the collection).
    - [Liveness]: that a pass over a managed module, one over a removed one and the
      finalizer run to their end when their calls are served.
    - [RBAC]: the [kubebuilder:rbac] markers of [ray_controller.go] and [main.go], the
      roles of [config/rbac/role.yaml] and [dist/install.yaml], and an API server
      that enforces them on the client, as a transformer of [KubeAPI].
    - [Operands]: [opt/manifests]: the roles of the operand and the kinds of its
      objects, against the markers, the requirement on cert-manager and the lists of
      [owned_gc.go]; and the server that enforces the markers on the framework too.
    - [Transitions]: the module as a relation of small steps, and histories of runs,
      changes by others and restarts.
    - [Reports]: the status after a pass that fails.
    - [Convergence]: two passes over a managed module that completed.
    - [Following]: the outcome of a pass as a function of what it reads, and the way
      from a change of the platform's ConfigMap, over the watch, to the status.
    - [Lifecycle]: an operand from its rendering, over the deployment, to the removal;
      with a framework that deploys, in memory.
    - [Shipped]: the parameter file and the kustomization of [opt/manifests].
    - [Manager]: [cmd/main.go]: flags, TLS options, the calls of the startup as a
      log, contexts and their cancellation.
    - [UnitTests]: the Go unit tests of the modelled code, run on the model.
    - [TestUtils], [TestCommands]: [test/utils/utils.go], the functions that compute
      and those that run a command.

    A definition has the name of the Go function it translates.  A loop or a
    branch that needs a name of its own is a definition next to it.

    ** What is proved

    - The pipeline: a whole pass over a managed module ([managed_pass_spec]) and
      over a removed one ([removed_pass_spec]), from the request to the cluster and
      the status; what reaches the deployment, also when a later action fails;
      that no request the framework can hand over makes an action, the PreApply
      condition or the finalizer panic; what the finalizer, the garbage collection
      and the wait for the namespace do.
    - Liveness ([Liveness], [Progress]): with calls that are served, a namespace, a
      disk on which the overlay can be written, manifests that render and the kinds
      of cert-manager they need installed, a pass over a managed module completes,
      and the files it leaves, the objects it deploys and the status it reports are
      stated as functions of what it reads ([Following]); whatever the cluster holds
      and on every machine, a pass over a removed module and the finalizer complete,
      so that a deletion is never held up; the framework's collection has then run
      on everything labelled, the notebook role is gone, and no operand of the seven
      kinds [owned_gc.go] lists is stored but those waiting for finalizers
      ([listed_kinds_gone]; of other kinds nothing more is said).
    - The way through the parts: a change of what the platform declares is mapped to a
      request, and the pass over it reports the change ([Following]); an object that was
      deployed carries what the collection looks for, stays in its namespace by the
      rule of the definition, and after a removal is gone, waits for its finalizers,
      or has lost its label and its owner ([Lifecycle]); no failure
      makes the module report a generation that it did not deploy ([Reports]).
    - Convergence ([Convergence]): when nothing the module reads changed, a second
      completed pass deploys the same resources, leaves every file, and reports
      the same, on machines whose calls do not fail and for an overlay that is
      well-formed.
    - The abstract specification ([Transitions]): every run refines a transition
      system that lists all the writes the module may make, on every outcome: to the
      cluster, and on the machine the writable copy and three kinds of files of the
      overlay; along
      every history, with others writing between any two steps, files outside of
      the overlay stay, the answer about security context constraints stays until
      a restart, and the extensions of a request hold values of their types.
    - Permissions ([RBAC], [Operands]): nothing a pass, the finalizer, the wait or the
      mapper does is refused by an API server that enforces the markers on the
      module's client and on the framework's deployment, collection and availability,
      the escalation check included, when the objects are those of the operand; the
      role that is installed is exactly the markers, and never allows deleting a
      definition.
    - Deletion ([OwnedGC], [NotebookRBAC]): only operands of the resource are
      deleted, on every outcome, and after a success none is left but those
      waiting for finalizers; the notebook role is applied without an owner, or gone.
    - Files ([ParamsFile], [Overlay], [Params]): the manifests of the image are
      never changed; an error leaves the parameter file as it was; what is
      written reads back as the overridden parameters; the whole action run again,
      after a success and on a machine that does not fail, changes no file of a
      well-formed overlay ([Settle]); killed at any system call, it leaves a parameter
      file that was in the copy old or complete ([Crash]), and the next process, on a
      machine that does not fail, succeeds with the parameters of a run that was not
      killed ([Progress]); line by line, the kustomization is as it was but for the
      value of its namespace lines, or for one that is added; the overlay that is
      shipped meets the conditions of these theorems, one line of it is changed, and
      its version is the one reported by default ([Shipped]).
    - The status ([Releases], [Status], [PlatformConfig]): which version of KubeRay
      is reported for every image reference, which releases and distribution, and
      that no event that matters is dropped by the mapper.
    - Rendering and filters: which objects come out, and that the filter, which
      overwrites the array it reads, is the list filter.
    - The process: the calls of the startup up to the first failure, no manager
      whose two servers do not have the TLS options of the profile in force, HTTP/2 and insecure metrics only when asked for,
      a command line for every configuration, and the restart when the TLS
      profile changes.
    - Data: every generated copy is deep ([DeepCopy]); the program has its types
      registered before [main] or does not start ([Scheme]).
    - The model against the code: the unit tests that the code passes hold of the model,
      as equations that evaluate ([UnitTests]).
    - Behaviour that a reader of the comments would not expect has theorems too:
      an incomplete copy of the manifests is used as if it were complete
      ([Params]); one failing lookup disables the SCC resources for good
      ([PlatformFilter]); a namespace key without a value takes the next word
      with it ([Overlay]); a write of the kustomization that fails loses its
      resources for good ([Settle]); the roles of [dist/install.yaml] do not let the
      module write the notebook role ([RBAC]); an object without a spec refuses every update ([API]);
      a line that is too long truncates the uncommented text ([TestUtils]).

    ** Bounds and fuel

    [OS.create_temp] makes at most ten thousand attempts, as [os.CreateTemp] does.
    [Overlay.expand] and [GoStrings.trim_left_any] get the length of their input as
    fuel, and every round consumes a byte; [Overlay.expand_fuel] shows that more of it
    gives the same text.  Slices of strings panic out of bounds ([GoStrings.slice]),
    and those the program takes are within them.  [GoStrings.MaxScanTokenSize] is the 64
    KiB of [bufio.Scanner]: a longer line is an error.  All other recursion is
    structural.  Indices are Go's [int]s, as [Z] with [-1] for absence; the program
    does no arithmetic that could overflow them.

    ** What is not modelled

    - The client of the manager reads through a cache that may lag behind the API
      server; [RoleStore] and [ObjectStore] speak of the objects at the moment of the
      read, so a theorem on what is left after a deletion is one for a cache that has
      caught up.
    - Reading a file is one call after its opening and writing one, of all bytes,
      where Go's buffers use several for long texts: faults between the parts of a
      read, or of a flush, are faults of the one call, which may have written any
      beginning of its text.
    - Other writers between two calls of an action appear in [Transitions] only; in
      the theorems about one pass the cluster changes by its calls alone.  The API
      server may answer any call with any error.
    - What a failing framework action does inside; log lines; file modes and links.
    - [strings.TrimSpace] knows the white space of Unicode, the group names of a
      replacement text only ASCII letters, digits and underscores.
    - [embed.go] (the embedded manifests, which no function reads), the end-to-end
      tests and those on a control plane, and YAML other than the roles that are
      installed and deployed.  All other Go code of the module is.
    - Two processes that overlap during a change of the leader: each has a disk of
      its own, the copy of the manifests being in the pod's temporary directory, and
      to one the other is among those that write to the cluster in [Transitions]. *)
From stdpp Require Export base gmap strings list.
From Stdlib Require Export Ascii ZArith Lia.
#[export] Set Default Goal Selector "!".

(** ** Errors

    A Go [error] is a value.  An error a Kubernetes client returns is known to
    the program only through the predicates it applies to it, so it is a record
    of their answers; an error built by [fmt.Errorf] keeps its format string and
    arguments, and its wrapped cause when the format has a [%w]. *)

Record api_error := ApiError {
  api_msg : string;
  IsNotFound : bool;
  IsConflict : bool;
  IsNoMatchError : bool;
  IsNotRegisteredError : bool;
}.

Inductive os_error :=
  | ENOENT
  | EEXIST
  | EISDIR
  | ENOTDIR
  | ErrTooLong
  | EFault (msg : string).

Inductive error :=
  | EApi (e : api_error)
  | EOS (e : os_error)
  | ELib (msg : string)
  | Errorf (format : string) (args : list string)
  | Wrapf (format : string) (args : list string) (cause : error).

#[export] Instance os_error_eq_dec : EqDecision os_error.
Proof. solve_decision. Defined.

(** ** The effect of a Go function

    A function that reads and writes a state of type [S] and returns a value of
    type [A] or an error.  The state is returned on every outcome: what a Go
    function wrote before it returned an error stays written.  [Panic] is a
    run-time panic (a write to a nil map, a failed type assertion, a nil
    dereference). *)

Inductive res (A : Type) :=
  | Ok (a : A)
  | Err (e : error)
  | Panic (what : string).
Arguments Ok {A} a.
Arguments Err {A} e.
Arguments Panic {A} what.

Definition M (S A : Type) : Type := S → res A * S.

#[export] Instance M_ret {S} : MRet (M S) := λ A a s, (Ok a, s).
#[export] Instance M_bind {S} : MBind (M S) := λ A B f m s,
  match m s with
  | (Ok a, s') => f a s'
  | (Err e, s') => (Err e, s')
  | (Panic w, s') => (Panic w, s')
  end.

Section operations.
Context {S A : Type}.

Definition fail (e : error) : M S A := λ s, (Err e, s).
Definition panic (w : string) : M S A := λ s, (Panic w, s).
Definition gets (f : S → A) : M S A := λ s, (Ok (f s), s).
Definition modify (f : S → S) : M S unit := λ s, (Ok tt, f s).

(** [v, err := m()]: the error becomes a value the caller inspects. *)
Definition attempt (m : M S A) : M S (error + A) := λ s,
  match m s with
  | (Ok a, s') => (Ok (inr a), s')
  | (Err e, s') => (Ok (inl e), s')
  | (Panic w, s') => (Panic w, s')
  end.

(** [if err != nil { return fmt.Errorf(format, args..., err) }] *)
Definition wrapping (format : string) (args : list string) (m : M S A) : M S A := λ s,
  match m s with
  | (Err e, s') => (Err (Wrapf format args e), s')
  | r => r
  end.

Definition of_sum (r : error + A) : M S A :=
  match r with inl e => fail e | inr a => mret a end.
End operations.

(** Running a computation on a component of a larger state. *)
Definition zoom {S T A} (get : S → T) (put : T → S → S) (m : M T A) : M S A := λ s,
  let '(r, t) := m (get s) in (r, put t s).

(** [for _, x := range l { if err := f(x); err != nil { return err } }] *)
Fixpoint for_each {S A} (l : list A) (f : A → M S unit) : M S unit :=
  match l with
  | [] => mret tt
  | x :: l' => f x ;; for_each l' f
  end.

Definition is_ok {A} (r : res A) : bool :=
  match r with Ok _ => true | _ => false end.

(** ** Lemmas on the effect *)

Section laws.
Context {S : Type}.

Lemma bind_ret {A B} (a : A) (f : A → M S B) s : (mret a ≫= f) s = f a s.
Proof. reflexivity. Qed.

Lemma bind_Ok {A B} (m : M S A) (f : A → M S B) s a s' :
  m s = (Ok a, s') → (m ≫= f) s = f a s'.
Proof. intros H. unfold mbind, M_bind. by rewrite H. Qed.

Lemma bind_Err {A B} (m : M S A) (f : A → M S B) s e s' :
  m s = (Err e, s') → (m ≫= f) s = (Err e, s').
Proof. intros H. unfold mbind, M_bind. by rewrite H. Qed.

(** A sequence, as the case analysis it is. *)
Lemma bind_split {A B} (m : M S A) (f : A → M S B) s :
  (m ≫= f) s = match m s with
               | (Ok a, s') => f a s'
               | (Err e, s') => (Err e, s')
               | (Panic w, s') => (Panic w, s')
               end.
Proof. reflexivity. Qed.

Lemma bind_Ok_inv {A B} (m : M S A) (f : A → M S B) s b s'' :
  (m ≫= f) s = (Ok b, s'') → ∃ a s', m s = (Ok a, s') ∧ f a s' = (Ok b, s'').
Proof.
  unfold mbind, M_bind. destruct (m s) as [[a|e|w] s'] eqn:E; try discriminate. eauto.
Qed.

Lemma attempt_Ok {A} (m : M S A) s a s' :
  m s = (Ok a, s') → attempt m s = (Ok (inr a), s').
Proof. intros H. unfold attempt. by rewrite H. Qed.

Lemma attempt_Err {A} (m : M S A) s e s' :
  m s = (Err e, s') → attempt m s = (Ok (inl e), s').
Proof. intros H. unfold attempt. by rewrite H. Qed.

Lemma for_each_nil {A} (f : A → M S unit) : for_each [] f = mret tt.
Proof. reflexivity. Qed.

Lemma for_each_app {A} (l k : list A) (f : A → M S unit) s :
  for_each (l ++ k) f s = (for_each l f ;; for_each k f) s.
Proof.
  revert s. induction l as [|x l IH]; intros s; [done|].
  cbn. unfold mbind, M_bind in *. destruct (f x s) as [[]]; [|done..]. apply IH.
Qed.

(** A loop preserves what its body preserves, whatever its outcome. *)
Lemma for_each_inv {A} (I : S → Prop) (l : list A) (f : A → M S unit) s :
  (∀ x s, x ∈ l → I s → I (f x s).2) → I s → I (for_each l f s).2.
Proof.
  revert s. induction l as [|x l IH]; intros s Hf Hs; [done|].
  cbn. unfold mbind, M_bind.
  pose proof (Hf x s ltac:(set_solver) Hs) as Hx.
  destruct (f x s) as [[] s']; cbn in *; [|done..].
  apply IH; [|done]. intros y t Hy. apply Hf. set_solver.
Qed.

(** A loop whose body succeeds, and keeps what makes it succeed, succeeds. *)
Lemma for_each_Ok {A} (I : S → Prop) (l : list A) (f : A → M S unit) s :
  (∀ x s, x ∈ l → I s → ∃ s', f x s = (Ok tt, s') ∧ I s') → I s →
  ∃ s', for_each l f s = (Ok tt, s') ∧ I s'.
Proof.
  revert s. induction l as [|x l IH]; intros s Hf Hs; [by exists s|].
  destruct (Hf x s (list_elem_of_here _ _) Hs) as (s1 & E1 & H1). cbn [for_each].
  rewrite (bind_Ok _ _ _ _ _ E1). apply IH; [|done].
  intros y t Hy. apply Hf. by apply list_elem_of_further.
Qed.
End laws.

(** ** Computations that do not panic *)

Definition safe {S A} (m : M S A) : Prop := ∀ s, match (m s).1 with Panic _ => False | _ => True end.

Section safety.
Context {S : Type}.

Lemma safe_ret {A} (a : A) : safe (S:=S) (mret a).
Proof. by intros s. Qed.

Lemma safe_fail {A} e : safe (@fail S A e).
Proof. by intros s. Qed.

Lemma safe_gets {A} (f : S → A) : safe (gets f).
Proof. by intros s. Qed.

Lemma safe_modify (f : S → S) : safe (modify f).
Proof. by intros s. Qed.

Lemma safe_bind {A B} (m : M S A) (f : A → M S B) :
  safe m → (∀ a, safe (f a)) → safe (m ≫= f).
Proof.
  intros Hm Hf s. unfold mbind, M_bind. specialize (Hm s).
  destruct (m s) as [[a|e|w] s']; [apply (Hf a s')|done..].
Qed.

Lemma safe_attempt {A} (m : M S A) : safe m → safe (attempt m).
Proof. intros Hm s. specialize (Hm s). unfold attempt. by destruct (m s) as [[]]. Qed.

Lemma safe_wrapping {A} f args (m : M S A) : safe m → safe (wrapping f args m).
Proof. intros Hm s. specialize (Hm s). unfold wrapping. by destruct (m s) as [[]]. Qed.

Lemma safe_for_each {A} (l : list A) (f : A → M S unit) :
  (∀ x, safe (f x)) → safe (for_each l f).
Proof.
  intros Hf. induction l as [|x l IH]; cbn; [apply safe_ret|].
  apply safe_bind; [apply Hf|]. intros _. apply IH.
Qed.

Lemma safe_zoom {T A} (get : S → T) put (m : M T A) : safe m → safe (zoom get put m).
Proof. intros Hm s. specialize (Hm (get s)). unfold zoom. by destruct (m (get s)). Qed.

Lemma safe_not_Panic {A} (m : M S A) s w s' : safe m → m s = (Panic w, s') → False.
Proof. intros Hm H. specialize (Hm s). by rewrite H in Hm. Qed.
End safety.

Create HintDb safe.
#[export] Hint Resolve safe_ret safe_fail safe_gets safe_modify : safe.

(** ** Automation *)

(** Unfold the effect's operations and run what can run. *)
Ltac run :=
  repeat (unfold mbind, M_bind, mret, M_ret, gets, modify, fail, panic, attempt,
            wrapping, of_sum, zoom in *; cbn in * ).

(** Case analysis on the scrutinee of the innermost match of the goal. *)
Ltac case_run :=
  match goal with
  | |- context [match ?x with _ => _ end] =>
      lazymatch x with
      | context [match _ with _ => _ end] => fail
      | _ => destruct x eqn:?
      end
  end.

Create HintDb ray.
Create Rewrite HintDb ray.
#[export] Hint Rewrite @bind_ret @for_each_nil : ray.
#[export] Hint Resolve bind_Ok bind_Err attempt_Ok attempt_Err : ray.

(** Decomposes a goal [safe m] along the operations of [m]. *)
Ltac no_panic :=
  repeat first
    [ progress intros
    | solve [eauto 2 with safe]
    | apply safe_bind | apply safe_attempt | apply safe_wrapping | apply safe_for_each
    | apply safe_zoom
    | case_match ].
