(* ===== verification/GoStrings.v ===== *)
(** * The Go standard library the program uses on strings and paths

    A Go string is a sequence of bytes, a Rocq [string] is a sequence of 8-bit
    characters: the functions of [strings], [bufio] and [path/filepath] below
    work on bytes as Go's do.  Indices are Go's [int]s, with [-1] for absence. *)
From S2P Require Import Prelude.

#[global] Arguments String.append !s1 s2 / : simpl nomatch.

Definition LF : ascii := "010"%char.
Definition CR : ascii := "013"%char.

(** ** Slices and searches *)

(** [s[:n]] and [s[n:]]. *)
Fixpoint str_take (n : nat) (s : string) : string :=
  match n, s with
  | S n', String a s' => String a (str_take n' s')
  | _, _ => EmptyString
  end.

Fixpoint str_drop (n : nat) (s : string) : string :=
  match n, s with
  | S n', String _ s' => str_drop n' s'
  | _, _ => s
  end.

(** [s[lo:hi]], which panics when the bounds are not [0 <= lo <= hi <= len(s)]. *)
Definition slice {S} (s : string) (lo hi : Z) : M S string :=
  if ((0 <=? lo) && (lo <=? hi) && (hi <=? Z.of_nat (String.length s)))%Z
  then mret (str_take (Z.to_nat (hi - lo)) (str_drop (Z.to_nat lo) s))
  else panic "slice bounds out of range".

Fixpoint str_forall (f : ascii → bool) (s : string) : bool :=
  match s with
  | EmptyString => true
  | String a s' => f a && str_forall f s'
  end.

Definition no_char (c : ascii) (s : string) : bool :=
  str_forall (λ a, negb (Ascii.eqb a c)) s.

(** [strings.LastIndex(s, string(c))] *)
Fixpoint last_index (c : ascii) (s : string) : Z :=
  match s with
  | EmptyString => -1
  | String a s' =>
      let r := last_index c s' in
      if (0 <=? r)%Z then r + 1 else if Ascii.eqb a c then 0 else -1
  end%Z.

(** [strings.Cut(s, string(c))]: the text before and after the first [c]. *)
Fixpoint Cut (s : string) (c : ascii) : option (string * string) :=
  match s with
  | EmptyString => None
  | String a s' =>
      if Ascii.eqb a c then Some (EmptyString, s')
      else match Cut s' c with
           | Some (before, after) => Some (String a before, after)
           | None => None
           end
  end.

(** [strings.TrimPrefix(s, p)] *)
Definition TrimPrefix (s p : string) : string :=
  if String.prefix p s then str_drop (String.length p) s else s.

(** [strings.Split(s, string(c))] *)
Fixpoint split_on (c : ascii) (s : string) : list string :=
  match s with
  | EmptyString => [EmptyString]
  | String a s' =>
      if Ascii.eqb a c then EmptyString :: split_on c s'
      else match split_on c s' with
           | p :: ps => String a p :: ps
           | [] => []
           end
  end.

(** [strings.Join(l, string(c))] *)
Fixpoint join_with (c : ascii) (l : list string) : string :=
  match l with
  | [] => EmptyString
  | [p] => p
  | p :: l' => p +:+ String c (join_with c l')
  end.

(** ** [strings.TrimSpace]

    The encodings of the characters [unicode.IsSpace] accepts. *)
Definition bytes (l : list nat) : string :=
  fold_right (λ n s, String (ascii_of_nat n) s) EmptyString l.

Definition unicode_spaces : list string :=
  map bytes
    ([[9]; [10]; [11]; [12]; [13]; [32]; [194; 133]; [194; 160]; [225; 154; 128];
      [226; 128; 168]; [226; 128; 169]; [226; 128; 175]; [226; 129; 159]; [227; 128; 128]]
     ++ map (λ n, [226; 128; n])
          [128; 129; 130; 131; 132; 133; 134; 135; 136; 137; 138]).

Fixpoint str_rev (s : string) : string :=
  match s with
  | EmptyString => EmptyString
  | String a s' => str_rev s' +:+ String a EmptyString
  end.

Definition starts_with_any (l : list string) (s : string) : option string :=
  List.find (λ p, String.prefix p s) l.

(** Each step drops at least one byte, so the length of the text is enough fuel. *)
Fixpoint trim_left_any (fuel : nat) (l : list string) (s : string) : string :=
  match fuel with
  | O => s
  | S fuel' =>
      match starts_with_any l s with
      | Some p => trim_left_any fuel' l (str_drop (String.length p) s)
      | None => s
      end
  end.

Definition TrimSpace (s : string) : string :=
  let left := trim_left_any (String.length s) unicode_spaces s in
  str_rev (trim_left_any (String.length left) (map str_rev unicode_spaces) (str_rev left)).

(** ** [bufio.Scanner] with [ScanLines]

    The lines of a text, without their end-of-line marker and at most one
    carriage return before it; a last line that is empty is not reported.  A
    line of 64 KiB or more does not fit the scanner's buffer: the lines before
    it are reported, then [bufio.ErrTooLong]. *)
Definition MaxScanTokenSize : Z := 65536.

Definition drop_cr (s : string) : string :=
  match str_rev s with
  | String a _ => if Ascii.eqb a CR then str_take (String.length s - 1) s else s
  | EmptyString => s
  end.

Fixpoint scan_pieces (l : list string) : list string * option os_error :=
  match l with
  | [] => ([], None)
  | [EmptyString] => ([], None)
  | p :: l' =>
      if (MaxScanTokenSize <=? Z.of_nat (String.length p))%Z then ([], Some ErrTooLong)
      else let '(ls, e) := scan_pieces l' in (drop_cr p :: ls, e)
  end.

Definition scan_lines (s : string) : list string * option os_error :=
  scan_pieces (split_on LF s).

(** ** [filepath.Clean] and [filepath.Join] on Unix *)

(** One path element, on the stack of the elements kept so far (the last one
    first): [rooted] paths have nothing above their root. *)
Definition clean_step (rooted : bool) (st : list string) (c : string) : list string :=
  if String.eqb c "" then st
  else if String.eqb c "." then st
  else if String.eqb c ".." then
    match st with
    | [] => if rooted then [] else [c]
    | x :: st' => if String.eqb x ".." then c :: st else st'
    end
  else c :: st.

Definition clean_comps (rooted : bool) (l : list string) : list string :=
  rev (fold_left (clean_step rooted) l []).

Definition is_rooted (p : string) : bool :=
  match p with String a _ => Ascii.eqb a "/" | EmptyString => false end.

Definition Clean (p : string) : string :=
  let cs := clean_comps (is_rooted p) (split_on "/" p) in
  if is_rooted p then String "/" (join_with "/" cs)
  else match cs with [] => "." | _ => join_with "/" cs end.

Fixpoint Join (elem : list string) : string :=
  match elem with
  | [] => ""
  | EmptyString :: elem' => Join elem'
  | _ => Clean (join_with "/" elem)
  end.

(** The elements a path names from the working directory of the program, which
    its image sets to the root. *)
Definition resolve (p : string) : list string := clean_comps true (split_on "/" p).

Example Clean_ex1 : Clean "/a/./b//../c/" = "/a/c". Proof. reflexivity. Qed.
Example Clean_ex2 : Clean "../a/../../b" = "../../b". Proof. reflexivity. Qed.
Example Join_ex : Join ["/tmp"; "kuberay"; ""; "openshift"] = "/tmp/kuberay/openshift".
Proof. reflexivity. Qed.
Example TrimSpace_ex : TrimSpace (bytes [32; 194; 160; 97; 32; 98; 227; 128; 128; 10]) = "a b".
Proof. reflexivity. Qed.
Example scan_ex : scan_lines (bytes [97; 13; 10; 10; 98]) = (["a"; ""; "b"], None).
Proof. reflexivity. Qed.

(** ** Lemmas: concatenation, slices *)

Lemma str_app_nil_r s : s +:+ "" = s.
Proof. induction s as [|a s IH]; cbn; [done|by rewrite IH]. Qed.

Lemma str_app_assoc s t u : s +:+ (t +:+ u) = (s +:+ t) +:+ u.
Proof. induction s as [|a s IH]; cbn; [done|by rewrite IH]. Qed.

Lemma str_app_length s t : String.length (s +:+ t) = String.length s + String.length t.
Proof. induction s as [|a s IH]; cbn; [done|by rewrite IH]. Qed.

Lemma str_app_inv_l s t u : s +:+ t = s +:+ u → t = u.
Proof. induction s as [|a s IH]; cbn; [done|]. intros H. apply IH. congruence. Qed.

Lemma str_take_app s t : str_take (String.length s) (s +:+ t) = s.
Proof. induction s as [|a s IH]; cbn; [by destruct t|by rewrite IH]. Qed.

Lemma str_drop_app s t : str_drop (String.length s) (s +:+ t) = t.
Proof. induction s as [|a s IH]; cbn; [by destruct t|done]. Qed.

Lemma str_take_all n s : String.length s ≤ n → str_take n s = s.
Proof.
  revert n. induction s as [|a s IH]; intros [|n] Hn; cbn in *; try done; [lia|].
  rewrite IH; [done|lia].
Qed.

Lemma str_drop_length n s : String.length (str_drop n s) = String.length s - n.
Proof. revert n. induction s as [|a s IH]; intros [|n]; cbn; auto. Qed.

(** Slices within the bounds: a beginning and an end. *)
Lemma slice_to_ok {S} s i (σ : S) :
  (0 ≤ i ≤ Z.of_nat (String.length s))%Z → slice s 0 i σ = (Ok (str_take (Z.to_nat i) s), σ).
Proof.
  intros [H1 H2]. unfold slice. rewrite (proj2 (Z.leb_le 0 i)), (proj2 (Z.leb_le i _)) by done.
  cbn [andb]. by rewrite Z.sub_0_r.
Qed.

Lemma slice_from_ok {S} s i (σ : S) :
  (0 ≤ i ≤ Z.of_nat (String.length s))%Z →
  slice s i (Z.of_nat (String.length s)) σ = (Ok (str_drop (Z.to_nat i) s), σ).
Proof.
  intros [H1 H2]. unfold slice.
  rewrite (proj2 (Z.leb_le 0 i)), (proj2 (Z.leb_le i _)), Z.leb_refl by done. cbn [andb].
  rewrite str_take_all; [done|]. rewrite str_drop_length. lia.
Qed.

Lemma str_take_drop n s : str_take n s +:+ str_drop n s = s.
Proof. revert n. induction s as [|a s IH]; intros [|n]; cbn; [done..|by rewrite IH]. Qed.

Lemma str_forall_app f s t : str_forall f (s +:+ t) = str_forall f s && str_forall f t.
Proof. induction s as [|a s IH]; cbn; [done|]. by rewrite IH, andb_assoc. Qed.

Lemma str_forall_impl (f g : ascii → bool) s :
  (∀ a, f a = true → g a = true) → str_forall f s = true → str_forall g s = true.
Proof.
  intros Hfg. induction s as [|a s IH]; cbn; [done|].
  intros [Ha Hs]%andb_true_iff. by rewrite (Hfg a Ha), (IH Hs).
Qed.

Lemma no_char_app c s t : no_char c (s +:+ t) = no_char c s && no_char c t.
Proof. apply str_forall_app. Qed.

Lemma no_char_cons c a s :
  no_char c (String a s) = true ↔ a ≠ c ∧ no_char c s = true.
Proof.
  unfold no_char at 1; cbn. rewrite andb_true_iff, negb_true_iff.
  by rewrite Ascii.eqb_neq.
Qed.

Lemma prefix_app p s : String.prefix p (p +:+ s) = true.
Proof.
  induction p as [|a p IH]; cbn; [by destruct s|].
  destruct (ascii_dec a a); [done|congruence].
Qed.

Lemma prefix_cons c p a s :
  String.prefix (String c p) (String a s) = Ascii.eqb c a && String.prefix p s.
Proof. cbn. destruct (ascii_dec c a), (Ascii.eqb_spec c a); done. Qed.

Lemma prefix_split p s : String.prefix p s = true → s = p +:+ str_drop (String.length p) s.
Proof.
  revert s. induction p as [|a p IH]; intros [|b s]; cbn; try done.
  destruct (ascii_dec a b) as [->|]; [|done]. intros H. by rewrite <- (IH s H).
Qed.

Lemma TrimPrefix_spec s p :
  (String.prefix p s = true ∧ s = p +:+ TrimPrefix s p) ∨
  (String.prefix p s = false ∧ TrimPrefix s p = s).
Proof.
  unfold TrimPrefix. destruct (String.prefix p s) eqn:E; [left|by right].
  split; [done|]. by apply prefix_split.
Qed.

(** ** Lemmas: cutting, splitting and searching *)

Lemma Cut_app c k v : no_char c k = true → Cut (k +:+ String c v) c = Some (k, v).
Proof.
  induction k as [|a k IH]; cbn.
  - by rewrite Ascii.eqb_refl.
  - intros [Ha Hk]%no_char_cons. rewrite (proj2 (Ascii.eqb_neq _ _) Ha).
    by rewrite (IH Hk).
Qed.

Lemma Cut_Some s c k v :
  Cut s c = Some (k, v) → s = k +:+ String c v ∧ no_char c k = true.
Proof.
  revert k. induction s as [|a s IH]; cbn; intros k H; [done|].
  destruct (Ascii.eqb_spec a c) as [->|Hac]; [by simplify_eq|].
  destruct (Cut s c) as [[b t]|] eqn:E; [|done]. simplify_eq.
  destruct (IH b eq_refl) as [-> Hb]. split; [done|]. by apply no_char_cons.
Qed.

Lemma split_on_no_char c s : no_char c s = true → split_on c s = [s].
Proof.
  induction s as [|a s IH]; cbn; [done|].
  intros [Ha Hs]%no_char_cons. rewrite (proj2 (Ascii.eqb_neq _ _) Ha).
  by rewrite (IH Hs).
Qed.

Lemma split_on_app c s t :
  no_char c s = true → split_on c (s +:+ String c t) = s :: split_on c t.
Proof.
  induction s as [|a s IH]; cbn.
  - by rewrite Ascii.eqb_refl.
  - intros [Ha Hs]%no_char_cons. rewrite (proj2 (Ascii.eqb_neq _ _) Ha).
    by rewrite (IH Hs).
Qed.

Lemma split_on_nonempty c s : split_on c s ≠ [].
Proof.
  induction s as [|a s IH]; cbn; [done|].
  destruct (Ascii.eqb a c); [done|]. by destruct (split_on c s).
Qed.

Lemma split_on_pieces c s : Forall (λ p, no_char c p = true) (split_on c s).
Proof.
  induction s as [|a s IH]; cbn; [by repeat constructor|].
  destruct (Ascii.eqb_spec a c) as [->|Ha]; [by constructor|].
  destruct (split_on c s) as [|p ps]; [done|]. inversion_clear IH.
  constructor; [|done]. by apply no_char_cons.
Qed.

Lemma split_on_join c l :
  l ≠ [] → Forall (λ p, no_char c p = true) l → split_on c (join_with c l) = l.
Proof.
  induction l as [|p l IH]; [done|]. intros _ [Hp Hl]%Forall_cons.
  destruct l as [|q l]; cbn; [by apply split_on_no_char|].
  rewrite split_on_app by done. f_equal. by apply IH.
Qed.

Lemma last_index_no_char c s : no_char c s = true → last_index c s = (-1)%Z.
Proof.
  induction s as [|a s IH]; cbn; [done|].
  intros [Ha Hs]%no_char_cons. rewrite (IH Hs); cbn.
  by rewrite (proj2 (Ascii.eqb_neq _ _) Ha).
Qed.

Lemma last_index_bounds c s : (-1 ≤ last_index c s < Z.of_nat (String.length s))%Z ∨
  (s = "" ∧ last_index c s = -1)%Z.
Proof.
  induction s as [|a s IH]; cbn; [by right|]. left.
  assert (-1 ≤ last_index c s < Z.of_nat (String.length s) ∨ last_index c s = -1)%Z as H.
  { destruct IH as [|[-> ?]]; auto. }
  destruct (Z.leb_spec 0 (last_index c s)), (Ascii.eqb a c); lia.
Qed.

Lemma last_index_mid c s t :
  no_char c t = true → last_index c (s +:+ String c t) = Z.of_nat (String.length s).
Proof.
  intros Ht. induction s as [|a s IH]; cbn [String.append last_index].
  - rewrite (last_index_no_char _ _ Ht); cbn. by rewrite Ascii.eqb_refl.
  - rewrite IH. cbn [String.length]. destruct (Z.leb_spec 0 (Z.of_nat (String.length s))); lia.
Qed.

Lemma last_index_app_no_char c s t :
  no_char c t = true → last_index c (s +:+ t) = last_index c s.
Proof.
  intros Ht. induction s as [|a s IH]; cbn; [by apply last_index_no_char|].
  by rewrite IH.
Qed.

(** What follows the last occurrence does not contain the character. *)
Lemma last_index_split c s :
  (0 ≤ last_index c s)%Z →
  ∃ l r, s = l +:+ String c r ∧ no_char c r = true ∧
         Z.of_nat (String.length l) = last_index c s.
Proof.
  induction s as [|a s IH]; cbn [last_index]; [lia|].
  destruct (Z.leb_spec 0 (last_index c s)) as [Hs|Hs].
  - intros _. destruct (IH Hs) as (l & r & -> & Hr & Hl).
    exists (String a l), r. cbn [String.append String.length]. split_and!; [done..|lia].
  - destruct (Ascii.eqb_spec a c) as [->|]; [|lia]. intros _.
    exists "", s. split_and!; [done| |done].
    clear IH. induction s as [|b s IH]; [done|]. cbn in Hs.
    destruct (Z.leb_spec 0 (last_index c s)); [lia|].
    destruct (Ascii.eqb_spec b c); [lia|]. apply no_char_cons. auto.
Qed.

Lemma last_index_neg c s : (last_index c s < 0)%Z → no_char c s = true.
Proof.
  induction s as [|a s IH]; cbn [last_index]; [done|].
  destruct (Z.leb_spec 0 (last_index c s)); [lia|].
  destruct (Ascii.eqb_spec a c); [lia|]. intros _. apply no_char_cons. auto.
Qed.

(** ** Lemmas: lines *)

Lemma str_rev_app s t : str_rev (s +:+ t) = str_rev t +:+ str_rev s.
Proof.
  induction s as [|a s IH]; cbn; [by rewrite str_app_nil_r|].
  by rewrite IH, str_app_assoc.
Qed.

Lemma str_rev_involutive s : str_rev (str_rev s) = s.
Proof. induction s as [|a s IH]; cbn; [done|]. by rewrite str_rev_app, IH. Qed.

Lemma str_rev_length s : String.length (str_rev s) = String.length s.
Proof. induction s as [|a s IH]; cbn; [done|]. rewrite str_app_length, IH; cbn. lia. Qed.

Definition ends_with (c : ascii) (s : string) : bool :=
  match str_rev s with String a _ => Ascii.eqb a c | EmptyString => false end.

Lemma drop_cr_id s : ends_with CR s = false → drop_cr s = s.
Proof. unfold ends_with, drop_cr. by destruct (str_rev s) as [|a t]; [|intros ->]. Qed.

Lemma ends_with_app c s a t : ends_with c (s +:+ String a t) = ends_with c (String a t).
Proof.
  unfold ends_with. rewrite str_rev_app. cbn.
  by destruct (str_rev t).
Qed.

Lemma ends_with_inv c s : ends_with c s = true → ∃ t, s = t +:+ String c "".
Proof.
  unfold ends_with. destruct (str_rev s) as [|a t] eqn:E; [done|].
  intros ->%Ascii.eqb_eq. exists (str_rev t).
  by rewrite <- (str_rev_involutive s), E.
Qed.

Definition line_fits (p : string) : Prop := (Z.of_nat (String.length p) < MaxScanTokenSize)%Z.

(** A text of terminated lines is scanned back into its lines. *)
Definition unlines (l : list string) : string :=
  fold_right (λ p s, p +:+ String LF s) "" l.

Lemma split_on_unlines l :
  Forall (λ p, no_char LF p = true) l → split_on LF (unlines l) = l ++ [""].
Proof.
  induction 1 as [|p l Hp _ IH]; [done|].
  change (unlines (p :: l)) with (p +:+ String LF (unlines l)).
  by rewrite split_on_app, IH.
Qed.

Lemma scan_lines_unlines l :
  Forall (λ p, no_char LF p = true) l → Forall line_fits l →
  scan_lines (unlines l) = (map drop_cr l, None).
Proof.
  intros Hlf Hfit. unfold scan_lines. rewrite split_on_unlines by done. clear Hlf.
  induction Hfit as [|p l Hp _ IH]; [done|]. unfold line_fits in Hp.
  cbn [app scan_pieces map].
  destruct (Z.leb_spec MaxScanTokenSize (Z.of_nat (String.length p))); [lia|].
  rewrite IH. by destruct p, l.
Qed.

Lemma drop_cr_no_char c p : no_char c p = true → no_char c (drop_cr p) = true.
Proof.
  intros Hp. unfold drop_cr. destruct (str_rev p) as [|a t]; [done|].
  destruct (Ascii.eqb a CR); [|done].
  rewrite <- (str_take_drop (String.length p - 1) p), no_char_app in Hp.
  by apply andb_true_iff in Hp as [? _].
Qed.

Lemma scan_pieces_cons p l :
  scan_pieces (p :: l) =
    if (MaxScanTokenSize <=? Z.of_nat (String.length p))%Z then ([], Some ErrTooLong)
    else if String.eqb p "" && bool_decide (l = []) then ([], None)
    else (drop_cr p :: (scan_pieces l).1, (scan_pieces l).2).
Proof.
  assert (∀ k, k ≠ [] ∨ p ≠ "" →
    scan_pieces (p :: k) =
      if (MaxScanTokenSize <=? Z.of_nat (String.length p))%Z then ([], Some ErrTooLong)
      else let '(ls, e) := scan_pieces k in (drop_cr p :: ls, e)) as Heq.
  { intros [|q k] [?|?]; destruct p; done. }
  destruct (String.eqb_spec p "") as [->|Hp], l as [|q l]; [done|..].
  all: rewrite Heq by auto; case_bool_decide; try done.
  all: by case_match; [|destruct (scan_pieces _)].
Qed.

Lemma scan_pieces_error l :
  match (scan_pieces l).2 with Some e => e = ErrTooLong | None => True end.
Proof.
  induction l as [|p l IH]; [done|]. rewrite scan_pieces_cons.
  destruct (MaxScanTokenSize <=? _)%Z; [done|]. by destruct (String.eqb p "" && _).
Qed.

(** No scanned line holds a line feed. *)
Lemma scan_lines_no_lf s : Forall (λ p, no_char LF p = true) (scan_lines s).1.
Proof.
  unfold scan_lines. induction (split_on_pieces LF s) as [|p l Hp _ IH]; [constructor|].
  rewrite scan_pieces_cons.
  destruct (MaxScanTokenSize <=? _)%Z; [constructor|].
  destruct (String.eqb p "" && _); [constructor|].
  constructor; [by apply drop_cr_no_char|done].
Qed.

(** ** Lemmas: trimming *)

Lemma trim_left_any_id fuel l s : starts_with_any l s = None → trim_left_any fuel l s = s.
Proof. intros H. destruct fuel; cbn; [done|]. by rewrite H. Qed.

(** No white space at either end. *)
Definition trimmed (s : string) : bool :=
  bool_decide (starts_with_any unicode_spaces s = None) &&
  bool_decide (starts_with_any (map str_rev unicode_spaces) (str_rev s) = None).

Lemma TrimSpace_id s : trimmed s = true → TrimSpace s = s.
Proof.
  unfold trimmed, TrimSpace. rewrite andb_true_iff, !bool_decide_eq_true.
  intros [Hl Hr]. rewrite (trim_left_any_id _ _ s) by done.
  rewrite trim_left_any_id by done. apply str_rev_involutive.
Qed.

(** ** Lemmas: paths *)

Lemma split_on_app_gen c s t : split_on c (s +:+ String c t) = split_on c s ++ split_on c t.
Proof.
  induction s as [|a s IH]; cbn.
  - by rewrite Ascii.eqb_refl.
  - destruct (Ascii.eqb a c); [by rewrite IH|]. rewrite IH.
    pose proof (split_on_nonempty c s). by destruct (split_on c s).
Qed.

Lemma split_on_join_gen c l :
  l ≠ [] → split_on c (join_with c l) = List.concat (map (split_on c) l).
Proof.
  induction l as [|p [|q l] IH]; intros H; [done|cbn; by rewrite app_nil_r|].
  change (join_with c (p :: q :: l)) with (p +:+ String c (join_with c (q :: l))).
  rewrite split_on_app_gen, IH by done. done.
Qed.

(** A path element that names a directory entry. *)
Definition plain (c : string) : bool :=
  no_char "/" c && negb (String.eqb c "" || String.eqb c "." || String.eqb c "..").

Lemma clean_step_push b st c :
  c ≠ "" → c ≠ "." → c ≠ ".." → clean_step b st c = c :: st.
Proof. unfold clean_step. rewrite <- !String.eqb_neq. by intros -> -> ->. Qed.

Lemma clean_step_plain b st c : plain c = true → clean_step b st c = c :: st.
Proof.
  intros [_ H]%andb_true_iff. apply negb_true_iff in H.
  rewrite !orb_false_iff, !String.eqb_neq in H.
  destruct H as [[? ?] ?]. by apply clean_step_push.
Qed.

Lemma split_on_plain c : plain c = true → split_on "/" c = [c].
Proof. intros [H _]%andb_true_iff. by apply split_on_no_char. Qed.

(** The stack of a cleaned path holds no empty element, no dot and no slash. *)
Definition kept (c : string) : Prop := c ≠ "" ∧ c ≠ "." ∧ no_char "/" c = true.

Lemma clean_step_kept b st c :
  no_char "/" c = true → Forall kept st → Forall kept (clean_step b st c).
Proof.
  intros Hc Hst. unfold clean_step.
  destruct (String.eqb_spec c ""); [done|]. destruct (String.eqb_spec c "."); [done|].
  assert (kept c) by done.
  destruct (String.eqb_spec c ".."); [|by constructor].
  destruct Hst as [|x st Hx Hst]; [destruct b; eauto using Forall|].
  destruct (String.eqb x ".."); eauto using Forall.
Qed.

Lemma clean_fold_kept b l st :
  Forall (λ c, no_char "/" c = true) l → Forall kept st →
  Forall kept (fold_left (clean_step b) l st).
Proof.
  intros Hl. revert st. induction Hl as [|c l Hc _ IH]; intros st Hst; [done|].
  cbn. apply IH. by apply clean_step_kept.
Qed.

(** Resolving a cleaned path is resolving the path. *)
Lemma clean_step_resolve b st c :
  Forall kept st →
  fold_left (clean_step true) (rev (clean_step b st c)) [] =
  clean_step true (fold_left (clean_step true) (rev st) []) c.
Proof.
  intros Hst. unfold clean_step at 2.
  destruct (String.eqb_spec c ""); [by subst|].
  destruct (String.eqb_spec c "."); [by subst|].
  destruct (String.eqb_spec c "..") as [->|Hc].
  - destruct Hst as [|x st Hx Hst]; [by destruct b|].
    destruct (String.eqb_spec x "..") as [->|Hx2].
    + cbn [rev]. by rewrite !fold_left_app.
    + cbn [rev]. rewrite fold_left_app. cbn [fold_left].
      destruct Hx as (Hx0 & Hx1 & _).
      rewrite (clean_step_push true _ x) by done. cbn.
      by rewrite (proj2 (String.eqb_neq _ _) Hx2).
  - cbn [rev]. by rewrite fold_left_app.
Qed.

Lemma resolve_clean_comps b l :
  Forall (λ c, no_char "/" c = true) l →
  clean_comps true (clean_comps b l) = clean_comps true l.
Proof.
  unfold clean_comps. intros Hl. f_equal.
  induction l as [|c l IH] using rev_ind; [done|].
  apply Forall_app in Hl as [Hl Hc%Forall_singleton].
  rewrite !fold_left_app; cbn [fold_left].
  rewrite clean_step_resolve by (apply clean_fold_kept; [done|constructor]).
  by rewrite IH.
Qed.

Lemma clean_comps_no_slash b l :
  Forall (λ c, no_char "/" c = true) l → Forall (λ c, no_char "/" c = true) (clean_comps b l).
Proof.
  intros Hl. apply Forall_rev.
  eapply Forall_impl; [apply clean_fold_kept; [done|constructor]|]. by intros x (?&?&?).
Qed.

Lemma resolve_Clean p : resolve (Clean p) = resolve p.
Proof.
  set (cs := clean_comps (is_rooted p) (split_on "/" p)).
  assert (Forall (λ c, no_char "/" c = true) cs) as Hcs.
  { apply clean_comps_no_slash, split_on_pieces. }
  assert (resolve p = clean_comps true cs) as ->.
  { unfold resolve, cs. symmetry. apply resolve_clean_comps, split_on_pieces. }
  assert (resolve (join_with "/" cs) = clean_comps true cs) as Hj.
  { unfold resolve. destruct cs as [|c cs']; [done|]. by rewrite split_on_join. }
  unfold Clean. fold cs. destruct (is_rooted p).
  - rewrite <- Hj. unfold resolve. cbn [split_on].
    by rewrite Ascii.eqb_refl.
  - by destruct cs as [|c cs'].
Qed.

(** [Join] names the elements of its arguments, one after the other. *)
Lemma resolve_Join l :
  resolve (Join l) = clean_comps true (List.concat (map (split_on "/") l)).
Proof.
  induction l as [|p l IH]; [done|].
  destruct p as [|a p]; [done|].
  change (Join (String a p :: l)) with (Clean (join_with "/" (String a p :: l))).
  rewrite resolve_Clean. unfold resolve. by rewrite split_on_join_gen.
Qed.

Lemma clean_comps_snoc b l c :
  plain c = true → clean_comps b (l ++ [c]) = clean_comps b l ++ [c].
Proof.
  intros Hc. unfold clean_comps. rewrite fold_left_app; cbn [fold_left].
  by rewrite clean_step_plain.
Qed.

(** A directory entry, named by [Join] or by hand. *)
Lemma resolve_Join_plain p c :
  plain c = true → resolve (Join [p; c]) = resolve p ++ [c].
Proof.
  intros Hc. rewrite resolve_Join. cbn [map List.concat].
  rewrite (split_on_plain _ Hc), app_nil_r. by apply clean_comps_snoc.
Qed.

Lemma resolve_slash_plain p c :
  plain c = true → resolve (p +:+ String "/" c) = resolve p ++ [c].
Proof.
  intros Hc. unfold resolve. rewrite split_on_app_gen, (split_on_plain _ Hc).
  by apply clean_comps_snoc.
Qed.

#[export] Hint Rewrite str_app_nil_r str_app_length str_forall_app str_take_app
  str_drop_app : ray.
