(* ===== verification/OS.v ===== *)
(** * The operating system the program runs on

    The part of Go's [os] package the program uses, over a file system that maps
    the elements of a path to a directory or a file's content.  Every system
    call consumes one tick of a clock and can fail: the state carries a schedule
    that says which calls fail, so that a theorem about every state is a theorem
    about every pattern of failures.  A write that fails may have written a
    prefix of its data.  File modes, links and open handles are not modelled: a
    permission problem is one of the failures of the schedule. *)
From S2P Require Import Prelude GoStrings.
From stdpp Require Import sorting.
From Stdlib Require DecimalString.

Inductive node :=
  | Dir
  | File (content : string).

Record fault := Fault {
  fault_msg : string;
  fault_written : nat; (** bytes of the data written before the failure *)
}.

Record OS := MkOS {
  fs : gmap (list string) node;
  env : gmap string string;
  clock : nat;
  faults : nat → option fault;
  random : nat → Decimal.uint; (** the number [os.CreateTemp] draws at a tick *)
}.

Definition set_fs (f : gmap (list string) node) (o : OS) : OS :=
  MkOS f (env o) (clock o) (faults o) (random o).

Definition tick (o : OS) : OS :=
  MkOS (fs o) (env o) (S (clock o)) (faults o) (random o).

Definition fail_os {A} (e : os_error) : M OS A := fail (EOS e).

Definition syscall {A} (m : M OS A) : M OS A := λ o,
  match faults o (clock o) with
  | Some f => (Err (EOS (EFault (fault_msg f))), tick o)
  | None => m (tick o)
  end.

(** [os.IsNotExist] looks through no [fmt.Errorf] wrapper. *)
Definition IsNotExist (e : error) : bool :=
  match e with EOS ENOENT => true | _ => false end.

(** ** Environment *)

Definition Getenv (k : string) : M OS string := gets (λ o, default "" (env o !! k)).

Definition TempDir : M OS string :=
  d ← Getenv "TMPDIR"; mret (if String.eqb d "" then "/tmp" else d).

(** ** Files *)

Definition parent (k : list string) : list string := removelast k.

(** A file can be created in an existing directory only. *)
Definition check_parent (k : list string) : M OS unit :=
  n ← gets (λ o, fs o !! parent k);
  match n with
  | Some Dir => mret tt
  | Some (File _) => fail_os ENOTDIR
  | None => fail_os ENOENT
  end.

Definition put_node (k : list string) (n : node) : M OS unit :=
  modify (λ o, set_fs (<[k := n]> (fs o)) o).

Definition Stat (p : string) : M OS unit :=
  syscall (n ← gets (λ o, fs o !! resolve p);
           match n with Some _ => mret tt | None => fail_os ENOENT end).

(** Opening a file and reading it to its end, in two calls. *)
Definition ReadFile (p : string) : M OS string :=
  syscall (n ← gets (λ o, fs o !! resolve p);
           match n with Some _ => mret tt | None => fail_os ENOENT end) ;;
  syscall (n ← gets (λ o, fs o !! resolve p);
           match n with
           | Some (File c) => mret c
           | Some Dir => fail_os EISDIR
           | None => fail_os ENOENT
           end).

(** [O_WRONLY|O_CREATE|O_TRUNC] *)
Definition open_trunc (k : list string) : M OS unit :=
  syscall (n ← gets (λ o, fs o !! k);
           match n with
           | Some Dir => fail_os EISDIR
           | Some (File _) => put_node k (File "")
           | None => check_parent k ;; put_node k (File "")
           end).

(** [O_CREATE|O_EXCL] *)
Definition open_excl (k : list string) : M OS unit :=
  syscall (n ← gets (λ o, fs o !! k);
           match n with
           | Some _ => fail_os EEXIST
           | None => check_parent k ;; put_node k (File "")
           end).

(** Appending to an open file. *)
Definition append_to (k : list string) (data : string) (o : OS) : OS :=
  match fs o !! k with
  | Some (File c) => set_fs (<[k := File (c +:+ data)]> (fs o)) o
  | _ => o
  end.

Definition write_to (k : list string) (data : string) : M OS unit := λ o,
  match faults o (clock o) with
  | Some f => (Err (EOS (EFault (fault_msg f))),
               append_to k (str_take (fault_written f) data) (tick o))
  | None => (Ok tt, append_to k data (tick o))
  end.

Definition WriteFile (p data : string) : M OS unit :=
  open_trunc (resolve p) ;; write_to (resolve p) data.

Definition Rename (old new : string) : M OS unit :=
  syscall (n ← gets (λ o, fs o !! resolve old);
           match n with
           | None => fail_os ENOENT
           | Some n =>
               t ← gets (λ o, fs o !! resolve new);
               match t with
               | Some Dir => fail_os EEXIST
               | _ => check_parent (resolve new) ;;
                      modify (λ o, set_fs (<[resolve new := n]> (delete (resolve old) (fs o))) o)
               end
           end).

Definition Remove (p : string) : M OS unit :=
  syscall (n ← gets (λ o, fs o !! resolve p);
           match n with
           | None => fail_os ENOENT
           | Some _ => modify (λ o, set_fs (delete (resolve p) (fs o)) o)
           end).

(** ** [os.CreateTemp]

    Names are drawn until one is free, at most ten thousand times. *)
Definition join_path (dir name : string) : string :=
  if ends_with "/" dir then dir +:+ name else dir +:+ String "/" name.

Definition uint_string (d : Decimal.uint) : string := DecimalString.NilEmpty.string_of_uint d.

Fixpoint create_temp (tries : nat) (prefix : string) : M OS string :=
  match tries with
  | O => fail_os EEXIST
  | S tries' =>
      n ← gets (λ o, random o (clock o));
      let name := prefix +:+ uint_string n in
      r ← attempt (open_excl (resolve name));
      match r with
      | inr _ => mret name
      | inl (EOS EEXIST) => create_temp tries' prefix
      | inl e => fail e
      end
  end.

Definition CreateTemp (dir pattern : string) : M OS string :=
  d ← (if String.eqb dir "" then TempDir else mret dir);
  create_temp (Z.to_nat 10000) (join_path d pattern).

(** ** Directories *)

Fixpoint mkdirs (above : list string) (k : list string) : M OS unit :=
  match k with
  | [] => mret tt
  | c :: k' =>
      let here := above ++ [c] in
      n ← gets (λ o, fs o !! here);
      match n with
      | Some Dir => mret tt
      | Some (File _) => fail_os ENOTDIR
      | None => syscall (put_node here Dir)
      end ;;
      mkdirs here k'
  end.

Definition MkdirAll (p : string) : M OS unit := mkdirs [] (resolve p).

(** The order in which [fs.WalkDir] visits the entries of a tree: a directory
    before its content, and the content in the order of the names. *)
Fixpoint walk_leb (k1 k2 : list string) : bool :=
  match k1, k2 with
  | [], _ => true
  | _, [] => false
  | c1 :: k1', c2 :: k2' =>
      match String.compare c1 c2 with
      | Lt => true
      | Gt => false
      | Eq => walk_leb k1' k2'
      end
  end.

Fixpoint strip (root k : list string) : option (list string) :=
  match root, k with
  | [], _ => Some k
  | c :: root', d :: k' => if String.eqb c d then strip root' k' else None
  | _ :: _, [] => None
  end.

Definition walk_le (e1 e2 : list string * node) : Prop := walk_leb e1.1 e2.1 = true.

#[export] Instance walk_le_dec : RelDecision walk_le.
Proof. intros e1 e2. unfold walk_le. apply _. Defined.

Definition tree (f : gmap (list string) node) (root : list string) : list (list string * node) :=
  merge_sort walk_le
    (omap (λ e, k ← strip root e.1; Some (k, e.2)) (map_to_list f)).

(** One step of [os.CopyFS]. *)
Definition copy_entry (dst : list string) (e : list string * node) : M OS unit :=
  match e.2 with
  | Dir => mkdirs [] (dst ++ e.1)
  | File c =>
      syscall (mret tt) ;; (* opening the source *)
      open_excl (dst ++ e.1) ;;
      write_to (dst ++ e.1) c
  end.

(** [os.CopyFS(dst, os.DirFS(src))], for a destination outside the source. *)
Definition CopyFS (dst src : string) : M OS unit :=
  root ← syscall (gets (λ o, fs o !! resolve src));
  match root with
  | None => fail_os ENOENT
  | Some (File _) => fail_os ENOTDIR
  | Some Dir =>
      entries ← gets (λ o, tree (fs o) (resolve src));
      for_each entries (copy_entry (resolve dst))
  end.

(** ** Ranging over a map

    Go visits the entries of a map in an unspecified order, which may differ
    from one loop to the next: an order is chosen at each tick. *)
Class MapRange := {
  range : nat → gmap string string → list (string * string);
  range_perm : ∀ n m, range n m ≡ₚ map_to_list m;
}.

Definition range_entries `{MapRange} (m : gmap string string) : M OS (list (string * string)) :=
  gets (λ o, range (clock o) m).

(** An order of ranging, and a machine whose calls do not fail: for the examples. *)
Definition canonical_range : MapRange :=
  {| range := λ _ m, map_to_list m; range_perm := λ _ _, Permutation_refl _ |}.

Definition boot (f : gmap (list string) node) (e : gmap string string) : OS :=
  MkOS f e 0 (λ _, None) (λ _, Decimal.D7 Decimal.Nil).

(** ** Frames

    [within P m]: whatever its outcome, [m] changes the file system at paths
    that satisfy [P] only, and neither the environment nor the schedules. *)
Definition within {A} (P : list string → Prop) (m : M OS A) : Prop :=
  ∀ o, let o' := (m o).2 in
    env o' = env o ∧ faults o' = faults o ∧ random o' = random o ∧
    ∀ k, ¬ P k → fs o' !! k = fs o !! k.

Create HintDb frames.

Section frames.
Context (P : list string → Prop).

Lemma within_ret {A} (a : A) : within P (mret a).
Proof. by intros o. Qed.

Lemma within_fail {A} e : within P (@fail OS A e).
Proof. by intros o. Qed.

Lemma within_gets {A} (f : OS → A) : within P (gets f).
Proof. by intros o. Qed.

Lemma within_bind {A B} (m : M OS A) (f : A → M OS B) :
  within P m → (∀ a, within P (f a)) → within P (m ≫= f).
Proof.
  intros Hm Hf o. unfold mbind, M_bind. specialize (Hm o).
  destruct (m o) as [[a|e|w] o']; cbn in *; [|done..].
  destruct Hm as (He & Hfl & Hs & Hk), (Hf a o') as (He' & Hfl' & Hs' & Hk').
  split_and!; [congruence..|]. intros k HP. by rewrite Hk', Hk.
Qed.

Lemma within_attempt {A} (m : M OS A) : within P m → within P (attempt m).
Proof. intros Hm o. specialize (Hm o). unfold attempt. by destruct (m o) as [[]]. Qed.

Lemma within_wrapping {A} f args (m : M OS A) : within P m → within P (wrapping f args m).
Proof. intros Hm o. specialize (Hm o). unfold wrapping. by destruct (m o) as [[]]. Qed.

Lemma within_syscall {A} (m : M OS A) : within P m → within P (syscall m).
Proof.
  intros Hm o. unfold syscall. destruct (faults o (clock o)); [done|].
  apply (Hm (tick o)).
Qed.

Lemma within_for_each {A} (l : list A) (f : A → M OS unit) :
  (∀ x, x ∈ l → within P (f x)) → within P (for_each l f).
Proof.
  induction l as [|x l IH]; intros Hf; cbn; [apply within_ret|].
  apply within_bind; [apply Hf; set_solver|]. intros _. apply IH.
  intros y Hy. apply Hf. set_solver.
Qed.

Lemma within_put k n : P k → within P (put_node k n).
Proof. intros Hk o. split_and!; [done..|]. intros k' ?. cbn. rewrite lookup_insert_ne; congruence. Qed.

Lemma within_check_parent k : within P (check_parent k).
Proof.
  apply within_bind; [apply within_gets|].
  intros [[]|]; [apply within_ret|apply within_fail..].
Qed.

Lemma within_write k data : P k → within P (write_to k data).
Proof.
  intros Hk o. unfold write_to, append_to.
  destruct (faults o (clock o)); cbn; destruct (fs o !! k) as [[]|]; cbn;
    split_and!; try done; intros k' ?; rewrite lookup_insert_ne; congruence.
Qed.
End frames.

#[export] Hint Resolve within_ret within_fail within_gets within_put within_check_parent
  within_write : frames.

Ltac frame :=
  repeat first
    [ progress intros
    | solve [eauto 2 with frames]
    | apply within_bind | apply within_attempt | apply within_wrapping | apply within_syscall
    | case_match ].

Section operation_frames.
Context (P : list string → Prop).

Lemma within_Getenv k : within P (Getenv k).
Proof. apply within_gets. Qed.

Lemma within_TempDir : within P TempDir.
Proof. unfold TempDir. apply within_bind; [apply within_Getenv|]. frame. Qed.

Lemma within_Stat p : within P (Stat p).
Proof. unfold Stat. frame. Qed.

Lemma within_ReadFile p : within P (ReadFile p).
Proof. unfold ReadFile, fail_os. frame. Qed.

Lemma within_open_trunc k : P k → within P (open_trunc k).
Proof. unfold open_trunc, fail_os. frame. Qed.

Lemma within_open_excl k : P k → within P (open_excl k).
Proof. unfold open_excl, fail_os. frame. Qed.

Lemma within_WriteFile p data : P (resolve p) → within P (WriteFile p data).
Proof.
  intros. apply within_bind; [by apply within_open_trunc|]. intros _. by apply within_write.
Qed.

Lemma within_Remove p : P (resolve p) → within P (Remove p).
Proof.
  intros Hp. unfold Remove, fail_os. frame.
  intros o. split_and!; [done..|]. intros k ?. cbn. rewrite lookup_delete_ne; congruence.
Qed.

Lemma within_Rename old new : P (resolve old) → P (resolve new) → within P (Rename old new).
Proof.
  intros Ho Hn. unfold Rename, fail_os.
  assert (∀ n, within P (modify (λ o, set_fs (<[resolve new := n]> (delete (resolve old) (fs o))) o))).
  { intros n o. split_and!; [done..|]. intros k ?. cbn.
    rewrite lookup_insert_ne, lookup_delete_ne; congruence. }
  frame.
Qed.

Lemma within_mkdirs above k :
  (∀ j, 0 < j ≤ length k → P (above ++ take j k)) → within P (mkdirs above k).
Proof.
  revert above. induction k as [|c k IH]; intros above HP; cbn; [apply within_ret|].
  assert (P (above ++ [c])) by (apply (HP 1); cbn; lia).
  unfold fail_os. apply within_bind; [frame|]. intros n.
  apply within_bind; [frame|]. intros _. apply IH. intros j Hj.
  rewrite <- app_assoc. apply (HP (S j)). cbn. lia.
Qed.

Lemma within_create_temp tries prefix :
  (∀ d, P (resolve (prefix +:+ uint_string d))) → within P (create_temp tries prefix).
Proof.
  intros HP. induction tries as [|tries IH]; cbn; [apply within_fail|].
  apply within_bind; [apply within_gets|]. intros n.
  apply within_bind; [apply within_attempt, within_open_excl, HP|].
  intros [[|[]| | |]|]; try apply within_fail; [done|apply within_ret].
Qed.
End operation_frames.

#[export] Hint Resolve within_Getenv within_TempDir within_Stat within_ReadFile
  within_open_trunc within_open_excl within_WriteFile within_Remove within_Rename : frames.

(** ** No operating-system call panics *)

Lemma safe_syscall {A} (m : M OS A) : safe m → safe (syscall m).
Proof.
  intros Hm o. unfold syscall. destruct (faults o (clock o)); [done|]. apply (Hm (tick o)).
Qed.
#[export] Hint Resolve safe_syscall : safe.

Lemma safe_check_parent k : safe (check_parent k).
Proof. unfold check_parent, fail_os. no_panic. Qed.

Lemma safe_put_node k n : safe (put_node k n).
Proof. unfold put_node. no_panic. Qed.

Lemma safe_write_to k d : safe (write_to k d).
Proof. intros o. unfold write_to. by destruct (faults o (clock o)). Qed.
#[export] Hint Resolve safe_check_parent safe_put_node safe_write_to : safe.

Ltac os_safe := repeat (no_panic; try apply safe_syscall).

Lemma safe_Getenv k : safe (Getenv k).
Proof. apply safe_gets. Qed.
#[export] Hint Resolve safe_Getenv : safe.

Lemma safe_TempDir : safe TempDir.
Proof. unfold TempDir. no_panic. Qed.

Lemma safe_Stat p : safe (Stat p).
Proof. unfold Stat, fail_os. os_safe. Qed.

Lemma safe_ReadFile p : safe (ReadFile p).
Proof. unfold ReadFile, fail_os. os_safe. Qed.

Lemma safe_open_trunc k : safe (open_trunc k).
Proof. unfold open_trunc, fail_os. os_safe. Qed.

Lemma safe_open_excl k : safe (open_excl k).
Proof. unfold open_excl, fail_os. os_safe. Qed.

Lemma safe_Remove p : safe (Remove p).
Proof. unfold Remove, fail_os. os_safe. Qed.

Lemma safe_Rename old new : safe (Rename old new).
Proof. unfold Rename, fail_os. os_safe. Qed.
#[export] Hint Resolve safe_TempDir safe_Stat safe_ReadFile safe_open_trunc safe_open_excl
  safe_Remove safe_Rename : safe.

Lemma safe_WriteFile p d : safe (WriteFile p d).
Proof. unfold WriteFile. no_panic. Qed.

Lemma safe_create_temp tries prefix : safe (create_temp tries prefix).
Proof. induction tries as [|n IH]; cbn; unfold fail_os; no_panic. Qed.

Lemma safe_mkdirs above k : safe (mkdirs above k).
Proof. revert above. induction k as [|c k IH]; intros above; cbn; unfold fail_os; os_safe. Qed.
#[export] Hint Resolve safe_WriteFile safe_create_temp safe_mkdirs : safe.

Lemma safe_copy_entry dst e : safe (copy_entry dst e).
Proof. unfold copy_entry. os_safe. Qed.
#[export] Hint Resolve safe_copy_entry : safe.

Lemma safe_CopyFS dst src : safe (CopyFS dst src).
Proof. unfold CopyFS, fail_os. os_safe. Qed.

Lemma safe_CreateTemp dir pat : safe (CreateTemp dir pat).
Proof. unfold CreateTemp. no_panic. Qed.

Lemma safe_MkdirAll p : safe (MkdirAll p).
Proof. unfold MkdirAll. no_panic. Qed.
#[export] Hint Resolve safe_CopyFS safe_CreateTemp safe_MkdirAll : safe.

(** ** What the calls do to the file system *)

(** A call that changes no path leaves the file system as it is. *)
Lemma within_none_fs {A} (m : M OS A) o : within (λ _, False) m → fs (m o).2 = fs o.
Proof. intros Hm. destruct (Hm o) as (_ & _ & _ & Hk). apply map_eq. auto. Qed.

Lemma within_env {A} P (m : M OS A) o : within P m → env (m o).2 = env o.
Proof. intros Hm. by destruct (Hm o). Qed.

Lemma ReadFile_Ok p o c o' : ReadFile p o = (Ok c, o') → fs o !! resolve p = Some (File c).
Proof.
  unfold ReadFile, syscall, fail_os. run.
  destruct (faults o (clock o)); [done|]. cbn.
  destruct (fs o !! resolve p) as [[|c']|] eqn:E; cbn; [..|done];
    destruct (faults o _); cbn; rewrite ?E; congruence.
Qed.

Lemma ReadFile_ENOENT p o e o' :
  ReadFile p o = (Err e, o') → IsNotExist e = true → fs o !! resolve p = None.
Proof.
  unfold ReadFile, syscall, fail_os. run.
  destruct (faults o (clock o)); [by intros [= <- _]|]. cbn.
  destruct (fs o !! resolve p) as [[|c']|] eqn:E; cbn; [..|done];
    destruct (faults o _); cbn; rewrite ?E; by intros [= <- _].
Qed.

Lemma open_excl_Ok k o o' :
  open_excl k o = (Ok tt, o') → fs o !! k = None ∧ fs o' = <[k := File ""]> (fs o).
Proof.
  unfold open_excl, syscall, check_parent, put_node, fail_os. run.
  destruct (faults o (clock o)); [done|]. cbn.
  destruct (fs o !! k); [done|]. cbn.
  destruct (fs o !! parent k) as [[]|]; cbn; intros; by simplify_eq.
Qed.

Lemma open_excl_Err k o e o' : open_excl k o = (Err e, o') → fs o' = fs o.
Proof.
  unfold open_excl, syscall, check_parent, put_node, fail_os. run.
  destruct (faults o (clock o)); [by intros; simplify_eq|]. cbn.
  destruct (fs o !! k); [by intros; simplify_eq|]. cbn.
  destruct (fs o !! parent k) as [[]|]; cbn; intros; by simplify_eq.
Qed.

Lemma create_temp_Ok tries prefix o name o' :
  create_temp tries prefix o = (Ok name, o') →
  (∃ d, name = prefix +:+ uint_string d) ∧
  fs o !! resolve name = None ∧ fs o' = <[resolve name := File ""]> (fs o).
Proof.
  revert o. induction tries as [|tries IH]; intros o; cbn [create_temp]; [done|]. run.
  set (n := prefix +:+ uint_string _).
  destruct (open_excl (resolve n) o) as [[[]|e|w] o1] eqn:E; cbn; [| |done].
  - intros; simplify_eq. apply open_excl_Ok in E. eauto.
  - apply open_excl_Err in E. destruct e as [|[]| | |]; try done.
    intros H. apply IH in H. by rewrite E in H.
Qed.

Lemma create_temp_Err tries prefix o e o' :
  create_temp tries prefix o = (Err e, o') → fs o' = fs o.
Proof.
  revert o. induction tries as [|tries IH]; intros o; cbn [create_temp]; [by intros [= _ <-]|].
  run. set (n := prefix +:+ uint_string _).
  destruct (open_excl (resolve n) o) as [[[]|e'|w] o1] eqn:E; cbn; [done| |done].
  apply open_excl_Err in E.
  destruct e' as [|[]| | |]; try (by intros; simplify_eq).
  intros H. apply IH in H. congruence.
Qed.

Lemma write_to_Ok k data c o o' :
  fs o !! k = Some (File c) → write_to k data o = (Ok tt, o') →
  fs o' = <[k := File (c +:+ data)]> (fs o).
Proof.
  unfold write_to, append_to. destruct (faults o (clock o)); [done|]. cbn.
  intros ->. cbn. by intros; simplify_eq.
Qed.

Lemma WriteFile_Ok p data o c u o' :
  fs o !! resolve p = Some (File c) → WriteFile p data o = (Ok u, o') →
  fs o' = <[resolve p := File data]> (fs o).
Proof.
  intros Hc. unfold WriteFile, open_trunc, syscall, put_node, fail_os. run.
  destruct (faults o (clock o)); [done|]. cbn. rewrite Hc. cbn. destruct u.
  intros Hw. apply (write_to_Ok _ _ "") in Hw; cbn in *; [|by rewrite lookup_insert_eq].
  by rewrite Hw, insert_insert_eq.
Qed.

(** A renaming happens or fails without effect. *)
Lemma Rename_Ok old new o o' :
  Rename old new o = (Ok tt, o') →
  ∃ n, fs o !! resolve old = Some n ∧
       fs o' = <[resolve new := n]> (delete (resolve old) (fs o)).
Proof.
  unfold Rename, syscall, check_parent, fail_os. run.
  destruct (faults o (clock o)); [done|]. cbn.
  destruct (fs o !! resolve old) as [n|]; [|done]. cbn.
  destruct (fs o !! resolve new) as [[]|]; cbn; [done|..];
    destruct (fs o !! parent (resolve new)) as [[]|]; cbn; intros; simplify_eq; eauto.
Qed.

Lemma Rename_Err old new o e o' : Rename old new o = (Err e, o') → fs o' = fs o.
Proof.
  unfold Rename, syscall, check_parent, fail_os. run.
  destruct (faults o (clock o)); [by intros; simplify_eq|]. cbn.
  destruct (fs o !! resolve old) as [n|]; [|by intros; simplify_eq]. cbn.
  destruct (fs o !! resolve new) as [[]|]; cbn; try (by intros; simplify_eq);
    destruct (fs o !! parent (resolve new)) as [[]|]; cbn; intros; by simplify_eq.
Qed.

(** The digits of a random name hold no slash. *)
Lemma uint_string_no_slash d : no_char "/" (uint_string d) = true.
Proof. unfold uint_string. induction d; cbn; by rewrite ?IHd. Qed.

(** On a machine whose calls do not fail a file that exists is read. *)
Lemma ReadFile_runs p o c :
  (∀ n, faults o n = None) → fs o !! resolve p = Some (File c) →
  ReadFile p o = (Ok c, tick (tick o)).
Proof.
  intros Hf. unfold ReadFile. generalize (resolve p). intros k Hc.
  unfold syscall, mbind, M_bind, gets, mret, M_ret.
  rewrite Hf. cbn. rewrite Hc. cbn. rewrite Hf. by rewrite Hc.
Qed.
