(* ===== verification/API.v ===== *)
(** * The Ray custom resource and the constants of the module

    [api/v1alpha1/ray_types.go] and [internal/constants/constants.go]: the data
    of the custom resource, its accessors, and the two rules the API server
    evaluates before it stores an object.  Of the metadata and status types of
    the platform, the fields the program touches. *)
From S2P Require Import Prelude GoStrings.

(** ** Constants *)

Definition InstanceName := "default-ray".
Definition FieldOwner := "ray".
Definition ComponentName := "ray".
Definition ManifestsBasePath := "/opt/manifests".
Definition ManifestPath := "kuberay".
Definition ManifestOverlay := "openshift".
Definition ConditionDeploymentsAvailable := "DeploymentsAvailable".
Definition ConditionDegraded := "Degraded".
Definition ExtKeyRemoved := "ray.removed".
Definition FinalizerName := "platform.opendatahub.io/finalizer".
Definition PlatformConfigMapName := "odh-ray-config".
Definition PlatformNameKey := "distribution.name".
Definition PlatformVersionKey := "distribution.version".
Definition PlatformHandshakeKey := "platformVersion".
Definition StandaloneDistributionName := "Standalone".
Definition StandaloneDistributionVersion := "0.0.0".
Definition KubeRayReleaseName := "KubeRay".
Definition KubeRayRepoURL := "https://github.com/opendatahub-io/kuberay".
Definition KubeRayImageParam := "odh-kuberay-operator-controller-image".
Definition MaxReleaseVersionLength : Z := 64.
Definition RayInstanceName := "default-ray".

(** ** Object metadata *)

Record OwnerReference := {
  ref_Kind : string;
  ref_Name : string;
  ref_UID : string;
}.

Record ObjectMeta := {
  Name : string;
  Namespace : string;
  UID : string;
  Labels : option (gmap string string); (** [None]: a nil map *)
  OwnerReferences : list OwnerReference;
  Finalizers : list string;
  Generation : Z;
  DeletionTimestamp : option Z;
}.

#[export] Instance OwnerReference_eq_dec : EqDecision OwnerReference.
Proof. solve_decision. Defined.
#[export] Instance ObjectMeta_eq_dec : EqDecision ObjectMeta.
Proof. solve_decision. Defined.

(** Reading a key of a map that may be nil. *)
Definition map_get (k : string) (m : option (gmap string string)) : string :=
  default "" (m ≫= (.!! k)).

(** [metav1.ObjectMeta] of an object just built with a name. *)
Definition meta_named (n : string) : ObjectMeta :=
  Build_ObjectMeta n "" "" None [] [] 0 None.

Definition set_OwnerReferences (r : list OwnerReference) (m : ObjectMeta) : ObjectMeta :=
  Build_ObjectMeta (Name m) (Namespace m) (UID m) (Labels m) r
    (Finalizers m) (Generation m) (DeletionTimestamp m).

Definition set_Labels (l : option (gmap string string)) (m : ObjectMeta) : ObjectMeta :=
  Build_ObjectMeta (Name m) (Namespace m) (UID m) l (OwnerReferences m)
    (Finalizers m) (Generation m) (DeletionTimestamp m).

Definition set_Finalizers (f : list string) (m : ObjectMeta) : ObjectMeta :=
  Build_ObjectMeta (Name m) (Namespace m) (UID m) (Labels m) (OwnerReferences m)
    f (Generation m) (DeletionTimestamp m).

(** ** The custom resource *)

(** The values [common.ManagementState] may take are strings; the CRD admits
    these two. *)
Definition Managed := "Managed".
Definition Removed := "Removed".

Record RaySpec := {
  ManagementState : string;
  ApplicationsNamespace : string;
}.

Record Distribution := {
  dist_Name : string;
  dist_Version : string;
}.

#[export] Instance Distribution_eq_dec : EqDecision Distribution.
Proof. solve_decision. Defined.

Record Condition := {
  cond_Type : string;
  cond_Status : string;
  cond_Reason : string;
  cond_Message : string;
  cond_ObservedGeneration : Z;
}.

(** [fwapi.Status] *)
Record Status := {
  Phase : string;
  ObservedGeneration : Z;
  Conditions : list Condition;
}.

Record ComponentRelease := {
  rel_Name : string;
  rel_Version : string;
  rel_RepoURL : string;
}.

(** [fwapi.ComponentReleaseStatus]: the list of releases. *)
Definition ComponentReleaseStatus := list ComponentRelease.

Record RayStatus := {
  ray_Status : Status;
  ray_Releases : ComponentReleaseStatus;
  ray_Distribution : Distribution;
}.

Record Ray := {
  ray_meta : ObjectMeta;
  ray_spec : RaySpec;
  ray_status : RayStatus;
}.

(** ** Accessors *)

Definition GetStatus (r : Ray) : Status := ray_Status (ray_status r).

Definition SetStatus (s : Status) (r : Ray) : Ray :=
  Build_Ray (ray_meta r) (ray_spec r)
    (Build_RayStatus s (ray_Releases (ray_status r)) (ray_Distribution (ray_status r))).

Definition GetConditions (r : Ray) : list Condition := Conditions (GetStatus r).

Definition SetConditions (c : list Condition) (r : Ray) : Ray :=
  SetStatus (Build_Status (Phase (GetStatus r)) (ObservedGeneration (GetStatus r)) c) r.

Definition SetObservedGeneration (g : Z) (s : Status) : Status :=
  Build_Status (Phase s) g (Conditions s).

Definition GetReleaseStatus (r : Ray) : ComponentReleaseStatus := ray_Releases (ray_status r).

Definition SetReleaseStatus (s : ComponentReleaseStatus) (r : Ray) : Ray :=
  Build_Ray (ray_meta r) (ray_spec r)
    (Build_RayStatus (ray_Status (ray_status r)) s (ray_Distribution (ray_status r))).

Definition SetDistribution (d : Distribution) (r : Ray) : Ray :=
  Build_Ray (ray_meta r) (ray_spec r)
    (Build_RayStatus (ray_Status (ray_status r)) (ray_Releases (ray_status r)) d).

Definition set_ray_meta (m : ObjectMeta) (r : Ray) : Ray :=
  Build_Ray m (ray_spec r) (ray_status r).

(** ** Admission

    The two validation rules of the CRD, in the common expression language of
    Kubernetes, over the object as it is stored: its [spec] and the fields of
    its [spec] may be absent.  An expression has a boolean value or is an error
    (reading a field that is absent); a disjunction with a true disjunct is true
    even if the other is an error; an object whose rule is not true is refused. *)
Module Admission.
Record stored := {
  st_name : string;
  st_spec : option (option string); (** the spec, and its applicationsNamespace *)
}.

Definition cel := option bool.

Definition cel_or (a b : cel) : cel :=
  match a, b with
  | Some true, _ | _, Some true => Some true
  | Some false, Some false => Some false
  | _, _ => None
  end.

Definition cel_not (a : cel) : cel := negb <$> a.

(** [has(self.spec.applicationsNamespace)] *)
Definition has_ns (o : stored) : cel :=
  ns ← st_spec o; Some (bool_decide (is_Some ns)).

(** [self.spec.applicationsNamespace] *)
Definition sel_ns (o : stored) : option string := ns ← st_spec o; ns.

Definition cel_eq (a b : option string) : cel :=
  x ← a; y ← b; Some (String.eqb x y).

(** [self.metadata.name == 'default-ray'] *)
Definition name_rule (self : stored) : cel := Some (String.eqb (st_name self) "default-ray").

(** [!has(oldSelf.spec.applicationsNamespace) ||
     oldSelf.spec.applicationsNamespace == '' ||
     self.spec.applicationsNamespace == oldSelf.spec.applicationsNamespace] *)
Definition immutable_rule (self oldSelf : stored) : cel :=
  cel_or (cel_or (cel_not (has_ns oldSelf)) (cel_eq (sel_ns oldSelf) (Some "")))
         (cel_eq (sel_ns self) (sel_ns oldSelf)).

Definition admits (r : cel) : bool := bool_decide (r = Some true).

(** A transition rule, one that reads [oldSelf], is evaluated on updates. *)
Inductive step : option stored → option stored → Prop :=
  | step_create o : admits (name_rule o) = true → step None (Some o)
  | step_update o o' :
      admits (name_rule o') = true → admits (immutable_rule o' o) = true →
      step (Some o) (Some o')
  | step_delete o : step (Some o) None.

(** The objects stored one after the other without a deletion between them. *)
Inductive updates : stored → stored → Prop :=
  | updates_refl o : updates o o
  | updates_step o o' o'' :
      step (Some o) (Some o') → updates o' o'' → updates o o''.

(** The Go object of a stored one: an absent field is the empty string. *)
Definition namespace (o : stored) : string := default "" (sel_ns o).
End Admission.

(** * Properties *)

(** ** The rules *)

Module AdmissionFacts.
Import Admission.

Lemma admits_true (r : cel) : admits r = true ↔ r = Some true.
Proof. unfold admits. by rewrite bool_decide_eq_true. Qed.

Lemma name_rule_iff o : admits (name_rule o) = true ↔ st_name o = RayInstanceName.
Proof.
  rewrite admits_true. unfold name_rule. destruct (String.eqb_spec (st_name o) "default-ray") as [E|E].
  - by rewrite E.
  - split; [done|]. intros H. by destruct E.
Qed.

(** When an update passes the immutability rule: the old object has a spec
    whose namespace is absent or empty, or both have the same. *)
Lemma immutable_rule_iff o' o :
  admits (immutable_rule o' o) = true ↔
  st_spec o = Some None ∨ st_spec o = Some (Some "") ∨
  ∃ ns, st_spec o = Some (Some ns) ∧ st_spec o' = Some (Some ns).
Proof.
  rewrite admits_true. unfold immutable_rule, has_ns, sel_ns, cel_eq.
  destruct (st_spec o) as [[ns|]|]; cbn.
  - destruct (String.eqb_spec ns "") as [->|Hne]; cbn; [naive_solver|].
    destruct (st_spec o') as [[ns'|]|]; cbn; [|naive_solver..].
    destruct (String.eqb_spec ns' ns) as [->|Hne']; naive_solver.
  - split; [by left|done].
  - destruct (st_spec o') as [[ns'|]|]; naive_solver.
Qed.
End AdmissionFacts.

Import Admission AdmissionFacts.

(** The name of the singleton is enforced along every history: whatever
    sequence of creations, updates and deletions starting from an empty store,
    the object stored is named [default-ray]. *)
Lemma stored_name_invariant s :
  rtc step None s → ∀ o, s = Some o → st_name o = RayInstanceName.
Proof.
  revert s.
  refine (rtc_ind_r (λ s, ∀ o, s = Some o → st_name o = RayInstanceName) None _ _); [done|].
  intros s1 s2 _ Hs _ o ->. by inversion Hs; subst; apply name_rule_iff.
Qed.

Lemma namespace_kept o o' : namespace o ≠ "" → updates o o' → namespace o' = namespace o.
Proof.
  intros Hne Hu. induction Hu as [o|o o1 o2 Hs _ IH]; [done|].
  inversion Hs as [|? ? _ Hi|]; subst.
  apply immutable_rule_iff in Hi as [Hi|[Hi|(ns & Hi & Hi')]];
    unfold namespace, sel_ns in *; rewrite Hi in Hne; cbn in Hne; [done..|].
  rewrite Hi' in IH. rewrite Hi. cbn in *. by apply IH.
Qed.

(** C40: the applications namespace is immutable once set: along every history of
    accepted updates from an object whose namespace is not empty, the namespace
    the program reads stays the same. *)
Theorem namespace_immutable o o' : namespace o ≠ "" → updates o o' → namespace o' = namespace o.
Proof. apply namespace_kept. Qed.

Lemma namespace_immutable_witness :
  namespace (Build_stored "default-ray" (Some (Some "ns"))) = "ns".
Proof.
  apply (namespace_immutable (Build_stored "default-ray" (Some (Some "ns")))
           (Build_stored "default-ray" (Some (Some "ns")))); [done|].
  eapply updates_step; [|apply updates_refl]. by constructor.
Defined.

(** An object stored without a [spec] can never be updated: the immutability
    rule reads a field of the absent [spec], which is an error, so whatever the
    new object every update is refused and only a deletion is possible; although
    both the Go type and the rule's first disjunct treat the field as optional. *)
Theorem no_spec_refuses_updates name s' :
  step (Some (Build_stored name None)) s' → s' = None.
Proof.
  inversion 1 as [|? ? _ Hi|]; subst; [|done].
  by apply immutable_rule_iff in Hi as [Hi|[Hi|(? & Hi & _)]].
Qed.

Lemma no_spec_refuses_updates_witness :
  step None (Some (Build_stored "default-ray" None)) ∧ @None stored = None.
Proof.
  split; [by constructor|]. apply (no_spec_refuses_updates "default-ray"). constructor.
Defined.
