(* ===== verification/DeepCopy.v ===== *)
(** * Deep copies: [api/v1alpha1/zz_generated.deepcopy.go]

    The generated copies of the API types, on a memory of cells.  A Go struct is
    a value that may hold references to cells (pointers, slices, maps): copying
    it by assignment shares them.  The metadata and status types of the platform
    come with copies of their own, which are parameters: [Copier] is what the
    generated code calls of them, [CopierLaws] what a deep copy promises.  The
    generated copies are shown to keep the same promise. *)
From S2P Require Import Prelude GoStrings API.

(** ** Memory *)

Abbreviation loc := positive.
Abbreviation heap C := (gmap loc C).

Section memory.
Context {C : Type}.

(** [new(T)] and [make]: a cell that was not in use. *)
Definition new (c : C) : M (heap C) loc := λ h,
  let l := fresh (dom h) in (Ok l, <[l := c]> h).

Definition load {X} (unbox : C → option X) (l : loc) : M (heap C) X := λ h,
  match h !! l ≫= unbox with
  | Some x => (Ok x, h)
  | None => (Panic "invalid memory address", h)
  end.

Definition store (l : loc) (c : C) : M (heap C) unit := modify (<[l := c]>).
End memory.

(** ** What a deep copy is

    [DeepCopyInto x] is what [x.DeepCopyInto(out)] leaves in [*out].  The
    content of a value is what can be observed of it through a memory, its
    footprint the cells it reaches, and it is valid when it reaches no cell
    that does not exist. *)
Class Copier (C X : Type) := {
  zero : X;
  DeepCopyInto : X → M (heap C) X;
  content_type : Type;
  content : heap C → X → content_type;
  footprint : heap C → X → gset loc;
  valid : heap C → X → Prop;
}.

(** What a copy of [x] from [h] must be: the memory that was there is as it was,
    and the copy has the same content in cells that are all new. *)
Definition copied {C X} `{Copier C X} (h : heap C) (x x' : X) (h' : heap C) : Prop :=
  h ⊆ h' ∧ valid h' x' ∧ content h' x' = content h x ∧ footprint h' x' ## dom h.

Class CopierLaws (C X : Type) `{Copier C X} : Prop := {
  footprint_dom h x : valid h x → footprint h x ⊆ dom h;
  frame_law h h' x : valid h x → (∀ l, l ∈ footprint h x → h' !! l = h !! l) →
    valid h' x ∧ content h' x = content h x ∧ footprint h' x = footprint h x;
  copy_law h x : valid h x → ∃ x' h', DeepCopyInto x h = (Ok x', h') ∧ copied h x x' h';
}.

(** ** The types *)

Record TypeMeta := { Kind : string; APIVersion : string }.

(** A slice: an array, and the part of it the slice stands for. *)
Record Slice := { sl_array : loc; sl_offset : nat; sl_len : nat }.

Section generated.
Context {OM LM ST RL LibCell : Type}.

(** [RayStatus]: the status and the releases of the platform, and the distribution. *)
Record RayStatusStruct := { rs_Status : ST; rs_Releases : RL; rs_Distribution : Distribution }.

Record RayStruct := {
  rv_TypeMeta : TypeMeta;
  rv_ObjectMeta : OM;
  rv_Spec : RaySpec;
  rv_Status : RayStatusStruct;
}.

Record RayListStruct := { rl_TypeMeta : TypeMeta; rl_ListMeta : LM; rl_Items : option Slice }.

Inductive cell :=
  | CDistribution (d : Distribution)
  | CRaySpec (s : RaySpec)
  | CRayStatus (s : RayStatusStruct)
  | CRay (r : RayStruct)
  | CRayList (l : RayListStruct)
  | CItems (l : list RayStruct)
  | CLib (c : LibCell).

Abbreviation memory := (heap cell).

Context {CO : Copier cell OM} {CL : Copier cell LM} {CS : Copier cell ST} {CR : Copier cell RL}.

(** ** The generated code

    Each begins with [*out = *in] and then overwrites fields of [out]. *)
Definition Distribution_DeepCopyInto (in_ : Distribution) : M memory Distribution := mret in_.

Definition RaySpec_DeepCopyInto (in_ : RaySpec) : M memory RaySpec :=
  let out := in_ in
  mret (Build_RaySpec (ManagementState in_) (ApplicationsNamespace out)).

Definition RayStatus_DeepCopyInto (in_ : RayStatusStruct) : M memory RayStatusStruct :=
  let out := in_ in
  st ← DeepCopyInto (rs_Status in_);
  let out := Build_RayStatusStruct st (rs_Releases out) (rs_Distribution out) in
  rel ← DeepCopyInto (rs_Releases in_);
  let out := Build_RayStatusStruct (rs_Status out) rel (rs_Distribution out) in
  mret (Build_RayStatusStruct (rs_Status out) (rs_Releases out) (rs_Distribution in_)).

Definition Ray_DeepCopyInto (in_ : RayStruct) : M memory RayStruct :=
  let out := in_ in
  let out := Build_RayStruct (rv_TypeMeta in_) (rv_ObjectMeta out) (rv_Spec out) (rv_Status out) in
  om ← DeepCopyInto (rv_ObjectMeta in_);
  let out := Build_RayStruct (rv_TypeMeta out) om (rv_Spec out) (rv_Status out) in
  let out := Build_RayStruct (rv_TypeMeta out) (rv_ObjectMeta out) (rv_Spec in_) (rv_Status out) in
  st ← RayStatus_DeepCopyInto (rv_Status in_);
  mret (Build_RayStruct (rv_TypeMeta out) (rv_ObjectMeta out) (rv_Spec out) st).

(** [s[i]] and [s[i] = x] *)
Definition index (s : Slice) (i : nat) : M memory RayStruct := λ h,
  match h !! sl_array s with
  | Some (CItems l) =>
      if decide (i < sl_len s) then
        match l !! (sl_offset s + i) with
        | Some x => (Ok x, h)
        | None => (Panic "index out of range", h)
        end
      else (Panic "index out of range", h)
  | _ => (Panic "invalid memory address", h)
  end.

Definition set_index (s : Slice) (i : nat) (x : RayStruct) : M memory unit := λ h,
  match h !! sl_array s with
  | Some (CItems l) =>
      if decide (i < sl_len s ∧ sl_offset s + i < length l)
      then (Ok tt, <[sl_array s := CItems (<[sl_offset s + i := x]> l)]> h)
      else (Panic "index out of range", h)
  | _ => (Panic "invalid memory address", h)
  end.

Definition zero_Distribution := Build_Distribution "" "".
Definition zero_RaySpec := Build_RaySpec "" "".
Definition zero_RayStatus := Build_RayStatusStruct zero zero zero_Distribution.
Definition zero_Ray := Build_RayStruct (Build_TypeMeta "" "") zero zero_RaySpec zero_RayStatus.
Definition zero_RayList := Build_RayListStruct (Build_TypeMeta "" "") zero None.

Definition copy_item (from to : Slice) (i : nat) : M memory unit :=
  x ← index from i; y ← Ray_DeepCopyInto x; set_index to i y.

Definition RayList_DeepCopyInto (in_ : RayListStruct) : M memory RayListStruct :=
  let out := in_ in
  let out := Build_RayListStruct (rl_TypeMeta in_) (rl_ListMeta out) (rl_Items out) in
  lm ← DeepCopyInto (rl_ListMeta in_);
  let out := Build_RayListStruct (rl_TypeMeta out) lm (rl_Items out) in
  match rl_Items in_ with
  | None => mret out
  | Some s =>
      a ← new (CItems (replicate (sl_len s) zero_Ray));
      let items := Build_Slice a 0 (sl_len s) in
      for_each (seq 0 (sl_len s)) (copy_item s items) ;;
      mret (Build_RayListStruct (rl_TypeMeta out) (rl_ListMeta out) (Some items))
  end.

(** [DeepCopy], which allocates what it returns; of a nil pointer, nil. *)
Definition deep_copy {X} (box : X → cell) (unbox : cell → option X) (z : X)
    (into : X → M memory X) (in_ : option loc) : M memory (option loc) :=
  match in_ with
  | None => mret None
  | Some p =>
      out ← new (box z);
      x ← load unbox p;
      y ← into x;
      store out (box y) ;;
      mret (Some out)
  end.

Definition as_Distribution (c : cell) := match c with CDistribution d => Some d | _ => None end.
Definition as_RaySpec (c : cell) := match c with CRaySpec s => Some s | _ => None end.
Definition as_RayStatus (c : cell) := match c with CRayStatus s => Some s | _ => None end.
Definition as_Ray (c : cell) := match c with CRay r => Some r | _ => None end.
Definition as_RayList (c : cell) := match c with CRayList l => Some l | _ => None end.

Definition Distribution_DeepCopy : option loc → M memory (option loc) :=
  deep_copy CDistribution as_Distribution zero_Distribution Distribution_DeepCopyInto.
Definition RaySpec_DeepCopy : option loc → M memory (option loc) :=
  deep_copy CRaySpec as_RaySpec zero_RaySpec RaySpec_DeepCopyInto.
Definition RayStatus_DeepCopy : option loc → M memory (option loc) :=
  deep_copy CRayStatus as_RayStatus zero_RayStatus RayStatus_DeepCopyInto.
Definition Ray_DeepCopy : option loc → M memory (option loc) :=
  deep_copy CRay as_Ray zero_Ray Ray_DeepCopyInto.
Definition RayList_DeepCopy : option loc → M memory (option loc) :=
  deep_copy CRayList as_RayList zero_RayList RayList_DeepCopyInto.

(** A [runtime.Object] is nil, or holds a typed pointer, which may be nil. *)
Inductive RuntimeObject :=
  | ObjRay (p : option loc)
  | ObjRayList (p : option loc).

Definition object_if_not_nil (wrap : option loc → RuntimeObject) (c : option loc) : option RuntimeObject :=
  match c with Some _ => Some (wrap c) | None => None end.

Definition Ray_DeepCopyObject (in_ : option loc) : M memory (option RuntimeObject) :=
  c ← Ray_DeepCopy in_; mret (object_if_not_nil ObjRay c).

Definition RayList_DeepCopyObject (in_ : option loc) : M memory (option RuntimeObject) :=
  c ← RayList_DeepCopy in_; mret (object_if_not_nil ObjRayList c).

(** * Properties *)

(** ** A memory that grows *)

Section laws.
Context {X : Type} `{CX : Copier cell X} {LX : CopierLaws cell X}.

Lemma grow (h h' : memory) (x : X) :
  valid h x → h ⊆ h' → valid h' x ∧ content h' x = content h x ∧ footprint h' x = footprint h x.
Proof.
  intros Hv Hsub. apply frame_law; [done|]. intros l Hl.
  apply (footprint_dom h x Hv), elem_of_dom in Hl as [c Hc]. rewrite Hc.
  by eapply lookup_weaken.
Qed.

Lemma copied_grow (h h' h'' : memory) (x x' : X) :
  copied h x x' h' → h' ⊆ h'' → copied h x x' h''.
Proof.
  intros (Hs & Hv & Hc & Hf) Hsub. destruct (grow h' h'' x' Hv Hsub) as (Hv' & Hc' & Hf').
  split_and!; [by etrans|done|congruence|by rewrite Hf'].
Qed.

(** A copy from a larger memory is a copy from the smaller one. *)
Lemma copied_from (h0 h h' : memory) (x x' : X) :
  valid h0 x → h0 ⊆ h → copied h x x' h' → copied h0 x x' h'.
Proof.
  intros Hv Hsub (Hs & Hv' & Hc & Hf). destruct (grow h0 h x Hv Hsub) as (_ & Hc0 & _).
  split_and!; [by etrans|done|congruence|]. apply subseteq_dom in Hsub. set_solver.
Qed.
End laws.

(** One copy after the other. *)
Lemma copy_both {X Y} `{CX : Copier cell X, CY : Copier cell Y}
    `{!CopierLaws cell X, !CopierLaws cell Y} (h : memory) (x : X) (y : Y) :
  valid h x → valid h y →
  ∃ x' y' h1 h2, DeepCopyInto x h = (Ok x', h1) ∧ DeepCopyInto y h1 = (Ok y', h2) ∧
    copied h x x' h2 ∧ copied h y y' h2.
Proof.
  intros Hx Hy. destruct (copy_law h x Hx) as (x' & h1 & E1 & C1).
  assert (h ⊆ h1) as Hs by apply C1. destruct (grow h h1 y Hy Hs) as (Hy1 & _ & _).
  destruct (copy_law h1 y Hy1) as (y' & h2 & E2 & C2). exists x', y', h1, h2.
  split_and!; [done..| |].
  - eapply copied_grow; [exact C1|]. apply C2.
  - by eapply copied_from.
Qed.

(** ** The generated copies are copies *)

#[export] Instance Distribution_copier : Copier cell Distribution := {|
  zero := zero_Distribution; DeepCopyInto := Distribution_DeepCopyInto;
  content := λ _ x, x; footprint := λ _ _, ∅; valid := λ _ _, True |}.

#[export] Instance Distribution_laws : CopierLaws cell Distribution.
Proof. split; [set_solver|done|]. intros h x _. exists x, h. split; [done|]. split_and!; set_solver. Qed.

#[export] Instance RaySpec_copier : Copier cell RaySpec := {|
  zero := zero_RaySpec; DeepCopyInto := RaySpec_DeepCopyInto;
  content := λ _ x, x; footprint := λ _ _, ∅; valid := λ _ _, True |}.

#[export] Instance RaySpec_laws : CopierLaws cell RaySpec.
Proof.
  split; [set_solver|done|]. intros h [m a] _. exists (Build_RaySpec m a), h. split; [done|].
  split_and!; set_solver.
Qed.

#[export] Instance RayStatus_copier : Copier cell RayStatusStruct := {|
  zero := zero_RayStatus; DeepCopyInto := RayStatus_DeepCopyInto;
  content := λ h x, (content h (rs_Status x), content h (rs_Releases x), rs_Distribution x);
  footprint := λ h x, footprint h (rs_Status x) ∪ footprint h (rs_Releases x);
  valid := λ h x, valid h (rs_Status x) ∧ valid h (rs_Releases x) |}.

#[export] Instance Ray_copier : Copier cell RayStruct := {|
  zero := zero_Ray; DeepCopyInto := Ray_DeepCopyInto;
  content := λ h x, (rv_TypeMeta x, content h (rv_ObjectMeta x), rv_Spec x, content h (rv_Status x));
  footprint := λ h x, footprint h (rv_ObjectMeta x) ∪ footprint h (rv_Status x);
  valid := λ h x, valid h (rv_ObjectMeta x) ∧ valid h (rv_Status x) |}.

Context {LO : CopierLaws cell OM} {LL : CopierLaws cell LM} {LS : CopierLaws cell ST}
  {LR : CopierLaws cell RL}.

#[export] Instance RayStatus_laws : CopierLaws cell RayStatusStruct.
Proof.
  split.
  - intros h [st rl d] [H1%footprint_dom H2%footprint_dom]; [|done..]. set_solver.
  - intros h h' [st rl d] [H1 H2] Hl. cbn in *.
    destruct (frame_law h h' st H1) as (? & -> & ->); [intros; apply Hl; set_solver|].
    by destruct (frame_law h h' rl H2) as (? & -> & ->); [intros; apply Hl; set_solver|].
  - intros h [st rl d] [H1 H2]. cbn in H1, H2.
    destruct (copy_both h st rl H1 H2) as (st' & rl' & h1 & h2 & E1 & E2 & (Hs & V1 & C1 & F1) & (_ & V2 & C2 & F2)).
    exists (Build_RayStatusStruct st' rl' d), h2. split.
    + cbn. unfold RayStatus_DeepCopyInto. cbn. rewrite (bind_Ok _ _ _ _ _ E1).
      by rewrite (bind_Ok _ _ _ _ _ E2).
    + split_and!; [done|done|cbn; congruence|cbn; set_solver].
Qed.

#[export] Instance Ray_laws : CopierLaws cell RayStruct.
Proof.
  split.
  - intros h [tm om sp st] [H1%footprint_dom H2%footprint_dom]; [|apply _..]. set_solver.
  - intros h h' [tm om sp st] [H1 H2] Hl. cbn [valid content footprint Ray_copier rv_TypeMeta
      rv_ObjectMeta rv_Spec rv_Status] in *.
    destruct (frame_law h h' om H1) as (? & -> & ->); [intros; apply Hl; set_solver|].
    by destruct (frame_law h h' st H2) as (? & -> & ->); [intros; apply Hl; set_solver|].
  - intros h [tm om sp st] [H1 H2]. cbn [rv_ObjectMeta rv_Status] in H1, H2.
    destruct (copy_both h om st H1 H2) as (om' & st' & h1 & h2 & E1 & E2 & (Hs & V1 & C1 & F1) & (_ & V2 & C2 & F2)).
    exists (Build_RayStruct tm om' sp st'), h2. split.
    + cbn [DeepCopyInto Ray_copier]. unfold Ray_DeepCopyInto.
      cbn [rv_TypeMeta rv_ObjectMeta rv_Spec rv_Status]. rewrite (bind_Ok _ _ _ _ _ E1).
      by rewrite (bind_Ok _ _ _ _ _ E2).
    + split_and!; [done|done|cbn [content Ray_copier rv_TypeMeta rv_ObjectMeta rv_Spec rv_Status]; congruence|].
      cbn [footprint Ray_copier rv_ObjectMeta rv_Status]. set_solver.
Qed.

(** ** The items of a list *)

Definition slice_items (h : memory) (s : Slice) : option (list RayStruct) :=
  match h !! sl_array s with
  | Some (CItems l) =>
      if decide (sl_offset s + sl_len s ≤ length l)
      then Some (take (sl_len s) (drop (sl_offset s) l)) else None
  | _ => None
  end.

(** A write outside of its footprint is not seen by a value. *)
Lemma frame_write {X} `{CX : Copier cell X} `{!CopierLaws cell X} (h : memory) (x : X) a c :
  valid h x → a ∉ footprint h x →
  valid (<[a := c]> h) x ∧ content (<[a := c]> h) x = content h x ∧
  footprint (<[a := c]> h) x = footprint h x.
Proof.
  intros Hv Ha. apply frame_law; [done|]. intros l Hl. rewrite lookup_insert_ne; [done|].
  by intros ->.
Qed.

Lemma index_run (h : memory) s l i x :
  slice_items h s = Some l → l !! i = Some x → index s i h = (Ok x, h).
Proof.
  unfold slice_items, index. destruct (h !! sl_array s) as [[]|]; [done..| |done|done].
  intros Hl Hi. case_decide; [|done]. injection Hl as <-.
  assert (i < sl_len s) as Hlt. { apply lookup_lt_Some in Hi. rewrite length_take in Hi. lia. }
  rewrite decide_True by done. rewrite lookup_take_lt, lookup_drop in Hi by done. by rewrite Hi.
Qed.

Lemma slice_items_grow (h h' : memory) s l :
  h ⊆ h' → slice_items h s = Some l → slice_items h' s = Some l.
Proof.
  unfold slice_items. intros Hs. destruct (h !! sl_array s) eqn:E; [|done].
  by rewrite (lookup_weaken _ _ _ _ E Hs).
Qed.

(** An element of the copy, in an array of which [a] is the cell. *)
Definition item_copied (h1 : memory) (a : loc) (h : memory) (x y : RayStruct) : Prop :=
  valid h y ∧ content h y = content h1 x ∧ footprint h y ## {[a]} ∪ dom h1.

Lemma item_copied_grow h1 a h h' x y : item_copied h1 a h x y → h ⊆ h' → item_copied h1 a h' x y.
Proof.
  intros (Hv & Hc & Hf) Hs. destruct (grow h h' y Hv Hs) as (Hv' & Hc' & Hf').
  split_and!; [done|congruence|by rewrite Hf'].
Qed.

Lemma item_copied_write h1 a h c x y :
  item_copied h1 a h x y → item_copied h1 a (<[a := c]> h) x y.
Proof.
  intros (Hv & Hc & Hf). destruct (frame_write h y a c Hv) as (Hv' & Hc' & Hf'); [set_solver|].
  split_and!; [done|congruence|by rewrite Hf'].
Qed.

(** One round of the loop, the copies of the items before it being made. *)
Lemma copy_item_run (h1 h : memory) a s l i x ys zs :
  a ∉ dom h1 → h1 ⊆ h → slice_items h1 s = Some l → l !! i = Some x → valid h1 x →
  length ys = i → i < sl_len s → h !! a = Some (CItems (ys ++ zero_Ray :: zs)) →
  ∃ y h', copy_item s (Build_Slice a 0 (sl_len s)) i h = (Ok tt, h') ∧ h1 ⊆ h' ∧
    h' !! a = Some (CItems (ys ++ y :: zs)) ∧ item_copied h1 a h' x y ∧
    ∀ x0 y0, item_copied h1 a h x0 y0 → item_copied h1 a h' x0 y0.
Proof.
  intros Ha Hsub Hl Hx Hv Hlen Hi Harr.
  destruct (grow h1 h x Hv Hsub) as (Hvh & Hch & _).
  destruct (copy_law h x Hvh) as (y & h2 & E & Hs2 & Hv2 & Hc2 & Hf2).
  exists y, (<[a := CItems (ys ++ y :: zs)]> h2). split_and!.
  - unfold copy_item. rewrite (bind_Ok _ _ _ _ _ (index_run h s l i x (slice_items_grow _ _ _ _ Hsub Hl) Hx)).
    cbn [DeepCopyInto Ray_copier] in E. rewrite (bind_Ok _ _ _ _ _ E).
    unfold set_index. cbn [sl_array sl_offset sl_len].
    rewrite (lookup_weaken _ _ _ _ Harr Hs2), decide_True.
    + cbn. by rewrite insert_app_r_alt, Hlen, Nat.sub_diag by lia.
    + rewrite length_app. cbn. lia.
  - apply insert_subseteq_r; [by apply not_elem_of_dom|]. by etrans.
  - by rewrite lookup_insert_eq.
  - apply item_copied_write. split_and!; [done|congruence|].
    apply subseteq_dom in Hsub. assert (a ∈ dom h) by (apply elem_of_dom; eauto). set_solver.
  - intros x0 y0 H0. by apply item_copied_write, (item_copied_grow _ _ _ _ _ _ H0).
Qed.

Lemma copy_items_run (h1 : memory) a s l xs ys h :
  a ∉ dom h1 → slice_items h1 s = Some l → l = take (length ys) l ++ xs →
  Forall (valid h1) l → length ys + length xs = sl_len s → h1 ⊆ h →
  h !! a = Some (CItems (ys ++ replicate (length xs) zero_Ray)) →
  Forall2 (item_copied h1 a h) (take (length ys) l) ys →
  ∃ ys' h', for_each (seq (length ys) (length xs)) (copy_item s (Build_Slice a 0 (sl_len s))) h = (Ok tt, h') ∧
    h1 ⊆ h' ∧ h' !! a = Some (CItems ys') ∧ Forall2 (item_copied h1 a h') l ys'.
Proof.
  intros Ha Hl. revert ys h. induction xs as [|x xs IH]; intros ys h Hxs Hv Hlen Hsub Harr Hys.
  - exists ys, h. rewrite app_nil_r in Hxs, Harr. rewrite <- Hxs in Hys. by split_and!.
  - assert (l !! length ys = Some x) as Hx.
    { rewrite Hxs, lookup_app_r; rewrite length_take; [|lia].
      assert (length l = length ys + S (length xs)) as Hll.
      { apply (f_equal length) in Hxs. rewrite length_app, length_take in Hxs. cbn in Hxs. lia. }
      by rewrite Hll, Nat.min_l, Nat.sub_diag by lia. }
    cbn in Hlen. destruct (copy_item_run h1 h a s l (length ys) x ys (replicate (length xs) zero_Ray))
      as (y & h2 & E & Hs2 & Ha2 & Hy & Hold); try done; [|lia|].
    { rewrite Forall_lookup in Hv. by eapply Hv. }
    cbn [length seq for_each]. rewrite (bind_Ok _ _ _ _ _ E).
    assert (S (length ys) = length (ys ++ [y])) as Hsy by (rewrite length_app; cbn; lia).
    assert (take (length (ys ++ [y])) l = take (length ys) l ++ [x]) as Ht
      by (rewrite <- Hsy; by apply take_S_r).
    rewrite Hsy. apply IH; [|done| |done| |].
    + rewrite Ht, <- app_assoc. exact Hxs.
    + rewrite length_app. cbn. lia.
    + by rewrite <- app_assoc.
    + rewrite Ht. apply Forall2_app; [|constructor; [exact Hy|constructor]].
      eapply Forall2_impl; [exact Hys|]. exact Hold.
Qed.

Definition items (h : memory) (l : RayListStruct) : list RayStruct :=
  default [] (rl_Items l ≫= slice_items h).

Definition items_content (h : memory) (l : RayListStruct) :=
  match rl_Items l with
  | None => None
  | Some _ => Some (map (content h) (items h l))
  end.

Definition items_footprint (h : memory) (l : RayListStruct) : gset loc :=
  match rl_Items l with
  | None => ∅
  | Some s => {[sl_array s]} ∪ ⋃ (map (footprint h) (items h l))
  end.

Definition items_valid (h : memory) (l : RayListStruct) : Prop :=
  match rl_Items l with
  | None => True
  | Some s => is_Some (slice_items h s) ∧ Forall (valid h) (items h l)
  end.

#[export] Instance RayList_copier : Copier cell RayListStruct := {|
  zero := zero_RayList; DeepCopyInto := RayList_DeepCopyInto;
  content := λ h x, (rl_TypeMeta x, content h (rl_ListMeta x), items_content h x);
  footprint := λ h x, footprint h (rl_ListMeta x) ∪ items_footprint h x;
  valid := λ h x, valid h (rl_ListMeta x) ∧ items_valid h x |}.

Lemma slice_items_array (h : memory) s l : slice_items h s = Some l → sl_array s ∈ dom h.
Proof. unfold slice_items. destruct (h !! sl_array s) eqn:E; [|done]. intros _. by apply elem_of_dom_2 in E. Qed.

Lemma items_dom h x : items_valid h x → items_footprint h x ⊆ dom h.
Proof.
  unfold items_valid, items_footprint, items. destruct (rl_Items x) as [s|]; [|set_solver].
  intros [[l Hl] Hv]. cbn in *. rewrite Hl in *. cbn in *.
  apply slice_items_array in Hl. apply union_subseteq. split; [set_solver|].
  intros k Hk. apply elem_of_union_list in Hk as (F & HF & Hk).
  apply list_elem_of_In, in_map_iff in HF as (y & <- & Hy%list_elem_of_In).
  rewrite Forall_forall in Hv. by apply (footprint_dom h y); [apply Hv|].
Qed.

Lemma items_frame h h' x :
  items_valid h x → (∀ l, l ∈ items_footprint h x → h' !! l = h !! l) →
  items_valid h' x ∧ items_content h' x = items_content h x ∧ items_footprint h' x = items_footprint h x.
Proof.
  unfold items_valid, items_content, items_footprint, items.
  destruct (rl_Items x) as [s|]; [|done]. intros [[l Hl] Hv] Hf. cbn in *. rewrite Hl in *. cbn in *.
  assert (slice_items h' s = Some l) as Hl'.
  { unfold slice_items in *. rewrite Hf by set_solver. done. }
  rewrite Hl'. cbn.
  assert (∀ y, y ∈ l → valid h' y ∧ content h' y = content h y ∧ footprint h' y = footprint h y) as Hy.
  { intros y Hy. rewrite Forall_forall in Hv. apply frame_law; [by apply Hv|]. intros k Hk. apply Hf.
    apply elem_of_union_r, elem_of_union_list. exists (footprint h y). split; [|done].
    by apply list_elem_of_In, in_map, list_elem_of_In. }
  assert (∀ {B} (f g : RayStruct → B), (∀ y, y ∈ l → f y = g y) → map f l = map g l) as Hm.
  { intros B f g Hfg. apply map_ext_in. intros y ?%list_elem_of_In. by apply Hfg. }
  split_and!.
  - by eexists.
  - apply Forall_forall. intros y ?. by apply Hy.
  - f_equal. apply Hm. intros y ?. by apply Hy.
  - do 2 f_equal. apply Hm. intros y ?. by apply Hy.
Qed.

(** The copy of the items. *)
Lemma copy_all_items (h : memory) s l :
  slice_items h s = Some l → Forall (valid h) l →
  ∃ a h', new (CItems (replicate (sl_len s) zero_Ray)) h =
      (Ok a, (<[a := CItems (replicate (sl_len s) zero_Ray)]> h : memory)) ∧
    for_each (seq 0 (sl_len s)) (copy_item s (Build_Slice a 0 (sl_len s)))
      (<[a := CItems (replicate (sl_len s) zero_Ray)]> h) = (Ok tt, h') ∧
    h ⊆ h' ∧ (∃ ys, h' !! a = Some (CItems ys) ∧ (a ∉ dom h) ∧ length ys = sl_len s ∧
      Forall2 (item_copied h a h') l ys).
Proof.
  intros Hl Hv. set (a := fresh (dom h)). assert (a ∉ dom h) as Ha by apply is_fresh.
  set (h1 := <[a := CItems (replicate (sl_len s) zero_Ray)]> h).
  assert (length l = sl_len s) as Hlen.
  { unfold slice_items in Hl. destruct (h !! sl_array s) as [[]|]; try done.
    case_decide; [|done]. injection Hl as <-. rewrite length_take, length_drop. lia. }
  destruct (copy_items_run h a s l l [] h1 Ha Hl eq_refl Hv Hlen) as (ys & h' & E & Hs & Hys & Hall).
  - by apply insert_subseteq, not_elem_of_dom.
  - unfold h1. rewrite lookup_insert_eq. by rewrite Hlen.
  - constructor.
  - cbn [length] in E. rewrite Hlen in E. exists a, h'. split_and!; [done..|].
    exists ys. split_and!; [done..| |done]. apply Forall2_length in Hall. congruence.
Qed.

Lemma copied_contents h h1 h2 a l ys :
  Forall (valid h) l → h ⊆ h1 → Forall2 (item_copied h1 a h2) l ys →
  map (content h2) ys = map (content h) l.
Proof.
  intros Hv Hs Hall. induction Hall as [|x y l ys (_ & Hc & _) _ IH]; [done|].
  apply Forall_cons in Hv as [Hx Hv]. destruct (grow h h1 x Hx Hs) as (_ & Hc1 & _).
  change (content h2 y :: map (content h2) ys = content h x :: map (content h) l).
  rewrite (IH Hv). f_equal. exact (eq_trans Hc Hc1).
Qed.

#[export] Instance RayList_laws : CopierLaws cell RayListStruct.
Proof.
  split.
  - intros h x [H1%footprint_dom H2%items_dom]. cbn. set_solver.
  - intros h h' x [H1 H2] Hl. cbn in *.
    destruct (frame_law h h' (rl_ListMeta x) H1) as (? & -> & ->); [intros; apply Hl; set_solver|].
    by destruct (items_frame h h' x H2) as (? & -> & ->); [intros; apply Hl; set_solver|].
  - intros h [tm lm it] [H1 H2]. cbn [rl_ListMeta] in H1.
    destruct (copy_law h lm H1) as (lm' & h1 & E1 & C1). pose proof C1 as (Hs1 & V1 & T1 & F1).
    cbn [DeepCopyInto RayList_copier]. unfold RayList_DeepCopyInto.
    cbn [rl_TypeMeta rl_ListMeta rl_Items]. rewrite (bind_Ok _ _ _ _ _ E1).
    destruct it as [s|].
    2: { exists (Build_RayListStruct tm lm' None), h1. split; [done|]. split_and!; [done|done| |].
         - cbn. by rewrite T1.
         - cbn. set_solver. }
    destruct H2 as [[l Hl] Hv]. unfold items in Hv. cbn in Hl, Hv. rewrite Hl in Hv. cbn in Hv.
    change (Forall (valid h) l) in Hv.
    assert (Forall (valid h1) l) as Hv1.
    { eapply Forall_impl; [exact Hv|]. intros y Hy. by apply (grow h h1 y Hy Hs1). }
    destruct (copy_all_items h1 s l (slice_items_grow _ _ _ _ Hs1 Hl) Hv1)
      as (a & h2 & En & Ef & Hs2 & ys & Hys & Ha & Hlen & Hall).
    rewrite (bind_Ok _ _ _ _ _ En), (bind_Ok _ _ _ _ _ Ef).
    eexists _, h2. split; [done|].
    assert (slice_items h2 (Build_Slice a 0 (sl_len s)) = Some ys) as Hit.
    { unfold slice_items. cbn [sl_array sl_offset sl_len]. rewrite Hys, decide_True by lia.
      by rewrite <- Hlen, drop_0, firstn_all. }
    destruct (copied_grow h h1 h2 lm lm' C1 Hs2) as (Hs & V2 & T2 & F2).
    split; [done|]. split; [split; [done|]|split].
    + cbn. unfold items. cbn. rewrite Hit. cbn. split; [by eexists|].
      clear -Hall. induction Hall as [|x y l ys Hxy _ IH]; constructor; [apply Hxy|done].
    + cbn [content RayList_copier rl_TypeMeta rl_ListMeta]. rewrite T2. f_equal.
      unfold items_content, items. cbn. rewrite Hit, Hl. cbn. f_equal.
      exact (copied_contents h h1 h2 a l ys Hv Hs1 Hall).
    + cbn [footprint RayList_copier rl_ListMeta]. apply disjoint_union_l. split; [done|].
      unfold items_footprint, items. cbn. rewrite Hit. cbn. apply subseteq_dom in Hs1.
      apply disjoint_union_l. split; [set_solver|].
      clear -Hall Hs1. induction Hall as [|x y l ys (_ & _ & Hd) _ IH]; cbn; set_solver.
Qed.

(** ** Copies behind a pointer *)

(** What a pointer of a type points to. *)
Definition pointee {X} (unbox : cell → option X) (h : memory) (p : loc) : option X :=
  h !! p ≫= unbox.

(** A function on pointers that deep-copies: of nil it is nil; of a pointer to a
    valid value a new pointer to a value with the same content.  The memory that
    was there is as it was, and from then on neither of the two sees a write to
    the memory of the other. *)
Definition deep_copies {X} `{Copier cell X} (unbox : cell → option X)
    (f : option loc → M memory (option loc)) : Prop :=
  (∀ h, f None h = (Ok None, h)) ∧
  ∀ h p x, pointee unbox h p = Some x → valid h x →
    ∃ q y h', f (Some p) h = (Ok (Some q), h') ∧ h ⊆ h' ∧
      pointee unbox h' q = Some y ∧ valid h' y ∧ content h' y = content h x ∧
      (∀ h2, (∀ l, l ∉ footprint h' y → l ≠ q → h2 !! l = h' !! l) →
         pointee unbox h2 p = Some x ∧ content h2 x = content h x) ∧
      (∀ h2, (∀ l, l ∈ footprint h' y ∨ l = q → h2 !! l = h' !! l) →
         pointee unbox h2 q = Some y ∧ content h2 y = content h x).

Lemma deep_copy_copies {X} `{CX : Copier cell X} `{!CopierLaws cell X}
    (box : X → cell) (unbox : cell → option X) :
  (∀ x, unbox (box x) = Some x) →
  deep_copies unbox (deep_copy box unbox zero DeepCopyInto).
Proof.
  intros Hbox. split; [done|]. intros h p x Hp Hv. unfold deep_copy.
  set (q := fresh (dom h)). assert (q ∉ dom h) as Hq by apply is_fresh.
  assert (p ∈ dom h) as Hpd.
  { unfold pointee in Hp. destruct (h !! p) eqn:E; [by eapply elem_of_dom_2|done]. }
  set (h1 := <[q := box zero]> h). assert (h ⊆ h1) as Hs1 by by apply insert_subseteq, not_elem_of_dom.
  assert (h1 !! p = h !! p) as Hp1 by (apply lookup_insert_ne; set_solver).
  destruct (grow h h1 x Hv Hs1) as (Hv1 & Hc1 & Hf1).
  destruct (copy_law h1 x Hv1) as (y & h2 & E & Hs2 & Hv2 & Hc2 & Hf2).
  set (h3 := <[q := box y]> h2).
  assert (q ∈ dom h1) as Hq1 by set_solver.
  destruct (frame_write h2 y q (box y) Hv2) as (Hv3 & Hc3 & Hf3); [set_solver|]. fold h3 in Hv3, Hc3, Hf3.
  assert (h ⊆ h3) as Hs3. { apply insert_subseteq_r; [by apply not_elem_of_dom|]. by etrans. }
  assert (footprint h3 y ## dom h) as Hd. { rewrite Hf3. apply subseteq_dom in Hs1. set_solver. }
  exists q, y, h3. split_and!; [|done|..].
  - rewrite (bind_Ok (new (box zero)) _ h q h1) by done.
    rewrite (bind_Ok (load unbox p) _ h1 x h1).
    + by rewrite (bind_Ok _ _ _ _ _ E).
    + unfold load. rewrite Hp1. unfold pointee in Hp. by rewrite Hp.
  - unfold pointee, h3. rewrite lookup_insert_eq. apply Hbox.
  - done.
  - congruence.
  - intros h4 H4. assert (∀ l, l ∈ dom h → h4 !! l = h !! l) as Hold.
    { intros l Hl. rewrite H4; [|set_solver|set_solver]. apply elem_of_dom in Hl as [c Hl].
      rewrite Hl. by eapply lookup_weaken. }
    split; [unfold pointee; by rewrite Hold|]. apply frame_law; [done|].
    intros l Hl. apply Hold. by apply (footprint_dom h x).
  - intros h4 H4. split.
    + unfold pointee. rewrite H4 by by right. unfold h3. rewrite lookup_insert_eq. apply Hbox.
    + destruct (frame_law h3 h4 y Hv3) as (_ & -> & _); [intros; apply H4; by left|congruence].
Qed.

(** C19: the generated copies are deep.  Of every pointer of the five types to a
    valid value, a list and its items included, [DeepCopy] returns a new pointer
    to a value with the same content, changes no memory that was there, and from
    then on writes to the memory of one are not seen through the other; of nil it
    returns nil; and [DeepCopyObject] never returns an interface that holds a nil
    pointer.  Provided that the copies of the metadata and the status types of
    the platform are deep. *)
Theorem generated_copies_are_deep :
  deep_copies as_Distribution Distribution_DeepCopy ∧
  deep_copies as_RaySpec RaySpec_DeepCopy ∧
  deep_copies as_RayStatus RayStatus_DeepCopy ∧
  deep_copies as_Ray Ray_DeepCopy ∧
  deep_copies as_RayList RayList_DeepCopy ∧
  (∀ p h r h', Ray_DeepCopyObject p h = (Ok r, h') →
     match r with
     | None => p = None
     | Some o => ∃ q, o = ObjRay (Some q) ∧ Ray_DeepCopy p h = (Ok (Some q), h')
     end) ∧
  (∀ p h r h', RayList_DeepCopyObject p h = (Ok r, h') →
     match r with
     | None => p = None
     | Some o => ∃ q, o = ObjRayList (Some q) ∧ RayList_DeepCopy p h = (Ok (Some q), h')
     end).
Proof.
  split; [exact (deep_copy_copies CDistribution as_Distribution (λ _, eq_refl))|]. split; [exact (deep_copy_copies CRaySpec as_RaySpec (λ _, eq_refl))|].
  split; [exact (deep_copy_copies CRayStatus as_RayStatus (λ _, eq_refl))|]. split; [exact (deep_copy_copies CRay as_Ray (λ _, eq_refl))|].
  split; [exact (deep_copy_copies CRayList as_RayList (λ _, eq_refl))|].
  split; intros p h r h' ([q|] & h1 & E & H)%bind_Ok_inv; unfold mret, M_ret in H; simplify_eq; cbn;
    try by exists q.
  all: destruct p; [|done]; unfold Ray_DeepCopy, RayList_DeepCopy, deep_copy in E.
  all: by repeat (apply bind_Ok_inv in E as (? & ? & _ & E)).
Qed.
End generated.

(** ** Runs

    For the metadata and the status of the platform, a struct with a string and
    a map of strings. *)
Record Labelled := { lb_name : string; lb_map : option loc }.

Abbreviation sample_cell :=
  (@cell Labelled Labelled Labelled Labelled (gmap string string)).

Definition as_map (c : sample_cell) : option (gmap string string) :=
  match c with CLib m => Some m | _ => None end.

Definition copy_labelled (x : Labelled) : M (heap sample_cell) Labelled :=
  match lb_map x with
  | None => mret x
  | Some l => m ← load as_map l; l' ← new (CLib m); mret (Build_Labelled (lb_name x) (Some l'))
  end.

#[local] Instance labelled_copier : Copier sample_cell Labelled := {|
  zero := Build_Labelled "" None;
  DeepCopyInto := copy_labelled;
  content := λ h x, (lb_name x, lb_map x ≫= pointee as_map h);
  footprint := λ h x, match lb_map x with Some l => {[l]} | None => ∅ end;
  valid := λ h x, match lb_map x with Some l => is_Some (pointee as_map h l) | None => True end |}.

#[local] Instance labelled_laws : CopierLaws sample_cell Labelled.
Proof.
  split.
  - intros h [n [l|]]; cbn; [|set_solver]. intros [m Hm]. unfold pointee in Hm.
    destruct (h !! l) eqn:E; [|done]. apply elem_of_dom_2 in E. set_solver.
  - intros h h' [n [l|]]; cbn; [|done]. intros Hm Hl. unfold pointee in *.
    by rewrite Hl by set_solver.
  - intros h [n [l|]]; cbn; [|by exists (Build_Labelled n None), h; split_and!].
    intros [m Hm]. unfold copy_labelled. cbn. set (l' := fresh (dom h)).
    assert (l' ∉ dom h) as Hl' by apply is_fresh.
    exists (Build_Labelled n (Some l')), (<[l' := CLib m]> h). split.
    + rewrite (bind_Ok (load as_map l) _ h m h); [done|].
      unfold load. unfold pointee in Hm. by rewrite Hm.
    + split_and!; [by apply insert_subseteq, not_elem_of_dom|..]; cbn.
      * unfold pointee. rewrite lookup_insert_eq. by eexists.
      * f_equal. unfold pointee in *. by rewrite lookup_insert_eq, Hm.
      * set_solver.
Qed.

(** A list with one resource, whose labels are in the first cell. *)
Definition sample_memory : heap sample_cell :=
  {[ 1%positive := CLib {["app" := "ray"]};
     2%positive := CItems [Build_RayStruct (Build_TypeMeta "Ray" "v1alpha1")
       (Build_Labelled "default-ray" (Some 1%positive)) (Build_RaySpec Managed "apps")
       (Build_RayStatusStruct (Build_Labelled "" None) (Build_Labelled "" None)
          (Build_Distribution "Standalone" "0.0.0"))];
     3%positive := CRayList (Build_RayListStruct (Build_TypeMeta "RayList" "v1alpha1")
       (Build_Labelled "" None) (Some (Build_Slice 2%positive 0 1))) ]}.

Lemma generated_copies_are_deep_witness :
  deep_copies (X := RayListStruct) as_RayList
    (RayList_DeepCopy (LibCell := gmap string string) (OM := Labelled) (LM := Labelled)
       (ST := Labelled) (RL := Labelled)) ∧
  (RayList_DeepCopy (Some 3%positive) sample_memory).1 = Ok (Some 4%positive).
Proof.
  split; [apply (generated_copies_are_deep (LibCell := gmap string string))|].
  vm_compute. reflexivity.
Defined.
