(* ===== verification/Kube.v ===== *)
(** * The interfaces of the module

    What the program is built on and does not contain: the Kubernetes client,
    the platform framework and the kustomize engine.  Each is a class whose
    members are the calls the program makes; nothing is said about what they
    return.  The reconciliation request the actions share is a record, and an
    action is a computation on it, on the cluster and on the operating system. *)
From S2P Require Import Prelude GoStrings OS API.

Record GroupVersionKind := GVK {
  gvk_Group : string;
  gvk_Version : string;
  gvk_Kind : string;
}.

#[export] Instance GVK_eq_dec : EqDecision GroupVersionKind.
Proof. solve_decision. Defined.

(** ** Objects *)

Record ConfigMap := {
  cm_meta : ObjectMeta;
  cm_Data : option (gmap string string);
}.

Record PolicyRule := {
  APIGroups : list string;
  PolicyResources : list string;
  Verbs : list string;
}.

Record ClusterRole := {
  cr_APIVersion : string;
  cr_Kind : string;
  cr_meta : ObjectMeta;
  cr_Rules : list PolicyRule;
}.

#[export] Instance PolicyRule_eq_dec : EqDecision PolicyRule.
Proof. solve_decision. Defined.
#[export] Instance ClusterRole_eq_dec : EqDecision ClusterRole.
Proof. solve_decision. Defined.

(** The typed lists the program asks for, and what it sees of their items: a
    list may hold items that are not client objects. *)
Inductive ListKind :=
  | DeploymentList
  | ConfigMapList
  | ServiceList
  | ServiceAccountList
  | MutatingWebhookConfigurationList
  | ClusterRoleList
  | ClusterRoleBindingList.

#[export] Instance ListKind_eq_dec : EqDecision ListKind.
Proof. solve_decision. Defined.

Record Object := {
  obj_list : ListKind;
  obj_meta : ObjectMeta;
}.

#[export] Instance Object_eq_dec : EqDecision Object.
Proof. solve_decision. Defined.

(** An object is identified by its kind, its namespace and its name. *)
Definition identity (o : Object) : ListKind * string * string :=
  (obj_list o, Namespace (obj_meta o), Name (obj_meta o)).

Inductive Item :=
  | AnObject (o : Object)
  | NoObject.

Inductive DeletionPropagation := Background.

(** ** The Kubernetes client, on a cluster of type [K]

    [client.Client], [controllerutil.CreateOrUpdate] and [RemoveFinalizer],
    [meta.ExtractList], [cluster.HasCRD] and the REST mapper of the manager. *)
Class KubeAPI (K : Type) := {
  GetRay : string → K → api_error + Ray;
  GetConfigMap : string → string → K → api_error + ConfigMap;
  GetClusterRole : string → K → api_error + ClusterRole;
  UpdateRay : Ray → K → (api_error + Ray) * K;
  UpdateClusterRole : ClusterRole → K → (api_error + ClusterRole) * K;
  DeleteClusterRole : ClusterRole → K → option api_error * K;
  CreateOrUpdate : ClusterRole → (ClusterRole → ClusterRole) → K → option error * K;
  ObjectList : Type;
  ListObjects : ListKind → option string → K → api_error + ObjectList;
  ExtractList : ObjectList → error + list Item;
  Delete : Object → DeletionPropagation → K → option api_error * K;
  RemoveFinalizer : string → list string → list string * bool;
  HasCRD : GroupVersionKind → K → error + bool;
  RESTMapping : string → string → string → K → option error;
}.

(** ** Unstructured objects *)

Class Unstructured (U : Type) := {
  GetKind : U → string;
  GVKOf : U → GroupVersionKind;
  GetNamespace : U → string;
  SetNamespace : string → U → U;
  GetLabels : U → option (gmap string string);
  SetLabels : gmap string string → U → U;
}.

(** The accessors read back what was written and touch nothing else. *)
Class UnstructuredLaws (U : Type) `{Unstructured U} : Prop := {
  get_set_namespace u n : GetNamespace (SetNamespace n u) = n;
  get_set_labels u l : GetLabels (SetLabels l u) = Some l;
  kind_set_namespace u n : GetKind (SetNamespace n u) = GetKind u;
  gvk_set_namespace u n : GVKOf (SetNamespace n u) = GVKOf u;
  labels_set_namespace u n : GetLabels (SetNamespace n u) = GetLabels u;
  kind_set_labels u l : GetKind (SetLabels l u) = GetKind u;
  gvk_set_labels u l : GVKOf (SetLabels l u) = GVKOf u;
  namespace_set_labels u l : GetNamespace (SetLabels l u) = GetNamespace u;
}.

(** ** The reconciliation request *)

Inductive any :=
  | AnyBool (b : bool)
  | AnyString (s : string)
  | AnyOther.

Record ManifestInfo := {
  mi_Path : string;
  mi_ContextDir : string;
  mi_SourcePath : string;
}.

(** [rr.Instance] is an interface: the module's resource, or another kind. *)
Inductive PlatformObject :=
  | ARay (r : Ray)
  | AnotherKind (generation : Z) (status : Status).

Record Request (U : Type) := {
  HasClient : bool; (** [rr.Client != nil] *)
  Instance_ : option PlatformObject;
  Extensions : option (gmap string any);
  Generated : bool;
  Manifests : list ManifestInfo;
  Resources : list U;
}.
Arguments Build_Request {U}.
Arguments HasClient {U}.
Arguments Instance_ {U}.
Arguments Extensions {U}.
Arguments Generated {U}.
Arguments Manifests {U}.
Arguments Resources {U}.

Section setters.
Context {U : Type}.
Implicit Types rr : Request U.

Definition set_Instance (i : option PlatformObject) rr : Request U := Build_Request (HasClient rr) i (Extensions rr)
  (Generated rr) (Manifests rr) (Resources rr).
Definition set_Extensions (e : option (gmap string any)) rr : Request U := Build_Request (HasClient rr) (Instance_ rr) e
  (Generated rr) (Manifests rr) (Resources rr).
Definition set_Generated (g : bool) rr : Request U := Build_Request (HasClient rr) (Instance_ rr)
  (Extensions rr) g (Manifests rr) (Resources rr).
Definition set_Manifests (m : list ManifestInfo) rr : Request U := Build_Request (HasClient rr) (Instance_ rr)
  (Extensions rr) (Generated rr) m (Resources rr).
Definition set_Resources (r : list U) rr : Request U := Build_Request (HasClient rr) (Instance_ rr)
  (Extensions rr) (Generated rr) (Manifests rr) r.
End setters.

(** The variables [filterPlatformResources] closes over. *)
Record FilterCache := {
  once_done : bool;
  hasSCCs : bool;
}.

Record State (K U : Type) := MkState {
  rr : Request U;
  cluster : K;
  os : OS;
  filter_cache : FilterCache;
}.
Arguments MkState {K U}.
Arguments rr {K U}.
Arguments cluster {K U}.
Arguments os {K U}.
Arguments filter_cache {K U}.

Abbreviation Action K U := (M (State K U) unit).

(** ** The framework *)

Inductive GCOption (U : Type) :=
  | WithDeletePropagationPolicy (p : DeletionPropagation)
  | WithOnlyCollectOwned (b : bool)
  | WithObjectPredicate (p : Request U → U → error + bool).
Arguments WithDeletePropagationPolicy {U}.
Arguments WithOnlyCollectOwned {U}.
Arguments WithObjectPredicate {U}.

Inductive DeployOption :=
  | WithFieldOwner (s : string)
  | WithPartOfLabelDefault (s : string)
  | WithApplyOrder.

Inductive ConditionOption :=
  | WithReason (s : string)
  | WithMessage (s : string)
  | WithObservedGeneration (g : Z).

(** [actions.Getter]: it may return an error, and panic. *)
Definition Getter (U A : Type) : Type := Request U → res A.

(** The condition manager of a request works on the conditions of its instance. *)
Class Framework (K U : Type) := {
  MarkTrue : string → list ConditionOption → list Condition → list Condition;
  MarkFalse : string → list ConditionOption → list Condition → list Condition;
  IsStatusConditionTrue : string → list Condition → bool;
  SetPlatformRelease : string → ComponentReleaseStatus → ComponentReleaseStatus;
  GC_NewAction : Getter U string → list (GCOption U) → Action K U;
  Deploy_NewAction : list DeployOption → Action K U;
  Deployments_NewAction : Getter U string → Action K U;
  Engine_Render : string → string → M OS (list U);
  DefaultPartOfLabelKey : string;
  ConditionTypeProvisioningSucceeded : string;
}.

(** [semver.NewVersion] *)
Class Semver := NewVersion : string → option error.

(** ** Computations on the parts of the state *)

Section lifting.
Context {K U : Type}.

Definition on_rr {A} (m : M (Request U) A) : M (State K U) A :=
  zoom rr (λ r s, MkState r (cluster s) (os s) (filter_cache s)) m.

Definition on_cluster {A} (m : M K A) : M (State K U) A :=
  zoom cluster (λ k s, MkState (rr s) k (os s) (filter_cache s)) m.

Definition on_os {A} (m : M OS A) : M (State K U) A :=
  zoom os (λ o s, MkState (rr s) (cluster s) o (filter_cache s)) m.

Definition modify_rr (f : Request U → Request U) : M (State K U) unit := on_rr (modify f).

(** A call through [rr.Client]. *)
Definition with_client {A} (m : M K A) : M (State K U) A :=
  b ← gets (λ s, HasClient (rr s));
  if (b : bool) then on_cluster m else panic "nil pointer dereference: rr.Client".
End lifting.

(** A call that reports its error as a value. *)
Definition call {K A} (f : K → A * K) : M K A := λ k, let '(a, k') := f k in (Ok a, k').

(** The type assertion of [rr.Instance] to a pointer to [Ray], which panics if it fails. *)
Definition instance_ray {U} (r : Request U) : res Ray :=
  match Instance_ r with
  | Some (ARay ray) => Ok ray
  | Some (AnotherKind _ _) => Panic "interface conversion: rr.Instance is not *Ray"
  | None => Panic "interface conversion: rr.Instance is nil"
  end.

Definition the_ray {U} : M (Request U) Ray := λ r, (instance_ray r, r).

Definition set_ray {U} (ray : Ray) (r : Request U) : Request U :=
  set_Instance (Some (ARay ray)) r.

(** Calling a getter on the request. *)
Definition get_with {U A} (f : Getter U A) : M (Request U) A := λ r, (f r, r).

(** Reading a key of [rr.Extensions]; the assertion to [bool] is false for what is not a bool. *)
Definition ext_lookup {U} (k : string) (r : Request U) : option any := Extensions r ≫= (.!! k).

Definition removed {U} (r : Request U) : bool :=
  match ext_lookup ExtKeyRemoved r with Some (AnyBool b) => b | _ => false end.

(** [rr.Extensions[k] = v], which panics on a nil map. *)
Definition ext_set {U} (k : string) (v : any) : M (Request U) unit := λ r,
  match Extensions r with
  | Some m => (Ok tt, set_Extensions (Some (<[k := v]> m)) r)
  | None => (Panic "assignment to entry in nil map", r)
  end.

(** [if rr.Extensions == nil { rr.Extensions = make(map[string]any) }] *)
Definition ext_init {U} : M (Request U) unit :=
  modify (λ r, match Extensions r with
               | Some _ => r
               | None => set_Extensions (Some ∅) r
               end).

(** ** Lemmas on the calls *)

Section calls.
Context {K U : Type}.
Implicit Types s : State K U.

Lemma with_client_eq {A} (m : M K A) s :
  HasClient (rr s) = true → with_client m s = on_cluster m s.
Proof. intros Hc. unfold with_client, mbind, M_bind, gets. by rewrite Hc. Qed.

(** Reading the cluster through the client. *)
Lemma with_client_gets {A} (f : K → A) s :
  HasClient (rr s) = true → with_client (gets f) s = (Ok (f (cluster s)), s).
Proof. intros Hc. rewrite with_client_eq by done. by destruct s. Qed.

Lemma with_client_call {A} (f : K → A * K) s :
  HasClient (rr s) = true →
  with_client (call f) s =
    (Ok (f (cluster s)).1, MkState (rr s) (f (cluster s)).2 (os s) (filter_cache s)).
Proof.
  intros Hc. rewrite with_client_eq by done. unfold on_cluster, zoom, call.
  by destruct (f (cluster s)).
Qed.

Lemma on_rr_the_ray s ray :
  Instance_ (rr s) = Some (ARay ray) → on_rr the_ray s = (Ok ray, s).
Proof.
  intros Hi. destruct s. unfold on_rr, zoom, the_ray, instance_ray. cbn in *. by rewrite Hi.
Qed.

Lemma modify_rr_eq f s :
  modify_rr f s = (Ok tt, MkState (f (rr s)) (cluster s) (os s) (filter_cache s)).
Proof. reflexivity. Qed.

Lemma on_os_eq {A} (m : M OS A) s :
  on_os m s = ((m (os s)).1, MkState (rr s) (cluster s) (m (os s)).2 (filter_cache s)).
Proof. unfold on_os, zoom. by destruct (m (os s)). Qed.
End calls.
