(* ===== verification/Scheme.v ===== *)
(** * Registration of the types: [groupversion_info.go] and [init] of [main.go]

    The scheme of the program, to which the Go types of the API are registered
    before [main] runs.  The scheme is the code of a library: [SchemeAPI] is what
    the program calls of it, [SchemeLaws] what it relies on. *)
From S2P Require Import Prelude GoStrings API Kube.

Record GroupVersion := { gv_Group : string; gv_Version : string }.

(** The Go types the module registers; other packages register their own. *)
Inductive GoType :=
  | TypeRay
  | TypeRayList
  | TypeOther (name : string).

#[export] Instance GoType_eq_dec : EqDecision GoType.
Proof. solve_decision. Defined.

(** The kind of a type is its name. *)
Definition kind_name (t : GoType) : string :=
  match t with TypeRay => "Ray" | TypeRayList => "RayList" | TypeOther n => n end.

Class SchemeAPI (S : Type) := {
  AddKnownTypes : GroupVersion → list GoType → M S unit;
  AddToGroupVersion : GroupVersion → M S unit;
  SchemeBuilder_AddToScheme : list (M S unit) → M S unit;
  clientgo_AddToScheme : M S unit;
  apiextensions_AddToScheme : M S unit;
  config_AddToScheme : M S unit;
  known : S → GroupVersionKind → option GoType;
}.

Section code.
Context {S : Type} {SA : SchemeAPI S}.

Definition SchemeGroupVersion : GroupVersion :=
  {| gv_Group := "components.platform.opendatahub.io"; gv_Version := "v1alpha1" |}.

Definition addKnownTypes : M S unit :=
  AddKnownTypes SchemeGroupVersion [TypeRay; TypeRayList] ;;
  AddToGroupVersion SchemeGroupVersion ;;
  mret tt.

Definition AddToScheme : M S unit := SchemeBuilder_AddToScheme [addKnownTypes].

(** [utilruntime.Must] *)
Definition Must (m : M S unit) : M S unit :=
  r ← attempt m;
  match r with inl e => panic "utilruntime.Must" | inr _ => mret tt end.

Definition init : M S unit :=
  Must clientgo_AddToScheme ;;
  Must apiextensions_AddToScheme ;;
  Must config_AddToScheme ;;
  Must AddToScheme.
End code.

(** * Properties *)

Definition gvk_of (gv : GroupVersion) (t : GoType) : GroupVersionKind :=
  GVK (gv_Group gv) (gv_Version gv) (kind_name t).

(** What the program relies on: types that were added are known under their
    names, registrations are never undone, and a builder runs its functions in
    order up to one that fails. *)
Class SchemeLaws (S : Type) {SA : SchemeAPI S} : Prop := {
  added gv l s s' t : AddKnownTypes gv l s = (Ok tt, s') → NoDup (kind_name <$> l) →
    t ∈ l → known s' (gvk_of gv t) = Some t;
  group_keeps gv s s' k t : AddToGroupVersion gv s = (Ok tt, s') →
    known s k = Some t → known s' k = Some t;
  builder l s : SchemeBuilder_AddToScheme l s = for_each l id s;
}.

Section proofs.
Context {S : Type} {SA : SchemeAPI S} {SL : SchemeLaws S}.

Lemma AddToScheme_registers (s s' : S) t :
  AddToScheme s = (Ok tt, s') → t ∈ [TypeRay; TypeRayList] →
  known s' (gvk_of SchemeGroupVersion t) = Some t.
Proof.
  unfold AddToScheme. rewrite builder. cbn [for_each id]. intros Hrun Ht.
  apply bind_Ok_inv in Hrun as ([] & s1 & Hrun & [= <-]). unfold addKnownTypes in Hrun.
  apply bind_Ok_inv in Hrun as ([] & s2 & Ha & ([] & s3 & Hg & [= <-])%bind_Ok_inv).
  eapply group_keeps; [exact Hg|]. eapply added; [exact Ha| |done].
  by apply (bool_decide_unpack _), I.
Qed.

(** The program does not reach [main] without its types.  Initialisation ends
    in a registered scheme or in a panic, never in an error that is dropped; when
    it ends, the custom resource and its list are known under the group and the
    version of the module, which is the group its permissions are for. *)
Theorem init_registers (s : S) :
  let '(r, s') := init s in
  match r with
  | Ok _ => known s' (GVK "components.platform.opendatahub.io" "v1alpha1" "Ray") = Some TypeRay ∧
            known s' (GVK "components.platform.opendatahub.io" "v1alpha1" "RayList") = Some TypeRayList
  | Err _ => False
  | Panic _ => True
  end.
Proof.
  assert (∀ (m : M S unit) s, match (Must m s).1 with Err _ => False | _ => True end) as Hm.
  { intros m t. unfold Must. rewrite bind_split. unfold attempt. by destruct (m t) as [[]]. }
  unfold init. repeat (rewrite bind_split; match goal with
    | |- context [Must ?m ?t] => pose proof (Hm m t); destruct (Must m t) as [[[]|?|?] ?]; [|done..]
    end).
  unfold Must. rewrite bind_split. unfold attempt.
  match goal with |- context [AddToScheme ?t] => destruct (AddToScheme t) as [[[]|?|?] sf] eqn:E end;
    cbn; [|done..].
  split; [apply (AddToScheme_registers _ _ TypeRay E)|apply (AddToScheme_registers _ _ TypeRayList E)];
    set_solver.
Qed.
End proofs.

(** ** Runs *)

(** A scheme that is a map of what was registered. *)
#[local] Instance map_scheme : SchemeAPI (GroupVersionKind → option GoType) := {|
  AddKnownTypes gv l := modify (λ s k,
    if decide (gvk_Group k = gv_Group gv ∧ gvk_Version k = gv_Version gv) then
      match base.filter (λ t, kind_name t = gvk_Kind k) l with t :: _ => Some t | [] => s k end
    else s k);
  AddToGroupVersion _ := mret tt;
  SchemeBuilder_AddToScheme l := for_each l id;
  clientgo_AddToScheme := mret tt;
  apiextensions_AddToScheme := mret tt;
  config_AddToScheme := mret tt;
  known s k := s k |}.

#[local] Instance map_scheme_laws : SchemeLaws (GroupVersionKind → option GoType).
Proof.
  split; [|by intros gv s s' k t [= <-]|done].
  intros gv l s s' t [= <-] Hnd Ht. cbn. rewrite decide_True by done.
  assert (base.filter (λ u, kind_name u = kind_name t) l = [t]) as ->; [|done].
  induction l as [|u l IH]; [by apply elem_of_nil in Ht|].
  cbn in Hnd. apply NoDup_cons in Hnd as [Hu Hnd].
  apply elem_of_cons in Ht as [<-|Ht].
  - rewrite filter_cons_True by done. f_equal. clear IH Hnd.
    induction l as [|v l IHl]; [done|]. rewrite filter_cons_False; [apply IHl; set_solver|].
    intros Hk. apply Hu. cbn. rewrite Hk. apply list_elem_of_here.
  - rewrite filter_cons_False; [by apply IH|]. intros Hk. apply Hu. rewrite Hk.
    by apply list_elem_of_fmap_2.
Qed.

Lemma init_registers_witness :
  let '(r, s') := init (S := GroupVersionKind → option GoType) (λ _, None) in
  r = Ok tt ∧ known s' (GVK "components.platform.opendatahub.io" "v1alpha1" "Ray") = Some TypeRay.
Proof.
  pose proof (init_registers (S := GroupVersionKind → option GoType) (λ _, None)) as H.
  destruct (init _) as [r s'] eqn:E. assert (r = Ok tt) as -> by by injection E.
  split; [done|apply H].
Defined.
