(* ===== verification/Fake.v ===== *)
(** * A cluster in memory

    A concrete instance of every interface of [Kube], for the examples: a
    cluster that keeps its objects in memory, unstructured objects as records,
    and a framework whose actions do the least their contracts ask. *)
From S2P Require Import Prelude GoStrings OS API Kube.

Definition not_found : api_error := ApiError "not found" true false false false.
Definition conflict : api_error := ApiError "conflict" false true false false.
Definition forbidden : api_error := ApiError "forbidden" false false false false.

Definition kind_number (l : ListKind) : nat :=
  match l with
  | DeploymentList => 0 | ConfigMapList => 1 | ServiceList => 2 | ServiceAccountList => 3
  | MutatingWebhookConfigurationList => 4 | ClusterRoleList => 5 | ClusterRoleBindingList => 6
  end.

Definition numbered_kind (n : nat) : ListKind :=
  match n with
  | 0 => DeploymentList | 1 => ConfigMapList | 2 => ServiceList | 3 => ServiceAccountList
  | 4 => MutatingWebhookConfigurationList | 5 => ClusterRoleList | _ => ClusterRoleBindingList
  end.

#[export] Instance ListKind_countable : Countable ListKind.
Proof. apply (inj_countable' kind_number numbered_kind). by intros []. Defined.

Record Fake := MkFake {
  fk_ray : option Ray;
  fk_maps : gmap (string * string) ConfigMap;
  fk_roles : gmap string ClusterRole;
  fk_objects : gmap (ListKind * string * string) Object;
  fk_crds : list GroupVersionKind;
  fk_down : option string; (** the message of the error every call returns, when there is one *)
}.

Definition empty_fake : Fake := MkFake None ∅ ∅ ∅ [] None.

Section calls.
Implicit Types k : Fake.

(** An error that is neither an absence nor a conflict. *)
Definition unavailable (msg : string) : api_error := ApiError msg false false false false.

Definition guarded {A} (k : Fake) (r : api_error + A) : api_error + A :=
  match fk_down k with Some m => inl (unavailable m) | None => r end.

Definition found {A} (o : option A) : api_error + A :=
  match o with Some a => inr a | None => inl not_found end.

Definition fk_set_ray (r : option Ray) k : Fake :=
  MkFake r (fk_maps k) (fk_roles k) (fk_objects k) (fk_crds k) (fk_down k).
Definition fk_set_roles (m : gmap string ClusterRole) k : Fake :=
  MkFake (fk_ray k) (fk_maps k) m (fk_objects k) (fk_crds k) (fk_down k).
Definition fk_set_objects (l : gmap (ListKind * string * string) Object) k : Fake :=
  MkFake (fk_ray k) (fk_maps k) (fk_roles k) l (fk_crds k) (fk_down k).

Definition fk_update_ray (r : Ray) k : (api_error + Ray) * Fake :=
  match guarded k (found (fk_ray k)) with
  | inl e => (inl e, k)
  | inr _ => (inr r, fk_set_ray (Some r) k)
  end.

Definition fk_role (n : string) k : option ClusterRole :=
  c ← fk_roles k !! n; if String.eqb (Name (cr_meta c)) n then Some c else None.

Definition fk_update_role (c : ClusterRole) k : (api_error + ClusterRole) * Fake :=
  match guarded k (found (fk_role (Name (cr_meta c)) k)) with
  | inl e => (inl e, k)
  | inr _ => (inr c, fk_set_roles (<[Name (cr_meta c) := c]> (fk_roles k)) k)
  end.

Definition fk_delete_role (c : ClusterRole) k : option api_error * Fake :=
  match guarded k (found (fk_role (Name (cr_meta c)) k)) with
  | inl e => (Some e, k)
  | inr _ => (None, fk_set_roles (delete (Name (cr_meta c)) (fk_roles k)) k)
  end.

Definition fk_create_or_update (c : ClusterRole) (f : ClusterRole → ClusterRole) k
    : option error * Fake :=
  match fk_down k with
  | Some m => (Some (EApi (unavailable m)), k)
  | None =>
      let n := Name (cr_meta c) in
      let c' := f (default c (fk_role n k)) in
      if String.eqb (Name (cr_meta c')) n
      then (None, fk_set_roles (<[n := c']> (fk_roles k)) k)
      else (Some (ELib "MutateFn cannot mutate object name and/or object namespace"), k)
  end.

Definition fk_object (i : ListKind * string * string) k : option Object :=
  o ← fk_objects k !! i; if decide (identity o = i) then Some o else None.

Definition listed (l : ListKind) (ns : option string) (o : Object) : Prop :=
  obj_list o = l ∧ match ns with Some n => Namespace (obj_meta o) = n | None => True end.

#[export] Instance listed_dec l ns o : Decision (listed l ns o).
Proof. unfold listed. destruct ns; apply _. Defined.

Definition fk_list (l : ListKind) (ns : option string) k : list Object :=
  base.filter (listed l ns)
    (omap (λ e, fk_object e.1 k) (map_to_list (fk_objects k))).

Definition set_DeletionTimestamp (t : Z) (m : ObjectMeta) : ObjectMeta :=
  Build_ObjectMeta (Name m) (Namespace m) (UID m) (Labels m) (OwnerReferences m)
    (Finalizers m) (Generation m) (Some t).

Definition fk_delete (o : Object) k : option api_error * Fake :=
  match guarded k (found (fk_object (identity o) k)) with
  | inl e => (Some e, k)
  | inr x =>
      (None, fk_set_objects
        match Finalizers (obj_meta x) with
        | [] => delete (identity o) (fk_objects k)
        | _ => <[identity o := Build_Object (obj_list x) (set_DeletionTimestamp 1 (obj_meta x))]>
                 (fk_objects k)
        end k)
  end.
End calls.

#[export] Instance fake_api : KubeAPI Fake := {|
  GetRay := λ n k, guarded k (found (r ← fk_ray k;
                     if String.eqb (Name (ray_meta r)) n then Some r else None));
  GetConfigMap := λ ns n k, guarded k (found (fk_maps k !! (ns, n)));
  GetClusterRole := λ n k, guarded k (found (fk_role n k));
  UpdateRay := fk_update_ray;
  UpdateClusterRole := fk_update_role;
  DeleteClusterRole := fk_delete_role;
  CreateOrUpdate := fk_create_or_update;
  ObjectList := list Object;
  ListObjects := λ l ns k, guarded k (inr (fk_list l ns k));
  ExtractList := λ l, inr (map AnObject l);
  Delete := λ o _ k, fk_delete o k;
  RemoveFinalizer := λ f l, (base.filter (λ x, x ≠ f) l, bool_decide (f ∈ l));
  HasCRD := λ g k, match fk_down k with
                   | Some m => inl (EApi (unavailable m))
                   | None => inr (bool_decide (g ∈ fk_crds k))
                   end;
  RESTMapping := λ g kind v k,
    match fk_down k with
    | Some m => Some (EApi (unavailable m))
    | None => if decide (GVK g v kind ∈ fk_crds k) then None
              else Some (EApi (ApiError "no match" false false true false))
    end;
|}.

(** A guarded lookup, by cases. *)
Lemma guarded_found {A} k (o : option A) :
  match guarded k (found o) with
  | inr a => o = Some a
  | inl e => IsNotFound e = true → o = None
  end.
Proof. unfold guarded, found. destruct (fk_down k); [done|]. by destruct o. Qed.

(** ** Unstructured objects *)

Record Obj := MkObj {
  o_gvk : GroupVersionKind;
  o_name : string;
  o_namespace : string;
  o_labels : option (gmap string string);
}.

#[export] Instance Obj_eq_dec : EqDecision Obj.
Proof. solve_decision. Defined.

#[export] Instance fake_unstructured : Unstructured Obj := {|
  GetKind := λ u, gvk_Kind (o_gvk u);
  GVKOf := o_gvk;
  GetNamespace := o_namespace;
  SetNamespace := λ n u, MkObj (o_gvk u) (o_name u) n (o_labels u);
  GetLabels := o_labels;
  SetLabels := λ l u, MkObj (o_gvk u) (o_name u) (o_namespace u) (Some l);
|}.

#[export] Instance fake_unstructured_laws : UnstructuredLaws Obj.
Proof. split; by intros []. Qed.

(** ** The framework *)

Definition mark (v : string) (t : string) (opts : list ConditionOption)
    (l : list Condition) : list Condition :=
  let c := fold_left (λ c o,
    match o with
    | WithReason s => Build_Condition t v s (cond_Message c) (cond_ObservedGeneration c)
    | WithMessage s => Build_Condition t v (cond_Reason c) s (cond_ObservedGeneration c)
    | WithObservedGeneration g => Build_Condition t v (cond_Reason c) (cond_Message c) g
    end) opts (Build_Condition t v "" "" 0) in
  base.filter (λ c, cond_Type c ≠ t) l ++ [c].

Definition condition_true (t : string) (l : list Condition) : bool :=
  existsb (λ c, String.eqb (cond_Type c) t && String.eqb (cond_Status c) "True") l.

Definition platform_release (v : string) (l : ComponentReleaseStatus) : ComponentReleaseStatus :=
  base.filter (λ r, rel_Name r ≠ "Platform") l ++ [Build_ComponentRelease "Platform" v ""].

(** The garbage collector, the deploy action and the deployment status do
    nothing: they are the code of the framework. *)
Definition fake_framework (rendered : string → list Obj) : Framework Fake Obj :=
  {|
  MarkTrue := mark "True";
  MarkFalse := mark "False";
  IsStatusConditionTrue := condition_true;
  SetPlatformRelease := platform_release;
  GC_NewAction := λ _ _, (mret tt : Action Fake Obj);
  Deploy_NewAction := λ _, (mret tt : Action Fake Obj);
  Deployments_NewAction := λ _, (mret tt : Action Fake Obj);
  Engine_Render := λ path _, mret (rendered path);
  DefaultPartOfLabelKey := "platform.opendatahub.io/part-of";
  ConditionTypeProvisioningSucceeded := "ProvisioningSucceeded";
|}.

(** ** A request *)

Definition sample_ray (state ns : string) : Ray :=
  Build_Ray (Build_ObjectMeta "default-ray" "" "uid-1" None [] [FinalizerName] 7 None)
    (Build_RaySpec state ns)
    (Build_RayStatus (Build_Status "" 0 []) [] (Build_Distribution "" "")).

Definition sample_request (r : Ray) : Request Obj :=
  Build_Request true (Some (ARay r)) (Some ∅) false [] [].

Definition sample_state (r : Ray) (k : Fake) (o : OS) : State Fake Obj :=
  MkState (sample_request r) k o (Build_FilterCache false false).
