(* ===== verification/ParamsFile.v ===== *)
(** * The parameter file of the overlay: [internal/controller/params.go]

    [parseParams], [updateParam] and [applyParams]: the key=value file that
    kustomize reads is rewritten with the images of the environment and the
    namespace of the resource.  The properties say what is written under every
    pattern of failing system calls, and that it reads back and settles. *)
From S2P Require Import Prelude GoStrings OS.

Definition imageParamMap : gmap string string :=
  list_to_map
    [("odh-kuberay-operator-controller-image",
      "RELATED_IMAGE_ODH_KUBERAY_OPERATOR_CONTROLLER_IMAGE");
     ("odh-kube-rbac-proxy-image", "RELATED_IMAGE_ODH_KUBE_RBAC_PROXY_IMAGE")].

(** ** The code *)

Section params.
Context `{MapRange}.

(** One line: what follows the first equals sign is the value. *)
Definition add_line (params : gmap string string) (line : string) : gmap string string :=
  match Cut line "=" with
  | Some (key, value) => <[key := value]> params
  | None => params
  end.

Definition parse_lines (ls : list string) : gmap string string := fold_left add_line ls ∅.

Definition parseParams (fileName : string) : M OS (gmap string string) :=
  c ← ReadFile fileName;
  match scan_lines c with
  | (ls, None) => mret (parse_lines ls)
  | (_, Some e) => fail_os e
  end.

(** The value returned is or-ed into a flag. *)
Definition updateParam (m : gmap string string) (key val : string)
    : gmap string string * Z :=
  let old := default "" (m !! key) in
  if String.eqb old val then (m, 0%Z) else (<[key := val]> m, 1%Z).

Definition update_or (acc : gmap string string * Z) (key val : string)
    : gmap string string * Z :=
  let '(m, u) := updateParam acc.1 key val in (m, Z.lor acc.2 u).

(** [for key := range paramsEnvMap]: the images of the environment replace
    the parameters that name them. *)
Fixpoint override_images (images : gmap string string) (keys : list string)
    (acc : gmap string string * Z) : M OS (gmap string string * Z) :=
  match keys with
  | [] => mret acc
  | key :: keys' =>
      match images !! key with
      | None => override_images images keys' acc
      | Some envVar =>
          relatedImageValue ← Getenv envVar;
          override_images images keys'
            (if String.eqb relatedImageValue "" then acc
             else update_or acc key relatedImageValue)
      end
  end.

(** [for key, value := range extraParamsMap] *)
Definition override_extra (entries : list (string * string))
    (acc : gmap string string * Z) : gmap string string * Z :=
  fold_left (λ acc e, update_or acc e.1 e.2) entries acc.

Fixpoint override_extras (maps : list (gmap string string))
    (acc : gmap string string * Z) : M OS (gmap string string * Z) :=
  match maps with
  | [] => mret acc
  | m :: maps' =>
      entries ← range_entries m;
      override_extras maps' (override_extra entries acc)
  end.

Definition param_line (e : string * string) : string := e.1 +:+ String "=" e.2.

(** The temporary file is removed on a failure, and a failure to remove it
    is ignored. *)
Definition or_remove {A} (tmp : string) (m : M OS A) : M OS A :=
  r ← attempt m;
  match r with
  | inr a => mret a
  | inl e => attempt (Remove tmp) ;; fail e
  end.

(** The lines go through a buffer, written to the file when it is flushed;
    printing a line fails when the buffer is full and cannot be written. *)
Definition write_params (tmp paramsFile : string) (entries : list (string * string))
    : M OS unit :=
  or_remove tmp (for_each entries (λ _, syscall (mret tt))) ;;
  or_remove tmp (wrapping "failed to write params: %w" []
    (write_to (resolve tmp) (unlines (map param_line entries)))) ;;
  or_remove tmp (wrapping "failed rename %s to %s: %w" [tmp; paramsFile]
    (Rename tmp paramsFile)).

Definition applyParams (componentPath : string) (imageParamsMap : gmap string string)
    (extraParamsMaps : list (gmap string string)) : M OS unit :=
  let paramsFile := Join [componentPath; "params.env"] in
  r ← attempt (parseParams paramsFile);
  match r with
  | inl err => if IsNotExist err then mret tt else fail err
  | inr paramsEnvMap =>
      keys ← range_entries paramsEnvMap;
      acc ← override_images imageParamsMap keys.*1 (paramsEnvMap, 0%Z);
      acc ← override_extras extraParamsMaps acc;
      if (acc.2 =? 0)%Z then mret tt
      else
        tmp ← CreateTemp componentPath "params.env-";
        entries ← range_entries acc.1;
        write_params tmp paramsFile entries
  end.
End params.

(** * Properties *)

(** ** What an update of the parameters means

    The value of each parameter after the images of the environment and the
    extra maps were applied. *)
Definition image_value (e images : gmap string string) (key old : string) : string :=
  match images !! key with
  | None => old
  | Some envVar =>
      let v := default "" (e !! envVar) in if String.eqb v "" then old else v
  end.

Definition with_images (e images m : gmap string string) : gmap string string :=
  map_imap (λ key old, Some (image_value e images key old)) m.

(** An extra parameter that is not in the file is added unless it is empty. *)
Definition extra_value (cur extra : option string) : option string :=
  match extra with
  | None => cur
  | Some v => if String.eqb (default "" cur) v then cur else Some v
  end.

Definition with_extra (m extra : gmap string string) : gmap string string :=
  merge extra_value m extra.

Definition overridden (e images : gmap string string) (extras : list (gmap string string))
    (m : gmap string string) : gmap string string :=
  fold_left with_extra extras (with_images e images m).

Lemma with_images_lookup e images m k :
  with_images e images m !! k = image_value e images k <$> m !! k.
Proof. unfold with_images. rewrite map_lookup_imap. by destruct (m !! k). Qed.

Lemma with_extra_lookup m extra k :
  with_extra m extra !! k = extra_value (m !! k) (extra !! k).
Proof.
  unfold with_extra. rewrite lookup_merge. by destruct (m !! k), (extra !! k).
Qed.

(** ** The two override loops *)

Section loops.
Context `{MapRange}.
Implicit Types (m images extra : gmap string string).

Lemma updateParam_map m key val k :
  (updateParam m key val).1 !! k =
    if decide (k = key) then extra_value (m !! key) (Some val) else m !! k.
Proof.
  unfold updateParam, extra_value.
  destruct (String.eqb (default "" (m !! key)) val); cbn; case_decide; subst; try done.
  - by rewrite lookup_insert_eq.
  - by rewrite lookup_insert_ne.
Qed.

Lemma update_or_eq acc key val :
  update_or acc key val =
    ((updateParam acc.1 key val).1, Z.lor acc.2 (updateParam acc.1 key val).2).
Proof. unfold update_or. by destruct (updateParam acc.1 key val). Qed.

(** The flag stays zero only as long as nothing changed. *)
Lemma update_or_flag acc key val :
  (update_or acc key val).2 = 0%Z → acc.2 = 0%Z ∧ (update_or acc key val).1 = acc.1.
Proof.
  rewrite update_or_eq. cbn. intros [Ha Hb]%Z.lor_eq_0_iff. split; [done|].
  unfold updateParam in *. by destruct (String.eqb _ val).
Qed.

Lemma override_extra_flag entries acc :
  (override_extra entries acc).2 = 0%Z →
  acc.2 = 0%Z ∧ (override_extra entries acc).1 = acc.1.
Proof.
  unfold override_extra. revert acc. induction entries as [|e l IH]; intros acc; [done|].
  cbn. intros [Hz Hm]%IH. destruct (update_or_flag _ _ _ Hz) as [? Hm']. by rewrite Hm, Hm'.
Qed.

Lemma override_extra_lookup entries acc k :
  NoDup entries.*1 →
  (override_extra entries acc).1 !! k =
    extra_value (acc.1 !! k) ((list_to_map entries : gmap string string) !! k).
Proof.
  unfold override_extra. revert acc.
  induction entries as [|[k' v] l IH]; intros acc; [done|].
  cbn [fmap list_fmap fst fold_left]. intros [Hk' Hl]%NoDup_cons.
  rewrite (IH _ Hl), update_or_eq. cbn [fst]. rewrite updateParam_map.
  change (list_to_map ((k', v) :: l)) with (<[k' := v]> (list_to_map l : gmap string string)).
  case_decide as Hd; subst.
  - rewrite lookup_insert_eq, not_elem_of_list_to_map_1; done.
  - by rewrite lookup_insert_ne.
Qed.

(** Any order of the entries gives the same map. *)
Lemma override_extra_range n extra acc :
  (override_extra (range n extra) acc).1 = with_extra acc.1 extra.
Proof.
  apply map_eq. intros k. pose proof (range_perm n extra) as Hp.
  assert (NoDup (range n extra).*1) as Hnd.
  { rewrite Hp. apply NoDup_fst_map_to_list. }
  rewrite override_extra_lookup, with_extra_lookup by done. do 2 f_equal.
  rewrite <- (list_to_map_to_list (M:=gmap string) extra) at 2.
  by apply list_to_map_proper.
Qed.

Lemma override_extras_run maps acc o :
  ∃ acc', override_extras maps acc o = (Ok acc', o) ∧
    acc'.1 = fold_left with_extra maps acc.1 ∧
    (acc'.2 = 0%Z → acc.2 = 0%Z ∧ acc'.1 = acc.1).
Proof.
  revert acc. induction maps as [|m maps IH]; intros acc; [by exists acc|].
  change (override_extras (m :: maps) acc o)
    with (override_extras maps (override_extra (range (clock o) m) acc) o).
  destruct (IH (override_extra (range (clock o) m) acc)) as (acc' & -> & Hm & Hf).
  exists acc'. split_and!; [done| |].
  - by rewrite Hm, (override_extra_range _ m acc).
  - intros [Hz He]%Hf. destruct (override_extra_flag _ _ Hz) as [? He']. by rewrite He, He'.
Qed.

Lemma override_images_run images keys acc o :
  NoDup keys →
  ∃ acc', override_images images keys acc o = (Ok acc', o) ∧
    (∀ k, acc'.1 !! k =
       if decide (k ∈ keys) then
         (if decide (is_Some (acc.1 !! k))
          then image_value (env o) images k <$> acc.1 !! k else acc'.1 !! k)
       else acc.1 !! k) ∧
    (acc'.2 = 0%Z → acc.2 = 0%Z ∧ acc'.1 = acc.1).
Proof.
  revert acc. induction keys as [|key keys IH]; intros acc Hnd.
  { exists acc. split_and!; [done| |done]. intros k. by rewrite decide_False by apply not_elem_of_nil. }
  apply NoDup_cons in Hnd as [Hkey Hnd].
  set (v := match images !! key with Some ev => default "" (env o !! ev) | None => "" end).
  set (acc1 := if String.eqb v "" then acc else update_or acc key v).
  assert (override_images images (key :: keys) acc o = override_images images keys acc1 o) as ->.
  { cbn. subst acc1 v. by destruct (images !! key). }
  destruct (IH acc1 Hnd) as (acc' & -> & Hl & Hf). exists acc'.
  assert (∀ k, k ≠ key → acc1.1 !! k = acc.1 !! k) as Hne.
  { intros k Hk. subst acc1. destruct (String.eqb v ""); [done|].
    rewrite update_or_eq. cbn. rewrite updateParam_map. by rewrite decide_False. }
  split_and!; [done| |].
  - intros k. destruct (decide (k = key)) as [->|Hk].
    + rewrite decide_True by apply list_elem_of_here. case_decide as Hs; [|done].
      destruct Hs as [old Hold]. rewrite Hl, decide_False, Hold by done.
      subst acc1. unfold image_value. subst v. destruct (images !! key) as [ev|]; [|done].
      destruct (String.eqb_spec (default "" (env o !! ev)) ""); [done|].
      rewrite update_or_eq. cbn. rewrite updateParam_map, decide_True, Hold by done. cbn.
      destruct (String.eqb_spec old (default "" (env o !! ev))); congruence.
    + assert (k ∈ key :: keys ↔ k ∈ keys) as Hin by (rewrite elem_of_cons; tauto).
      rewrite Hl, Hne by done. clear -Hin. repeat case_decide; tauto.
  - intros [Hz He]%Hf. subst acc1. destruct (String.eqb v ""); [done|].
    apply update_or_flag in Hz as [? Hm]. by rewrite He.
Qed.

(** Ranging over the parameters in any order updates each of them. *)
Lemma override_images_range n images m o :
  ∃ acc, override_images images (range n m).*1 (m, 0%Z) o = (Ok acc, o) ∧
    acc.1 = with_images (env o) images m ∧ (acc.2 = 0%Z → acc.1 = m).
Proof.
  pose proof (range_perm n m) as Hp.
  destruct (override_images_run images (range n m).*1 (m, 0%Z) o) as (acc & Hr & Hl & Hf).
  { rewrite Hp. apply NoDup_fst_map_to_list. }
  exists acc. split_and!; [done| |by intros [_ ?]%Hf].
  apply map_eq. intros k. rewrite with_images_lookup, Hl.
  assert (k ∈ (range n m).*1 ↔ is_Some (m !! k)) as Hk.
  { rewrite Hp, list_elem_of_fmap. split.
    - intros ([k' v] & -> & Hv%elem_of_map_to_list). by exists v.
    - intros [v Hv]. exists (k, v). by rewrite elem_of_map_to_list. }
  case_decide as Hin; cbn.
  - by rewrite decide_True by tauto.
  - destruct (m !! k) eqn:E; [|done]. exfalso. apply Hin, Hk. eauto.
Qed.
End loops.

(** ** The file-system effect of [applyParams] *)

Lemma resolve_join_path dir name t :
  plain (name +:+ t) = true → resolve (join_path dir name +:+ t) = resolve dir ++ [name +:+ t].
Proof.
  intros Hp. unfold join_path. destruct (ends_with "/" dir) eqn:E.
  - apply ends_with_inv in E as [d ->].
    assert (resolve (d +:+ String "/" "") = resolve d) as ->.
    { unfold resolve. rewrite split_on_app_gen. unfold clean_comps. by rewrite fold_left_app. }
    rewrite <- !str_app_assoc. by apply resolve_slash_plain.
  - rewrite <- !str_app_assoc. by apply resolve_slash_plain.
Qed.

Definition temp_name (d : Decimal.uint) : string := "params.env-" +:+ uint_string d.

Lemma temp_name_plain d : plain (temp_name d) = true.
Proof. unfold plain, temp_name. by rewrite no_char_app, uint_string_no_slash. Qed.

Definition params_path (componentPath : string) : list string :=
  resolve componentPath ++ ["params.env"].

Definition temp_path (componentPath : string) (d : Decimal.uint) : list string :=
  resolve componentPath ++ [temp_name d].

Lemma temp_path_ne cp d : temp_path cp d ≠ params_path cp.
Proof. unfold temp_path, params_path. intros [_ [=]]%app_inj_2; done. Qed.

Section file_effect.
Context `{MapRange}.

Lemma parseParams_Ok p o m o' :
  parseParams p o = (Ok m, o') →
  ∃ c ls, fs o !! resolve p = Some (File c) ∧ scan_lines c = (ls, None) ∧ m = parse_lines ls.
Proof.
  unfold parseParams. intros (c & o1 & Hr%ReadFile_Ok & Hs)%bind_Ok_inv.
  destruct (scan_lines c) as [ls [e|]] eqn:E; [done|]. unfold mret, M_ret in Hs. simplify_eq. eauto.
Qed.

Lemma parseParams_ENOENT p o e o' :
  parseParams p o = (Err e, o') → IsNotExist e = true → fs o !! resolve p = None.
Proof.
  unfold parseParams, mbind, M_bind, fail_os.
  destruct (ReadFile p o) as [[c|e'|w] o1] eqn:E; [|intros [= <- <-]; by eapply ReadFile_ENOENT|done].
  pose proof (scan_pieces_error (split_on LF c)) as He. fold (scan_lines c) in He.
  destruct (scan_lines c) as [ls [e'|]]; [|done]. cbn in He. by intros [= <- <-]; subst.
Qed.

Lemma within_parseParams P p : within P (parseParams p).
Proof. unfold parseParams, fail_os. frame. Qed.

Lemma safe_parseParams p : safe (parseParams p).
Proof. unfold parseParams, fail_os. no_panic. Qed.

Lemma or_remove_run {A} tmp (m : M OS A) o :
  safe m →
  (∃ a o', m o = (Ok a, o') ∧ or_remove tmp m o = (Ok a, o')) ∨
  (∃ e o' o'', m o = (Err e, o') ∧ or_remove tmp m o = (Err e, o'') ∧
     ∀ k, k ≠ resolve tmp → fs o'' !! k = fs o' !! k).
Proof.
  intros Hm. unfold or_remove, mbind, M_bind, attempt.
  destruct (m o) as [[a|e|w] o'] eqn:E; [left; by exists a, o'| |by destruct (safe_not_Panic _ _ _ _ Hm E)].
  right. exists e, o'.
  destruct (within_Remove (eq (resolve tmp)) tmp eq_refl o') as (_ & _ & _ & Hk).
  destruct (Remove tmp o') as [[u|e'|w] o''] eqn:Er; cbn in Hk |- *.
  1,2: exists o''; eauto.
  by destruct (safe_not_Panic _ _ _ _ (safe_Remove tmp) Er).
Qed.

(** The parameter file is replaced by the complete new content, or by nothing. *)
Lemma write_params_run tmp p entries o :
  fs o !! resolve tmp = Some (File "") → resolve tmp ≠ resolve p →
  (∃ o', write_params tmp p entries o = (Ok tt, o') ∧
     fs o' = <[resolve p := File (unlines (map param_line entries))]>
               (delete (resolve tmp) (fs o))) ∨
  (∃ e o', write_params tmp p entries o = (Err e, o') ∧
     ∀ k, k ≠ resolve tmp → fs o' !! k = fs o !! k).
Proof.
  intros Ht Hne. unfold write_params.
  set (print := for_each entries _).
  assert (within (λ _, False) print) as Hpw by (unfold print; apply within_for_each; frame).
  assert (safe print) as Hps by (unfold print; no_panic).
  destruct (or_remove_run tmp print o Hps) as [([] & o1 & E1 & R1)|(e & o1 & o1' & E1 & R1 & K1)];
    pose proof (within_none_fs print o Hpw) as F1; rewrite E1 in F1; cbn in F1; [|right].
  2: { exists e, o1'. split; [by apply bind_Err|]. intros k Hk. by rewrite K1, F1. }
  rewrite (bind_Ok _ _ _ _ _ R1). clear R1 E1 Hpw Hps. subst print.
  set (flush := wrapping _ _ (write_to _ _)).
  assert (within (eq (resolve tmp)) flush) as Hfw by (unfold flush; frame).
  assert (safe flush) as Hfs by (unfold flush; no_panic).
  destruct (or_remove_run tmp flush o1 Hfs) as [([] & o2 & E2 & R2)|(e & o2 & o2' & E2 & R2 & K2)].
  2: { right. exists e, o2'. split; [by apply bind_Err|]. intros k Hk.
       destruct (Hfw o1) as (_ & _ & _ & Hk1). rewrite E2 in Hk1. cbn in Hk1.
       rewrite K2, Hk1, F1 by congruence. done. }
  rewrite (bind_Ok _ _ _ _ _ R2).
  assert (fs o2 = <[resolve tmp := File (unlines (map param_line entries))]> (fs o)) as F2.
  { rewrite <- F1. eapply (write_to_Ok _ _ ""); [by rewrite F1|].
    subst flush. unfold wrapping in E2. by destruct (write_to _ _ _) as [[[]| |] ?]. }
  clear R2 E2 Hfw Hfs. set (ren := wrapping _ _ (Rename _ _)).
  assert (safe ren) as Hrs by (unfold ren; no_panic).
  destruct (or_remove_run tmp ren o2 Hrs) as [([] & o3 & E3 & R3)|(e & o3 & o3' & E3 & R3 & K3)];
    rewrite R3; [left|right].
  - exists o3. split; [done|]. unfold ren, wrapping in E3.
    destruct (Rename tmp p o2) as [[[]| |] ?] eqn:En; simplify_eq.
    apply Rename_Ok in En as (n & Hn & ->). rewrite F2, lookup_insert_eq in Hn. simplify_eq.
    by rewrite F2, delete_insert_eq.
  - exists e, o3'. split; [done|]. intros k Hk. unfold ren, wrapping in E3.
    destruct (Rename tmp p o2) as [[[]| |] ?] eqn:En; simplify_eq.
    apply Rename_Err in En. by rewrite K3, En, F2, lookup_insert_ne.
Qed.
End file_effect.

(** ** Writing the parameters and reading them back *)

(** A parameter that one line of the file can carry. *)
Definition wf_entry (e : string * string) : Prop :=
  no_char "=" e.1 = true ∧ no_char LF e.1 = true ∧ no_char LF e.2 = true ∧
  ends_with CR e.2 = false ∧ line_fits (param_line e).

#[export] Instance wf_entry_dec e : Decision (wf_entry e).
Proof. unfold wf_entry, line_fits. apply _. Defined.

Lemma param_line_scanned e : wf_entry e → drop_cr (param_line e) = param_line e.
Proof.
  intros (_ & _ & _ & Hcr & _). apply drop_cr_id. unfold param_line.
  rewrite ends_with_app. destruct e.2 as [|a s]; [done|].
  change (String "=" (String a s)) with ("=" +:+ String a s). by rewrite ends_with_app.
Qed.

Lemma parse_written entries :
  NoDup entries.*1 → Forall wf_entry entries →
  scan_lines (unlines (map param_line entries)) = (map param_line entries, None) ∧
  parse_lines (map param_line entries) = list_to_map entries.
Proof.
  intros Hnd Hwf. split.
  - rewrite scan_lines_unlines.
    + f_equal. rewrite map_map. apply map_ext_in. intros e He%list_elem_of_In.
      rewrite Forall_forall in Hwf. by apply param_line_scanned, Hwf.
    + apply Forall_map. eapply Forall_impl; [done|]. intros [k v] (_ & Hk & Hv & _).
      unfold param_line. cbn [fst snd] in *. rewrite no_char_app, Hk. by apply no_char_cons.
    + apply Forall_map. eapply Forall_impl; [done|]. by intros e (_ & _ & _ & _ & ?).
  - unfold parse_lines. rewrite <- (right_id_L ∅ (∪) (list_to_map entries)).
    generalize (∅ : gmap string string) as acc.
    induction Hwf as [|[k v] l He _ IH]; intros acc; [by rewrite list_to_map_nil, (left_id_L ∅ (∪))|].
    cbn [fmap list_fmap fst] in Hnd. apply NoDup_cons in Hnd as [Hk Hnd].
    cbn [map fold_left]. rewrite (IH Hnd). unfold add_line, param_line. cbn [fst snd].
    destruct He as (Heq & _). cbn [fst snd] in Heq. rewrite Cut_app by done.
    rewrite list_to_map_cons, <- insert_union_l, insert_union_r; [done|].
    by apply not_elem_of_list_to_map_1.
Qed.

(** ** Applying the parameters twice *)

Lemma overridden_idemp e images extra m :
  (∀ k, is_Some (images !! k) → extra !! k = None) →
  let m' := overridden e images [extra] m in
  with_images e images m' = m' ∧ with_extra m' extra = m'.
Proof.
  intros Hdis. cbn. split; apply map_eq; intros k.
  - rewrite with_images_lookup, with_extra_lookup, with_images_lookup.
    unfold image_value. destruct (images !! k) as [ev|] eqn:Ei; cbn.
    + rewrite Hdis by eauto. cbn. destruct (m !! k); cbn; [|done]. by case_match.
    + by destruct (extra_value _ _).
  - rewrite !with_extra_lookup. unfold extra_value.
    destruct (extra !! k) as [v|]; [|done].
    destruct (String.eqb (default "" (with_images e images m !! k)) v) eqn:E; [by rewrite E|].
    cbn. by rewrite String.eqb_refl.
Qed.

Section settling.
Context `{MapRange}.

Lemma update_or_id m key val :
  extra_value (m !! key) (Some val) = m !! key →
  update_or (m, 0%Z) key val = (m, 0%Z).
Proof.
  unfold extra_value, update_or, updateParam. cbn. intros He.
  destruct (String.eqb_spec (default "" (m !! key)) val) as [|Hne]; [done|].
  exfalso. apply Hne. by rewrite <- He.
Qed.

Lemma override_images_noop images keys m o :
  (∀ k, k ∈ keys → ∃ old, m !! k = Some old ∧ image_value (env o) images k old = old) →
  override_images images keys (m, 0%Z) o = (Ok (m, 0%Z), o).
Proof.
  induction keys as [|key keys IH]; intros Hk; [done|]. cbn.
  specialize (IH (λ k Hin, Hk k (list_elem_of_further _ _ _ Hin))).
  destruct (Hk key (list_elem_of_here _ _)) as (old & Hold & Hv).
  unfold image_value in Hv; cbv zeta in Hv.
  destruct (images !! key) as [ev|]; [|done].
  unfold mbind, M_bind, Getenv, gets.
  destruct (String.eqb (default "" (env o !! ev)) "") eqn:E; [done|].
  subst old. rewrite update_or_id; [done|].
  rewrite Hold. cbn. by rewrite String.eqb_refl.
Qed.

Lemma override_extra_noop entries m :
  (∀ e, e ∈ entries → extra_value (m !! e.1) (Some e.2) = m !! e.1) →
  override_extra entries (m, 0%Z) = (m, 0%Z).
Proof.
  unfold override_extra. induction entries as [|e l IH]; intros He; [done|]. cbn.
  rewrite update_or_id by apply He, list_elem_of_here.
  apply IH. intros e' Hin. apply He. by apply list_elem_of_further.
Qed.

(** Parameters that are already as they should be are not written again. *)
Lemma applyParams_noop cp images extra o m o1 :
  parseParams (Join [cp; "params.env"]) o = (Ok m, o1) →
  env o1 = env o →
  with_images (env o) images m = m → with_extra m extra = m →
  applyParams cp images [extra] o = (Ok tt, o1).
Proof.
  intros Hp He Hi Hx. unfold applyParams.
  rewrite (bind_Ok _ _ _ _ _ (attempt_Ok _ _ _ _ Hp)). cbn.
  unfold mbind, M_bind, range_entries, gets at 1. cbn.
  rewrite override_images_noop; cycle 1.
  { intros k Hk. rewrite (range_perm (clock o1) m), list_elem_of_fmap in Hk.
    destruct Hk as ([k' old] & -> & Hold%elem_of_map_to_list). exists old. split; [done|].
    rewrite He. cbn in *. assert (with_images (env o) images m !! k' = m !! k') as Hl by by rewrite Hi.
    rewrite with_images_lookup, Hold in Hl. cbn in Hl. congruence. }
  cbn. unfold mbind, M_bind, gets, mret, M_ret. rewrite override_extra_noop; [done|].
  intros [k v] Hin. rewrite (range_perm (clock o1) extra), elem_of_map_to_list in Hin. cbn [fst snd].
  rewrite <- Hin, <- with_extra_lookup. by rewrite Hx.
Qed.
End settling.

(** ** The theorems *)

(** What a run of [applyParams] that ends in [r] and [o'] has done. *)
Definition applied (cp : string) (images : gmap string string)
    (extras : list (gmap string string)) (o : OS) (r : res unit) (o' : OS) : Prop :=
  env o' = env o ∧
  match r with
  | Panic _ => False
  | Err _ => ∀ k, (∀ d, k ≠ temp_path cp d) → fs o' !! k = fs o !! k
  | Ok _ =>
      (fs o !! params_path cp = None ∧ fs o' = fs o) ∨
      ∃ c ls m, fs o !! params_path cp = Some (File c) ∧ scan_lines c = (ls, None) ∧
        m = overridden (env o) images extras (parse_lines ls) ∧
        ((m = parse_lines ls ∧ fs o' = fs o) ∨
         ∃ entries, entries ≡ₚ map_to_list m ∧
           fs o' = <[params_path cp := File (unlines (map param_line entries))]> (fs o))
  end.

Section theorems.
Context `{MapRange}.

Lemma CreateTemp_run cp o r o' :
  cp ≠ "" → CreateTemp cp "params.env-" o = (r, o') →
  env o' = env o ∧
  match r with
  | Ok tmp => ∃ d, resolve tmp = temp_path cp d ∧ fs o !! temp_path cp d = None ∧
                   fs o' = <[temp_path cp d := File ""]> (fs o)
  | Err _ => fs o' = fs o
  | Panic _ => False
  end.
Proof.
  intros Hcp. unfold CreateTemp. rewrite (proj2 (String.eqb_neq _ _) Hcp).
  unfold mbind, M_bind, mret, M_ret. set (n := Z.to_nat 10000). intros Hrun.
  assert (∀ d, resolve (join_path cp "params.env-" +:+ uint_string d) = temp_path cp d) as Hres.
  { intros d. apply resolve_join_path, (temp_name_plain d). }
  pose proof (within_env (λ k, ∃ d, k = temp_path cp d) _ o
    (within_create_temp _ n (join_path cp "params.env-")
       (λ d, ex_intro _ d (Hres d)))) as He.
  rewrite Hrun in He. split; [done|].
  destruct r as [tmp|e|w].
  - apply create_temp_Ok in Hrun as ([d ->] & Hn & Hf). rewrite Hres in Hn, Hf. eauto.
  - by eapply create_temp_Err.
  - by eapply (safe_not_Panic _ _ _ _ (safe_create_temp n _)).
Qed.

Lemma within_write_params (P : list string → Prop) tmp p entries :
  P (resolve tmp) → P (resolve p) → within P (write_params tmp p entries).
Proof.
  intros Ht Hp. unfold write_params, or_remove.
  assert (within P (for_each entries (λ _, syscall (mret tt)))).
  { apply within_for_each. frame. }
  frame.
Qed.

Lemma replace_params_run cp p m o r o' :
  cp ≠ "" → resolve p = params_path cp →
  (CreateTemp cp "params.env-" ≫= λ tmp,
     range_entries m ≫= λ entries, write_params tmp p entries) o = (r, o') →
  env o' = env o ∧
  match r with
  | Panic _ => False
  | Err _ => ∀ k, (∀ d, k ≠ temp_path cp d) → fs o' !! k = fs o !! k
  | Ok _ => ∃ entries, entries ≡ₚ map_to_list m ∧
      fs o' = <[params_path cp := File (unlines (map param_line entries))]> (fs o)
  end.
Proof.
  intros Hcp Hp. unfold mbind at 1, M_bind at 1.
  destruct (CreateTemp cp "params.env-" o) as [[tmp|e|w] o1] eqn:E;
    pose proof (CreateTemp_run _ _ _ _ Hcp E) as [He Hr]; [|intros; simplify_eq|done].
  2: { split; [done|]. intros k _. by rewrite Hr. }
  destruct Hr as (d & Hd & Hfresh & Hf). unfold mbind, M_bind, range_entries, gets.
  set (entries := range (clock o1) m).
  assert (fs o1 !! resolve tmp = Some (File "")) as Htmp by by rewrite Hf, Hd, lookup_insert_eq.
  assert (resolve tmp ≠ resolve p) as Hne by (rewrite Hd, Hp; apply temp_path_ne).
  pose proof (within_env _ _ o1 (within_write_params (λ _, True) tmp p entries I I)) as Hew.
  destruct (write_params_run tmp p entries o1 Htmp Hne) as [(o2 & Hw & F2)|(e & o2 & Hw & K2)];
    rewrite Hw in *; cbn in Hew; intros; simplify_eq; (split; [congruence|]).
  - exists entries. split; [apply range_perm|].
    by rewrite F2, Hf, Hd, Hp, delete_insert_id.
  - intros k Hk. rewrite K2, Hf, lookup_insert_ne; [done|..]; rewrite ?Hd; [|done].
    intros <-. by apply (Hk d).
Qed.

Lemma applyParams_run cp images extras o r o' :
  cp ≠ "" → applyParams cp images extras o = (r, o') → applied cp images extras o r o'.
Proof.
  intros Hcp Hrun. set (pf := Join [cp; "params.env"]).
  assert (resolve pf = params_path cp) as Hpf by by apply resolve_Join_plain.
  pose proof (within_parseParams (λ _, False) pf) as Hw0.
  pose proof (within_none_fs _ o Hw0) as F0. pose proof (within_env _ _ o Hw0) as N0.
  unfold applyParams in Hrun. fold pf in Hrun. unfold mbind at 1, M_bind at 1, attempt in Hrun.
  destruct (parseParams pf o) as [[m0|e|w] o1] eqn:Ep; cbn in F0, N0, Hrun.
  3: by destruct (safe_not_Panic _ _ _ _ (safe_parseParams pf) Ep).
  2: { destruct (IsNotExist e) eqn:En; unfold mret, M_ret, fail in Hrun; simplify_eq.
       - split; [done|]. left. rewrite <- Hpf. split; [|done]. by eapply parseParams_ENOENT.
       - split; [done|]. intros k _. by rewrite F0. }
  destruct (parseParams_Ok _ _ _ _ Ep) as (c & ls & Hc & Hls & ->). rewrite Hpf in Hc.
  unfold mbind at 1, M_bind at 1, range_entries at 1, gets in Hrun.
  destruct (override_images_range (clock o1) images (parse_lines ls) o1) as (acc1 & R1 & M1 & Z1).
  rewrite (bind_Ok _ _ _ _ _ R1) in Hrun.
  destruct (override_extras_run extras acc1 o1) as (acc2 & R2 & M2 & Z2).
  rewrite (bind_Ok _ _ _ _ _ R2) in Hrun.
  assert (acc2.1 = overridden (env o) images extras (parse_lines ls)) as M3.
  { rewrite M2, M1, N0. done. }
  destruct (Z.eqb_spec acc2.2 0) as [Hz|Hz].
  { unfold mret, M_ret in Hrun. simplify_eq. split; [done|]. right. exists c, ls, (acc2.1).
    split_and!; [done..|]. left. split; [|done]. destruct (Z2 Hz) as [Hz1 ->]. by apply Z1. }
  assert (pf = match cp with "" => "params.env" | _ => Clean (cp +:+ "/params.env") end)
    as Hpf' by by destruct cp.
  rewrite <- Hpf' in Hrun.
  destruct (replace_params_run _ _ _ _ _ _ Hcp Hpf Hrun) as [He Hr]. split; [congruence|].
  destruct r as [u|e|w]; [right|..|done].
  - destruct Hr as (entries & Hp & Hfs). rewrite F0 in Hfs.
    exists c, ls, acc2.1. split_and!; [done..|]. right. exists entries. done.
  - intros k Hk. by rewrite Hr, F0.
Qed.

(** C13: [applyParams] under every pattern of system-call failures.  It never
    panics and leaves the environment alone.  When it fails, no file but a
    temporary of the overlay has changed.  When it succeeds, a missing file
    stays missing; otherwise the file parsed, and either its parameters
    already were the overridden ones and nothing was written, or the only
    change to the whole file system is the complete new parameter file: no
    partial content, no temporary left, in whatever order the map was ranged
    over. *)
Theorem applyParams_spec cp images extras o :
  cp ≠ "" →
  let '(r, o') := applyParams cp images extras o in applied cp images extras o r o'.
Proof. intros Hcp. destruct (applyParams _ _ _ o) eqn:E. by apply applyParams_run. Qed.

Lemma applied_readback cp images extras o o' c :
  applied cp images extras o (Ok tt) o' →
  fs o !! params_path cp = Some (File c) →
  let m := overridden (env o) images extras (parse_lines (scan_lines c).1) in
  Forall wf_entry (map_to_list m) →
  ∃ c' ls, fs o' !! params_path cp = Some (File c') ∧
           scan_lines c' = (ls, None) ∧ parse_lines ls = m.
Proof.
  intros [_ [[Hn _]|Hr]] Hc m Hwf; [congruence|].
  destruct Hr as (c0 & ls & m' & Hc0 & Hls & Hm & Hout).
  rewrite Hc in Hc0. injection Hc0 as <-. subst m. rewrite Hls in *. cbn [fst] in *.
  rewrite <- Hm in *. destruct Hout as [[Heq ->]|(entries & Hp & ->)].
  - exists c, ls. split_and!; congruence.
  - rewrite lookup_insert_eq. eexists _, _. split; [done|].
    destruct (parse_written entries) as [Hs Hpl].
    + rewrite Hp. apply NoDup_fst_map_to_list.
    + by rewrite Hp.
    + split; [exact Hs|]. rewrite Hpl, <- (list_to_map_to_list (M:=gmap string) m').
      apply list_to_map_proper; [|done]. rewrite Hp. apply NoDup_fst_map_to_list.
Qed.

(** C25: a parameter file that was rewritten parses to exactly the overridden
    parameters, provided each of them fits a line ([wf_entry]): its key holds no
    equals sign and no line feed, its value no line feed and no carriage return at
    its end, and its line is shorter than the 64 KiB of the scanner.  (An image or a
    namespace with such a value does not read back.) *)
Theorem applyParams_readback cp images extras o o' c :
  cp ≠ "" → applyParams cp images extras o = (Ok tt, o') →
  fs o !! params_path cp = Some (File c) →
  let m := overridden (env o) images extras (parse_lines (scan_lines c).1) in
  Forall wf_entry (map_to_list m) →
  ∃ c' ls, fs o' !! params_path cp = Some (File c') ∧
           scan_lines c' = (ls, None) ∧ parse_lines ls = m.
Proof. intros Hcp Hrun%applyParams_run; [|done]. by apply applied_readback. Qed.

(** Parameters settle.  Once [applyParams] has succeeded, applying the same
    images and extra parameters again writes nothing, whichever calls fail. *)
Theorem applyParams_settles cp images extra o o' r o'' :
  cp ≠ "" → (∀ k, is_Some (images !! k) → extra !! k = None) →
  (∀ c, fs o !! params_path cp = Some (File c) →
     Forall wf_entry (map_to_list (overridden (env o) images [extra] (parse_lines (scan_lines c).1)))) →
  applyParams cp images [extra] o = (Ok tt, o') →
  applyParams cp images [extra] o' = (r, o'') →
  fs o'' = fs o'.
Proof.
  intros Hcp Hdis Hwf Hrun Hrun2. set (pf := Join [cp; "params.env"]).
  assert (resolve pf = params_path cp) as Hpf by by apply resolve_Join_plain.
  pose proof (within_parseParams (λ _, False) pf) as Hw.
  pose proof (within_none_fs _ o' Hw) as F1. pose proof (within_env _ _ o' Hw) as N1.
  destruct (parseParams pf o') as [[m|e|w] o1] eqn:Ep; cbn in F1, N1.
  3: by destruct (safe_not_Panic _ _ _ _ (safe_parseParams pf) Ep).
  2: { unfold applyParams in Hrun2. fold pf in Hrun2.
       rewrite (bind_Ok _ _ _ _ _ (attempt_Err _ _ _ _ Ep)) in Hrun2.
       by destruct (IsNotExist e); unfold mret, M_ret, fail in Hrun2; simplify_eq. }
  destruct (parseParams_Ok _ _ _ _ Ep) as (c' & ls' & Hc' & Hls' & ->). rewrite Hpf in Hc'.
  apply applyParams_run in Hrun; [|done].
  destruct Hrun as [He [[Hn Hf]|(c & ls & m' & Hc & Hrest)]] eqn:Eh; [congruence|].
  clear Eh. destruct (applied_readback cp images [extra] o o' c) as (c2 & ls2 & Hc2 & Hls2 & Hm).
  { split; [done|]. right. by exists c, ls, m'. }
  { done. } { by apply Hwf. }
  rewrite Hc' in Hc2. injection Hc2 as <-. rewrite Hls' in Hls2. injection Hls2 as <-. destruct (overridden_idemp (env o) images extra (parse_lines (scan_lines c).1) Hdis)
    as [Hi Hx].
  rewrite <- Hm in Hi, Hx. rewrite <- He in Hi.
  rewrite (applyParams_noop _ _ _ _ _ _ Ep N1 Hi Hx) in Hrun2. by simplify_eq.
Qed.
End theorems.

(** ** A run *)

Definition sample_params : string :=
  unlines ["namespace=opendatahub";
           "odh-kuberay-operator-controller-image=quay.io/opendatahub/kuberay-operator:v1.7.1";
           "odh-kube-rbac-proxy-image=quay.io/opendatahub/odh-kube-rbac-proxy:odh-stable"].

Definition sample_os : OS :=
  boot (list_to_map [([], Dir); (["m"], Dir); (["m"; "params.env"], File sample_params)])
       {["RELATED_IMAGE_ODH_KUBE_RBAC_PROXY_IMAGE" := "registry.redhat.io/proxy:v2.0"]}.

Definition sample_extra : gmap string string := {["namespace" := "apps"]}.

Definition sample_run : res unit * OS :=
  applyParams (H:=canonical_range) "/m" imageParamMap [sample_extra] sample_os.

Lemma sample_extra_disjoint k : is_Some (imageParamMap !! k) → sample_extra !! k = None.
Proof.
  intros [v Hv]. apply lookup_singleton_None. intros <-. vm_compute in Hv. discriminate.
Qed.

Lemma applyParams_spec_witness :
  sample_run.1 = Ok tt ∧ env sample_run.2 = env sample_os.
Proof.
  split; [vm_compute; reflexivity|].
  pose proof (applyParams_spec (H:=canonical_range) "/m" imageParamMap [sample_extra] sample_os
                ltac:(discriminate)) as Hspec.
  unfold sample_run. destruct (applyParams _ _ _ sample_os). exact (proj1 Hspec).
Defined.

Lemma applyParams_readback_witness :
  ∃ c' ls, fs sample_run.2 !! ["m"; "params.env"] = Some (File c') ∧
    scan_lines c' = (ls, None) ∧ parse_lines ls !! "namespace" = Some "apps".
Proof.
  destruct (applyParams_readback (H:=canonical_range) "/m" imageParamMap [sample_extra] sample_os
              sample_run.2 sample_params) as (c' & ls & Hc & Hs & Hm).
  - discriminate.
  - vm_compute. reflexivity.
  - vm_compute. reflexivity.
  - apply (bool_decide_unpack _). vm_compute. exact I.
  - exists c', ls. split; [exact Hc|]. split; [exact Hs|]. rewrite Hm. vm_compute. reflexivity.
Defined.

Lemma applyParams_settles_witness :
  fs (applyParams (H:=canonical_range) "/m" imageParamMap [sample_extra] sample_run.2).2
    = fs sample_run.2.
Proof.
  eapply (applyParams_settles (H:=canonical_range) "/m" imageParamMap sample_extra sample_os).
  - discriminate.
  - apply sample_extra_disjoint.
  - intros c Hc. vm_compute in Hc. injection Hc as <-.
    apply (bool_decide_unpack _). vm_compute. exact I.
  - vm_compute. reflexivity.
  - apply surjective_pairing.
Defined.
