(* ===== verification/Overlay.v ===== *)
(** * The namespace of the overlay: [setOverlayNamespace] of [internal/controller/params.go]

    The regular expression that finds the namespace of a kustomization and the
    text that replaces it, on bytes; what it comes to is stated line by line,
    without the expression. *)
From S2P Require Import Prelude GoStrings OS.

(** [(?m)^namespace:\s*\S+] on bytes.  After the greedy run of white space the
  next byte is not white space, so giving white space back never helps: the
    leftmost match at the beginning of a line is the one below. *)
Definition is_space (a : ascii) : bool :=
  Ascii.eqb a "009" || Ascii.eqb a "010" || Ascii.eqb a "012" || Ascii.eqb a "013" ||
  Ascii.eqb a " ".

Fixpoint span (f : ascii → bool) (s : string) : string * string :=
  match s with
  | EmptyString => (EmptyString, EmptyString)
  | String a s' =>
      if f a then let '(l, r) := span f s' in (String a l, r) else (EmptyString, s)
  end.

Definition key : string := "namespace:".

(** The match that starts here, at the beginning of a line. *)
Definition match_here (s : string) : option string :=
  if String.prefix key s then
    let '(sp, r) := span is_space (str_drop (String.length key) s) in
    let '(v, _) := span (λ a, negb (is_space a)) r in
    if String.eqb v "" then None else Some (key +:+ sp +:+ v)
  else None.

(** All matches, left to right.  [skip] bytes belong to the last match;
    [bol] says that the last byte read ended a line. *)
Fixpoint find_all (skip : nat) (bol : bool) (s : string) : list string :=
  match s with
  | EmptyString => []
  | String a s' =>
      match skip with
      | S skip' => find_all skip' (Ascii.eqb a LF) s'
      | O =>
          match (if bol then match_here s else None) with
          | Some m => m :: find_all (String.length m - 1) (Ascii.eqb a LF) s'
          | None => find_all 0 (Ascii.eqb a LF) s'
          end
      end
  end.

(** [$name] and [${name}] in a replacement: the only group of the expression
    is the whole match, which is [0].  A name is made of letters, digits and
    underscores, of ASCII here. *)
Definition is_word (a : ascii) : bool :=
  let n := nat_of_ascii a in
  (bool_decide (48 ≤ n ≤ 57) || bool_decide (65 ≤ n ≤ 90) ||
   bool_decide (97 ≤ n ≤ 122) || Ascii.eqb a "_").

Definition extract (s : string) : option (string * string) :=
  match s with
  | String "{" s' =>
      let '(name, r) := span is_word s' in
      match r with
      | String "}" r' => if String.eqb name "" then None else Some (name, r')
      | _ => None
      end
  | _ =>
      let '(name, r) := span is_word s in
      if String.eqb name "" then None else Some (name, r)
  end.

(** Each round consumes a dollar sign, so the length of the template is enough fuel. *)
Fixpoint expand (fuel : nat) (template m : string) : string :=
  match fuel with
  | O => template
  | S fuel' =>
      match Cut template "$" with
      | None => template
      | Some (before, after) =>
          before +:+
          match after with
          | String "$" after' => String "$" (expand fuel' after' m)
          | _ =>
              match extract after with
              | None => String "$" (expand fuel' after m)
              | Some (name, rest) =>
                  (if String.eqb name "0" then m else "") +:+ expand fuel' rest m
              end
          end
      end
  end.

Definition Expand (template m : string) : string :=
  expand (S (String.length template)) template m.

Fixpoint replace_all (template : string) (skip : nat) (bol : bool) (s : string) : string :=
  match s with
  | EmptyString => EmptyString
  | String a s' =>
      match skip with
      | S skip' => replace_all template skip' (Ascii.eqb a LF) s'
      | O =>
          match (if bol then match_here s else None) with
          | Some m =>
              Expand template m +:+
              replace_all template (String.length m - 1) (Ascii.eqb a LF) s'
          | None => String a (replace_all template 0 (Ascii.eqb a LF) s')
          end
      end
  end.

Definition Match (data : string) : bool :=
  match find_all 0 true data with [] => false | _ => true end.

Definition ReplaceAll (data template : string) : string := replace_all template 0 true data.

(** What [setOverlayNamespace] writes for what it reads. *)
Definition updated (data ns : string) : string :=
  let replacement := "namespace: " +:+ ns in
  if Match data then ReplaceAll data replacement
  else data +:+ String LF (replacement +:+ String LF "").

Definition setOverlayNamespace (overlayDir ns : string) : M OS unit :=
  if String.eqb ns "" then mret tt
  else
    let path := Join [overlayDir; "kustomization.yaml"] in
    r ← attempt (ReadFile path);
    match r with
    | inl err => if IsNotExist err then mret tt else fail err
    | inr data => WriteFile path (updated data ns)
    end.

Example updated_ex :
  updated (unlines ["kind: Kustomization"; "namespace: redhat-ods-applications"; "x: y"]) "a-b"
  = unlines ["kind: Kustomization"; "namespace: a-b"; "x: y"].
Proof. reflexivity. Qed.
Example expand_ex : Expand "a$0-$$-${0}${1}$x.$" "M" = "aM-$-M.$".
Proof. reflexivity. Qed.

(** * Properties *)

(** A namespace the API server would accept: not empty, without white space, and
    without the dollar sign that a replacement text gives a meaning to. *)
Definition clean_namespace (ns : string) : bool :=
  negb (String.eqb ns "") && str_forall (λ a, negb (is_space a)) ns && no_char "$" ns.

Definition ns_line (ns : string) : string := "namespace: " +:+ ns.

(** The namespaces of a kustomization file, as the expression finds them. *)
Definition namespaces (data : string) : list string := find_all 0 true data.

Definition starts_space (s : string) : bool :=
  match s with String a _ => is_space a | EmptyString => true end.

(** ** Spans and matches *)

Lemma span_spec f s :
  s = (span f s).1 +:+ (span f s).2 ∧ str_forall f (span f s).1 = true ∧
  match (span f s).2 with String a _ => f a = false | EmptyString => True end.
Proof.
  induction s as [|a s IH]; [done|]. cbn [span].
  destruct (f a) eqn:E; [|by cbn; rewrite E].
  destruct (span f s) as [l r]; cbn in *. destruct IH as (-> & Hl & Hr).
  by rewrite E, Hl.
Qed.

Lemma span_app f l r :
  str_forall f l = true → match r with String a _ => f a = false | EmptyString => True end →
  span f (l +:+ r) = (l, r).
Proof.
  intros Hl Hr. induction l as [|a l IH]; cbn.
  - destruct r as [|a r]; [done|]. cbn. by rewrite Hr.
  - cbn in Hl. apply andb_true_iff in Hl as [-> Hl]. by rewrite (IH Hl).
Qed.

Lemma non_space_no_lf s : str_forall (λ a, negb (is_space a)) s = true → ends_with LF s = false.
Proof.
  intros Hs. destruct (ends_with LF s) eqn:E; [|done].
  apply ends_with_inv in E as [t ->]. by rewrite str_forall_app, andb_false_r in Hs.
Qed.

(** A match is a proper prefix of the text, ends inside a line and is followed by
    white space. *)
Lemma match_here_Some s m :
  match_here s = Some m →
  ∃ a m' rest, m = String a m' ∧ s = m +:+ rest ∧ ends_with LF m = false ∧ starts_space rest = true.
Proof.
  unfold match_here. destruct (String.prefix key s) eqn:Ep; [|done].
  apply prefix_split in Ep. set (u := str_drop _ s) in *.
  pose proof (span_spec is_space u) as (Hu & _ & _).
  destruct (span is_space u) as [sp r]. cbn [fst snd] in Hu.
  pose proof (span_spec (λ a, negb (is_space a)) r) as (Hr & Hv & Hh).
  destruct (span _ r) as [v w]. cbn [fst snd] in Hr, Hv, Hh.
  destruct (String.eqb_spec v "") as [|Hne]; [done|]. intros [= <-].
  eexists _, _, w. split; [reflexivity|]. rewrite Ep, Hu, Hr.
  split_and!.
  - change (key +:+ sp +:+ v +:+ w = (key +:+ sp +:+ v) +:+ w). by rewrite <- !str_app_assoc.
  - destruct v as [|a v]; [done|].
    change (ends_with LF (key +:+ sp +:+ String a v) = false).
    rewrite str_app_assoc, ends_with_app. by apply non_space_no_lf.
  - destruct w as [|a w]; [done|]. cbn in *. by apply negb_false_iff.
Qed.

Lemma match_here_line ns rest :
  clean_namespace ns = true → starts_space rest = true →
  match_here (ns_line ns +:+ rest) = Some (ns_line ns).
Proof.
  unfold clean_namespace. intros [[Hne Hns]%andb_true_iff _]%andb_true_iff Hr.
  apply negb_true_iff, String.eqb_neq in Hne.
  assert (span is_space (String " " (ns +:+ rest)) = (" ", ns +:+ rest)) as H1.
  { apply (span_app is_space " "); [done|]. destruct ns as [|a ns]; [done|].
    cbn in Hns |- *. apply andb_true_iff in Hns as [Ha _]. by apply negb_true_iff. }
  assert (span (λ a, negb (is_space a)) (ns +:+ rest) = (ns, rest)) as H2.
  { apply span_app; [done|]. destruct rest as [|a rest]; [done|]. cbn in *. by rewrite Hr. }
  change (match_here (ns_line ns +:+ rest)) with
    (let '(sp, r) := span is_space (String " " (ns +:+ rest)) in
     let '(v, _) := span (λ a, negb (is_space a)) r in
     if String.eqb v "" then None else Some (key +:+ sp +:+ v)).
  rewrite H1, H2. by rewrite (proj2 (String.eqb_neq _ _) Hne).
Qed.

Lemma Expand_id t m : no_char "$" t = true → Expand t m = t.
Proof.
  intros Ht. unfold Expand. cbn [expand].
  destruct (Cut t "$") as [[k v]|] eqn:E; [|done].
  apply Cut_Some in E as [-> _]. rewrite no_char_app in Ht.
  apply andb_true_iff in Ht as [_ [? _]%no_char_cons]. done.
Qed.

Lemma ns_line_expand ns m : clean_namespace ns = true → Expand (ns_line ns) m = ns_line ns.
Proof. intros [_ Hd]%andb_true_iff. apply Expand_id. unfold ns_line. by rewrite no_char_app, Hd. Qed.

Lemma ns_line_no_lf ns : clean_namespace ns = true → ends_with LF (ns_line ns) = false.
Proof.
  unfold clean_namespace. intros [[Hne Hns]%andb_true_iff _]%andb_true_iff.
  destruct ns as [|a ns]; [done|]. unfold ns_line. rewrite ends_with_app.
  by apply non_space_no_lf.
Qed.

(** ** The two scans step over a match *)

Lemma find_all_skip a m rest :
  find_all (String.length m) (Ascii.eqb a LF) (m +:+ rest)
    = find_all 0 (ends_with LF (String a m)) rest.
Proof.
  revert a. induction m as [|c m IH]; intros a; [done|]. cbn [String.length String.append find_all].
  rewrite IH. f_equal. exact (eq_sym (ends_with_app LF (String a "") c m)).
Qed.

Lemma replace_all_skip t a m rest :
  replace_all t (String.length m) (Ascii.eqb a LF) (m +:+ rest)
    = replace_all t 0 (ends_with LF (String a m)) rest.
Proof.
  revert a. induction m as [|c m IH]; intros a; [done|]. cbn [String.length String.append replace_all].
  rewrite IH. f_equal. exact (eq_sym (ends_with_app LF (String a "") c m)).
Qed.

Lemma find_all_match s m rest :
  match_here s = Some m → s = m +:+ rest → ends_with LF m = false →
  find_all 0 true s = m :: find_all 0 false rest.
Proof.
  intros Hm Hs He. destruct (match_here_Some _ _ Hm) as (a & m' & _ & -> & _).
  subst s. cbn [String.append find_all] in *. rewrite Hm. cbn [String.length].
  rewrite Nat.sub_succ, Nat.sub_0_r, find_all_skip. by rewrite He.
Qed.

Lemma replace_all_match t s m rest :
  match_here s = Some m → s = m +:+ rest → ends_with LF m = false →
  replace_all t 0 true s = Expand t m +:+ replace_all t 0 false rest.
Proof.
  intros Hm Hs He. destruct (match_here_Some _ _ Hm) as (a & m' & _ & -> & _).
  subst s. cbn [String.append replace_all] in *. rewrite Hm. cbn [String.length].
  rewrite Nat.sub_succ, Nat.sub_0_r, replace_all_skip. by rewrite He.
Qed.

Lemma find_all_step (bol : bool) a s :
  (if bol then match_here (String a s) else None) = None →
  find_all 0 bol (String a s) = find_all 0 (Ascii.eqb a LF) s.
Proof. intros H. cbn [find_all]. by rewrite H. Qed.

Lemma replace_all_step t (bol : bool) a s :
  (if bol then match_here (String a s) else None) = None →
  replace_all t 0 bol (String a s) = String a (replace_all t 0 (Ascii.eqb a LF) s).
Proof. intros H. cbn [replace_all]. by rewrite H. Qed.

(** ** What a replacement leaves unchanged *)

Lemma replace_all_starts t s : starts_space (replace_all t 0 false s) = starts_space s.
Proof. by destruct s. Qed.

(** Within a line nothing is replaced. *)
Lemma prefix_replace_all t p s :
  no_char LF p = true → String.prefix p (replace_all t 0 false s) = String.prefix p s.
Proof.
  revert s. induction p as [|c p IH]; intros s Hp; [by destruct s, (replace_all _ _ _ _)|].
  apply no_char_cons in Hp as [Hc Hp]. destruct s as [|a s]; [done|].
  rewrite replace_all_step, !prefix_cons by done.
  destruct (Ascii.eqb_spec c a) as [->|]; [|done].
  rewrite (proj2 (Ascii.eqb_neq _ _) Hc). by apply IH.
Qed.

Lemma replace_all_spaces t bol s : str_forall is_space s = true → replace_all t 0 bol s = s.
Proof.
  revert bol. induction s as [|a s IH]; intros bol Hs; [done|].
  cbn in Hs. apply andb_true_iff in Hs as [Ha Hs].
  rewrite replace_all_step; [by rewrite IH|].
  destruct bol; [|done]. unfold match_here, key. rewrite prefix_cons.
  by destruct (Ascii.eqb_spec "n" a) as [<-|].
Qed.

(** A position that is not the start of a match does not become one. *)
Lemma match_here_replaced t a s :
  match_here (String a s) = None →
  match_here (String a (replace_all t 0 (Ascii.eqb a LF) s)) = None.
Proof.
  unfold match_here. intros H.
  assert (∀ u, String.prefix key (String a u) = Ascii.eqb "n" a && String.prefix "amespace:" u)
    as Hp by (intros; apply prefix_cons).
  rewrite Hp in *. destruct (Ascii.eqb_spec "n" a) as [<-|]; [|done]. cbn [andb] in *.
  change (Ascii.eqb "n" LF) with false. rewrite prefix_replace_all by done.
  destruct (String.prefix "amespace:" s) eqn:E; [|done].
  apply prefix_split in E. set (u := str_drop _ s) in E. rewrite E in *.
  change (str_drop (String.length key) (String "n" ("amespace:" +:+ u))) with u in H.
  assert (str_forall is_space u = true) as Hu.
  { pose proof (span_spec is_space u) as (Hu & Hs & Hh).
    destruct (span is_space u) as [sp r]. cbn [fst snd] in *.
    destruct r as [|c r]; [by rewrite Hu, str_app_nil_r|].
    exfalso. cbn [span] in H. rewrite Hh in H. cbn in H. by destruct (span _ r). }
  assert (replace_all t 0 false ("amespace:" +:+ u) = "amespace:" +:+ u) as ->.
  { cbn. by rewrite replace_all_spaces. }
  exact H.
Qed.

(** ** Replacing *)

(** Strong induction on the length of a text. *)
Lemma string_length_ind (P : string → Prop) :
  (∀ s, (∀ t, String.length t < String.length s → P t) → P s) → ∀ s, P s.
Proof.
  intros H s. remember (String.length s) as n eqn:Hn. revert s Hn.
  induction n as [n IH] using lt_wf_ind. intros s ->. apply H. intros t Ht. by eapply IH.
Qed.

(** The scan of a text, by cases: a match and the rest, or one byte. *)
Lemma scan_cases (bol : bool) s :
  s = "" ∨
  (∃ m rest, bol = true ∧ match_here s = Some m ∧ s = m +:+ rest ∧ ends_with LF m = false ∧
     starts_space rest = true ∧ String.length rest < String.length s) ∨
  (∃ a s', s = String a s' ∧ (if bol then match_here s else None) = None).
Proof.
  destruct s as [|a s]; [by left|right].
  destruct (if bol then match_here (String a s) else None) as [m|] eqn:E; [left|right; eauto].
  destruct bol; [|done]. destruct (match_here_Some _ _ E) as (b & m' & rest & Hm & Hs & He & Hsp).
  exists m, rest. split_and!; try done. rewrite Hs, Hm, str_app_length. cbn. lia.
Qed.

Lemma find_all_replaced ns s bol :
  clean_namespace ns = true →
  find_all 0 bol (replace_all (ns_line ns) 0 bol s) = map (λ _, ns_line ns) (find_all 0 bol s).
Proof.
  intros Hns. revert bol. induction s as [s IH] using string_length_ind. intros bol.
  destruct (scan_cases bol s) as [->|[(m & rest & -> & Hm & Hs & He & Hsp & Hlt)|(a & s' & -> & Hn)]].
  - done.
  - rewrite (find_all_match _ _ _ Hm Hs He), (replace_all_match _ _ _ _ Hm Hs He).
    rewrite ns_line_expand by done. set (R := replace_all _ 0 false rest).
    rewrite (find_all_match (ns_line ns +:+ R) (ns_line ns) R); [|..].
    + cbn [map]. f_equal. by apply IH.
    + apply match_here_line; [done|]. by rewrite <- Hsp; apply replace_all_starts.
    + done.
    + by apply ns_line_no_lf.
  - rewrite replace_all_step, (find_all_step bol a s') by done.
    rewrite find_all_step; [apply IH; cbn; lia|].
    destruct bol; [|done]. by apply match_here_replaced.
Qed.

(** A text whose namespaces are all the replacement is not changed by it. *)
Lemma replace_all_id ns s bol :
  clean_namespace ns = true →
  (∀ m, m ∈ find_all 0 bol s → m = ns_line ns) → replace_all (ns_line ns) 0 bol s = s.
Proof.
  intros Hns. revert bol. induction s as [s IH] using string_length_ind. intros bol Hall.
  destruct (scan_cases bol s) as [->|[(m & rest & -> & Hm & Hs & He & _ & Hlt)|(a & s' & -> & Hn)]].
  - done.
  - rewrite (find_all_match _ _ _ Hm Hs He) in Hall.
    rewrite (replace_all_match _ _ _ _ Hm Hs He), ns_line_expand by done.
    rewrite IH; [|done|]. { by rewrite (Hall m) in Hs by apply list_elem_of_here. }
    intros m' Hm'. apply Hall. by apply list_elem_of_further.
  - rewrite replace_all_step by done. rewrite find_all_step in Hall by done.
    rewrite IH; [done|cbn; lia|done].
Qed.

(** ** Appending *)

(** No line begins with the key (the first line only if [bol]). *)
Fixpoint no_key (bol : bool) (s : string) : bool :=
  match s with
  | EmptyString => true
  | String a s' => negb (bol && String.prefix key s) && no_key (Ascii.eqb a LF) s'
  end.

Lemma prefix_app_lf p s t :
  no_char LF p = true → p ≠ "" →
  String.prefix p (s +:+ String LF t) = String.prefix p s.
Proof.
  revert s. induction p as [|c p IH]; intros s Hp Hne; [done|].
  apply no_char_cons in Hp as [Hc Hp]. destruct s as [|a s]; cbn [String.append].
  - rewrite prefix_cons. by destruct (Ascii.eqb_spec c LF).
  - rewrite !prefix_cons. destruct p as [|d p]; [|by rewrite IH].
    f_equal. by destruct s.
Qed.

Lemma match_here_no_key s : String.prefix key s = false → match_here s = None.
Proof. unfold match_here. by intros ->. Qed.

Lemma replace_all_no_key t bol s u :
  no_key bol s = true →
  replace_all t 0 bol (s +:+ String LF u) = s +:+ String LF (replace_all t 0 true u).
Proof.
  revert bol. induction s as [|a s IH]; intros bol Hk; cbn [String.append].
  - rewrite replace_all_step; [done|]. destruct bol; [|done]. by apply match_here_no_key.
  - cbn in Hk. apply andb_true_iff in Hk as [Hk Hs]. apply negb_true_iff in Hk.
    rewrite replace_all_step; [by rewrite IH|].
    destruct bol; [|done]. apply match_here_no_key.
    change (String a (s +:+ String LF u)) with (String a s +:+ String LF u). by rewrite prefix_app_lf.
Qed.

(** Lines without the key stay. *)
Lemma replace_all_lines t l u :
  Forall (λ p, no_key true p = true) l →
  replace_all t 0 true (unlines l +:+ u) = unlines l +:+ replace_all t 0 true u.
Proof.
  induction 1 as [|p l Hp _ IH]; [done|].
  change (unlines (p :: l)) with (p +:+ String LF (unlines l)).
  rewrite <- !str_app_assoc. cbn [String.append].
  by rewrite replace_all_no_key, IH.
Qed.

Lemma find_all_no_key bol s t :
  no_key bol s = true → find_all 0 bol (s +:+ String LF t) = find_all 0 true t.
Proof.
  revert bol. induction s as [|a s IH]; intros bol Hk; cbn [String.append].
  - rewrite find_all_step; [done|]. destruct bol; [|done]. by apply match_here_no_key.
  - cbn in Hk. apply andb_true_iff in Hk as [Hk Hs]. apply negb_true_iff in Hk.
    rewrite find_all_step; [by apply IH|].
    destruct bol; [|done]. apply match_here_no_key.
    change (String a (s +:+ String LF t)) with (String a s +:+ String LF t).
    by rewrite prefix_app_lf.
Qed.

Lemma find_all_lines l u :
  Forall (λ p, no_key true p = true) l → find_all 0 true (unlines l +:+ u) = find_all 0 true u.
Proof.
  induction 1 as [|p l Hp _ IH]; [done|].
  change (unlines (p :: l)) with (p +:+ String LF (unlines l)).
  rewrite <- !str_app_assoc. cbn [String.append]. by rewrite find_all_no_key.
Qed.

Lemma namespaces_appended ns s :
  clean_namespace ns = true → no_key true s = true →
  namespaces (s +:+ String LF (ns_line ns +:+ String LF "")) = [ns_line ns].
Proof.
  intros Hns Hk. unfold namespaces. rewrite find_all_no_key by done.
  rewrite (find_all_match _ (ns_line ns) (String LF "")); [done|..|done|].
  - by apply match_here_line.
  - by apply ns_line_no_lf.
Qed.

Lemma Match_no_key s : no_key true s = true → Match s = false.
Proof.
  intros Hk. unfold Match. assert (∀ bol, no_key bol s = true → find_all 0 bol s = []) as ->; [|done..].
  clear Hk. induction s as [|a s IH]; intros bol Hk; [done|].
  cbn in Hk. apply andb_true_iff in Hk as [Hk Hs]. apply negb_true_iff in Hk.
  rewrite find_all_step; [by apply IH|]. destruct bol; [|done]. by apply match_here_no_key.
Qed.

(** ** The replacement text is expanded to its end *)

Lemma Cut_length s c before after :
  Cut s c = Some (before, after) → String.length after < String.length s.
Proof. intros [-> _]%Cut_Some. rewrite str_app_length. cbn. lia. Qed.

Lemma span_length f s : String.length (span f s).2 ≤ String.length s.
Proof. destruct (span_spec f s) as (Hs & _). rewrite Hs at 2. rewrite str_app_length. lia. Qed.

Lemma extract_length s name rest :
  extract s = Some (name, rest) → String.length rest ≤ String.length s.
Proof.
  assert (∀ s name rest, (let '(n, r) := span is_word s in
            if String.eqb n "" then None else Some (n, r)) = Some (name, rest) →
            String.length rest ≤ String.length s) as Hw.
  { intros t n r. pose proof (span_length is_word t) as Hl. destruct (span is_word t) as [a b].
    cbn in Hl. destruct (String.eqb a ""); [done|]. by intros [= _ <-]. }
  destruct s as [|a s]; [by apply Hw|].
  destruct (Ascii.eqb_spec a "{") as [->|Hne].
  - cbn [extract]. pose proof (span_length is_word s) as Hl.
    destruct (span is_word s) as [n r]. cbn in Hl. destruct r as [|b r]; [done|].
    intros H. assert (String.length rest ≤ String.length r) as Hr; [|cbn in *; lia].
    destruct b as [[] [] [] [] [] [] [] []]; try done. destruct (String.eqb n ""); [done|].
    by injection H as _ <-.
  - intros H. apply (Hw (String a s) name rest). rewrite <- H.
    destruct a as [[] [] [] [] [] [] [] []]; try done.
Qed.

(** Fuel that covers the length of the template is enough: more of it gives the
    same text. *)
Lemma expand_fuel m f1 f2 template :
  String.length template < f1 → String.length template < f2 →
  expand f1 template m = expand f2 template m.
Proof.
  revert f2 template. induction f1 as [|f1 IH]; intros [|f2] t H1 H2; [lia..|]. cbn [expand].
  destruct (Cut t "$") as [[before after]|] eqn:Ec; [|done]. apply Cut_length in Ec.
  assert (∀ r, String.length r ≤ String.length after → expand f1 r m = expand f2 r m) as Hr
    by (intros r Hr; apply IH; lia).
  f_equal. assert (match extract after with
    | Some (name, rest) => (if String.eqb name "0" then m else "") +:+ expand f1 rest m
    | None => String "$" (expand f1 after m)
    end = match extract after with
    | Some (name, rest) => (if String.eqb name "0" then m else "") +:+ expand f2 rest m
    | None => String "$" (expand f2 after m)
    end) as Hx.
  { destruct (extract after) as [[name rest]|] eqn:Ee; [|by rewrite Hr].
    rewrite Hr; [done|]. by eapply extract_length. }
  destruct after as [|a after]; [exact Hx|].
  destruct a as [[] [] [] [] [] [] [] []]; try exact Hx. rewrite Hr; [done|]. cbn. lia.
Qed.

(** ** The theorems *)

(** With one namespace line, that line is replaced and every other is kept. *)
Lemma updated_line before after old ns :
  clean_namespace old = true → clean_namespace ns = true →
  Forall (λ p, no_key true p = true) before → Forall (λ p, no_key true p = true) after →
  updated (unlines (before ++ [ns_line old] ++ after)) ns = unlines (before ++ [ns_line ns] ++ after).
Proof.
  intros Ho Hn Hb Ha.
  assert (∀ n, unlines (before ++ [ns_line n] ++ after) =
            unlines before +:+ (ns_line n +:+ String LF (unlines after))) as Hu.
  { intros n. clear Hb. induction before as [|p l IH]; [done|].
    change (unlines ((p :: l) ++ [ns_line n] ++ after)) with
      (p +:+ String LF (unlines (l ++ [ns_line n] ++ after))).
    change (unlines (p :: l)) with (p +:+ String LF (unlines l)).
    by rewrite IH, <- str_app_assoc. }
  rewrite !Hu. set (s := ns_line old +:+ _).
  assert (match_here s = Some (ns_line old)) as Hm by by apply match_here_line.
  unfold updated, Match, ReplaceAll. fold (ns_line ns).
  rewrite find_all_lines, replace_all_lines by done.
  rewrite (find_all_match s _ (String LF (unlines after)) Hm), (replace_all_match _ s _ _ Hm eq_refl)
    by auto using ns_line_no_lf.
  rewrite ns_line_expand, replace_all_step by done. change (Ascii.eqb LF LF) with true.
  pose proof (replace_all_lines (ns_line ns) after "" Ha) as He. rewrite !str_app_nil_r in He.
  by rewrite He.
Qed.

(** *** Line by line

    The update of a kustomization without the expression: by its lines. *)







(** The end of a line: the end of the text, or a line feed. *)
Definition line_end (s : string) : Prop := s = "" ∨ ∃ u, s = String LF u.

Lemma line_end_space s : line_end s → starts_space s = true.
Proof. by intros [->|(u & ->)]. Qed.










(** Setting the namespace of the overlay settles: a kustomization that was
    updated, by replacing or by appending, is not changed by updating it again. *)
Theorem updated_idempotent data ns :
  clean_namespace ns = true → Match data = true ∨ no_key true data = true →
  updated (updated data ns) ns = updated data ns.
Proof.
  intros Hns Hdata.
  assert (∃ n, namespaces (updated data ns) = repeat (ns_line ns) (S n)) as [n Hn].
  { unfold updated. destruct Hdata as [Hm|Hk].
    - rewrite Hm. unfold namespaces, ReplaceAll. fold (ns_line ns). rewrite find_all_replaced by done.
      unfold Match in Hm. destruct (find_all 0 true data) as [|m l]; [done|].
      exists (length l). cbn. f_equal. clear. induction l; cbn; congruence.
    - rewrite Match_no_key by done. exists 0. by apply namespaces_appended. }
  set (d := updated data ns) in *. unfold updated. unfold namespaces in Hn.
  assert (Match d = true) as -> by (unfold Match; by rewrite Hn).
  apply replace_all_id; [done|]. rewrite Hn. intros m Hm.
  apply list_elem_of_In in Hm. by apply repeat_spec in Hm.
Qed.

Lemma setOverlayNamespace_run overlayDir ns o :
  let path := resolve overlayDir ++ ["kustomization.yaml"] in
  let '(r, o') := setOverlayNamespace overlayDir ns o in
  (∀ k, k ≠ path → fs o' !! k = fs o !! k) ∧
  match r with
  | Panic _ => False
  | Err _ => ns ≠ ""
  | Ok _ =>
      ((ns = "" ∨ fs o !! path = None) ∧ fs o' = fs o) ∨
      ∃ data, ns ≠ "" ∧ fs o !! path = Some (File data) ∧
              fs o' = <[path := File (updated data ns)]> (fs o)
  end.
Proof.
  intros path. unfold setOverlayNamespace.
  destruct (String.eqb_spec ns "") as [Hns|Hns].
  { unfold mret, M_ret. split; [done|]. left. split; [by left|done]. }
  set (pf := Join [overlayDir; "kustomization.yaml"]).
  assert (resolve pf = path) as Hpf by by apply resolve_Join_plain.
  pose proof (within_none_fs _ o (within_ReadFile (λ _, False) pf)) as F1.
  unfold mbind, M_bind, attempt.
  destruct (ReadFile pf o) as [[data|e|w] o1] eqn:Er; cbn in F1.
  3: by destruct (safe_not_Panic _ _ _ _ (safe_ReadFile pf) Er).
  2: { destruct (IsNotExist e) eqn:En; unfold mret, M_ret, fail; rewrite F1; (split; [done|]); [|done].
       left. split; [|done]. right. rewrite <- Hpf. by eapply ReadFile_ENOENT. }
  apply ReadFile_Ok in Er. rewrite Hpf in Er.
  destruct (within_WriteFile (eq path) pf (updated data ns) (eq_sym Hpf) o1) as (_ & _ & _ & Hk).
  pose proof (safe_WriteFile pf (updated data ns) o1) as Hs.
  destruct (WriteFile pf (updated data ns) o1) as [[u|e|w] o2] eqn:Ew; cbn in Hk, Hs.
  all: split; [intros k Hne; rewrite Hk, F1 by congruence; done|try done].
  right. exists data. split_and!; [done..|]. rewrite <- F1 in Er.
  apply (WriteFile_Ok _ _ _ data) in Ew; [|by rewrite Hpf]. by rewrite Ew, Hpf, F1.
Qed.

(** [setOverlayNamespace] under every pattern of system-call failures: it
    never panics, touches no file but the kustomization of the overlay, does
    nothing for an empty namespace, leaves a missing file missing, and when it
    succeeds on an existing one has written its update. *)
Theorem setOverlayNamespace_spec overlayDir ns o :
  let path := resolve overlayDir ++ ["kustomization.yaml"] in
  let '(r, o') := setOverlayNamespace overlayDir ns o in
  (∀ k, k ≠ path → fs o' !! k = fs o !! k) ∧
  match r with
  | Panic _ => False
  | Err _ => ns ≠ ""
  | Ok _ =>
      ((ns = "" ∨ fs o !! path = None) ∧ fs o' = fs o) ∨
      ∃ data, ns ≠ "" ∧ fs o !! path = Some (File data) ∧
              fs o' = <[path := File (updated data ns)]> (fs o)
  end.
Proof. apply setOverlayNamespace_run. Qed.

(** ** Runs *)

Definition sample_overlay : string :=
  unlines ["kind: Kustomization"; "namespace: redhat-ods-applications"; "resources: []"].


Lemma updated_idempotent_witness :
  updated (updated sample_overlay "apps") "apps" = updated sample_overlay "apps".
Proof.
  apply (updated_idempotent sample_overlay "apps"); [vm_compute; reflexivity|].
  left. vm_compute. reflexivity.
Defined.

(** The white space of the expression includes line ends.  A namespace key
    without a value takes the next key of the file for its value: that key is
    deleted.  At the end of the file it matches nothing, a second namespace key
    is appended, and the next reconciliation reads across both and writes a
    namespace of two words. *)
Theorem namespace_without_value :
  updated (unlines ["namespace:"; "resources:"; "- a.yaml"]) "apps"
    = unlines ["namespace: apps"; "- a.yaml"] ∧
  updated (unlines ["namespace:"]) "apps"
    = unlines ["namespace:"; ""; "namespace: apps"] ∧
  updated (updated (unlines ["namespace:"]) "apps") "apps"
    = unlines ["namespace: apps apps"].
Proof. vm_compute. by split_and!. Qed.
