(* ===== verification/Params.v ===== *)
(** * Image parameters and overlay namespace: [internal/controller/params.go]

    The manifests of the image are copied once to a writable directory; there
    the parameter file of the overlay is rewritten, and its namespace replaced. *)
From stdpp Require Import sorting.
From S2P Require Import Prelude GoStrings OS API Kube Fake ParamsFile Overlay.

Definition extKeyWritableManifests := "ray.writableManifests".

(** ** The writable copy *)

Definition copyDir (src dst : string) : M OS unit := MkdirAll dst ;; CopyFS dst src.

Definition writableManifestsBase (basePath : string) : M OS string :=
  tmp ← TempDir;
  let dst := Join [tmp; "ray-module-manifests"] in
  r ← attempt (Stat dst);
  match r with
  | inr _ => mret dst
  | inl _ =>
      wrapping "copy manifests to %s: %w" [dst] (copyDir basePath dst) ;;
      mret dst
  end.

(** ** The action *)

Section action.
Context {K U : Type} {MR : MapRange}.

Definition applyImageParamsAction (basePath : string) : Action K U :=
  r ← gets rr;
  if removed r then mret tt
  else
    writableBase ← on_os (writableManifestsBase basePath);
    on_rr ext_init ;;
    on_rr (ext_set extKeyWritableManifests (AnyString writableBase)) ;;
    ray ← on_rr the_ray;
    let ns := ApplicationsNamespace (ray_spec ray) in
    let componentPath := Join [writableBase; ManifestPath; ManifestOverlay] in
    on_os (applyParams componentPath imageParamMap [{["namespace" := ns]}]) ;;
    on_os (setOverlayNamespace componentPath ns).
End action.

(** * Properties *)

(** ** Copying touches nothing that exists *)

(** Whatever its outcome, the computation leaves every existing path as it is. *)
Definition keeps {A} (m : M OS A) : Prop :=
  ∀ o k n, fs o !! k = Some n → fs (m o).2 !! k = Some n.

Lemma keeps_within {A} (m : M OS A) : within (λ _, False) m → keeps m.
Proof. intros Hm o k n Hk. by rewrite within_none_fs. Qed.

Lemma keeps_bind {A B} (m : M OS A) (f : A → M OS B) :
  keeps m → (∀ a, keeps (f a)) → keeps (m ≫= f).
Proof.
  intros Hm Hf o k n Hk. unfold mbind, M_bind. specialize (Hm o k n Hk).
  destruct (m o) as [[a|e|w] o1]; [|done..]. by apply Hf.
Qed.

Lemma keeps_syscall {A} (m : M OS A) : keeps m → keeps (syscall m).
Proof.
  intros Hm o k n Hk. unfold syscall. destruct (faults o (clock o)); [done|]. by apply Hm.
Qed.

Lemma keeps_wrapping {A} f args (m : M OS A) : keeps m → keeps (wrapping f args m).
Proof. intros Hm o k n Hk. specialize (Hm o k n Hk). unfold wrapping. by destruct (m o) as [[]]. Qed.

Lemma keeps_for_each {A} (l : list A) (f : A → M OS unit) :
  (∀ x, keeps (f x)) → keeps (for_each l f).
Proof.
  intros Hf o k n Hk.
  apply (for_each_inv (λ o, fs o !! k = Some n)); [|done]. intros x s _. apply Hf.
Qed.

Lemma keeps_mkdirs above k : keeps (mkdirs above k).
Proof.
  revert above. induction k as [|c k IH]; intros above; cbn; [by apply keeps_within, within_ret|].
  intros o j n Hj. unfold mbind at 1, M_bind at 1, gets.
  assert (∀ m : M OS unit, keeps m → fs ((m ;; mkdirs (above ++ [c]) k) o).2 !! j = Some n) as Hgo.
  { intros m Hm. by apply (keeps_bind _ _ Hm (λ _, IH _)). }
  destruct (fs o !! (above ++ [c])) as [[]|] eqn:E.
  - by apply Hgo, keeps_within, within_ret.
  - by apply Hgo, keeps_within, within_fail.
  - unfold mbind, M_bind, syscall. destruct (faults o (clock o)); [done|].
    apply IH. cbn. rewrite lookup_insert_ne; [done|]. intros <-. congruence.
Qed.

Lemma keeps_copy_entry dst e : keeps (copy_entry dst e).
Proof.
  unfold copy_entry. destruct e as [k [|c]]; cbn; [apply keeps_mkdirs|].
  apply keeps_bind; [by apply keeps_syscall, keeps_within, within_ret|]. intros _ o j n Hj.
  unfold mbind, M_bind. destruct (open_excl (dst ++ k) o) as [[[]|e|w] o1] eqn:E.
  - apply open_excl_Ok in E as [Hn Hf].
    assert (dst ++ k ≠ j) by congruence.
    destruct (within_write (eq (dst ++ k)) (dst ++ k) c eq_refl o1) as (_ & _ & _ & Hw).
    rewrite Hw, Hf, lookup_insert_ne; done.
  - apply open_excl_Err in E. cbn. congruence.
  - by destruct (safe_not_Panic _ _ _ _ (safe_open_excl _) E).
Qed.

(** ** A successful copy is complete *)

Lemma strip_Some root k j : strip root k = Some j ↔ k = root ++ j.
Proof.
  revert k. induction root as [|c root IH]; intros k; cbn; [naive_solver|].
  destruct k as [|d k]; [naive_solver|].
  destruct (String.eqb_spec c d) as [->|]; [rewrite IH; naive_solver|naive_solver].
Qed.

Lemma elem_of_tree f root k n : (k, n) ∈ tree f root ↔ f !! (root ++ k) = Some n.
Proof.
  unfold tree. rewrite merge_sort_Permutation, list_elem_of_omap. split.
  - intros ([k' n'] & Hin%elem_of_map_to_list & Hs). cbn in Hs.
    apply bind_Some in Hs as (j & Hj%strip_Some & [= -> ->]). by subst.
  - intros Hf. exists (root ++ k, n). rewrite elem_of_map_to_list. split; [done|].
    apply bind_Some. exists k. by rewrite strip_Some.
Qed.

Lemma mkdirs_Ok above k o u o' :
  mkdirs above k o = (Ok u, o') → k ≠ [] → fs o' !! (above ++ k) = Some Dir.
Proof.
  revert above o. induction k as [|c k IH]; intros above o Hrun Hne; [done|].
  cbn in Hrun. unfold mbind at 1, M_bind at 1, gets in Hrun.
  apply bind_Ok_inv in Hrun as ([] & o1 & Hc & Hrun).
  assert (fs o1 !! (above ++ [c]) = Some Dir) as Hd.
  { destruct (fs o !! (above ++ [c])) as [[]|] eqn:E; unfold fail_os in Hc.
    - unfold mret, M_ret in Hc. by simplify_eq.
    - done.
    - unfold syscall in Hc. destruct (faults o (clock o)); [done|].
      unfold put_node, modify in Hc. simplify_eq. cbn. by rewrite lookup_insert_eq. }
  destruct k as [|d k].
  - unfold mkdirs, mret, M_ret in Hrun. by simplify_eq.
  - replace (above ++ c :: d :: k) with ((above ++ [c]) ++ d :: k) by by rewrite <- app_assoc.
    by eapply IH.
Qed.

Lemma copy_entry_Ok dst k n o u o' :
  dst ≠ [] → copy_entry dst (k, n) o = (Ok u, o') → fs o' !! (dst ++ k) = Some n.
Proof.
  intros Hne. unfold copy_entry. destruct n as [|c]; cbn.
  - intros Hm%mkdirs_Ok; [done|]. by destruct dst.
  - intros ([] & o1 & _ & ([] & o2 & Ho%open_excl_Ok & Hw)%bind_Ok_inv)%bind_Ok_inv.
    destruct Ho as [_ Hf], u. apply (write_to_Ok _ _ "") in Hw.
    + by rewrite Hw, lookup_insert_eq.
    + by rewrite Hf, lookup_insert_eq.
Qed.

Lemma copy_entries_Ok dst l o u o' :
  dst ≠ [] → for_each l (copy_entry dst) o = (Ok u, o') →
  ∀ k n, (k, n) ∈ l → fs o' !! (dst ++ k) = Some n.
Proof.
  intros Hne. revert o. induction l as [|[k n] l IH]; intros o Hrun k' n' Hin.
  { by apply elem_of_nil in Hin. }
  cbn in Hrun. apply bind_Ok_inv in Hrun as ([] & o1 & Hc & Hrun).
  apply elem_of_cons in Hin as [[= -> ->]|Hin]; [|by eapply IH].
  apply (copy_entry_Ok _ _ _ _ _ _ Hne) in Hc.
  pose proof (keeps_for_each l (copy_entry dst) (keeps_copy_entry dst) o1 _ _ Hc) as Hk.
  by rewrite Hrun in Hk.
Qed.

Definition writable_dir (o : OS) : string :=
  let t := default "" (env o !! "TMPDIR") in
  Join [if String.eqb t "" then "/tmp" else t; "ray-module-manifests"].

Lemma writable_dir_ne o : resolve (writable_dir o) ≠ [].
Proof. unfold writable_dir. rewrite resolve_Join_plain by done. by destruct (resolve _). Qed.

Lemma keeps_CopyFS src dst : keeps (CopyFS dst src).
Proof.
  apply keeps_bind; [apply keeps_syscall, keeps_within, within_gets|].
  intros [[]|]; unfold fail_os; [|by apply keeps_within, within_fail..].
  apply keeps_bind; [apply keeps_within, within_gets|]. intros l.
  apply keeps_for_each, keeps_copy_entry.
Qed.

Lemma keeps_copyDir src dst : keeps (copyDir src dst).
Proof. apply keeps_bind; [apply keeps_mkdirs|]. intros _. apply keeps_CopyFS. Qed.

Lemma copyDir_Ok src dst o u o' :
  resolve dst ≠ [] → copyDir src dst o = (Ok u, o') →
  ∀ k n, fs o !! (resolve src ++ k) = Some n → fs o' !! (resolve dst ++ k) = Some n.
Proof.
  intros Hne Hrun k n Hk. unfold copyDir in Hrun.
  apply bind_Ok_inv in Hrun as ([] & o1 & Hm & Hrun).
  pose proof (keeps_mkdirs [] (resolve dst) o _ _ Hk) as Hk1.
  unfold MkdirAll in Hm. rewrite Hm in Hk1. cbn in Hk1. unfold CopyFS in Hrun.
  apply bind_Ok_inv in Hrun as (root & o2 & Hroot & Hrun).
  pose proof (keeps_syscall (gets (λ o, fs o !! resolve src))
    (keeps_within _ (within_gets _ _)) o1 _ _ Hk1) as Hk2.
  rewrite Hroot in Hk2. cbn in Hk2. destruct root as [[]|]; [|done..].
  apply (copy_entries_Ok _ _ _ _ _ Hne Hrun). by apply elem_of_tree.
Qed.

Lemma Stat_Ok p o u o' : Stat p o = (Ok u, o') → is_Some (fs o !! resolve p).
Proof.
  unfold Stat, syscall, fail_os. destruct (faults o (clock o)); [done|].
  generalize (resolve p). intros k. run. by destruct (fs o !! k).
Qed.

(** ** The theorems *)

(** C24: the writable copy of the manifests, under every pattern of system-call
    failures.  Nothing that exists in the file system is changed, the manifests
    of the image in particular; when the directory is returned it already
    existed, or every file and directory of the manifests was copied into it
    with its content. *)
Theorem writableManifestsBase_spec basePath o :
  let '(r, o') := writableManifestsBase basePath o in
  (∀ k n, fs o !! k = Some n → fs o' !! k = Some n) ∧
  match r with
  | Panic _ => False
  | Err e => ∃ cause, e = Wrapf "copy manifests to %s: %w" [writable_dir o] cause
  | Ok dst =>
      dst = writable_dir o ∧
      (is_Some (fs o !! resolve dst) ∨
       ∀ k n, fs o !! (resolve basePath ++ k) = Some n →
              fs o' !! (resolve dst ++ k) = Some n)
  end.
Proof.
  unfold writableManifestsBase. set (d := writable_dir o).
  unfold mbind at 1, M_bind at 1. unfold TempDir, Getenv. unfold mbind at 1, M_bind at 1, gets.
  unfold mret at 1, M_ret at 1. fold d.
  change (Join [_; "ray-module-manifests"]) with d.
  unfold mbind at 1, M_bind at 1, attempt.
  pose proof (within_none_fs _ o (within_Stat (λ _, False) d)) as F1.
  destruct (Stat d o) as [[u|e|w] o1] eqn:Es; cbn in F1.
  - unfold mret, M_ret. split; [intros; by rewrite F1|]. split; [done|]. left.
    by apply Stat_Ok in Es.
  - unfold mbind, M_bind, wrapping. pose proof (keeps_copyDir basePath d o1) as Hk. rewrite F1 in Hk.
    destruct (copyDir basePath d o1) as [[v|e'|w] o2] eqn:Ec; cbn in Hk |- *.
    + split; [done|]. split; [done|]. right. intros k n Hn. rewrite <- F1 in Hn.
      by eapply (copyDir_Ok _ _ _ _ _ (writable_dir_ne o) Ec).
    + split; [done|]. by eexists.
    + assert (safe (copyDir basePath d)) as Hs by (unfold copyDir; no_panic).
      by destruct (safe_not_Panic _ _ _ _ Hs Ec).
  - by destruct (safe_not_Panic _ _ _ _ (safe_Stat d) Es).
Qed.

(** A machine on which one system call fails. *)
Definition failing_at (t : nat) (o : OS) : OS :=
  MkOS (fs o) (env o) (clock o)
    (λ n, if Nat.eqb n t then Some (Fault "input/output error" 0) else None) (random o).

Definition image_tree : gmap (list string) node :=
  list_to_map
    [([], Dir); (["tmp"], Dir); (["m"], Dir); (["m"; "kuberay"], Dir);
     (["m"; "kuberay"; "kustomization.yaml"], File "kind: Kustomization")].

(** An interrupted copy is taken for a complete one.  There is a failure of
    one system call after which a first call reports an error, every later call
    returns the directory as if it held the manifests, and a file of the
    manifests is missing from it. *)
Theorem partial_copy_is_reused :
  ∃ o o1, (∃ e, writableManifestsBase "/m" o = (Err e, o1)) ∧
    writableManifestsBase "/m" o1 = (Ok "/tmp/ray-module-manifests", tick o1) ∧
    fs o1 !! ["m"; "kuberay"; "kustomization.yaml"] = Some (File "kind: Kustomization") ∧
    fs o1 !! ["tmp"; "ray-module-manifests"; "kuberay"; "kustomization.yaml"] = None.
Proof.
  set (o := failing_at 4 (boot image_tree ∅)).
  exists o, (writableManifestsBase "/m" o).2. split_and!; [eexists|..]; vm_compute; reflexivity.
Qed.

(** ** The action *)

Lemma keeps_writable base : keeps (writableManifestsBase base).
Proof.
  unfold writableManifestsBase.
  apply keeps_bind; [apply keeps_within, within_TempDir|]. intros tmp.
  apply keeps_bind; [apply keeps_within, within_attempt, within_Stat|].
  intros [e|u]; [|by apply keeps_within, within_ret].
  apply keeps_bind; [|intros _; by apply keeps_within, within_ret].
  apply keeps_wrapping, keeps_copyDir.
Qed.

Lemma within_setOverlayNamespace d ns :
  within (eq (resolve d ++ ["kustomization.yaml"])) (setOverlayNamespace d ns).
Proof.
  unfold setOverlayNamespace. case_match; [apply within_ret|].
  assert (resolve (Join [d; "kustomization.yaml"]) = resolve d ++ ["kustomization.yaml"]) as Hp
    by by apply resolve_Join_plain.
  apply within_bind; [apply within_attempt, within_ReadFile|]. intros [e|data]; [frame|].
  apply within_WriteFile. by rewrite Hp.
Qed.

Lemma writable_Ok base o d o' : writableManifestsBase base o = (Ok d, o') → d = writable_dir o.
Proof.
  unfold writableManifestsBase. unfold mbind at 1, M_bind at 1, TempDir, Getenv.
  unfold mbind at 1, M_bind at 1, gets. unfold mret at 1, M_ret at 1.
  change (Join [_; "ray-module-manifests"]) with (writable_dir o).
  intros (r & o1 & _ & H)%bind_Ok_inv. destruct r.
  - apply bind_Ok_inv in H as (? & ? & _ & [= <- _]). done.
  - by injection H.
Qed.

(** The overlay in the writable copy. *)
Definition overlay_dir (o : OS) : list string :=
  resolve (writable_dir o) ++ [ManifestPath; ManifestOverlay].

Lemma resolve_overlay w : resolve (Join [w; ManifestPath; ManifestOverlay]) =
  resolve w ++ [ManifestPath; ManifestOverlay].
Proof.
  rewrite resolve_Join. cbn [map List.concat].
  rewrite (split_on_plain ManifestPath), (split_on_plain ManifestOverlay), app_nil_r by done.
  rewrite app_assoc, !clean_comps_snoc by done. by rewrite <- app_assoc.
Qed.

Section run.
Context {K U : Type} {MR : MapRange}.
Implicit Types s : State K U.

(** Everything that existed outside of a directory is as it was. *)
Definition untouched (dir : list string) (o o' : OS) : Prop :=
  ∀ k n, fs o !! k = Some n → ¬ dir `prefix_of` k → fs o' !! k = Some n.

Lemma untouched_trans dir o1 o2 o3 :
  untouched dir o1 o2 → untouched dir o2 o3 → untouched dir o1 o3.
Proof. intros H1 H2 k n Hk Hd. by apply H2, Hd; apply H1. Qed.

Lemma applyParams_untouched cp images extras o :
  cp ≠ "" → untouched (resolve cp) o (applyParams cp images extras o).2 ∧
  (∀ w, (applyParams cp images extras o).1 ≠ Panic w).
Proof.
  intros Hcp. destruct (applyParams cp images extras o) as [r o'] eqn:E.
  apply (applyParams_run _ _ _ _ _ _ Hcp) in E as [_ E]. cbn. split; [|intros w ->; done].
  intros k n Hk Hd. destruct r; [|rewrite E; [done|]|done].
  - destruct E as [[_ ->]|(c & ls & m & _ & _ & _ & [[_ ->]|(es & _ & ->)])]; [done..|].
    rewrite lookup_insert_ne; [done|]. intros <-. apply Hd. by apply prefix_app_r.
  - intros d ->. apply Hd. by apply prefix_app_r.
Qed.

Lemma setOverlayNamespace_untouched d ns o :
  untouched (resolve d) o (setOverlayNamespace d ns o).2.
Proof.
  intros k n Hk Hd. destruct (within_setOverlayNamespace d ns o) as (_ & _ & _ & Hw).
  rewrite Hw; [done|]. intros <-. apply Hd. by apply prefix_app_r.
Qed.

Lemma keeps_untouched {A} dir (m : M OS A) o : keeps m → untouched dir o (m o).2.
Proof. intros Hm k n Hk _. by apply Hm. Qed.

(** The machine's part of the action. *)
Definition write_overlay (base ns : string) (o : OS) : res string * OS :=
  (w ← writableManifestsBase base;
   let cp := Join [w; ManifestPath; ManifestOverlay] in
   applyParams cp imageParamMap [{["namespace" := ns]}] ;;
   setOverlayNamespace cp ns ;;
   mret w) o.

Lemma write_overlay_untouched base ns o :
  untouched (overlay_dir o) o (write_overlay base ns o).2.
Proof.
  unfold write_overlay. unfold mbind at 1, M_bind at 1.
  pose proof (keeps_untouched (overlay_dir o) _ o (keeps_writable base)) as H1.
  destruct (writableManifestsBase base o) as [[w|e|p] o1] eqn:E; [|done..].
  apply writable_Ok in E as ->. cbn in H1.
  set (cp := Join _). assert (resolve cp = overlay_dir o) as Hcp by apply resolve_overlay.
  assert (cp ≠ "") as Hne.
  { intros Hz. rewrite Hz in Hcp. unfold overlay_dir in Hcp.
    by destruct (resolve (writable_dir o)). }
  destruct (applyParams_untouched cp imageParamMap [{["namespace" := ns]}] o1 Hne) as [H2 _].
  rewrite Hcp in H2. unfold mbind, M_bind.
  destruct (applyParams cp _ _ o1) as [[[]|e|p] o2]; cbn in H2;
    [|by eapply untouched_trans..].
  pose proof (setOverlayNamespace_untouched cp ns o2) as H3. rewrite Hcp in H3.
  destruct (setOverlayNamespace cp ns o2) as [[[]|e|p] o3]; cbn in H3 |- *;
    (eapply untouched_trans; [exact H1|]; by eapply untouched_trans).
Qed.

(** What the action does to the request. *)
Definition image_params_rr (o : OS) (r : Request U) : Request U :=
  set_Extensions (Some (<[extKeyWritableManifests := AnyString (writable_dir o)]>
                          (default ∅ (Extensions r)))) r.

Lemma set_ext_run {A} s v (m : M (State K U) A) :
  (on_rr ext_init ;; on_rr (ext_set extKeyWritableManifests v) ;; m) s =
    m (MkState (set_Extensions (Some (<[extKeyWritableManifests := v]>
               (default ∅ (Extensions (rr s))))) (rr s)) (cluster s) (os s) (filter_cache s)).
Proof.
  destruct s as [[hc i e g ms rs] k o c]. unfold on_rr, zoom, ext_init, ext_set. run.
  by destruct e.
Qed.

Lemma applyImageParamsAction_run base s ray :
  Instance_ (rr s) = Some (ARay ray) → removed (rr s) = false →
  let '(r, s') := applyImageParamsAction base s in
  let '(r0, o') := write_overlay base (ApplicationsNamespace (ray_spec ray)) (os s) in
  cluster s' = cluster s ∧ filter_cache s' = filter_cache s ∧ os s' = o' ∧
  (rr s' = rr s ∨ rr s' = image_params_rr (os s) (rr s)) ∧
  match r0 with
  | Ok _ => r = Ok tt ∧ rr s' = image_params_rr (os s) (rr s)
  | Err e => r = Err e
  | Panic w => r = Panic w
  end.
Proof.
  intros Hi Hr. unfold applyImageParamsAction, write_overlay.
  unfold mbind at 1, M_bind at 1, gets. rewrite Hr.
  unfold mbind at 1, M_bind at 1. rewrite on_os_eq.
  rewrite (bind_split (writableManifestsBase base)).
  destruct (writableManifestsBase base (os s)) as [[w|e|p] o1] eqn:E; cbn [fst snd];
    [|by split_and!; try left..].
  apply writable_Ok in E as ->.
  rewrite set_ext_run. cbn [rr cluster os filter_cache].
  fold (image_params_rr (os s) (rr s)). set (s1 := MkState _ _ _ _).
  rewrite (bind_Ok _ _ _ _ _ (on_rr_the_ray s1 ray Hi)).
  set (ns := ApplicationsNamespace (ray_spec ray)). set (cp := Join _).
  rewrite (bind_split (applyParams cp imageParamMap _)).
  rewrite (bind_split (on_os (applyParams cp imageParamMap _))), on_os_eq.
  change (os s1) with o1.
  destruct (applyParams cp _ _ o1) as [[[]|e|p] o2]; cbn [fst snd];
    [|by split_and!; try right..].
  rewrite on_os_eq. cbn [os rr cluster filter_cache].
  rewrite (bind_split (setOverlayNamespace cp ns)).
  by destruct (setOverlayNamespace cp ns o2) as [[[]|e|p] o3]; cbn [fst snd];
    split_and!; try right.
Qed.
End run.

(** C22: the image parameters, on every machine and under every pattern of failing
    calls.  A removed module writes nothing.  Otherwise, whatever the outcome,
    every file and directory that exists outside of the overlay in the writable
    copy is as it was: the manifests of the image are never modified; of the
    request only the extension that names the copy changes; the action does not
    panic, and when it succeeds the extension names the copy. *)
Theorem applyImageParamsAction_spec {K U} {MR : MapRange} base (s : State K U) ray :
  Instance_ (rr s) = Some (ARay ray) →
  let '(r, s') := applyImageParamsAction base s in
  if removed (rr s) then (r, s') = (Ok tt, s)
  else
    untouched (overlay_dir (os s)) (os s) (os s') ∧
    cluster s' = cluster s ∧ filter_cache s' = filter_cache s ∧
    (rr s' = rr s ∨ rr s' = image_params_rr (os s) (rr s)) ∧
    (r = Ok tt → rr s' = image_params_rr (os s) (rr s)).
Proof.
  intros Hi. destruct (removed (rr s)) eqn:Hr.
  { unfold applyImageParamsAction, mbind, M_bind, gets. by rewrite Hr. }
  pose proof (applyImageParamsAction_run base s ray Hi Hr) as H.
  destruct (applyImageParamsAction base s) as [r s'].
  pose proof (write_overlay_untouched base (ApplicationsNamespace (ray_spec ray)) (os s)) as Hu.
  destruct (write_overlay _ _ _) as [r0 o']. destruct H as (Hk & Hf & <- & Hrr & H).
  split_and!; [done..|]. intros ->. destruct r0; [apply H|done|done].
Qed.

Lemma applyImageParamsAction_spec_witness :
  let s := sample_state (sample_ray Managed "apps") empty_fake (boot image_tree ∅) in
  let s' := (applyImageParamsAction (MR := canonical_range) "/m" s).2 in
  untouched (overlay_dir (os s)) (os s) (os s') ∧
  fs (os s') !! ["tmp"; "ray-module-manifests"; "kuberay"; "kustomization.yaml"] =
    Some (File "kind: Kustomization").
Proof.
  cbv zeta. split; [|vm_compute; reflexivity].
  pose proof (applyImageParamsAction_spec (MR := canonical_range) "/m"
    (sample_state (sample_ray Managed "apps") empty_fake (boot image_tree ∅))
    (sample_ray Managed "apps") eq_refl) as H.
  destruct (applyImageParamsAction "/m" _) as [r s']. apply H.
Defined.
