(* ===== verification/Settle.v ===== *)
(** * The overlay settles: [internal/controller/params.go], run again

    Every reconciliation runs [applyImageParamsAction] again on the same writable
    copy.  After a success, and on a machine whose calls do not fail, running it
    again succeeds and changes no file.  After a failure it need not: the
    kustomization is rewritten in place. *)
From stdpp Require Import sorting.
From S2P Require Import Prelude GoStrings OS API Kube Fake ParamsFile Overlay Params.

(** A machine whose calls do not fail. *)
Definition healthy (o : OS) : Prop := ∀ n, faults o n = None.

Lemma healthy_syscall {A} (m : M OS A) o : healthy o → syscall m o = m (tick o).
Proof. intros Hh. unfold syscall. by rewrite Hh. Qed.

(** ** The calls of a healthy machine *)

Lemma Stat_runs p o n : healthy o → fs o !! resolve p = Some n → Stat p o = (Ok tt, tick o).
Proof.
  intros Hh Hn. unfold Stat. rewrite healthy_syscall by done. generalize dependent (resolve p).
  intros k Hk. run. by rewrite Hk.
Qed.

Lemma ReadFile_missing p o :
  healthy o → fs o !! resolve p = None → ReadFile p o = (Err (EOS ENOENT), tick o).
Proof.
  intros Hh Hn. unfold ReadFile. rewrite bind_split, healthy_syscall by done.
  generalize dependent (resolve p). intros k Hk. run. by rewrite Hk.
Qed.

(** Writing a file that exists again with its content. *)
Lemma WriteFile_same p o c :
  healthy o → fs o !! resolve p = Some (File c) →
  ∃ o', WriteFile p c o = (Ok tt, o') ∧ fs o' = fs o.
Proof.
  intros Hh Hc. unfold WriteFile, open_trunc. generalize dependent (resolve p). intros k Hc.
  rewrite bind_split, healthy_syscall by done. unfold put_node. run. rewrite Hc. cbn.
  unfold write_to. cbn. rewrite Hh. unfold append_to. cbn. rewrite lookup_insert_eq. cbn.
  eexists. split; [done|]. cbn. by rewrite insert_insert_eq, insert_id.
Qed.

(** ** The three steps, again *)

(** A writable copy that exists is used as it is. *)
Lemma writable_again base o n :
  healthy o → fs o !! resolve (writable_dir o) = Some n →
  writableManifestsBase base o = (Ok (writable_dir o), tick o).
Proof.
  intros Hh Hn. unfold writableManifestsBase. unfold mbind at 1, M_bind at 1, TempDir, Getenv.
  unfold mbind at 1, M_bind at 1, gets, mret at 1, M_ret at 1.
  change (Join [_; "ray-module-manifests"]) with (writable_dir o).
  by rewrite bind_split, (attempt_Ok _ _ _ _ (Stat_runs _ _ _ Hh Hn)).
Qed.

Section again.
Context {MR : MapRange}.

(** The parameter file of an overlay that was written: missing, or holding the
    parameters it should. *)
Definition params_settled (cp : string) (images extra : gmap string string) (o : OS) : Prop :=
  match fs o !! params_path cp with
  | None => True
  | Some Dir => False
  | Some (File c) => ∃ ls, scan_lines c = (ls, None) ∧
      with_images (env o) images (parse_lines ls) = parse_lines ls ∧
      with_extra (parse_lines ls) extra = parse_lines ls
  end.

Lemma params_again cp images extra o :
  healthy o → cp ≠ "" → params_settled cp images extra o →
  ∃ o', applyParams cp images [extra] o = (Ok tt, o') ∧ fs o' = fs o ∧ env o' = env o ∧ healthy o'.
Proof.
  intros Hh Hcp Hs. set (pf := Join [cp; "params.env"]).
  assert (resolve pf = params_path cp) as Hpf by by apply resolve_Join_plain.
  unfold params_settled in Hs. rewrite <- Hpf in Hs.
  destruct (fs o !! resolve pf) as [[|c]|] eqn:Hf; [done| |].
  - destruct Hs as (ls & Hls & Hi & Hx).
    assert (parseParams pf o = (Ok (parse_lines ls), tick (tick o))) as Hp.
    { unfold parseParams. rewrite (bind_Ok _ _ _ _ _ (ReadFile_runs _ _ _ Hh Hf)). by rewrite Hls. }
    exists (tick (tick o)). split; [|done]. by eapply applyParams_noop.
  - assert (parseParams pf o = (Err (EOS ENOENT), tick o)) as Hp.
    { unfold parseParams. by rewrite (bind_Err _ _ _ _ _ (ReadFile_missing _ _ Hh Hf)). }
    exists (tick o). split; [|done]. unfold applyParams. fold pf.
    by rewrite (bind_Ok _ _ _ _ _ (attempt_Err _ _ _ _ Hp)).
Qed.

(** A success of [applyParams] settles the parameters. *)
Lemma applied_settled cp images extra o o' :
  (∀ k, is_Some (images !! k) → extra !! k = None) →
  (∀ c, fs o !! params_path cp = Some (File c) →
     Forall wf_entry (map_to_list (overridden (env o) images [extra] (parse_lines (scan_lines c).1)))) →
  applied cp images [extra] o (Ok tt) o' → params_settled cp images extra o'.
Proof.
  intros Hdis Hwf Ha. unfold params_settled. pose proof Ha as [He Hr].
  destruct Hr as [[Hn ->]|(c & ls & m & Hc & _)]; [by rewrite Hn|].
  destruct (applied_readback cp images [extra] o o' c Ha Hc (Hwf c Hc)) as (c' & ls' & Hc' & Hs & Hm).
  rewrite Hc'. exists ls'. split; [done|]. rewrite Hm, He.
  destruct (overridden_idemp (env o) images extra (parse_lines (scan_lines c).1) Hdis). by split.
Qed.
End again.

(** A kustomization that needs no change. *)
Definition namespace_settled (d ns : string) (o : OS) : Prop :=
  match fs o !! (resolve d ++ ["kustomization.yaml"]) with
  | None => True
  | Some Dir => ns = ""
  | Some (File data) => ns = "" ∨ updated data ns = data
  end.

Lemma namespace_again d ns o :
  healthy o → namespace_settled d ns o →
  ∃ o', setOverlayNamespace d ns o = (Ok tt, o') ∧ fs o' = fs o.
Proof.
  intros Hh Hs. unfold setOverlayNamespace.
  destruct (String.eqb_spec ns "") as [|Hne]; [by exists o|].
  set (pf := Join [d; "kustomization.yaml"]).
  assert (resolve pf = resolve d ++ ["kustomization.yaml"]) as Hpf by by apply resolve_Join_plain.
  unfold namespace_settled in Hs. rewrite <- Hpf in Hs.
  destruct (fs o !! resolve pf) as [[|data]|] eqn:Hf; [done| |].
  - destruct Hs as [|Hu]; [done|].
    rewrite (bind_Ok _ _ _ _ _ (attempt_Ok _ _ _ _ (ReadFile_runs _ _ _ Hh Hf))). rewrite Hu.
    by apply (WriteFile_same pf (tick (tick o)) data).
  - rewrite (bind_Ok _ _ _ _ _ (attempt_Err _ _ _ _ (ReadFile_missing _ _ Hh Hf))). by exists (tick o).
Qed.

(** A success of [setOverlayNamespace] settles the namespace. *)
Lemma namespace_written d ns o o' :
  (∀ data, fs o !! (resolve d ++ ["kustomization.yaml"]) = Some (File data) →
     ns ≠ "" → updated (updated data ns) ns = updated data ns) →
  setOverlayNamespace d ns o = (Ok tt, o') → namespace_settled d ns o'.
Proof.
  intros Hid Hrun. pose proof (setOverlayNamespace_run d ns o) as H. cbv zeta in H.
  rewrite Hrun in H. unfold namespace_settled. set (p := resolve d ++ _) in *.
  destruct H as [_ [[[->|Hn] ->]|(data & Hne & Hd & ->)]].
  - destruct (fs o !! p) as [[]|]; auto.
  - by rewrite Hn.
  - rewrite lookup_insert_eq. right. by apply Hid.
Qed.

(** ** The whole overlay, again *)

(** What the files of an overlay must be for a run to settle them: parameters
    that fit a line, and a kustomization whose namespace keys, if it has any,
    the expression matches. *)
Definition overlay_wf (ov : list string) (ns : string) (o : OS) : Prop :=
  (∀ c, fs o !! (ov ++ ["params.env"]) = Some (File c) →
     Forall wf_entry (map_to_list (overridden (env o) imageParamMap [{["namespace" := ns]}]
                                     (parse_lines (scan_lines c).1)))) ∧
  (∀ data, fs o !! (ov ++ ["kustomization.yaml"]) = Some (File data) →
     Match data = true ∨ no_key true data = true).

Definition overlay_settled `{MapRange} (cp ns : string) (o : OS) : Prop :=
  params_settled cp imageParamMap {["namespace" := ns]} o ∧ namespace_settled cp ns o.

Lemma imageParamMap_namespace ns k :
  is_Some (imageParamMap !! k) → ({["namespace" := ns]} : gmap string string) !! k = None.
Proof.
  intros [v Hv]. apply lookup_singleton_None. intros <-. vm_compute in Hv. discriminate.
Qed.

(** The state of the parameters and of the kustomization are those of the file
    and of the environment. *)
Lemma params_settled_same cp images extra o o' :
  fs o' !! params_path cp = fs o !! params_path cp → env o' = env o →
  params_settled cp images extra o → params_settled cp images extra o'.
Proof. unfold params_settled. by intros -> ->. Qed.

Lemma namespace_settled_same d ns o o' :
  fs o' !! (resolve d ++ ["kustomization.yaml"]) = fs o !! (resolve d ++ ["kustomization.yaml"]) →
  namespace_settled d ns o → namespace_settled d ns o'.
Proof. unfold namespace_settled. by intros ->. Qed.

(** A copy that was returned is there. *)
Lemma writable_present base o d o' :
  writableManifestsBase base o = (Ok d, o') → is_Some (fs o' !! resolve (writable_dir o)).
Proof.
  unfold writableManifestsBase. unfold mbind at 1, M_bind at 1, TempDir, Getenv.
  unfold mbind at 1, M_bind at 1, gets, mret at 1, M_ret at 1.
  change (Join [_; "ray-module-manifests"]) with (writable_dir o).
  intros (r & o1 & Hr & H)%bind_Ok_inv.
  pose proof (within_none_fs _ o (within_Stat (λ _, False) (writable_dir o))) as F1.
  destruct (Stat (writable_dir o) o) as [[u|e|w] o2] eqn:Es.
  - rewrite (attempt_Ok _ _ _ _ Es) in Hr. simplify_eq. unfold mret, M_ret in H. simplify_eq.
    cbn in F1. rewrite F1. by eapply Stat_Ok.
  - rewrite (attempt_Err _ _ _ _ Es) in Hr. simplify_eq.
    apply bind_Ok_inv in H as ([] & o3 & Hc & [= <- <-]).
    unfold wrapping in Hc. destruct (copyDir base _ _) as [[v|e'|w] o4] eqn:Ec; [|done..].
    simplify_eq. unfold copyDir in Ec.
    apply bind_Ok_inv in Ec as ([] & o5 & Hm & Hcopy).
    apply mkdirs_Ok in Hm; [|apply writable_dir_ne]. cbn in Hm. exists Dir.
    pose proof (keeps_CopyFS base (writable_dir o) o5 _ _ Hm) as Hk. by rewrite Hcopy in Hk.
  - by destruct (safe_not_Panic _ _ _ _ (safe_Stat _) Es).
Qed.

Lemma within_all_writable base : within (λ _, True) (writableManifestsBase base).
Proof.
  unfold writableManifestsBase, copyDir, CopyFS, MkdirAll, fail_os. frame.
  - by apply within_mkdirs.
  - apply within_for_each. intros [k [|c]] _; unfold copy_entry; cbn; [by apply within_mkdirs|].
    frame; by eauto with frames.
Qed.

Section settles.
Context {MR : MapRange}.

(** A run that succeeded, taken apart: the copy is there, the parameters were
    applied to it, and then its namespace was set. *)
Lemma write_overlay_Ok base ns o w o' :
  write_overlay base ns o = (Ok w, o') →
  let cp := Join [writable_dir o; ManifestPath; ManifestOverlay] in
  ∃ o1 o2, writableManifestsBase base o = (Ok (writable_dir o), o1) ∧
    applyParams cp imageParamMap [{["namespace" := ns]}] o1 = (Ok tt, o2) ∧
    setOverlayNamespace cp ns o2 = (Ok tt, o') ∧ w = writable_dir o.
Proof.
  intros Hrun cp. unfold write_overlay in Hrun.
  apply bind_Ok_inv in Hrun as (w1 & o1 & Hw & Hrun). pose proof (writable_Ok _ _ _ _ Hw) as ->.
  apply bind_Ok_inv in Hrun as ([] & o2 & Ha & ([] & o3 & Hn & [= <- <-])%bind_Ok_inv).
  by exists o1, o2.
Qed.

Lemma overlay_cp o :
  let cp := Join [writable_dir o; ManifestPath; ManifestOverlay] in
  resolve cp = overlay_dir o ∧ cp ≠ "".
Proof.
  intros cp. assert (resolve cp = overlay_dir o) as Hcp by apply resolve_overlay. split; [done|].
  intros Hz. rewrite Hz in Hcp. unfold overlay_dir in Hcp. by destruct (resolve (writable_dir o)).
Qed.

(** A run that succeeded leaves the overlay settled. *)
Lemma write_overlay_leaves base ns o w o' :
  ns = "" ∨ clean_namespace ns = true →
  overlay_wf (overlay_dir o) ns (writableManifestsBase base o).2 →
  write_overlay base ns o = (Ok w, o') →
  is_Some (fs o' !! resolve (writable_dir o)) ∧
  overlay_settled (Join [writable_dir o; ManifestPath; ManifestOverlay]) ns o'.
Proof.
  intros Hns Hwf Hrun. destruct (write_overlay_Ok _ _ _ _ _ Hrun) as (o1 & o2 & Hw & Ha & Hn & _).
  rewrite Hw in Hwf. cbn [snd] in Hwf. destruct (overlay_cp o) as [Hcp Hne].
  set (cp := Join _) in *. unfold overlay_wf in Hwf. rewrite <- Hcp in Hwf. destruct Hwf as [Hwp Hwk].
  pose proof (applyParams_run _ _ _ _ _ _ Hne Ha) as Happ.
  pose proof (within_setOverlayNamespace cp ns o2) as (He & _ & _ & Hk).
  rewrite Hn in He, Hk. cbn [snd] in He, Hk.
  assert (∀ k, k ≠ params_path cp → fs o2 !! k = fs o1 !! k) as H12.
  { intros k Hpk. destruct Happ as [_ [[_ ->]|(c & ls & m & _ & _ & _ & [[_ ->]|(es & _ & ->)])]];
      [done..|]. by rewrite lookup_insert_ne. }
  assert (resolve cp ++ ["kustomization.yaml"] ≠ params_path cp) as Hdiff.
  { unfold params_path. by intros [_ [=]]%app_inj_tail. }
  split; [|split].
  - rewrite Hk; [rewrite H12; [by eapply writable_present|]|];
      unfold params_path; rewrite Hcp; unfold overlay_dir; intros Heq;
      apply (f_equal length) in Heq; rewrite !length_app in Heq; cbn in Heq; lia.
  - apply (params_settled_same _ _ _ o2); [by rewrite Hk|done|].
    eapply applied_settled; [apply imageParamMap_namespace| |exact Happ]. exact Hwp.
  - eapply namespace_written; [|exact Hn]. intros data Hd Hnz. rewrite H12 in Hd by done.
    destruct Hns as [|Hc]; [done|]. apply updated_idempotent; [done|]. by apply Hwk.
Qed.

(** A settled overlay is left as it is. *)
Lemma write_overlay_again base ns o :
  healthy o → is_Some (fs o !! resolve (writable_dir o)) →
  overlay_settled (Join [writable_dir o; ManifestPath; ManifestOverlay]) ns o →
  ∃ o', write_overlay base ns o = (Ok (writable_dir o), o') ∧ fs o' = fs o.
Proof.
  intros Hh [n Hn] [Hp Hs]. unfold write_overlay. destruct (overlay_cp o) as [_ Hne].
  rewrite (bind_Ok _ _ _ _ _ (writable_again base o n Hh Hn)). set (cp := Join _) in *.
  destruct (params_again cp imageParamMap {["namespace" := ns]} (tick o)) as (o2 & Ha & Hf & He & Hh2);
    [done..|].
  rewrite (bind_Ok _ _ _ _ _ Ha).
  destruct (namespace_again cp ns o2 Hh2) as (o3 & Hk & Hf3).
  { eapply namespace_settled_same; [|exact Hs]. by rewrite Hf. }
  rewrite (bind_Ok _ _ _ _ _ Hk). exists o3. split; [done|]. by rewrite Hf3, Hf.
Qed.
End settles.

(** C17: reconciling again changes no file.  After a pass whose image parameters
    were applied, for an applications namespace that is empty, or holds no white
    space and no dollar sign, and an overlay whose parameters fit a line each and
    whose namespace keys, if it has any, the expression matches ([overlay_wf]): a
    later pass over the same files, with the same environment and the same
    namespace, on a machine whose calls do not fail, applies them with success and
    leaves the whole file system as it is.  ([Overlay.namespace_without_value] is a
    kustomization that is not settled, whose key the expression misreads.) *)
Theorem applyImageParamsAction_settles {K U} {MR : MapRange} base (s s1 s2 : State K U) ray1 ray2 :
  let ns := ApplicationsNamespace (ray_spec ray1) in
  ns = "" ∨ clean_namespace ns = true →
  overlay_wf (overlay_dir (os s)) ns (writableManifestsBase base (os s)).2 →
  Instance_ (rr s) = Some (ARay ray1) → removed (rr s) = false →
  applyImageParamsAction base s = (Ok tt, s1) →
  Instance_ (rr s2) = Some (ARay ray2) → removed (rr s2) = false →
  ApplicationsNamespace (ray_spec ray2) = ns →
  fs (os s2) = fs (os s1) → env (os s2) = env (os s) → healthy (os s2) →
  ∃ s3, applyImageParamsAction base s2 = (Ok tt, s3) ∧ fs (os s3) = fs (os s1).
Proof.
  intros ns Hns Hwf Hi1 Hr1 Hrun Hi2 Hr2 Hray Hfs Henv Hh.
  pose proof (applyImageParamsAction_run base s ray1 Hi1 Hr1) as H1. rewrite Hrun in H1. fold ns in H1.
  destruct (write_overlay base ns (os s)) as [[w|e|p] o1] eqn:E1; [|naive_solver..].
  destruct H1 as (_ & _ & Ho1 & _). subst o1.
  destruct (write_overlay_leaves base ns (os s) w (os s1) Hns Hwf E1) as [Hd [Hp Hk]].
  assert (writable_dir (os s2) = writable_dir (os s)) as Hwd by (unfold writable_dir; by rewrite Henv).
  assert (env (os s1) = env (os s)) as He1.
  { destruct (write_overlay_Ok _ _ _ _ _ E1) as (o1 & o2 & Hw & Ha & Hn & _).
    pose proof (within_setOverlayNamespace (Join [writable_dir (os s); ManifestPath; ManifestOverlay])
      ns o2) as (He & _). rewrite Hn in He. cbn in He. rewrite He.
    apply applyParams_run in Ha as [Ha _]; [|apply overlay_cp]. rewrite Ha.
    pose proof (within_env _ _ (os s) (within_all_writable base)) as Hw'. by rewrite Hw in Hw'. }
  destruct (write_overlay_again base ns (os s2) Hh) as (o3 & E2 & Hf3).
  { by rewrite Hwd, Hfs. }
  { rewrite Hwd. split.
    - eapply params_settled_same; [| |exact Hp]; [by rewrite Hfs|by rewrite Henv, He1].
    - eapply namespace_settled_same; [|exact Hk]. by rewrite Hfs. }
  pose proof (applyImageParamsAction_run base s2 ray2 Hi2 Hr2) as H2. rewrite Hray, E2 in H2.
  destruct (applyImageParamsAction base s2) as [r s3]. destruct H2 as (_ & _ & Ho3 & _ & -> & _).
  exists s3. split; [done|]. by rewrite Ho3, Hf3.
Qed.

(** ** Runs *)

Definition settle_tree : gmap (list string) node :=
  list_to_map
    [([], Dir); (["tmp"], Dir); (["m"], Dir); (["m"; ManifestPath], Dir);
     (["m"; ManifestPath; ManifestOverlay], Dir);
     (["m"; ManifestPath; ManifestOverlay; "kustomization.yaml"],
       File (unlines ["kind: Kustomization"; "namespace: opendatahub"; "resources:"; "- a.yaml"]));
     (["m"; ManifestPath; ManifestOverlay; "params.env"],
       File (unlines ["namespace=opendatahub"; "odh-kuberay-operator-controller-image=old"]))].

Definition settle_env : gmap string string :=
  {["RELATED_IMAGE_ODH_KUBERAY_OPERATOR_CONTROLLER_IMAGE" := "quay.io/kuberay:v1"]}.

Definition settle_state (o : OS) := sample_state (sample_ray Managed "apps") empty_fake o.

Lemma applyImageParamsAction_settles_witness :
  let s := settle_state (boot settle_tree settle_env) in
  let s1 := (applyImageParamsAction (MR := canonical_range) "/m" s).2 in
  (∃ s3, applyImageParamsAction (MR := canonical_range) "/m" s1 = (Ok tt, s3) ∧
         fs (os s3) = fs (os s1)) ∧
  fs (os s1) !! ["tmp"; "ray-module-manifests"; ManifestPath; ManifestOverlay; "kustomization.yaml"] =
    Some (File (unlines ["kind: Kustomization"; "namespace: apps"; "resources:"; "- a.yaml"])).
Proof.
  cbv zeta. split; [|vm_compute; reflexivity].
  apply (applyImageParamsAction_settles (MR := canonical_range) "/m"
           (settle_state (boot settle_tree settle_env)) _ _ (sample_ray Managed "apps")
           (sample_ray Managed "apps")).
  - right. vm_compute. reflexivity.
  - split.
    + intros c Hc. vm_compute in Hc. injection Hc as <-.
      match goal with |- Forall _ ?l => assert (bool_decide (Forall wf_entry l) = true) as Hb end.
      { vm_compute. reflexivity. }
      by apply bool_decide_eq_true in Hb.
    + intros data Hd. left. vm_compute in Hd. injection Hd as <-. vm_compute. reflexivity.
  - reflexivity.
  - reflexivity.
  - vm_compute. reflexivity.
  - reflexivity.
  - vm_compute. reflexivity.
  - reflexivity.
  - reflexivity.
  - vm_compute. reflexivity.
  - intros n. vm_compute. reflexivity.
Defined.

Lemma pair_run {A B} (p : A * B) a : p.1 = a → p = (a, p.2).
Proof. by intros <-; destruct p. Qed.

(** A failed write of the kustomization is not recovered from.  Unlike the
    parameter file, the kustomization is truncated and rewritten in place: there
    is a failure of one system call after which a first pass reports an error,
    and the next pass, in which every call works, succeeds and leaves a
    kustomization with the namespace alone, without the resources that the
    manifests of the image name. *)
Theorem torn_kustomization_is_lost :
  let run := applyImageParamsAction (K := Fake) (U := Obj) (MR := canonical_range) "/m" in
  let path := ["tmp"; "ray-module-manifests"; ManifestPath; ManifestOverlay; "kustomization.yaml"] in
  ∃ s s1 s2, (∃ e, run s = (Err e, s1)) ∧ run s1 = (Ok tt, s2) ∧
    fs (os s) !! ["m"; ManifestPath; ManifestOverlay; "kustomization.yaml"] =
      Some (File (unlines ["kind: Kustomization"; "namespace: opendatahub"; "resources:"; "- a.yaml"])) ∧
    fs (os s2) !! path = Some (File (unlines [""; "namespace: apps"])).
Proof.
  intros run path. set (s := settle_state (failing_at 21 (boot settle_tree settle_env))).
  exists s, (run s).2, (run (run s).2).2.
  split_and!; [exists (EOS (EFault "input/output error"))|..].
  - apply pair_run. vm_compute. reflexivity.
  - apply pair_run. vm_compute. reflexivity.
  - vm_compute. reflexivity.
  - vm_compute. reflexivity.
Qed.
