(* ===== verification/Crash.v ===== *)
(** * Crashes: [internal/controller/params.go], killed at any system call

    The directory of the writable copy outlives the process: what a killed
    process leaves of the overlay is what the next one reads.  A process that is
    killed at a system call is one of which that call and every later one fails
    without an effect, but for a prefix of the data that the first may have
    written: on such a machine nothing changes any more, the attempts to clean up
    included. *)
From S2P Require Import Prelude GoStrings OS API Kube Fake ParamsFile Overlay Params Settle.

(** Killed at the tick [t], with [w] bytes of a write that was going on. *)
Definition dying_at (t w : nat) (o : OS) : OS :=
  MkOS (fs o) (env o) (clock o)
    (λ n, if Nat.ltb n t then faults o n else Some (Fault "killed" (if Nat.eqb n t then w else 0))) (random o).

Definition dead (o : OS) : Prop :=
  ∀ n, clock o ≤ n → ∃ msg, faults o n = Some (Fault msg 0).

(** ** A dead machine *)

(** Whatever its outcome, the computation changes nothing on a dead machine. *)
Definition inert {A} (m : M OS A) : Prop := ∀ o, dead o → fs (m o).2 = fs o ∧ dead (m o).2.

Lemma dead_tick o : dead o → dead (tick o).
Proof. intros Hd n Hn. cbn in *. apply Hd. lia. Qed.

Lemma inert_ret {A} (a : A) : inert (mret a).
Proof. done. Qed.

Lemma inert_fail {A} e : inert (@fail OS A e).
Proof. done. Qed.

Lemma inert_gets {A} (f : OS → A) : inert (gets f).
Proof. done. Qed.

Lemma inert_bind {A B} (m : M OS A) (f : A → M OS B) : inert m → (∀ a, inert (f a)) → inert (m ≫= f).
Proof.
  intros Hm Hf o Ho. rewrite bind_split. destruct (Hm o Ho) as [H1 H2].
  destruct (m o) as [[a|e|w] o1]; cbn in *; [|done..].
  destruct (Hf a o1 H2) as [H3 H4]. split; [congruence|done].
Qed.

Lemma inert_attempt {A} (m : M OS A) : inert m → inert (attempt m).
Proof. intros Hm o Ho. specialize (Hm o Ho). unfold attempt. by destruct (m o) as [[]]. Qed.

Lemma inert_wrapping {A} f args (m : M OS A) : inert m → inert (wrapping f args m).
Proof. intros Hm o Ho. specialize (Hm o Ho). unfold wrapping. by destruct (m o) as [[]]. Qed.

Lemma inert_syscall {A} (m : M OS A) : inert (syscall m).
Proof.
  intros o Ho. unfold syscall. destruct (Ho (clock o)) as [msg ->]; [done|].
  split; [done|by apply dead_tick].
Qed.

Lemma inert_write_to k data : inert (write_to k data).
Proof.
  intros o Ho. unfold write_to. destruct (Ho (clock o)) as [msg ->]; [done|]. cbn.
  unfold append_to. cbn. destruct (fs o !! k) as [[|c]|] eqn:Hk; cbn.
  2: split; [by rewrite str_app_nil_r, insert_id|apply (dead_tick o Ho)].
  all: split; [done|by apply dead_tick].
Qed.

Lemma inert_for_each {A} (l : list A) (f : A → M OS unit) : (∀ x, inert (f x)) → inert (for_each l f).
Proof.
  intros Hf. induction l as [|x l IH]; cbn [for_each]; [apply inert_ret|]. by apply inert_bind.
Qed.

Create HintDb inert.
#[export] Hint Resolve inert_ret inert_fail inert_gets inert_syscall inert_write_to : inert.

(** Decomposes a goal [inert m] along the operations of [m]. *)
Ltac idle :=
  repeat first
    [ progress intros
    | solve [eauto 2 with inert]
    | apply inert_bind | apply inert_attempt | apply inert_wrapping | apply inert_for_each
    | case_match ].

Lemma inert_mkdirs above k : inert (mkdirs above k).
Proof. revert above. induction k as [|c k IH]; intros above; cbn [mkdirs]; unfold fail_os; idle. Qed.

Lemma inert_create_temp n prefix : inert (create_temp n prefix).
Proof.
  induction n as [|n IH]; cbn [create_temp]; unfold fail_os; [idle|].
  apply inert_bind; [idle|]. intros d.
  apply inert_bind; [apply inert_attempt, inert_syscall|]. intros [[|[]| | |]|]; idle.
Qed.

Lemma inert_ReadFile p : inert (ReadFile p).
Proof. unfold ReadFile. idle. Qed.

Lemma inert_WriteFile p data : inert (WriteFile p data).
Proof. unfold WriteFile, open_trunc. idle. Qed.

Lemma inert_CopyFS dst src : inert (CopyFS dst src).
Proof.
  unfold CopyFS, fail_os. apply inert_bind; [idle|]. intros [[]|]; [|idle..].
  apply inert_bind; [idle|]. intros l. apply inert_for_each. intros [k [|c]]; unfold copy_entry; cbn.
  - apply inert_mkdirs.
  - unfold open_excl. idle.
Qed.
#[export] Hint Resolve inert_mkdirs inert_create_temp inert_ReadFile inert_WriteFile inert_CopyFS : inert.

Section overlay.
Context {MR : MapRange}.

Lemma inert_applyParams cp images extras : inert (applyParams cp images extras).
Proof.
  unfold applyParams. apply inert_bind.
  { apply inert_attempt. unfold parseParams. idle. }
  intros [e|m]; [idle|]. apply inert_bind; [apply inert_gets|]. intros keys.
  apply inert_bind.
  { generalize (m, 0%Z), (keys.*1). clear. intros acc ks. revert acc.
    induction ks as [|k ks IH]; intros acc; cbn [override_images]; unfold Getenv; idle. }
  intros acc. apply inert_bind.
  { revert acc. induction extras as [|x extras IH]; intros acc; cbn [override_extras];
      unfold range_entries; idle. }
  intros acc'. case_match; [idle|]. apply inert_bind.
  { unfold CreateTemp, TempDir, Getenv. idle. }
  intros tmp. unfold range_entries, write_params, or_remove, Remove, Rename. idle.
Qed.

Lemma inert_write_overlay base ns : inert (write_overlay base ns).
Proof.
  intros o. apply (inert_bind (writableManifestsBase base)).
  - unfold writableManifestsBase, copyDir, MkdirAll, Stat, TempDir, Getenv. idle.
  - intros w. apply inert_bind; [apply inert_applyParams|]. intros _.
    apply inert_bind; [unfold setOverlayNamespace; idle|]. intros _. idle.
Qed.
End overlay.

(** ** What is on the disk *)

(** Writing a file that exists, whatever fails: it is as it was, or holds the
    beginning of the data. *)
Lemma WriteFile_prefix p data c o :
  fs o !! resolve p = Some (File c) →
  fs (WriteFile p data o).2 = fs o ∨
  ∃ j, fs (WriteFile p data o).2 = <[resolve p := File (str_take j data)]> (fs o).
Proof.
  unfold WriteFile, open_trunc. generalize (resolve p). intros k Hk. rewrite bind_split.
  unfold syscall. destruct (faults o (clock o)); [by left|]. run. rewrite Hk. cbn. right.
  unfold write_to, append_to. cbn. rewrite lookup_insert_eq. cbn.
  destruct (faults o _) as [f|]; cbn; rewrite insert_insert_eq.
  - by exists (fault_written f).
  - exists (String.length data). by rewrite str_take_all.
Qed.

Lemma setOverlayNamespace_disk d ns o data :
  fs o !! (resolve d ++ ["kustomization.yaml"]) = Some (File data) →
  let o' := (setOverlayNamespace d ns o).2 in
  fs o' = fs o ∨
  ∃ j, fs o' = <[resolve d ++ ["kustomization.yaml"] := File (str_take j (updated data ns))]> (fs o).
Proof.
  intros Hd. unfold setOverlayNamespace. case_match; [by left|].
  set (pf := Join [d; "kustomization.yaml"]).
  assert (resolve pf = resolve d ++ ["kustomization.yaml"]) as Hpf by by apply resolve_Join_plain.
  pose proof (within_none_fs _ o (within_ReadFile (λ _, False) pf)) as F1. rewrite bind_split.
  unfold attempt. destruct (ReadFile pf o) as [[data'|e|w] o1] eqn:Er; cbn in F1.
  3: by left.
  - apply ReadFile_Ok in Er. rewrite Hpf, Hd in Er. injection Er as <-. rewrite <- F1 in Hd |- *.
    rewrite <- Hpf in Hd |- *. by eapply WriteFile_prefix.
  - left. by destruct (IsNotExist e).
Qed.

Section disk.
Context {MR : MapRange}.

(** A parameter file is replaced at once, or not at all. *)
Lemma applyParams_disk cp images extras o c :
  cp ≠ "" → fs o !! params_path cp = Some (File c) →
  let o' := (applyParams cp images extras o).2 in
  fs o' !! params_path cp = Some (File c) ∨
  ∃ entries, entries ≡ₚ map_to_list (overridden (env o) images extras (parse_lines (scan_lines c).1)) ∧
    fs o' !! params_path cp = Some (File (unlines (map param_line entries))).
Proof.
  intros Hcp Hc o'. destruct (applyParams cp images extras o) as [r o1] eqn:E.
  apply applyParams_run in E as [_ E]; [|done]. unfold o'. cbn [snd]. destruct r as [u|e|w]; [| |done].
  - destruct E as [[_ ->]|(c' & ls & m & Hc' & Hs & -> & [[_ ->]|(es & Hp & ->)])]; [by left..|].
    right. exists es. rewrite Hc in Hc'. injection Hc' as <-. rewrite Hs in *.
    split; [done|]. by rewrite lookup_insert_eq.
  - left. rewrite E; [done|]. intros d. apply not_eq_sym, temp_path_ne.
Qed.

Lemma applyParams_kustomization cp images extras o :
  cp ≠ "" → fs (applyParams cp images extras o).2 !! (resolve cp ++ ["kustomization.yaml"]) =
            fs o !! (resolve cp ++ ["kustomization.yaml"]).
Proof.
  intros Hcp. destruct (applyParams cp images extras o) as [r o1] eqn:E.
  apply applyParams_run in E as [_ E]; [|done]. cbn [snd]. destruct r as [u|e|w]; [| |done].
  - destruct E as [[_ ->]|(c' & ls & m & _ & _ & _ & [[_ ->]|(es & _ & ->)])]; [done..|].
    rewrite lookup_insert_ne; [done|]. unfold params_path. by intros [_ [=]]%app_inj_tail.
  - apply E. intros d. unfold temp_path. by intros [_ [=]]%app_inj_tail.
Qed.

(** What one run leaves of the two files of the overlay. *)
Lemma write_overlay_disk base ns o :
  let o' := (write_overlay base ns o).2 in
  (∀ c, fs o !! (overlay_dir o ++ ["params.env"]) = Some (File c) →
     fs o' !! (overlay_dir o ++ ["params.env"]) = Some (File c) ∨
     ∃ entries, entries ≡ₚ map_to_list
         (overridden (env o) imageParamMap [{["namespace" := ns]}] (parse_lines (scan_lines c).1)) ∧
       fs o' !! (overlay_dir o ++ ["params.env"]) = Some (File (unlines (map param_line entries)))) ∧
  (∀ data, fs o !! (overlay_dir o ++ ["kustomization.yaml"]) = Some (File data) →
     fs o' !! (overlay_dir o ++ ["kustomization.yaml"]) = Some (File data) ∨
     ∃ j, fs o' !! (overlay_dir o ++ ["kustomization.yaml"]) = Some (File (str_take j (updated data ns)))).
Proof.
  unfold write_overlay. rewrite bind_split.
  pose proof (keeps_writable base o) as Hk. pose proof (within_env _ _ o (within_all_writable base)) as He.
  destruct (writableManifestsBase base o) as [[w|e|p] o1] eqn:Ew; cbn in Hk, He;
    [|by split; intros x Hx; left; apply Hk..].
  apply writable_Ok in Ew as ->. destruct (overlay_cp o) as [Hcp Hne]. set (cp := Join _) in *.
  rewrite <- Hcp, <- He. clearbody cp. clear Hcp He. rewrite bind_split.
  pose proof (applyParams_disk cp imageParamMap [{["namespace" := ns]}] o1) as Hp.
  pose proof (applyParams_kustomization cp imageParamMap [{["namespace" := ns]}] o1 Hne) as Hkk.
  destruct (applyParams cp _ _ o1) as [[[]|e|p] o2]; cbn [snd] in Hp, Hkk.
  2,3: split; intros x Hx%Hk; [by apply Hp|left; cbn; by rewrite Hkk].
  rewrite bind_split.
  pose proof (setOverlayNamespace_disk cp ns o2) as Hs.
  destruct (within_setOverlayNamespace cp ns o2) as (_ & _ & _ & Hw).
  assert (∀ x, fs (setOverlayNamespace cp ns o2).2 !! (resolve cp ++ ["params.env"]) = x ↔
               fs o2 !! (resolve cp ++ ["params.env"]) = x) as Hsame.
  { intros x. rewrite Hw; [done|]. by intros [_ [=]]%app_inj_tail. }
  assert (∀ data, fs o !! (resolve cp ++ ["kustomization.yaml"]) = Some (File data) →
    let o' := (setOverlayNamespace cp ns o2).2 in
    fs o' !! (resolve cp ++ ["kustomization.yaml"]) = Some (File data) ∨
    ∃ j, fs o' !! (resolve cp ++ ["kustomization.yaml"]) = Some (File (str_take j (updated data ns)))) as Hkust.
  { intros data Hd%Hk. cbv zeta. rewrite <- Hkk in Hd. destruct (Hs data Hd) as [E|[j E]]; rewrite E; [by left|].
    right. exists j. by rewrite lookup_insert_eq. }
  assert (∀ c, fs o !! (resolve cp ++ ["params.env"]) = Some (File c) →
    let o' := (setOverlayNamespace cp ns o2).2 in
    fs o' !! (resolve cp ++ ["params.env"]) = Some (File c) ∨
    ∃ entries, entries ≡ₚ map_to_list
        (overridden (env o1) imageParamMap [{["namespace" := ns]}] (parse_lines (scan_lines c).1)) ∧
      fs o' !! (resolve cp ++ ["params.env"]) = Some (File (unlines (map param_line entries)))) as Hpar.
  { intros c Hc%Hk. cbv zeta. destruct (Hp c Hne Hc) as [E|(es & He & E)]; [left; by apply Hsame|].
    right. exists es. split; [done|by apply Hsame]. }
  by destruct (setOverlayNamespace cp ns o2) as [[[]|e|p] o3]; split.
Qed.

Lemma within_all_write_overlay base ns : within (λ _, True) (write_overlay base ns).
Proof.
  apply (within_bind _ (writableManifestsBase base)); [apply within_all_writable|]. intros w.
  apply within_bind.
  - unfold applyParams. apply within_bind; [apply within_attempt, within_parseParams|].
    intros [e|m]; [frame|]. apply within_bind; [apply within_gets|]. intros keys.
    apply within_bind.
    { generalize (m, 0%Z), (keys.*1). clear. intros acc ks. revert acc.
      induction ks as [|k ks IH]; intros acc; cbn [override_images]; frame; apply IH. }
    intros acc. apply within_bind.
    { generalize acc. generalize [({["namespace" := ns]} : gmap string string)]. clear.
      intros l. induction l as [|x l IH]; intros acc; cbn [override_extras];
        unfold range_entries; frame; apply IH. }
    intros acc'. case_match; [frame|]. apply within_bind.
    { unfold CreateTemp. apply within_bind; [frame|]. intros d. by apply within_create_temp. }
    intros tmp. apply within_bind; [apply within_gets|]. intros es. by apply within_write_params.
  - intros _. apply within_bind; [|intros _; apply within_ret].
    unfold setOverlayNamespace. case_match; [frame|]. apply within_bind; [frame|].
    intros [e|d]; [frame|]. by apply within_WriteFile.
Qed.
End disk.

(** The action on a dead machine. *)
Definition idle_state {K U A} (m : M (State K U) A) : Prop :=
  ∀ s, dead (os s) → fs (os (m s).2) = fs (os s) ∧ dead (os (m s).2).

Section idle.
Context {K U : Type} {MR : MapRange}.

Lemma idle_bind {A B} (m : M (State K U) A) (f : A → M (State K U) B) :
  idle_state m → (∀ a, idle_state (f a)) → idle_state (m ≫= f).
Proof.
  intros Hm Hf s Hs. rewrite bind_split. destruct (Hm s Hs) as [H1 H2].
  destruct (m s) as [[a|e|w] s1]; cbn in *; [|done..].
  destruct (Hf a s1 H2) as [H3 H4]. split; [congruence|done].
Qed.

Lemma idle_on_rr {A} (m : M (Request U) A) : idle_state (K := K) (on_rr m).
Proof. intros s Hs. unfold on_rr, zoom. by destruct (m (rr s)). Qed.

Lemma idle_on_os {A} (m : M OS A) : inert m → idle_state (K := K) (U := U) (on_os m).
Proof. intros Hm s Hs. rewrite on_os_eq. by apply Hm. Qed.

Lemma idle_imageParams base : idle_state (K := K) (U := U) (applyImageParamsAction base).
Proof.
  unfold applyImageParamsAction. apply idle_bind; [done|]. intros r. case_match; [done|].
  apply idle_bind.
  { apply idle_on_os. unfold writableManifestsBase, copyDir, MkdirAll, Stat, TempDir, Getenv. idle. }
  intros w. apply idle_bind; [apply idle_on_rr|]. intros _. apply idle_bind; [apply idle_on_rr|]. intros _.
  apply idle_bind; [apply idle_on_rr|]. intros ray.
  apply idle_bind; [apply idle_on_os, inert_applyParams|]. intros _.
  apply idle_on_os. unfold setOverlayNamespace. idle.
Qed.
End idle.

Definition set_os {K U} (o : OS) (s : State K U) : State K U := MkState (rr s) (cluster s) o (filter_cache s).

(** C18: what a crash leaves of the files that are in the copy already.  Kill the
    process at any system call of the action, with any part of a write done, on any
    machine: what existed outside of the overlay is as it was; a parameter file
    that the overlay had is the old one, or the complete new one; a kustomization
    that it had is the old one, or the beginning of the new one.  And this is the
    state at the moment of the crash: once dead, the machine is not changed by
    whatever the action still attempts, its cleaning up included.  Nothing is said
    of files that were not there: a process killed while it copies the manifests
    for the first time leaves a part of the copy, and the file it was writing torn
    ([first_copy_is_torn], [partial_copy_is_reused]). *)
Theorem crash_safety {K U} {MR : MapRange} base (s : State K U) ray t w :
  Instance_ (rr s) = Some (ARay ray) → removed (rr s) = false →
  let ns := ApplicationsNamespace (ray_spec ray) in
  let ov := overlay_dir (os s) in
  let o' := os (applyImageParamsAction base (set_os (dying_at t w (os s)) s)).2 in
  untouched ov (os s) o' ∧
  (∀ c, fs (os s) !! (ov ++ ["params.env"]) = Some (File c) →
     fs o' !! (ov ++ ["params.env"]) = Some (File c) ∨
     ∃ entries, entries ≡ₚ map_to_list (overridden (env (os s)) imageParamMap
           [{["namespace" := ns]}] (parse_lines (scan_lines c).1)) ∧
       fs o' !! (ov ++ ["params.env"]) = Some (File (unlines (map param_line entries)))) ∧
  (∀ data, fs (os s) !! (ov ++ ["kustomization.yaml"]) = Some (File data) →
     fs o' !! (ov ++ ["kustomization.yaml"]) = Some (File data) ∨
     ∃ j, fs o' !! (ov ++ ["kustomization.yaml"]) = Some (File (str_take j (updated data ns)))) ∧
  (t < clock o' → ∀ s2 : State K U, os s2 = o' →
     fs (os (applyImageParamsAction base s2).2) = fs o').
Proof.
  intros Hi Hr ns ov o'. set (o := dying_at t w (os s)). set (s1 := set_os o s).
  pose proof (applyImageParamsAction_run base s1 ray Hi Hr) as H. fold ns in H.
  pose proof (write_overlay_untouched base ns o) as Hu.
  pose proof (write_overlay_disk base ns o) as [Hp Hk].
  pose proof (within_all_write_overlay base ns o) as (_ & Hf & _).
  change (os s1) with o in H. unfold o' in *. fold o s1.
  destruct (applyImageParamsAction base s1) as [r s'].
  destruct (write_overlay base ns o) as [r0 o1]. cbn [snd] in *.
  destruct H as (_ & _ & -> & _).
  split_and!; [exact Hu|exact Hp|exact Hk|].
  intros Ht s2 <-. apply idle_imageParams. intros n Hn. rewrite Hf. unfold o, dying_at. cbn [faults].
  rewrite (proj2 (Nat.ltb_ge n t)), (proj2 (Nat.eqb_neq n t)) by lia. by eexists.
Qed.

(** A process killed while it copies the manifests for the first time: the
    parameter file of the copy is neither absent nor any complete one. *)
Definition first_copy_killed (t w : nat) : option node :=
  let s := settle_state (boot settle_tree settle_env) in
  fs (os (applyImageParamsAction (MR := canonical_range) "/m" (set_os (dying_at t w (os s)) s)).2)
    !! (overlay_dir (os s) ++ ["params.env"]).

Example first_copy_is_torn : first_copy_killed 10 12 = Some (File "namespace=op").
Proof. vm_compute. reflexivity. Qed.

(** A run killed while it writes the kustomization, at the tick 21. *)
Lemma crash_safety_witness :
  let s := settle_state (boot settle_tree settle_env) in
  let path := ["tmp"; "ray-module-manifests"; ManifestPath; ManifestOverlay; "kustomization.yaml"] in
  let o' := os (applyImageParamsAction (MR := canonical_range) "/m" (set_os (dying_at 21 9 (os s)) s)).2 in
  untouched (overlay_dir (os s)) (os s) o' ∧ fs o' !! path = Some (File "kind: Kus").
Proof.
  cbv zeta. split; [|vm_compute; reflexivity].
  apply (crash_safety (MR := canonical_range) "/m" (settle_state (boot settle_tree settle_env))
           (sample_ray Managed "apps") 21 9); reflexivity.
Defined.
