(* ===== verification/Progress.v ===== *)
(** * Progress: [internal/controller/params.go], on a machine that does not fail

    The other files say what holds of the calls whatever their outcome.  Here
    they have one: on a machine whose calls do not fail, the copy of the manifests
    is made, the parameters are rewritten and the namespace is set, from a disk
    that has never seen the module, from one that has, and from what a killed
    process left. *)
From stdpp Require Import sorting.
From S2P Require Import Prelude GoStrings OS API Kube Fake ParamsFile Overlay Params Settle Crash.

(** [m] succeeds with [a] and leaves the files [f]; the environment, the schedules
    and the health of the machine stay. *)
Definition runs {A} (m : M OS A) (o : OS) (a : A) (f : gmap (list string) node) : Prop :=
  ∃ o', m o = (Ok a, o') ∧ fs o' = f ∧ env o' = env o ∧ random o' = random o ∧ healthy o'.

Section runs.

Lemma runs_ret {A} (a : A) o : healthy o → runs (mret a) o a (fs o).
Proof. intros Hh. by exists o. Qed.

Lemma runs_gets {A} (g : OS → A) o : healthy o → runs (gets g) o (g o) (fs o).
Proof. intros Hh. by exists o. Qed.

Lemma runs_bind {A B} (m : M OS A) (k : A → M OS B) o a b f g :
  runs m o a f →
  (∀ o', fs o' = f → env o' = env o → random o' = random o → healthy o' → runs (k a) o' b g) →
  runs (m ≫= k) o b g.
Proof.
  intros (o1 & Hm & Hf & He & Hr & Hh) Hk.
  destruct (Hk o1 Hf He Hr Hh) as (o2 & H2 & Hg & He2 & Hr2 & Hh2).
  exists o2. rewrite (bind_Ok _ _ _ _ _ Hm). split_and!; congruence || done.
Qed.

Lemma runs_attempt {A} (m : M OS A) o a f : runs m o a f → runs (attempt m) o (inr a) f.
Proof. intros (o1 & Hm & H). exists o1. by rewrite (attempt_Ok _ _ _ _ Hm). Qed.

Lemma runs_wrapping {A} fmt args (m : M OS A) o a f : runs m o a f → runs (wrapping fmt args m) o a f.
Proof. intros (o1 & Hm & H). exists o1. unfold wrapping. by rewrite Hm. Qed.

Lemma runs_syscall {A} (m : M OS A) o a f :
  healthy o → (∀ o', fs o' = fs o → healthy o' → runs m o' a f) → runs (syscall m) o a f.
Proof.
  intros Hh Hm. destruct (Hm (tick o) eq_refl Hh) as (o1 & H1 & H).
  exists o1. by rewrite healthy_syscall.
Qed.

Lemma runs_put k n o : healthy o → runs (put_node k n) o tt (<[k := n]> (fs o)).
Proof. intros Hh. by eexists. Qed.

Lemma runs_check_parent k o :
  healthy o → fs o !! parent k = Some Dir → runs (check_parent k) o tt (fs o).
Proof. intros Hh Hp. exists o. unfold check_parent. run. by rewrite Hp. Qed.

Lemma open_excl_runs k o :
  healthy o → fs o !! k = None → fs o !! parent k = Some Dir →
  runs (open_excl k) o tt (<[k := File ""]> (fs o)).
Proof.
  intros Hh Hk Hp. apply runs_syscall; [done|]. intros o1 Hf Hh1. rewrite <- Hf in Hk, Hp |- *.
  eapply runs_bind; [by apply runs_gets|]. cbv beta. rewrite Hk. intros o2 Hf2 _ _ Hh2.
  rewrite <- Hf2 in Hp |- *. eapply runs_bind; [by apply runs_check_parent|].
  intros o3 <- _ _ Hh3. by apply runs_put.
Qed.

Lemma write_to_runs k data c o :
  healthy o → fs o !! k = Some (File c) → runs (write_to k data) o tt (<[k := File (c +:+ data)]> (fs o)).
Proof.
  intros Hh Hk. unfold write_to, append_to. eexists. rewrite Hh. cbn. rewrite Hk. by split_and!.
Qed.

Lemma WriteFile_runs p data c o :
  healthy o → fs o !! resolve p = Some (File c) →
  runs (WriteFile p data) o tt (<[resolve p := File data]> (fs o)).
Proof.
  intros Hh Hc. unfold WriteFile, open_trunc. generalize dependent (resolve p). intros k Hc.
  apply (runs_bind _ _ _ tt _ (<[k := File ""]> (fs o))).
  { apply runs_syscall; [done|]. intros o1 Hf Hh1. rewrite <- Hf in Hc |- *.
    eapply runs_bind; [by apply runs_gets|]. cbv beta. rewrite Hc. intros o2 <- _ _ Hh2.
    by apply runs_put. }
  intros o1 Hf _ _ Hh1.
  replace (<[k := File data]> (fs o)) with (<[k := File ("" +:+ data)]> (fs o1))
    by by rewrite Hf, insert_insert_eq.
  apply write_to_runs; [done|]. by rewrite Hf, lookup_insert_eq.
Qed.

(** ** Directories *)

(** The directories [mkdirs] leaves. *)
Fixpoint made (above k : list string) (f : gmap (list string) node) : gmap (list string) node :=
  match k with
  | [] => f
  | c :: k' => made (above ++ [c]) k' (<[above ++ [c] := Dir]> f)
  end.

Lemma made_off above k f p :
  (∀ j, 0 < j ≤ length k → p ≠ above ++ take j k) → made above k f !! p = f !! p.
Proof.
  revert above f. induction k as [|c k IH]; intros above f Hp; [done|]. cbn. rewrite IH.
  - rewrite lookup_insert_ne; [done|]. apply not_eq_sym, (Hp 1). cbn. lia.
  - intros j Hj. rewrite <- app_assoc. apply (Hp (S j)). cbn. lia.
Qed.

Lemma made_on above k f j : 0 < j ≤ length k → made above k f !! (above ++ take j k) = Some Dir.
Proof.
  revert above f j. induction k as [|c k IH]; intros above f j Hj; cbn in Hj; [lia|].
  destruct j as [|j]; [lia|]. cbn [made take].
  replace (above ++ c :: take j k) with ((above ++ [c]) ++ take j k) by by rewrite <- app_assoc.
  destruct (decide (j = 0)) as [->|]; [|apply IH; lia].
  rewrite made_off; cbn.
  - by rewrite app_nil_r, lookup_insert_eq.
  - intros i Hi Hc. apply app_inv_head_iff in Hc. destruct k, i; cbn in *; (lia || done).
Qed.

(** Nothing but the last directory is missing. *)
Lemma made_last above k f :
  k ≠ [] → (∀ j, 0 < j < length k → f !! (above ++ take j k) = Some Dir) →
  made above k f = <[above ++ k := Dir]> f.
Proof.
  revert above f. induction k as [|c k IH]; intros above f Hne Hf; [done|]. cbn [made].
  destruct k as [|d k]; [done|]. rewrite insert_id.
  - rewrite IH; [by rewrite <- app_assoc|done|]. intros j Hj. rewrite <- app_assoc.
    apply (Hf (S j)). cbn in *. lia.
  - apply (Hf 1). cbn. lia.
Qed.

Lemma mkdirs_runs above k o :
  healthy o → (∀ j c, 0 < j ≤ length k → fs o !! (above ++ take j k) ≠ Some (File c)) →
  runs (mkdirs above k) o tt (made above k (fs o)).
Proof.
  revert above o. induction k as [|c k IH]; intros above o Hh Hf; cbn [mkdirs made]; [by apply runs_ret|].
  assert (∀ x, fs o !! (above ++ [c]) ≠ Some (File x)) as Hc by (intros x; apply (Hf 1); cbn; lia).
  assert (∀ j x, 0 < j ≤ length k → fs o !! ((above ++ [c]) ++ take j k) ≠ Some (File x)) as Hk.
  { intros j x Hj. rewrite <- app_assoc. apply (Hf (S j)). cbn. lia. }
  eapply runs_bind; [by apply runs_gets|]. cbv beta. intros o1 Hf1 _ _ Hh1.
  apply (runs_bind _ _ _ tt _ (<[above ++ [c] := Dir]> (fs o))).
  - destruct (fs o !! (above ++ [c])) as [[|x]|] eqn:E; [|by destruct (Hc x)|].
    + rewrite insert_id by done. rewrite <- Hf1. by apply runs_ret.
    + rewrite <- Hf1. apply runs_syscall; [done|]. intros o2 <- Hh2. by apply runs_put.
  - intros o2 Hf2 _ _ Hh2. rewrite <- Hf2. apply IH; [done|]. intros j x Hj. rewrite Hf2.
    rewrite lookup_insert_ne; [by apply Hk|]. intros Heq. apply (f_equal length) in Heq.
    rewrite !length_app, length_take in Heq. cbn in Heq. lia.
Qed.
End runs.

(** ** The order of a walk *)

Section walk.

Lemma ascii_compare_trans a b c :
  Ascii.compare a b = Lt → Ascii.compare b c = Lt → Ascii.compare a c = Lt.
Proof. unfold Ascii.compare. rewrite !N.compare_lt_iff. lia. Qed.

Lemma ascii_compare_refl a : Ascii.compare a a = Eq.
Proof. unfold Ascii.compare. apply N.compare_refl. Qed.

Lemma ascii_compare_eq a b : Ascii.compare a b = Eq → a = b.
Proof.
  unfold Ascii.compare. rewrite N.compare_eq_iff. intros H.
  by rewrite <- (ascii_N_embedding a), H, ascii_N_embedding.
Qed.

Lemma string_compare_refl s : String.compare s s = Eq.
Proof. induction s as [|a s IH]; [done|]. cbn. by rewrite ascii_compare_refl. Qed.

Lemma string_compare_trans s t u :
  String.compare s t = Lt → String.compare t u = Lt → String.compare s u = Lt.
Proof.
  revert t u. induction s as [|a s IH]; intros [|b t] [|c u]; cbn; try done.
  destruct (Ascii.compare a b) eqn:Hab; [apply ascii_compare_eq in Hab as ->| |done].
  - destruct (Ascii.compare b c); [apply IH|done..].
  - intros _. destruct (Ascii.compare b c) eqn:Hbc; [apply ascii_compare_eq in Hbc as ->| |done].
    + by rewrite Hab.
    + by rewrite (ascii_compare_trans _ _ _ Hab Hbc).
Qed.

Lemma walk_leb_trans j k l : walk_leb j k = true → walk_leb k l = true → walk_leb j l = true.
Proof.
  revert k l. induction j as [|c j IH]; intros [|d k] [|e l]; cbn; try done.
  destruct (String.compare c d) eqn:Hcd; [apply String.compare_eq_iff in Hcd as ->| |done].
  - destruct (String.compare d e); [apply IH|done..].
  - intros _. destruct (String.compare d e) eqn:Hde; [apply String.compare_eq_iff in Hde as ->| |done].
    + by rewrite Hcd.
    + by rewrite (string_compare_trans _ _ _ Hcd Hde).
Qed.

Lemma walk_leb_total j k : walk_leb j k = true ∨ walk_leb k j = true.
Proof.
  revert k. induction j as [|c j IH]; intros [|d k]; cbn; [by left..|by right|].
  rewrite (String.compare_antisym d c). destruct (String.compare c d); cbn; auto.
Qed.

#[export] Instance walk_le_trans : Transitive walk_le.
Proof. intros x y z. apply walk_leb_trans. Qed.

#[export] Instance walk_le_total : Total walk_le.
Proof. intros x y. apply walk_leb_total. Qed.

(** A directory is visited before what it holds. *)
Lemma walk_leb_below j c t : walk_leb (j ++ c :: t) j = false.
Proof. induction j as [|d j IH]; cbn; [done|]. by rewrite string_compare_refl. Qed.

Lemma tree_sorted f root : StronglySorted walk_le (tree f root).
Proof. apply StronglySorted_merge_sort; apply _. Qed.

Lemma tree_NoDup f root : NoDup (tree f root).*1.
Proof.
  unfold tree. rewrite merge_sort_Permutation. pose proof (NoDup_fst_map_to_list f) as Hnd. revert Hnd.
  induction (map_to_list f) as [|[k n] l IH]; [constructor|].
  cbn [fmap list_fmap fst]. intros [Hk Hl]%NoDup_cons. cbn [omap list_omap].
  cbn [fst snd].
  destruct (strip root k) as [j|] eqn:Hs; cbn; [|by apply IH]. apply strip_Some in Hs as ->.
  apply NoDup_cons. split; [|by apply IH]. intros ([j' n'] & -> & Hin)%list_elem_of_fmap. apply Hk.
  apply list_elem_of_omap in Hin as ([k' n''] & Hin & Hb). cbn in Hb.
  apply bind_Some in Hb as (i & Hi%strip_Some & [= -> ->]). cbn in *. subst.
  apply list_elem_of_fmap. by exists (root ++ j', n').
Qed.
End walk.

(** ** Copying *)

(** Every directory of a file system is in one. *)
Record fs_wf (f : gmap (list string) node) : Prop := {
  wf_root : f !! [] = Some Dir;
  wf_parent k c : is_Some (f !! (k ++ [c])) → f !! k = Some Dir;
}.

Lemma wf_above f k j : fs_wf f → is_Some (f !! (k ++ j)) → j ≠ [] → f !! k = Some Dir.
Proof.
  intros Hf. induction j as [|c j IH] using rev_ind; [done|]. intros Hs _. rewrite app_assoc in Hs.
  apply (wf_parent f Hf) in Hs. destruct j as [|d j]; [by rewrite app_nil_r in Hs|].
  apply IH; [by rewrite Hs|done].
Qed.

Lemma wf_below f k j : fs_wf f → f !! k = None → f !! (k ++ j) = None.
Proof.
  intros Hf Hk. destruct (f !! (k ++ j)) eqn:E; [|done].
  destruct j as [|c j]; [by rewrite app_nil_r in E; congruence|].
  rewrite (wf_above f k (c :: j)) in Hk; done.
Qed.

(** The entries of a tree, put below a directory. *)
Definition placed (dst : list string) (l : list (list string * node)) (f : gmap (list string) node) :=
  foldl (λ f e, <[dst ++ e.1 := e.2]> f) f l.

Section placed.
Implicit Types (f : gmap (list string) node) (l : list (list string * node)).

Lemma placed_snoc dst l e f : placed dst (l ++ [e]) f = <[dst ++ e.1 := e.2]> (placed dst l f).
Proof. unfold placed. by rewrite foldl_app. Qed.

Lemma placed_other dst l f p : (∀ e, e ∈ l → dst ++ e.1 ≠ p) → placed dst l f !! p = f !! p.
Proof.
  revert f. induction l as [|e l IH]; intros f Hp; [done|]. cbn.
  fold (placed dst l (<[dst ++ e.1 := e.2]> f)).
  rewrite IH; [|by intros e' He; apply Hp; right]. rewrite lookup_insert_ne; [done|].
  apply Hp. left.
Qed.

Lemma placed_in dst l f k n : NoDup l.*1 → (k, n) ∈ l → placed dst l f !! (dst ++ k) = Some n.
Proof.
  revert f. induction l as [|[j m] l IH]; intros f Hnd Hin; [by apply elem_of_nil in Hin|].
  cbn [fmap list_fmap fst] in Hnd. apply NoDup_cons in Hnd as [Hj Hnd].
  cbn. fold (placed dst l (<[dst ++ j := m]> f)).
  apply elem_of_cons in Hin as [[= -> ->]|Hin]; [|by apply IH].
  rewrite placed_other; [by rewrite lookup_insert_eq|].
  intros e He Heq. apply app_inv_head_iff in Heq as <-. apply Hj, list_elem_of_fmap. by exists e.
Qed.
End placed.

(** A tree in the order of a walk is copied into an empty directory, entry by entry. *)
Section copy.
Context (dst : list string) (L : list (list string * node)) (f : gmap (list string) node).
Context (Hsort : StronglySorted walk_le L) (Hnd : NoDup L.*1) (Htop : ([], Dir) ∈ L).
Context (Hup : ∀ k c n, (k ++ [c], n) ∈ L → (k, Dir) ∈ L).
Context (Hne : dst ≠ []) (Hdst : ∀ j, 0 < j ≤ length dst → f !! take j dst = Some Dir).
Context (Hempty : ∀ k, k ≠ [] → f !! (dst ++ k) = None).

Lemma ancestor_listed k n j : (k, n) ∈ L → j < length k → (take j k, Dir) ∈ L.
Proof using Hup.
  revert n. induction k as [|c k IH] using rev_ind; intros n Hin Hj; [cbn in Hj; lia|].
  rewrite length_app in Hj. cbn in Hj. apply Hup in Hin. rewrite take_app_le by lia.
  destruct (decide (j = length k)) as [->|]; [by rewrite take_ge|]. apply (IH _ Hin). lia.
Qed.

Lemma ancestor_before l1 l2 k n j :
  L = l1 ++ (k, n) :: l2 → j < length k → (take j k, Dir) ∈ l1.
Proof using Hup Hsort.
  intros HL Hj. assert ((take j k, Dir) ∈ L) as Hin.
  { apply (ancestor_listed k n); [|done]. rewrite HL, elem_of_app. right. left. }
  assert (take j k ≠ k) as Hk.
  { intros Hk. apply (f_equal length) in Hk. rewrite length_take in Hk. lia. }
  rewrite HL, elem_of_app, elem_of_cons in Hin. destruct Hin as [Hin|[[= Hk' _]|Hin]]; [done..|].
  rewrite HL in Hsort. apply StronglySorted_app_1_r, StronglySorted_inv in Hsort as [_ Ha].
  rewrite Forall_forall in Ha. specialize (Ha _ Hin). unfold walk_le in Ha. cbn in Ha.
  destruct (drop j k) as [|c t] eqn:Hd.
  { apply (f_equal length) in Hd. rewrite length_drop in Hd. cbn in Hd. lia. }
  rewrite <- (take_drop j k), Hd, take_app_length' in Ha by (rewrite length_take; lia).
  by rewrite walk_leb_below in Ha.
Qed.

(** What is above an entry was copied before it. *)
Lemma above_entry l1 l2 k n i :
  L = l1 ++ (k, n) :: l2 → 0 < i < length (dst ++ k) →
  placed dst l1 f !! take i (dst ++ k) = Some Dir.
Proof using Hnd Hdst Hup Hsort.
  intros HL Hi. rewrite length_app in Hi.
  destruct (decide (i < length dst)) as [Hlt|Hge].
  - rewrite take_app_le by lia. rewrite placed_other; [apply Hdst; lia|].
    intros e _ Heq. apply (f_equal length) in Heq. rewrite length_app, length_take in Heq. lia.
  - rewrite take_app_ge by lia. apply placed_in.
    + rewrite HL, fmap_app in Hnd. by apply NoDup_app in Hnd as [? _].
    + eapply ancestor_before; [exact HL|]. lia.
Qed.

Lemma top_is_dir n : ([], n) ∈ L → n = Dir.
Proof using Hnd Htop.
  intros Hn. apply (elem_of_list_to_map_1 (M := gmap (list string)) _ _ _ Hnd) in Hn.
  rewrite (elem_of_list_to_map_1 _ _ _ Hnd Htop) in Hn. congruence.
Qed.

Lemma top_stays l1 : (∀ e, e ∈ l1 → e ∈ L) → placed dst l1 f !! dst = Some Dir.
Proof using All.
  induction l1 as [|[k n] l1 IH] using rev_ind; intros Hin.
  { rewrite <- (take_ge dst (length dst)) at 1 by lia. apply Hdst. destruct dst; cbn; [done|lia]. }
  rewrite placed_snoc. cbn [fst snd]. destruct (decide (k = [])) as [->|Hk].
  - rewrite app_nil_r, lookup_insert_eq. f_equal. apply top_is_dir, Hin, elem_of_app. right. left.
  - rewrite lookup_insert_ne; [apply IH; intros e He; apply Hin, elem_of_app; by left|].
    rewrite <- (app_nil_r dst) at 2. by intros ?%app_inv_head_iff.
Qed.

Lemma copy_entry_runs l1 l2 e o :
  L = l1 ++ e :: l2 → healthy o → fs o = placed dst l1 f →
  runs (copy_entry dst e) o tt (placed dst (l1 ++ [e]) f).
Proof using All.
  destruct e as [k n]. intros HL Hh Hf. rewrite placed_snoc. cbn [fst snd]. rewrite <- Hf.
  assert (∀ i, 0 < i < length (dst ++ k) → fs o !! take i (dst ++ k) = Some Dir) as Hab.
  { intros i Hi. rewrite Hf. by eapply above_entry. }
  assert (if decide (k = []) then n = Dir ∧ fs o !! (dst ++ k) = Some Dir
          else fs o !! (dst ++ k) = None) as Hhere.
  { case_decide as Hk; [subst k; split|].
    - apply top_is_dir. rewrite HL, elem_of_app. right. left.
    - rewrite app_nil_r, Hf. apply top_stays. intros e He. rewrite HL, elem_of_app. by left.
    - rewrite Hf, placed_other; [by apply Hempty|].
      intros e He Heq. apply app_inv_head_iff in Heq. rewrite HL, fmap_app in Hnd.
      apply NoDup_app in Hnd as (_ & Hd & _). apply (Hd k); [|left].
      apply list_elem_of_fmap. by exists e. }
  assert (dst ++ k ≠ []) as Hdk by by destruct dst.
  unfold copy_entry. cbn [fst snd]. destruct n as [|c].
  - pose proof (made_last [] (dst ++ k) (fs o) Hdk Hab) as Hm. cbn [app] in Hm. rewrite <- Hm.
    apply mkdirs_runs; [done|]. intros j c Hj. cbn [app].
    destruct (decide (j < length (dst ++ k))); [rewrite Hab by lia; done|].
    rewrite take_ge by lia. by case_decide; [destruct Hhere as [_ ->]|rewrite Hhere].
  - case_decide as Hk; [by destruct Hhere|]. eapply runs_bind.
    { apply (runs_syscall _ _ tt (fs o)); [done|]. intros o1 <- Hh1. by apply runs_ret. }
    intros o1 Hf1 _ _ Hh1. rewrite <- Hf1 in Hhere, Hab |- *. eapply runs_bind.
    { apply open_excl_runs; [done..|]. unfold parent.
      destruct (exists_last Hk) as (k' & x & ->). rewrite app_assoc, removelast_last.
      specialize (Hab (length (dst ++ k'))). rewrite app_assoc, take_app_length in Hab.
      apply Hab. rewrite !length_app. destruct dst; cbn; [done|lia]. }
    intros o2 Hf2 _ _ Hh2. rewrite <- (insert_insert_eq (fs o1) _ _ (File "")), <- Hf2.
    apply (write_to_runs _ c ""); [done|]. by rewrite Hf2, lookup_insert_eq.
Qed.

Lemma copy_entries_runs o :
  healthy o → fs o = f → runs (for_each L (copy_entry dst)) o tt (placed dst L f).
Proof using All.
  intros Hh Hf. assert (∀ l1 l2 o, L = l1 ++ l2 → healthy o → fs o = placed dst l1 f →
    runs (for_each l2 (copy_entry dst)) o tt (placed dst L f)) as Hgo; [|by apply (Hgo [] L)].
  clear o Hh Hf. intros l1 l2. revert l1. induction l2 as [|e l2 IH]; intros l1 o HL Hh Hf.
  - rewrite app_nil_r in HL. rewrite HL, <- Hf. by apply runs_ret.
  - cbn [for_each]. eapply runs_bind; [by eapply copy_entry_runs|]. intros o1 Hf1 _ _ Hh1.
    apply (IH (l1 ++ [e])); [by rewrite <- app_assoc|done..].
Qed.
End copy.

(** A directory is copied to a place where nothing is, if it does not hold that
    place itself. *)
Definition free_place (src dst : list string) (f : gmap (list string) node) : Prop :=
  f !! dst = None ∧ (∀ j c, f !! take j dst ≠ Some (File c)) ∧ ¬ src `prefix_of` dst.

Section copyDir.
Context (src dst : string) (o : OS).
Context (Hwf : fs_wf (fs o)) (Hsrc : fs o !! resolve src = Some Dir).
Context (Hfree : free_place (resolve src) (resolve dst) (fs o)).

Let f1 := made [] (resolve dst) (fs o).

Lemma made_below_src k : f1 !! (resolve src ++ k) = fs o !! (resolve src ++ k).
Proof using Hfree.
  destruct Hfree as (_ & _ & Hp). apply made_off. intros j Hj Heq. apply Hp. cbn in Heq.
  exists (k ++ drop j (resolve dst)). by rewrite app_assoc, Heq, take_drop.
Qed.

Lemma made_below_dst k : k ≠ [] → f1 !! (resolve dst ++ k) = None.
Proof using Hfree Hwf.
  destruct Hfree as (Hn & _). intros Hk. unfold f1. rewrite made_off; [by apply wf_below|].
  intros j Hj Heq. apply (f_equal length) in Heq. cbn in Heq.
  rewrite length_app, length_take in Heq. destruct k; cbn in *; (lia || done).
Qed.

Lemma listed k n : (k, n) ∈ tree f1 (resolve src) ↔ fs o !! (resolve src ++ k) = Some n.
Proof using Hfree. by rewrite elem_of_tree, made_below_src. Qed.

Lemma copyDir_runs :
  healthy o → ∃ f, runs (copyDir src dst) o tt f ∧
    ∀ k, f !! (resolve dst ++ k) = fs o !! (resolve src ++ k).
Proof using All.
  intros Hh. pose proof Hfree as (Hn & Hup & Hpre).
  assert (resolve dst ≠ []) as Hne by (intros Hz; rewrite Hz, (wf_root _ Hwf) in Hn; done).
  assert (([], Dir) ∈ tree f1 (resolve src)) as Htop by by rewrite listed, app_nil_r.
  exists (placed (resolve dst) (tree f1 (resolve src)) f1). split.
  - unfold copyDir. eapply runs_bind.
    { apply mkdirs_runs; [done|]. intros j c _. apply Hup. }
    intros o1 Hf1 _ _ Hh1. fold f1 in Hf1. unfold CopyFS.
    apply (runs_bind _ _ _ (Some Dir) _ f1).
    { apply runs_syscall; [done|]. intros o2 Hf2 Hh2. rewrite <- Hf1, <- Hf2.
      replace (Some Dir) with (fs o2 !! resolve src); [by apply (runs_gets (λ o, fs o !! resolve src))|].
      rewrite Hf2, Hf1. pose proof (made_below_src []) as Hs. rewrite app_nil_r in Hs. congruence. }
    intros o2 Hf2 _ _ Hh2. eapply runs_bind; [by apply runs_gets|]. cbv beta.
    intros o3 Hf3 _ _ Hh3. rewrite Hf2. apply copy_entries_runs.
    + apply tree_sorted.
    + apply tree_NoDup.
    + done.
    + intros k c n. rewrite !listed, app_assoc. intros Hc. by apply (wf_parent _ Hwf _ c).
    + done.
    + intros j Hj. apply (made_on []). lia.
    + intros k Hk. by apply made_below_dst.
    + done.
    + congruence.
  - intros k. destruct (fs o !! (resolve src ++ k)) as [n|] eqn:Hk.
    + apply placed_in; [apply tree_NoDup|by apply listed].
    + rewrite placed_other.
      * apply made_below_dst. intros ->. rewrite app_nil_r in Hk. congruence.
      * intros [j n] Hin Heq. apply app_inv_head_iff in Heq. cbn in Heq. subst j.
        apply listed in Hin. congruence.
Qed.
End copyDir.

(** The writable copy is made where there is none. *)
Lemma writable_first base o :
  healthy o → fs_wf (fs o) → fs o !! resolve base = Some Dir →
  free_place (resolve base) (resolve (writable_dir o)) (fs o) →
  ∃ f, runs (writableManifestsBase base) o (writable_dir o) f ∧
    ∀ k, f !! (resolve (writable_dir o) ++ k) = fs o !! (resolve base ++ k).
Proof.
  intros Hh Hwf Hb Hfree.
  destruct (copyDir_runs base (writable_dir o) (tick o) Hwf Hb Hfree Hh) as (f & Hc & Hf).
  exists f. split; [|exact Hf]. destruct Hc as (o1 & Hc & H1).
  exists o1. split; [|exact H1]. unfold writableManifestsBase.
  unfold mbind at 1, M_bind at 1, TempDir, Getenv.
  unfold mbind at 1, M_bind at 1, gets, mret at 1, M_ret at 1.
  change (Join [_; "ray-module-manifests"]) with (writable_dir o).
  assert (Stat (writable_dir o) o = (Err (EOS ENOENT), tick o)) as Hs.
  { destruct Hfree as [Hn _]. unfold Stat. rewrite healthy_syscall by done.
    revert Hn. generalize (resolve (writable_dir o)). intros k Hk. run. by rewrite Hk. }
  rewrite (bind_Ok _ _ _ _ _ (attempt_Err _ _ _ _ Hs)).
  assert (∀ f args, wrapping f args (copyDir base (writable_dir o)) (tick o) = (Ok tt, o1)) as Hw.
  { intros. unfold wrapping. by rewrite Hc. }
  by rewrite (bind_Ok _ _ _ _ _ (Hw _ _)).
Qed.

(** ** The parameters *)

(** [os.CreateTemp] draws a name that is not taken, whenever it starts. *)
Definition names_free (dir : list string) (f : gmap (list string) node) (o : OS) : Prop :=
  ∀ t, ∃ i, i < Z.to_nat 10000 ∧ f !! (dir ++ [temp_name (random o (t + i))]) = None.

Lemma create_temp_runs tries prefix o :
  healthy o → (∀ d, fs o !! parent (resolve (prefix +:+ uint_string d)) = Some Dir) →
  (∃ i, i < tries ∧ fs o !! resolve (prefix +:+ uint_string (random o (clock o + i))) = None) →
  ∃ d, fs o !! resolve (prefix +:+ uint_string d) = None ∧
    runs (create_temp tries prefix) o (prefix +:+ uint_string d)
      (<[resolve (prefix +:+ uint_string d) := File ""]> (fs o)).
Proof.
  revert o. induction tries as [|tries IH]; intros o Hh Hp (i & Hi & Hn); [lia|].
  cbn [create_temp]. unfold mbind at 1, M_bind at 1, gets.
  set (name := prefix +:+ uint_string (random o (clock o))).
  destruct (fs o !! resolve name) as [n|] eqn:Hname.
  - destruct i as [|i]; [rewrite Nat.add_0_r in Hn; fold name in Hn; congruence|].
    destruct (IH (tick o) Hh Hp) as (d & Hd & o1 & Hrun & H).
    { exists i. cbn. split; [lia|]. by rewrite <- Nat.add_succ_comm in Hn. }
    exists d. split; [done|]. exists o1. split; [|exact H].
    assert (open_excl (resolve name) o = (Err (EOS EEXIST), tick o)) as Ho.
    { unfold open_excl. rewrite healthy_syscall by done. revert Hname.
      generalize (resolve name). intros k Hk. run. by rewrite Hk. }
    by rewrite (bind_Ok _ _ _ _ _ (attempt_Err _ _ _ _ Ho)).
  - exists (random o (clock o)). split; [done|]. eapply runs_bind.
    { apply runs_attempt, open_excl_runs; [done..|apply Hp]. }
    intros o1 <- _ _ Hh1. by apply runs_ret.
Qed.

Lemma CreateTemp_runs cp o :
  healthy o → cp ≠ "" → fs o !! resolve cp = Some Dir → names_free (resolve cp) (fs o) o →
  ∃ tmp d, resolve tmp = temp_path cp d ∧ fs o !! temp_path cp d = None ∧
    runs (CreateTemp cp "params.env-") o tmp (<[temp_path cp d := File ""]> (fs o)).
Proof.
  intros Hh Hcp Hd Hfresh. unfold CreateTemp. rewrite (proj2 (String.eqb_neq _ _) Hcp).
  assert (∀ d, resolve (join_path cp "params.env-" +:+ uint_string d) = temp_path cp d) as Hres.
  { intros d. apply resolve_join_path, (temp_name_plain d). }
  destruct (Hfresh (clock o)) as (i & Hi & Hn). fold (temp_path cp (random o (clock o + i))) in Hn.
  rewrite <- Hres in Hn.
  destruct (create_temp_runs (Z.to_nat 10000) (join_path cp "params.env-") o Hh) as (d & Hn' & Hrun).
  { intros d. rewrite Hres. unfold parent, temp_path. by rewrite removelast_last. }
  { by exists i. }
  exists (join_path cp "params.env-" +:+ uint_string d), d. rewrite Hres in Hn', Hrun.
  split_and!; [done..|]. unfold mbind, M_bind, mret, M_ret. exact Hrun.
Qed.

Lemma Rename_runs old new c x o :
  healthy o → fs o !! resolve old = Some (File c) → fs o !! resolve new = Some (File x) →
  fs o !! parent (resolve new) = Some Dir →
  runs (Rename old new) o tt (<[resolve new := File c]> (delete (resolve old) (fs o))).
Proof.
  intros Hh Ho Hn Hp. apply runs_syscall; [done|]. intros o1 Hf Hh1. rewrite <- Hf in Ho, Hn, Hp |- *.
  eapply runs_bind; [by apply runs_gets|]. cbv beta. intros o2 Hf2 _ _ Hh2.
  rewrite Ho. rewrite <- Hf2 in Hn, Hp |- *. eapply runs_bind; [by apply runs_gets|]. cbv beta.
  rewrite Hn. intros o3 Hf3 _ _ Hh3. rewrite <- Hf3 in Hp |- *.
  eapply runs_bind; [by apply runs_check_parent|]. intros o4 <- _ _ Hh4. by eexists.
Qed.

Lemma or_remove_runs {A} tmp (m : M OS A) o a f : runs m o a f → runs (or_remove tmp m) o a f.
Proof.
  intros Hm. unfold or_remove. eapply runs_bind; [by apply runs_attempt|].
  intros o1 <- _ _ Hh. by apply runs_ret.
Qed.

Lemma write_params_runs tmp p entries x o :
  healthy o → fs o !! resolve tmp = Some (File "") → fs o !! resolve p = Some (File x) →
  fs o !! parent (resolve p) = Some Dir →
  resolve tmp ≠ resolve p → resolve tmp ≠ parent (resolve p) →
  runs (write_params tmp p entries) o tt
    (<[resolve p := File (unlines (map param_line entries))]> (delete (resolve tmp) (fs o))).
Proof.
  intros Hh Ht Hp Hd Hne Hnd. unfold write_params.
  apply (runs_bind _ _ _ tt _ (fs o)).
  { apply or_remove_runs. clear -Hh. revert o Hh. induction entries as [|e l IH]; intros o Hh.
    - by apply runs_ret.
    - cbn [for_each]. apply (runs_bind _ _ _ tt _ (fs o)).
      + apply runs_syscall; [done|]. intros o1 <- Hh1. by apply runs_ret.
      + intros o1 <- _ _ Hh1. by apply IH. }
  intros o1 Hf1 _ _ Hh1. rewrite <- Hf1 in Ht, Hp, Hd |- *. eapply runs_bind.
  { apply or_remove_runs, runs_wrapping. by apply (write_to_runs _ _ ""). }
  cbn [String.append]. intros o2 Hf2 _ _ Hh2. apply or_remove_runs, runs_wrapping.
  rewrite <- (delete_insert_eq (fs o1) (resolve tmp) (File (unlines (map param_line entries)))), <- Hf2.
  eapply Rename_runs; [done|..].
  - by rewrite Hf2, lookup_insert_eq.
  - by rewrite Hf2, lookup_insert_ne.
  - by rewrite Hf2, lookup_insert_ne.
Qed.

(** A file the parser accepts, or none. *)
Definition params_readable (n : option node) : Prop :=
  match n with
  | None => True
  | Some Dir => False
  | Some (File c) => (scan_lines c).2 = None
  end.

Section params.
Context {MR : MapRange}.

Lemma parseParams_runs p c ls o :
  healthy o → fs o !! resolve p = Some (File c) → scan_lines c = (ls, None) →
  runs (parseParams p) o (parse_lines ls) (fs o).
Proof.
  intros Hh Hc Hs. unfold parseParams. exists (tick (tick o)).
  by rewrite (bind_Ok _ _ _ _ _ (ReadFile_runs _ _ _ Hh Hc)), Hs.
Qed.

Lemma replace_params_runs cp x m o :
  healthy o → cp ≠ "" → fs o !! params_path cp = Some (File x) →
  fs o !! resolve cp = Some Dir → names_free (resolve cp) (fs o) o →
  ∃ f, runs (tmp ← CreateTemp cp "params.env-"; entries ← range_entries m;
             write_params tmp (Join [cp; "params.env"]) entries) o tt f.
Proof.
  intros Hh Hcp Hx Hd Hfresh. set (pf := Join [cp; "params.env"]).
  assert (resolve pf = params_path cp) as Hpf by by apply resolve_Join_plain.
  destruct (CreateTemp_runs cp o Hh Hcp Hd Hfresh) as (tmp & d & Htmp & Hn & o1 & H1 & Hf1 & He1 & Hr1 & Hh1).
  assert (resolve tmp ≠ resolve pf) as Hne by (rewrite Htmp, Hpf; apply temp_path_ne).
  assert (parent (resolve pf) = resolve cp) as Hpar.
  { rewrite Hpf. unfold parent, params_path. by rewrite removelast_last. }
  destruct (write_params_runs tmp pf (range (clock o1) m) x o1) as (o2 & H2 & Hf2 & He2 & Hr2 & Hh2).
  - done.
  - by rewrite Hf1, Htmp, lookup_insert_eq.
  - rewrite Hf1, lookup_insert_ne, Hpf; [done|]. rewrite <- Htmp. congruence.
  - rewrite Hpar, Hf1, lookup_insert_ne; [done|]. intros Heq. apply (f_equal length) in Heq.
    unfold temp_path in Heq. rewrite length_app in Heq. cbn in Heq. lia.
  - done.
  - rewrite Hpar, Htmp. intros Heq. apply (f_equal length) in Heq.
    unfold temp_path in Heq. rewrite length_app in Heq. cbn in Heq. lia.
  - exists (fs o2), o2. rewrite (bind_Ok _ _ _ _ _ H1). split_and!; congruence || done.
Qed.

Lemma applyParams_runs cp images extras o :
  healthy o → cp ≠ "" → params_readable (fs o !! params_path cp) →
  (is_Some (fs o !! params_path cp) → fs o !! resolve cp = Some Dir) →
  names_free (resolve cp) (fs o) o →
  ∃ f, runs (applyParams cp images extras) o tt f.
Proof.
  intros Hh Hcp Hread Hdir Hfresh. set (pf := Join [cp; "params.env"]).
  assert (resolve pf = params_path cp) as Hpf by by apply resolve_Join_plain.
  unfold runs, applyParams. cbv zeta. fold pf. rewrite <- Hpf in Hread, Hdir.
  destruct (fs o !! resolve pf) as [[|c]|] eqn:Hf; [done| |].
  2: { exists (fs o), (tick o). split_and!; [|done..]. unfold parseParams.
       by rewrite (bind_Ok _ _ _ _ _ (attempt_Err _ _ _ _
         (bind_Err _ _ _ _ _ (ReadFile_missing _ _ Hh Hf)))). }
  cbn in Hread. destruct (scan_lines c) as [ls e] eqn:Hs. cbn in Hread. subst e.
  destruct (parseParams_runs pf c ls o Hh Hf Hs) as (o1 & H1 & Hf1 & He1 & Hr1 & Hh1).
  rewrite (bind_Ok _ _ _ _ _ (attempt_Ok _ _ _ _ H1)).
  rewrite (bind_Ok (range_entries _) _ o1 (range (clock o1) (parse_lines ls)) o1) by done.
  destruct (override_images_range (clock o1) images (parse_lines ls) o1) as (acc1 & R1 & _).
  destruct (override_extras_run extras acc1 o1) as (acc2 & R2 & _).
  rewrite (bind_Ok _ _ _ _ _ R1), (bind_Ok _ _ _ _ _ R2).
  destruct (acc2.2 =? 0)%Z; [by exists (fs o), o1|].
  rewrite <- Hf1, Hpf in Hf. specialize (Hdir (mk_is_Some _ _ eq_refl)). rewrite <- Hf1 in Hdir.
  destruct (replace_params_runs cp c acc2.1 o1) as (f & o2 & H2 & Hf2 & He2 & Hr2 & Hh2); [done..| |].
  { intros t. rewrite Hf1, Hr1. apply Hfresh. }
  exists f, o2. split_and!; congruence || done.
Qed.

Lemma setOverlayNamespace_runs d ns o :
  healthy o → fs o !! (resolve d ++ ["kustomization.yaml"]) ≠ Some Dir →
  ∃ f, runs (setOverlayNamespace d ns) o tt f.
Proof.
  intros Hh Hk. unfold setOverlayNamespace.
  destruct (String.eqb ns ""); [exists (fs o); by apply runs_ret|]. cbv zeta.
  set (pf := Join [d; "kustomization.yaml"]).
  assert (resolve pf = resolve d ++ ["kustomization.yaml"]) as Hpf by by apply resolve_Join_plain.
  rewrite <- Hpf in Hk. destruct (fs o !! resolve pf) as [[|data]|] eqn:Hf; [done| |].
  - exists (<[resolve pf := File (updated data ns)]> (fs o)). apply (runs_bind _ _ _ (inr data) _ (fs o)).
    { apply runs_attempt. exists (tick (tick o)).
      by rewrite (ReadFile_runs _ _ _ Hh Hf). }
    intros o1 Hf1 _ _ Hh1. rewrite <- Hf1.
    eapply WriteFile_runs; [done|]. by rewrite Hf1.
  - exists (fs o), (tick o). split_and!; [|done..].
    by rewrite (bind_Ok _ _ _ _ _ (attempt_Err _ _ _ _ (ReadFile_missing _ _ Hh Hf))).
Qed.
End params.

(** ** The whole overlay *)

(** What the overlay must hold for the action to succeed: parameters that the
    scanner reads, a kustomization that is not a directory, and a free name. *)
Record usable (ov : list string) (f : gmap (list string) node) (o : OS) : Prop := {
  usable_params : params_readable (f !! (ov ++ ["params.env"]));
  usable_dir : is_Some (f !! (ov ++ ["params.env"])) → f !! ov = Some Dir;
  usable_kustomization : f !! (ov ++ ["kustomization.yaml"]) ≠ Some Dir;
  usable_names : names_free ov f o;
}.

Lemma usable_same ov ov' f f' o o' :
  (∀ k, f' !! (ov' ++ k) = f !! (ov ++ k)) → random o' = random o → usable ov f o → usable ov' f' o'.
Proof.
  intros Hf Hr [H1 H2 H3 H4]. pose proof (Hf []) as Hd. rewrite !app_nil_r in Hd.
  split; rewrite ?Hd, ?Hf; try done. intros t. rewrite Hr. destruct (H4 t) as (i & Hi & Hn).
  exists i. by rewrite Hf.
Qed.

(** Where the manifests are read from: the copy, or the image if there is none. *)
Definition copy_source (base : string) (o : OS) : list string :=
  match fs o !! resolve (writable_dir o) with
  | Some _ => resolve (writable_dir o)
  | None => resolve base
  end.

Definition overlay_source (base : string) (o : OS) : list string :=
  copy_source base o ++ [ManifestPath; ManifestOverlay].

Record ready (base : string) (o : OS) : Prop := {
  ready_usable : usable (overlay_source base o) (fs o) o;
  ready_first : fs o !! resolve (writable_dir o) = None →
    fs_wf (fs o) ∧ fs o !! resolve base = Some Dir ∧
    free_place (resolve base) (resolve (writable_dir o)) (fs o);
}.

(** The two files of the overlay after a success, for what they were made from. *)
Definition params_written (e : gmap string string) (ns : string) (n n' : option node) : Prop :=
  match n with
  | Some (File c) =>
      let m0 := parse_lines (scan_lines c).1 in
      let m := overridden e imageParamMap [{["namespace" := ns]}] m0 in
      (m = m0 ∧ n' = n) ∨
      ∃ entries, entries ≡ₚ map_to_list m ∧ n' = Some (File (unlines (map param_line entries)))
  | _ => n' = n
  end.

Definition namespaced (ns : string) (n : option node) : option node :=
  match n with
  | Some (File data) => Some (File (if String.eqb ns "" then data else updated data ns))
  | _ => n
  end.

(** The files [f] of the writable copy after a success on the machine [o], when
    they were made from those of the directory [src] of [o]: each of them as it is
    there, but for the two files the action is for. *)
Definition set_from (src : list string) (ns : string) (o : OS) (f : gmap (list string) node) : Prop :=
  let ov := [ManifestPath; ManifestOverlay] in
  let dst := resolve (writable_dir o) in
  params_written (env o) ns (fs o !! ((src ++ ov) ++ ["params.env"])) (f !! ((dst ++ ov) ++ ["params.env"])) ∧
  f !! ((dst ++ ov) ++ ["kustomization.yaml"]) =
    namespaced ns (fs o !! ((src ++ ov) ++ ["kustomization.yaml"])) ∧
  ∀ k, k ≠ [ManifestPath; ManifestOverlay; "params.env"] →
       k ≠ [ManifestPath; ManifestOverlay; "kustomization.yaml"] →
       f !! (dst ++ k) = fs o !! (src ++ k).

(** The files [f] after a success on the machine [o]: made from the manifests, or
    from the copy if there was one. *)
Definition overlay_set (base ns : string) (o : OS) (f : gmap (list string) node) : Prop :=
  let src := overlay_source base o in
  let ov := overlay_dir o in
  params_written (env o) ns (fs o !! (src ++ ["params.env"])) (f !! (ov ++ ["params.env"])) ∧
  f !! (ov ++ ["kustomization.yaml"]) = namespaced ns (fs o !! (src ++ ["kustomization.yaml"])) ∧
  ∀ k, k ≠ [ManifestPath; ManifestOverlay; "params.env"] →
       k ≠ [ManifestPath; ManifestOverlay; "kustomization.yaml"] →
       f !! (resolve (writable_dir o) ++ k) = fs o !! (copy_source base o ++ k).

Section overlay.
Context {MR : MapRange}.

Lemma writable_ready base o :
  healthy o → ready base o →
  ∃ f, runs (writableManifestsBase base) o (writable_dir o) f ∧
    ∀ k, f !! (resolve (writable_dir o) ++ k) = fs o !! (copy_source base o ++ k).
Proof.
  intros Hh [_ Hfirst]. unfold copy_source.
  destruct (fs o !! resolve (writable_dir o)) as [n|] eqn:Hn.
  - exists (fs o). split; [|done]. exists (tick o). by rewrite (writable_again base o n Hh Hn).
  - destruct (Hfirst eq_refl) as (Hwf & Hb & Hfree). by apply writable_first.
Qed.

Lemma write_overlay_runs base ns o :
  healthy o → ready base o →
  ∃ f, runs (write_overlay base ns) o (writable_dir o) f ∧ overlay_set base ns o f.
Proof.
  intros Hh Hready.
  destruct (writable_ready base o Hh Hready) as (f1 & (o1 & H1 & Hf1 & He1 & Hr1 & Hh1) & Hcopy).
  destruct (overlay_cp o) as [Hcp Hne]. set (cp := Join _) in *. unfold overlay_source.
  assert (∀ k, fs o1 !! (resolve cp ++ k) = fs o !! (overlay_source base o ++ k)) as Hov.
  { intros k. rewrite Hcp. unfold overlay_dir, overlay_source. by rewrite <- !app_assoc, Hf1, Hcopy. }
  assert (usable (resolve cp) (fs o1) o1) as [U1 U2 U3 U4].
  { eapply usable_same; [exact Hov|done|apply Hready]. }
  destruct (applyParams_runs cp imageParamMap [{["namespace" := ns]}] o1 Hh1 Hne U1 U2 U4)
    as (f2 & o2 & H2 & Hf2 & He2 & Hr2 & Hh2).
  pose proof (applyParams_run _ _ _ _ _ _ Hne H2) as [_ Happ].
  assert (∀ k, k ≠ params_path cp → fs o2 !! k = fs o1 !! k) as H12.
  { intros k Hpk. destruct Happ as [[_ ->]|(c & ls & m & _ & _ & _ & [[_ ->]|(es & _ & ->)])];
      [done..|]. by rewrite lookup_insert_ne. }
  assert (resolve cp ++ ["kustomization.yaml"] ≠ params_path cp) as Hdiff.
  { unfold params_path. by intros [_ [=]]%app_inj_tail. }
  destruct (setOverlayNamespace_runs cp ns o2 Hh2) as (f3 & o3 & H3 & Hf3 & He3 & Hr3 & Hh3).
  { by rewrite H12. }
  pose proof (setOverlayNamespace_run cp ns o2) as Hk. cbv zeta in Hk. rewrite H3 in Hk.
  destruct Hk as [Hsame Hk].
  exists f3. split.
  { exists o3. unfold write_overlay. rewrite (bind_Ok _ _ _ _ _ H1). fold cp.
    rewrite (bind_Ok _ _ _ _ _ H2), (bind_Ok _ _ _ _ _ H3). split_and!; congruence || done. }
  unfold overlay_set. cbv zeta. rewrite <- Hf3. fold (overlay_source base o). rewrite <- Hcp, <- !Hov.
  fold (params_path cp). split_and!.
  - rewrite Hsame by by apply not_eq_sym. unfold params_written.
    destruct Happ as [[E ->]|(c & ls & m & E & Hls & -> & Happ)]; rewrite E; [done|].
    rewrite Hls. cbn [fst]. rewrite <- He1. destruct Happ as [[Hm ->]|(es & Hp & ->)].
    + left. by rewrite E.
    + right. exists es. by rewrite lookup_insert_eq.
  - rewrite <- H12 by done. destruct Hk as [[Hn ->]|(data & Hns & Hd & ->)].
    + destruct (fs o2 !! _) as [[|data]|] eqn:Hd; [done| |done]. destruct Hn as [->|Hn]; [|done].
      done.
    + rewrite Hd, lookup_insert_eq. cbn. by rewrite (proj2 (String.eqb_neq _ _) Hns).
  - intros k Hp Hs. rewrite Hsame, H12, Hf1; [apply Hcopy|..].
    all: unfold params_path; rewrite Hcp; unfold overlay_dir; rewrite <- app_assoc;
      by intros ?%app_inv_head_iff.
Qed.

(** A run writes files of the overlay only, whatever fails. *)
Lemma write_overlay_keeps base ns o k n :
  fs o !! k = Some n → (∀ c, k ≠ overlay_dir o ++ [c]) →
  fs (write_overlay base ns o).2 !! k = Some n.
Proof.
  intros Hk Hne. unfold write_overlay. rewrite bind_split.
  pose proof (keeps_writable base o k n Hk) as H1.
  destruct (writableManifestsBase base o) as [[w|e|p] o1] eqn:Ew; [|done..]. cbn [snd] in H1.
  apply writable_Ok in Ew as ->. destruct (overlay_cp o) as [Hcp Hcne]. set (cp := Join _) in *.
  rewrite <- Hcp in Hne. rewrite bind_split.
  destruct (applyParams cp imageParamMap [{["namespace" := ns]}] o1) as [r o2] eqn:Ea.
  assert (fs o2 !! k = Some n) as H2.
  { apply applyParams_run in Ea as [_ Ea]; [|done]. destruct r as [u|e|p]; [| |done].
    - destruct Ea as [[_ ->]|(c & ls & m & _ & _ & _ & [[_ ->]|(es & _ & ->)])]; [done..|].
      rewrite lookup_insert_ne; [done|]. intros <-. by eapply Hne.
    - rewrite Ea; [done|]. intros d. apply Hne. }
  destruct r as [[]|e|p]; [|done..]. rewrite bind_split.
  destruct (within_setOverlayNamespace cp ns o2) as (_ & _ & _ & Hw).
  assert (fs (setOverlayNamespace cp ns o2).2 !! k = Some n) as H3.
  { rewrite Hw; [done|]. intros <-. by eapply Hne. }
  by destruct (setOverlayNamespace cp ns o2) as [[[]|e|p] o3].
Qed.

(** Overriding parameters that were overridden changes nothing. *)
Lemma overridden_again e ns m :
  let m' := overridden e imageParamMap [{["namespace" := ns]}] m in
  overridden e imageParamMap [{["namespace" := ns]}] m' = m'.
Proof.
  intros m'. destruct (overridden_idemp e imageParamMap {["namespace" := ns]} m
    (imageParamMap_namespace ns)) as [Hi Hx].
  unfold overridden at 1. cbn [fold_left]. change (with_images e imageParamMap m') with
    (with_images e imageParamMap (overridden e imageParamMap [{["namespace" := ns]}] m)).
  by rewrite Hi.
Qed.

(** The parameters a file stands for. *)
Definition holds_params (n : option node) (m : gmap string string) : Prop :=
  ∃ c ls, n = Some (File c) ∧ scan_lines c = (ls, None) ∧ parse_lines ls = m.

Lemma holds_entries m entries :
  Forall wf_entry (map_to_list m) → entries ≡ₚ map_to_list m →
  holds_params (Some (File (unlines (map param_line entries)))) m.
Proof.
  intros Hwf Hp. destruct (parse_written entries) as [Hs Hpl].
  - rewrite Hp. apply NoDup_fst_map_to_list.
  - by rewrite Hp.
  - eexists _, _. split_and!; [done|exact Hs|]. rewrite Hpl.
    rewrite <- (list_to_map_to_list (M := gmap string) m). apply list_to_map_proper; [|done].
    rewrite Hp. apply NoDup_fst_map_to_list.
Qed.

Lemma written_holds e ns n n' m :
  holds_params n m →
  let m' := overridden e imageParamMap [{["namespace" := ns]}] m in
  Forall wf_entry (map_to_list m') → params_written e ns n n' → holds_params n' m'.
Proof.
  intros (c & ls & -> & Hs & <-) m' Hwf. unfold params_written. rewrite Hs. cbn [fst].
  fold m'. intros [[-> ->]|(es & Hp & ->)]; [by exists c, ls|by apply holds_entries].
Qed.
End overlay.

Lemma imageParams_runs {K U} {MR : MapRange} base (s : State K U) ray :
  Instance_ (rr s) = Some (ARay ray) → removed (rr s) = false →
  healthy (os s) → ready base (os s) →
  ∃ s', applyImageParamsAction base s = (Ok tt, s') ∧
    rr s' = image_params_rr (os s) (rr s) ∧ cluster s' = cluster s ∧
    filter_cache s' = filter_cache s ∧ healthy (os s') ∧
    overlay_set base (ApplicationsNamespace (ray_spec ray)) (os s) (fs (os s')).
Proof.
  intros Hi Hr Hh Hready. set (ns := ApplicationsNamespace (ray_spec ray)).
  destruct (write_overlay_runs base ns (os s) Hh Hready) as (f & (o1 & E & Hf & _ & _ & Hh1) & H).
  pose proof (applyImageParamsAction_run base s ray Hi Hr) as Hrun. fold ns in Hrun. rewrite E in Hrun.
  destruct (applyImageParamsAction base s) as [r s'].
  destruct Hrun as (Hk & Hc & Ho & _ & -> & Hrr). exists s'. rewrite Ho, Hf. by split_and!.
Qed.

(** C20: progress.  On a machine whose calls do not fail the action succeeds, from a
    disk on which the manifests of the image have never been copied as well as
    from one with a copy, if it is [ready]: the parameter file, if there is one, is
    one that the scanner reads, in a directory; the kustomization is not a
    directory; one of the ten thousand names that are drawn for the temporary file
    is free; and where there is no copy, the files are a tree, the manifests a
    directory, and the place of the copy is free, not under a file and not in the
    manifests.  What it leaves: if there was no copy, there is one now with every
    file and directory of the manifests, as it is there, but for two files; if there was
    one, complete or not, it is kept as it was, but for the same two.  These are the
    parameter file, which if there is one in the manifests (or in the copy) has
    exactly its parameters overridden, and the kustomization, which if there is one
    has its namespace set. *)
Theorem applyImageParamsAction_progress {K U} {MR : MapRange} base (s : State K U) ray :
  Instance_ (rr s) = Some (ARay ray) → removed (rr s) = false →
  healthy (os s) → ready base (os s) →
  let ns := ApplicationsNamespace (ray_spec ray) in
  let copy := resolve (writable_dir (os s)) in
  ∃ s', applyImageParamsAction base s = (Ok tt, s') ∧
    rr s' = image_params_rr (os s) (rr s) ∧ cluster s' = cluster s ∧
    (fs (os s) !! copy = None → set_from (resolve base) ns (os s) (fs (os s'))) ∧
    (is_Some (fs (os s) !! copy) → set_from copy ns (os s) (fs (os s'))).
Proof.
  intros Hi Hr Hh Hready ns copy.
  destruct (imageParams_runs base s ray Hi Hr Hh Hready) as (s' & ? & ? & ? & _ & _ & Hset).
  exists s'. split_and!; [done..| |]; change (set_from (copy_source base (os s)) ns (os s) (fs (os s'))) in Hset;
    unfold copy_source in Hset; fold copy in Hset.
  - intros Hn. by rewrite Hn in Hset.
  - intros [n Hn]. by rewrite Hn in Hset.
Qed.

(** What is on the disk when the process was killed in the middle. *)
Lemma killed_overlay {MR : MapRange} base ns o t w m :
  let ov := overlay_dir o in
  let m' := overridden (env o) imageParamMap [{["namespace" := ns]}] m in
  is_Some (fs o !! resolve (writable_dir o)) → fs o !! ov = Some Dir →
  holds_params (fs o !! (ov ++ ["params.env"])) m → Forall wf_entry (map_to_list m') →
  let f := fs (write_overlay base ns (dying_at t w o)).2 in
  is_Some (f !! resolve (writable_dir o)) ∧ f !! ov = Some Dir ∧
  (holds_params (f !! (ov ++ ["params.env"])) m ∨ holds_params (f !! (ov ++ ["params.env"])) m').
Proof.
  intros ov m' [nw Hw] Hd (c & ls & Hc & Hs & Hm) Hwf f. set (d := dying_at t w o) in *. split_and!.
  - exists nw. apply write_overlay_keeps; [done|]. intros c' Heq. change (overlay_dir d) with ov in Heq.
    apply (f_equal length) in Heq. unfold ov, overlay_dir in Heq.
    rewrite !length_app in Heq. cbn in Heq. lia.
  - apply write_overlay_keeps; [done|]. intros c' Heq. change (overlay_dir d) with ov in Heq.
    apply (f_equal length) in Heq. rewrite length_app in Heq. cbn in Heq. lia.
  - destruct (write_overlay_disk base ns d) as [Dp _].
    change (overlay_dir d) with ov in Dp. change (fs d) with (fs o) in Dp. change (env d) with (env o) in Dp.
    unfold f. destruct (Dp c Hc) as [E|(es & Hes & E)]; rewrite E.
    + left. by exists c, ls.
    + right. apply holds_entries; [done|]. rewrite Hs in Hes. cbn [fst] in Hes. by rewrite Hm in Hes.
Qed.

(** C21: recovery.  Kill the process at any system call of the action, with any part
    of a write done, when a copy of the manifests is on the disk with its overlay
    directory, a parameter file that the scanner reads, whose overridden parameters
    fit a line each ([wf_entry]), and a kustomization.  Then the next process, with
    the same environment and the same applications namespace, on a machine whose
    calls do not fail and which draws a free name for the temporary file
    ([names_free]), succeeds, and leaves the parameters that a run that was not
    killed would have left; the kustomization is the one of such a run, or what
    setting the namespace makes of the beginning of it. *)
Theorem crash_recovery {K U} {MR : MapRange} base (s s2 : State K U) ray ray2 t w m n :
  let ns := ApplicationsNamespace (ray_spec ray) in
  let ov := overlay_dir (os s) in
  let m' := overridden (env (os s)) imageParamMap [{["namespace" := ns]}] m in
  Instance_ (rr s) = Some (ARay ray) → removed (rr s) = false →
  is_Some (fs (os s) !! resolve (writable_dir (os s))) → fs (os s) !! ov = Some Dir →
  holds_params (fs (os s) !! (ov ++ ["params.env"])) m → Forall wf_entry (map_to_list m') →
  fs (os s) !! (ov ++ ["kustomization.yaml"]) = Some (File n) →
  let o' := os (applyImageParamsAction base (set_os (dying_at t w (os s)) s)).2 in
  Instance_ (rr s2) = Some (ARay ray2) → removed (rr s2) = false →
  ApplicationsNamespace (ray_spec ray2) = ns →
  fs (os s2) = fs o' → env (os s2) = env (os s) → healthy (os s2) →
  names_free ov (fs o') (os s2) →
  ∃ s3, applyImageParamsAction base s2 = (Ok tt, s3) ∧
    holds_params (fs (os s3) !! (ov ++ ["params.env"])) m' ∧
    (fs (os s3) !! (ov ++ ["kustomization.yaml"]) = namespaced ns (Some (File n)) ∨
     ∃ j, fs (os s3) !! (ov ++ ["kustomization.yaml"]) =
            namespaced ns (Some (File (str_take j (updated n ns))))).
Proof.
  intros ns ov m' Hi Hr Hw Hd Hp Hwf Hk o' Hi2 Hr2 Hns Hf2 He2 Hh2 Hnames.
  set (o := dying_at t w (os s)) in *.
  assert (o' = (write_overlay base ns o).2) as Ho'.
  { pose proof (applyImageParamsAction_run base (set_os o s) ray Hi Hr) as H. fold ns in H.
    change (os (set_os o s)) with o in H. unfold o'.
    destruct (applyImageParamsAction base (set_os o s)) as [r s'], (write_overlay base ns o) as [r0 o1].
    apply H. }
  destruct (killed_overlay base ns (os s) t w m Hw Hd Hp Hwf) as ([nw Hw'] & Hd' & Hp').
  fold o in Hw', Hd', Hp'. rewrite <- Ho' in Hw', Hd', Hp'. fold ov m' in Hd', Hp'.
  pose proof (write_overlay_disk base ns o) as [_ Dk]. rewrite <- Ho' in Dk.
  change (overlay_dir o) with ov in Dk. change (fs o) with (fs (os s)) in Dk.
  assert (writable_dir (os s2) = writable_dir (os s)) as Hwd by (unfold writable_dir; by rewrite He2).
  assert (overlay_source base (os s2) = ov) as Hsrc.
  { unfold overlay_source, copy_source. by rewrite Hwd, Hf2, Hw'. }
  assert (ready base (os s2)) as Hready.
  { split; [|rewrite Hwd, Hf2, Hw'; done]. rewrite Hsrc, Hf2. split.
    - destruct Hp' as [(c & ls & -> & Hs & _)|(c & ls & -> & Hs & _)]; cbn; by rewrite Hs.
    - done.
    - by destruct (Dk n Hk) as [->|[j ->]].
    - done. }
  destruct (imageParams_runs base s2 ray2 Hi2 Hr2 Hh2 Hready) as (s3 & Hrun & _ & _ & _ & _ & P & Q & _).
  rewrite Hns, Hsrc, Hf2 in P. rewrite Hns, Hsrc, Hf2 in Q. change (overlay_dir (os s2)) with
    (resolve (writable_dir (os s2)) ++ [ManifestPath; ManifestOverlay]) in P, Q.
  rewrite Hwd in P, Q. fold (overlay_dir (os s)) in P, Q. fold ov in P, Q. rewrite He2 in P.
  exists s3. split; [done|]. split.
  - destruct Hp' as [Hm|Hm].
    + eapply written_holds; [exact Hm|done|exact P].
    + pose proof (overridden_again (env (os s)) ns m) as Hag. cbv zeta in Hag. fold m' in Hag.
      rewrite <- Hag. eapply written_holds; [exact Hm|by rewrite Hag|exact P].
  - rewrite Q. destruct (Dk n Hk) as [->|[j ->]]; [by left|right; by exists j].
Qed.

(** ** Runs *)

Definition is_dir (n : option node) : bool := match n with Some Dir => true | _ => false end.

Lemma fs_wf_check f :
  is_dir (f !! []) = true →
  forallb (λ e, bool_decide (e.1 = []) || is_dir (f !! parent e.1)) (map_to_list f) = true → fs_wf f.
Proof.
  assert (∀ k, is_dir (f !! k) = true → f !! k = Some Dir) as Hdir.
  { intros k. unfold is_dir. by repeat case_match. }
  intros Hr Hf. split; [by apply Hdir|]. intros k c [n Hn]. rewrite forallb_forall in Hf.
  specialize (Hf (k ++ [c], n)). cbn in Hf. unfold parent in Hf. rewrite removelast_last in Hf.
  rewrite bool_decide_eq_false_2 in Hf by by destruct k.
  apply Hdir, Hf. by apply list_elem_of_In, elem_of_map_to_list.
Qed.

Lemma settle_tree_wf : fs_wf settle_tree.
Proof. apply fs_wf_check; vm_compute; reflexivity. Qed.

Definition fresh_os : OS := boot settle_tree settle_env.

Lemma fresh_os_ready : ready "/m" fresh_os.
Proof.
  split.
  - split; [vm_compute; reflexivity|intros _; vm_compute; reflexivity|vm_compute; discriminate|].
    intros t. exists 0. split; [lia|]. vm_compute. reflexivity.
  - intros _. split; [apply settle_tree_wf|]. split; [vm_compute; reflexivity|]. split_and!.
    + vm_compute. reflexivity.
    + change (resolve (writable_dir fresh_os)) with ["tmp"; "ray-module-manifests"].
      intros [|[|[|j]]] c; vm_compute; discriminate.
    + intros [k Hk]. vm_compute in Hk. discriminate.
Qed.

Lemma applyImageParamsAction_progress_witness :
  let s := settle_state fresh_os in
  ∃ s', applyImageParamsAction (MR := canonical_range) "/m" s = (Ok tt, s') ∧
    fs (os s') !! ["tmp"; "ray-module-manifests"; ManifestPath; ManifestOverlay; "kustomization.yaml"] =
      Some (File (unlines ["kind: Kustomization"; "namespace: apps"; "resources:"; "- a.yaml"])).
Proof.
  cbv zeta. destruct (applyImageParamsAction_progress (MR := canonical_range) "/m" (settle_state fresh_os)
    (sample_ray Managed "apps")) as (s' & Hrun & _ & _ & Hfirst & _);
    [reflexivity|reflexivity|intros n; reflexivity|exact fresh_os_ready|].
  exists s'. split; [exact Hrun|]. destruct Hfirst as (_ & Hk & _); [vm_compute; reflexivity|].
  vm_compute in Hk. exact Hk.
Defined.

(** The second pass is killed while it writes the kustomization, for another
    namespace; a third one, in a new process, completes its work. *)
Definition copied_files : gmap (list string) node :=
  fs (os (applyImageParamsAction (MR := canonical_range) "/m" (settle_state fresh_os)).2).

Definition moving_state (f : gmap (list string) node) : State Fake Obj :=
  sample_state (sample_ray Managed "elsewhere") empty_fake (boot f settle_env).

Definition killed_files (s : State Fake Obj) : gmap (list string) node :=
  fs (os (applyImageParamsAction (MR := canonical_range) "/m" (set_os (dying_at 11 30 (os s)) s)).2).

Definition kustomization_path : list string :=
  ["tmp"; "ray-module-manifests"; ManifestPath; ManifestOverlay; "kustomization.yaml"].

Lemma moving_files f : fs (os (moving_state f)) = f.
Proof. reflexivity. Qed.

Lemma moving_env f : env (os (moving_state f)) = settle_env.
Proof. reflexivity. Qed.

Lemma crash_recovery_witness :
  let s := moving_state copied_files in
  killed_files s !! kustomization_path = Some (File ("kind: Kustomization" +:+ String LF "namespace:")) ∧
  ∃ s3, applyImageParamsAction (MR := canonical_range) "/m" (moving_state (killed_files s)) = (Ok tt, s3).
Proof.
  split; [vm_compute; reflexivity|]. set (s := moving_state copied_files).
  destruct (crash_recovery (MR := canonical_range) "/m" s (moving_state (killed_files s))
    (sample_ray Managed "elsewhere") (sample_ray Managed "elsewhere") 11 30
    (parse_lines ["namespace=apps"; "odh-kuberay-operator-controller-image=quay.io/kuberay:v1"])
    (unlines ["kind: Kustomization"; "namespace: apps"; "resources:"; "- a.yaml"])) as (s3 & Hrun & _);
    [reflexivity|reflexivity|vm_compute; by eexists|vm_compute; reflexivity| | |vm_compute; reflexivity
    |reflexivity|reflexivity|reflexivity|exact (moving_files _)
    |exact (eq_trans (moving_env _) (eq_sym (moving_env _)))|intros n; reflexivity| |].
  - eexists _, _. split_and!; [vm_compute; reflexivity|vm_compute; reflexivity|vm_compute; reflexivity].
  - match goal with |- Forall _ ?l => assert (bool_decide (Forall wf_entry l) = true) as Hb end.
    { vm_compute. reflexivity. }
    by apply bool_decide_eq_true in Hb.
  - intros t. exists 0. split; [lia|]. vm_compute. reflexivity.
  - by exists s3.
Defined.
