(* ===== verification/PlatformConfig.v ===== *)
(** * The platform's ConfigMap: [internal/controller/configmap.go]

    The platform tells the module its distribution and version through one
    ConfigMap in the applications namespace: which events about ConfigMaps
    reconcile the resource, and what is read from the ConfigMap. *)
From S2P Require Import Prelude GoStrings OS API Kube Fake.

Inductive distributionReadStatus :=
  | distributionAbsent
  | distributionOK
  | distributionInvalid.

#[export] Instance distributionReadStatus_eq_dec : EqDecision distributionReadStatus.
Proof. solve_decision. Defined.

(** [types.NamespacedName] *)
Record NamespacedName := { nn_Namespace : string; nn_Name : string }.

#[export] Instance NamespacedName_eq_dec : EqDecision NamespacedName.
Proof. solve_decision. Defined.

(** ** Events *)

Definition platformConfigPredicate (obj : ObjectMeta) : bool :=
  String.eqb (Name obj) PlatformConfigMapName.

Definition the_request : NamespacedName := Build_NamespacedName "" InstanceName.

Definition platformConfigMapper {K} {KA : KubeAPI K} (obj : ObjectMeta) : M K (list NamespacedName) :=
  if negb (String.eqb (Name obj) PlatformConfigMapName) then mret []
  else
    r ← gets (GetRay InstanceName);
    match r with
    | inl err => if IsNotFound err then mret [] else mret [the_request]
    | inr ray =>
        let appsNamespace := ApplicationsNamespace (ray_spec ray) in
        if String.eqb appsNamespace "" || negb (String.eqb (Namespace obj) appsNamespace)
        then mret []
        else mret [the_request]
    end.

(** ** Versions *)

Definition validateReleaseVersion {SV : Semver} (version : string) : option error :=
  if (MaxReleaseVersionLength <? Z.of_nat (String.length version))%Z then
    Some (Errorf "release version length %d exceeds maximum %d"
            [uint_string (Nat.to_uint (String.length version));
             uint_string (Nat.to_uint (Z.to_nat MaxReleaseVersionLength))])
  else
    match NewVersion (TrimPrefix version "v") with
    | Some err => Some (Wrapf "parse semantic version %q: %w" [version] err)
    | None => None
    end.

Definition standaloneDistribution (moduleVersion : string) : Distribution :=
  Build_Distribution StandaloneDistributionName
    (if String.eqb moduleVersion "" then StandaloneDistributionVersion else moduleVersion).

(** ** Reading the ConfigMap *)

Section read.
Context {K U : Type} {KA : KubeAPI K} {SV : Semver}.

Definition no_distribution : Distribution := Build_Distribution "" "".

Definition readPlatformDistribution (appsNamespace : string)
    : M (State K U) (Distribution * distributionReadStatus) :=
  if String.eqb appsNamespace "" then mret (no_distribution, distributionAbsent)
  else
    r ← with_client (gets (GetConfigMap appsNamespace PlatformConfigMapName));
    match r with
    | inl err =>
        if IsNotFound err then mret (no_distribution, distributionAbsent)
        else fail (Wrapf "get platform config ConfigMap %s/%s: %w"
                     [appsNamespace; PlatformConfigMapName] (EApi err))
    | inr cm =>
        let name := map_get PlatformNameKey (cm_Data cm) in
        let version := map_get PlatformVersionKey (cm_Data cm) in
        if String.eqb name "" && String.eqb version ""
        then mret (no_distribution, distributionAbsent)
        else
          match (if String.eqb version "" then None else validateReleaseVersion version) with
          | Some _ => mret (no_distribution, distributionInvalid)
          | None =>
              let name := if String.eqb name "" then StandaloneDistributionName else name in
              mret (Build_Distribution name version, distributionOK)
          end
    end.

Definition readPlatformVersion (appsNamespace : string) : M (State K U) string :=
  if String.eqb appsNamespace "" then mret ""
  else
    r ← with_client (gets (GetConfigMap appsNamespace PlatformConfigMapName));
    match r with
    | inl err =>
        if IsNotFound err then mret ""
        else fail (Wrapf "get platform config ConfigMap %s/%s: %w"
                     [appsNamespace; PlatformConfigMapName] (EApi err))
    | inr cm => mret (map_get PlatformHandshakeKey (cm_Data cm))
    end.
End read.

(** * Properties *)

(** A version the module accepts: short, and a semantic version after a [v]. *)
Definition acceptable {SV : Semver} (version : string) : Prop :=
  (Z.of_nat (String.length version) ≤ 64)%Z ∧ NewVersion (TrimPrefix version "v") = None.

Lemma validateReleaseVersion_None {SV : Semver} v :
  validateReleaseVersion v = None ↔ acceptable v.
Proof.
  unfold validateReleaseVersion, acceptable, MaxReleaseVersionLength.
  destruct (Z.ltb_spec 64 (Z.of_nat (String.length v))); [split; [done|lia]|].
  destruct (NewVersion _); naive_solver lia.
Qed.

(** What the platform declares in a namespace: its ConfigMap, if there is one. *)
Definition platform_config {K} {KA : KubeAPI K} (ns : string) (k : K) : api_error + ConfigMap :=
  GetConfigMap ns PlatformConfigMapName k.

Section facts.
Context {K U : Type} {KA : KubeAPI K} {SV : Semver}.
Implicit Types (s : State K U) (ns : string) (cm : ConfigMap).

(** What a ConfigMap that could be read means. *)
Lemma readPlatformDistribution_cm s ns cm :
  HasClient (rr s) = true → ns ≠ "" → platform_config ns (cluster s) = inr cm →
  let name := map_get PlatformNameKey (cm_Data cm) in
  let version := map_get PlatformVersionKey (cm_Data cm) in
  ∃ d st, readPlatformDistribution ns s = (Ok (d, st), s) ∧
    (st = distributionAbsent ↔ name = "" ∧ version = "") ∧
    (st = distributionInvalid ↔ version ≠ "" ∧ ¬ acceptable version) ∧
    (st = distributionOK →
       dist_Name d = (if String.eqb name "" then StandaloneDistributionName else name) ∧
       dist_Version d = version).
Proof.
  intros Hc Hns Hcm name version. unfold readPlatformDistribution.
  destruct (String.eqb_spec ns ""); [done|].
  unfold mbind at 1, M_bind at 1. rewrite with_client_eq by done.
  unfold on_cluster, zoom, gets. unfold platform_config in Hcm. rewrite Hcm.
  fold name version. destruct s as [rr k o fc]. cbn [cluster Kube.rr Kube.os filter_cache].
  destruct (String.eqb_spec version "") as [->|Hv]; [|rewrite andb_false_r].
  - destruct (String.eqb_spec name "") as [Hn|Hn]; cbn; do 2 eexists;
      (split; [reflexivity|]); naive_solver.
  - destruct (validateReleaseVersion version) as [e|] eqn:E.
    + do 2 eexists. split; [reflexivity|].
      assert (¬ acceptable version) by (rewrite <- validateReleaseVersion_None; congruence).
      naive_solver.
    + apply validateReleaseVersion_None in E.
      do 2 eexists. split; [reflexivity|]. naive_solver.
Qed.

(** The reading changes nothing. *)
Lemma readPlatformDistribution_state s ns : (readPlatformDistribution ns s).2 = s.
Proof.
  unfold readPlatformDistribution, with_client, on_cluster. destruct s. run.
  repeat case_match; simplify_eq/=; done.
Qed.

Lemma readPlatformVersion_state s ns : (readPlatformVersion ns s).2 = s.
Proof.
  unfold readPlatformVersion, with_client, on_cluster. destruct s. run.
  repeat case_match; simplify_eq/=; done.
Qed.

Lemma readPlatformDistribution_Ok s ns d st s' :
  readPlatformDistribution ns s = (Ok (d, st), s') →
  match st with
  | distributionOK =>
      dist_Name d ≠ "" ∧ (dist_Version d = "" ∨ acceptable (dist_Version d))
  | _ => d = no_distribution
  end.
Proof.
  unfold readPlatformDistribution, with_client, on_cluster. run.
  destruct (String.eqb ns ""); [by intros; simplify_eq|].
  destruct (HasClient (rr s)); [|done]. cbn.
  destruct (GetConfigMap _ _ _) as [e|cm]; cbn.
  { destruct (IsNotFound e); by intros; simplify_eq. }
  set (n := map_get PlatformNameKey _). set (v := map_get PlatformVersionKey _).
  destruct (String.eqb n "" && String.eqb v ""); [by intros; simplify_eq|].
  destruct (String.eqb_spec v "") as [Hv|Hv]; [|destruct (validateReleaseVersion v) eqn:E];
    intros; simplify_eq; [..|done|]; cbn; (split; [by destruct (String.eqb_spec n "")|]).
  - by left.
  - right. by apply validateReleaseVersion_None.
Qed.
End facts.

(** C32: what is read as the platform's distribution, over every namespace and
    every answer of the API server, with the state unchanged.  It is absent for
    an empty namespace, for a ConfigMap that does not exist and for one that
    declares neither key; any other error of the API server is reported with its
    cause; it is invalid exactly when a version is declared that is longer than
    64 bytes or is no semantic version; otherwise the name is the declared one
    or [Standalone], and the version the declared one. *)
Theorem readPlatformDistribution_spec {K U} {KA : KubeAPI K} {SV : Semver} (s : State K U) ns :
  HasClient (rr s) = true →
  (readPlatformDistribution ns s).2 = s ∧
  let r := (readPlatformDistribution ns s).1 in
  if String.eqb ns "" then r = Ok (no_distribution, distributionAbsent)
  else
    match platform_config ns (cluster s) with
    | inl e =>
        if IsNotFound e then r = Ok (no_distribution, distributionAbsent)
        else r = Err (Wrapf "get platform config ConfigMap %s/%s: %w"
                        [ns; PlatformConfigMapName] (EApi e))
    | inr cm =>
        let name := map_get PlatformNameKey (cm_Data cm) in
        let version := map_get PlatformVersionKey (cm_Data cm) in
        ∃ d st, r = Ok (d, st) ∧
          (st = distributionAbsent ↔ name = "" ∧ version = "") ∧
          (st = distributionInvalid ↔ version ≠ "" ∧ ¬ acceptable version) ∧
          (st = distributionOK →
             dist_Name d = (if String.eqb name "" then StandaloneDistributionName else name) ∧
             dist_Version d = version)
    end.
Proof.
  intros Hc. split; [apply readPlatformDistribution_state|]. intros r. subst r.
  destruct (String.eqb_spec ns "") as [->|Hns]; [done|].
  destruct (platform_config ns (cluster s)) as [e|cm] eqn:Hcm.
  - unfold readPlatformDistribution. destruct (String.eqb_spec ns ""); [done|].
    unfold mbind, M_bind. rewrite with_client_eq by done.
    unfold on_cluster, zoom, gets. unfold platform_config in Hcm. rewrite Hcm.
    by destruct (IsNotFound e).
  - destruct (readPlatformDistribution_cm (U := U) s ns cm Hc Hns Hcm) as (d & st & -> & Hr). eauto.
Qed.

(** Every version is one, in the examples. *)
Definition any_version : Semver := λ _, None.

Definition config_map (name version : string) : ConfigMap :=
  Build_ConfigMap (meta_named PlatformConfigMapName)
    (Some (<[PlatformNameKey := name]> {[PlatformVersionKey := version]})).

Definition sample_cluster (ns name version : string) : Fake :=
  MkFake (Some (sample_ray Managed ns)) {[(ns, PlatformConfigMapName) := config_map name version]}
    ∅ ∅ [] None.

Lemma readPlatformDistribution_spec_witness :
  (readPlatformDistribution (SV := any_version) "ns"
    (sample_state (sample_ray Managed "ns") (sample_cluster "ns" "ODH" "v3.5.1") (boot ∅ ∅))).2
  = sample_state (sample_ray Managed "ns") (sample_cluster "ns" "ODH" "v3.5.1") (boot ∅ ∅).
Proof.
  apply (readPlatformDistribution_spec (SV := any_version)
    (sample_state (sample_ray Managed "ns") (sample_cluster "ns" "ODH" "v3.5.1") (boot ∅ ∅)) "ns").
  reflexivity.
Defined.

(** No event about the ConfigMap the module reads is dropped.  The mapper
    never fails and changes nothing, and asks for at most one reconciliation, of
    the singleton; when it asks for none, the object is not one the predicate of
    the watch lets through, or the resource does not exist, or the object is not
    the ConfigMap [readPlatformDistribution] would look up for the resource. *)
Theorem platformConfigMapper_complete {K} {KA : KubeAPI K} (obj : ObjectMeta) (k : K) :
  ∃ l, platformConfigMapper obj k = (Ok l, k) ∧
    (l = [the_request] ∨ l = []) ∧
    (l = [] ↔
       platformConfigPredicate obj = false ∨
       (∃ e, GetRay InstanceName k = inl e ∧ IsNotFound e = true) ∨
       (∃ ray, GetRay InstanceName k = inr ray ∧
          (ApplicationsNamespace (ray_spec ray) = "" ∨
           Build_NamespacedName (Namespace obj) (Name obj) ≠
             Build_NamespacedName (ApplicationsNamespace (ray_spec ray)) PlatformConfigMapName))).
Proof.
  unfold platformConfigMapper, platformConfigPredicate.
  destruct (String.eqb_spec (Name obj) PlatformConfigMapName) as [Hn|Hn]; cbn [negb];
    [|exists []; naive_solver].
  unfold mbind, M_bind, gets. destruct (GetRay InstanceName k) as [e|ray].
  - destruct (IsNotFound e) eqn:He.
    + exists []. split; [done|]. split; [by right|]. split; [|done]. intros _. right. left. eauto.
    + exists [the_request]. split; [done|]. split; [by left|]. split; [done|].
      intros [Hf|[(e' & [= <-] & He')|(ray & Hr & _)]]; congruence.
  - set (ns := ApplicationsNamespace (ray_spec ray)).
    destruct (String.eqb_spec ns "") as [E|E]; cbn [orb]; [exists []; naive_solver|].
    destruct (String.eqb_spec (Namespace obj) ns) as [E'|E']; cbn [negb].
    + exists [the_request]. split; [done|]. split; [by left|]. split; [done|].
      rewrite E', Hn. naive_solver.
    + exists []. split; [done|]. split; [by right|]. split; [|done]. intros _. right. right.
      exists ray. split; [done|]. right. naive_solver.
Qed.
