(* ===== verification/Releases.v ===== *)
(** * The releases of the status: [internal/controller/releases.go]

    The version of KubeRay is the tag of the image that is deployed: the image
    the platform passes in the environment, or the default of the parameter
    file.  An image pinned by its digest alone has no tag; then the tag of the
    default is used. *)
From S2P Require Import Prelude GoStrings OS API Kube Fake ParamsFile PlatformConfig.

(** ** The version of an image *)

Definition kubeRayVersionFromImage {S} (image : string) : M S string :=
  let image := TrimSpace image in
  if String.eqb image "" then mret ""
  else
    let digest := last_index "@" image in
    image ← (if (0 <=? digest)%Z then slice image 0 digest else mret image);
    let slash := last_index "/" image in
    let colon := last_index ":" image in
    if (slash <? colon)%Z then slice image (colon + 1) (Z.of_nat (String.length image))
    else mret "".

Definition desiredModuleReleases (kubeRayVersion : string) : list ComponentRelease :=
  if String.eqb kubeRayVersion "" then []
  else [Build_ComponentRelease KubeRayReleaseName kubeRayVersion KubeRayRepoURL].

Definition params_env (basePath : string) : string :=
  Join [basePath; ManifestPath; ManifestOverlay; "params.env"].

Definition defaultKubeRayImage (basePath : string) : M OS string :=
  if String.eqb basePath "" then mret ""
  else
    r ← attempt (parseParams (params_env basePath));
    match r with
    | inl _ => mret ""
    | inr params => mret (default "" (params !! KubeRayImageParam))
    end.

Definition resolveKubeRayImage (basePath : string) : M OS string :=
  let envName := default "" (imageParamMap !! KubeRayImageParam) in
  related ← (if String.eqb envName "" then mret "" else Getenv envName);
  if negb (String.eqb related "") then mret related
  else if String.eqb basePath "" then mret ""
  else
    r ← attempt (parseParams (params_env basePath));
    match r with
    | inl _ => mret ""
    | inr params => mret (default "" (params !! KubeRayImageParam))
    end.

Definition resolveKubeRayVersion (basePath : string) : M OS string :=
  image ← resolveKubeRayImage basePath;
  v ← kubeRayVersionFromImage image;
  if negb (String.eqb v "") then mret v
  else
    image ← defaultKubeRayImage basePath;
    kubeRayVersionFromImage image.

(** ** The actions *)

(** The conditions of [rr.Instance], which panics on a nil interface. *)
Definition instance_conditions {U} : M (Request U) (list Condition) := λ r,
  match Instance_ r with
  | Some (ARay ray) => (Ok (GetConditions ray), r)
  | Some (AnotherKind _ st) => (Ok (Conditions st), r)
  | None => (Panic "nil pointer dereference: rr.Instance", r)
  end.

Section actions.
Context {K U : Type} {KA : KubeAPI K} {FW : Framework K U}.

Definition releasesAction (basePath : string) : Action K U :=
  on_rr the_ray ;;
  version ← on_os (resolveKubeRayVersion basePath);
  ray ← on_rr the_ray;
  modify_rr (set_ray (SetReleaseStatus (desiredModuleReleases version) ray)).

Definition platformReleaseAction : Action K U :=
  r ← gets rr;
  if removed r then mret tt
  else
    cs ← on_rr instance_conditions;
    if negb (IsStatusConditionTrue (K := K) (U := U) ConditionDeploymentsAvailable cs) then mret tt
    else
      ray ← on_rr the_ray;
      version ← wrapping "read platform version: %w" []
                  (readPlatformVersion (ApplicationsNamespace (ray_spec ray)));
      if String.eqb version "" then mret tt
      else
        modify_rr (set_ray (SetReleaseStatus
          (SetPlatformRelease (K := K) (U := U) version (GetReleaseStatus ray)) ray)).
End actions.

(** * Properties *)

(** ** Image references

    [repo[:tag][@digest]]: the repository may name a registry with its port. *)
Definition reference (repo : string) (tag digest : option string) : string :=
  repo +:+ match tag with Some t => ":" +:+ t | None => "" end
       +:+ match digest with Some d => "@" +:+ d | None => "" end.

(** The last element of the repository has no colon: a colon before a slash
    precedes a port. *)
Definition is_repository (repo : string) : bool :=
  bool_decide (repo ≠ "") && no_char "@" repo &&
  (last_index ":" repo <=? last_index "/" repo)%Z.

Definition is_tag (t : string) : bool := no_char "@" t && no_char "/" t && no_char ":" t.

Definition without_digest (image : string) : string :=
  let d := last_index "@" image in
  if (0 <=? d)%Z then str_take (Z.to_nat d) image else image.

(** The text the code returns, as a function: the part of the image before its
    digest that follows the last colon, if no slash does. *)
Definition image_tag (image : string) : string :=
  let image := TrimSpace image in
  if String.eqb image "" then ""
  else
    let r := without_digest image in
    if (last_index "/" r <? last_index ":" r)%Z
    then str_drop (Z.to_nat (last_index ":" r + 1)) r else "".

(** The slices of the code are within their bounds, and it computes the tag. *)
Lemma version_run {S} image (σ : S) : kubeRayVersionFromImage image σ = (Ok (image_tag image), σ).
Proof.
  unfold kubeRayVersionFromImage, image_tag.
  destruct (String.eqb (TrimSpace image) ""); [done|]. set (i := TrimSpace image).
  assert ((if (0 <=? last_index "@" i)%Z then slice i 0 (last_index "@" i) else mret i) σ
          = (Ok (without_digest i), σ)) as Hd.
  { unfold without_digest. destruct (Z.leb_spec 0 (last_index "@" i)); [|done].
    apply slice_to_ok. destruct (last_index_bounds "@" i) as [|[-> ?]]; cbn in *; lia. }
  rewrite (bind_Ok _ _ _ _ _ Hd). set (r := without_digest i).
  destruct (Z.ltb_spec (last_index "/" r) (last_index ":" r)); [|done].
  apply slice_from_ok.
  destruct (last_index_bounds "/" r) as [|[? ?]], (last_index_bounds ":" r) as [|[? ?]]; lia.
Qed.

Lemma without_digest_reference repo tag digest :
  is_repository repo = true →
  match tag with Some t => is_tag t = true | None => True end →
  match digest with Some d => no_char "@" d = true | None => True end →
  without_digest (reference repo tag digest) = reference repo tag None.
Proof.
  unfold is_repository, is_tag. rewrite !andb_true_iff. intros [[_ Hr] _] Ht Hd.
  assert (no_char "@" (reference repo tag None) = true) as Hn.
  { unfold reference. rewrite !no_char_app, Hr. destruct tag as [t|]; cbn; [|done].
    rewrite !andb_true_iff in Ht. rewrite andb_true_r. by apply Ht. }
  destruct digest as [d|]; unfold without_digest.
  - replace (reference repo tag (Some d)) with (reference repo tag None +:+ String "@" d)
      by (unfold reference; rewrite str_app_nil_r; by rewrite <- str_app_assoc).
    rewrite (last_index_mid _ _ _ Hd).
    rewrite (proj2 (Z.leb_le _ _)) by lia. by rewrite Nat2Z.id, str_take_app.
  - by rewrite last_index_no_char.
Qed.

Lemma tag_of_reference repo tag :
  is_repository repo = true →
  match tag with Some t => is_tag t = true | None => True end →
  let r := reference repo tag None in
  (if (last_index "/" r <? last_index ":" r)%Z
   then str_drop (Z.to_nat (last_index ":" r + 1)) r else "") = default "" tag.
Proof.
  unfold is_repository, is_tag, reference. rewrite !andb_true_iff.
  intros [_ Hr%Z.leb_le] Ht. cbv zeta. rewrite !str_app_nil_r. destruct tag as [t|]; cbn [default from_option].
  - rewrite !andb_true_iff in Ht. destruct Ht as [[_ Hs] Hc].
    change (":" +:+ t) with (String ":" t). rewrite (last_index_mid _ _ _ Hc).
    rewrite last_index_app_no_char by (by apply no_char_cons).
    rewrite (proj2 (Z.ltb_lt _ _)) by (destruct (last_index_bounds "/" repo) as [|[-> ->]]; cbn; lia).
    replace (Z.to_nat _) with (String.length (repo +:+ ":")) by (rewrite str_app_length; cbn; lia).
    change (String ":" t) with (":" +:+ t). by rewrite str_app_assoc, str_drop_app.
  - rewrite str_app_nil_r. by rewrite (proj2 (Z.ltb_ge _ _)).
Qed.

Lemma reference_ne repo tag digest : is_repository repo = true → reference repo tag digest ≠ "".
Proof.
  unfold is_repository. rewrite !andb_true_iff, bool_decide_eq_true. intros [[Hr _] _]. by destruct repo.
Qed.

Lemma image_tag_eq image :
  trimmed image = true → image ≠ "" →
  image_tag image =
    let r := without_digest image in
    if (last_index "/" r <? last_index ":" r)%Z
    then str_drop (Z.to_nat (last_index ":" r + 1)) r else "".
Proof.
  intros Ht Hne. unfold image_tag. rewrite (TrimSpace_id _ Ht).
  by destruct (String.eqb_spec image "").
Qed.

(** C28: the version of an image reference is its tag, whatever its registry, its
    port, the path of its repository and its digest; a reference without a tag,
    pinned by a digest or not, has no version. *)
Theorem kubeRayVersionFromImage_reference {S} repo tag digest (σ : S) :
  is_repository repo = true →
  match tag with Some t => is_tag t = true | None => True end →
  match digest with Some d => no_char "@" d = true | None => True end →
  trimmed (reference repo tag digest) = true →
  kubeRayVersionFromImage (reference repo tag digest) σ = (Ok (default "" tag), σ).
Proof.
  intros Hr Ht Hd Htr. rewrite version_run, image_tag_eq by auto using reference_ne.
  rewrite without_digest_reference by done. by rewrite tag_of_reference.
Qed.

Lemma kubeRayVersionFromImage_reference_witness :
  kubeRayVersionFromImage "registry:5000/ray/operator:v1.4.2@sha256:abc" () = (Ok "v1.4.2", ()) ∧
  kubeRayVersionFromImage "registry:5000/ray/operator@sha256:abc" () = (Ok "", ()).
Proof.
  split.
  - apply (kubeRayVersionFromImage_reference "registry:5000/ray/operator" (Some "v1.4.2")
             (Some "sha256:abc")); reflexivity.
  - apply (kubeRayVersionFromImage_reference "registry:5000/ray/operator" None
             (Some "sha256:abc")); first [reflexivity|exact I].
Defined.

Lemma version_shape image :
  let v := image_tag image in
  no_char "/" v = true ∧ no_char ":" v = true ∧
  (v = "" ∨ ∃ l, without_digest (TrimSpace image) = l +:+ ":" +:+ v).
Proof.
  unfold image_tag. destruct (String.eqb (TrimSpace image) ""); [naive_solver|].
  set (r := without_digest _). cbn [String.append].
  destruct (Z.ltb_spec (last_index "/" r) (last_index ":" r)) as [Hlt|]; [|naive_solver].
  assert (0 ≤ last_index ":" r)%Z as Hc by (destruct (last_index_bounds "/" r) as [|[? ?]]; lia).
  destruct (last_index_split ":" r Hc) as (l & v & Hr & Hv & Hl).
  replace (str_drop (Z.to_nat (last_index ":" r + 1)) r) with v; last first.
  { rewrite <- Hl. replace (Z.to_nat _) with (String.length (l +:+ ":"))
      by (rewrite str_app_length; cbn; lia).
    rewrite Hr. change (String ":" v) with (":" +:+ v). by rewrite str_app_assoc, str_drop_app. }
  split_and!; [|done|right; by exists l].
  destruct (no_char "/" v) eqn:Hs; [done|]. exfalso.
  assert (0 ≤ last_index "/" v)%Z as Hv'.
  { destruct (Z.leb_spec 0 (last_index "/" v)) as [|Hn]; [done|].
    apply last_index_neg in Hn. congruence. }
  destruct (last_index_split "/" v Hv') as (a & b & -> & Hb & _).
  rewrite Hr in Hlt. change (String ":" (a +:+ String "/" b)) with ((":" +:+ a) +:+ String "/" b) in Hlt.
  rewrite str_app_assoc, (last_index_mid _ _ _ Hb) in Hlt.
  rewrite <- str_app_assoc in Hlt. cbn [String.append] in Hlt.
  rewrite (last_index_mid _ _ _ Hv), !str_app_length in Hlt. cbn in Hlt. lia.
Qed.

(** C29: on every string, however malformed, the slices the code takes of it are
    within their bounds, so that it never panics; what is returned is a piece of
    the image without a slash and without a colon, and if it is not empty a colon
    precedes it: the path of a registry, its port and the text of a digest are
    never reported as a version. *)
Theorem kubeRayVersionFromImage_bounds {S} image (σ : S) :
  ∃ v, kubeRayVersionFromImage image σ = (Ok v, σ) ∧
  no_char "/" v = true ∧ no_char ":" v = true ∧
  (v = "" ∨ ∃ l, without_digest (TrimSpace image) = l +:+ ":" +:+ v).
Proof. exists (image_tag image). split; [apply version_run|apply version_shape]. Qed.

(** ** Which image *)

#[export] Hint Resolve within_parseParams : frames.
#[export] Hint Resolve safe_parseParams : safe.

Definition related_image (o : OS) : string :=
  default "" (env o !! "RELATED_IMAGE_ODH_KUBERAY_OPERATOR_CONTROLLER_IMAGE").

(** The default image of the parameter file, when the file can be read. *)
Definition default_image (basePath : string) (f : gmap (list string) node) (image : string) : Prop :=
  basePath ≠ "" ∧ ∃ c ls, f !! resolve (params_env basePath) = Some (File c) ∧
    scan_lines c = (ls, None) ∧ image = default "" (parse_lines ls !! KubeRayImageParam).

Lemma within_default P basePath : within P (defaultKubeRayImage basePath).
Proof. unfold defaultKubeRayImage. frame. Qed.

Lemma defaultKubeRayImage_inv basePath o :
  ∃ image o', defaultKubeRayImage basePath o = (Ok image, o') ∧
              (image = "" ∨ default_image basePath (fs o) image).
Proof.
  unfold defaultKubeRayImage, default_image.
  destruct (String.eqb_spec basePath "") as [|Hb]; [do 2 eexists; split; [done|by left]|].
  unfold mbind, M_bind, attempt.
  destruct (parseParams _ o) as [[m|e|w] o1] eqn:E.
  - do 2 eexists. split; [done|]. right. split; [done|].
    apply parseParams_Ok in E as (c & ls & ? & ? & ->). eauto 10.
  - do 2 eexists. split; [done|by left].
  - by destruct (safe_not_Panic _ _ _ _ (safe_parseParams _) E).
Qed.

(** On a machine whose calls do not fail the default is found. *)
Lemma defaultKubeRayImage_found basePath o image :
  (∀ n, faults o n = None) → default_image basePath (fs o) image →
  (defaultKubeRayImage basePath o).1 = Ok image.
Proof.
  intros Hf (Hb & c & ls & Hc & Hs & ->). unfold defaultKubeRayImage.
  destruct (String.eqb_spec basePath ""); [done|].
  unfold mbind, M_bind, attempt, parseParams.
  unfold mbind, M_bind. rewrite (ReadFile_runs _ _ _ Hf Hc). by rewrite Hs.
Qed.

(** One reading of the default, in full. *)
Lemma default_run basePath o :
  ∃ image o', defaultKubeRayImage basePath o = (Ok image, o') ∧
    fs o' = fs o ∧ env o' = env o ∧ faults o' = faults o ∧
    (image = "" ∨ default_image basePath (fs o) image) ∧
    ((∀ n, faults o n = None) → ∀ i, default_image basePath (fs o) i → image = i).
Proof.
  destruct (defaultKubeRayImage_inv basePath o) as (i & o' & E & Hi).
  pose proof (within_none_fs _ o (within_default _ basePath)) as F.
  destruct (within_default (λ _, False) basePath o) as (N & L & _).
  rewrite E in F, N, L. exists i, o'. split_and!; [done..|].
  intros Hf j Hj. apply (defaultKubeRayImage_found _ _ _ Hf) in Hj. rewrite E in Hj. by injection Hj.
Qed.

Lemma resolveKubeRayImage_eq basePath o :
  resolveKubeRayImage basePath o =
    if String.eqb (related_image o) "" then defaultKubeRayImage basePath o
    else (Ok (related_image o), o).
Proof.
  unfold resolveKubeRayImage, related_image.
  change (default "" (imageParamMap !! KubeRayImageParam))
    with "RELATED_IMAGE_ODH_KUBERAY_OPERATOR_CONTROLLER_IMAGE".
  unfold mbind at 1, M_bind at 1, Getenv, gets. cbn [String.eqb Ascii.eqb].
  by destruct (String.eqb (default "" (env o !! _)) "").
Qed.

Lemma resolveKubeRayVersion_run basePath o :
  ∃ v o', resolveKubeRayVersion basePath o = (Ok v, o') ∧ fs o' = fs o ∧ env o' = env o ∧
    let w := image_tag (related_image o) in
    (w ≠ "" → v = w ∧ o' = o) ∧
    (w = "" → v = "" ∨ ∃ image, default_image basePath (fs o) image ∧ v = image_tag image) ∧
    (w = "" → (∀ n, faults o n = None) →
       ∀ image, default_image basePath (fs o) image → v = image_tag image).
Proof.
  unfold resolveKubeRayVersion. unfold mbind at 1, M_bind at 1. rewrite resolveKubeRayImage_eq.
  destruct (String.eqb_spec (related_image o) "") as [->|Hne].
  - destruct (default_run basePath o) as (i1 & o1 & E1 & F1 & N1 & L1 & H1 & T1). rewrite E1, bind_split, version_run.
    change (image_tag "") with "". cbv zeta.
    destruct (String.eqb_spec (image_tag i1) "") as [Hv|Hv]; cbn [negb].
    + destruct (default_run basePath o1) as (i2 & o2 & E2 & F2 & N2 & L2 & H2 & T2).
      rewrite (bind_Ok _ _ _ _ _ E2), version_run. rewrite F1 in H2, T2.
      do 2 eexists. split_and!; [reflexivity|congruence..|done| |].
      * intros _. destruct H2 as [->|H2]; [by left|eauto].
      * intros _ Hf i Hi. f_equal. apply T2; [|done]. intros n. by rewrite L1.
    + do 2 eexists. split_and!; [reflexivity|done..| |].
      * intros _. destruct H1 as [->|H1]; [by left|eauto].
      * intros _ Hf i Hi. f_equal. by apply T1.
  - rewrite bind_split, version_run. set (w := image_tag (related_image o)). cbv zeta.
    destruct (String.eqb_spec w "") as [Hw|Hw]; cbn [negb].
    + destruct (default_run basePath o) as (i1 & o1 & E1 & F1 & N1 & L1 & H1 & T1).
      rewrite (bind_Ok _ _ _ _ _ E1), version_run.
      do 2 eexists. split_and!; [reflexivity|done..| |].
      * intros _. destruct H1 as [->|H1]; [by left|eauto].
      * intros _ Hf i Hi. f_equal. by apply T1.
    + do 2 eexists. by split_and!.
Qed.

(** The version reported, under every pattern of system-call failures.  It is
    always determined, without an error or a panic, and nothing is written; the
    image the platform passes decides when it has a tag, without any file being
    read; otherwise the version is empty or the tag of the default image of the
    manifests, and it is that tag when no call fails. *)
Theorem resolveKubeRayVersion_spec basePath o :
  ∃ v o', resolveKubeRayVersion basePath o = (Ok v, o') ∧ fs o' = fs o ∧ env o' = env o ∧
    let w := image_tag (related_image o) in
    (w ≠ "" → v = w ∧ o' = o) ∧
    (w = "" → v = "" ∨ ∃ image, default_image basePath (fs o) image ∧ v = image_tag image) ∧
    (w = "" → (∀ n, faults o n = None) →
       ∀ image, default_image basePath (fs o) image → v = image_tag image).
Proof. apply resolveKubeRayVersion_run. Qed.

(** ** The actions *)

(** What [releasesAction] may put in the status. *)
Definition kuberay_releases (l : ComponentReleaseStatus) : Prop :=
  l = [] ∨ ∃ v, l = [Build_ComponentRelease KubeRayReleaseName v KubeRayRepoURL] ∧
                v ≠ "" ∧ no_char "/" v = true ∧ no_char ":" v = true.

Lemma desired_kuberay_releases image :
  kuberay_releases (desiredModuleReleases (image_tag image)).
Proof.
  unfold desiredModuleReleases. pose proof (version_shape image) as Hv. cbv zeta in Hv.
  destruct (String.eqb_spec (image_tag image) ""); [by left|].
  right. eexists. split; [done|]. split; [done|]. tauto.
Qed.

Lemma resolved_kuberay_releases basePath o :
  ∃ v o', resolveKubeRayVersion basePath o = (Ok v, o') ∧ fs o' = fs o ∧
          kuberay_releases (desiredModuleReleases v).
Proof.
  destruct (resolveKubeRayVersion_run basePath o) as (v & o' & E & F & _ & H1 & H2 & _).
  exists v, o'. split; [done|]. split; [done|]. cbv zeta in H1, H2.
  destruct (decide (image_tag (related_image o) = "")) as [Hw|Hw].
  - destruct (H2 Hw) as [->|(i & _ & ->)]; [by left|apply desired_kuberay_releases].
  - destruct (H1 Hw) as [-> _]. apply desired_kuberay_releases.
Qed.

(** The machine is only read. *)
Lemma within_resolve base : within (λ _, False) (resolveKubeRayVersion base).
Proof.
  assert (∀ p, within (λ _, False) (parseParams p)) as Hp by apply within_parseParams.
  assert (∀ image, within (λ _, False) (kubeRayVersionFromImage (S := OS) image)) as Hv.
  { intros image o. by rewrite version_run. }
  unfold resolveKubeRayVersion, resolveKubeRayImage, defaultKubeRayImage. frame; done.
Qed.

Section passes.
Context {K U : Type} {KA : KubeAPI K} {FW : Framework K U}.
Implicit Types (s : State K U) (ray : Ray).

Definition available (cs : list Condition) : bool :=
  IsStatusConditionTrue (K := K) (U := U) ConditionDeploymentsAvailable cs.

Definition with_ray ray s : State K U :=
  MkState (set_ray ray (rr s)) (cluster s) (os s) (filter_cache s).

Definition with_os (o : OS) s : State K U := MkState (rr s) (cluster s) o (filter_cache s).

Lemma releasesAction_run basePath s ray :
  Instance_ (rr s) = Some (ARay ray) →
  ∃ l o', fs o' = fs (os s) ∧ kuberay_releases l ∧
    releasesAction (K := K) (U := U) basePath s =
      (Ok tt, with_ray (SetReleaseStatus l ray) (with_os o' s)).
Proof.
  intros Hi.
  destruct (resolved_kuberay_releases basePath (os s)) as (v & o' & E & F & Hv).
  exists (desiredModuleReleases v), o'. split; [done|]. split; [done|].
  unfold releasesAction. rewrite (bind_Ok _ _ _ _ _ (on_rr_the_ray s ray Hi)).
  unfold mbind at 1, M_bind at 1. rewrite on_os_eq, E. cbn [fst snd].
  by rewrite (bind_Ok _ _ _ _ _ (on_rr_the_ray (with_os o' s) ray Hi)).
Qed.

Lemma releasesAction_reads basePath s ray :
  Instance_ (rr s) = Some (ARay ray) →
  let o' := os (releasesAction (K := K) (U := U) basePath s).2 in
  fs o' = fs (os s) ∧ env o' = env (os s) ∧ faults o' = faults (os s) ∧ random o' = random (os s).
Proof.
  intros Hi. pose proof (within_none_fs _ (os s) (within_resolve basePath)) as Hf.
  destruct (within_resolve basePath (os s)) as (He & Hfl & Hr & _).
  unfold releasesAction. rewrite (bind_Ok _ _ _ _ _ (on_rr_the_ray s ray Hi)).
  rewrite bind_split, on_os_eq. destruct (resolveKubeRayVersion basePath (os s)) as [[v|e|w] o'];
    [|done..]. cbn [fst snd] in *.
  by rewrite (bind_Ok _ _ _ _ _ (on_rr_the_ray (with_os o' s) ray Hi)).
Qed.

(** The value the platform hands over, when it does. *)
Definition handshake ns (k : K) : error + string :=
  if String.eqb ns "" then inr ""
  else match platform_config ns k with
       | inl e => if IsNotFound e then inr ""
                  else inl (Wrapf "get platform config ConfigMap %s/%s: %w"
                              [ns; PlatformConfigMapName] (EApi e))
       | inr cm => inr (map_get PlatformHandshakeKey (cm_Data cm))
       end.

Lemma readPlatformVersion_run s ns :
  HasClient (rr s) = true → readPlatformVersion ns s = of_sum (handshake ns (cluster s)) s.
Proof.
  intros Hc. unfold readPlatformVersion, handshake, platform_config.
  destruct (String.eqb ns ""); [done|].
  rewrite (bind_Ok _ _ _ _ _ (with_client_gets _ s Hc)).
  destruct (GetConfigMap _ _ _) as [e|cm]; [|done]. by destruct (IsNotFound e).
Qed.

Lemma platformReleaseAction_run s ray :
  HasClient (rr s) = true → Instance_ (rr s) = Some (ARay ray) →
  platformReleaseAction s =
    if removed (rr s) || negb (available (GetConditions ray)) then (Ok tt, s)
    else match handshake (ApplicationsNamespace (ray_spec ray)) (cluster s) with
         | inl e => (Err (Wrapf "read platform version: %w" [] e), s)
         | inr v => if String.eqb v "" then (Ok tt, s)
                    else (Ok tt, with_ray (SetReleaseStatus
                           (SetPlatformRelease (K := K) (U := U) v (GetReleaseStatus ray)) ray) s)
         end.
Proof.
  intros Hc Hi. unfold platformReleaseAction. unfold mbind at 1, M_bind at 1, gets.
  destruct (removed (rr s)); [done|]. cbn [orb].
  assert (on_rr instance_conditions s = (Ok (GetConditions ray), s)) as Hcond.
  { destruct s. unfold on_rr, zoom, instance_conditions. cbn in *. by rewrite Hi. }
  rewrite (bind_Ok _ _ _ _ _ Hcond). fold (available (GetConditions ray)).
  destruct (available (GetConditions ray)); [|done]. cbn [negb].
  rewrite (bind_Ok _ _ _ _ _ (on_rr_the_ray s ray Hi)).
  unfold mbind, M_bind, wrapping. rewrite readPlatformVersion_run by done.
  destruct (handshake _ _) as [e|v]; cbn; [done|]. by destruct (String.eqb v "").
Qed.
End passes.

(** C31: one pass over the releases, as the pipeline makes it.  From a resource
    with any releases in its status, [releasesAction] then
    [platformReleaseAction] leave the namespace's files, the cluster and
    everything else of the resource as they were, and in the status the KubeRay
    release at most, with a proper version, extended by the platform's version
    exactly if the deployments are available, the module is not removed and the
    platform declares a version; what the status held before is gone.  Only an
    error of the API server that is not an absence stops the pass. *)
Theorem releases_pass {K U} {KA : KubeAPI K} {FW : Framework K U}
    (s : State K U) ray basePath :
  HasClient (rr s) = true → Instance_ (rr s) = Some (ARay ray) →
  let '(r, s') := (releasesAction basePath ;; platformReleaseAction) s in
  ∃ l o' l', fs o' = fs (os s) ∧ kuberay_releases l ∧
    s' = with_ray (SetReleaseStatus l' ray) (with_os o' s) ∧
    let v := handshake (ApplicationsNamespace (ray_spec ray)) (cluster s) in
    if removed (rr s) || negb (available (K := K) (U := U) (GetConditions ray))
    then r = Ok tt ∧ l' = l
    else match v with
         | inl e => r = Err (Wrapf "read platform version: %w" [] e) ∧ l' = l
         | inr v => r = Ok tt ∧
                    l' = if String.eqb v "" then l
                         else SetPlatformRelease (K := K) (U := U) v l
         end.
Proof.
  intros Hc Hi.
  destruct (releasesAction_run basePath s ray Hi) as (l & o' & F & Hl & E).
  unfold mbind, M_bind. rewrite E.
  rewrite (platformReleaseAction_run _ (SetReleaseStatus l ray)) by done.
  change (removed (rr (with_ray _ _))) with (removed (rr s)).
  change (GetConditions (SetReleaseStatus l ray)) with (GetConditions ray).
  change (ray_spec (SetReleaseStatus l ray)) with (ray_spec ray).
  change (cluster (with_ray _ _)) with (cluster s).
  destruct (removed (rr s) || _); [by exists l, o', l|].
  destruct (handshake _ _) as [e|v]; [by exists l, o', l|].
  destruct (String.eqb v ""); [by exists l, o', l|].
  by exists l, o', (SetPlatformRelease (K := K) (U := U) v l).
Qed.

Definition sample_pass : res unit * State Fake Obj :=
  (releasesAction "/m" ;;
   platformReleaseAction (FW := fake_framework (λ _, [])))
  (sample_state (sample_ray Managed "ns") empty_fake (boot ∅ ∅)).

Lemma releases_pass_witness : sample_pass.1 = Ok tt ∧ cluster sample_pass.2 = empty_fake.
Proof.
  pose proof (releases_pass (FW := fake_framework (λ _, []))
    (sample_state (sample_ray Managed "ns") empty_fake (boot ∅ ∅)) (sample_ray Managed "ns") "/m"
    eq_refl eq_refl) as H.
  fold sample_pass in H. destruct sample_pass as [r s'].
  destruct H as (l & o' & l' & _ & _ & -> & H). split; [apply H|reflexivity].
Defined.
