(* ===== verification/Status.v ===== *)
(** * The status of the resource: [internal/controller/status.go]

    The distribution the module is aligned to, the [Degraded] condition and the
    observed generation. *)
From S2P Require Import Prelude GoStrings OS API Kube Fake PlatformConfig Releases.

Section actions.
Context {K U : Type} {KA : KubeAPI K} {SV : Semver} {FW : Framework K U}.

(** The hook of a version transition does nothing. *)
Definition upgrade (_ : Ray) (_ : Distribution) : Action K U := mret tt.

Definition distributionAction (_ : string) : Action K U :=
  cs ← on_rr instance_conditions;
  if negb (IsStatusConditionTrue (K := K) (U := U) ConditionDeploymentsAvailable cs) then mret tt
  else
    ray ← on_rr the_ray;
    ds ← readPlatformDistribution (ApplicationsNamespace (ray_spec ray));
    let '(dist, status) := ds in
    match status with
    | distributionInvalid => mret tt
    | _ =>
        let dist := match status with
                    | distributionAbsent => standaloneDistribution ""
                    | _ => dist
                    end in
        if decide (ray_Distribution (ray_status ray) = dist) then mret tt
        else
          upgrade ray dist ;;
          modify_rr (set_ray (SetDistribution dist ray))
    end.

(** [rr.Instance.GetGeneration()] and the status of [rr.Instance], which panic
    on a nil interface. *)
Definition instance_generation : M (Request U) Z := λ r,
  match Instance_ r with
  | Some (ARay ray) => (Ok (Generation (ray_meta ray)), r)
  | Some (AnotherKind g _) => (Ok g, r)
  | None => (Panic "nil pointer dereference: rr.Instance", r)
  end.

Definition update_status (f : Status → Status) : M (Request U) unit := λ r,
  match Instance_ r with
  | Some (ARay ray) => (Ok tt, set_ray (SetStatus (f (GetStatus ray)) ray) r)
  | Some (AnotherKind g st) => (Ok tt, set_Instance (Some (AnotherKind g (f st))) r)
  | None => (Panic "nil pointer dereference: rr.Instance", r)
  end.

(** The condition manager of the request sets a condition of its instance. *)
Definition update_conditions (f : list Condition → list Condition) : M (Request U) unit :=
  update_status (λ st, Build_Status (Phase st) (ObservedGeneration st) (f (Conditions st))).

Definition degradedAction : Action K U :=
  g ← on_rr instance_generation;
  on_rr (update_conditions (MarkFalse (K := K) (U := U) ConditionDegraded
    [WithReason "AsExpected"; WithMessage "Module is operating normally";
     WithObservedGeneration g])).

Definition observedGenerationAction : Action K U :=
  g ← on_rr instance_generation;
  on_rr (update_status (SetObservedGeneration g)).
End actions.

(** * Properties *)

(** A distribution the module may report: it has a name, and a version that is
    empty or acceptable. *)
Definition proper {SV : Semver} (d : Distribution) : Prop :=
  dist_Name d ≠ "" ∧ (dist_Version d = "" ∨ acceptable (dist_Version d)).

Section facts.
Context {K U : Type} {KA : KubeAPI K} {SV : Semver} {FW : Framework K U}.
Implicit Types (s : State K U) (ray : Ray).

(** What the distribution becomes, given what was read. *)
Definition aligned (old : Distribution) (d : Distribution) (st : distributionReadStatus) : Distribution :=
  match st with
  | distributionInvalid => old
  | distributionAbsent => standaloneDistribution ""
  | distributionOK => d
  end.

Lemma instance_conditions_ray s ray :
  Instance_ (rr s) = Some (ARay ray) → on_rr instance_conditions s = (Ok (GetConditions ray), s).
Proof. intros Hi. destruct s. unfold on_rr, zoom, instance_conditions. cbn in *. by rewrite Hi. Qed.

Lemma set_ray_same s ray : Instance_ (rr s) = Some (ARay ray) → with_ray ray s = s.
Proof.
  intros Hi. destruct s as [[] k o fc]. unfold with_ray, set_ray, set_Instance. cbn in *. congruence.
Qed.

Lemma SetDistribution_same ray : SetDistribution (ray_Distribution (ray_status ray)) ray = ray.
Proof. by destruct ray as [? ? []]. Qed.

Lemma distributionAction_run v s ray :
  Instance_ (rr s) = Some (ARay ray) →
  distributionAction v s =
    if available (K := K) (U := U) (GetConditions ray)
    then match readPlatformDistribution (ApplicationsNamespace (ray_spec ray)) s with
         | (Ok (d, st), s') =>
             (Ok tt, with_ray (SetDistribution
                (aligned (ray_Distribution (ray_status ray)) d st) ray) s)
         | (Err e, s') => (Err e, s)
         | (Panic w, s') => (Panic w, s)
         end
    else (Ok tt, s).
Proof.
  intros Hi. unfold distributionAction.
  rewrite (bind_Ok _ _ _ _ _ (instance_conditions_ray s ray Hi)).
  fold (available (K := K) (U := U) (GetConditions ray)).
  destruct (available _); [|done]. cbn [negb].
  rewrite (bind_Ok _ _ _ _ _ (on_rr_the_ray s ray Hi)).
  unfold mbind at 1, M_bind at 1.
  pose proof (readPlatformDistribution_state s (ApplicationsNamespace (ray_spec ray))) as Hs.
  destruct (readPlatformDistribution _ s) as [[[d st]|e|w] s']; cbn in Hs; subst s'; [|done..].
  assert (∀ d', (if decide (ray_Distribution (ray_status ray) = d') then mret tt
                 else upgrade ray d' ;; modify_rr (set_ray (SetDistribution d' ray))) s
                = (Ok tt, with_ray (SetDistribution d' ray) s)) as Hset.
  { intros d'. case_decide as E; [|done]. by rewrite <- E, SetDistribution_same, set_ray_same. }
  destruct st; cbn [aligned]; [apply Hset|apply Hset|].
  by rewrite SetDistribution_same, set_ray_same.
Qed.

(** What is read depends on the ConfigMap of the platform only. *)
Lemma readPlatformDistribution_config s1 s2 ns :
  platform_config ns (cluster s1) = platform_config ns (cluster s2) →
  HasClient (rr s1) = HasClient (rr s2) →
  (readPlatformDistribution ns s1).1 = (readPlatformDistribution ns s2).1.
Proof.
  destruct s1 as [r1 k1 o1 f1], s2 as [r2 k2 o2 f2]. unfold platform_config. cbn. intros Hk Hc.
  unfold readPlatformDistribution, with_client, on_cluster.
  destruct (String.eqb ns ""); [done|]. run. rewrite Hc. destruct (HasClient r2); [|done]. cbn.
  rewrite Hk. clear Hk Hc. repeat case_run; done.
Qed.

Lemma standalone_proper :
  acceptable StandaloneDistributionVersion → proper (standaloneDistribution "").
Proof. intros Ha. split; [done|by right]. Qed.
End facts.

(** C33: the distribution of the status is always a proper one.  Whatever the
    ConfigMap says, and on every outcome of the API server, [distributionAction]
    keeps the invariant that the distribution reported has a name and a version
    that is empty or acceptable, as long as the version 0.0.0 is a semantic
    version; it changes the distribution only, and nothing when the deployments
    are not available or when it fails. *)
Theorem distributionAction_proper {K U} {KA : KubeAPI K} {SV : Semver} {FW : Framework K U}
    v (s : State K U) ray :
  Instance_ (rr s) = Some (ARay ray) →
  NewVersion "0.0.0" = None →
  proper (ray_Distribution (ray_status ray)) →
  let '(r, s') := distributionAction v s in
  ∃ d, s' = with_ray (SetDistribution d ray) s ∧ proper d ∧
    (r ≠ Ok tt ∨ available (K := K) (U := U) (GetConditions ray) = false →
     d = ray_Distribution (ray_status ray)).
Proof.
  intros Hi Hv Hp. rewrite (distributionAction_run v s ray Hi).
  assert (∀ r, ∃ d, s = with_ray (SetDistribution d ray) s ∧ proper d ∧
            (r ≠ Ok tt ∨ available (K := K) (U := U) (GetConditions ray) = false →
             d = ray_Distribution (ray_status ray))) as Hsame.
  { intros r. exists (ray_Distribution (ray_status ray)). split_and!; [|done..].
    by rewrite SetDistribution_same, set_ray_same. }
  destruct (available _) eqn:Ha; [|apply Hsame].
  destruct (readPlatformDistribution _ s) as [[[d st]|e|w] s'] eqn:E; [|apply Hsame..].
  apply readPlatformDistribution_Ok in E. eexists. split; [done|].
  split; [|by intros [|]].
  destruct st; cbn; [|done..]. apply standalone_proper. by split.
Qed.

Definition aligned_ray : Ray :=
  SetDistribution (Build_Distribution "ODH" "")
    (SetConditions [Build_Condition ConditionDeploymentsAvailable "True" "" "" 0]
      (sample_ray Managed "ns")).

Definition run_distribution (name version : string) : res unit * State Fake Obj :=
  distributionAction (SV := any_version) (FW := fake_framework (λ _, [])) ""
    (sample_state aligned_ray (sample_cluster "ns" name version) (boot ∅ ∅)).

Example run_distribution_ex :
  (i ← Instance_ (rr (run_distribution "" "v3.5.1").2);
   match i with ARay r => Some (ray_Distribution (ray_status r)) | _ => None end)
  = Some (Build_Distribution "Standalone" "v3.5.1").
Proof. vm_compute. reflexivity. Qed.

Lemma distributionAction_proper_witness :
  ∃ d, proper (SV := any_version) d ∧
    Instance_ (rr (run_distribution "" "v3.5.1").2) = Some (ARay (SetDistribution d aligned_ray)).
Proof.
  pose proof (distributionAction_proper (SV := any_version) (FW := fake_framework (λ _, [])) ""
    (sample_state aligned_ray (sample_cluster "ns" "" "v3.5.1") (boot ∅ ∅)) aligned_ray
    eq_refl eq_refl) as H.
  fold (run_distribution "" "v3.5.1") in H. destruct (run_distribution "" "v3.5.1") as [r s'].
  destruct H as (d & -> & Hd & _); [split; [done|by left]|]. by exists d.
Defined.

(** The distribution settles on what the platform declares.  After a pass
    that succeeded the status holds the standalone distribution when the platform
    declares none, the declared one when it is valid, and what it held when it is
    not; and a second pass, with the same cluster, changes nothing. *)
Theorem distributionAction_settles {K U} {KA : KubeAPI K} {SV : Semver} {FW : Framework K U}
    v (s s' : State K U) ray :
  Instance_ (rr s) = Some (ARay ray) →
  distributionAction v s = (Ok tt, s') →
  distributionAction v s' = (Ok tt, s') ∧
  (available (K := K) (U := U) (GetConditions ray) = true →
   ∃ d st, readPlatformDistribution (ApplicationsNamespace (ray_spec ray)) s = (Ok (d, st), s) ∧
     s' = with_ray (SetDistribution (aligned (ray_Distribution (ray_status ray)) d st) ray) s).
Proof.
  intros Hi E. rewrite (distributionAction_run v s ray Hi) in E.
  destruct (available _) eqn:Ha.
  - set (ns := ApplicationsNamespace (ray_spec ray)) in *.
    pose proof (readPlatformDistribution_state s ns) as Hs.
    destruct (readPlatformDistribution ns s) as [[[d st]|e|w] s1] eqn:Er; [|done..].
    cbn in Hs. subst s1. injection E as <-.
    set (d' := aligned _ d st). set (ray' := SetDistribution d' ray).
    split; [|by exists d, st].
    rewrite (distributionAction_run v (with_ray ray' s) ray' eq_refl).
    change (GetConditions ray') with (GetConditions ray). rewrite Ha.
    change (ApplicationsNamespace (ray_spec ray')) with ns.
    pose proof (readPlatformDistribution_config (with_ray ray' s) s ns eq_refl eq_refl) as Hc.
    rewrite Er in Hc. destruct (readPlatformDistribution ns (with_ray ray' s)) as [r s2].
    cbn in Hc. subst r. f_equal. unfold with_ray, set_ray, set_Instance. cbn.
    assert (aligned d' d st = d') as Hd' by (unfold d'; by destruct st).
    rewrite Hd'. reflexivity.
  - injection E as <-. split; [|done]. by rewrite (distributionAction_run v s ray Hi), Ha.
Qed.

Lemma distributionAction_settles_witness :
  distributionAction (SV := any_version) (FW := fake_framework (λ _, [])) ""
    (run_distribution "" "v3.5.1").2 = (Ok tt, (run_distribution "" "v3.5.1").2).
Proof.
  apply (distributionAction_settles (SV := any_version) (FW := fake_framework (λ _, [])) ""
    (sample_state aligned_ray (sample_cluster "ns" "" "v3.5.1") (boot ∅ ∅)) _ aligned_ray);
    reflexivity.
Defined.

(** The last two status actions.  On the module's resource they succeed, the
    generation observed becomes the generation of the resource, [Degraded] is
    marked false for that generation, and nothing else of the state changes. *)
Theorem health_pass {K U} {FW : Framework K U} (s : State K U) ray :
  Instance_ (rr s) = Some (ARay ray) →
  let g := Generation (ray_meta ray) in
  let st := GetStatus ray in
  (degradedAction ;; observedGenerationAction) s =
    (Ok tt, with_ray (SetStatus (Build_Status (Phase st) g
       (MarkFalse (K := K) (U := U) ConditionDegraded
          [WithReason "AsExpected"; WithMessage "Module is operating normally";
           WithObservedGeneration g] (Conditions st))) ray) s).
Proof.
  intros Hi g st. destruct s as [r k o fc]. cbn in Hi.
  unfold degradedAction, observedGenerationAction, on_rr, zoom, instance_generation,
    update_conditions, update_status. run. rewrite Hi. cbn. rewrite Hi. reflexivity.
Qed.
