(* ===== verification/Render.v ===== *)
(** * Rendering the manifests: [internal/controller/render.go]

    The overlay is rendered by the kustomize engine; then every namespaced
    object is moved to the applications namespace, and every object but the
    custom resource definitions is labelled as part of the module. *)
From S2P Require Import Prelude GoStrings OS API Kube Fake Params.

Section render.
Context {K U : Type} {UN : Unstructured U} {FW : Framework K U}.

Definition forceNamespacedResources (ns : string) (objs : list U) : list U :=
  if String.eqb ns "" then objs
  else map (λ u, if negb (String.eqb (GetNamespace u) "") then SetNamespace ns u else u) objs.

Definition stampPartOfLabels (objs : list U) : list U :=
  map (λ u,
    if String.eqb (GetKind u) "CustomResourceDefinition" then u
    else
      let labels := default ∅ (GetLabels u) in
      SetLabels (<[DefaultPartOfLabelKey (K := K) (U := U) := ComponentName]> labels) u) objs.

(** The directory of a manifest under the base the manifests are rendered from. *)
Definition manifest_path (renderBase : string) (m : ManifestInfo) : string :=
  let path := mi_Path m in
  let path := if String.eqb (mi_ContextDir m) "" then path else Join [path; mi_ContextDir m] in
  let path := if String.eqb (mi_SourcePath m) "" then path else Join [path; mi_SourcePath m] in
  Join [renderBase; path].

Definition render_base (basePath : string) (r : Request U) : string :=
  match ext_lookup extKeyWritableManifests r with
  | Some (AnyString p) => if String.eqb p "" then basePath else p
  | _ => basePath
  end.

Definition render_manifest (renderBase ns : string) (m : ManifestInfo) : Action K U :=
  let path := manifest_path renderBase m in
  resources ← on_os (wrapping "render manifests from %s: %w" [path] (Engine_Render (K := K) path ns));
  let resources := forceNamespacedResources ns resources in
  let resources := stampPartOfLabels resources in
  modify_rr (λ r, set_Resources (Resources r ++ resources) r).

Definition RenderKustomize (basePath : string) (namespaceFn : Getter U string) : Action K U :=
  r ← gets rr;
  match Manifests r with
  | [] => mret tt
  | manifests =>
      ns ← on_rr (get_with namespaceFn);
      for_each manifests (render_manifest (render_base basePath r) ns) ;;
      modify_rr (set_Generated true)
  end.
End render.

(** * Properties *)

Section facts.
Context {K U : Type} {UN : Unstructured U} {UL : UnstructuredLaws U} {FW : Framework K U}.
Implicit Types (s : State K U) (u : U).

(** What a rendered object becomes. *)
Definition prepare (ns : string) (us : list U) : list U :=
  stampPartOfLabels (K := K) (forceNamespacedResources ns us).

(** The object the module deploys for a rendered one: of the same kind; in the
    applications namespace if it was in one, and in none if it was in none;
    labelled as part of the module unless it is a custom resource definition,
    and with its other labels. *)
Definition conforms (ns : string) (u v : U) : Prop :=
  GVKOf v = GVKOf u ∧ GetKind v = GetKind u ∧
  GetNamespace v = (if String.eqb ns "" || String.eqb (GetNamespace u) ""
                    then GetNamespace u else ns) ∧
  if String.eqb (GetKind u) "CustomResourceDefinition" then GetLabels v = GetLabels u
  else GetLabels v = Some (<[DefaultPartOfLabelKey (K := K) (U := U) := ComponentName]>
                             (default ∅ (GetLabels u))).

Lemma prepare_conforms ns us : Forall2 (conforms ns) us (prepare ns us).
Proof.
  unfold prepare, stampPartOfLabels, forceNamespacedResources, conforms.
  destruct (String.eqb ns ""); cbn [orb].
  - induction us as [|u us IH]; cbn; constructor; [|apply IH].
    destruct (String.eqb (GetKind u) _) eqn:Ek; [done|].
    by rewrite gvk_set_labels, kind_set_labels, namespace_set_labels, get_set_labels.
  - induction us as [|u us IH]; cbn; constructor; [|apply IH]. clear IH.
    destruct (String.eqb (GetNamespace u) ""); cbn [negb];
      rewrite ?kind_set_namespace, ?labels_set_namespace;
      destruct (String.eqb (GetKind u) _) eqn:Ek;
      by rewrite ?gvk_set_labels, ?kind_set_labels, ?namespace_set_labels, ?get_set_labels,
        ?gvk_set_namespace, ?kind_set_namespace, ?get_set_namespace, ?labels_set_namespace.
Qed.

Lemma prepare_app ns us vs : prepare ns (us ++ vs) = prepare ns us ++ prepare ns vs.
Proof.
  unfold prepare, stampPartOfLabels, forceNamespacedResources.
  destruct (String.eqb ns ""); by rewrite ?map_app.
Qed.

(** [us] is what the engine returned for a manifest. *)
Definition engine_renders (base ns : string) (m : ManifestInfo) (us : list U) : Prop :=
  ∃ o o', Engine_Render (K := K) (manifest_path base m) ns o = (Ok us, o').

(** A request as [r] but for its resources, and a state as [s] but for the
    machine. *)
Definition only_resources s s' (l : list U) : Prop :=
  rr s' = set_Resources l (rr s) ∧ cluster s' = cluster s ∧ filter_cache s' = filter_cache s.

Lemma set_Resources_nil (r : Request U) : set_Resources (Resources r ++ []) r = r.
Proof. rewrite app_nil_r. by destruct r. Qed.

Lemma no_resources ns s s' :
  rr s' = rr s → cluster s' = cluster s → filter_cache s' = filter_cache s →
  only_resources s s' (Resources (rr s) ++ prepare ns (concat [])).
Proof.
  intros Hr Hk Hf. split; [|done]. rewrite Hr.
  replace (prepare ns (concat [])) with (@nil U); [by rewrite set_Resources_nil|].
  unfold prepare, stampPartOfLabels, forceNamespacedResources. by destruct (String.eqb ns "").
Qed.

Lemma render_loop base ns ms s :
  let '(r, s') := for_each ms (render_manifest base ns) s in
  ∃ done rendered, Forall2 (engine_renders base ns) done rendered ∧
    done `prefix_of` ms ∧
    only_resources s s' (Resources (rr s) ++ prepare ns (concat rendered)) ∧
    match r with
    | Ok _ => done = ms
    | Err e => ∃ m c, m ∈ ms ∧ e = Wrapf "render manifests from %s: %w" [manifest_path base m] c
    | Panic _ => True
    end.
Proof.
  revert s. induction ms as [|m ms IH]; intros s.
  { exists [], []. split_and!; [constructor|apply prefix_nil|by apply no_resources|done]. }
  cbn [for_each]. unfold mbind at 1, M_bind at 1. unfold render_manifest at 1.
  unfold mbind at 1, M_bind at 1. rewrite on_os_eq. unfold wrapping.
  destruct (Engine_Render _ ns (os s)) as [[us|e|w] o'] eqn:E; cbn [fst snd].
  - rewrite modify_rr_eq. cbn [rr cluster os filter_cache].
    set (s1 := MkState _ _ _ _). specialize (IH s1).
    destruct (for_each ms _ s1) as [r s'].
    destruct IH as (dn & rs & Hr & Hp & (Hrr & Hk & Hf) & Hm).
    exists (m :: dn), (us :: rs). split; [constructor; [by exists (os s), o'|done]|].
    split; [by apply list.prefix_cons|]. split.
    + split_and!; [|done..]. rewrite Hrr. unfold s1. cbn [rr Resources set_Resources concat].
      rewrite prepare_app, app_assoc. by destruct (rr s).
    + destruct r; [by subst| |done]. destruct Hm as (m' & c & Hin & ->).
      exists m', c. split; [|done]. by apply list_elem_of_further.
  - exists [], []. split_and!; [constructor|apply prefix_nil|by apply no_resources|].
    exists m, e. split; [apply list_elem_of_here|done].
  - exists [], []. split_and!; [constructor|apply prefix_nil|by apply no_resources|done].
Qed.
End facts.

Lemma RenderKustomize_run {K U} {UN : Unstructured U} {UL : UnstructuredLaws U}
    {FW : Framework K U} basePath (nsFn : Getter U string) ns (s : State K U) :
  nsFn (rr s) = Ok ns →
  let '(r, s') := RenderKustomize basePath nsFn s in
  let base := render_base basePath (rr s) in
  let ms := Manifests (rr s) in
  ∃ done rendered new, Forall2 (engine_renders (K := K) base ns) done rendered ∧
    done `prefix_of` ms ∧ Forall2 (conforms (K := K) ns) (concat rendered) new ∧
    cluster s' = cluster s ∧ filter_cache s' = filter_cache s ∧
    match r with
    | Ok _ => done = ms ∧
        rr s' = set_Resources (Resources (rr s) ++ new)
                  (match ms with [] => rr s | _ => set_Generated true (rr s) end)
    | Err e => rr s' = set_Resources (Resources (rr s) ++ new) (rr s) ∧
        ∃ m c, m ∈ ms ∧ e = Wrapf "render manifests from %s: %w" [manifest_path base m] c
    | Panic _ => True
    end.
Proof.
  intros Hns. unfold RenderKustomize. unfold mbind at 1, M_bind at 1, gets.
  destruct (Manifests (rr s)) as [|m0 ms0] eqn:Hm.
  { exists [], [], []. split_and!; [constructor|apply prefix_nil|constructor|done..|].
    cbn [mret M_ret]. by rewrite set_Resources_nil. }
  rewrite <- Hm. set (base := render_base basePath (rr s)). set (ms := Manifests (rr s)).
  assert (on_rr (get_with nsFn) s = (Ok ns, s)) as Hg.
  { destruct s. unfold on_rr, zoom, get_with. cbn in *. by rewrite Hns. }
  rewrite (bind_Ok _ _ _ _ _ Hg).
  pose proof (render_loop (K := K) base ns ms s) as Hl.
  unfold mbind, M_bind.
  destruct (for_each ms _ s) as [[[]|e|w] s1]; destruct Hl as (dn & rs & Hr & Hp & (Hrr & Hk & Hf) & Hd).
  - exists dn, rs, (prepare (K := K) ns (concat rs)).
    cbn [rr cluster filter_cache].
    split_and!; [done|done|apply prepare_conforms|done..|].
    rewrite Hrr. fold ms. destruct ms; [done|]. by destruct (rr s).
  - exists dn, rs, (prepare (K := K) ns (concat rs)).
    split_and!; [done|done|apply prepare_conforms|done..].
  - exists dn, rs, (prepare (K := K) ns (concat rs)).
    split_and!; [done|done|apply prepare_conforms|done..].
Qed.

(** C23: what rendering leaves in the request, for every engine, every list of
    manifests and every outcome.  The resources are extended, and nothing else of
    the request but [Generated] is touched: by one object for each object the
    engine rendered for the manifests it got through, in order, of the same kind,
    in the applications namespace if it was namespaced, and labelled as part of
    the module unless it is a custom resource definition.  On success all the
    manifests were rendered and the request is marked generated; on a failure it
    is not, and the error names the directory. *)
Theorem RenderKustomize_spec {K U} {UN : Unstructured U} {UL : UnstructuredLaws U}
    {FW : Framework K U} basePath (nsFn : Getter U string) ns (s : State K U) :
  nsFn (rr s) = Ok ns →
  let '(r, s') := RenderKustomize basePath nsFn s in
  let base := render_base basePath (rr s) in
  let ms := Manifests (rr s) in
  ∃ done rendered new, Forall2 (engine_renders (K := K) base ns) done rendered ∧
    done `prefix_of` ms ∧ Forall2 (conforms (K := K) ns) (concat rendered) new ∧
    cluster s' = cluster s ∧ filter_cache s' = filter_cache s ∧
    match r with
    | Ok _ => done = ms ∧
        rr s' = set_Resources (Resources (rr s) ++ new)
                  (match ms with [] => rr s | _ => set_Generated true (rr s) end)
    | Err e => rr s' = set_Resources (Resources (rr s) ++ new) (rr s) ∧
        ∃ m c, m ∈ ms ∧ e = Wrapf "render manifests from %s: %w" [manifest_path base m] c
    | Panic _ => True
    end.
Proof. apply RenderKustomize_run. Qed.

(** A CRD, a namespaced object with labels, and a cluster-scoped one. *)
Definition rendered_sample : list Obj :=
  [MkObj (GVK "apiextensions.k8s.io" "v1" "CustomResourceDefinition") "rayclusters" "" None;
   MkObj (GVK "apps" "v1" "Deployment") "kuberay-operator" "redhat-ods-applications"
     (Some {["app" := "kuberay"]});
   MkObj (GVK "rbac.authorization.k8s.io" "v1" "ClusterRole") "kuberay-operator" "" None].

Definition kuberay_manifest : ManifestInfo := Build_ManifestInfo "kuberay" "openshift" "".

Definition render_state : State Fake Obj :=
  let s := sample_state (sample_ray Managed "apps") empty_fake (boot ∅ ∅) in
  MkState (set_Manifests [kuberay_manifest] (rr s)) (cluster s) (os s) (filter_cache s).

Definition render_run : res unit * State Fake Obj :=
  RenderKustomize (FW := fake_framework (λ _, rendered_sample)) "/opt/manifests"
    (λ _, Ok "apps") render_state.

Example render_run_ex :
  map (λ u, (o_namespace u, map_to_list (default ∅ (o_labels u)))) (Resources (rr render_run.2))
  = [("", []);
     ("apps", [("app", "kuberay"); ("platform.opendatahub.io/part-of", "ray")]);
     ("", [("platform.opendatahub.io/part-of", "ray")])].
Proof. vm_compute. reflexivity. Qed.

Lemma RenderKustomize_spec_witness :
  render_run.1 = Ok tt ∧
  ∃ new, Resources (rr render_run.2) = new ∧ Forall2 (conforms (K := Fake)
    (FW := fake_framework (λ _, rendered_sample)) "apps") rendered_sample new.
Proof.
  pose proof (RenderKustomize_spec (FW := fake_framework (λ _, rendered_sample))
    "/opt/manifests" (λ _, Ok "apps") "apps" render_state eq_refl) as H.
  assert (render_run.1 = Ok tt) as Hok by (vm_compute; reflexivity).
  fold render_run in H. destruct render_run as [r s']. cbn [fst] in Hok. subst r.
  destruct H as (dn & rs & new & Hr & _ & Hn & _ & _ & -> & Hrr).
  split; [done|]. exists new. cbn [snd]. rewrite Hrr. split; [done|].
  change (Manifests (rr render_state)) with [kuberay_manifest] in Hr.
  inversion Hr as [|? us ? ? (o & o' & [= <- <-]) Hnil]; subst. inversion Hnil; subst.
  exact Hn.
Defined.
