(* ===== verification/PlatformFilter.v ===== *)
(** * Platform resources: [internal/controller/platform_filter.go]

    On a cluster without the SecurityContextConstraints of OpenShift the rendered
    objects of that kind are dropped.  The list is filtered in its own array. *)
From S2P Require Import Prelude GoStrings OS API Kube Fake.

Definition sccGVK : GroupVersionKind :=
  GVK "security.openshift.io" "v1" "SecurityContextConstraints".

Section filter.
Context {K U : Type} {KA : KubeAPI K} {UN : Unstructured U}.

Definition is_scc (u : U) : bool :=
  String.eqb (GetKind u) (gvk_Kind sccGVK) &&
  String.eqb (gvk_Group (GVKOf u)) (gvk_Group sccGVK).

(** [filtered := a[:0]; for _, r := range a { ... filtered = append(filtered, r) }]:
    [filtered] is the first [w] cells of the array the loop reads, and an append
    writes the next cell, since its capacity is that of the array. *)
Fixpoint filter_loop (steps i w : nat) (array : list U) : list U * nat :=
  match steps with
  | O => (array, w)
  | S steps' =>
      match array !! i with
      | None => (array, w)
      | Some r =>
          if is_scc r then filter_loop steps' (S i) w array
          else filter_loop steps' (S i) (S w) (<[w := r]> array)
      end
  end.

Definition filtered (resources : list U) : list U :=
  let '(array, w) := filter_loop (length resources) 0 0 resources in take w array.

(** [once.Do]: the first call asks the REST mapper. *)
Definition check_once : M (State K U) unit :=
  c ← gets filter_cache;
  if once_done c then mret tt
  else
    err ← on_cluster (gets (RESTMapping (gvk_Group sccGVK) (gvk_Kind sccGVK) (gvk_Version sccGVK)));
    modify (λ s, MkState (rr s) (cluster s) (os s)
                   (Build_FilterCache true (bool_decide (err = None)))).

Definition filterPlatformResources : Action K U :=
  check_once ;;
  c ← gets filter_cache;
  if hasSCCs c then mret tt
  else modify_rr (λ r, set_Resources (filtered (Resources r)) r).
End filter.

(** * Properties *)

Section facts.
Context {K U : Type} {KA : KubeAPI K} {UN : Unstructured U}.
Implicit Types (s : State K U) (l : list U).

(** The reference: the objects that are kept, in their order. *)
Definition keep_non_scc l : list U := base.filter (λ u, is_scc u = false) l.

Lemma keep_non_scc_length l : length (keep_non_scc l) ≤ length l.
Proof. apply length_filter. Qed.

Lemma keep_app l u :
  keep_non_scc (l ++ [u]) = keep_non_scc l ++ if is_scc u then [] else [u].
Proof.
  unfold keep_non_scc. rewrite filter_app. destruct (is_scc u) eqn:E.
  - by rewrite filter_cons_False, filter_nil by congruence.
  - by rewrite filter_cons_True, filter_nil.
Qed.

(** The loop, at the element [i]: the first [w] cells hold what was kept of the
    elements read, and the cells from [i] on are not yet overwritten. *)
Lemma filter_loop_spec l l1 l2 array w :
  l = l1 ++ l2 → w = length (keep_non_scc l1) →
  take w array = keep_non_scc l1 → drop (length l1) array = l2 →
  length array = length l →
  let '(array', w') := filter_loop (length l2) (length l1) w array in
  take w' array' = keep_non_scc l.
Proof.
  revert l1 array w. induction l2 as [|u l2 IH]; intros l1 array w -> -> Ht Hd Hl.
  { cbn. by rewrite app_nil_r. }
  cbn [length filter_loop].
  assert (array !! length l1 = Some u) as Hu.
  { rewrite <- (Nat.add_0_r (length l1)), <- lookup_drop, Hd. done. }
  assert (drop (S (length l1)) array = l2) as Hd'.
  { replace (S (length l1)) with (length l1 + 1) by lia. by rewrite <- drop_drop, Hd. }
  rewrite Hu. replace (S (length l1)) with (length (l1 ++ [u])) in * by (rewrite length_app; cbn; lia).
  pose proof (keep_non_scc_length l1) as Hle.
  destruct (is_scc u) eqn:Hs; apply IH; clear IH; try (by rewrite <- app_assoc).
  - by rewrite keep_app, Hs, app_nil_r.
  - by rewrite Ht, keep_app, Hs, app_nil_r.
  - done.
  - done.
  - rewrite keep_app, Hs, length_app. cbn. lia.
  - rewrite keep_app, Hs. rewrite (take_S_r _ _ u).
    + by rewrite take_insert_ge, Ht.
    + apply list_lookup_insert_eq. rewrite Hl, length_app. cbn. lia.
  - rewrite drop_insert_lt; [done|]. rewrite length_app. cbn. lia.
  - by rewrite length_insert.
Qed.

Lemma filtered_eq l : filtered l = keep_non_scc l.
Proof.
  unfold filtered. pose proof (filter_loop_spec l [] l l 0 eq_refl eq_refl eq_refl eq_refl eq_refl) as H.
  cbn [length] in H. by destruct (filter_loop _ _ _ _).
Qed.

(** What the mapper answers for the security context constraints. *)
Definition scc_lookup (k : K) : option error :=
  RESTMapping (gvk_Group sccGVK) (gvk_Kind sccGVK) (gvk_Version sccGVK) k.

(** The answer in force: the cached one once there is one. *)
Definition scc_known s : bool :=
  if once_done (filter_cache s) then hasSCCs (filter_cache s)
  else bool_decide (scc_lookup (cluster s) = None).

Lemma filterPlatformResources_run s :
  filterPlatformResources s =
    (Ok tt, MkState
      (if scc_known s then rr s
       else set_Resources (keep_non_scc (Resources (rr s))) (rr s))
      (cluster s) (os s) (Build_FilterCache true (scc_known s))).
Proof.
  unfold filterPlatformResources, check_once, scc_known. destruct s as [r k o [d h]]. cbn.
  destruct d; unfold mbind, M_bind, gets; cbn.
  - destruct h; [done|]. by rewrite modify_rr_eq, filtered_eq.
  - cbn. unfold scc_lookup. cbn. destruct (bool_decide _); [done|]. by rewrite modify_rr_eq, filtered_eq.
Qed.
End facts.

(** The filter in its own array is the reference filter: for every list of
    resources, the loop that overwrites the array it is reading returns the
    resources that are not security context constraints, each once, in their
    order. *)
Theorem filtered_in_place {U} {UN : Unstructured U} (l : list U) :
  filtered l = base.filter (λ u, is_scc u = false) l.
Proof. apply filtered_eq. Qed.

(** What the action does.  It never fails and changes the resources only; on
    the first pass the answer of the mapper is cached, and the security context
    constraints are dropped from the resources exactly when the answer in force
    is that there are none. *)
Theorem filterPlatformResources_spec {K U} {KA : KubeAPI K} {UN : Unstructured U} (s : State K U) :
  ∃ s', filterPlatformResources s = (Ok tt, s') ∧
    cluster s' = cluster s ∧ os s' = os s ∧
    once_done (filter_cache s') = true ∧ scc_known s' = scc_known s ∧
    ∃ l, rr s' = set_Resources l (rr s) ∧
      if scc_known s then l = Resources (rr s)
      else ∀ u, u ∈ l ↔ u ∈ Resources (rr s) ∧ is_scc u = false.
Proof.
  rewrite filterPlatformResources_run. eexists. split; [reflexivity|]. cbn.
  split_and!; [done..|]. destruct (scc_known s).
  - exists (Resources (rr s)). split; [by destruct (rr s)|done].
  - eexists. split; [done|]. intros u. unfold keep_non_scc.
    rewrite list_elem_of_filter. tauto.
Qed.

(** One failed lookup is believed for the lifetime of the process.  Whatever
    the error of the mapper on the first pass, an absence of the kind or not,
    every later pass drops the security context constraints, on every cluster:
    also on one where the mapper now finds the kind. *)
Theorem first_lookup_is_final {K U} {KA : KubeAPI K} {UN : Unstructured U}
    (s : State K U) err :
  once_done (filter_cache s) = false → scc_lookup (cluster s) = Some err →
  ∀ s', filter_cache s' = filter_cache (filterPlatformResources s).2 →
    ∀ u, u ∈ Resources (rr (filterPlatformResources s').2) → is_scc u = false.
Proof.
  intros Hd He s' Hc u. rewrite filterPlatformResources_run in Hc. cbn in Hc.
  assert (scc_known s = false) as Hk by (unfold scc_known; by rewrite Hd, He).
  rewrite Hk in Hc. rewrite filterPlatformResources_run.
  assert (scc_known s' = false) as -> by (unfold scc_known; by rewrite Hc).
  cbn. unfold keep_non_scc. rewrite list_elem_of_filter. tauto.
Qed.

Definition scc_object : Obj := MkObj sccGVK "run-as-ray-user" "" None.

(** An API server that times out, then one that has the kind. *)
Definition scc_state (k : Fake) (c : FilterCache) : State Fake Obj :=
  MkState (set_Resources [scc_object] (sample_request (sample_ray Managed "apps")))
    k (boot ∅ ∅) c.

Definition timing_out : Fake :=
  MkFake None ∅ ∅ ∅ [sccGVK] (Some "timeout").
Definition recovered : Fake := MkFake None ∅ ∅ ∅ [sccGVK] None.

Lemma first_lookup_is_final_witness :
  scc_lookup recovered = None ∧
  let c := filter_cache (filterPlatformResources
             (scc_state timing_out (Build_FilterCache false false))).2 in
  (scc_object ∈ Resources (rr (filterPlatformResources (scc_state recovered c)).2) →
   is_scc scc_object = false).
Proof.
  split; [vm_compute; reflexivity|]. intros c.
  apply (first_lookup_is_final (scc_state timing_out (Build_FilterCache false false))
           (EApi (unavailable "timeout"))); reflexivity.
Defined.
