(* ===== verification/Dependencies.v ===== *)
(** * The dependency on cert-manager: [internal/controller/dependencies.go]

    Resources of the kinds of cert-manager are deployed only on a cluster that
    has their definitions. *)
From S2P Require Import Prelude GoStrings OS API Kube Fake.

Definition certManagerGVKs : list GroupVersionKind :=
  [GVK "cert-manager.io" "v1" "Issuer"; GVK "cert-manager.io" "v1" "Certificate"].

(** [GroupVersionKind.String] *)
Definition gvk_String (g : GroupVersionKind) : string :=
  gvk_Group g +:+ "/" +:+ gvk_Version g +:+ ", Kind=" +:+ gvk_Kind g.

Section action.
Context {K U : Type} {KA : KubeAPI K} {UN : Unstructured U}.

(** For each kind, the loop over the resources stops at the first of the kind. *)
Fixpoint any_of_kind (g : GroupVersionKind) (resources : list U) : bool :=
  match resources with
  | [] => false
  | resource :: rest => if decide (GVKOf resource = g) then true else any_of_kind g rest
  end.

Definition requiredCertManagerGVKs (resources : list U) : list GroupVersionKind :=
  fold_left (λ required g, if any_of_kind g resources then required ++ [g] else required)
    certManagerGVKs [].

Definition check_crd (g : GroupVersionKind) : Action K U :=
  available ← wrapping "check cert-manager %s CRD: %w" [gvk_Kind g]
                (with_client (λ k, of_sum (HasCRD g k) k));
  if (available : bool) then mret tt
  else fail (Errorf "cert-manager is required by the Ray module: %s CRD is not installed"
               [gvk_String g]).

Definition certManagerRequirementAction : Action K U :=
  r ← gets rr;
  if removed r then mret tt
  else for_each (requiredCertManagerGVKs (Resources r)) check_crd.
End action.

(** * Properties *)

Section facts.
Context {K U : Type} {KA : KubeAPI K} {UN : Unstructured U}.
Implicit Types (s : State K U) (l : list U).

Lemma any_of_kind_iff g l : any_of_kind g l = true ↔ ∃ u, u ∈ l ∧ GVKOf u = g.
Proof.
  induction l as [|u l IH]; cbn.
  { split; [done|]. by intros (u & Hu%elem_of_nil & _). }
  case_decide as E.
  - split; [|done]. intros _. exists u. split; [apply list_elem_of_here|done].
  - rewrite IH. split.
    + intros (v & Hv & Hg). exists v. split; [by apply list_elem_of_further|done].
    + intros (v & [->|Hv]%elem_of_cons & Hg); [done|eauto].
Qed.

Lemma required_iff g l :
  g ∈ requiredCertManagerGVKs l ↔ g ∈ certManagerGVKs ∧ ∃ u, u ∈ l ∧ GVKOf u = g.
Proof.
  rewrite <- any_of_kind_iff. unfold requiredCertManagerGVKs, certManagerGVKs. cbn [fold_left].
  destruct (any_of_kind (GVK _ _ "Issuer") l) eqn:E1, (any_of_kind (GVK _ _ "Certificate") l) eqn:E2;
    cbn [app]; rewrite ?elem_of_cons, ?elem_of_nil; naive_solver congruence.
Qed.

(** A kind that can be deployed. *)
Definition installed (k : K) (g : GroupVersionKind) : Prop := HasCRD g k = inr true.

Lemma check_crd_run g s :
  HasClient (rr s) = true →
  check_crd g s =
    (match HasCRD g (cluster s) with
     | inl e => Err (Wrapf "check cert-manager %s CRD: %w" [gvk_Kind g] e)
     | inr true => Ok tt
     | inr false => Err (Errorf "cert-manager is required by the Ray module: %s CRD is not installed"
                           [gvk_String g])
     end, s).
Proof.
  intros Hc. unfold check_crd, mbind, M_bind, wrapping. rewrite with_client_eq by done.
  unfold on_cluster, zoom. destruct s as [r k o c]. cbn. by destruct (HasCRD g k) as [e|[]].
Qed.

Lemma check_crds_run gs s :
  HasClient (rr s) = true →
  let '(r, s') := for_each gs check_crd s in
  s' = s ∧
  match r with
  | Ok _ => Forall (installed (cluster s)) gs
  | Err _ => Exists (λ g, ¬ installed (cluster s) g) gs
  | Panic _ => False
  end.
Proof.
  intros Hc. induction gs as [|g gs IH]; cbn [for_each]; [by split|].
  unfold mbind, M_bind. rewrite check_crd_run by done. unfold installed.
  destruct (HasCRD g (cluster s)) as [e|[]] eqn:E.
  - split; [done|]. left. congruence.
  - destruct (for_each gs check_crd s) as [[[]|e|w] s']; destruct IH as [-> IH];
      (split; [done|]); [by constructor|by right|done].
  - split; [done|]. left. congruence.
Qed.

(** When the requirement is met. *)
Definition dependencies_met s : Prop :=
  removed (rr s) = true ∨
  ∀ u, u ∈ Resources (rr s) → GVKOf u ∈ certManagerGVKs → installed (cluster s) (GVKOf u).

Lemma dependencies_run s :
  HasClient (rr s) = true →
  let '(r, s') := certManagerRequirementAction s in
  s' = s ∧ (r = Ok tt ∧ dependencies_met s ∨ (∃ e, r = Err e) ∧ ¬ dependencies_met s).
Proof.
  intros Hc. unfold certManagerRequirementAction, dependencies_met.
  unfold mbind, M_bind, gets. destruct (removed (rr s)) eqn:Hr; [unfold mret, M_ret; naive_solver|].
  pose proof (check_crds_run (requiredCertManagerGVKs (Resources (rr s))) s Hc) as H.
  destruct (for_each _ check_crd s) as [[[]|e|w] s']; destruct H as [-> H]; [..|done];
    (split; [done|]).
  - left. split; [done|]. right. intros u Hu Hg. rewrite Forall_forall in H.
    apply H. apply required_iff. eauto.
  - right. split; [eauto|]. intros [|Hall]; [done|].
    apply Exists_exists in H as (g & Hg & Hn). apply required_iff in Hg as (Hg & u & Hu & <-).
    by apply Hn, Hall.
Qed.
End facts.

(** C35: the requirement on cert-manager, for every cluster and every list of
    resources.  The action changes nothing; it succeeds exactly when the module
    is removed or every resource that is an Issuer or a Certificate of
    cert-manager has its definition installed, and otherwise reports an error. *)
Theorem certManagerRequirementAction_iff {K U} {KA : KubeAPI K} {UN : Unstructured U}
    (s : State K U) :
  HasClient (rr s) = true →
  let '(r, s') := certManagerRequirementAction s in
  s' = s ∧ (r = Ok tt ∧ dependencies_met s ∨ (∃ e, r = Err e) ∧ ¬ dependencies_met s).
Proof. apply dependencies_run. Qed.

Definition needing_issuer (k : Fake) : State Fake Obj :=
  MkState (set_Resources [MkObj (GVK "cert-manager.io" "v1" "Issuer") "selfsigned" "apps" None]
             (sample_request (sample_ray Managed "apps"))) k (boot ∅ ∅) (Build_FilterCache true true).

Lemma certManagerRequirementAction_iff_witness :
  (certManagerRequirementAction (needing_issuer empty_fake)).1 =
    Err (Errorf "cert-manager is required by the Ray module: %s CRD is not installed"
           ["cert-manager.io/v1, Kind=Issuer"]) ∧
  ¬ dependencies_met (needing_issuer empty_fake).
Proof.
  split; [vm_compute; reflexivity|].
  pose proof (certManagerRequirementAction_iff (needing_issuer empty_fake) eq_refl) as H.
  assert ((certManagerRequirementAction (needing_issuer empty_fake)).1 ≠ Ok tt) as Hn
    by (vm_compute; discriminate).
  destruct (certManagerRequirementAction _) as [r s']. destruct H as [_ [[-> _]|[_ H]]]; done.
Defined.
