(* ===== verification/NotebookRBAC.v ===== *)
(** * The cluster role of the notebooks: [internal/controller/notebook_rbac.go]

    A cluster role with a fixed name, which the workbenches bind to the service
    accounts of notebooks, is applied while the module is managed and deleted
    when it is removed.  It never has an owner. *)
From S2P Require Import Prelude GoStrings OS API Kube Fake.

Definition notebookClusterRoleName := "ray".

Section actions.
Context {K U : Type} {KA : KubeAPI K} {FW : Framework K U}.

Definition notebookClusterRole : ClusterRole := {|
  cr_APIVersion := "rbac.authorization.k8s.io/v1";
  cr_Kind := "ClusterRole";
  cr_meta := set_Labels
    (Some (<["app.kubernetes.io/managed-by" := "ray-module-operator"]>
             {[DefaultPartOfLabelKey (K := K) (U := U) := ComponentName]}))
    (meta_named notebookClusterRoleName);
  cr_Rules :=
    [{| APIGroups := ["ray.io"]; PolicyResources := ["rayjobs"];
        Verbs := ["get"; "list"; "create"; "patch"; "delete"] |};
     {| APIGroups := ["ray.io"]; PolicyResources := ["rayjobs/status"]; Verbs := ["get"; "list"] |};
     {| APIGroups := ["ray.io"]; PolicyResources := ["rayclusters"]; Verbs := ["get"; "list"] |};
     {| APIGroups := ["ray.io"]; PolicyResources := ["rayclusters/status"]; Verbs := ["get"; "list"] |};
     {| APIGroups := [""]; PolicyResources := ["secrets"]; Verbs := ["create"] |}];
|}.

Definition set_cr_meta (m : ObjectMeta) (c : ClusterRole) : ClusterRole :=
  Build_ClusterRole (cr_APIVersion c) (cr_Kind c) m (cr_Rules c).

(** The mutation [CreateOrUpdate] applies to the role it found or creates. *)
Definition mutate_role (desired existing : ClusterRole) : ClusterRole :=
  Build_ClusterRole (cr_APIVersion existing) (cr_Kind existing)
    (set_OwnerReferences [] (set_Labels (Labels (cr_meta desired)) (cr_meta existing)))
    (cr_Rules desired).

Definition applyNotebookClusterRole : Action K U :=
  let desired := notebookClusterRole in
  let existing := Build_ClusterRole "" "" (meta_named notebookClusterRoleName) [] in
  err ← with_client (call (CreateOrUpdate existing (mutate_role desired)));
  match err with
  | Some e => fail (Wrapf "apply notebook ClusterRole %q: %w" [notebookClusterRoleName] e)
  | None => mret tt
  end.

(** Leftover owners are dropped before the role is deleted. *)
Definition clear_owners (cr : ClusterRole) : M (State K U) ClusterRole :=
  match OwnerReferences (cr_meta cr) with
  | [] => mret cr
  | _ =>
      let cr := set_cr_meta (set_OwnerReferences [] (cr_meta cr)) cr in
      r ← with_client (call (UpdateClusterRole cr));
      match r with
      | inr cr' => mret cr'
      | inl e => if IsNotFound e then mret cr
                 else fail (Wrapf "clear ownerRefs on notebook ClusterRole %q: %w"
                              [notebookClusterRoleName] (EApi e))
      end
  end.

Definition deleteNotebookClusterRole : Action K U :=
  r ← with_client (gets (GetClusterRole notebookClusterRoleName));
  match r with
  | inl e => if IsNotFound e then mret tt
             else fail (Wrapf "get notebook ClusterRole %q: %w" [notebookClusterRoleName] (EApi e))
  | inr cr =>
      cr ← clear_owners cr;
      err ← with_client (call (DeleteClusterRole cr));
      match err with
      | None => mret tt
      | Some e => if IsNotFound e then mret tt
                  else fail (Wrapf "delete notebook ClusterRole %q: %w"
                               [notebookClusterRoleName] (EApi e))
      end
  end.

Definition notebookClusterRoleAction : Action K U :=
  r ← gets rr;
  if removed r then deleteNotebookClusterRole else applyNotebookClusterRole.
End actions.

(** * Properties *)

(** ** What the API server promises about cluster roles

    The roles it holds, what a call that succeeds does to them, and that a call
    that fails does nothing.  A role with finalizers stays, marked for deletion,
    after it was deleted. *)
Definition same_content (r r' : ClusterRole) : Prop :=
  Name (cr_meta r) = Name (cr_meta r') ∧ Labels (cr_meta r) = Labels (cr_meta r') ∧
  OwnerReferences (cr_meta r) = OwnerReferences (cr_meta r') ∧ cr_Rules r = cr_Rules r'.

Definition deleting (r r' : ClusterRole) : Prop :=
  DeletionTimestamp (cr_meta r') ≠ None ∧ Finalizers (cr_meta r') ≠ [] ∧ same_content r r'.

Class RoleStore (K : Type) {KA : KubeAPI K} := {
  roles : K → gmap string ClusterRole;
  get_role n k r : GetClusterRole n k = inr r → roles k !! n = Some r ∧ Name (cr_meta r) = n;
  get_no_role n k e : GetClusterRole n k = inl e → IsNotFound e = true → roles k !! n = None;
  update_role c k r k' : UpdateClusterRole c k = (inr r, k') →
    same_content c r ∧ roles k' = <[Name (cr_meta c) := r]> (roles k);
  update_role_failed c k e k' : UpdateClusterRole c k = (inl e, k') →
    roles k' = roles k ∧ (IsNotFound e = true → roles k !! Name (cr_meta c) = None);
  delete_role c k k' : DeleteClusterRole c k = (None, k') →
    (∀ n, n ≠ Name (cr_meta c) → roles k' !! n = roles k !! n) ∧
    (∀ r', roles k' !! Name (cr_meta c) = Some r' →
       ∃ r, roles k !! Name (cr_meta c) = Some r ∧ deleting r r');
  delete_role_failed c k e k' : DeleteClusterRole c k = (Some e, k') →
    roles k' = roles k ∧ (IsNotFound e = true → roles k !! Name (cr_meta c) = None);
  create_or_update c f k k' : CreateOrUpdate c f k = (None, k') →
    (∀ n, n ≠ Name (cr_meta c) → roles k' !! n = roles k !! n) ∧
    ∃ r, roles k' !! Name (cr_meta c) = Some r ∧
         same_content (f (default c (roles k !! Name (cr_meta c)))) r;
  create_or_update_failed c f k e k' : CreateOrUpdate c f k = (Some e, k') → roles k' = roles k;
}.

(** ** The cluster in memory keeps these promises *)

Definition fake_roles (k : Fake) : gmap string ClusterRole :=
  base.filter (λ e, Name (cr_meta e.2) = e.1) (fk_roles k).

Lemma fake_roles_lookup k n : fake_roles k !! n = fk_role n k.
Proof.
  unfold fake_roles, fk_role. rewrite map_lookup_filter.
  destruct (fk_roles k !! n) as [c|]; cbn; [|done].
  destruct (String.eqb_spec (Name (cr_meta c)) n); case_guard; done.
Qed.

Lemma fake_roles_insert k c n :
  Name (cr_meta c) = n →
  fake_roles (fk_set_roles (<[n := c]> (fk_roles k)) k) = <[n := c]> (fake_roles k).
Proof. intros Hn. unfold fake_roles. cbn. by rewrite map_filter_insert_True. Qed.

Lemma fake_roles_delete k n :
  fake_roles (fk_set_roles (delete n (fk_roles k)) k) = delete n (fake_roles k).
Proof. unfold fake_roles. cbn. apply map_filter_delete. Qed.

Lemma fake_roles_get k n r : fake_roles k !! n = Some r → Name (cr_meta r) = n.
Proof.
  rewrite fake_roles_lookup. unfold fk_role. intros (c & _ & Hc)%bind_Some.
  by destruct (String.eqb_spec (Name (cr_meta c)) n); simplify_eq.
Qed.

#[export] Instance fake_store : RoleStore Fake.
Proof.
  refine {| roles := fake_roles |}; cbn [GetClusterRole UpdateClusterRole DeleteClusterRole
    CreateOrUpdate fake_api]; unfold fk_update_role, fk_delete_role, fk_create_or_update.
  - intros n k r E. pose proof (guarded_found k (fk_role n k)) as H. rewrite E in H.
    rewrite fake_roles_lookup. split; [done|]. apply (fake_roles_get k). by rewrite fake_roles_lookup.
  - intros n k e E He. pose proof (guarded_found k (fk_role n k)) as H. rewrite E in H.
    rewrite fake_roles_lookup. by apply H.
  - intros c k r k'. destruct (guarded k _); [done|]. intros [= <- <-].
    split; [done|]. by apply fake_roles_insert.
  - intros c k e k'. pose proof (guarded_found k (fk_role (Name (cr_meta c)) k)) as H.
    destruct (guarded k _); [|done]. intros [= <- <-]. split; [done|].
    intros He. rewrite fake_roles_lookup. by apply H.
  - intros c k k'. destruct (guarded k _); [done|]. intros [= <-].
    rewrite fake_roles_delete. split.
    + intros n Hn. by rewrite lookup_delete_ne.
    + intros r'. by rewrite lookup_delete_eq.
  - intros c k e k'. pose proof (guarded_found k (fk_role (Name (cr_meta c)) k)) as H.
    destruct (guarded k _); [|done]. intros [= <- <-]. split; [done|].
    intros He. rewrite fake_roles_lookup. by apply H.
  - intros c f k k'. destruct (fk_down k); [done|].
    destruct (String.eqb_spec (Name (cr_meta (f (default c (fk_role (Name (cr_meta c)) k)))))
                (Name (cr_meta c))) as [Hn|]; [|done].
    intros [= <-]. rewrite fake_roles_insert by done. split.
    + intros n Hne. by rewrite lookup_insert_ne.
    + rewrite lookup_insert_eq, fake_roles_lookup. by eexists.
  - intros c f k e k'. destruct (fk_down k); [by intros [= _ <-]|].
    destruct (String.eqb _ _); [done|]. by intros [= _ <-].
Defined.

(** ** The theorems *)

Section facts.
Context {K U : Type} {KA : KubeAPI K} {RS : RoleStore K} {FW : Framework K U}.
Implicit Types (s : State K U).

Definition with_cluster (k : K) s : State K U := MkState (rr s) k (os s) (filter_cache s).

Lemma with_cluster_same s : with_cluster (cluster s) s = s.
Proof. by destruct s. Qed.

(** The role is not there, or it waits for its finalizers and nothing owns it. *)
Definition role_gone (m : gmap string ClusterRole) : Prop :=
  ∀ r, m !! notebookClusterRoleName = Some r →
    DeletionTimestamp (cr_meta r) ≠ None ∧ Finalizers (cr_meta r) ≠ [] ∧
    OwnerReferences (cr_meta r) = [].

Definition other_roles (k k' : K) : Prop :=
  ∀ n, n ≠ notebookClusterRoleName → roles k' !! n = roles k !! n.

Lemma other_roles_eq k k' : roles k' = roles k → other_roles k k'.
Proof. intros E n _. by rewrite E. Qed.

Lemma clear_owners_run cr s :
  HasClient (rr s) = true → roles (cluster s) !! notebookClusterRoleName = Some cr →
  Name (cr_meta cr) = notebookClusterRoleName →
  ∃ r k', clear_owners cr s = (r, with_cluster k' s) ∧ other_roles (cluster s) k' ∧
    match r with
    | Ok cr' => Name (cr_meta cr') = notebookClusterRoleName ∧
        (∀ r', roles k' !! notebookClusterRoleName = Some r' → OwnerReferences (cr_meta r') = [])
    | Err e => ∃ c, e = Wrapf "clear ownerRefs on notebook ClusterRole %q: %w"
                          [notebookClusterRoleName] c
    | Panic _ => False
    end.
Proof.
  intros Hc Hr Hn. unfold clear_owners.
  destruct (OwnerReferences (cr_meta cr)) as [|o os] eqn:Ho.
  { exists (Ok cr), (cluster s). rewrite with_cluster_same.
    split_and!; [done|by apply other_roles_eq|done|]. congruence. }
  set (c := set_cr_meta _ cr). unfold mbind, M_bind.
  rewrite with_client_call by done.
  destruct (UpdateClusterRole c (cluster s)) as [[e|r] k'] eqn:E; cbn [fst snd].
  - apply update_role_failed in E as [Ek He].
    destruct (IsNotFound e) eqn:Hnf.
    + exists (Ok c), k'. split_and!; [done|by apply other_roles_eq|done|].
      intros r'. rewrite Ek. change (Name (cr_meta c)) with (Name (cr_meta cr)) in He.
      rewrite Hn in He. by rewrite He.
    + eexists (Err _), k'. split_and!; [reflexivity|by apply other_roles_eq|eauto].
  - apply update_role in E as [(Hn' & _ & Ho' & _) Ek].
    change (Name (cr_meta c)) with (Name (cr_meta cr)) in *. rewrite Hn in *.
    exists (Ok r), k'. split_and!; [done| |done|].
    + intros n Hne. by rewrite Ek, lookup_insert_ne.
    + intros r'. rewrite Ek, lookup_insert_eq. intros [= <-]. by rewrite <- Ho'.
Qed.

Lemma delete_run s :
  HasClient (rr s) = true →
  ∃ r k', deleteNotebookClusterRole s = (r, with_cluster k' s) ∧ other_roles (cluster s) k' ∧
    match r with
    | Ok _ => role_gone (roles k')
    | Err e => ∃ f c, e = Wrapf f [notebookClusterRoleName] c
    | Panic _ => False
    end.
Proof.
  intros Hc. unfold deleteNotebookClusterRole.
  rewrite (bind_Ok _ _ _ _ _ (with_client_gets _ s Hc)).
  destruct (GetClusterRole _ (cluster s)) as [e|cr] eqn:Eg.
  { destruct (IsNotFound e) eqn:He.
    - exists (Ok tt), (cluster s). rewrite with_cluster_same.
      split_and!; [done|by apply other_roles_eq|]. intros r Hr.
      rewrite (get_no_role _ _ _ Eg He) in Hr. done.
    - eexists (Err _), (cluster s). rewrite with_cluster_same.
      split_and!; [reflexivity|by apply other_roles_eq|eauto]. }
  apply get_role in Eg as [Hr Hn].
  destruct (clear_owners_run cr s Hc Hr Hn) as (r & k1 & E1 & O1 & H1).
  unfold mbind at 1, M_bind at 1. rewrite E1. destruct r as [cr'|e|w]; [| |done]; last first.
  { destruct H1 as (c & ->). eexists (Err _), k1. split_and!; [reflexivity|done|eauto]. }
  destruct H1 as [Hn' Ho']. unfold mbind, M_bind. rewrite with_client_call by done.
  cbn [with_cluster cluster rr os filter_cache].
  destruct (DeleteClusterRole cr' k1) as [[e|] k2] eqn:E2; cbn [fst snd].
  - apply delete_role_failed in E2 as [Ek He]. rewrite Hn' in He.
    assert (other_roles (cluster s) k2) as O2 by (intros n Hne; rewrite Ek; by apply O1).
    destruct (IsNotFound e).
    + exists (Ok tt), k2. split_and!; [done..|]. intros r. rewrite Ek, He; done.
    + eexists (Err _), k2. split_and!; [reflexivity|done|eauto].
  - apply delete_role in E2 as [Ho Hd]. rewrite Hn' in Ho, Hd.
    exists (Ok tt), k2. split_and!; [done| |].
    + intros n Hne. rewrite Ho by done. by apply O1.
    + intros r' Hr'. destruct (Hd r' Hr') as (r & Hr1 & Ht & Hf & _ & _ & Hown & _).
      split_and!; [done..|]. rewrite <- Hown. by apply Ho'.
Qed.

(** The role as the module wants it. *)
Definition role_applied (m : gmap string ClusterRole) : Prop :=
  ∃ r, m !! notebookClusterRoleName = Some r ∧
    cr_Rules r = cr_Rules (notebookClusterRole (K := K) (U := U)) ∧
    Labels (cr_meta r) = Labels (cr_meta (notebookClusterRole (K := K) (U := U))) ∧
    OwnerReferences (cr_meta r) = [].

Lemma apply_run s :
  HasClient (rr s) = true →
  ∃ r k', applyNotebookClusterRole s = (r, with_cluster k' s) ∧ other_roles (cluster s) k' ∧
    match r with
    | Ok _ => role_applied (roles k')
    | Err e => roles k' = roles (cluster s) ∧
               ∃ c, e = Wrapf "apply notebook ClusterRole %q: %w" [notebookClusterRoleName] c
    | Panic _ => False
    end.
Proof.
  intros Hc. unfold applyNotebookClusterRole, mbind, M_bind.
  rewrite with_client_call by done. set (c := Build_ClusterRole _ _ _ _).
  destruct (CreateOrUpdate c _ (cluster s)) as [[e|] k'] eqn:E; cbn [fst snd].
  - apply create_or_update_failed in E. eexists (Err _), k'.
    split_and!; [reflexivity|by apply other_roles_eq|done|eauto].
  - apply create_or_update in E as (Ho & r & Hr & (_ & Hl & Hw & Hrules)).
    exists (Ok tt), k'. split_and!; [done|done|]. by exists r.
Qed.
End facts.

(** C15: the role of the notebooks follows the state of the module, against every
    API server that keeps the promises of [RoleStore].  The action touches that
    role only.  On success, while the module is managed the role has exactly the
    module's rules and labels and no owner, whatever it held before; once it is
    removed the role is gone, or it waits for its own finalizers with no owner
    left; an absence at any point is a success, and every other failure is
    reported with its cause. *)
Theorem notebookClusterRoleAction_spec {K U} {KA : KubeAPI K} {RS : RoleStore K}
    {FW : Framework K U} (s : State K U) :
  HasClient (rr s) = true →
  ∃ r k', notebookClusterRoleAction s = (r, with_cluster k' s) ∧
    other_roles (cluster s) k' ∧
    match r with
    | Ok _ => if removed (rr s) then role_gone (roles k')
              else role_applied (K := K) (U := U) (roles k')
    | Err e => ∃ f c, e = Wrapf f [notebookClusterRoleName] c
    | Panic _ => False
    end.
Proof.
  intros Hc. unfold notebookClusterRoleAction, mbind at 1, M_bind at 1, gets.
  destruct (removed (rr s)).
  - destruct (delete_run s Hc) as (r & k' & ? & ? & ?). exists r, k'. by destruct r.
  - destruct (apply_run s Hc) as (r & k' & ? & ? & H). exists r, k'.
    split_and!; [done..|]. destruct r; [done| |done]. destruct H as (_ & c & ->). eauto.
Qed.

(** A role left by an older version, owned by the resource. *)
Definition owned_role : ClusterRole :=
  Build_ClusterRole "" "" (set_OwnerReferences [Build_OwnerReference "Ray" "default-ray" "uid-1"]
    (meta_named "ray")) [].

Definition removed_state : State Fake Obj :=
  MkState (set_Extensions (Some {[ExtKeyRemoved := AnyBool true]})
             (sample_request (sample_ray Removed "apps")))
    (MkFake None ∅ {["ray" := owned_role]} ∅ [] None) (boot ∅ ∅) (Build_FilterCache true true).

Lemma notebookClusterRoleAction_spec_witness :
  fk_roles (cluster (notebookClusterRoleAction (FW := fake_framework (λ _, [])) removed_state).2)
    !! "ray" = None ∧
  ∃ k', role_gone (fake_roles k') ∧
    (notebookClusterRoleAction (FW := fake_framework (λ _, [])) removed_state).2 =
      with_cluster k' removed_state.
Proof.
  split; [vm_compute; reflexivity|].
  destruct (notebookClusterRoleAction_spec (FW := fake_framework (λ _, [])) removed_state eq_refl)
    as (r & k' & E & _ & H).
  assert ((notebookClusterRoleAction (FW := fake_framework (λ _, [])) removed_state).1 = Ok tt) as Hr
    by (vm_compute; reflexivity).
  rewrite E in Hr |- *. cbn [fst] in Hr. subst r. by exists k'.
Defined.
