(* ===== verification/OwnedGC.v ===== *)
(** * Collecting the operands: [internal/controller/owned_gc.go]

    Once the module is removed its operands are deleted directly: the objects of
    a fixed list of kinds that the resource owns, or that carry the label of the
    module. *)
From S2P Require Import Prelude GoStrings OS API Kube Fake.

Definition namespacedOwnedLists : list ListKind :=
  [DeploymentList; ConfigMapList; ServiceList; ServiceAccountList].

Definition clusterOwnedLists : list ListKind :=
  [MutatingWebhookConfigurationList; ClusterRoleList; ClusterRoleBindingList].

(** The format [%T] of a typed list. *)
Definition type_name (l : ListKind) : string :=
  match l with
  | DeploymentList => "*v1.DeploymentList"
  | ConfigMapList => "*v1.ConfigMapList"
  | ServiceList => "*v1.ServiceList"
  | ServiceAccountList => "*v1.ServiceAccountList"
  | MutatingWebhookConfigurationList => "*v1.MutatingWebhookConfigurationList"
  | ClusterRoleList => "*v1.ClusterRoleList"
  | ClusterRoleBindingList => "*v1.ClusterRoleBindingList"
  end.

(** ** Which objects *)

Definition labeledOperand {K U} {FW : Framework K U} (obj : Object) : bool :=
  String.eqb (map_get (DefaultPartOfLabelKey (K := K) (U := U)) (Labels (obj_meta obj))) ComponentName.

Definition ownedByUID (obj : Object) (ownerUID : string) : bool :=
  if String.eqb ownerUID "" then false
  else existsb (λ ref, String.eqb (ref_UID ref) ownerUID) (OwnerReferences (obj_meta obj)).

(** ** Deletion *)

Section gc.
Context {K U : Type} {KA : KubeAPI K} {FW : Framework K U}.

Definition delete_item (ownerUID : string) (item : Item) : M K unit :=
  match item with
  | NoObject => mret tt
  | AnObject obj =>
      if negb (ownedByUID obj ownerUID) && negb (labeledOperand (K := K) (U := U) obj) then mret tt
      else
        err ← call (Delete obj Background);
        match err with
        | Some e =>
            if IsNotFound e then mret tt
            else fail (Wrapf "delete owned %s/%s: %w"
                         [Namespace (obj_meta obj); Name (obj_meta obj)] (EApi e))
        | None => mret tt
        end
  end.

Definition deleteOwnedFromList (ownerUID : string) (list : ListKind) (inNamespace : option string)
    : M K unit :=
  r ← gets (ListObjects list inNamespace);
  match r with
  | inl e =>
      if IsNotFound e || IsNoMatchError e || IsNotRegisteredError e then mret tt
      else fail (Wrapf "list %T for owned-operand GC: %w" [type_name list] (EApi e))
  | inr l =>
      match ExtractList l with
      | inl e => fail (Wrapf "extract %T: %w" [type_name list] e)
      | inr items => for_each items (delete_item ownerUID)
      end
  end.

Definition delete_lists (ownerUID ns : string) : M K unit :=
  (if String.eqb ns "" then mret tt
   else for_each namespacedOwnedLists (λ l, deleteOwnedFromList ownerUID l (Some ns))) ;;
  for_each clusterOwnedLists (λ l, deleteOwnedFromList ownerUID l None).

Definition deleteOwnedOperands : Action K U :=
  r ← gets rr;
  if negb (HasClient r) then mret tt
  else
    match Instance_ r with
    | None => mret tt
    | Some (AnotherKind _ _) => mret tt
    | Some (ARay ray) =>
        if String.eqb (UID (ray_meta ray)) "" then mret tt
        else with_client (delete_lists (UID (ray_meta ray)) (ApplicationsNamespace (ray_spec ray)))
    end.
End gc.

(** * Properties *)

(** ** What the API server promises about objects

    A list that succeeds holds the objects stored at that moment; the kinds of the
    lists are registered with the client, so that an error that is skipped means
    that the API server does not serve the kind.  A deletion concerns one
    identity; with finalizers the object stays, marked for deletion. *)
Definition terminating (o : Object) : Prop :=
  DeletionTimestamp (obj_meta o) ≠ None ∧ Finalizers (obj_meta o) ≠ [].

Definition in_namespace (ns : option string) (o : Object) : Prop :=
  match ns with Some n => Namespace (obj_meta o) = n | None => True end.

Class ObjectStore (K : Type) {KA : KubeAPI K} := {
  stored : K → Object → Prop;
  stored_unique k o o' : stored k o → stored k o' → identity o = identity o' → o = o';
  list_stored l ns k r items : ListObjects l ns k = inr r → ExtractList r = inr items →
    ∀ o, AnObject o ∈ items ↔ stored k o ∧ obj_list o = l ∧ in_namespace ns o;
  list_registered l ns k e : ListObjects l ns k = inl e → IsNotRegisteredError e = false;
  list_unserved l ns k e : ListObjects l ns k = inl e →
    IsNotFound e = true ∨ IsNoMatchError e = true → ∀ o, stored k o → obj_list o ≠ l;
  delete_stored o p k k' : Delete o p k = (None, k') →
    (∀ o', stored k' o' → identity o' = identity o → terminating o') ∧
    (∀ o', identity o' ≠ identity o → (stored k' o' ↔ stored k o'));
  delete_failed o p k e k' : Delete o p k = (Some e, k') →
    (∀ o', stored k' o' ↔ stored k o') ∧
    (IsNotFound e = true → ∀ o', stored k o' → identity o' ≠ identity o);
}.

(** ** One list *)

Section facts.
Context {K U : Type} {KA : KubeAPI K} {OS : ObjectStore K} {FW : Framework K U}.
Implicit Types (k : K) (o : Object) (uid ns : string).

(** An object the module considers its own. *)
Definition is_operand uid o : bool :=
  ownedByUID o uid || labeledOperand (K := K) (U := U) o.

(** From [k] to [k'] objects selected by [D] may have been deleted, and nothing
    else happened: what is stored was, or is a selected object waiting for its
    finalizers; what is not selected is still stored. *)
Definition only_deletes (D : Object → Prop) k k' : Prop :=
  (∀ o, stored k' o → stored k o ∨
     terminating o ∧ ∃ p, stored k p ∧ D p ∧ identity o = identity p) ∧
  (∀ o, stored k o → ¬ D o → stored k' o).

Lemma only_deletes_refl D k : only_deletes D k k.
Proof. split; auto. Qed.

Lemma only_deletes_trans D k1 k2 k3 :
  only_deletes D k1 k2 → only_deletes D k2 k3 → only_deletes D k1 k3.
Proof.
  intros [A1 B1] [A2 B2]. split; [|auto].
  intros o Ho. destruct (A2 o Ho) as [H|(Ht & p & Hp & HD & Hi)]; [auto|]. right. split; [done|].
  destruct (A1 p Hp) as [H|(_ & q & Hq & HDq & Hiq)]; [eauto|].
  exists q. split_and!; [done..|congruence].
Qed.

(** What is stored was, or is terminating. *)
Definition shrinks k k' : Prop := ∀ o, stored k' o → stored k o ∨ terminating o.

Lemma shrinks_refl k : shrinks k k.
Proof. intros o. by left. Qed.

Lemma shrinks_trans k1 k2 k3 : shrinks k1 k2 → shrinks k2 k3 → shrinks k1 k3.
Proof. intros H1 H2 o Ho. destruct (H2 o Ho); auto. Qed.

Lemma only_deletes_shrinks D k k' : only_deletes D k k' → shrinks k k'.
Proof. intros [A _] o Ho. destruct (A o Ho) as [|[]]; auto. Qed.

(** The objects of a class that are stored are terminating; it lasts. *)
Definition cleaned (C : Object → Prop) k : Prop := ∀ o, stored k o → C o → terminating o.

Lemma cleaned_lasts C k k' : cleaned C k → shrinks k k' → cleaned C k'.
Proof. intros Hc Hs o Ho HC. destruct (Hs o Ho); auto. Qed.

Definition finished {A} (r : res A) (P : Prop) : Prop :=
  match r with Ok _ => P | Err _ => True | Panic _ => False end.

Lemma delete_item_run D uid i k0 k :
  (∀ o, i = AnObject o → is_operand uid o = true → stored k0 o ∧ D o) →
  only_deletes D k0 k →
  let '(r, k') := delete_item (U := U) uid i k in
  only_deletes D k0 k' ∧ shrinks k k' ∧
  finished r (∀ o, i = AnObject o → is_operand uid o = true →
                cleaned (λ o', identity o' = identity o) k').
Proof.
  intros Hi [A B]. unfold delete_item.
  destruct i as [o|]; [|by split_and!; [split|apply shrinks_refl|]].
  rewrite <- negb_orb. fold (is_operand uid o).
  destruct (is_operand uid o) eqn:Ho; cbn [negb]; last first.
  { split_and!; [by split|apply shrinks_refl|]. intros o' [= <-]. congruence. }
  destruct (Hi o eq_refl Ho) as [Hs0 HD].
  unfold mbind, M_bind, call. destruct (Delete o Background k) as [[e|] k'] eqn:E.
  - apply delete_failed in E as [Es En].
    assert (only_deletes D k0 k' ∧ shrinks k k') as [H1 H2].
    { split; [split|]; intros x; rewrite Es; auto. }
    destruct (IsNotFound e); (split_and!; [done..|]); [|done].
    intros o' [= <-] _ x Hx Hid. apply Es in Hx. by destruct (En eq_refl x Hx).
  - apply delete_stored in E as [Ht Hk]. split_and!.
    + split.
      * intros x Hx. destruct (decide (identity x = identity o)) as [Hid|Hid].
        -- right. split; [auto|]. by exists o.
        -- apply A. by apply Hk.
      * intros x Hx Hn. apply Hk; [|auto]. intros Hid.
        by rewrite (stored_unique k0 x o Hx Hs0 Hid) in Hn.
    + intros x Hx. destruct (decide (identity x = identity o)) as [Hid|Hid]; [right; auto|].
      left. by apply Hk.
    + intros o' [= <-] _ x Hx Hid. auto.
Qed.

Lemma delete_items_run D uid items k0 k :
  (∀ o, AnObject o ∈ items → is_operand uid o = true → stored k0 o ∧ D o) →
  only_deletes D k0 k →
  let '(r, k') := for_each items (delete_item (U := U) uid) k in
  only_deletes D k0 k' ∧ shrinks k k' ∧
  finished r (∀ o, AnObject o ∈ items → is_operand uid o = true →
                cleaned (λ o', identity o' = identity o) k').
Proof.
  revert k. induction items as [|i items IH]; intros k Hi Hk; cbn [for_each].
  { split_and!; [done|apply shrinks_refl|]. by intros o Ho%elem_of_nil. }
  pose proof (delete_item_run D uid i k0 k) as H1.
  unfold mbind, M_bind. destruct (delete_item uid i k) as [[[]|e|w] k1].
  - destruct H1 as (Hk1 & S1 & C1); [|done|].
    { intros o ->. apply Hi. apply list_elem_of_here. }
    specialize (IH k1). destruct (for_each items _ k1) as [r k2].
    destruct IH as (Hk2 & S2 & C2); [|done|].
    { intros o Ho. apply Hi. by apply list_elem_of_further. }
    split_and!; [done|by eapply shrinks_trans|].
    destruct r; cbn in C1, C2 |- *; [|done..].
    intros o [<-|Ho]%elem_of_cons Hop; [|auto]. by eapply cleaned_lasts; [apply C1|].
  - destruct H1 as (Hk1 & S1 & _); [|done|done].
    intros o ->. apply Hi. apply list_elem_of_here.
  - destruct H1 as (_ & _ & []); [|done]. intros o ->. apply Hi. apply list_elem_of_here.
Qed.

(** The operands of one kind, in a namespace or in all of them. *)
Definition operand_of uid l (inns : option string) o : Prop :=
  obj_list o = l ∧ in_namespace inns o ∧ is_operand uid o = true.

Lemma list_run D uid l inns k :
  (∀ o, operand_of uid l inns o → D o) →
  let '(r, k') := deleteOwnedFromList (U := U) uid l inns k in
  only_deletes D k k' ∧ finished r (cleaned (operand_of uid l inns) k').
Proof.
  intros HD. unfold deleteOwnedFromList. unfold mbind, M_bind, gets.
  destruct (ListObjects l inns k) as [e|L] eqn:El.
  - rewrite (list_registered _ _ _ _ El), orb_false_r.
    destruct (IsNotFound e || IsNoMatchError e) eqn:He; [|by split; [apply only_deletes_refl|]].
    split; [apply only_deletes_refl|]. intros o Ho (Hl & _).
    apply orb_true_iff in He. by destruct (list_unserved _ _ _ _ El He o Ho).
  - destruct (ExtractList L) as [e|items] eqn:Ex; [by split; [apply only_deletes_refl|]|].
    pose proof (list_stored _ _ _ _ _ El Ex) as Hin.
    pose proof (delete_items_run D uid items k k) as H.
    destruct (for_each items _ k) as [r k'].
    destruct H as (H1 & _ & H2); [|apply only_deletes_refl|].
    { intros o Ho Hop. apply Hin in Ho as (Hs & Hl & Hn). split; [done|]. by apply HD. }
    split; [done|]. destruct r; cbn in H2 |- *; [|done..].
    intros o Ho (Hl & Hn & Hop).
    destruct (only_deletes_shrinks _ _ _ H1 o Ho) as [Hs|]; [|done].
    eapply H2; [|done|exact Ho|done]. by apply Hin.
Qed.

Lemma lists_run D uid ls inns k :
  (∀ l o, l ∈ ls → operand_of uid l inns o → D o) →
  let '(r, k') := for_each ls (λ l, deleteOwnedFromList (U := U) uid l inns) k in
  only_deletes D k k' ∧ finished r (∀ l, l ∈ ls → cleaned (operand_of uid l inns) k').
Proof.
  revert k. induction ls as [|l ls IH]; intros k HD; cbn [for_each].
  { split; [apply only_deletes_refl|]. by intros l Hl%elem_of_nil. }
  pose proof (list_run D uid l inns k) as H1. unfold mbind, M_bind.
  destruct (deleteOwnedFromList uid l inns k) as [[[]|e|w] k1];
    (destruct H1 as [H1 C1]; [intros o; apply HD, list_elem_of_here|]); [|done..].
  specialize (IH k1). destruct (for_each ls _ k1) as [r k2]. destruct IH as [H2 C2].
  { intros l' o Hl'. by apply HD, list_elem_of_further. }
  split; [by eapply only_deletes_trans|]. destruct r; cbn in C1, C2 |- *; [|done..].
  intros l' [->|Hl']%elem_of_cons; [|auto].
  by eapply cleaned_lasts, only_deletes_shrinks.
Qed.

(** The operands of the resource with this identifier and this namespace. *)
Definition operand uid ns o : Prop :=
  is_operand uid o = true ∧
  (obj_list o ∈ clusterOwnedLists ∨
   ns ≠ "" ∧ obj_list o ∈ namespacedOwnedLists ∧ Namespace (obj_meta o) = ns).

Lemma delete_lists_run uid ns k :
  let '(r, k') := delete_lists (U := U) uid ns k in
  only_deletes (operand uid ns) k k' ∧ finished r (cleaned (operand uid ns) k').
Proof.
  unfold delete_lists.
  pose proof (λ k, lists_run (operand uid ns) uid clusterOwnedLists None k) as Hc.
  assert (∀ l o, l ∈ clusterOwnedLists → operand_of uid l None o → operand uid ns o) as HDc.
  { intros l o Hl (<- & _ & Hop). split; [done|by left]. }
  destruct (String.eqb_spec ns "") as [Hns|Hns].
  - rewrite bind_ret. specialize (Hc k HDc).
    destruct (for_each clusterOwnedLists _ k) as [r k']. destruct Hc as [H C].
    split; [done|]. destruct r; cbn in C |- *; [|done..].
    intros o Ho [Hop [Hl|[]]]; [|done]. by eapply C.
  - pose proof (lists_run (operand uid ns) uid namespacedOwnedLists (Some ns) k) as H1.
    unfold mbind, M_bind.
    destruct (for_each namespacedOwnedLists _ k) as [[[]|e|w] k1];
      (destruct H1 as [H1 C1]; [intros l o Hl (<- & Hn & Hop); split; [done|by right]|]); [|done..].
    specialize (Hc k1 HDc).
    destruct (for_each clusterOwnedLists _ k1) as [r k2]. destruct Hc as [H2 C2].
    split; [by eapply only_deletes_trans|]. destruct r; cbn in C1, C2 |- *; [|done..].
    intros o Ho [Hop [Hl|(_ & Hl & Hn)]]; [by eapply C2|].
    eapply (cleaned_lasts _ _ _ (C1 _ Hl)); [by eapply only_deletes_shrinks|done|done].
Qed.
End facts.

(** The pass over the cluster, as a relation: what is gone, what is kept. *)
Definition collected {K U} {KA : KubeAPI K} {OS : ObjectStore K} {FW : Framework K U}
    (r : res unit) (uid ns : string) (k k' : K) : Prop :=
  only_deletes (operand (K := K) (U := U) uid ns) k k' ∧
  finished r (cleaned (operand (K := K) (U := U) uid ns) k').

Lemma operands_run {K U} {KA : KubeAPI K} {OS : ObjectStore K} {FW : Framework K U}
    (s : State K U) :
  ∃ r k', deleteOwnedOperands s = (r, MkState (rr s) k' (os s) (filter_cache s)) ∧
    match Instance_ (rr s) with
    | Some (ARay ray) =>
        if HasClient (rr s) && negb (String.eqb (UID (ray_meta ray)) "")
        then collected (U := U) r (UID (ray_meta ray)) (ApplicationsNamespace (ray_spec ray))
               (cluster s) k'
        else r = Ok tt ∧ k' = cluster s
    | _ => r = Ok tt ∧ k' = cluster s
    end.
Proof.
  assert ((Ok tt, s) = (@Ok unit tt, MkState (rr s) (cluster s) (os s) (filter_cache s))) as Hsame
    by by destruct s.
  unfold deleteOwnedOperands. unfold mbind, M_bind, gets.
  destruct (HasClient (rr s)) eqn:Hc; cbn [negb andb];
    [|exists (Ok tt), (cluster s); split; [done|by destruct (Instance_ (rr s)) as [[]|]]].
  destruct (Instance_ (rr s)) as [[ray|]|]; [|by exists (Ok tt), (cluster s)..].
  destruct (String.eqb (UID (ray_meta ray)) ""); cbn [negb]; [by exists (Ok tt), (cluster s)|].
  rewrite with_client_eq by done. unfold on_cluster, zoom.
  set (uid := UID (ray_meta ray)). set (ns := ApplicationsNamespace (ray_spec ray)).
  pose proof (delete_lists_run (U := U) uid ns (cluster s)) as H.
  destruct (delete_lists uid ns (cluster s)) as [r k']. by exists r, k'.
Qed.

(** C10: the collection of the operands, against every API server that keeps the
    promises of [ObjectStore].  Without a client, an instance of the module or an
    identifier of the instance nothing happens.  Otherwise, whatever the outcome,
    only operands of this resource are deleted: every object that is not of a
    listed kind, or is in another namespace, or is neither owned by the resource
    nor labelled as part of the module, is still stored; and when the pass
    succeeds no operand is left, but for those that wait for their finalizers. *)
Theorem deleteOwnedOperands_spec {K U} {KA : KubeAPI K} {OS : ObjectStore K} {FW : Framework K U}
    (s : State K U) :
  ∃ r k', deleteOwnedOperands s = (r, MkState (rr s) k' (os s) (filter_cache s)) ∧
    match Instance_ (rr s) with
    | Some (ARay ray) =>
        if HasClient (rr s) && negb (String.eqb (UID (ray_meta ray)) "")
        then collected (U := U) r (UID (ray_meta ray)) (ApplicationsNamespace (ray_spec ray))
               (cluster s) k'
        else r = Ok tt ∧ k' = cluster s
    | _ => r = Ok tt ∧ k' = cluster s
    end.
Proof. apply operands_run. Qed.

(** *** The cluster in memory keeps the promises *)

Lemma fk_object_eq i k o : fk_object i k = Some o ↔ fk_objects k !! i = Some o ∧ identity o = i.
Proof.
  unfold fk_object. split.
  - intros (x & Hx & Hi)%bind_Some. case_decide; naive_solver.
  - intros [Hx Hi]. rewrite Hx. cbn. by rewrite decide_True.
Qed.

Lemma elem_of_fk_list l ns k o :
  o ∈ fk_list l ns k ↔ fk_object (identity o) k = Some o ∧ listed l ns o.
Proof.
  unfold fk_list. rewrite list_elem_of_filter, list_elem_of_omap. split.
  - intros (Hl & [i x] & _ & Hx). cbn in Hx. pose proof Hx as [_ <-]%fk_object_eq. done.
  - intros (Ho & Hl). split; [done|]. pose proof Ho as [Hm _]%fk_object_eq.
    exists (identity o, o). by rewrite elem_of_map_to_list.
Qed.

Lemma fk_object_set i k m : fk_object i (fk_set_objects m k) =
  (o ← m !! i; if decide (identity o = i) then Some o else None).
Proof. done. Qed.

#[export] Instance fake_objects : ObjectStore Fake.
Proof.
  refine {| stored := λ k o, fk_object (identity o) k = Some o |};
    cbn [ListObjects ExtractList Delete fake_api ObjectList].
  - intros k o o' Ho Ho' Hi. congruence.
  - intros l ns k r items Hr [= <-] o. unfold guarded in Hr.
    destruct (fk_down k); simplify_eq. rewrite list_elem_of_fmap. setoid_rewrite elem_of_fk_list.
    unfold listed, in_namespace. split; [intros (? & [= <-] & ?); tauto|]. intros. exists o. tauto.
  - intros l ns k e. unfold guarded. destruct (fk_down k); [|done]. by intros [= <-].
  - intros l ns k e. unfold guarded. destruct (fk_down k); [|done]. by intros [= <-] [].
  - intros o p k k'. unfold fk_delete. pose proof (guarded_found k (fk_object (identity o) k)) as Hg.
    destruct (guarded k _) as [|x]; [done|]. intros [= <-].
    pose proof Hg as [Hx Hi]%fk_object_eq. split.
    + intros o' Ho' Hid. rewrite fk_object_set in Ho'. rewrite Hid in Ho'.
      destruct (Finalizers (obj_meta x)) as [|f fl] eqn:Hf.
      * by rewrite lookup_delete_eq in Ho'.
      * rewrite lookup_insert_eq in Ho'. cbn in Ho'. case_decide; simplify_eq.
        split; cbn; [done|by rewrite Hf].
    + intros o' Hne. rewrite fk_object_set. unfold fk_object.
      destruct (Finalizers (obj_meta x)); by rewrite ?lookup_delete_ne, ?lookup_insert_ne.
  - intros o p k e k'. unfold fk_delete.
    pose proof (guarded_found k (fk_object (identity o) k)) as Hg.
    destruct (guarded k _); [|done]. intros [= <- <-]. split; [done|].
    intros He o' Ho' Hid. rewrite Hid, Hg in Ho' by done. done.
Defined.

(** An operand whose label was dropped, one that is only labelled, one that waits
    for a finalizer, and a configuration that is nobody's. *)
Definition an_object (l : ListKind) (ns n : string) (owned labelled held : bool) : Object :=
  Build_Object l
    (Build_ObjectMeta n ns (ns +:+ "/" +:+ n)
      (if labelled then Some {["platform.opendatahub.io/part-of" := "ray"]} else None)
      (if owned then [Build_OwnerReference "Ray" "default-ray" "uid-1"] else [])
      (if held then ["kuberay/finalizer"] else []) 1 None).

Definition put_objects (l : list Object) (k : Fake) : Fake :=
  fk_set_objects (list_to_map (map (λ o, (identity o, o)) l)) k.

Definition gc_objects : list Object :=
  [an_object DeploymentList "apps" "kuberay-operator" true false false;
   an_object MutatingWebhookConfigurationList "" "ray-webhook" false true false;
   an_object ServiceList "apps" "ray-service" true true true;
   an_object ConfigMapList "apps" "user-config" false false false;
   an_object DeploymentList "other" "kuberay-operator" true true false].

Definition gc_state : State Fake Obj :=
  sample_state (sample_ray Removed "apps") (put_objects gc_objects empty_fake) (boot ∅ ∅).

Definition gc_run : res unit * State Fake Obj :=
  deleteOwnedOperands (FW := fake_framework (λ _, [])) gc_state.

Example gc_run_ex :
  (gc_run.1, (map (λ e, (e.1.1.2, e.1.2)) (map_to_list (fk_objects (cluster gc_run.2)))))
  = (Ok tt, [("other", "kuberay-operator"); ("apps", "ray-service"); ("apps", "user-config")]).
Proof. vm_compute. reflexivity. Qed.

Lemma deleteOwnedOperands_spec_witness :
  gc_run.1 = Ok tt ∧ cleaned (operand (FW := fake_framework (λ _, [])) "uid-1" "apps") (cluster gc_run.2).
Proof.
  assert (gc_run.1 = Ok tt) as Hok by (vm_compute; reflexivity).
  destruct (deleteOwnedOperands_spec (FW := fake_framework (λ _, [])) gc_state) as (r & k & E & H).
  fold gc_run in E. rewrite E in Hok |- *. cbn [fst snd cluster] in Hok |- *. subst r.
  split; [reflexivity|]. exact (proj2 H).
Defined.
