(* ===== verification/Controller.v ===== *)
(** * The reconciler: [internal/controller/ray_controller.go]

    The actions of this file, and the pipeline [SetupWithManager] builds from
    all of them.  The framework runs the pipeline; its own actions (deploy,
    deployment status, garbage collection) are parameters. *)
From S2P Require Import Prelude GoStrings OS API Kube Fake ParamsFile Overlay Params.
From S2P Require Import PlatformConfig Releases Status Render PlatformFilter Dependencies NotebookRBAC OwnedGC.

(** ** Events *)

(** The zero [time.Time], in seconds of the Unix clock. *)
Definition zero_time : Z := -62135596800.

Definition IsZero (t : option Z) : bool :=
  match t with None => true | Some z => (z =? zero_time)%Z end.

Inductive Event :=
  | CreateEvent (obj : ObjectMeta)
  | UpdateEvent (objectOld objectNew : option ObjectMeta)
  | DeleteEvent (obj : ObjectMeta)
  | GenericEvent (obj : ObjectMeta).

(** [predicate.Funcs] lets through the events it has no function for. *)
Definition deletionTimestampSetPredicate (e : Event) : bool :=
  match e with
  | UpdateEvent (Some old) (Some new) =>
      IsZero (DeletionTimestamp old) && negb (IsZero (DeletionTimestamp new))
  | UpdateEvent _ _ => false
  | _ => true
  end.

(** ** Actions *)

Section actions.
Context {K U : Type} {KA : KubeAPI K} {UN : Unstructured U} {FW : Framework K U}.

Definition namespaceFn : Getter U string := λ r,
  match instance_ray r with
  | Ok ray => Ok (ApplicationsNamespace (ray_spec ray))
  | Err e => Err e
  | Panic w => Panic w
  end.

(** The errors of the update are looked at and not reported. *)
Definition waitForNamespace : M (State K U) bool :=
  ray ← on_rr the_ray;
  if negb (String.eqb (ApplicationsNamespace (ray_spec ray)) "") then mret false
  else
    let '(f, updated) := RemoveFinalizer (K := K) FinalizerName (Finalizers (ray_meta ray)) in
    let ray := set_ray_meta (set_Finalizers f (ray_meta ray)) ray in
    modify_rr (set_ray ray) ;;
    if (updated : bool) then
      r ← with_client (call (UpdateRay ray));
      match r with
      | inr ray' => modify_rr (set_ray ray') ;; mret true
      | inl e => if negb (IsConflict e) && negb (IsNotFound e) then mret true else mret true
      end
    else mret true.

Definition always : Request U → U → error + bool := λ _ _, inr true.

Definition reconcileGCAction (nsFn : Getter U string) : Action K U :=
  let bg := WithDeletePropagationPolicy Background in
  let managedGC := GC_NewAction (K := K) nsFn [bg] in
  let removedGC := GC_NewAction (K := K) nsFn [bg; WithOnlyCollectOwned false; WithObjectPredicate always] in
  r ← gets rr;
  if removed r then deleteOwnedOperands ;; removedGC else managedGC.

Definition deletionCleanupAction (nsFn : Getter U string) : Action K U :=
  let gcFn := GC_NewAction (K := K) nsFn
    [WithDeletePropagationPolicy Background; WithOnlyCollectOwned false; WithObjectPredicate always] in
  ns ← on_rr (get_with nsFn);
  if String.eqb ns "" then mret tt
  else
    deleteNotebookClusterRole ;;
    modify_rr (set_Generated true) ;;
    gcFn ;;
    deleteOwnedOperands.

Definition managementStateAction : Action K U :=
  on_rr ext_init ;;
  ray ← on_rr the_ray;
  if String.eqb (ManagementState (ray_spec ray)) Removed then
    on_rr (ext_set ExtKeyRemoved (AnyBool true)) ;;
    modify_rr (set_Generated true)
  else on_rr (ext_set ExtKeyRemoved (AnyBool false)).

Definition manifestInitAction : Action K U :=
  r ← gets rr;
  if removed r then modify_rr (λ r, set_Resources [] (set_Manifests [] r))
  else modify_rr (set_Manifests [Build_ManifestInfo ManifestPath ManifestOverlay ""]).

Definition deploymentStatusAction (nsFn : Getter U string) : Action K U :=
  let fwAction := Deployments_NewAction (K := K) nsFn in
  r ← gets rr;
  if removed r then
    on_rr (update_conditions (MarkTrue (K := K) (U := U) ConditionDeploymentsAvailable
      [WithReason "RemovedComponent"; WithMessage "Component has been removed"]))
  else fwAction.
End actions.

(** ** The pipeline *)

(** What [SetupWithManager] hands to the builder of the framework. *)
Record Setup (K U : Type) := {
  su_Predicate : Event → bool;
  su_InstanceName : string;
  su_Conditions : list string;
  su_DynamicOwnership : bool;
  su_WatchMapper : ObjectMeta → M K (list NamespacedName);
  su_WatchPredicate : ObjectMeta → bool;
  su_Release : string;
  su_FinalizerName : string;
  su_PreApply : M (State K U) bool;
  su_PreApplyFailedReason : string;
  su_Actions : list (Action K U);
  su_Finalizer : Action K U;
}.
Arguments su_Predicate {K U}.
Arguments su_InstanceName {K U}.
Arguments su_Conditions {K U}.
Arguments su_FinalizerName {K U}.
Arguments su_WatchMapper {K U}.
Arguments su_WatchPredicate {K U}.
Arguments su_PreApply {K U}.
Arguments su_Actions {K U}.
Arguments su_Finalizer {K U}.

Section setup.
Context {K U : Type} {KA : KubeAPI K} {UN : Unstructured U} {FW : Framework K U}
  {SV : Semver} {MR : MapRange}.

(** The actions before the deployment, in their order. *)
Definition prepare_actions (manifestsBasePath : string) : list (Action K U) :=
  [managementStateAction;
   releasesAction manifestsBasePath;
   manifestInitAction;
   applyImageParamsAction manifestsBasePath;
   RenderKustomize manifestsBasePath namespaceFn;
   certManagerRequirementAction;
   filterPlatformResources;
   notebookClusterRoleAction].

Definition deployAction : Action K U :=
  Deploy_NewAction [WithFieldOwner FieldOwner; WithPartOfLabelDefault ComponentName; WithApplyOrder].

(** The actions after it. *)
Definition report_actions (manifestsBasePath : string) : list (Action K U) :=
  [deploymentStatusAction namespaceFn;
   distributionAction manifestsBasePath;
   platformReleaseAction;
   degradedAction;
   observedGenerationAction;
   reconcileGCAction namespaceFn].

Definition SetupWithManager (DefaultPredicate : Event → bool) (manifestsBasePath : string)
    : Setup K U := {|
  su_Predicate := λ e, DefaultPredicate e || deletionTimestampSetPredicate e;
  su_InstanceName := InstanceName;
  su_Conditions :=
    [ConditionTypeProvisioningSucceeded (K := K) (U := U); ConditionDeploymentsAvailable];
  su_DynamicOwnership := true;
  su_WatchMapper := platformConfigMapper;
  su_WatchPredicate := platformConfigPredicate;
  su_Release := "opendatahub";
  su_FinalizerName := FinalizerName;
  su_PreApply := waitForNamespace;
  su_PreApplyFailedReason := "ApplicationsNamespaceNotProjected";
  su_Actions := prepare_actions manifestsBasePath ++ deployAction :: report_actions manifestsBasePath;
  su_Finalizer := deletionCleanupAction namespaceFn;
|}.
End setup.

(** How the framework runs the actions: in their order, up to the first that
    does not succeed. *)
Class Reconciler (K U : Type) := {
  run_actions : list (Action K U) → Action K U;
  run_actions_nil s : run_actions [] s = (Ok tt, s);
  run_actions_cons a l s : run_actions (a :: l) s = (a ;; run_actions l) s;
}.

(** * Properties *)

(** ** Running the pipeline *)

Section runner.
Context {K U : Type} {RC : Reconciler K U}.

Lemma run_actions_app l l' s : run_actions (l ++ l') s = (run_actions l ;; run_actions l') s.
Proof.
  revert s. induction l as [|a l IH]; intros s; cbn [app].
  - unfold mbind, M_bind. by rewrite run_actions_nil.
  - rewrite run_actions_cons. unfold mbind, M_bind. rewrite run_actions_cons.
    unfold mbind, M_bind. destruct (a s) as [[[]|e|w] s1]; [|done..]. apply IH.
Qed.
End runner.

(** The runner there is, for the examples. *)
#[export] Instance in_order {K U} : Reconciler K U.
Proof. refine {| run_actions := λ l, for_each l id |}; reflexivity. Defined.

(** ** No panic

    A request the framework hands to the actions has a client, and the module's
    resource as its instance; once the extensions were made they stay. *)
Section respect.
Context {K U : Type} (x : bool).
Implicit Types s : State K U.

Definition well_formed s : Prop :=
  HasClient (rr s) = true ∧ ∃ ray, Instance_ (rr s) = Some (ARay ray).

(** With [x], the extensions were made. *)
Definition initialised s : Prop := well_formed s ∧ (x = true → is_Some (Extensions (rr s))).

Definition respects {A} (m : M (State K U) A) : Prop :=
  ∀ s, initialised s →
    match (m s).1 with Panic _ => False | _ => True end ∧ initialised (m s).2.

Lemma respects_ret {A} (a : A) : respects (mret a).
Proof. by intros s. Qed.

Lemma respects_fail {A} e : respects (@fail _ A e).
Proof. by intros s. Qed.

Lemma respects_gets {A} (f : State K U → A) : respects (gets f).
Proof. by intros s. Qed.

Lemma respects_bind {A B} (m : M (State K U) A) (f : A → M (State K U) B) :
  respects m → (∀ a, respects (f a)) → respects (m ≫= f).
Proof.
  intros Hm Hf s Hs. unfold mbind, M_bind. destruct (Hm s Hs) as [H1 H2].
  destruct (m s) as [[a|e|w] s']; [by apply Hf|done..].
Qed.

Lemma respects_wrapping {A} f args (m : M (State K U) A) : respects m → respects (wrapping f args m).
Proof.
  intros Hm s Hs. unfold wrapping. destruct (Hm s Hs) as [H1 H2]. by destruct (m s) as [[]].
Qed.

Lemma respects_for_each {A} (l : list A) (f : A → Action K U) :
  (∀ y, respects (f y)) → respects (for_each l f).
Proof.
  intros Hf. induction l as [|y l IH]; [apply respects_ret|]. by apply respects_bind.
Qed.

Lemma respects_on_os {A} (m : M OS A) : safe m → respects (on_os m).
Proof.
  intros Hm s Hs. rewrite on_os_eq. specialize (Hm (os s)). by destruct (m (os s)) as [[] o].
Qed.

Lemma respects_with_client {A} (m : M K A) : safe m → respects (with_client m).
Proof.
  intros Hm s Hs. pose proof Hs as [[Hc _] _]. rewrite with_client_eq by done.
  unfold on_cluster, zoom. specialize (Hm (cluster s)). by destruct (m (cluster s)) as [[] k].
Qed.

(** What a step may do to the request. *)
Definition tame (f : Request U → Request U) : Prop :=
  ∀ r, HasClient (f r) = HasClient r ∧
    (is_Some (Extensions r) → is_Some (Extensions (f r))) ∧
    (∀ ray, Instance_ r = Some (ARay ray) → ∃ ray', Instance_ (f r) = Some (ARay ray')).

Lemma respects_modify_rr f : tame f → respects (modify_rr f).
Proof.
  intros Hf s [[Hc [ray Hi]] He]. rewrite modify_rr_eq. split; [done|].
  destruct (Hf (rr s)) as (Hc' & He' & Hi'). split; [|intros Hx; by apply He', He].
  split; [cbn; congruence|]. by eapply Hi'.
Qed.

Lemma respects_the_ray : respects (on_rr the_ray).
Proof. intros s Hs. pose proof Hs as [[_ [ray Hi]] _]. by rewrite (on_rr_the_ray s ray Hi). Qed.

Lemma respects_conditions : respects (on_rr instance_conditions).
Proof.
  intros s Hs. pose proof Hs as [[_ [ray Hi]] _].
  by rewrite (instance_conditions_ray s ray Hi).
Qed.

Lemma respects_generation : respects (on_rr instance_generation).
Proof.
  intros s Hs. pose proof Hs as [[_ [ray Hi]] _]. destruct s as [r k o c].
  unfold on_rr, zoom, instance_generation. cbn in *. by rewrite Hi.
Qed.

Lemma respects_update_status f : respects (on_rr (update_status f)).
Proof.
  intros s Hs. pose proof Hs as [[Hc [ray Hi]] He]. destruct s as [r k o c].
  unfold on_rr, zoom, update_status. cbn in *. rewrite Hi. cbn.
  split; [done|]. split; [split; [done|by eexists]|done].
Qed.

Lemma tame_ext_init : tame (λ r, match Extensions r with Some _ => r | None => set_Extensions (Some ∅) r end).
Proof. intros r. destruct (Extensions r) eqn:E; split_and!; eauto. Qed.

Lemma respects_ext_init : respects (on_rr ext_init).
Proof. apply respects_modify_rr, tame_ext_init. Qed.

Lemma respects_ext_set k v : x = true → respects (on_rr (ext_set k v)).
Proof.
  intros Hx s Hs. pose proof Hs as [[Hc [ray Hi]] He]. destruct (He Hx) as [m Hm].
  destruct s as [r kk o c]. unfold on_rr, zoom, ext_set. cbn in *. rewrite Hm. cbn.
  split; [done|]. split; [split; [done|by exists ray]|by eexists].
Qed.

Lemma tame_set_ray ray : tame (set_ray ray).
Proof. intros r. split_and!; [done..|]. by eexists. Qed.

Lemma tame_set_Resources (f : Request U → list U) : tame (λ r, set_Resources (f r) r).
Proof. intros r. split_and!; [done..|]. by eexists. Qed.

Lemma tame_set_Generated b : tame (set_Generated b).
Proof. intros r. split_and!; [done..|]. by eexists. Qed.

Lemma tame_set_Manifests m : tame (set_Manifests m).
Proof. intros r. split_and!; [done..|]. by eexists. Qed.

Lemma tame_reset (m : list ManifestInfo) l : tame (λ r, set_Resources l (set_Manifests m r)).
Proof. intros r. split_and!; [done..|]. by eexists. Qed.
End respect.

Create HintDb respects.
#[export] Hint Resolve respects_ret respects_fail respects_gets respects_the_ray
  respects_conditions respects_generation respects_update_status respects_ext_init
  respects_ext_set tame_set_ray tame_set_Resources tame_set_Generated tame_set_Manifests
  tame_reset : respects.

(** Decomposes a goal [respects m] along the operations of [m]. *)
Ltac respect :=
  repeat first
    [ progress intros
    | solve [eauto 2 with respects]
    | apply respects_on_os; solve [eauto 3 with safe | no_panic]
    | apply respects_with_client; solve [eauto 3 with safe | no_panic]
    | apply respects_bind | apply respects_wrapping | apply respects_for_each
    | apply respects_modify_rr
    | case_match ].

Lemma safe_call {S A} (f : S → A * S) : safe (call f).
Proof. intros s. unfold call. by destruct (f s). Qed.

Lemma safe_of_sum {S A} (f : S → error + A) : safe (λ s, of_sum (f s) s).
Proof. intros s. by destruct (f s). Qed.
#[export] Hint Resolve safe_call safe_of_sum : safe.

(** *** The machine *)

Section machine.
Context {MR : MapRange}.

Lemma safe_override_images images keys acc : safe (override_images images keys acc).
Proof. revert acc. induction keys as [|k keys IH]; intros acc; cbn; no_panic. Qed.

Lemma safe_override_extras maps acc : safe (override_extras maps acc).
Proof.
  revert acc. induction maps as [|m maps IH]; intros acc; cbn; [apply safe_ret|].
  apply safe_bind; [apply safe_gets|]. auto.
Qed.

Lemma safe_or_remove {A} tmp (m : M OS A) : safe m → safe (or_remove tmp m).
Proof. intros Hm. unfold or_remove. no_panic. Qed.

Lemma safe_write_params tmp f entries : safe (write_params tmp f entries).
Proof.
  unfold write_params. apply safe_bind; [|intros _; apply safe_bind; [|intros _]];
    apply safe_or_remove; no_panic.
Qed.

Lemma safe_applyParams cp images extras : safe (applyParams cp images extras).
Proof.
  unfold applyParams. apply safe_bind; [apply safe_attempt, safe_parseParams|].
  intros [e|m]; [no_panic|]. apply safe_bind; [apply safe_gets|]. intros keys.
  apply safe_bind; [apply safe_override_images|]. intros acc.
  apply safe_bind; [apply safe_override_extras|]. intros acc'.
  case_match; [apply safe_ret|]. apply safe_bind; [apply safe_CreateTemp|]. intros tmp.
  apply safe_bind; [apply safe_gets|]. intros entries. apply safe_write_params.
Qed.

Lemma safe_setOverlayNamespace d ns : safe (setOverlayNamespace d ns).
Proof. unfold setOverlayNamespace. no_panic. Qed.

Lemma safe_writableManifestsBase base : safe (writableManifestsBase base).
Proof. unfold writableManifestsBase, copyDir. no_panic. Qed.
End machine.

Lemma safe_resolveKubeRayVersion base : safe (resolveKubeRayVersion base).
Proof. intros o. by destruct (resolveKubeRayVersion_run base o) as (v & o' & -> & _). Qed.
#[export] Hint Resolve safe_applyParams safe_setOverlayNamespace safe_writableManifestsBase
  safe_resolveKubeRayVersion : safe.

(** *** The actions *)

(** What is asked of the framework's code: its actions respect the request, with
    any getter that answers on a well-formed one, and the engine does not panic. *)
Class RespectfulFramework (K U : Type) {FW : Framework K U} := {
  gc_respects x nsFn opts : (∀ r ray, Instance_ r = Some (ARay ray) → is_ok (nsFn r) = true) →
    respects x (GC_NewAction (K := K) (U := U) nsFn opts);
  deploy_respects x opts : respects x (Deploy_NewAction (K := K) (U := U) opts);
  deployments_respects x nsFn :
    (∀ r ray, Instance_ r = Some (ARay ray) → is_ok (nsFn r) = true) →
    respects x (Deployments_NewAction (K := K) (U := U) nsFn);
  engine_safe path ns : safe (Engine_Render (K := K) (U := U) path ns);
}.
#[export] Hint Resolve engine_safe : safe.
#[export] Hint Resolve deploy_respects : respects.

Section no_panic.
Context {K U : Type} {KA : KubeAPI K} {UN : Unstructured U} {FW : Framework K U}
  {SV : Semver} {MR : MapRange} {RF : RespectfulFramework K U}.
Implicit Types (s : State K U) (x : bool).

Lemma namespaceFn_ok (r : Request U) ray :
  Instance_ r = Some (ARay ray) → namespaceFn r = Ok (ApplicationsNamespace (ray_spec ray)).
Proof. intros Hi. unfold namespaceFn, instance_ray. by rewrite Hi. Qed.

Lemma namespaceFn_is_ok (r : Request U) ray : Instance_ r = Some (ARay ray) → is_ok (namespaceFn r) = true.
Proof. intros Hi. by rewrite (namespaceFn_ok r ray Hi). Qed.

Lemma respects_namespaceFn x : respects (K := K) x (on_rr (get_with (U := U) namespaceFn)).
Proof.
  intros s Hs. pose proof Hs as [[_ [ray Hi]] _]. destruct s as [r k o c].
  unfold on_rr, zoom, get_with. cbn in *. by rewrite (namespaceFn_ok r ray Hi).
Qed.

Lemma respects_readDistribution x ns : respects (K := K) (U := U) x (readPlatformDistribution ns).
Proof. unfold readPlatformDistribution. respect. Qed.

Lemma respects_readVersion x ns : respects (K := K) (U := U) x (readPlatformVersion ns).
Proof. unfold readPlatformVersion. respect. Qed.

Lemma respects_deleteRole x : respects (K := K) (U := U) x deleteNotebookClusterRole.
Proof. unfold deleteNotebookClusterRole, clear_owners. respect. Qed.

Lemma safe_delete_lists uid ns : safe (S := K) (delete_lists (U := U) uid ns).
Proof. unfold delete_lists, deleteOwnedFromList, delete_item. no_panic. Qed.

#[local] Hint Resolve safe_delete_lists : safe.

Lemma respects_deleteOperands x : respects (K := K) (U := U) x deleteOwnedOperands.
Proof. unfold deleteOwnedOperands. respect. Qed.

Lemma respects_check_once x : respects (K := K) (U := U) x check_once.
Proof.
  unfold check_once. apply respects_bind; [apply respects_gets|]. intros c.
  case_match; [apply respects_ret|].
  apply respects_bind; [by intros [r k o fc]|]. intros err [r k o fc]. by run.
Qed.

#[local] Hint Resolve respects_namespaceFn respects_readDistribution respects_readVersion
  respects_deleteRole respects_deleteOperands respects_check_once : respects.

Lemma respects_gc x opts : respects x (GC_NewAction (K := K) (U := U) namespaceFn opts).
Proof. apply gc_respects, namespaceFn_is_ok. Qed.

Lemma respects_deployments x : respects x (Deployments_NewAction (K := K) (U := U) namespaceFn).
Proof. apply deployments_respects, namespaceFn_is_ok. Qed.
#[local] Hint Resolve respects_gc respects_deployments : respects.

Lemma respects_prepare base a :
  a ∈ tail (prepare_actions (K := K) (U := U) base) → respects true a.
Proof.
  unfold prepare_actions. cbn [tail].
  rewrite !elem_of_cons, elem_of_nil. intros [->|[->|[->|[->|[->|[->|[->|[]]]]]]]].
  - unfold releasesAction. respect.
  - unfold manifestInitAction. respect.
  - unfold applyImageParamsAction. respect.
  - unfold RenderKustomize, render_manifest. respect.
  - unfold certManagerRequirementAction, check_crd. respect.
  - unfold filterPlatformResources. respect.
  - unfold notebookClusterRoleAction, applyNotebookClusterRole. respect.
Qed.

Lemma respects_report x base a :
  a ∈ report_actions (K := K) (U := U) base → respects x a.
Proof.
  unfold report_actions.
  rewrite !elem_of_cons, elem_of_nil. intros [->|[->|[->|[->|[->|[->|[]]]]]]].
  - unfold deploymentStatusAction, update_conditions. respect.
  - unfold distributionAction, upgrade. respect.
  - unfold platformReleaseAction. respect.
  - unfold degradedAction, update_conditions. respect.
  - unfold observedGenerationAction. respect.
  - unfold reconcileGCAction. respect.
Qed.

Lemma respects_run {RC : Reconciler K U} x (l : list (Action K U)) :
  (∀ a, a ∈ l → respects x a) → respects x (run_actions l).
Proof.
  induction l as [|a l IH]; intros Hl s Hs; [by rewrite run_actions_nil|].
  rewrite run_actions_cons. apply respects_bind; [apply Hl, list_elem_of_here| |done].
  intros _. apply IH. intros b Hb. by apply Hl, list_elem_of_further.
Qed.

(** The first action makes the extensions. *)
Lemma managementState_run s ray :
  Instance_ (rr s) = Some (ARay ray) →
  let rm := String.eqb (ManagementState (ray_spec ray)) Removed in
  let ext := <[ExtKeyRemoved := AnyBool rm]> (default ∅ (Extensions (rr s))) in
  managementStateAction s =
    (Ok tt, MkState (set_Generated (rm || Generated (rr s)) (set_Extensions (Some ext) (rr s)))
              (cluster s) (os s) (filter_cache s)).
Proof.
  intros Hi. destruct s as [[hc i e g ms rs] k o c]. cbn in Hi. subst i.
  unfold managementStateAction, on_rr, zoom, ext_init, ext_set, the_ray, instance_ray. run.
  destruct e as [m|]; cbn; destruct (String.eqb (ManagementState (ray_spec ray)) Removed); done.
Qed.

Lemma managementState_initialises s :
  well_formed s →
  (managementStateAction s).1 = Ok tt ∧ initialised true (managementStateAction s).2.
Proof.
  intros [Hc [ray Hi]]. rewrite (managementState_run s ray Hi). split; [done|].
  split; [split; [done|by exists ray]|by eexists].
Qed.

Lemma respects_waitForNamespace x : respects x (waitForNamespace (K := K) (U := U)).
Proof. unfold waitForNamespace. respect. Qed.

Lemma respects_cleanup x : respects x (deletionCleanupAction (K := K) namespaceFn).
Proof. unfold deletionCleanupAction. respect. Qed.

(** A computation that respects requests as a pass of the reconciler. *)
Definition robust {A} (m : M (State K U) A) s : Prop :=
  match (m s).1 with Panic _ => False | _ => True end ∧ well_formed (m s).2.

Lemma respects_robust {A} x (m : M (State K U) A) s :
  respects x m → initialised x s → robust m s.
Proof. intros Hm Hs. destruct (Hm s Hs) as [? [? _]]. by split. Qed.

Lemma pipeline_robust {RC : Reconciler K U} p base s :
  well_formed s → robust (run_actions (su_Actions (SetupWithManager p base))) s.
Proof.
  intros Hs. unfold robust. cbn [SetupWithManager su_Actions prepare_actions app].
  rewrite run_actions_cons. unfold mbind, M_bind.
  destruct (managementState_initialises s Hs) as [H1 H2].
  destruct (managementStateAction s) as [r s1]. cbn in H1, H2. subst r.
  apply (respects_robust true); [|done]. apply respects_run. intros a Ha.
  change (a ∈ tail (prepare_actions (K := K) (U := U) base) ++ deployAction :: report_actions base) in Ha.
  apply elem_of_app in Ha as [Ha|[->|Ha]%elem_of_cons].
  - by eapply respects_prepare.
  - apply deploy_respects.
  - by eapply respects_report.
Qed.
End no_panic.

(** C14: nothing the module runs can panic.  On every well-formed request, one with
    a client and with the module's resource as its instance, whatever the cluster,
    the files and the failing calls: the condition that waits for the namespace,
    every pass of the pipeline, up to its first error or to its end, and the
    finalizer end with a result or an error, and leave the request well-formed;
    provided the actions of the framework and the engine do. *)
Theorem SetupWithManager_no_panic {K U} {KA : KubeAPI K} {UN : Unstructured U}
    {FW : Framework K U} {SV : Semver} {MR : MapRange} {RC : Reconciler K U}
    {RF : RespectfulFramework K U} p base (s : State K U) :
  well_formed s →
  let su := SetupWithManager p base in
  robust (su_PreApply su) s ∧ robust (run_actions (su_Actions su)) s ∧ robust (su_Finalizer su) s.
Proof.
  intros Hs su. split_and!.
  - by apply (respects_robust false); [apply respects_waitForNamespace|].
  - by apply pipeline_robust.
  - by apply (respects_robust false); [apply respects_cleanup|].
Qed.

#[export] Instance fake_respectful rendered :
  RespectfulFramework Fake Obj (FW := fake_framework rendered).
Proof. split; intros; first [apply respects_ret|apply safe_ret]. Defined.

Definition pipeline_setup : Setup Fake Obj :=
  SetupWithManager (FW := fake_framework (λ _, rendered_sample)) (SV := any_version)
    (MR := canonical_range) (λ _, false) "/opt/manifests".

Definition pipeline_state (state ns : string) (k : Fake) : State Fake Obj :=
  sample_state (sample_ray state ns) k (boot ∅ ∅).

Lemma SetupWithManager_no_panic_witness :
  robust (run_actions (su_Actions pipeline_setup)) (pipeline_state Removed "apps" empty_fake).
Proof.
  refine (proj1 (proj2 (SetupWithManager_no_panic (FW := fake_framework (λ _, rendered_sample))
    (SV := any_version) (MR := canonical_range) (λ _, false) "/opt/manifests"
    (pipeline_state Removed "apps" empty_fake) _))).
  split; [reflexivity|by eexists].
Defined.

(** ** What reaches the deployment *)

Section prepared.
Context {K U : Type} {KA : KubeAPI K} {RS : RoleStore K} {UN : Unstructured U}
  {UL : UnstructuredLaws U} {FW : Framework K U} {MR : MapRange} {RC : Reconciler K U}.
Implicit Types s : State K U.

Lemma run_cons_Ok (a : Action K U) l s s' :
  run_actions (a :: l) s = (Ok tt, s') →
  ∃ s1, a s = (Ok tt, s1) ∧ run_actions l s1 = (Ok tt, s').
Proof.
  rewrite run_actions_cons. intros ([] & s1 & H1 & H2)%bind_Ok_inv. eauto.
Qed.

Lemma removed_lookup (r r' : Request U) :
  ext_lookup ExtKeyRemoved r = ext_lookup ExtKeyRemoved r' → removed r = removed r'.
Proof. unfold removed. by intros ->. Qed.

Lemma removed_image_params (o : OS) (r : Request U) : removed (image_params_rr o r) = removed r.
Proof.
  apply removed_lookup. unfold image_params_rr, ext_lookup. cbn.
  rewrite lookup_insert_ne by done. by destruct (Extensions r).
Qed.

(** An object that may be deployed in a namespace, on a cluster with these
    definitions, and with or without security context constraints. *)
Definition deployable (ns : string) (k : K) (sccs : bool) (u : U) : Prop :=
  (GetNamespace u = "" ∨ ns = "" ∨ GetNamespace u = ns) ∧
  (GetKind u ≠ "CustomResourceDefinition" →
     ∃ labels, GetLabels u = Some labels ∧
       labels !! DefaultPartOfLabelKey (K := K) (U := U) = Some ComponentName) ∧
  (GVKOf u ∈ certManagerGVKs → installed k (GVKOf u)) ∧
  (is_scc u = true → sccs = true).

Lemma conforms_deployable ns u v :
  conforms (K := K) ns u v →
  (GetNamespace v = "" ∨ ns = "" ∨ GetNamespace v = ns) ∧
  (GetKind v ≠ "CustomResourceDefinition" →
     ∃ labels, GetLabels v = Some labels ∧
       labels !! DefaultPartOfLabelKey (K := K) (U := U) = Some ComponentName).
Proof.
  intros (_ & Hk & Hn & Hl). split.
  - rewrite Hn. destruct (String.eqb_spec ns "") as [->|]; cbn [orb]; [by right; left|].
    destruct (String.eqb_spec (GetNamespace u) ""); [by left|by right; right].
  - intros Hne. rewrite Hk in Hne. destruct (String.eqb_spec (GetKind u) "CustomResourceDefinition"); [done|].
    rewrite Hl. eexists. split; [done|]. apply lookup_insert_eq.
Qed.

(** The first half: the request is initialised and the overlay written. *)
Lemma request_run base s s' ray :
  HasClient (rr s) = true → Instance_ (rr s) = Some (ARay ray) →
  ManagementState (ray_spec ray) ≠ Removed → Resources (rr s) = [] →
  run_actions [managementStateAction; releasesAction base; manifestInitAction;
               applyImageParamsAction base] s = (Ok tt, s') →
  ∃ l, kuberay_releases l ∧ Instance_ (rr s') = Some (ARay (SetReleaseStatus l ray)) ∧
    HasClient (rr s') = true ∧ removed (rr s') = false ∧ Resources (rr s') = [] ∧
    Manifests (rr s') = [Build_ManifestInfo ManifestPath ManifestOverlay ""] ∧
    cluster s' = cluster s ∧ filter_cache s' = filter_cache s.
Proof.
  intros Hc Hi Hm Hr Hrun.
  apply run_cons_Ok in Hrun as (s1 & E1 & Hrun).
  rewrite (managementState_run s ray Hi), (proj2 (String.eqb_neq _ _) Hm) in E1.
  injection E1 as <-. set (s1 := MkState _ _ _ _) in Hrun.
  assert (removed (rr s1) = false) as Hr1.
  { unfold removed, ext_lookup. cbn. by rewrite lookup_insert_eq. }
  apply run_cons_Ok in Hrun as (s2 & E2 & Hrun).
  destruct (releasesAction_run base s1 ray Hi) as (l & o2 & _ & Hl & E2').
  rewrite E2' in E2. injection E2 as <-. clear E2'.
  set (ray2 := SetReleaseStatus l ray) in *. set (s2 := with_ray _ _) in Hrun.
  apply run_cons_Ok in Hrun as (s3 & E3 & Hrun).
  unfold manifestInitAction, mbind, M_bind, gets in E3.
  change (removed (rr s2)) with (removed (rr s1)) in E3. rewrite Hr1, modify_rr_eq in E3.
  injection E3 as <-. set (s3 := MkState _ _ _ _) in Hrun.
  apply run_cons_Ok in Hrun as (s4 & E4 & Hrun).
  rewrite run_actions_nil in Hrun. injection Hrun as ->.
  pose proof (applyImageParamsAction_run base s3 ray2 eq_refl Hr1) as H4. rewrite E4 in H4.
  destruct (write_overlay _ _ _) as [r0 o4].
  destruct H4 as (Hk4 & Hf4 & _ & _ & H4). destruct r0; [destruct H4 as [_ Hrr4]|done..].
  exists l. rewrite Hrr4. split_and!; try done. by rewrite removed_image_params.
Qed.

(** The second half: the resources are rendered and checked. *)
Lemma resources_run base s s' ray :
  HasClient (rr s) = true → Instance_ (rr s) = Some (ARay ray) →
  removed (rr s) = false → Resources (rr s) = [] → Manifests (rr s) ≠ [] →
  run_actions [RenderKustomize base namespaceFn; certManagerRequirementAction;
               filterPlatformResources; notebookClusterRoleAction] s = (Ok tt, s') →
  Instance_ (rr s') = Some (ARay ray) ∧ removed (rr s') = false ∧ Generated (rr s') = true ∧
  Forall (deployable (ApplicationsNamespace (ray_spec ray)) (cluster s) (scc_known s))
    (Resources (rr s')) ∧
  role_applied (K := K) (U := U) (roles (cluster s')) ∧ other_roles (cluster s) (cluster s') ∧
  HasClient (rr s') = true.
Proof.
  intros Hc Hi Hr Hres Hms Hrun.
  apply run_cons_Ok in Hrun as (s5 & E5 & Hrun).
  pose proof (RenderKustomize_run (K := K) base namespaceFn _ s (namespaceFn_ok _ ray Hi)) as H5.
  rewrite E5 in H5. destruct H5 as (dn & rs & new & _ & _ & Hconf & Hk5 & Hf5 & _ & Hrr5).
  rewrite Hres in Hrr5. cbn [app] in Hrr5.
  assert (rr s5 = set_Resources new (set_Generated true (rr s))) as Hrr
    by (rewrite Hrr5; by destruct (Manifests (rr s))). clear Hrr5.
  apply run_cons_Ok in Hrun as (s6 & E6 & Hrun).
  assert (HasClient (rr s5) = true) as Hc5 by by rewrite Hrr.
  assert (removed (rr s5) = false) as Hr5 by by rewrite Hrr.
  pose proof (dependencies_run s5 Hc5) as H6. rewrite E6 in H6.
  destruct H6 as [-> [[_ [H6|H6]]|[[e [=]] _]]]; [congruence|].
  apply run_cons_Ok in Hrun as (s7 & E7 & Hrun).
  rewrite filterPlatformResources_run in E7. injection E7 as <-.
  set (s7 := MkState _ _ _ _) in Hrun.
  assert (∃ l, rr s7 = set_Resources l (rr s5) ∧
            ∀ u, u ∈ l → u ∈ new ∧ (is_scc u = true → scc_known s5 = true)) as (l & Hl & Hin).
  { unfold s7. cbn. rewrite Hrr. destruct (scc_known s5).
    - by exists new.
    - eexists. split; [done|]. intros u. unfold keep_non_scc. rewrite list_elem_of_filter.
      intros [Hu Hn]. split; [done|]. congruence. }
  apply run_cons_Ok in Hrun as (s8 & E8 & Hrun).
  rewrite run_actions_nil in Hrun. injection Hrun as ->.
  assert (HasClient (rr s7) = true) as Hc7 by by rewrite Hl.
  unfold notebookClusterRoleAction, mbind, M_bind, gets in E8.
  replace (removed (rr s7)) with false in E8 by by rewrite Hl.
  destruct (apply_run s7 Hc7) as (r8 & k8 & E8' & Ho & H8). rewrite E8' in E8.
  injection E8 as -> <-. change (cluster s7) with (cluster s5) in Ho. rewrite Hk5 in Ho.
  cbn [with_cluster rr cluster]. rewrite Hl, Hrr. split_and!; [done..| |done|done|done].
  apply Forall_forall. intros u Hu. destruct (Hin u Hu) as [Hnew Hsc].
  replace (scc_known s) with (scc_known s5) by (unfold scc_known; by rewrite Hf5, Hk5).
  pose proof Hnew as [j Hj]%list_elem_of_lookup.
  destruct (Forall2_lookup_r _ _ _ _ _ Hconf Hj) as (v & _ & Hv).
  destruct (conforms_deployable _ _ _ Hv). split_and!; [done..| |done].
  intros Hg. rewrite <- Hk5. apply H6; [|done]. by rewrite Hrr.
Qed.

(** Once removed, nothing is rendered or written. *)
Lemma removed_run base s ray :
  HasClient (rr s) = true → Instance_ (rr s) = Some (ARay ray) →
  ManagementState (ray_spec ray) = Removed →
  let '(r, s') := run_actions (prepare_actions base) s in
  Resources (rr s') = [] ∧ Manifests (rr s') = [] ∧ Generated (rr s') = true ∧
  removed (rr s') = true ∧ fs (os s') = fs (os s) ∧ other_roles (cluster s) (cluster s') ∧
  HasClient (rr s') = true ∧
  (∃ l, kuberay_releases l ∧ Instance_ (rr s') = Some (ARay (SetReleaseStatus l ray))) ∧
  (∃ t : State K U, HasClient (rr t) = true ∧ cluster t = cluster s ∧
     r = (deleteNotebookClusterRole t).1 ∧ cluster s' = cluster (deleteNotebookClusterRole t).2) ∧
  match r with
  | Ok _ => role_gone (roles (cluster s'))
  | Err e => ∃ f c, e = Wrapf f [notebookClusterRoleName] c
  | Panic _ => False
  end.
Proof.
  intros Hc Hi Hm. unfold prepare_actions. rewrite run_actions_cons, bind_split.
  rewrite (managementState_run s ray Hi), Hm. cbn [String.eqb].
  change (String.eqb Removed Removed) with true. cbn [orb].
  set (s1 := MkState _ _ _ _).
  assert (removed (rr s1) = true) as Hr1.
  { unfold removed, ext_lookup. cbn. by rewrite lookup_insert_eq. }
  rewrite run_actions_cons, bind_split.
  destruct (releasesAction_run base s1 ray Hi) as (l & o2 & F2 & Hl & ->). set (s2 := with_ray _ _).
  change (removed (rr s2) = true) in Hr1. change (cluster s) with (cluster s2).
  change (fs (os s)) with (fs (os s1)). rewrite <- F2. clear F2. change o2 with (os s2).
  rewrite run_actions_cons, bind_split. unfold manifestInitAction at 1.
  rewrite bind_split. unfold gets at 1. rewrite Hr1, modify_rr_eq. set (s3 := MkState _ _ _ _).
  change (removed (rr s3) = true) in Hr1. change (cluster s2) with (cluster s3).
  change (os s2) with (os s3).
  rewrite run_actions_cons, bind_split. unfold applyImageParamsAction at 1.
  rewrite bind_split. unfold gets at 1. rewrite Hr1. unfold mret at 1, M_ret at 1.
  rewrite run_actions_cons, bind_split. unfold RenderKustomize at 1.
  rewrite bind_split. unfold gets at 1.
  change (Manifests (rr s3)) with (@nil ManifestInfo). unfold mret at 1, M_ret at 1.
  rewrite run_actions_cons, bind_split. unfold certManagerRequirementAction at 1.
  rewrite bind_split. unfold gets at 1. rewrite Hr1. unfold mret at 1, M_ret at 1.
  rewrite run_actions_cons, bind_split, filterPlatformResources_run.
  set (s7 := MkState _ _ _ _).
  assert (rr s7 = rr s3) as Hrr by (unfold s7; cbn; by destruct (scc_known s3)).
  rewrite run_actions_cons, bind_split. unfold notebookClusterRoleAction.
  rewrite bind_split. unfold gets at 1. rewrite Hrr, Hr1.
  assert (HasClient (rr s7) = true) as Hc7 by by rewrite Hrr.
  destruct (delete_run s7 Hc7) as (r & k' & E & Ho & H). rewrite E.
  assert (∃ t : State K U, HasClient (rr t) = true ∧ cluster t = cluster s ∧
     r = (deleteNotebookClusterRole t).1 ∧ k' = cluster (deleteNotebookClusterRole t).2).
  { exists s7. by rewrite E. }
  change (cluster s7) with (cluster s3) in Ho.
  destruct r as [[]|e|w]; [rewrite run_actions_nil| |done]; cbn [with_cluster rr cluster os];
    rewrite Hrr; split_and!; try done; by exists l.
Qed.
(** The two halves together. *)
Lemma prepare_run base s s' ray :
  well_formed s → Instance_ (rr s) = Some (ARay ray) →
  ManagementState (ray_spec ray) ≠ Removed → Resources (rr s) = [] →
  run_actions (prepare_actions base) s = (Ok tt, s') →
  Forall (deployable (ApplicationsNamespace (ray_spec ray)) (cluster s) (scc_known s))
    (Resources (rr s')) ∧
  Generated (rr s') = true ∧ removed (rr s') = false ∧
  (∃ l, kuberay_releases l ∧ Instance_ (rr s') = Some (ARay (SetReleaseStatus l ray))) ∧
  role_applied (K := K) (U := U) (roles (cluster s')) ∧ other_roles (cluster s) (cluster s') ∧
  HasClient (rr s') = true.
Proof.
  intros [Hc _] Hi Hm Hres Hrun.
  change (prepare_actions base) with
    ([managementStateAction; releasesAction base; manifestInitAction; applyImageParamsAction base] ++
     [RenderKustomize base namespaceFn; certManagerRequirementAction (K := K) (U := U);
      filterPlatformResources; notebookClusterRoleAction]) in Hrun.
  rewrite run_actions_app in Hrun. apply bind_Ok_inv in Hrun as ([] & s4 & H1 & H2).
  destruct (request_run base s s4 ray Hc Hi Hm Hres H1) as (l & Hl & Hi4 & Hc4 & Hr4 & Hres4 & Hm4 & Hk & Hf).
  destruct (resources_run base s4 s' _ Hc4 Hi4 Hr4 Hres4) as (Hi' & Hr' & Hg & Hall & Hra & Ho & Hc');
    [by rewrite Hm4|done|].
  rewrite Hk in Hall, Ho. unfold scc_known in Hall. rewrite Hf, Hk in Hall.
  split_and!; try done; by exists l.
Qed.
End prepared.

(** What reaches the deployment of a managed module.  When the actions before
    the deployment all succeed on a fresh request, every resource handed to it is
    in no namespace or in the applications namespace, is labelled as part of the
    module unless it is a custom resource definition, is of a kind of cert-manager
    only if that kind is installed, and is a security context constraint only if
    the cluster is known to have them; the request is marked generated, the
    releases of the status are proper, and the role of the notebooks is applied
    while every other role is as it was. *)
Theorem deploy_precondition {K U} {KA : KubeAPI K} {RS : RoleStore K} {UN : Unstructured U}
    {UL : UnstructuredLaws U} {FW : Framework K U} {MR : MapRange} {RC : Reconciler K U}
    base (s s' : State K U) ray :
  well_formed s → Instance_ (rr s) = Some (ARay ray) →
  ManagementState (ray_spec ray) ≠ Removed → Resources (rr s) = [] →
  run_actions (prepare_actions base) s = (Ok tt, s') →
  Forall (deployable (ApplicationsNamespace (ray_spec ray)) (cluster s) (scc_known s))
    (Resources (rr s')) ∧
  Generated (rr s') = true ∧ removed (rr s') = false ∧
  (∃ l, kuberay_releases l ∧ Instance_ (rr s') = Some (ARay (SetReleaseStatus l ray))) ∧
  role_applied (K := K) (U := U) (roles (cluster s')) ∧ other_roles (cluster s) (cluster s').
Proof.
  intros Hwf Hi Hm Hres Hrun.
  destruct (prepare_run base s s' ray Hwf Hi Hm Hres Hrun) as (? & ? & ? & ? & ? & ? & _).
  by split_and!.
Qed.

Definition managed_os : OS :=
  boot (list_to_map [([], Dir); (["tmp"], Dir); (["tmp"; "ray-module-manifests"], Dir)]) ∅.

Definition managed_state : State Fake Obj :=
  sample_state (sample_ray Managed "apps") empty_fake managed_os.

Definition managed_prepared : res unit * State Fake Obj :=
  run_actions (prepare_actions (FW := fake_framework (λ _, rendered_sample)) (MR := canonical_range)
    "/opt/manifests") managed_state.

Lemma deploy_precondition_witness :
  length (Resources (rr managed_prepared.2)) = 3 ∧
  Forall (deployable (FW := fake_framework (λ _, rendered_sample)) "apps" empty_fake false)
    (Resources (rr managed_prepared.2)).
Proof.
  split; [vm_compute; reflexivity|].
  assert (managed_prepared.1 = Ok tt) as Hok by (vm_compute; reflexivity).
  refine (proj1 (deploy_precondition (FW := fake_framework (λ _, rendered_sample))
    (MR := canonical_range) "/opt/manifests" managed_state managed_prepared.2
    (sample_ray Managed "apps") _ eq_refl _ eq_refl _)).
  - split; [reflexivity|by eexists].
  - discriminate.
  - unfold managed_prepared in *. destruct (run_actions _ _). cbn in *. by subst.
Defined.

(** A removed module deploys nothing and writes nothing.  Whatever its request
    held, on every cluster and every outcome of the actions before the deployment,
    no resource and no manifest is left for it, the request is marked generated,
    so that the collection of what was deployed runs, no file is written, and only
    the role of the notebooks is touched: when the actions succeed it is gone, and
    the releases of the status are proper. *)
Theorem removed_prepares_nothing {K U} {KA : KubeAPI K} {RS : RoleStore K} {UN : Unstructured U}
    {FW : Framework K U} {MR : MapRange} {RC : Reconciler K U} base (s : State K U) ray :
  well_formed s → Instance_ (rr s) = Some (ARay ray) →
  ManagementState (ray_spec ray) = Removed →
  let '(r, s') := run_actions (prepare_actions base) s in
  Resources (rr s') = [] ∧ Manifests (rr s') = [] ∧ Generated (rr s') = true ∧
  removed (rr s') = true ∧ fs (os s') = fs (os s) ∧ other_roles (cluster s) (cluster s') ∧
  HasClient (rr s') = true ∧
  (∃ l, kuberay_releases l ∧ Instance_ (rr s') = Some (ARay (SetReleaseStatus l ray))) ∧
  match r with
  | Ok _ => role_gone (roles (cluster s'))
  | Err e => ∃ f c, e = Wrapf f [notebookClusterRoleName] c
  | Panic _ => False
  end.
Proof.
  intros [Hc _] Hi Hm. pose proof (removed_run base s ray Hc Hi Hm) as H.
  destruct (run_actions (prepare_actions base) s) as [r s']. naive_solver.
Qed.

Definition removed_prepared : res unit * State Fake Obj :=
  run_actions (prepare_actions (FW := fake_framework (λ _, rendered_sample)) (MR := canonical_range)
    "/opt/manifests") removed_state.

Lemma removed_prepares_nothing_witness :
  Resources (rr removed_prepared.2) = [] ∧ fs (os removed_prepared.2) = fs (os removed_state).
Proof.
  pose proof (removed_prepares_nothing (FW := fake_framework (λ _, rendered_sample))
    (MR := canonical_range) "/opt/manifests" removed_state (sample_ray Removed "apps")) as H.
  fold removed_prepared in H. destruct removed_prepared as [r s'].
  destruct H as (H1 & _ & _ & _ & H2 & _); [split; [reflexivity|by eexists]|reflexivity..|].
  by split.
Defined.

(** ** A whole pass over a removed module

    What is documented of the framework and of the API server, beyond their
    single answers: a condition that is marked true is true, and marking another
    one leaves it; deploying no resource does nothing; a collection changes
    neither the request nor a file, and, like any deletion, brings no object back. *)
Class FrameworkLaws (K U : Type) {KA : KubeAPI K} {RS : RoleStore K} {OS : ObjectStore K}
    {FW : Framework K U} : Prop := {
  true_marked t opts l :
    IsStatusConditionTrue (K := K) (U := U) t (MarkTrue (K := K) (U := U) t opts l) = true;
  true_kept t t' opts l : t ≠ t' →
    IsStatusConditionTrue (K := K) (U := U) t (MarkFalse (K := K) (U := U) t' opts l) =
    IsStatusConditionTrue (K := K) (U := U) t l;
  deploy_nothing opts (s : State K U) : Resources (rr s) = [] → (Deploy_NewAction opts s).2 = s;
  gc_request nsFn opts (s : State K U) : rr (GC_NewAction nsFn opts s).2 = rr s;
  gc_files nsFn opts (s : State K U) : fs (os (GC_NewAction nsFn opts s).2) = fs (os s);
  gc_shrinks nsFn opts (s : State K U) :
    shrinks (cluster s) (cluster (GC_NewAction nsFn opts s).2);
  gc_role_gone nsFn opts (s : State K U) : role_gone (roles (cluster s)) →
    role_gone (roles (cluster (GC_NewAction nsFn opts s).2));
  delete_role_gone o p (k : K) : role_gone (roles k) → role_gone (roles (Delete o p k).2);
}.

#[export] Instance fake_framework_laws rendered :
  FrameworkLaws Fake Obj (FW := fake_framework rendered).
Proof.
  split; try done; cbn [fake_framework IsStatusConditionTrue MarkTrue MarkFalse Delete fake_api].
  - intros t opts l. unfold condition_true, mark. rewrite existsb_app. apply orb_true_iff. right.
    cbn. rewrite orb_false_r. revert opts.
    apply (rev_ind (λ opts, _)); [by rewrite String.eqb_refl|].
    intros o opts _. rewrite fold_left_app. destruct o; cbn; by rewrite String.eqb_refl.
  - intros t t' opts l Hne. unfold condition_true, mark. rewrite existsb_app.
    set (c := fold_left _ _ _). assert (cond_Type c = t') as Hc.
    { unfold c. clear c. revert opts. apply (rev_ind (λ opts, _)); [done|].
      intros o opts _. rewrite fold_left_app. by destruct o. }
    cbn. rewrite Hc, (proj2 (String.eqb_neq t' t)) by done. cbn. rewrite orb_false_r.
    induction l as [|d l IH]; [done|]. rewrite filter_cons. case_decide as Hd; cbn.
    + by rewrite IH.
    + by rewrite Hd, (proj2 (String.eqb_neq t' t)).
  - by intros nsFn opts s o; left.
  - intros o p k. unfold fk_delete. by destruct (guarded k _).
Qed.

Section removed_pass.
Context {K U : Type} {KA : KubeAPI K} {RS : RoleStore K} {OS : ObjectStore K}
  {FW : Framework K U} {FL : FrameworkLaws K U}.
Implicit Types (s : State K U) (k : K).

(** Calls that do not bring the role of the notebooks back. *)
Definition keeps_gone {A} (m : M K A) : Prop :=
  ∀ k, role_gone (roles k) → role_gone (roles (m k).2).

Lemma keeps_gone_bind {A B} (m : M K A) (f : A → M K B) :
  keeps_gone m → (∀ a, keeps_gone (f a)) → keeps_gone (m ≫= f).
Proof.
  intros Hm Hf k Hg. rewrite bind_split. specialize (Hm k Hg).
  destruct (m k) as [[a| |] k']; [by apply Hf|done..].
Qed.

Lemma keeps_gone_for_each {A} (l : list A) (f : A → M K unit) :
  (∀ x, keeps_gone (f x)) → keeps_gone (for_each l f).
Proof.
  intros Hf k Hg. apply (for_each_inv (λ k, role_gone (roles k))); [|done]. intros x k' _. apply Hf.
Qed.

Lemma delete_item_gone uid i : keeps_gone (delete_item (U := U) uid i).
Proof.
  destruct i as [o|]; [|by intros k]. unfold delete_item. case_match; [by intros k|].
  apply keeps_gone_bind; [|intros [e|]; [by destruct (IsNotFound e); intros k|by intros k]].
  intros k Hg. unfold call. pose proof (delete_role_gone (U := U) o Background k Hg) as Hd.
  by destruct (Delete o Background k).
Qed.

Lemma deleteOwnedFromList_gone uid l inns : keeps_gone (deleteOwnedFromList (U := U) uid l inns).
Proof.
  unfold deleteOwnedFromList. apply keeps_gone_bind; [by intros k|]. intros [e|L].
  - by case_match; intros k.
  - case_match; [by intros k|]. apply keeps_gone_for_each, delete_item_gone.
Qed.

Lemma delete_lists_gone uid ns : keeps_gone (delete_lists (U := U) uid ns).
Proof.
  unfold delete_lists. apply keeps_gone_bind; [case_match; [by intros k|]|intros _];
    apply keeps_gone_for_each; intros l; apply deleteOwnedFromList_gone.
Qed.

Lemma operands_gone s :
  role_gone (roles (cluster s)) → role_gone (roles (cluster (deleteOwnedOperands s).2)).
Proof.
  intros Hg. unfold deleteOwnedOperands. rewrite bind_split. unfold gets.
  destruct (HasClient (rr s)) eqn:Hc; [|done]. cbn [negb].
  destruct (Instance_ (rr s)) as [[ray|]|]; [|done..]. case_match; [done|].
  rewrite with_client_eq by done. unfold on_cluster, zoom.
  pose proof (delete_lists_gone (UID (ray_meta ray)) (ApplicationsNamespace (ray_spec ray))
    (cluster s) Hg) as Hd.
  by destruct (delete_lists _ _ (cluster s)).
Qed.
End removed_pass.

(** The options of the collection that takes everything that is labelled. *)
Definition collect_all {U} : list (GCOption U) :=
  [WithDeletePropagationPolicy Background; WithOnlyCollectOwned false; WithObjectPredicate always].

Section removed_report.
Context {K U : Type} {KA : KubeAPI K} {RS : RoleStore K} {OS : ObjectStore K}
  {UN : Unstructured U} {FW : Framework K U} {FL : FrameworkLaws K U} {SV : Semver}
  {MR : MapRange} {RC : Reconciler K U}.
Implicit Types (s : State K U) (ray : Ray).

Lemma removed_deployments s ray :
  removed (rr s) = true → Instance_ (rr s) = Some (ARay ray) →
  ∃ st, deploymentStatusAction namespaceFn s = (Ok tt, with_ray (SetStatus st ray) s) ∧
    available (K := K) (U := U) (Conditions st) = true.
Proof.
  intros Hr Hi. unfold deploymentStatusAction. rewrite bind_split. unfold gets. rewrite Hr.
  destruct s as [r k o fc]. unfold on_rr, zoom, update_conditions, update_status. cbn in *.
  rewrite Hi. eexists. split; [reflexivity|]. apply true_marked.
Qed.

(** The actions between the deployment and the collection. *)
Definition told_actions (base : string) : list (Action K U) :=
  [deploymentStatusAction namespaceFn; distributionAction base; platformReleaseAction;
   degradedAction; observedGenerationAction].

(** Everything but the instance stays. *)
Definition same_but_ray s s' ray' : Prop :=
  rr s' = set_ray ray' (rr s) ∧ cluster s' = cluster s ∧ os s' = os s.

(** What the status says after the pass. *)
Definition reported ray ray' : Prop :=
  ray_meta ray' = ray_meta ray ∧ ray_spec ray' = ray_spec ray ∧
  GetReleaseStatus ray' = GetReleaseStatus ray ∧
  ObservedGeneration (GetStatus ray') = Generation (ray_meta ray) ∧
  available (K := K) (U := U) (GetConditions ray') = true.

Lemma distribution_run base s ray :
  HasClient (rr s) = true → Instance_ (rr s) = Some (ARay ray) →
  ∃ r d, distributionAction base s = (r, with_ray (SetDistribution d ray) s) ∧
    match r with Panic _ => False | _ => True end.
Proof.
  intros Hc Hi. rewrite (distributionAction_run base s ray Hi).
  assert (∀ r : res unit, match r with Panic _ => False | _ => True end →
            ∃ r' d, (r, s) = (r', with_ray (SetDistribution d ray) s) ∧
              match r' with Panic _ => False | _ => True end) as Hsame.
  { intros r Hr. exists r, (ray_Distribution (ray_status ray)). split; [|done].
    by rewrite SetDistribution_same, set_ray_same. }
  destruct (available _); [|by apply Hsame].
  destruct (respects_readDistribution (K := K) (U := U) false (ApplicationsNamespace (ray_spec ray)) s)
    as [Hp _]; [by split; [split; [|exists ray]|]|].
  destruct (readPlatformDistribution _ s) as [[[d st]|e|w] s1]; [|by apply Hsame|done].
  eexists _, _. split; [reflexivity|done].
Qed.

(** The status actions of a removed module, up to the collection. *)
Lemma removed_status base s ray :
  HasClient (rr s) = true → removed (rr s) = true → Instance_ (rr s) = Some (ARay ray) →
  ∃ r ray' s', run_actions (told_actions base) s = (r, s') ∧
    same_but_ray s s' ray' ∧
    match r with Ok _ => reported ray ray' | Err _ => True | Panic _ => False end.
Proof.
  intros Hc Hr Hi.
  destruct (removed_deployments s ray Hr Hi) as (st & E1 & Hav). unfold told_actions.
  rewrite run_actions_cons, bind_split, E1. set (ray1 := SetStatus st ray). set (s1 := with_ray ray1 s).
  destruct (distribution_run base s1 ray1 Hc eq_refl) as (r2 & d & E2 & Hp).
  rewrite run_actions_cons, bind_split, E2. set (ray2 := SetDistribution d ray1).
  change (with_ray ray2 s1) with (with_ray ray2 s). set (s2 := with_ray ray2 s).
  destruct r2 as [[]|e|w]; [|by exists (Err e), ray2, s2|done].
  rewrite run_actions_cons, bind_split, (platformReleaseAction_run s2 ray2 Hc eq_refl).
  change (removed (rr s2)) with (removed (rr s)). rewrite Hr. cbn [orb].
  pose proof (health_pass s2 ray2 eq_refl) as E3. cbv zeta in E3.
  rewrite run_actions_cons, bind_split. rewrite bind_split in E3.
  destruct (degradedAction s2) as [[[]| |] s3]; [|done..].
  rewrite run_actions_cons, bind_split, E3, run_actions_nil.
  eexists _, _, _. split; [reflexivity|]. split; [by split_and!|].
  split_and!; try reflexivity. cbn. unfold available. by rewrite true_kept.
Qed.

(** The role of the notebooks is gone, and so are the operands of the resource of
    the kinds [owned_gc.go] lists, but for those that wait for their finalizers. *)
Definition listed_kinds_gone ray (k : K) : Prop :=
  role_gone (roles k) ∧
  cleaned (operand (K := K) (U := U) (UID (ray_meta ray)) (ApplicationsNamespace (ray_spec ray))) k.

(** The operands of the listed kinds were collected, then the framework's
    collection ran on everything that is labelled, of any kind, and succeeded. *)
Definition swept ray s s' : Prop :=
  ∃ k, collected (U := U) (Ok tt) (UID (ray_meta ray)) (ApplicationsNamespace (ray_spec ray))
         (cluster s) k ∧
    GC_NewAction namespaceFn collect_all (with_cluster k s) = (Ok tt, s').

Lemma swept_ray ray ray' s s' :
  ray_meta ray' = ray_meta ray → ray_spec ray' = ray_spec ray → swept ray' s s' → swept ray s s'.
Proof. unfold swept. by intros -> ->. Qed.

Lemma removed_collection s ray :
  HasClient (rr s) = true → removed (rr s) = true → Instance_ (rr s) = Some (ARay ray) →
  UID (ray_meta ray) ≠ "" → role_gone (roles (cluster s)) →
  let '(r, s') := reconcileGCAction namespaceFn s in
  rr s' = rr s ∧ fs (os s') = fs (os s) ∧
  (r = Ok tt → listed_kinds_gone ray (cluster s') ∧ swept ray s s').
Proof.
  intros Hc Hr Hi Hu Hg. unfold reconcileGCAction. rewrite bind_split. unfold gets at 1. rewrite Hr.
  pose proof (operands_gone (FL := FL) s Hg) as Hg1.
  destruct (operands_run s) as (r & k & E & H). rewrite bind_split. rewrite E in Hg1 |- *.
  rewrite Hi, Hc in H. rewrite (proj2 (String.eqb_neq _ _) Hu) in H. pose proof H as [_ Hcl].
  destruct r as [[]|e|w]; [|done..]. cbn [snd cluster] in Hg1. set (s1 := MkState _ k _ _).
  fold (collect_all (U := U)).
  pose proof (gc_request namespaceFn collect_all s1) as H1.
  pose proof (gc_files namespaceFn collect_all s1) as H2.
  pose proof (gc_shrinks namespaceFn collect_all s1) as H3.
  pose proof (gc_role_gone namespaceFn collect_all s1 Hg1) as H4.
  destruct (GC_NewAction namespaceFn collect_all s1) as [r s2] eqn:E1. cbn [snd] in *.
  split_and!; [done..|]. intros ->. split; [split; [done|by eapply cleaned_lasts]|by exists k].
Qed.

(** The actions after the deployment. *)
Lemma removed_report base s ray :
  HasClient (rr s) = true → removed (rr s) = true → Instance_ (rr s) = Some (ARay ray) →
  UID (ray_meta ray) ≠ "" → role_gone (roles (cluster s)) →
  let '(r, s') := run_actions (report_actions base) s in
  ∃ ray', rr s' = set_ray ray' (rr s) ∧ fs (os s') = fs (os s) ∧
    (r = Ok tt → reported ray ray' ∧ listed_kinds_gone ray (cluster s') ∧
       ∃ t, run_actions (told_actions base) s = (Ok tt, t) ∧ rr t = set_ray ray' (rr s) ∧
         swept ray t s').
Proof.
  intros Hc Hr Hi Hu Hg.
  change (report_actions base) with
    (told_actions base ++ [reconcileGCAction (K := K) (U := U) namespaceFn]).
  rewrite run_actions_app, bind_split.
  destruct (removed_status base s ray Hc Hr Hi) as (r & ray' & s1 & E1 & (Hrr & Hk & Ho) & Hrep).
  rewrite E1.
  destruct r as [[]|e|w]; [|exists ray'; by rewrite Ho|done].
  rewrite run_actions_cons, bind_split.
  pose proof Hrep as (Hmeta & Hspec & _).
  pose proof (removed_collection s1 ray') as H. rewrite Hrr, Hk, Hmeta in H.
  specialize (H Hc Hr eq_refl Hu Hg). unfold listed_kinds_gone in H. rewrite Hmeta, Hspec in H.
  destruct (reconcileGCAction namespaceFn s1) as [r s2]. rewrite Ho in H.
  destruct H as (H1 & H2 & H3).
  destruct r as [[]|e|w]; [rewrite run_actions_nil|..]; exists ray'; (split_and!; [done..|]); [|done..].
  intros _. destruct (H3 eq_refl) as [Hgone Hsw]. split_and!; [done..|].
  exists s1. split_and!; [done..|]. by eapply swept_ray.
Qed.
End removed_report.

Lemma removed_pass_run {K U} {KA : KubeAPI K} {RS : RoleStore K} {OS : ObjectStore K}
    {UN : Unstructured U} {FW : Framework K U} {FL : FrameworkLaws K U} {SV : Semver}
    {MR : MapRange} {RC : Reconciler K U} p base (s : State K U) ray :
  well_formed s → Instance_ (rr s) = Some (ARay ray) →
  ManagementState (ray_spec ray) = Removed → UID (ray_meta ray) ≠ "" →
  let '(r, s') := run_actions (su_Actions (SetupWithManager p base)) s in
  Resources (rr s') = [] ∧ fs (os s') = fs (os s) ∧
  (r = Ok tt → listed_kinds_gone (U := U) ray (cluster s') ∧
     (∃ t, run_actions (prepare_actions base ++ deployAction :: told_actions base) s = (Ok tt, t) ∧
        Generated (rr t) = true ∧ swept ray t s') ∧
     ∃ l ray', kuberay_releases l ∧ Instance_ (rr s') = Some (ARay ray') ∧
       reported (K := K) (U := U) (SetReleaseStatus l ray) ray').
Proof.
  intros [Hc _] Hi Hm Hu. cbn [SetupWithManager su_Actions].
  rewrite run_actions_app, bind_split. pose proof (removed_run base s ray Hc Hi Hm) as H.
  destruct (run_actions (prepare_actions base) s) as [r s1] eqn:E1.
  destruct H as (Hres & _ & Hgen & Hr & Hf & _ & Hc1 & (l & Hl & Hi1) & _ & H).
  destruct r as [[]|e|w]; [|by split_and!|done].
  rewrite run_actions_cons, bind_split. unfold deployAction.
  pose proof (deploy_nothing [WithFieldOwner FieldOwner; WithPartOfLabelDefault ComponentName;
    WithApplyOrder] s1 Hres) as Hd.
  destruct (Deploy_NewAction _ s1) as [r s2] eqn:E2. cbn [snd] in Hd. subst s2.
  destruct r as [[]|e|w]; [|by split_and!..].
  pose proof (removed_report base s1 _ Hc1 Hr Hi1 Hu H) as H2.
  destruct (run_actions (report_actions base) s1) as [r s2].
  destruct H2 as (ray' & Hrr & Hf2 & H2). rewrite Hrr, Hf2.
  split_and!; [done..|]. intros ->. destruct (H2 eq_refl) as (Hrep & Hnl & t & Ht & Hrt & Hsw).
  split_and!; [done| |by exists l, ray'].
  exists t. split_and!; [|by rewrite Hrt|by eapply swept_ray; [..|exact Hsw]].
  rewrite run_actions_app, (bind_Ok _ _ _ _ _ E1), run_actions_cons.
  unfold deployAction. by rewrite (bind_Ok _ _ _ _ _ E2).
Qed.

(** C2: a whole pass over a removed module.  On every outcome no resource is left
    for the deployment and no file is written.  When the pass succeeds, its last
    action was the collection of a removed module, on a request marked generated:
    the operands of the resource were collected first, and then the framework's
    collection ran on everything that is labelled and succeeded; after it, the role
    of the notebooks is gone, and no operand of the seven kinds [owned_gc.go] lists
    is stored, but for those that wait for their finalizers (other kinds are left
    to the framework's collection, about which nothing more is said here).  The
    status says so: the deployments are reported available, the releases are
    proper, the generation observed is the one of the resource, whose metadata and
    specification are as they were.  The API server keeps the promises of
    [RoleStore] and [ObjectStore], and the framework those of [FrameworkLaws]. *)
Theorem removed_pass_spec {K U} {KA : KubeAPI K} {RS : RoleStore K} {OS : ObjectStore K}
    {UN : Unstructured U} {FW : Framework K U} {FL : FrameworkLaws K U} {SV : Semver}
    {MR : MapRange} {RC : Reconciler K U} p base (s : State K U) ray :
  well_formed s → Instance_ (rr s) = Some (ARay ray) →
  ManagementState (ray_spec ray) = Removed → UID (ray_meta ray) ≠ "" →
  let '(r, s') := run_actions (su_Actions (SetupWithManager p base)) s in
  Resources (rr s') = [] ∧ fs (os s') = fs (os s) ∧
  (r = Ok tt → listed_kinds_gone (U := U) ray (cluster s') ∧
     (∃ t, run_actions (prepare_actions base ++ deployAction :: told_actions base) s = (Ok tt, t) ∧
        Generated (rr t) = true ∧ swept ray t s') ∧
     ∃ l ray', kuberay_releases l ∧ Instance_ (rr s') = Some (ARay ray') ∧
       reported (K := K) (U := U) (SetReleaseStatus l ray) ray').
Proof. apply removed_pass_run. Qed.

(** A removed module with its old role and operands. *)
Definition leaving_state : State Fake Obj :=
  sample_state (sample_ray Removed "apps")
    (fk_set_roles {["ray" := owned_role]} (put_objects gc_objects empty_fake)) (boot ∅ ∅).

Definition leaving_run : res unit * State Fake Obj :=
  run_actions (su_Actions pipeline_setup) leaving_state.

Lemma removed_pass_spec_witness :
  leaving_run.1 = Ok tt ∧
  listed_kinds_gone (FW := fake_framework (λ _, rendered_sample)) (sample_ray Removed "apps")
    (cluster leaving_run.2).
Proof.
  assert (leaving_run.1 = Ok tt) as Hok by (vm_compute; reflexivity).
  split; [exact Hok|].
  pose proof (removed_pass_spec (FW := fake_framework (λ _, rendered_sample)) (SV := any_version)
    (MR := canonical_range) (λ _, false) "/opt/manifests" leaving_state (sample_ray Removed "apps")) as H.
  fold pipeline_setup in H. fold leaving_run in H. destruct leaving_run as [r s'].
  cbn [fst snd] in *. destruct H as (_ & _ & H); [split; [reflexivity|by eexists]|done|done|done|].
  exact (proj1 (H Hok)).
Defined.

(** ** A whole pass over a managed module

    The actions of the framework keep the request they were given, but for the
    conditions of its instance and the resources they complete. *)
Definition keeps_request {U} (r r' : Request U) : Prop :=
  HasClient r' = HasClient r ∧ Extensions r' = Extensions r ∧ Generated r' = Generated r ∧
  ∀ ray, Instance_ r = Some (ARay ray) → ∃ cs, Instance_ r' = Some (ARay (SetConditions cs ray)).

Class RequestLaws (K U : Type) {FW : Framework K U} : Prop := {
  deploy_keeps opts (s : State K U) : keeps_request (rr s) (rr (Deploy_NewAction opts s).2);
  deployments_keeps nsFn (s : State K U) :
    keeps_request (rr s) (rr (Deployments_NewAction nsFn s).2);
}.

#[export] Instance fake_request_laws rendered : RequestLaws Fake Obj (FW := fake_framework rendered).
Proof.
  assert (∀ r : Request Obj, keeps_request r r) as Hr.
  { intros r. split_and!; [done..|]. intros ray Hi. exists (GetConditions ray). rewrite Hi.
    by destruct ray as [? ? [[]]]. }
  by split.
Qed.

Section managed_report.
Context {K U : Type} {KA : KubeAPI K} {RS : RoleStore K} {OS : ObjectStore K}
  {UN : Unstructured U} {FW : Framework K U} {FL : FrameworkLaws K U} {RL : RequestLaws K U}
  {SV : Semver} {MR : MapRange} {RC : Reconciler K U}.
Implicit Types (s : State K U) (ray : Ray).

(** The releases of the module, followed or not by the one of the platform. *)
Definition reported_releases (l l' : ComponentReleaseStatus) : Prop :=
  l' = l ∨ ∃ v, v ≠ "" ∧ l' = SetPlatformRelease (K := K) (U := U) v l.

(** What the status of a managed module says after a pass. *)
Definition aligned_status ray ray' : Prop :=
  ray_meta ray' = ray_meta ray ∧ ray_spec ray' = ray_spec ray ∧
  reported_releases (GetReleaseStatus ray) (GetReleaseStatus ray') ∧
  ObservedGeneration (GetStatus ray') = Generation (ray_meta ray) ∧
  (∃ cs, GetConditions ray' = MarkFalse (K := K) (U := U) ConditionDegraded
     [WithReason "AsExpected"; WithMessage "Module is operating normally";
      WithObservedGeneration (Generation (ray_meta ray))] cs) ∧
  (NewVersion "0.0.0" = None → proper (ray_Distribution (ray_status ray)) →
   proper (ray_Distribution (ray_status ray'))).

Lemma platform_release_inv s s' ray :
  HasClient (rr s) = true → Instance_ (rr s) = Some (ARay ray) →
  platformReleaseAction s = (Ok tt, s') →
  ∃ l, reported_releases (GetReleaseStatus ray) l ∧ s' = with_ray (SetReleaseStatus l ray) s.
Proof.
  intros Hc Hi E. rewrite (platformReleaseAction_run s ray Hc Hi) in E.
  assert (∀ s', s = s' → ∃ l, reported_releases (GetReleaseStatus ray) l ∧
            s' = with_ray (SetReleaseStatus l ray) s) as Hsame.
  { intros ? <-. exists (GetReleaseStatus ray). split; [by left|].
    replace (SetReleaseStatus _ ray) with ray by by destruct ray as [? ? []].
    by rewrite set_ray_same. }
  destruct (_ || _); [injection E as E; by apply Hsame|].
  destruct (handshake _ _) as [e|v]; [done|].
  destruct (String.eqb_spec v ""); injection E as E; [by apply Hsame|].
  eexists. split; [right; by exists v|done].
Qed.

(** The status actions between the deployment and the collection. *)
Lemma managed_status base s s' ray :
  HasClient (rr s) = true → Instance_ (rr s) = Some (ARay ray) →
  run_actions [distributionAction base; platformReleaseAction; degradedAction;
               observedGenerationAction] s = (Ok tt, s') →
  ∃ ray', rr s' = set_ray ray' (rr s) ∧ aligned_status ray ray'.
Proof.
  intros Hc Hi Hrun.
  apply run_cons_Ok in Hrun as (s1 & E1 & Hrun).
  pose proof (distributionAction_run base s ray Hi) as Er. rewrite E1 in Er.
  assert (∃ d, s1 = with_ray (SetDistribution d ray) s ∧
            (NewVersion "0.0.0" = None → proper (ray_Distribution (ray_status ray)) → proper d))
    as (d & -> & Hd).
  { destruct (available _).
    - destruct (readPlatformDistribution _ s) as [[[d st]|e|w] s0] eqn:Ed; [|done..].
      apply readPlatformDistribution_Ok in Ed. injection Er as ->. eexists. split; [done|].
      intros Hv Hp. destruct st; cbn; [|done..]. apply standalone_proper. by split.
    - injection Er as ->. exists (ray_Distribution (ray_status ray)). split; [|done].
      by rewrite SetDistribution_same, set_ray_same. }
  clear Er E1. set (ray1 := SetDistribution d ray) in *. set (s1 := with_ray ray1 s) in *.
  apply run_cons_Ok in Hrun as (s2 & E2 & Hrun).
  destruct (platform_release_inv s1 s2 ray1 Hc eq_refl E2) as (l & Hl & ->).
  set (ray2 := SetReleaseStatus l ray1) in *. set (s2 := with_ray ray2 s1) in *.
  pose proof (health_pass s2 ray2 eq_refl) as E3. cbv zeta in E3. rewrite bind_split in E3.
  apply run_cons_Ok in Hrun as (s3 & Ea & Hrun). rewrite Ea in E3.
  apply run_cons_Ok in Hrun as (s4 & Eb & Hrun). rewrite Eb in E3. injection E3 as ->.
  rewrite run_actions_nil in Hrun. injection Hrun as <-.
  eexists. split; [reflexivity|]. split_and!; [done|done|exact Hl|done|by eexists|exact Hd].
Qed.

(** The actions after the deployment. *)
Lemma managed_report base s s' ray :
  HasClient (rr s) = true → removed (rr s) = false → Instance_ (rr s) = Some (ARay ray) →
  run_actions (report_actions base) s = (Ok tt, s') →
  ∃ t ray', run_actions (told_actions base) s = (Ok tt, t) ∧
    GC_NewAction namespaceFn [WithDeletePropagationPolicy Background] t = (Ok tt, s') ∧
    rr s' = rr t ∧ Generated (rr t) = Generated (rr s) ∧
    Instance_ (rr t) = Some (ARay ray') ∧ aligned_status ray ray'.
Proof.
  intros Hc Hr Hi Hrun.
  change (report_actions base) with
    (deploymentStatusAction namespaceFn ::
     [distributionAction base; platformReleaseAction; degradedAction; observedGenerationAction] ++
     [reconcileGCAction (K := K) (U := U) namespaceFn]) in Hrun.
  apply run_cons_Ok in Hrun as (s1 & E1 & Hrun). pose proof E1 as Etold.
  unfold deploymentStatusAction in E1. rewrite bind_split in E1. unfold gets in E1. rewrite Hr in E1.
  pose proof (deployments_keeps namespaceFn s) as (Hc1 & He1 & Hg1 & Hi1). rewrite E1 in Hc1, He1, Hg1, Hi1.
  cbn [snd] in *. destruct (Hi1 ray Hi) as [cs Hcs].
  rewrite run_actions_app in Hrun. apply bind_Ok_inv in Hrun as ([] & s2 & E2 & Hrun).
  assert (run_actions (told_actions base) s = (Ok tt, s2)) as Ht.
  { unfold told_actions. by rewrite run_actions_cons, (bind_Ok _ _ _ _ _ Etold). }
  destruct (managed_status base s1 s2 _ (eq_trans Hc1 Hc) Hcs E2) as (ray' & Hrr & Hal).
  apply run_cons_Ok in Hrun as (s3 & E3 & Hrun). rewrite run_actions_nil in Hrun.
  injection Hrun as <-. unfold reconcileGCAction in E3. rewrite bind_split in E3. unfold gets in E3.
  assert (removed (rr s2) = false) as Hr2.
  { rewrite Hrr, <- Hr. apply removed_lookup. unfold ext_lookup. cbn. by rewrite He1. }
  rewrite Hr2 in E3. exists s2, ray'. split_and!; [done..| |by rewrite Hrr|by rewrite Hrr|exact Hal].
  pose proof (gc_request namespaceFn [WithDeletePropagationPolicy Background] s2) as H.
  by rewrite E3 in H.
Qed.
End managed_report.

Lemma managed_pass_run {K U} {KA : KubeAPI K} {RS : RoleStore K} {OS : ObjectStore K}
    {UN : Unstructured U} {UL : UnstructuredLaws U} {FW : Framework K U} {FL : FrameworkLaws K U}
    {RL : RequestLaws K U} {SV : Semver} {MR : MapRange} {RC : Reconciler K U}
    p base (s s' : State K U) ray :
  well_formed s → Instance_ (rr s) = Some (ARay ray) →
  ManagementState (ray_spec ray) ≠ Removed → Resources (rr s) = [] →
  run_actions (su_Actions (SetupWithManager p base)) s = (Ok tt, s') →
  ∃ t1 t2 t3 l ray',
    run_actions (prepare_actions base) s = (Ok tt, t1) ∧
    Forall (deployable (ApplicationsNamespace (ray_spec ray)) (cluster s) (scc_known s))
      (Resources (rr t1)) ∧
    role_applied (K := K) (U := U) (roles (cluster t1)) ∧
    deployAction t1 = (Ok tt, t2) ∧ run_actions (told_actions base) t2 = (Ok tt, t3) ∧
    GC_NewAction namespaceFn [WithDeletePropagationPolicy Background] t3 = (Ok tt, s') ∧
    Generated (rr t3) = true ∧
    kuberay_releases l ∧ Instance_ (rr s') = Some (ARay ray') ∧
    aligned_status (K := K) (U := U) (SetReleaseStatus l ray) ray'.
Proof.
  intros Hwf Hi Hm Hres Hrun. cbn [SetupWithManager su_Actions] in Hrun.
  rewrite run_actions_app in Hrun. apply bind_Ok_inv in Hrun as ([] & t1 & E1 & Hrun).
  destruct (prepare_run base s t1 ray Hwf Hi Hm Hres E1) as
    (Hall & Hg & Hr & (l & Hl & Hi1) & Hra & _ & Hc1).
  apply run_cons_Ok in Hrun as (t2 & E2 & Hrun).
  pose proof (deploy_keeps [WithFieldOwner FieldOwner; WithPartOfLabelDefault ComponentName;
    WithApplyOrder] t1) as (Hc2 & He2 & Hg2 & Hi2). unfold deployAction in E2. rewrite E2 in Hc2, He2, Hg2, Hi2.
  cbn [snd] in *. destruct (Hi2 _ Hi1) as [cs Hcs].
  assert (removed (rr t2) = false) as Hr2.
  { rewrite <- Hr. apply removed_lookup. unfold ext_lookup. by rewrite He2. }
  destruct (managed_report base t2 s' _ (eq_trans Hc2 Hc1) Hr2 Hcs Hrun)
    as (t3 & ray' & Ht & E3 & Hrr & Hg3 & Hi3 & Hal).
  exists t1, t2, t3, l, ray'. rewrite Hrr, Hg3, Hg2. by split_and!.
Qed.

(** C1: a whole pass over a managed module.  When it succeeds, exactly this
    happened: the resources handed to the deployment were all deployable and the
    deployment succeeded on them, after the role of the notebooks was applied; the
    framework's collection ran last, with its default of owned objects, on a
    request marked generated; and the status is aligned: the generation observed is
    the one of the resource, [Degraded] was marked false for it, the releases are
    those of KubeRay followed at most by the platform's, a proper distribution
    stayed proper, and the metadata and the specification are as they were. *)
Theorem managed_pass_spec {K U} {KA : KubeAPI K} {RS : RoleStore K} {OS : ObjectStore K}
    {UN : Unstructured U} {UL : UnstructuredLaws U} {FW : Framework K U} {FL : FrameworkLaws K U}
    {RL : RequestLaws K U} {SV : Semver} {MR : MapRange} {RC : Reconciler K U}
    p base (s s' : State K U) ray :
  well_formed s → Instance_ (rr s) = Some (ARay ray) →
  ManagementState (ray_spec ray) ≠ Removed → Resources (rr s) = [] →
  run_actions (su_Actions (SetupWithManager p base)) s = (Ok tt, s') →
  ∃ t1 t2 t3 l ray',
    run_actions (prepare_actions base) s = (Ok tt, t1) ∧
    Forall (deployable (ApplicationsNamespace (ray_spec ray)) (cluster s) (scc_known s))
      (Resources (rr t1)) ∧
    role_applied (K := K) (U := U) (roles (cluster t1)) ∧
    deployAction t1 = (Ok tt, t2) ∧ run_actions (told_actions base) t2 = (Ok tt, t3) ∧
    GC_NewAction namespaceFn [WithDeletePropagationPolicy Background] t3 = (Ok tt, s') ∧
    Generated (rr t3) = true ∧
    kuberay_releases l ∧ Instance_ (rr s') = Some (ARay ray') ∧
    aligned_status (K := K) (U := U) (SetReleaseStatus l ray) ray'.
Proof. apply managed_pass_run. Qed.

Definition managed_pass : res unit * State Fake Obj :=
  run_actions (su_Actions pipeline_setup) managed_state.

Lemma managed_pass_spec_witness :
  ∃ t l ray', length (Resources (rr t)) = 3 ∧ kuberay_releases l ∧
    Instance_ (rr managed_pass.2) = Some (ARay ray') ∧
    ObservedGeneration (GetStatus ray') = 7%Z ∧
    deployAction (FW := fake_framework (λ _, rendered_sample)) t = (Ok tt, t).
Proof.
  assert (managed_pass.1 = Ok tt) as Hok by (vm_compute; reflexivity).
  assert (managed_pass = (Ok tt, managed_pass.2)) as Hrun
    by (destruct managed_pass; cbn in Hok; by subst).
  destruct (managed_pass_spec (FW := fake_framework (λ _, rendered_sample)) (SV := any_version)
    (MR := canonical_range) (λ _, false) "/opt/manifests" managed_state managed_pass.2
    (sample_ray Managed "apps"))
    as (t1 & t2 & t3 & l & ray' & E1 & _ & _ & E2 & _ & _ & _ & Hl & Hi & _ & _ & _ & Hg & _);
    [split; [reflexivity|by eexists]|reflexivity|discriminate|reflexivity|exact Hrun|].
  exists managed_prepared.2, l, ray'. split_and!; [by vm_compute|done..|reflexivity].
Defined.

(** ** The other entry points *)

(** [controllerutil.RemoveFinalizer]: the finalizer is removed, and the others
    stay; it says whether it was there. *)
Class FinalizerLaws (K : Type) {KA : KubeAPI K} : Prop := {
  remove_finalizer f l : ∀ x, x ∈ (RemoveFinalizer (K := K) f l).1 ↔ x ∈ l ∧ x ≠ f;
  remove_finalizer_found f l : (RemoveFinalizer (K := K) f l).2 = true ↔ f ∈ l;
}.

#[export] Instance fake_finalizers : FinalizerLaws Fake.
Proof.
  split; cbn.
  - intros f l x. rewrite list_elem_of_filter. tauto.
  - intros f l. apply bool_decide_eq_true.
Qed.

(** The resource without the module's finalizer. *)
Definition without_finalizer {K} {KA : KubeAPI K} (ray : Ray) : Ray :=
  set_ray_meta (set_Finalizers
    (RemoveFinalizer (K := K) FinalizerName (Finalizers (ray_meta ray))).1 (ray_meta ray)) ray.

(** C36: waiting for the namespace.  The reconciler waits exactly while the
    resource has no applications namespace, whatever the API server answers: with
    a namespace nothing happens; without one the module's finalizer, and only it,
    is dropped from the resource, and the resource is updated on the cluster once
    if it had it, not at all otherwise; no error of that update is ever reported. *)
Theorem waitForNamespace_spec {K U} {KA : KubeAPI K} {FL : FinalizerLaws K} (s : State K U) ray :
  HasClient (rr s) = true → Instance_ (rr s) = Some (ARay ray) →
  let '(r, s') := waitForNamespace s in
  let ns := ApplicationsNamespace (ray_spec ray) in
  let ray' := without_finalizer (K := K) ray in
  r = Ok (String.eqb ns "") ∧
  (∀ x, x ∈ Finalizers (ray_meta ray') ↔ x ∈ Finalizers (ray_meta ray) ∧ x ≠ FinalizerName) ∧
  (ns ≠ "" → s' = s) ∧
  (ns = "" → FinalizerName ∉ Finalizers (ray_meta ray) → s' = with_ray ray' s) ∧
  (ns = "" → FinalizerName ∈ Finalizers (ray_meta ray) →
     s' = with_cluster (UpdateRay ray' (cluster s)).2
            (with_ray (match (UpdateRay ray' (cluster s)).1 with
                       | inr stored => stored
                       | inl _ => ray'
                       end) s)).
Proof.
  intros Hc Hi. unfold waitForNamespace.
  rewrite (bind_Ok _ _ _ _ _ (on_rr_the_ray s ray Hi)).
  pose proof (remove_finalizer (K := K) FinalizerName (Finalizers (ray_meta ray))) as Hrm.
  pose proof (remove_finalizer_found (K := K) FinalizerName (Finalizers (ray_meta ray))) as Hfd.
  destruct (String.eqb_spec (ApplicationsNamespace (ray_spec ray)) "") as [Hns|Hns]; cbn [negb];
    [|by split_and!].
  set (ray' := without_finalizer (K := K) ray).
  assert (∀ x, x ∈ Finalizers (ray_meta ray') ↔ x ∈ Finalizers (ray_meta ray) ∧ x ≠ FinalizerName)
    as Hx by exact Hrm.
  unfold without_finalizer in ray'. clear Hrm.
  destruct (RemoveFinalizer FinalizerName (Finalizers (ray_meta ray))) as [f upd]. cbn [fst snd] in *.
  fold ray'. rewrite bind_split, modify_rr_eq. fold (with_ray ray' s).
  destruct upd.
  - rewrite bind_split, with_client_call by done. change (cluster (with_ray ray' s)) with (cluster s).
    destruct (UpdateRay ray' (cluster s)) as [[e|stored] k'] eqn:E; cbn [fst snd].
    + assert (∀ b : bool, (if b then mret true else mret true) = (mret true : M (State K U) bool)) as ->
        by by intros [].
      split_and!; [done|done|done|intros _ Hn; by destruct Hn; apply Hfd|done].
    + rewrite bind_split, modify_rr_eq. split_and!; [done|done|done|intros _ Hn; by destruct Hn; apply Hfd|done].
  - split_and!; [done..|]. intros _ Hin. apply Hfd in Hin. done.
Qed.

Definition waiting_state : State Fake Obj :=
  sample_state (sample_ray Managed "")
    (MkFake (Some (sample_ray Managed "")) ∅ ∅ ∅ [] None) (boot ∅ ∅).

Lemma waitForNamespace_spec_witness :
  (waitForNamespace waiting_state).1 = Ok true ∧
  (r ← fk_ray (cluster (waitForNamespace waiting_state).2); Some (Finalizers (ray_meta r))) = Some [].
Proof.
  split; [|vm_compute; reflexivity].
  pose proof (waitForNamespace_spec waiting_state (sample_ray Managed "") eq_refl eq_refl) as H.
  destruct (waitForNamespace waiting_state) as [r s']. apply H.
Defined.

(** Which collection runs.  While the module is managed, only the framework's
    collection, with its default of owned objects, and no operand is deleted
    directly.  Once it is removed, the operands of the resource are collected
    first; if that fails the error is returned and the framework's collection
    does not run; otherwise it runs on everything that is labelled. *)
Theorem reconcileGCAction_spec {K U} {KA : KubeAPI K} {OS : ObjectStore K} {FW : Framework K U}
    nsFn (s : State K U) ray :
  HasClient (rr s) = true → Instance_ (rr s) = Some (ARay ray) → UID (ray_meta ray) ≠ "" →
  if removed (rr s) then
    ∃ r k, collected (U := U) r (UID (ray_meta ray)) (ApplicationsNamespace (ray_spec ray)) (cluster s) k ∧
      reconcileGCAction nsFn s =
        match r with
        | Ok _ => GC_NewAction nsFn collect_all (with_cluster k s)
        | Err e => (Err e, with_cluster k s)
        | Panic w => (Panic w, with_cluster k s)
        end
  else reconcileGCAction nsFn s = GC_NewAction nsFn [WithDeletePropagationPolicy Background] s.
Proof.
  intros Hc Hi Hu. unfold reconcileGCAction. rewrite bind_split. unfold gets.
  destruct (removed (rr s)); [|done].
  destruct (operands_run s) as (r & k & E & H). rewrite Hi, Hc in H.
  rewrite (proj2 (String.eqb_neq _ _) Hu) in H. cbn in H.
  exists r, k. split; [done|]. rewrite bind_split, E. by destruct r as [[]| |].
Qed.

Lemma reconcileGCAction_spec_witness :
  let s := MkState (set_Extensions (Some {[ExtKeyRemoved := AnyBool true]}) (rr gc_state))
             (cluster gc_state) (os gc_state) (filter_cache gc_state) in
  removed (rr s) = true ∧
  ∃ r k, collected (FW := fake_framework (λ _, [])) r "uid-1" "apps" (cluster gc_state) k ∧
    (reconcileGCAction (FW := fake_framework (λ _, [])) namespaceFn s).1 = Ok tt.
Proof.
  cbv zeta. split; [reflexivity|].
  destruct (reconcileGCAction_spec (FW := fake_framework (λ _, [])) namespaceFn
    (MkState (set_Extensions (Some {[ExtKeyRemoved := AnyBool true]}) (rr gc_state))
       (cluster gc_state) (os gc_state) (filter_cache gc_state)) (sample_ray Removed "apps")
    eq_refl eq_refl) as (r & k & H & _); [discriminate|].
  exists r, k. split; [exact H|vm_compute; reflexivity].
Defined.

Lemma deletionCleanup_run {K U} {KA : KubeAPI K} {RS : RoleStore K} {OS : ObjectStore K}
    {FW : Framework K U} {FL : FrameworkLaws K U} (s s' : State K U) r ray :
  HasClient (rr s) = true → Instance_ (rr s) = Some (ARay ray) → UID (ray_meta ray) ≠ "" →
  deletionCleanupAction namespaceFn s = (r, s') →
  let ns := ApplicationsNamespace (ray_spec ray) in
  (ns = "" → r = Ok tt ∧ s' = s) ∧
  fs (os s') = fs (os s) ∧
  (ns ≠ "" → r = Ok tt → listed_kinds_gone (U := U) ray (cluster s') ∧ ∃ k t,
     role_gone (roles k) ∧ other_roles (cluster s) k ∧
     GC_NewAction namespaceFn collect_all
       (MkState (set_Generated true (rr s)) k (os s) (filter_cache s)) = (Ok tt, t) ∧
     collected (U := U) (Ok tt) (UID (ray_meta ray)) ns (cluster t) (cluster s')).
Proof.
  intros Hc Hi Hu Hrun ns. unfold deletionCleanupAction in Hrun.
  assert (on_rr (get_with namespaceFn) s = (Ok ns, s)) as Hns.
  { destruct s. unfold on_rr, zoom, get_with. cbn in *. by rewrite (namespaceFn_ok _ ray Hi). }
  rewrite bind_split, Hns in Hrun.
  destruct (String.eqb_spec ns "") as [E|E]; [by injection Hrun as <- <-|]. split; [done|].
  destruct (delete_run s Hc) as (r1 & k1 & E1 & Ho & Hg). rewrite bind_split, E1 in Hrun.
  destruct r1 as [[]|e|w]; [|by injection Hrun as <- <-|done].
  rewrite bind_split, modify_rr_eq in Hrun. cbn [with_cluster rr cluster os filter_cache] in Hrun.
  fold (collect_all (U := U)) in Hrun. set (s1 := MkState _ k1 _ _) in *.
  pose proof (gc_request namespaceFn collect_all s1) as Hrr.
  pose proof (gc_files namespaceFn collect_all s1) as Hf.
  pose proof (gc_role_gone namespaceFn collect_all s1 Hg) as Hgt.
  rewrite bind_split in Hrun. destruct (GC_NewAction namespaceFn collect_all s1) as [r2 t] eqn:E2.
  cbn [snd] in Hrr, Hf, Hgt. change (os s1) with (os s) in Hf.
  destruct r2 as [[]|e|w]; [|by injection Hrun as <- <-..].
  pose proof (operands_gone (FL := FL) t Hgt) as Hg2.
  destruct (operands_run t) as (r3 & k2 & E3 & H3). rewrite E3 in Hrun, Hg2. injection Hrun as <- <-.
  rewrite Hrr in H3. cbn [s1 rr set_Generated Instance_ HasClient] in H3. rewrite Hi, Hc in H3.
  rewrite (proj2 (String.eqb_neq _ _) Hu) in H3.
  split; [done|]. intros _ ->. split; [split; [done|apply H3]|]. by exists k1, t.
Qed.

(** C11: the finalizer.  Without an applications namespace nothing was deployed and
    nothing is done, so that the deletion of the resource cannot be held up.
    Otherwise no file is written, and when it succeeds: the role of the notebooks
    was deleted first, and the other roles left alone; then the framework's
    collection ran and succeeded on everything that is labelled, on a request
    marked generated, which no pass of the pipeline had marked; then the operands
    of the resource were collected.  At the end the role of the notebooks is gone,
    and no operand of the seven kinds [owned_gc.go] lists is stored but those that
    wait for their finalizers; other kinds are left to the framework's collection. *)
Theorem deletionCleanupAction_spec {K U} {KA : KubeAPI K} {RS : RoleStore K} {OS : ObjectStore K}
    {FW : Framework K U} {FL : FrameworkLaws K U} (s s' : State K U) r ray :
  HasClient (rr s) = true → Instance_ (rr s) = Some (ARay ray) → UID (ray_meta ray) ≠ "" →
  deletionCleanupAction namespaceFn s = (r, s') →
  let ns := ApplicationsNamespace (ray_spec ray) in
  (ns = "" → r = Ok tt ∧ s' = s) ∧
  fs (os s') = fs (os s) ∧
  (ns ≠ "" → r = Ok tt → listed_kinds_gone (U := U) ray (cluster s') ∧ ∃ k t,
     role_gone (roles k) ∧ other_roles (cluster s) k ∧
     GC_NewAction namespaceFn collect_all
       (MkState (set_Generated true (rr s)) k (os s) (filter_cache s)) = (Ok tt, t) ∧
     collected (U := U) (Ok tt) (UID (ray_meta ray)) ns (cluster t) (cluster s')).
Proof. apply deletionCleanup_run. Qed.

Definition cleanup_run : res unit * State Fake Obj :=
  deletionCleanupAction (FW := fake_framework (λ _, [])) namespaceFn gc_state.

Lemma deletionCleanupAction_spec_witness :
  listed_kinds_gone (FW := fake_framework (λ _, [])) (sample_ray Removed "apps") (cluster cleanup_run.2).
Proof.
  assert (cleanup_run = (Ok tt, cleanup_run.2)) as Hok.
  { assert (cleanup_run.1 = Ok tt) as H by (vm_compute; reflexivity).
    destruct cleanup_run as [r s']. cbn in H. by subst. }
  destruct (deletionCleanupAction_spec (FW := fake_framework (λ _, [])) gc_state cleanup_run.2
    (Ok tt) (sample_ray Removed "apps")) as (_ & _ & H); [done|done|discriminate|exact Hok|].
  exact (proj1 (H ltac:(discriminate) eq_refl)).
Defined.

(** No deletion is missed by the predicate of the watch on the resource:
    whatever the framework's predicate, an update that starts the deletion of the
    resource, and every creation, deletion and generic event, reach the
    reconciler; any other update does if the framework's predicate says so. *)
Theorem su_Predicate_spec {K U} {KA : KubeAPI K} {UN : Unstructured U} {FW : Framework K U}
    {SV : Semver} {MR : MapRange} default base e :
  su_Predicate (SetupWithManager (K := K) (U := U) default base) e = true ↔
  default e = true ∨
  match e with
  | UpdateEvent (Some old) (Some new) =>
      IsZero (DeletionTimestamp old) = true ∧ IsZero (DeletionTimestamp new) = false
  | UpdateEvent _ _ => False
  | _ => True
  end.
Proof.
  cbn. rewrite orb_true_iff. destruct e as [|[old|] [new|]| |]; cbn; try tauto; try naive_solver.
  by rewrite andb_true_iff, negb_true_iff.
Qed.
