(* ===== verification/Liveness.v ===== *)
(** * Liveness: the pipeline, when its calls are served

    The theorems on the passes say what holds when a pass succeeds.  Here passes
    succeed: with an API server that serves every call (an absence is an answer),
    a framework whose actions succeed, and a machine that does not fail, a pass
    over a managed module and over a removed one, and the finalizer, run to their
    end; so a deletion of the resource is not held up by the module. *)
From S2P Require Import Prelude GoStrings OS API Kube Fake ParamsFile Overlay Params Settle Crash.
From S2P Require Import Progress PlatformConfig Releases Status Render PlatformFilter Dependencies.
From S2P Require Import NotebookRBAC OwnedGC Controller.

(** ** What serves the calls

    [serving k]: the API server of the cluster [k] is up, and the module may do
    what it does.  An answer may still be that an object, or a kind, is not there. *)
Definition absent (e : api_error) : bool := IsNotFound e || IsNoMatchError e.

Class ServingAPI (K : Type) {KA : KubeAPI K} := {
  serving : K → Prop;
  serving_config ns n k e : serving k → GetConfigMap ns n k = inl e → IsNotFound e = true;
  serving_crd g k : serving k → is_Some (match HasCRD g k with inr b => Some b | inl _ => None end);
  serving_get_role n k e : serving k → GetClusterRole n k = inl e → IsNotFound e = true;
  serving_update_role c k : serving k → serving (UpdateClusterRole c k).2 ∧
    ∀ e, (UpdateClusterRole c k).1 = inl e → IsNotFound e = true;
  serving_delete_role c k : serving k → serving (DeleteClusterRole c k).2 ∧
    ∀ e, (DeleteClusterRole c k).1 = Some e → IsNotFound e = true;
  serving_apply_role c f k : serving k →
    (∀ x, Name (cr_meta (f x)) = Name (cr_meta x)) →
    serving (CreateOrUpdate c f k).2 ∧ (CreateOrUpdate c f k).1 = None;
  serving_list l ns k e : serving k → ListObjects l ns k = inl e → absent e = true;
  serving_items l ns k r : serving k → ListObjects l ns k = inr r → ∃ items, ExtractList r = inr items;
  serving_delete o p k : serving k → serving (Delete o p k).2 ∧
    ∀ e, (Delete o p k).1 = Some e → IsNotFound e = true;
}.

(** The framework's actions succeed on a well-formed request. *)
Class ServingFramework (K U : Type) {KA : KubeAPI K} {SA : ServingAPI K} {FW : Framework K U} : Prop := {
  deploy_serves opts (s : State K U) : well_formed s → serving (cluster s) →
    ∃ s', Deploy_NewAction opts s = (Ok tt, s') ∧ serving (cluster s');
  deployments_serves nsFn (s : State K U) : well_formed s → is_ok (nsFn (rr s)) = true →
    serving (cluster s) →
    ∃ s', Deployments_NewAction nsFn s = (Ok tt, s') ∧ serving (cluster s');
  gc_serves nsFn opts (s : State K U) : well_formed s → is_ok (nsFn (rr s)) = true →
    serving (cluster s) →
    ∃ s', GC_NewAction nsFn opts s = (Ok tt, s') ∧ serving (cluster s');
}.

(** The cluster in memory serves while it is not down. *)
#[export] Instance fake_serving : ServingAPI Fake.
Proof.
  refine {| serving := λ k, fk_down k = None |}; cbn [fake_api GetConfigMap HasCRD GetClusterRole
    UpdateClusterRole DeleteClusterRole CreateOrUpdate ListObjects ExtractList Delete];
    unfold fk_update_role, fk_delete_role, fk_create_or_update, fk_delete, guarded, found.
  - intros ns n k e ->. by destruct (fk_maps k !! _); intros [= <-].
  - intros g k ->. by eexists.
  - intros n k e ->. by destruct (fk_role _ k); intros [= <-].
  - intros c k H. rewrite H. destruct (fk_role _ k); (split; [done|]); [done|]. by intros e [= <-].
  - intros c k H. rewrite H. destruct (fk_role _ k); (split; [done|]); [done|]. by intros e [= <-].
  - intros c f k H Hf. rewrite H. rewrite Hf.
    assert (Name (cr_meta (default c (fk_role (Name (cr_meta c)) k))) = Name (cr_meta c)) as ->.
    { unfold fk_role. destruct (fk_roles k !! _) as [x|]; [|done]. cbn.
      by destruct (String.eqb_spec (Name (cr_meta x)) (Name (cr_meta c))). }
    by rewrite String.eqb_refl.
  - by intros l ns k e ->.
  - intros l ns k r _ _. by eexists.
  - intros o p k H. rewrite H. destruct (fk_object _ k); (split; [done|]); [done|]. by intros e [= <-].
Defined.

#[export] Instance fake_framework_serves rendered :
  ServingFramework Fake Obj (FW := fake_framework rendered).
Proof. split; intros; by eexists. Qed.

(** ** The calls *)

Section calls.
Context {K U : Type} {KA : KubeAPI K} {SA : ServingAPI K} {FW : Framework K U}.
Implicit Types (s : State K U) (k : K).

(** The action succeeds, changes the cluster only, and leaves it serving. *)
Definition served (m : Action K U) s : Prop :=
  ∃ k, m s = (Ok tt, with_cluster k s) ∧ serving k.

Lemma apply_served s :
  HasClient (rr s) = true → serving (cluster s) → served applyNotebookClusterRole s.
Proof.
  intros Hc Hs. unfold served, applyNotebookClusterRole. set (c := Build_ClusterRole _ _ _ _).
  destruct (serving_apply_role c (mutate_role (notebookClusterRole (K := K) (U := U))) (cluster s) Hs)
    as [H1 H2]; [done|].
  eexists. rewrite bind_split, with_client_call by done. rewrite H2. split; [reflexivity|done].
Qed.

Lemma clear_owners_served cr s :
  HasClient (rr s) = true → serving (cluster s) →
  ∃ cr' k, clear_owners cr s = (Ok cr', with_cluster k s) ∧ serving k.
Proof.
  intros Hc Hs. unfold clear_owners. destruct (OwnerReferences (cr_meta cr)).
  { exists cr, (cluster s). by rewrite with_cluster_same. }
  set (c := set_cr_meta _ cr). destruct (serving_update_role c (cluster s) Hs) as [H1 H2].
  rewrite bind_split, with_client_call by done.
  destruct (UpdateClusterRole c (cluster s)) as [[e|r] k]; cbn [fst snd] in *.
  - rewrite (H2 e eq_refl). by exists c, k.
  - by exists r, k.
Qed.

Lemma delete_served s :
  HasClient (rr s) = true → serving (cluster s) → served deleteNotebookClusterRole s.
Proof.
  intros Hc Hs. unfold served, deleteNotebookClusterRole.
  rewrite (bind_Ok _ _ _ _ _ (with_client_gets _ s Hc)).
  destruct (GetClusterRole _ (cluster s)) as [e|cr] eqn:Eg.
  { rewrite (serving_get_role _ _ _ Hs Eg). exists (cluster s). by rewrite with_cluster_same. }
  destruct (clear_owners_served cr s Hc Hs) as (cr' & k1 & E1 & H1).
  rewrite (bind_Ok _ _ _ _ _ E1). rewrite bind_split, with_client_call by done.
  cbn [with_cluster cluster rr os filter_cache].
  destruct (serving_delete_role cr' k1 H1) as [H2 H3].
  exists (DeleteClusterRole cr' k1).2.
  destruct (DeleteClusterRole cr' k1) as [[e|] k2]; cbn [fst snd] in *; [rewrite (H3 e eq_refl)|];
    by split.
Qed.

Lemma delete_item_served uid i k :
  serving k → ∃ k', delete_item (U := U) uid i k = (Ok tt, k') ∧ serving k'.
Proof.
  intros Hs. unfold delete_item. destruct i as [o|]; [|by exists k].
  case_match; [by exists k|]. destruct (serving_delete o Background k Hs) as [H1 H2].
  unfold call. rewrite bind_split.
  destruct (Delete o Background k) as [[e|] k']; cbn [fst snd] in *; [rewrite (H2 e eq_refl)|];
    by exists k'.
Qed.

Lemma list_served uid l ns k :
  serving k → ∃ k', deleteOwnedFromList (U := U) uid l ns k = (Ok tt, k') ∧ serving k'.
Proof.
  intros Hs. unfold deleteOwnedFromList. rewrite bind_split. unfold gets.
  destruct (ListObjects l ns k) as [e|L] eqn:El.
  - pose proof (serving_list _ _ _ _ Hs El) as Ha. unfold absent in Ha. rewrite Ha. by exists k.
  - destruct (serving_items _ _ _ _ Hs El) as (items & ->).
    apply for_each_Ok; [|done]. intros i k1 _. apply delete_item_served.
Qed.

Lemma lists_served uid ns k :
  serving k → ∃ k', delete_lists (U := U) uid ns k = (Ok tt, k') ∧ serving k'.
Proof.
  intros Hs. unfold delete_lists.
  assert (∃ k1, (if String.eqb ns "" then mret tt
     else for_each namespacedOwnedLists (λ l, deleteOwnedFromList (U := U) uid l (Some ns))) k =
     (Ok tt, k1) ∧ serving k1) as (k1 & E1 & H1).
  { destruct (String.eqb ns ""); [by exists k|]. apply for_each_Ok; [|done].
    intros l k0 _. apply list_served. }
  rewrite (bind_Ok _ _ _ _ _ E1). apply for_each_Ok; [|done]. intros l k0 _. apply list_served.
Qed.

Lemma operands_served s :
  HasClient (rr s) = true → serving (cluster s) → served deleteOwnedOperands s.
Proof.
  intros Hc Hs. unfold served, deleteOwnedOperands. rewrite bind_split. unfold gets.
  rewrite Hc. cbn [negb].
  assert (∃ k, @mret _ M_ret _ tt s = (Ok tt, with_cluster k s) ∧ serving k) as Hsame.
  { exists (cluster s). by rewrite with_cluster_same. }
  destruct (Instance_ (rr s)) as [[ray|]|]; [|done..]. destruct (String.eqb _ ""); [done|].
  rewrite with_client_eq by done. unfold on_cluster, zoom.
  destruct (lists_served (UID (ray_meta ray)) (ApplicationsNamespace (ray_spec ray)) _ Hs) as (k & -> & Hk).
  by exists k.
Qed.

End calls.

(** ** The status *)

Section status.
Context {K U : Type} {KA : KubeAPI K} {SA : ServingAPI K} {UN : Unstructured U} {FW : Framework K U}
  {SV : Semver} {MR : MapRange} {RC : Reconciler K U}.
Implicit Types (s : State K U) (ray : Ray).

Lemma run_step (a : Action K U) l s s' : a s = (Ok tt, s') → run_actions (a :: l) s = run_actions l s'.
Proof. intros E. by rewrite run_actions_cons, (bind_Ok _ _ _ _ _ E). Qed.

Lemma readPlatformDistribution_served ns s :
  HasClient (rr s) = true → serving (cluster s) →
  ∃ d, readPlatformDistribution ns s = (Ok d, s).
Proof.
  intros Hc Hs. unfold readPlatformDistribution. destruct (String.eqb ns ""); [by eexists|].
  rewrite (bind_Ok _ _ _ _ _ (with_client_gets (GetConfigMap ns PlatformConfigMapName) s Hc)).
  destruct (GetConfigMap _ _ _) as [e|cm] eqn:E.
  - rewrite (serving_config _ _ _ _ Hs E). by eexists.
  - repeat case_match; by eexists.
Qed.

Lemma distribution_served base s ray :
  HasClient (rr s) = true → Instance_ (rr s) = Some (ARay ray) → serving (cluster s) →
  ∃ d, distributionAction base s = (Ok tt, with_ray (SetDistribution d ray) s).
Proof.
  intros Hc Hi Hs. rewrite (distributionAction_run base s ray Hi). destruct (available _).
  - destruct (readPlatformDistribution_served (ApplicationsNamespace (ray_spec ray)) s Hc Hs)
      as ([d st] & ->). by eexists.
  - exists (ray_Distribution (ray_status ray)). by rewrite SetDistribution_same, set_ray_same.
Qed.

Lemma platformRelease_served s ray :
  HasClient (rr s) = true → Instance_ (rr s) = Some (ARay ray) → serving (cluster s) →
  ∃ l, platformReleaseAction s = (Ok tt, with_ray (SetReleaseStatus l ray) s).
Proof.
  intros Hc Hi Hs. rewrite (platformReleaseAction_run s ray Hc Hi).
  assert (∃ l, (@Ok unit tt, s) = (Ok tt, with_ray (SetReleaseStatus l ray) s)) as Hsame.
  { exists (GetReleaseStatus ray). replace (SetReleaseStatus _ ray) with ray by by destruct ray as [? ? []].
    by rewrite set_ray_same. }
  destruct (_ || _); [exact Hsame|]. unfold handshake, platform_config.
  destruct (String.eqb _ ""); [exact Hsame|].
  destruct (GetConfigMap _ _ _) as [e|cm] eqn:E.
  - rewrite (serving_config _ _ _ _ Hs E). exact Hsame.
  - destruct (String.eqb _ ""); [exact Hsame|by eexists].
Qed.

(** The status actions between the deployment and the collection. *)
Lemma status_served base s ray :
  HasClient (rr s) = true → Instance_ (rr s) = Some (ARay ray) → serving (cluster s) →
  ∃ ray', run_actions [distributionAction base; platformReleaseAction; degradedAction;
                       observedGenerationAction] s = (Ok tt, with_ray ray' s) ∧
    ray_meta ray' = ray_meta ray ∧ ray_spec ray' = ray_spec ray.
Proof.
  intros Hc Hi Hs. destruct (distribution_served base s ray Hc Hi Hs) as (d & E1).
  rewrite (run_step _ _ _ _ E1). set (ray1 := SetDistribution d ray). set (s1 := with_ray ray1 s).
  destruct (platformRelease_served s1 ray1 Hc eq_refl Hs) as (l & E2).
  rewrite (run_step _ _ _ _ E2). set (ray2 := SetReleaseStatus l ray1). set (s2 := with_ray ray2 s1).
  pose proof (health_pass s2 ray2 eq_refl) as E3. cbv zeta in E3.
  rewrite run_actions_cons, bind_split. rewrite bind_split in E3.
  destruct (degradedAction s2) as [[[]| |] s3]; [|done..].
  rewrite run_actions_cons, bind_split, E3, run_actions_nil. by eexists.
Qed.
End status.

(** ** Removal *)

Section removal.
Context {K U : Type} {KA : KubeAPI K} {SA : ServingAPI K} {RS : RoleStore K} {OS : ObjectStore K}
  {UN : Unstructured U} {FW : Framework K U} {SF : ServingFramework K U} {FL : FrameworkLaws K U}
  {SV : Semver} {MR : MapRange} {RC : Reconciler K U}.
Implicit Types (s : State K U) (ray : Ray).

Lemma gc_served opts s ray :
  HasClient (rr s) = true → Instance_ (rr s) = Some (ARay ray) → serving (cluster s) →
  ∃ s', GC_NewAction namespaceFn opts s = (Ok tt, s') ∧ serving (cluster s').
Proof.
  intros Hc Hi Hs. apply gc_serves; [by split; [|exists ray]| |done]. by eapply namespaceFn_is_ok.
Qed.

(** The collection of a removed module, and of a managed one. *)
Lemma collection_served s ray :
  HasClient (rr s) = true → Instance_ (rr s) = Some (ARay ray) → serving (cluster s) →
  ∃ s', reconcileGCAction namespaceFn s = (Ok tt, s').
Proof.
  intros Hc Hi Hs. unfold reconcileGCAction. rewrite bind_split. unfold gets.
  destruct (removed (rr s)).
  - destruct (operands_served s Hc Hs) as (k & E & Hk). rewrite (bind_Ok _ _ _ _ _ E).
    destruct (gc_served collect_all (with_cluster k s) ray Hc Hi Hk) as (s' & E' & _). by exists s'.
  - destruct (gc_served [WithDeletePropagationPolicy Background] s ray Hc Hi Hs) as (s' & E' & _).
    by exists s'.
Qed.

(** What is reported after the deployment, when the availability was. *)
Lemma report_served base s s1 ray :
  HasClient (rr s1) = true → Instance_ (rr s1) = Some (ARay ray) → serving (cluster s1) →
  deploymentStatusAction namespaceFn s = (Ok tt, s1) →
  ∃ s', run_actions (report_actions base) s = (Ok tt, s').
Proof.
  intros Hc Hi Hs E.
  change (report_actions base) with
    (deploymentStatusAction namespaceFn ::
     [distributionAction base; platformReleaseAction; degradedAction; observedGenerationAction] ++
     [reconcileGCAction (K := K) (U := U) namespaceFn]).
  rewrite (run_step _ _ _ _ E), run_actions_app.
  destruct (status_served base s1 ray Hc Hi Hs) as (ray' & E2 & _). rewrite (bind_Ok _ _ _ _ _ E2).
  destruct (collection_served (with_ray ray' s1) ray' Hc eq_refl Hs) as (s' & E3).
  rewrite (run_step _ _ _ _ E3), run_actions_nil. by exists s'.
Qed.

Lemma removed_pass_served p base s ray :
  well_formed s → Instance_ (rr s) = Some (ARay ray) → ManagementState (ray_spec ray) = Removed →
  serving (cluster s) →
  ∃ s', run_actions (su_Actions (SetupWithManager p base)) s = (Ok tt, s').
Proof.
  intros [Hc _] Hi Hm Hs. cbn [SetupWithManager su_Actions].
  rewrite run_actions_app, bind_split. pose proof (removed_run base s ray Hc Hi Hm) as H.
  destruct (run_actions (prepare_actions base) s) as [r s1].
  destruct H as (Hres & _ & _ & Hr & _ & _ & Hc1 & (l & _ & Hi1) & (t & Hct & Ht & Hrt & Hk1) & _).
  assert (serving (cluster t)) as Hst by by rewrite Ht.
  destruct (delete_served t Hct Hst) as (k & E & Hk). rewrite E in Hrt, Hk1.
  cbn in Hrt, Hk1. subst r. rewrite <- Hk1 in Hk.
  destruct (deploy_serves [WithFieldOwner FieldOwner; WithPartOfLabelDefault ComponentName;
    WithApplyOrder] s1) as (s2 & E2 & _); [by split; [|eexists]|done|].
  pose proof (deploy_nothing [WithFieldOwner FieldOwner; WithPartOfLabelDefault ComponentName;
    WithApplyOrder] s1 Hres) as Hd. rewrite E2 in Hd. cbn in Hd. subst s2.
  rewrite (run_step deployAction _ _ _ E2).
  destruct (removed_deployments s1 _ Hr Hi1) as (st & E3 & _).
  by apply (report_served base s1 (with_ray (SetStatus st (SetReleaseStatus l ray)) s1) _ Hc1 eq_refl).
Qed.

Lemma cleanup_served s ray :
  HasClient (rr s) = true → Instance_ (rr s) = Some (ARay ray) → serving (cluster s) →
  ∃ s', deletionCleanupAction namespaceFn s = (Ok tt, s').
Proof.
  intros Hc Hi Hs. unfold deletionCleanupAction.
  assert (on_rr (get_with namespaceFn) s = (Ok (ApplicationsNamespace (ray_spec ray)), s)) as Hns.
  { destruct s. unfold on_rr, zoom, get_with. cbn in *. by rewrite (namespaceFn_ok _ ray Hi). }
  rewrite (bind_Ok _ _ _ _ _ Hns). destruct (String.eqb _ ""); [by exists s|].
  destruct (delete_served s Hc Hs) as (k & E & Hk). rewrite (bind_Ok _ _ _ _ _ E).
  rewrite bind_split, modify_rr_eq. set (s1 := MkState _ _ _ _).
  fold (collect_all (U := U)). destruct (gc_served collect_all s1 ray Hc Hi Hk) as (s2 & E2 & Hk2).
  rewrite (bind_Ok _ _ _ _ _ E2).
  pose proof (gc_request namespaceFn collect_all s1) as Hrr. rewrite E2 in Hrr. cbn [snd] in Hrr.
  destruct (operands_served s2) as (k3 & E3 & _); [by rewrite Hrr|done|]. by eexists.
Qed.
End removal.

(** C4: removal completes.  With an API server and a framework that serve the
    calls, a pass over a removed module and the finalizer both succeed, whatever
    the cluster holds and on every machine, failing ones included: the deletion of
    the resource is never held up by the module, and the finalizer succeeds too
    when there is no namespace or nothing left to delete.  And the work was done.
    At the end of the pass the operands were collected, and then the framework's
    collection ran on everything that is labelled, on a request marked generated,
    and succeeded; in the finalizer of a resource that had a namespace that
    collection ran once the role of the notebooks was deleted, and the operands
    were collected after it.  After either the role is gone and no operand of the
    seven kinds [owned_gc.go] lists is stored but those that wait for their
    finalizers; what the framework's collection does to other kinds is its own. *)
Theorem removal_completes {K U} {KA : KubeAPI K} {SA : ServingAPI K} {RS : RoleStore K}
    {OS : ObjectStore K} {UN : Unstructured U} {FW : Framework K U} {SF : ServingFramework K U}
    {FL : FrameworkLaws K U} {SV : Semver} {MR : MapRange} {RC : Reconciler K U}
    p base (s : State K U) ray :
  well_formed s → Instance_ (rr s) = Some (ARay ray) → UID (ray_meta ray) ≠ "" →
  serving (cluster s) →
  let su := SetupWithManager p base in
  let ns := ApplicationsNamespace (ray_spec ray) in
  (ManagementState (ray_spec ray) = Removed →
   ∃ s' t, run_actions (su_Actions su) s = (Ok tt, s') ∧
     run_actions (prepare_actions base ++ deployAction :: told_actions base) s = (Ok tt, t) ∧
     Generated (rr t) = true ∧ swept ray t s' ∧ listed_kinds_gone (U := U) ray (cluster s')) ∧
  ∃ s', su_Finalizer su s = (Ok tt, s') ∧
    (ns ≠ "" → listed_kinds_gone (U := U) ray (cluster s') ∧ ∃ k t,
       role_gone (roles k) ∧ other_roles (cluster s) k ∧
       GC_NewAction namespaceFn collect_all
         (MkState (set_Generated true (rr s)) k (os s) (filter_cache s)) = (Ok tt, t) ∧
       collected (U := U) (Ok tt) (UID (ray_meta ray)) ns (cluster t) (cluster s')).
Proof.
  intros Hwf Hi Hu Hs su ns. split.
  - intros Hm. destruct (removed_pass_served p base s ray Hwf Hi Hm Hs) as (s' & E).
    pose proof (removed_pass_run p base s ray Hwf Hi Hm Hu) as H.
    unfold su in E. rewrite E in H. destruct H as (_ & _ & H).
    destruct (H eq_refl) as (Hg & (t & Ht & Hgen & Hsw) & _). exists s', t. by split_and!.
  - destruct Hwf as [Hc _]. destruct (cleanup_served s ray Hc Hi Hs) as (s' & E). exists s'.
    split; [done|]. intros Hns. by apply (deletionCleanup_run s s' (Ok tt) ray).
Qed.

(** ** A managed module *)

(** Machines with the same files, environment and draws. *)
Definition same_machine (o o' : OS) : Prop := fs o' = fs o ∧ env o' = env o ∧ random o' = random o.

Lemma ready_same base o o' : same_machine o o' → ready base o → ready base o'.
Proof.
  destruct o as [f e c fl r], o' as [f' e' c' fl' r']. intros (Hf & He & Hr). cbn in *. subst.
  intros [[U1 U2 U3 U4] F]. by split.
Qed.

Lemma overlay_set_same base ns o o' f :
  same_machine o o' → overlay_set base ns o' f → overlay_set base ns o f.
Proof.
  destruct o as [f1 e c fl r], o' as [f' e' c' fl' r']. intros (Hf & He & Hr). cbn in *. by subst.
Qed.

(** The manifest of the module, and where it is rendered. *)
Definition module_manifest : ManifestInfo := Build_ManifestInfo ManifestPath ManifestOverlay "".
Definition module_path (o : OS) : string := manifest_path (writable_dir o) module_manifest.

Section managed.
Context {K U : Type} {KA : KubeAPI K} {SA : ServingAPI K} {RS : RoleStore K} {OS : ObjectStore K}
  {UN : Unstructured U} {UL : UnstructuredLaws U} {FW : Framework K U} {SF : ServingFramework K U}
  {FL : FrameworkLaws K U} {RL : RequestLaws K U} {SV : Semver} {MR : MapRange} {RC : Reconciler K U}.
Implicit Types (s : State K U) (ray : Ray).

(** The manifests the module prepares can be rendered on the machine, to objects
    whose kinds of cert-manager are installed. *)
Definition renders (base ns : string) (o : OS.OS) (k : K) : Prop :=
  ∀ o', healthy o' → overlay_set base ns o (fs o') →
  ∃ us o'', Engine_Render (K := K) (module_path o) ns o' = (Ok us, o'') ∧
    ∀ u : U, u ∈ us → GVKOf u ∈ certManagerGVKs → installed k (GVKOf u).

Lemma request_served base s ray :
  HasClient (rr s) = true → Instance_ (rr s) = Some (ARay ray) →
  ManagementState (ray_spec ray) ≠ Removed → Resources (rr s) = [] →
  healthy (os s) → ready base (os s) →
  ∃ s' l, run_actions [managementStateAction; releasesAction base; manifestInitAction;
                       applyImageParamsAction base] s = (Ok tt, s') ∧
    HasClient (rr s') = true ∧ Instance_ (rr s') = Some (ARay (SetReleaseStatus l ray)) ∧
    removed (rr s') = false ∧ Resources (rr s') = [] ∧ Manifests (rr s') = [module_manifest] ∧
    render_base base (rr s') = writable_dir (os s) ∧ cluster s' = cluster s ∧
    healthy (os s') ∧ overlay_set base (ApplicationsNamespace (ray_spec ray)) (os s) (fs (os s')).
Proof.
  intros Hc Hi Hm Hres Hh Hready.
  pose proof (managementState_run s ray Hi) as E1. rewrite (proj2 (String.eqb_neq _ _) Hm) in E1.
  cbv zeta in E1. rewrite (run_step _ _ _ _ E1). set (s1 := MkState _ _ _ _).
  assert (removed (rr s1) = false) as Hr1.
  { unfold removed, ext_lookup. cbn. by rewrite lookup_insert_eq. }
  destruct (releasesAction_run base s1 ray Hi) as (l & o2 & _ & _ & E2).
  pose proof (releasesAction_reads (K := K) base s1 ray Hi) as Ho. rewrite E2 in Ho.
  cbn [snd with_ray with_os os] in Ho. destruct Ho as (Hf2 & He2 & Hfl2 & Hr2).
  assert (same_machine (os s) o2) as Hsame by done.
  rewrite (run_step _ _ _ _ E2). set (ray2 := SetReleaseStatus l ray). set (s2 := with_ray _ _).
  assert (manifestInitAction s2 = (Ok tt, MkState (set_Manifests [module_manifest] (rr s2)) (cluster s2)
    (os s2) (filter_cache s2))) as E3.
  { unfold manifestInitAction. rewrite bind_split. unfold gets.
    change (removed (rr s2)) with (removed (rr s1)). by rewrite Hr1, modify_rr_eq. }
  rewrite (run_step _ _ _ _ E3). set (s3 := MkState _ _ _ _).
  destruct (imageParams_runs base s3 ray2 eq_refl Hr1) as (s4 & E4 & Hrr & Hk & _ & Hh4 & Hset).
  { intros n. change (faults (os s3)) with (faults o2). rewrite Hfl2. apply Hh. }
  { by apply (ready_same base (os s)). }
  rewrite (run_step _ _ _ _ E4), run_actions_nil. exists s4, l. rewrite Hrr, Hk.
  assert (writable_dir o2 = writable_dir (os s)) as Hwd by (unfold writable_dir; by rewrite He2).
  split_and!; try done.
  - by rewrite removed_image_params.
  - unfold render_base, image_params_rr, ext_lookup. cbn [Extensions set_Extensions mbind option_bind].
    rewrite lookup_insert_eq. change (os s3) with o2. rewrite Hwd.
    destruct (String.eqb_spec (writable_dir (os s)) "") as [E|]; [|done].
    pose proof (writable_dir_ne (os s)) as Hn. by rewrite E in Hn.
  - by apply (overlay_set_same base _ (os s) o2).
Qed.

Lemma render_one base s ns us o' :
  namespaceFn (rr s) = Ok ns → Manifests (rr s) = [module_manifest] → Resources (rr s) = [] →
  Engine_Render (K := K) (manifest_path (render_base base (rr s)) module_manifest) ns (os s) = (Ok us, o') →
  RenderKustomize base namespaceFn s =
    (Ok tt, MkState (set_Generated true (set_Resources (prepare (K := K) ns us) (rr s)))
       (cluster s) o' (filter_cache s)).
Proof.
  intros Hns Hm Hres Hu. unfold RenderKustomize. rewrite bind_split. unfold gets at 1. rewrite Hm.
  assert (on_rr (get_with namespaceFn) s = (Ok ns, s)) as Hg.
  { destruct s. unfold on_rr, zoom, get_with. cbn in *. by rewrite Hns. }
  rewrite (bind_Ok _ _ _ _ _ Hg). cbn [for_each]. unfold render_manifest.
  rewrite bind_split, bind_split, bind_split, on_os_eq. unfold wrapping. rewrite Hu.
  cbn [fst snd]. rewrite !modify_rr_eq. cbn [rr cluster os filter_cache mret M_ret].
  unfold mret, M_ret. rewrite modify_rr_eq. cbn. by rewrite Hres.
Qed.

Lemma resources_served base s ray :
  HasClient (rr s) = true → Instance_ (rr s) = Some (ARay ray) → removed (rr s) = false →
  Resources (rr s) = [] → Manifests (rr s) = [module_manifest] → serving (cluster s) →
  (∃ us o', Engine_Render (K := K) (manifest_path (render_base base (rr s)) module_manifest)
              (ApplicationsNamespace (ray_spec ray)) (os s) = (Ok us, o') ∧
     ∀ u : U, u ∈ us → GVKOf u ∈ certManagerGVKs → installed (cluster s) (GVKOf u)) →
  ∃ s', run_actions [RenderKustomize base namespaceFn; certManagerRequirementAction;
                     filterPlatformResources; notebookClusterRoleAction] s = (Ok tt, s') ∧
    HasClient (rr s') = true ∧ Instance_ (rr s') = Some (ARay ray) ∧
    removed (rr s') = false ∧ serving (cluster s').
Proof.
  intros Hc Hi Hr Hres Hm Hs (us & o' & Hu & Hcert).
  pose proof (render_one base s _ us o' (namespaceFn_ok _ ray Hi) Hm Hres Hu) as E1.
  rewrite (run_step _ _ _ _ E1). set (s1 := MkState _ _ _ _).
  pose proof (dependencies_run s1 Hc) as E2.
  destruct (certManagerRequirementAction s1) as [r2 s2] eqn:Ed. destruct E2 as [-> [[-> _]|[_ Hno]]].
  2: { destruct Hno. right. intros v Hv Hg. change (cluster s1) with (cluster s).
       pose proof (prepare_conforms (K := K) (ApplicationsNamespace (ray_spec ray)) us) as Hconf.
       change (Resources (rr s1)) with (prepare (K := K) (ApplicationsNamespace (ray_spec ray)) us) in Hv.
       apply list_elem_of_lookup in Hv as [j Hj].
       destruct (Forall2_lookup_r _ _ _ _ _ Hconf Hj) as (u & Hu' & (Hgvk & _)).
       rewrite Hgvk in Hg |- *. apply Hcert; [|done]. by eapply list_elem_of_lookup_2. }
  rewrite (run_step _ _ _ _ Ed). pose proof (filterPlatformResources_run s1) as E3.
  rewrite (run_step _ _ _ _ E3). set (s3 := MkState _ _ _ _).
  assert (∃ l, rr s3 = set_Resources l (rr s1)) as [l Hl].
  { unfold s3. cbn [rr]. destruct (scc_known s1); [|by eexists]. exists (Resources (rr s1)).
    by destruct (rr s1). }
  destruct (apply_served s3) as (k & E4 & Hk); [by rewrite Hl|done|].
  assert (notebookClusterRoleAction s3 = (Ok tt, with_cluster k s3)) as E4'.
  { unfold notebookClusterRoleAction. rewrite bind_split. unfold gets.
    replace (removed (rr s3)) with false by by rewrite Hl. done. }
  rewrite (run_step _ _ _ _ E4'), run_actions_nil. eexists. split; [done|].
  cbn [with_cluster rr cluster]. by rewrite Hl.
Qed.

Lemma managed_pass_served p base s ray :
  well_formed s → Instance_ (rr s) = Some (ARay ray) →
  ManagementState (ray_spec ray) ≠ Removed → Resources (rr s) = [] →
  healthy (os s) → ready base (os s) → serving (cluster s) →
  renders base (ApplicationsNamespace (ray_spec ray)) (os s) (cluster s) →
  ∃ s', run_actions (su_Actions (SetupWithManager p base)) s = (Ok tt, s').
Proof.
  intros [Hc _] Hi Hm Hres Hh Hready Hs Hrender. cbn [SetupWithManager su_Actions].
  destruct (request_served base s ray Hc Hi Hm Hres Hh Hready) as
    (s4 & l & E1 & Hc4 & Hi4 & Hr4 & Hres4 & Hm4 & Hb4 & Hk4 & Hh4 & Hset).
  destruct (Hrender (os s4) Hh4 Hset) as (us & o' & Hu & Hcert).
  destruct (resources_served base s4 _ Hc4 Hi4 Hr4 Hres4 Hm4) as (t1 & E2 & Hc1 & Hi1 & Hr1 & Hs1).
  { by rewrite Hk4. }
  { exists us, o'. rewrite Hb4, Hk4. by split. }
  change (prepare_actions base) with
    ([managementStateAction; releasesAction base; manifestInitAction; applyImageParamsAction base] ++
     [RenderKustomize base namespaceFn; certManagerRequirementAction (K := K) (U := U);
      filterPlatformResources; notebookClusterRoleAction]).
  rewrite <- app_assoc, run_actions_app, (bind_Ok _ _ _ _ _ E1).
  rewrite run_actions_app, (bind_Ok _ _ _ _ _ E2).
  set (opts := [WithFieldOwner FieldOwner; WithPartOfLabelDefault ComponentName; WithApplyOrder]).
  destruct (deploy_serves opts t1) as (t2 & E3 & Hs2); [by split; [|eexists]|done|].
  rewrite (run_step deployAction _ _ _ E3).
  pose proof (deploy_keeps opts t1) as (Hc2 & He2 & _ & Hi2). rewrite E3 in Hc2, He2, Hi2.
  cbn [snd] in *. destruct (Hi2 _ Hi1) as [cs Hcs].
  assert (removed (rr t2) = false) as Hr2.
  { rewrite <- Hr1. apply removed_lookup. unfold ext_lookup. by rewrite He2. }
  rewrite Hc1 in Hc2.
  destruct (deployments_serves namespaceFn t2) as (t3 & E4 & Hs3).
  { split; [done|by eexists]. }
  { by eapply namespaceFn_is_ok. }
  { done. }
  pose proof (deployments_keeps namespaceFn t2) as (Hc3 & _ & _ & Hi3). rewrite E4 in Hc3, Hi3.
  cbn [snd] in *. destruct (Hi3 _ Hcs) as [cs' Hcs']. rewrite Hc2 in Hc3.
  apply (report_served base t2 t3 _ Hc3 Hcs' Hs3).
  unfold deploymentStatusAction. rewrite bind_split. unfold gets. by rewrite Hr2.
Qed.
End managed.

(** A pass over a managed module completes.  On a machine whose calls do not
    fail, with an API server and a framework that serve, and manifests that can be
    rendered once the module has prepared them, the pass runs to its end, whether
    the manifests were ever copied or not and whatever the cluster holds; and then
    the status is aligned with the resource. *)
Theorem managed_pass_completes {K U} {KA : KubeAPI K} {SA : ServingAPI K} {RS : RoleStore K}
    {OS : ObjectStore K} {UN : Unstructured U} {UL : UnstructuredLaws U} {FW : Framework K U}
    {SF : ServingFramework K U} {FL : FrameworkLaws K U} {RL : RequestLaws K U} {SV : Semver}
    {MR : MapRange} {RC : Reconciler K U} p base (s : State K U) ray :
  well_formed s → Instance_ (rr s) = Some (ARay ray) →
  ManagementState (ray_spec ray) ≠ Removed → Resources (rr s) = [] →
  healthy (os s) → ready base (os s) → serving (cluster s) →
  renders base (ApplicationsNamespace (ray_spec ray)) (os s) (cluster s) →
  ∃ s' l ray', run_actions (su_Actions (SetupWithManager p base)) s = (Ok tt, s') ∧
    kuberay_releases l ∧ Instance_ (rr s') = Some (ARay ray') ∧
    aligned_status (K := K) (U := U) (SetReleaseStatus l ray) ray'.
Proof.
  intros Hwf Hi Hm Hres Hh Hready Hs Hrender.
  destruct (managed_pass_served p base s ray Hwf Hi Hm Hres Hh Hready Hs Hrender) as (s' & E).
  destruct (managed_pass_run p base s s' ray Hwf Hi Hm Hres E) as
    (t1 & t2 & t3 & l & ray' & _ & _ & _ & _ & _ & _ & _ & Hl & Hi' & Hal).
  by exists s', l, ray'.
Qed.

(** ** Runs *)

Lemma sample_renders ns o k : renders (FW := fake_framework (λ _, rendered_sample)) "/m" ns o k.
Proof.
  intros o' _ _. exists rendered_sample, o'. split; [reflexivity|].
  intros u Hu Hg. exfalso. unfold rendered_sample, certManagerGVKs in *.
  rewrite !elem_of_cons, elem_of_nil in Hu. destruct Hu as [->|[->|[->|[]]]];
    cbn in Hg; rewrite !elem_of_cons, elem_of_nil in Hg; by destruct Hg as [|[|]].
Qed.

Lemma managed_pass_completes_witness :
  ∃ s', run_actions (su_Actions (SetupWithManager (FW := fake_framework (λ _, rendered_sample))
          (SV := any_version) (MR := canonical_range) (λ _, false) "/m"))
          (settle_state fresh_os) = (Ok tt, s').
Proof.
  destruct (managed_pass_completes (FW := fake_framework (λ _, rendered_sample)) (SV := any_version)
    (MR := canonical_range) (λ _, false) "/m" (settle_state fresh_os) (sample_ray Managed "apps"))
    as (s' & l & ray' & E & _);
    [split; [reflexivity|by eexists]|reflexivity|discriminate|reflexivity|intros n; reflexivity
    |exact fresh_os_ready|reflexivity|apply sample_renders|exists s'; exact E].
Defined.

(** A removed module with its old role and operands, then its finalizer. *)
Lemma removal_completes_witness :
  let su := SetupWithManager (FW := fake_framework (λ _, rendered_sample)) (SV := any_version)
              (MR := canonical_range) (λ _, false) "/m" in
  (∃ s', run_actions (su_Actions su) leaving_state = (Ok tt, s') ∧
     listed_kinds_gone (FW := fake_framework (λ _, rendered_sample)) (sample_ray Removed "apps") (cluster s')) ∧
  ∃ s', su_Finalizer su leaving_state = (Ok tt, s').
Proof.
  destruct (removal_completes (FW := fake_framework (λ _, rendered_sample)) (SV := any_version)
    (MR := canonical_range) (λ _, false) "/m" leaving_state (sample_ray Removed "apps"))
    as [H1 (s' & H2 & _)];
    [split; [reflexivity|by eexists]|reflexivity|discriminate|reflexivity|].
  destruct (H1 eq_refl) as (s1 & t & E1 & _ & _ & _ & Hg).
  split; [exists s1; split; [exact E1|exact Hg]|exists s'; exact H2].
Defined.
