(* ===== verification/RBAC.v ===== *)
(** * The permissions of the module: the RBAC markers of [ray_controller.go] and [main.go]

    The markers beside [SetupWithManager] and [main] say which requests the
    service account of the module may make.  An API server that enforces them is
    a transformer of the client interface: a call whose requests are not granted
    is refused and changes nothing.  The roles that are installed,
    [config/rbac/role.yaml] and [dist/install.yaml], are compared to the markers. *)
From Stdlib Require Import FunctionalExtensionality.
From S2P Require Import Prelude GoStrings OS API Kube Fake ParamsFile Overlay Params.
From S2P Require Import PlatformConfig Releases Status Render PlatformFilter Dependencies NotebookRBAC OwnedGC.
From S2P Require Import Controller.

(** ** The markers *)

Definition rule (groups resources verbs : list string) : PolicyRule :=
  Build_PolicyRule groups resources verbs.

Definition every_verb : list string :=
  ["get"; "list"; "watch"; "create"; "update"; "patch"; "delete"].

Definition every_verb_sorted : list string :=
  ["create"; "delete"; "get"; "list"; "patch"; "update"; "watch"].

Definition controller_markers : list PolicyRule :=
  [rule ["components.platform.opendatahub.io"] ["rays"] every_verb;
   rule ["components.platform.opendatahub.io"] ["rays/status"] ["get"; "update"; "patch"];
   rule ["components.platform.opendatahub.io"] ["rays/finalizers"] ["update"];
   rule ["apps"] ["deployments"] every_verb;
   rule [""] ["services"; "configmaps"; "serviceaccounts"; "persistentvolumeclaims"] every_verb;
   rule [""] ["namespaces"] ["get"; "list"; "watch"];
   rule [""] ["events"] every_verb;
   rule ["events.k8s.io"] ["events"] ["create"; "patch"];
   rule [""] ["pods"; "pods/status"; "pods/proxy"; "pods/resize"; "secrets"; "services/proxy";
       "services/status"] ["get"; "list"; "watch"; "create"; "update"; "patch"; "delete";
       "deletecollection"];
   rule ["authentication.k8s.io"] ["tokenreviews"] ["create"];
   rule ["authorization.k8s.io"] ["subjectaccessreviews"] ["create"];
   rule ["batch"] ["jobs"] every_verb;
   rule ["cert-manager.io"] ["certificates"; "issuers"] every_verb;
   rule ["cert-manager.io"] ["certificates/status"] ["get"; "update"; "patch"];
   rule ["discovery.k8s.io"] ["endpointslices"] ["get"; "list"; "watch"];
   rule ["extensions"] ["ingresses"] every_verb;
   rule ["gateway.networking.k8s.io"] ["gateways"; "httproutes"; "referencegrants"] every_verb;
   rule ["networking.k8s.io"] ["ingresses"; "ingressclasses"; "networkpolicies"] every_verb;
   rule ["operator.openshift.io"] ["kubeapiservers"; "kubeapiservers/status"] ["get"; "list";
       "watch"];
   rule ["config.openshift.io"] ["apiservers"] ["get"; "list"; "watch"];
   rule ["route.openshift.io"] ["routes"] every_verb;
   rule ["ray.io"] ["rayclusters"; "rayjobs"; "rayservices"; "raycronjobs"] ["get"; "list";
       "watch"; "create"; "update"; "patch"; "delete"; "deletecollection"];
   rule ["ray.io"] ["rayclusters/finalizers"; "rayjobs/finalizers"; "rayservices/finalizers";
       "raycronjobs/finalizers"] ["get"; "update"];
   rule ["ray.io"] ["rayclusters/status"; "rayservices/status"; "raycronjobs/status"] ["get";
       "list"; "update"; "patch"];
   rule ["ray.io"] ["rayjobs/status"] ["get"; "list"; "update"; "patch"; "create"; "delete"];
   rule ["rbac.authorization.k8s.io"] ["clusterroles"; "clusterrolebindings"; "roles";
       "rolebindings"] every_verb;
   rule ["admissionregistration.k8s.io"] ["mutatingwebhookconfigurations";
       "validatingwebhookconfigurations"] every_verb;
   rule ["apiextensions.k8s.io"] ["customresourcedefinitions"] ["get"; "list"; "watch"; "create";
       "update"; "patch"];
   rule ["security.openshift.io"] ["securitycontextconstraints"] every_verb;
   rule ["coordination.k8s.io"] ["leases"] every_verb].

(** The marker of [main.go]. *)
Definition main_markers : list PolicyRule :=
  [rule ["config.openshift.io"] ["apiservers"] ["get"; "list"; "watch"]].

Definition markers : list PolicyRule := controller_markers ++ main_markers.

(** ** The roles that are installed *)

Definition manager_role : list PolicyRule :=
  [rule [""] ["configmaps"; "events"; "persistentvolumeclaims"; "serviceaccounts";
       "services"] every_verb_sorted;
   rule [""] ["namespaces"] ["get"; "list"; "watch"];
   rule [""] ["pods"; "pods/proxy"; "pods/resize"; "pods/status"; "secrets"; "services/proxy";
       "services/status"] ["create"; "delete"; "deletecollection"; "get"; "list"; "patch";
       "update"; "watch"];
   rule ["admissionregistration.k8s.io"] ["mutatingwebhookconfigurations";
       "validatingwebhookconfigurations"] every_verb_sorted;
   rule ["apiextensions.k8s.io"] ["customresourcedefinitions"] ["create"; "get"; "list"; "patch";
       "update"; "watch"];
   rule ["apps"] ["deployments"] every_verb_sorted;
   rule ["authentication.k8s.io"] ["tokenreviews"] ["create"];
   rule ["authorization.k8s.io"] ["subjectaccessreviews"] ["create"];
   rule ["batch"] ["jobs"] every_verb_sorted;
   rule ["cert-manager.io"] ["certificates"; "issuers"] every_verb_sorted;
   rule ["cert-manager.io"] ["certificates/status"] ["get"; "patch"; "update"];
   rule ["components.platform.opendatahub.io"] ["rays"] every_verb_sorted;
   rule ["components.platform.opendatahub.io"] ["rays/finalizers"] ["update"];
   rule ["components.platform.opendatahub.io"] ["rays/status"] ["get"; "patch"; "update"];
   rule ["config.openshift.io"] ["apiservers"] ["get"; "list"; "watch"];
   rule ["coordination.k8s.io"] ["leases"] every_verb_sorted;
   rule ["discovery.k8s.io"] ["endpointslices"] ["get"; "list"; "watch"];
   rule ["events.k8s.io"] ["events"] ["create"; "patch"];
   rule ["extensions"] ["ingresses"] every_verb_sorted;
   rule ["gateway.networking.k8s.io"] ["gateways"; "httproutes";
       "referencegrants"] every_verb_sorted;
   rule ["networking.k8s.io"] ["ingressclasses"; "ingresses";
       "networkpolicies"] every_verb_sorted;
   rule ["operator.openshift.io"] ["kubeapiservers"; "kubeapiservers/status"] ["get"; "list";
       "watch"];
   rule ["ray.io"] ["rayclusters"; "raycronjobs"; "rayjobs"; "rayservices"] ["create"; "delete";
       "deletecollection"; "get"; "list"; "patch"; "update"; "watch"];
   rule ["ray.io"] ["rayclusters/finalizers"; "raycronjobs/finalizers"; "rayjobs/finalizers";
       "rayservices/finalizers"] ["get"; "update"];
   rule ["ray.io"] ["rayclusters/status"; "raycronjobs/status"; "rayservices/status"] ["get";
       "list"; "patch"; "update"];
   rule ["ray.io"] ["rayjobs/status"] ["create"; "delete"; "get"; "list"; "patch"; "update"];
   rule ["rbac.authorization.k8s.io"] ["clusterrolebindings"; "clusterroles"; "rolebindings";
       "roles"] every_verb_sorted;
   rule ["route.openshift.io"] ["routes"] every_verb_sorted;
   rule ["security.openshift.io"] ["securitycontextconstraints"] every_verb_sorted].

(** The consolidated manifest: its cluster role, and the role of the namespace of
    the operator. *)
Definition install_cluster_role : list PolicyRule :=
  [rule ["apiextensions.k8s.io"] ["customresourcedefinitions"] ["get"; "list"; "watch"];
   rule ["components.platform.opendatahub.io"] ["rays"] every_verb_sorted;
   rule ["components.platform.opendatahub.io"] ["rays/finalizers"] ["update"];
   rule ["components.platform.opendatahub.io"] ["rays/status"] ["get"; "patch"; "update"]].

Definition install_namespace_role : list PolicyRule :=
  [rule [""] ["services"] every_verb;
   rule [""] ["configmaps"] every_verb;
   rule [""] ["serviceaccounts"] every_verb;
   rule [""] ["events"] ["create"; "patch"];
   rule ["apps"] ["deployments"] every_verb].

(** ** Authorization

    [rbac.RuleAllows]: a rule allows a request whose group, resource and verb it
    names; a star names everything. *)
Definition names (l : list string) (x : string) : bool :=
  existsb (λ y, String.eqb y x || String.eqb y "*") l.

Definition allows (g r v : string) (p : PolicyRule) : bool :=
  names (APIGroups p) g && names (PolicyResources p) r && names (Verbs p) v.

Definition granted (rules : list PolicyRule) (g r v : string) : bool := existsb (allows g r v) rules.

(** The requests a rule stands for. *)
Definition triples (rules : list PolicyRule) : list (string * string * string) :=
  p ← rules; g ← APIGroups p; r ← PolicyResources p; v ← Verbs p; [(g, r, v)].

(** A role may be written by who holds its rules already, or may escalate. *)
Definition covers (rules written : list PolicyRule) : bool :=
  granted rules "rbac.authorization.k8s.io" "clusterroles" "escalate" ||
  forallb (λ '(g, r, v), granted rules g r v) (triples written).

(** ** A client that is refused what it is not granted *)

Section authorized.
Context {K : Type}.

Definition rays_group := "components.platform.opendatahub.io".
Definition rbac_group := "rbac.authorization.k8s.io".

(** The group and the resource of a list. *)
Definition resource_of (l : ListKind) : string * string :=
  match l with
  | DeploymentList => ("apps", "deployments")
  | ConfigMapList => ("", "configmaps")
  | ServiceList => ("", "services")
  | ServiceAccountList => ("", "serviceaccounts")
  | MutatingWebhookConfigurationList =>
      ("admissionregistration.k8s.io", "mutatingwebhookconfigurations")
  | ClusterRoleList => (rbac_group, "clusterroles")
  | ClusterRoleBindingList => (rbac_group, "clusterrolebindings")
  end.

Definition may (rules : list PolicyRule) (r : string * string) (verbs : list string) : bool :=
  forallb (granted rules r.1 r.2) verbs.

(** The client of the manager reads through a cache, which lists and watches. *)
Definition may_read (rules : list PolicyRule) (r : string * string) : bool :=
  may rules r ["get"; "list"; "watch"].

(** Of a call with a guard that failed. *)
Definition refuse {A} (allowed : bool) (r : (api_error + A) * K) (k : K) : (api_error + A) * K :=
  if allowed then r else (inl forbidden, k).

Definition authorized (rules : list PolicyRule) (ka : KubeAPI K) : KubeAPI K := {|
  GetRay n k := if may_read rules (rays_group, "rays") then GetRay n k else inl forbidden;
  GetConfigMap ns n k :=
    if may_read rules (resource_of ConfigMapList) then GetConfigMap ns n k else inl forbidden;
  GetClusterRole n k :=
    if may_read rules (resource_of ClusterRoleList) then GetClusterRole n k else inl forbidden;
  UpdateRay r k := refuse (may rules (rays_group, "rays") ["update"]) (UpdateRay r k) k;
  UpdateClusterRole c k :=
    refuse (may rules (resource_of ClusterRoleList) ["update"]) (UpdateClusterRole c k) k;
  DeleteClusterRole c k :=
    if may rules (resource_of ClusterRoleList) ["delete"] then DeleteClusterRole c k
    else (Some forbidden, k);
  CreateOrUpdate c f k :=
    let existing :=
      match GetClusterRole (Name (cr_meta c)) k with inr x => x | inl _ => c end in
    if may_read rules (resource_of ClusterRoleList) &&
       may rules (resource_of ClusterRoleList) ["create"; "update"] &&
       covers rules (cr_Rules (f existing))
    then CreateOrUpdate c f k else (Some (EApi forbidden), k);
  ObjectList := @ObjectList K ka;
  ListObjects l ns k :=
    if may_read rules (resource_of l) then ListObjects l ns k else inl forbidden;
  ExtractList := @ExtractList K ka;
  Delete o p k :=
    if may rules (resource_of (obj_list o)) ["delete"] then Delete o p k
    else (Some forbidden, k);
  RemoveFinalizer := @RemoveFinalizer K ka;
  HasCRD g k :=
    if may_read rules ("apiextensions.k8s.io", "customresourcedefinitions") then HasCRD g k
    else inl (EApi forbidden);
  RESTMapping := @RESTMapping K ka;
|}.
End authorized.

(** * Properties *)

(** What is granted depends on the requests the rules stand for alone. *)
Definition matches (g r v : string) (t : string * string * string) : bool :=
  names [t.1.1] g && names [t.1.2] r && names [t.2] v.

Lemma granted_triples rules g r v : granted rules g r v = existsb (matches g r v) (triples rules).
Proof.
  apply eq_true_iff_eq. unfold granted. rewrite !existsb_exists. split.
  - intros (p & Hp & Ha). unfold allows, names in Ha. rewrite !andb_true_iff, !existsb_exists in Ha.
    destruct Ha as [[(g' & Hg & Eg) (r' & Hr & Er)] (v' & Hv & Ev)].
    exists (g', r', v'). split.
    + apply list_elem_of_In in Hp, Hg, Hr, Hv. apply list_elem_of_In. unfold triples.
      apply list_elem_of_bind. exists p. split; [|done].
      apply list_elem_of_bind. exists g'. split; [|done].
      apply list_elem_of_bind. exists r'. split; [|done].
      apply list_elem_of_bind. exists v'. split; [set_solver|done].
    + unfold matches, names. cbn. by rewrite Eg, Er, Ev.
  - intros ([[g' r'] v'] & Ht & Hm). apply list_elem_of_In in Ht. unfold triples in Ht.
    apply list_elem_of_bind in Ht as (p & Ht & Hp). apply list_elem_of_bind in Ht as (g2 & Ht & Hg).
    apply list_elem_of_bind in Ht as (r2 & Ht & Hr). apply list_elem_of_bind in Ht as (v2 & Ht & Hv).
    apply list_elem_of_singleton in Ht. injection Ht as -> -> ->.
    exists p. split; [by apply list_elem_of_In|]. unfold matches in Hm.
    unfold allows, names in *. cbn in Hm. rewrite !orb_false_r in Hm.
    rewrite !andb_true_iff in Hm. rewrite !andb_true_iff, !existsb_exists.
    apply list_elem_of_In in Hg, Hr, Hv. naive_solver.
Qed.

Lemma existsb_incl {A} (f : A → bool) l l' : l ⊆ l' → existsb f l = true → existsb f l' = true.
Proof.
  rewrite !existsb_exists. intros Hl (x & Hx & Hf). exists x. split; [|done].
  apply list_elem_of_In, Hl. by apply list_elem_of_In.
Qed.

Lemma granted_incl rules rules' g r v :
  triples rules ⊆ triples rules' → granted rules g r v = true → granted rules' g r v = true.
Proof. rewrite !granted_triples. apply existsb_incl. Qed.

Definition includes (l l' : list (string * string * string)) : bool :=
  forallb (λ t, bool_decide (t ∈ l')) l.

Lemma includes_spec l l' : includes l l' = true → l ⊆ l'.
Proof.
  unfold includes. rewrite forallb_forall. intros H t Ht. apply list_elem_of_In, H in Ht.
  by apply bool_decide_eq_true in Ht.
Qed.

(** The role that is installed grants what the markers ask for and nothing
    else, for every request; in particular no request to delete a custom
    resource definition is granted, whatever the module tries. *)
Theorem manager_role_is_the_markers g r v :
  granted manager_role g r v = granted markers g r v ∧
  (v = "delete" ∨ v = "deletecollection" →
   granted manager_role "apiextensions.k8s.io" "customresourcedefinitions" v = false).
Proof.
  split.
  - apply eq_true_iff_eq. split; apply granted_incl, includes_spec; vm_compute; reflexivity.
  - intros [-> | ->]; vm_compute; reflexivity.
Qed.

Lemma manager_role_is_the_markers_witness :
  granted manager_role "ray.io" "rayjobs" "create" = granted markers "ray.io" "rayjobs" "create" ∧
  granted manager_role "apiextensions.k8s.io" "customresourcedefinitions" "delete" = false.
Proof.
  split; [apply (manager_role_is_the_markers "ray.io" "rayjobs" "create")|].
  apply (manager_role_is_the_markers "ray.io" "rayjobs" "delete"). by left.
Defined.

(** ** Nothing the module does is refused *)

Section transparent.
Context {K U : Type} {KA : KubeAPI K}.

(** The interface with its [CreateOrUpdate] replaced. *)
Definition with_create_or_update
    (cou : ClusterRole → (ClusterRole → ClusterRole) → K → option error * K)
    (ka : KubeAPI K) : KubeAPI K := {|
  GetRay := GetRay; GetConfigMap := GetConfigMap; GetClusterRole := GetClusterRole;
  UpdateRay := UpdateRay; UpdateClusterRole := UpdateClusterRole;
  DeleteClusterRole := DeleteClusterRole; CreateOrUpdate := cou;
  ObjectList := @ObjectList K ka; ListObjects := ListObjects; ExtractList := ExtractList;
  Delete := Delete; RemoveFinalizer := RemoveFinalizer; HasCRD := HasCRD;
  RESTMapping := RESTMapping |}.

(** Under the markers every call passes, but for the escalation check. *)
Definition escalation_check (ka : KubeAPI K) :=
  @CreateOrUpdate K (authorized markers ka).

Lemma authorized_eq :
  authorized markers KA = with_create_or_update (escalation_check KA) KA.
Proof.
  unfold authorized, with_create_or_update.
  assert ((λ l ns k, if may_read markers (resource_of l) then ListObjects l ns k else inl forbidden)
          = @ListObjects K KA) as ->.
  { extensionality l. extensionality ns. extensionality k.
    assert (may_read markers (resource_of l) = true) as -> by (destruct l; vm_compute; reflexivity).
    done. }
  assert ((λ o p k, if may markers (resource_of (obj_list o)) ["delete"] then Delete o p k
                    else (Some forbidden, k)) = @Delete K KA) as ->; [|reflexivity].
  extensionality o. extensionality p. extensionality k.
  assert (may markers (resource_of (obj_list o)) ["delete"] = true) as ->; [|done].
  destruct (obj_list o); vm_compute; reflexivity.
Qed.
End transparent.

Section pipeline.
Context {K U : Type} {KA : KubeAPI K} {UN : Unstructured U} {FW : Framework K U}
  {SV : Semver} {MR : MapRange} {RC : Reconciler K U}.

(** The permissions suffice for the calls of the module itself: an API server that
    enforces the markers on the client, and the check against escalation when a
    cluster role is written, is indistinguishable from one that enforces nothing.
    (The actions of the framework are taken as they are here.) *)
Lemma client_permissions_suffice (dp : Event → bool) (base : string) (s : State K U) o k :
  let enforced := SetupWithManager (KA := authorized markers KA) dp base in
  let open := SetupWithManager (KA := KA) dp base in
  run_actions (su_Actions enforced) s = run_actions (su_Actions open) s ∧
  su_Finalizer enforced s = su_Finalizer open s ∧
  su_PreApply enforced s = su_PreApply open s ∧
  su_WatchMapper enforced o k = su_WatchMapper open o k.
Proof.
  cbv zeta. rewrite (authorized_eq (KA := KA)). split_and!; reflexivity.
Qed.
End pipeline.

(** The consolidated manifest does not suffice.  The roles of
    [dist/install.yaml], even if the one of the namespace held everywhere, do not
    let the module write a cluster role: on every cluster, the action on the
    notebook role of a managed module is refused and changes nothing. *)
Theorem install_manifest_is_stale {K U} {KA : KubeAPI K} {FW : Framework K U} (s : State K U) :
  HasClient (rr s) = true → removed (rr s) = false →
  notebookClusterRoleAction
    (KA := authorized (install_cluster_role ++ install_namespace_role) KA) s =
  (Err (Wrapf "apply notebook ClusterRole %q: %w" [notebookClusterRoleName] (EApi forbidden)), s).
Proof.
  intros Hc Hr. unfold notebookClusterRoleAction. rewrite bind_split. unfold gets. cbn [fst snd].
  rewrite Hr. unfold applyNotebookClusterRole.
  rewrite (bind_Ok _ _ _ _ _ (with_client_call _ s Hc)). by destruct s.
Qed.

Lemma install_manifest_is_stale_witness :
  let s := sample_state (sample_ray Managed "apps") empty_fake (boot image_tree ∅) in
  notebookClusterRoleAction
    (KA := authorized (install_cluster_role ++ install_namespace_role) fake_api)
    (FW := fake_framework (λ _, [])) s =
  (Err (Wrapf "apply notebook ClusterRole %q: %w" [notebookClusterRoleName] (EApi forbidden)), s).
Proof. apply install_manifest_is_stale; reflexivity. Defined.
