(* ===== verification/Operands.v ===== *)
(** * The operand: what [opt/manifests] has the module deploy

    The roles of the overlay that is rendered, [kuberay/rbac] and
    [kuberay/openshift/rbac], and the kinds of its objects, as data (the [odh] and
    the [rhoai] tree are the same); against the markers of the module, against
    the requirement on cert-manager, and against the lists of [owned_gc.go].  At the
    end, a server that enforces the markers on the actions of the framework as well
    as on the client: for objects of the operand it refuses nothing. *)
From Stdlib Require Import FunctionalExtensionality.
From S2P Require Import Prelude GoStrings OS API Kube Fake ParamsFile Overlay Params.
From S2P Require Import PlatformConfig Releases Status Render PlatformFilter Dependencies NotebookRBAC OwnedGC.
From S2P Require Import Controller RBAC.

(** ** The roles *)

Definition operator_role : list PolicyRule :=
  [rule [""] ["configmaps"; "persistentvolumeclaims"; "pods/status"; "serviceaccounts";
       "services"] every_verb_sorted;
   rule [""] ["pods"] ["create"; "delete"; "deletecollection"; "get"; "list"; "patch";
       "update"; "watch"];
   rule [""] ["pods/proxy"; "services/status"] ["get"; "patch"; "update"];
   rule [""] ["pods/resize"] ["patch"];
   rule [""] ["secrets"] ["create"; "delete"; "get"; "list"; "update"; "watch"];
   rule [""] ["services/proxy"] ["create"; "get"; "patch"; "update"];
   rule ["apps"] ["deployments"] ["get"; "list"; "patch"; "update"; "watch"];
   rule ["authentication.k8s.io"] ["tokenreviews"] ["create"];
   rule ["authorization.k8s.io"] ["subjectaccessreviews"] ["create"];
   rule ["batch"] ["jobs"] every_verb_sorted;
   rule ["cert-manager.io"] ["certificates"] ["create"; "get"; "list"; "update"; "watch"];
   rule ["cert-manager.io"] ["certificates/status"] ["get"];
   rule ["cert-manager.io"] ["issuers"] ["create"; "get"; "list"; "watch"];
   rule ["coordination.k8s.io"] ["leases"] ["create"; "get"; "list"; "update"];
   rule ["discovery.k8s.io"] ["endpointslices"] ["get"; "list"; "watch"];
   rule ["events.k8s.io"] ["events"] ["create"; "patch"];
   rule ["extensions"; "networking.k8s.io"] ["ingresses"] ["create"; "delete"; "get"; "list";
       "patch"; "update"; "watch"];
   rule ["gateway.networking.k8s.io"] ["gateways"] ["create"; "delete"; "get"; "list";
       "update"; "watch"];
   rule ["gateway.networking.k8s.io"] ["httproutes"; "referencegrants"] ["create"; "delete";
       "get"; "list"; "patch"; "update"; "watch"];
   rule ["networking.k8s.io"] ["ingressclasses"] ["get"; "list"; "watch"];
   rule ["networking.k8s.io"] ["networkpolicies"] ["create"; "delete"; "get"; "list"; "update";
       "watch"];
   rule ["operator.openshift.io"] ["kubeapiservers"; "kubeapiservers/status"] ["get"; "list";
       "watch"];
   rule ["ray.io"] ["rayclusters"; "raycronjobs"; "rayjobs"; "rayservices"] ["create";
       "delete"; "get"; "list"; "patch"; "update"; "watch"];
   rule ["ray.io"] ["rayclusters/finalizers"; "raycronjobs/finalizers"; "rayjobs/finalizers";
       "rayservices/finalizers"] ["update"];
   rule ["ray.io"] ["rayclusters/status"; "raycronjobs/status"; "rayjobs/status";
       "rayservices/status"] ["get"; "patch"; "update"];
   rule ["rbac.authorization.k8s.io"] ["clusterrolebindings"; "clusterroles"] ["get"; "list";
       "watch"];
   rule ["rbac.authorization.k8s.io"] ["rolebindings"] ["create"; "delete"; "get"; "list";
       "patch"; "update"; "watch"];
   rule ["rbac.authorization.k8s.io"] ["roles"] ["create"; "delete"; "get"; "list"; "update";
       "watch"];
   rule ["route.openshift.io"] ["routes"] ["create"; "delete"; "get"; "list"; "patch";
       "update"; "watch"]].

Definition leader_election_role : list PolicyRule :=
  [rule [""] ["configmaps"] ["get"; "list"; "watch"; "create"; "update"; "patch"; "delete"];
   rule [""] ["events"] ["create"];
   rule ["coordination.k8s.io"] ["leases"] ["create"; "get"; "list"; "update"]].

Definition editor_role : list PolicyRule :=
  [rule ["ray.io"] ["rayjobs"; "rayclusters"; "rayservices"] ["create"; "delete";
       "deletecollection"; "get"; "list"; "patch"; "update"; "watch"];
   rule ["ray.io"] ["rayservices/finalizers"; "rayclusters/finalizers"; "rayjobs/finalizers";
       "rayservices/status"; "rayclusters/status"; "rayjobs/status"] ["get"]].

Definition viewer_role : list PolicyRule :=
  [rule ["ray.io"] ["rayjobs"; "rayclusters"; "rayservices"] ["get"; "list"; "watch"];
   rule ["ray.io"] ["rayservices/finalizers"; "rayclusters/finalizers"; "rayjobs/finalizers";
       "rayservices/status"; "rayclusters/status"; "rayjobs/status"] ["get"]].

Definition configmap_role : list PolicyRule :=
  [rule [""] ["configmaps"] every_verb_sorted].

Definition gateway_api_role : list PolicyRule :=
  [rule ["gateway.networking.k8s.io"] ["gateways"] ["get"; "list"; "watch"];
   rule ["gateway.networking.k8s.io"] ["httproutes"] ["create"; "delete"; "get"; "list";
       "patch"; "update"; "watch"];
   rule ["gateway.networking.k8s.io"] ["referencegrants"] ["create"; "delete"; "get"; "list";
       "patch"; "update"; "watch"]].

Definition tls_role : list PolicyRule :=
  [rule ["config.openshift.io"] ["apiservers"] ["get"; "list"; "watch"]].

Definition operand_roles : list (list PolicyRule) :=
  [operator_role; leader_election_role; editor_role; viewer_role; configmap_role; gateway_api_role;
   tls_role].

(** ** The kinds of the objects, with the resource of each *)

Definition operand_kinds : list (GroupVersionKind * string) :=
  [(sccGVK, "securitycontextconstraints");
   (GVK "apiextensions.k8s.io" "v1" "CustomResourceDefinition", "customresourcedefinitions");
   (GVK rbac_group "v1" "ClusterRole", "clusterroles");
   (GVK rbac_group "v1" "ClusterRoleBinding", "clusterrolebindings");
   (GVK rbac_group "v1" "Role", "roles");
   (GVK rbac_group "v1" "RoleBinding", "rolebindings");
   (GVK "" "v1" "ServiceAccount", "serviceaccounts");
   (GVK "" "v1" "Service", "services");
   (GVK "" "v1" "ConfigMap", "configmaps");
   (GVK "apps" "v1" "Deployment", "deployments");
   (GVK "networking.k8s.io" "v1" "NetworkPolicy", "networkpolicies");
   (GVK "admissionregistration.k8s.io" "v1" "MutatingWebhookConfiguration",
      "mutatingwebhookconfigurations");
   (GVK "admissionregistration.k8s.io" "v1" "ValidatingWebhookConfiguration",
      "validatingwebhookconfigurations");
   (GVK "cert-manager.io" "v1" "Issuer", "issuers");
   (GVK "cert-manager.io" "v1" "Certificate", "certificates")].

Definition resource_of_kind (e : GroupVersionKind * string) : string * string := (gvk_Group e.1, e.2).

(** * Properties *)

(** The check against escalation passes for every part of a role of the operand. *)
Lemma operand_roles_covered rules written :
  rules ∈ operand_roles → triples written ⊆ triples rules → covers markers written = true.
Proof.
  intros Hr Hsub.
  assert (includes (triples rules) (triples markers) = true) as Hi.
  { assert (forallb (λ r, includes (triples r) (triples markers)) operand_roles = true) as Hall
      by (vm_compute; reflexivity).
    rewrite forallb_forall in Hall. by apply Hall, list_elem_of_In. }
  unfold covers. apply orb_true_iff. right. apply forallb_forall. intros [[g r] v] Hin.
  apply list_elem_of_In, Hsub, (includes_spec _ _ Hi) in Hin. rewrite granted_triples.
  apply existsb_exists. exists (g, r, v). split; [by apply list_elem_of_In|].
  unfold matches, names. cbn. by rewrite !String.eqb_refl.
Qed.

(** Every role of the operand can be written, and bound, by the module: the check
    against escalation of an API server that enforces the markers passes, so that
    writing a cluster role with the rules of one is as if nothing were enforced;
    and so is every part of one. *)
Theorem operand_roles_can_be_written {K} {KA : KubeAPI K} c f (k : K) rules :
  rules ∈ operand_roles →
  let existing := match GetClusterRole (Name (cr_meta c)) k with inr x => x | inl _ => c end in
  triples (cr_Rules (f existing)) ⊆ triples rules →
  @CreateOrUpdate K (authorized markers KA) c f k = CreateOrUpdate c f k.
Proof.
  intros Hr existing Hsub. cbn [authorized CreateOrUpdate]. fold existing.
  rewrite (operand_roles_covered rules _ Hr Hsub). by vm_compute.
Qed.

Lemma operand_roles_can_be_written_witness :
  let c := meta_named "kuberay-operator" in
  let new := Build_ClusterRole "" "" c [] in
  @CreateOrUpdate Fake (authorized markers fake_api) new (λ r, Build_ClusterRole "" "" c operator_role)
    empty_fake =
  CreateOrUpdate new (λ r, Build_ClusterRole "" "" c operator_role) empty_fake.
Proof.
  apply (operand_roles_can_be_written _ _ _ operator_role); [apply list_elem_of_here|done].
Defined.

(** The deployment is permitted: every kind of object of the operand may be read,
    written and applied; and every kind may be deleted but custom resource
    definitions, so that they outlive the module whatever it tries. *)
Theorem operand_kinds_can_be_deployed e :
  e ∈ operand_kinds →
  may markers (resource_of_kind e) ["get"; "list"; "watch"; "create"; "update"; "patch"] = true ∧
  may markers (resource_of_kind e) ["delete"] =
    negb (String.eqb (gvk_Kind e.1) "CustomResourceDefinition").
Proof.
  intros He. set (ok := λ e : GroupVersionKind * string,
    may markers (resource_of_kind e) ["get"; "list"; "watch"; "create"; "update"; "patch"] &&
    Bool.eqb (may markers (resource_of_kind e) ["delete"])
      (negb (String.eqb (gvk_Kind e.1) "CustomResourceDefinition"))).
  assert (forallb ok operand_kinds = true) as Hall by (vm_compute; reflexivity).
  rewrite forallb_forall in Hall. apply list_elem_of_In, Hall in He. unfold ok in He.
  apply andb_true_iff in He as [H1 H2]. split; [done|]. by apply Bool.eqb_prop.
Qed.

Lemma operand_kinds_can_be_deployed_witness :
  may markers (rbac_group, "roles") ["delete"] = true.
Proof.
  apply (operand_kinds_can_be_deployed (GVK rbac_group "v1" "Role", "roles")).
  assert (bool_decide ((GVK rbac_group "v1" "Role", "roles") ∈ operand_kinds) = true) as Hb
    by (vm_compute; reflexivity).
  by apply bool_decide_eq_true in Hb.
Defined.

(** What the operand holds decides the requirement on cert-manager: on a request
    with an object of each kind of the operand, and no object of another, the
    module can be deployed exactly on a cluster with both kinds of cert-manager. *)
Theorem operand_requires_cert_manager {K U} {KA : KubeAPI K} {UN : Unstructured U} (s : State K U) :
  HasClient (rr s) = true → removed (rr s) = false →
  (∀ g, g ∈ map fst operand_kinds ↔ ∃ u, u ∈ Resources (rr s) ∧ GVKOf u = g) →
  (certManagerRequirementAction s).1 = Ok tt ↔
  ∀ g, g ∈ certManagerGVKs → installed (cluster s) g.
Proof.
  intros Hc Hr Hg. pose proof (dependencies_run s Hc) as H.
  destruct (certManagerRequirementAction s) as [r s']. destruct H as [_ H]. cbn [fst].
  assert (dependencies_met s ↔ ∀ g, g ∈ certManagerGVKs → installed (cluster s) g) as <-.
  { unfold dependencies_met. rewrite Hr. split.
    - intros [|Hall] g Hcm; [done|].
      assert (g ∈ map fst operand_kinds) as Hin.
      { assert (bool_decide (Forall (.∈ map fst operand_kinds) certManagerGVKs) = true) as Hb
          by (vm_compute; reflexivity).
        apply bool_decide_eq_true in Hb. rewrite Forall_forall in Hb. by apply Hb. }
      apply Hg in Hin as (u & Hu & <-). by apply Hall.
    - intros Hall. right. auto. }
  destruct H as [[-> Hm]|[[e ->] Hm]]; naive_solver.
Qed.

Definition one_of_each : list Obj := map (λ e, MkObj e.1 "" "" None) operand_kinds.

Definition one_of_each_state : State Fake Obj :=
  MkState (set_Resources one_of_each (sample_request (sample_ray Managed "apps"))) empty_fake (boot ∅ ∅)
    (Build_FilterCache false false).

Lemma operand_requires_cert_manager_witness : (certManagerRequirementAction one_of_each_state).1 ≠ Ok tt.
Proof.
  intros H. destruct (operand_requires_cert_manager one_of_each_state) as [Himp _]; [done|done| |].
  2: discriminate (Himp H (GVK "cert-manager.io" "v1" "Issuer") (list_elem_of_here _ _)).
  intros g. cbn [rr set_Resources Resources one_of_each_state]. unfold one_of_each. split.
  - intros (e & -> & He)%list_elem_of_fmap. exists (MkObj e.1 "" "" None). split; [|done].
    apply list_elem_of_fmap. by exists e.
  - intros (u & (e & -> & He)%list_elem_of_fmap & <-). apply list_elem_of_fmap. by exists e.
Defined.

(** ** What is deleted directly

    The kinds that [deleteOwnedOperands] lists. *)
Definition collected (e : GroupVersionKind * string) : bool :=
  bool_decide (resource_of_kind e ∈ map resource_of (namespacedOwnedLists ++ clusterOwnedLists)).

(** The lists of [owned_gc.go] are not the kinds the module renders: besides the
    custom resource definitions, which stay, seven kinds are left to the
    collection by labels of the framework, a validating webhook among them. *)
Theorem kinds_left_to_the_framework :
  map (λ e, gvk_Kind e.1) (base.filter (λ e, collected e = false) operand_kinds) =
  ["SecurityContextConstraints"; "CustomResourceDefinition"; "Role"; "RoleBinding"; "NetworkPolicy";
   "ValidatingWebhookConfiguration"; "Issuer"; "Certificate"].
Proof. vm_compute. reflexivity. Qed.

(** No role of the operand lists events, though the marker for events says so. *)
Theorem operand_lists_no_events :
  existsb (λ rules, granted rules "" "events" "list" || granted rules "events.k8s.io" "events" "list")
    operand_roles = false.
Proof. vm_compute. reflexivity. Qed.

(** ** A framework that is refused what it is not granted

    The actions of the framework make their requests as the service account of
    the module too.  Deploying asks, for every object, to read, watch, create and
    patch its resource, and, when the object grants rules, to hold them (the check
    against escalation, for a binding on the role it binds); an object of a kind
    that is none of the operand's has no resource here and is refused.  The
    collection lists and deletes objects of the kinds of the operand, custom
    resource definitions excepted.  The availability reads the deployments. *)
Class GrantedRules (U : Type) {UN : Unstructured U} := {
  granted_rules : U → list PolicyRule;
  granted_set_namespace u n : granted_rules (SetNamespace n u) = granted_rules u;
  granted_set_labels u l : granted_rules (SetLabels l u) = granted_rules u;
}.

Definition resource_for (g : GroupVersionKind) : option (string * string) :=
  resource_of_kind ∘ snd <$> list_find (λ e, e.1 = g) operand_kinds.

Section framework.
Context {K U : Type} {UN : Unstructured U} {GU : GrantedRules U}.

Definition deploy_verbs : list string := ["get"; "list"; "watch"; "create"; "update"; "patch"].

Definition may_deploy (rules : list PolicyRule) (u : U) : bool :=
  match resource_for (GVKOf u) with
  | Some r => may rules r deploy_verbs && covers rules (granted_rules u)
  | None => false
  end.

Definition may_collect (rules : list PolicyRule) : bool :=
  forallb (λ e, String.eqb (gvk_Kind e.1) "CustomResourceDefinition" ||
                may rules (resource_of_kind e) ["list"; "delete"]) operand_kinds.

Definition checked (allowed : State K U → bool) (a : Action K U) : Action K U := λ s,
  if allowed s then a s else (Err (EApi forbidden), s).

Definition authorized_framework (rules : list PolicyRule) (fw : Framework K U) : Framework K U := {|
  MarkTrue := @MarkTrue K U fw;
  MarkFalse := @MarkFalse K U fw;
  IsStatusConditionTrue := @IsStatusConditionTrue K U fw;
  SetPlatformRelease := @SetPlatformRelease K U fw;
  GC_NewAction nsFn opts := checked (λ _, may_collect rules) (GC_NewAction nsFn opts);
  Deploy_NewAction opts :=
    checked (λ s, forallb (may_deploy rules) (Resources (rr s))) (Deploy_NewAction opts);
  Deployments_NewAction nsFn :=
    checked (λ _, may_read rules (resource_of DeploymentList)) (Deployments_NewAction nsFn);
  Engine_Render := @Engine_Render K U fw;
  DefaultPartOfLabelKey := @DefaultPartOfLabelKey K U fw;
  ConditionTypeProvisioningSucceeded := @ConditionTypeProvisioningSucceeded K U fw;
|}.

(** An object of the operand: of one of its kinds, granting rules of its roles. *)
Definition operand_object (u : U) : Prop :=
  GVKOf u ∈ map fst operand_kinds ∧
  ∃ rules, rules ∈ operand_roles ∧ triples (granted_rules u) ⊆ triples rules.

Lemma operand_may_be_deployed u : operand_object u → may_deploy markers u = true.
Proof.
  intros [Hk (rules & Hr & Hsub)]. unfold may_deploy.
  rewrite (operand_roles_covered rules _ Hr Hsub).
  assert (forallb (λ g, match resource_for g with
                        | Some r => may markers r deploy_verbs | None => false end)
            (map fst operand_kinds) = true) as Hall by (vm_compute; reflexivity).
  rewrite forallb_forall in Hall. apply list_elem_of_In, Hall in Hk.
  by destruct (resource_for (GVKOf u)); rewrite ?andb_true_r.
Qed.

Lemma operands_may_be_deployed (l : list U) :
  Forall operand_object l → forallb (may_deploy markers) l = true.
Proof.
  rewrite Forall_forall, forallb_forall. intros Hl u Hu%list_elem_of_In.
  by apply operand_may_be_deployed, Hl.
Qed.

Lemma operand_set_namespace u n {UL : UnstructuredLaws U} :
  operand_object u → operand_object (SetNamespace n u).
Proof. unfold operand_object. by rewrite gvk_set_namespace, granted_set_namespace. Qed.

Lemma operand_set_labels u l {UL : UnstructuredLaws U} :
  operand_object u → operand_object (SetLabels l u).
Proof. unfold operand_object. by rewrite gvk_set_labels, granted_set_labels. Qed.
End framework.

(** *** What is handed to the deployment

    [hands P m]: whatever the outcome, [m] leaves resources that satisfy [P] if
    those it found did. *)
Definition hands {K U A} (P : U → Prop) (m : M (State K U) A) : Prop :=
  ∀ s, Forall P (Resources (rr s)) → Forall P (Resources (rr (m s).2)).

Section hands.
Context {K U : Type} (P : U → Prop).

Lemma hands_same {A} (m : M (State K U) A) :
  (∀ s, Resources (rr (m s).2) = Resources (rr s)) → hands P m.
Proof. intros Hm s. by rewrite Hm. Qed.

Lemma hands_ret {A} (a : A) : hands (K := K) P (mret a).
Proof. by apply hands_same. Qed.

Lemma hands_fail {A} e : hands (K := K) P (@fail _ A e).
Proof. by apply hands_same. Qed.

Lemma hands_gets {A} (f : State K U → A) : hands P (gets f).
Proof. by apply hands_same. Qed.

Lemma hands_bind {A B} (m : M (State K U) A) (f : A → M (State K U) B) :
  hands P m → (∀ a, hands P (f a)) → hands P (m ≫= f).
Proof.
  intros Hm Hf s Hs. rewrite bind_split. specialize (Hm s Hs).
  destruct (m s) as [[a|e|w] s']; [by apply Hf|done..].
Qed.

Lemma hands_wrapping {A} f args (m : M (State K U) A) : hands P m → hands P (wrapping f args m).
Proof. intros Hm s Hs. specialize (Hm s Hs). unfold wrapping. by destruct (m s) as [[]]. Qed.

Lemma hands_for_each {A} (l : list A) (f : A → Action K U) :
  (∀ x, hands P (f x)) → hands P (for_each l f).
Proof.
  intros Hf. induction l as [|x l IH]; cbn [for_each]; [apply hands_ret|]. by apply hands_bind.
Qed.

Lemma hands_on_os {A} (m : M OS A) : hands (K := K) (U := U) P (on_os m).
Proof. apply hands_same. intros s. by rewrite on_os_eq. Qed.

Lemma hands_with_client {A} (m : M K A) : hands (U := U) P (with_client m).
Proof.
  apply hands_bind; [apply hands_gets|]. intros []; [|by apply hands_same].
  apply hands_same. intros s. unfold on_cluster, zoom. by destruct (m (cluster s)).
Qed.

Lemma hands_on_rr {A} (m : M (Request U) A) :
  (∀ r, Resources (m r).2 = Resources r) → hands (K := K) P (on_rr m).
Proof.
  intros Hm. apply hands_same. intros s. unfold on_rr, zoom. specialize (Hm (rr s)).
  by destruct (m (rr s)).
Qed.

Lemma hands_modify f :
  (∀ r, Forall P (Resources r) → Forall P (Resources (f r))) → hands (K := K) P (modify_rr f).
Proof. intros Hf s. rewrite modify_rr_eq. apply Hf. Qed.

Lemma hands_ext_set k v : hands (K := K) (U := U) P (on_rr (ext_set k v)).
Proof. apply hands_on_rr. intros r. unfold ext_set. by destruct (Extensions r). Qed.

Lemma hands_ext_init : hands (K := K) (U := U) P (on_rr ext_init).
Proof. apply hands_on_rr. intros r. unfold ext_init, modify. cbn. by destruct (Extensions r). Qed.
End hands.

Create HintDb hands.
#[export] Hint Resolve hands_ret hands_fail hands_gets hands_on_os hands_with_client hands_ext_set
  hands_ext_init : hands.
#[export] Hint Extern 3 (hands _ (on_rr the_ray)) => (by apply hands_on_rr) : hands.
#[export] Hint Extern 3 (hands _ (on_rr (get_with _))) => (by apply hands_on_rr) : hands.
#[export] Hint Extern 3 (hands _ (modify_rr (set_ray _))) => (by apply hands_modify) : hands.
#[export] Hint Extern 3 (hands _ (modify_rr (set_Generated _))) => (by apply hands_modify) : hands.
#[export] Hint Extern 3 (hands _ (modify_rr (set_Manifests _))) => (by apply hands_modify) : hands.

(** Decomposes a goal [hands P m] along the operations of [m]. *)
Ltac handing :=
  repeat first
    [ progress intros
    | solve [eauto 3 with hands]
    | apply hands_bind | apply hands_wrapping | apply hands_for_each
    | case_match ].

Section permitted.
Context {K U : Type} {KA : KubeAPI K} {UN : Unstructured U} {UL : UnstructuredLaws U}
  {GU : GrantedRules U} {FW : Framework K U} {SV : Semver} {MR : MapRange} {RC : Reconciler K U}.

(** The engine renders objects of the operand. *)
Definition renders_operand : Prop :=
  ∀ path ns o us o', Engine_Render (K := K) path ns o = (Ok us, o') → Forall (operand_object (U := U)) us.

Lemma hands_prepared ns (us : list U) :
  Forall operand_object us → Forall operand_object (prepare (K := K) ns us).
Proof.
  intros Hus. unfold prepare, stampPartOfLabels, forceNamespacedResources.
  apply Forall_map, (Forall_impl operand_object).
  - case_match; [done|]. apply Forall_map. eapply Forall_impl; [exact Hus|]. intros u Hu. cbn.
    case_match; [by apply operand_set_namespace|done].
  - intros u Hu. cbn. case_match; [done|by apply operand_set_labels].
Qed.

Lemma hands_render base : renders_operand → hands (operand_object (U := U)) (RenderKustomize base namespaceFn).
Proof.
  intros He. unfold RenderKustomize. apply hands_bind; [apply hands_gets|]. intros r.
  case_match; [apply hands_ret|]. apply hands_bind; [by apply hands_on_rr|]. intros ns.
  apply hands_bind; [|intros _; by apply hands_modify].
  apply hands_for_each. intros mi s Hs. unfold render_manifest. rewrite bind_split, on_os_eq.
  unfold wrapping.
  destruct (Engine_Render (manifest_path (render_base base r) mi) ns (os s)) as [[us|e|w] o'] eqn:E;
    cbn [fst snd]; [|done..].
  rewrite modify_rr_eq. cbn [snd rr set_Resources Resources]. apply Forall_app. split; [done|].
  by eapply hands_prepared, He.
Qed.

Lemma hands_filter (P : U → Prop) : hands (K := K) P filterPlatformResources.
Proof.
  intros s Hs. rewrite filterPlatformResources_run. cbn [snd rr].
  destruct (scc_known s); [done|]. cbn [set_Resources Resources]. unfold keep_non_scc.
  rewrite Forall_forall in Hs |- *. intros u [_ Hu]%list_elem_of_filter. by apply Hs.
Qed.

Lemma hands_prepare base a :
  renders_operand → a ∈ prepare_actions (K := K) (U := U) base → hands operand_object a.
Proof.
  intros He. unfold prepare_actions. rewrite !elem_of_cons, elem_of_nil.
  intros [->|[->|[->|[->|[->|[->|[->|[->|[]]]]]]]]].
  - unfold managementStateAction. handing.
  - unfold releasesAction. handing.
  - unfold manifestInitAction. handing. by apply hands_modify.
  - unfold applyImageParamsAction. handing.
  - by apply hands_render.
  - unfold certManagerRequirementAction, check_crd. handing.
  - apply hands_filter.
  - unfold notebookClusterRoleAction, applyNotebookClusterRole, deleteNotebookClusterRole, clear_owners.
    handing.
Qed.

Lemma hands_run (P : U → Prop) (l : list (Action K U)) :
  (∀ a, a ∈ l → hands P a) → hands P (run_actions l).
Proof.
  induction l as [|a l IH]; intros Hl s Hs; [by rewrite run_actions_nil|].
  rewrite run_actions_cons. apply hands_bind; [apply Hl, list_elem_of_here| |done].
  intros _. apply IH. intros b Hb. by apply Hl, list_elem_of_further.
Qed.

(** Under the markers the collection and the availability pass, and so does the
    deployment of objects of the operand. *)
Definition with_deploy (deploy : list DeployOption → Action K U) (fw : Framework K U) : Framework K U := {|
  MarkTrue := @MarkTrue K U fw;
  MarkFalse := @MarkFalse K U fw;
  IsStatusConditionTrue := @IsStatusConditionTrue K U fw;
  SetPlatformRelease := @SetPlatformRelease K U fw;
  GC_NewAction := @GC_NewAction K U fw;
  Deploy_NewAction := deploy;
  Deployments_NewAction := @Deployments_NewAction K U fw;
  Engine_Render := @Engine_Render K U fw;
  DefaultPartOfLabelKey := @DefaultPartOfLabelKey K U fw;
  ConditionTypeProvisioningSucceeded := @ConditionTypeProvisioningSucceeded K U fw;
|}.

Definition checked_deploy (opts : list DeployOption) : Action K U :=
  checked (λ s, forallb (may_deploy markers) (Resources (rr s))) (Deploy_NewAction opts).

Lemma authorized_framework_eq : authorized_framework markers FW = with_deploy checked_deploy FW.
Proof.
  unfold authorized_framework, with_deploy, checked.
  assert (may_collect markers = true) as -> by (vm_compute; reflexivity).
  assert (may_read markers (resource_of DeploymentList) = true) as -> by (vm_compute; reflexivity).
  reflexivity.
Qed.
End permitted.

(** C16: the permissions suffice.  Take an API server that enforces the markers:
    on every call of the module's client, the check against escalation when a
    cluster role is written included; and on the actions of the framework, which
    must be granted to read, watch, create, update and patch the resource of each
    object they deploy, and the rules it grants or binds, to list and delete every
    kind of the operand but custom resource definitions, and to read deployments.
    On a request whose resources are objects of the operand, a fresh one for
    instance, with an engine that renders such objects (of the kinds of
    [opt/manifests], granting no more than its roles), it is indistinguishable
    from a server that enforces nothing: the pass of the pipeline, the finalizer,
    the wait for a namespace and the mapper of the platform configuration end in
    the same outcome and the same state. *)
Theorem permissions_suffice {K U} {KA : KubeAPI K} {UN : Unstructured U} {UL : UnstructuredLaws U}
    {GU : GrantedRules U} {FW : Framework K U} {SV : Semver} {MR : MapRange} {RC : Reconciler K U}
    (dp : Event → bool) (base : string) (s : State K U) o k :
  Forall operand_object (Resources (rr s)) → renders_operand (K := K) (U := U) →
  let enforced := SetupWithManager (KA := authorized markers KA)
                    (FW := authorized_framework markers FW) dp base in
  let open := SetupWithManager (KA := KA) (FW := FW) dp base in
  run_actions (su_Actions enforced) s = run_actions (su_Actions open) s ∧
  su_Finalizer enforced s = su_Finalizer open s ∧
  su_PreApply enforced s = su_PreApply open s ∧
  su_WatchMapper enforced o k = su_WatchMapper open o k.
Proof.
  intros Hs He. cbv zeta.
  rewrite (authorized_eq (KA := KA)), (authorized_framework_eq (FW := FW)).
  split_and!; [|reflexivity..]. cbn [SetupWithManager su_Actions].
  rewrite !run_actions_app, !bind_split.
  change (prepare_actions (FW := with_deploy checked_deploy FW) base) with (prepare_actions base).
  pose proof (hands_run operand_object (prepare_actions base) (λ a, hands_prepare base a He) s Hs) as H1.
  destruct (run_actions (prepare_actions base) s) as [[[]|e|w] s1]; [|reflexivity..].
  cbn [snd] in H1. rewrite !run_actions_cons, !bind_split.
  assert (deployAction (FW := with_deploy checked_deploy FW) s1 = deployAction s1) as ->; [|reflexivity].
  unfold deployAction. cbn [with_deploy Deploy_NewAction]. unfold checked_deploy, checked.
  by rewrite (operands_may_be_deployed _ H1).
Qed.

#[export] Instance sample_rules : GrantedRules Obj.
Proof.
  refine {| granted_rules u := if String.eqb (gvk_Kind (o_gvk u)) "ClusterRole" then operator_role else [] |};
    reflexivity.
Defined.

Lemma rendered_sample_operand : Forall operand_object rendered_sample.
Proof.
  assert (∀ l : list Obj, forallb (λ u, bool_decide (GVKOf u ∈ map fst operand_kinds)) l = true →
    Forall operand_object l) as H; [|apply H; vm_compute; reflexivity].
  intros l. rewrite forallb_forall, Forall_forall. intros Hl u Hu%list_elem_of_In. split.
  - by apply (proj1 (bool_decide_eq_true _)), Hl.
  - exists operator_role. split; [apply list_elem_of_here|]. cbn [granted_rules sample_rules].
    case_match; [done|apply list_subseteq_nil].
Qed.

Lemma permissions_suffice_witness :
  Forall operand_object rendered_sample ∧
  run_actions (su_Actions (SetupWithManager (KA := authorized markers fake_api)
      (FW := authorized_framework markers (fake_framework (λ _, rendered_sample)))
      (SV := any_version) (MR := canonical_range) (λ _, false) "/opt/manifests")) managed_state =
  run_actions (su_Actions pipeline_setup) managed_state.
Proof.
  split; [exact rendered_sample_operand|].
  refine (proj1 (permissions_suffice (FW := fake_framework (λ _, rendered_sample)) (SV := any_version)
    (MR := canonical_range) (λ _, false) "/opt/manifests" managed_state
    (Build_ObjectMeta "" "" "" None [] [] 0 None) empty_fake _ _)).
  - apply Forall_nil_2.
  - intros path ns o us o' [= <- _]. exact rendered_sample_operand.
Defined.
