(* ===== verification/Transitions.v ===== *)
(** * The module as a transition system

    An abstract specification of everything the module may do: a relation of
    small steps on the request, the machine, the cluster and the cache of the
    platform filter, each step one modification or one call.  The pass of the
    pipeline, the wait for a namespace and the finalizer are shown to be sequences
    of these steps, whatever their outcome; the invariants are then proved of the
    steps, and hold along every history in which others change the cluster
    between any two of them. *)
From stdpp Require Import relations.
From S2P Require Import Prelude GoStrings OS API Kube Fake ParamsFile Overlay Params Settle.
From S2P Require Import PlatformConfig Releases Status Render PlatformFilter Dependencies NotebookRBAC OwnedGC.
From S2P Require Import Controller.

Section system.
Context {K U : Type} {KA : KubeAPI K} {FW : Framework K U}.
Implicit Types (s : State K U) (r : Request U) (k : K).

(** ** The steps *)

(** Of the request: the extensions are made once and then hold the two keys of
    the module with a value of their type; of the resource only the status
    changes, except that the finalizers are edited before an update. *)
Inductive request_step : Request U → Request U → Prop :=
  | rq_make r : Extensions r = None → request_step r (set_Extensions (Some ∅) r)
  | rq_removed r m b : Extensions r = Some m →
      request_step r (set_Extensions (Some (<[ExtKeyRemoved := AnyBool b]> m)) r)
  | rq_writable r m t : Extensions r = Some m →
      request_step r (set_Extensions (Some (<[extKeyWritableManifests := AnyString t]> m)) r)
  | rq_generated r : request_step r (set_Generated true r)
  | rq_manifests r l : request_step r (set_Manifests l r)
  | rq_resources r l : request_step r (set_Resources l r)
  | rq_status r ray st : Instance_ r = Some (ARay ray) →
      request_step r (set_ray (Build_Ray (ray_meta ray) (ray_spec ray) st) r)
  | rq_other r g st st' : Instance_ r = Some (AnotherKind g st) →
      request_step r (set_Instance (Some (AnotherKind g st')) r)
  | rq_finalizers r ray f : Instance_ r = Some (ARay ray) →
      request_step r (set_ray (set_ray_meta (set_Finalizers f (ray_meta ray)) ray) r).

(** The role that is applied when there is none yet. *)
Definition fresh_role : ClusterRole := Build_ClusterRole "" "" (meta_named notebookClusterRoleName) [].

(** Of the cluster, for the resource with this UID: the calls that write. *)
Inductive write_call (uid : string) : K → K → Prop :=
  | wr_apply_role k :
      write_call uid k (CreateOrUpdate fresh_role (mutate_role (notebookClusterRole (K := K) (U := U))) k).2
  | wr_disown_role c k : Name (cr_meta c) = notebookClusterRoleName → OwnerReferences (cr_meta c) = [] →
      write_call uid k (UpdateClusterRole c k).2
  | wr_delete_role c k : Name (cr_meta c) = notebookClusterRoleName →
      write_call uid k (DeleteClusterRole c k).2
  | wr_delete_operand o k : uid ≠ "" →
      ownedByUID o uid = true ∨ labeledOperand (K := K) (U := U) o = true →
      write_call uid k (Delete o Background k).2.

Definition request_uid r : string :=
  match Instance_ r with Some (ARay ray) => UID (ray_meta ray) | _ => "" end.

(** The actions of the framework the pipeline holds, with their options. *)
Inductive framework_action : Action K U → Prop :=
  | fw_deploy : framework_action deployAction
  | fw_deployments : framework_action (Deployments_NewAction namespaceFn)
  | fw_collect_owned :
      framework_action (GC_NewAction namespaceFn [WithDeletePropagationPolicy Background])
  | fw_collect_all : framework_action (GC_NewAction namespaceFn collect_all).

(** Of the machine: the making of the writable copy, which leaves what exists as it
    is and adds paths under the directory of the copy only, besides the
    directories above it; the rewriting of the parameter file of the overlay, with
    its temporary file; and the rewriting of its kustomization. *)
Inductive machine_step (o : OS.OS) : OS.OS → Prop :=
  | mc_reads o' : env o' = env o → fs o' = fs o → machine_step o o'
  | mc_copy o' : env o' = env o →
      (∀ p n, fs o !! p = Some n → fs o' !! p = Some n) →
      (∀ p n, fs o !! p = None → fs o' !! p = Some n →
         resolve (writable_dir o) `prefix_of` p ∨ n = Dir ∧ p `prefix_of` resolve (writable_dir o)) →
      machine_step o o'
  | mc_params o' : env o' = env o →
      (∀ p, p ≠ overlay_dir o ++ ["params.env"] → (∀ d, p ≠ overlay_dir o ++ [temp_name d]) →
         fs o' !! p = fs o !! p) →
      machine_step o o'
  | mc_kustomization o' : env o' = env o →
      (∀ p, p ≠ overlay_dir o ++ ["kustomization.yaml"] → fs o' !! p = fs o !! p) →
      machine_step o o'.

Definition with_rr r s : State K U := MkState r (cluster s) (os s) (filter_cache s).
Definition with_filter (c : FilterCache) s : State K U := MkState (rr s) (cluster s) (os s) c.

(** What the answer to an update leaves in the request. *)
Definition refreshed (a : api_error + Ray) r : Request U :=
  match a with inr ray => set_ray ray r | inl _ => r end.

Inductive step : State K U → State K U → Prop :=
  | st_request s r : request_step (rr s) r → step s (with_rr r s)
  | st_machine s o : machine_step (os s) o → step s (with_os o s)
  | st_lookup s : once_done (filter_cache s) = false →
      step s (with_filter (Build_FilterCache true (bool_decide
        (RESTMapping (gvk_Group sccGVK) (gvk_Kind sccGVK) (gvk_Version sccGVK) (cluster s) = None))) s)
  | st_write s k : write_call (request_uid (rr s)) (cluster s) k → step s (with_cluster k s)
  | st_update_resource s ray : Instance_ (rr s) = Some (ARay ray) →
      step s (MkState (refreshed (UpdateRay ray (cluster s)).1 (rr s))
                (UpdateRay ray (cluster s)).2 (os s) (filter_cache s))
  | st_framework s a : framework_action a → step s (a s).2.

(** ** Computations that are sequences of steps *)

(** From this state, the computation is a sequence of steps. *)
Definition steps_from {A} s (m : M (State K U) A) : Prop := rtc step s (m s).2.

Definition reads {A} (m : M (State K U) A) : Prop := ∀ s, (m s).2 = s.

Lemma steps_reads {A} s (m : M (State K U) A) : reads m → steps_from s m.
Proof. intros Hm. unfold steps_from. by rewrite Hm. Qed.

Lemma steps_once {A} s (m : M (State K U) A) : step s (m s).2 → steps_from s m.
Proof. apply rtc_once. Qed.

Lemma steps_bind {A B} s (m : M (State K U) A) (f : A → M (State K U) B) :
  steps_from s m → (∀ a s', m s = (Ok a, s') → steps_from s' (f a)) → steps_from s (m ≫= f).
Proof.
  unfold steps_from. intros Hm Hf. rewrite bind_split.
  destruct (m s) as [[a|e|w] s'] eqn:E; [|done..]. by etrans; [exact Hm|apply Hf].
Qed.

Lemma steps_read {A B} s (m : M (State K U) A) (f : A → M (State K U) B) :
  reads m → (∀ a, m s = (Ok a, s) → steps_from s (f a)) → steps_from s (m ≫= f).
Proof.
  intros Hm Hf. apply steps_bind; [by apply steps_reads|]. intros a s' E.
  pose proof (Hm s) as Hs. rewrite E in Hs. cbn in Hs. subst s'. by apply Hf.
Qed.

Lemma steps_wrapping {A} s f args (m : M (State K U) A) :
  steps_from s m → steps_from s (wrapping f args m).
Proof. unfold steps_from, wrapping. by destruct (m s) as [[]]. Qed.

Lemma steps_for_each {A} (l : list A) (f : A → Action K U) :
  (∀ s x, steps_from s (f x)) → ∀ s, steps_from s (for_each l f).
Proof.
  intros Hf. induction l as [|x l IH]; intros s; cbn [for_each]; [apply rtc_refl|].
  apply steps_bind; [apply Hf|]. intros _ s' _. apply IH.
Qed.

Lemma steps_request s f : request_step (rr s) (f (rr s)) → steps_from s (modify_rr f).
Proof. intros Hf. apply steps_once. rewrite modify_rr_eq. by constructor. Qed.

Lemma steps_framework s a : framework_action a → steps_from s a.
Proof. intros Ha. by apply steps_once, st_framework. Qed.

(** *** Computations that read *)

Lemma reads_ret {A} (a : A) : reads (mret a).
Proof. done. Qed.

Lemma reads_fail {A} e : reads (@fail _ A e).
Proof. done. Qed.

Lemma reads_gets {A} (f : State K U → A) : reads (gets f).
Proof. done. Qed.

Lemma reads_bind {A B} (m : M (State K U) A) (f : A → M (State K U) B) :
  reads m → (∀ a, reads (f a)) → reads (m ≫= f).
Proof.
  intros Hm Hf s. rewrite bind_split. specialize (Hm s). destruct (m s) as [[a|e|w] s']; cbn in Hm;
    subst s'; [apply Hf|done..].
Qed.

Lemma reads_wrapping {A} f args (m : M (State K U) A) : reads m → reads (wrapping f args m).
Proof. intros Hm s. specialize (Hm s). unfold wrapping. by destruct (m s) as [[]]. Qed.

Lemma reads_on_rr {A} (f : Request U → res A) : reads (on_rr (λ r, (f r, r))).
Proof. by intros []. Qed.

Lemma reads_on_cluster {A} (f : K → res A) : reads (on_cluster (λ k, (f k, k))).
Proof. by intros []. Qed.

Lemma reads_with_client {A} (f : K → res A) : reads (with_client (λ k, (f k, k))).
Proof. apply reads_bind; [apply reads_gets|]. intros []; [apply reads_on_cluster|done]. Qed.

Lemma reads_conditions : reads (on_rr instance_conditions).
Proof. intros [r k o c]. unfold on_rr, zoom, instance_conditions. cbn. by destruct (Instance_ r) as [[]|]. Qed.

Lemma reads_generation : reads (on_rr instance_generation).
Proof. intros [r k o c]. unfold on_rr, zoom, instance_generation. cbn. by destruct (Instance_ r) as [[]|]. Qed.
End system.

Create HintDb steps.
#[export] Hint Resolve reads_ret reads_fail reads_gets reads_conditions reads_generation : steps.
#[export] Hint Extern 2 (reads (on_rr _)) => apply reads_on_rr : steps.
#[export] Hint Extern 2 (reads (with_client _)) => apply reads_with_client : steps.

(** Decomposes a goal [reads m] along the operations of [m]. *)
Ltac read_only :=
  repeat first
    [ progress intros
    | solve [eauto 3 with steps]
    | apply reads_bind | apply reads_wrapping
    | case_match ].

Section parts.
Context {K U : Type} {KA : KubeAPI K} {FW : Framework K U}.
Implicit Types (s : State K U) (k : K).

Lemma reads_the_ray : reads (K := K) (U := U) (on_rr the_ray).
Proof. apply reads_on_rr. Qed.

Lemma the_ray_inv s ray s' :
  on_rr the_ray s = (Ok ray, s') → Instance_ (rr s) = Some (ARay ray).
Proof.
  destruct s as [r k o c]. unfold on_rr, zoom, the_ray, instance_ray. cbn.
  by destruct (Instance_ r) as [[]|]; intros; simplify_eq.
Qed.

Lemma with_client_inv {A} (f : K → A) s a s' :
  with_client (gets f) s = (Ok a, s') → a = f (cluster s).
Proof.
  unfold with_client. rewrite bind_split. unfold gets. destruct (HasClient (rr s)); [|done].
  unfold on_cluster, zoom. by intros [= <- _].
Qed.

(** A step on the request with what was read of the resource. *)
Lemma steps_set_status s ray st :
  Instance_ (rr s) = Some (ARay ray) →
  steps_from s (modify_rr (set_ray (Build_Ray (ray_meta ray) (ray_spec ray) st))).
Proof. intros Hi. apply steps_request. by apply rq_status. Qed.

Lemma steps_update_status s f : steps_from s (on_rr (update_status f)).
Proof.
  unfold steps_from, on_rr, zoom, update_status.
  destruct (Instance_ (rr s)) as [[ray|g st]|] eqn:Hi; cbn.
  - apply rtc_once. refine (st_request s _ (rq_status _ ray _ Hi)).
  - apply rtc_once. refine (st_request s _ (rq_other _ g st _ Hi)).
  - by destruct s.
Qed.

Lemma steps_ext_init s : steps_from s (on_rr ext_init).
Proof.
  unfold steps_from, on_rr, zoom, ext_init, modify. destruct (Extensions (rr s)) eqn:He; cbn.
  - by destruct s.
  - apply rtc_once. by refine (st_request s _ (rq_make _ He)).
Qed.

Lemma steps_ext_removed s b : steps_from s (on_rr (ext_set ExtKeyRemoved (AnyBool b))).
Proof.
  unfold steps_from, on_rr, zoom, ext_set. destruct (Extensions (rr s)) eqn:He; cbn.
  - apply rtc_once. by refine (st_request s _ (rq_removed _ _ b He)).
  - by destruct s.
Qed.

Lemma steps_ext_writable s t : steps_from s (on_rr (ext_set extKeyWritableManifests (AnyString t))).
Proof.
  unfold steps_from, on_rr, zoom, ext_set. destruct (Extensions (rr s)) eqn:He; cbn.
  - apply rtc_once. by refine (st_request s _ (rq_writable _ _ t He)).
  - by destruct s.
Qed.

(** *** The machine *)

Lemma steps_os {A} s (m : M OS A) : machine_step (os s) (m (os s)).2 → steps_from s (on_os m).
Proof. intros Hm. unfold steps_from. rewrite on_os_eq. apply rtc_once. by apply st_machine. Qed.

Lemma steps_os_reads {A} s (m : M OS A) : within (λ _, False) m → steps_from s (on_os m).
Proof.
  intros Hm. apply steps_os, mc_reads; [by eapply within_env|by apply within_none_fs].
Qed.

Lemma overlay_dir_env (o o' : OS) : env o' = env o → overlay_dir o' = overlay_dir o.
Proof. unfold overlay_dir, writable_dir. by intros ->. Qed.

(** What is added to the files: every path there is afterwards was there, as it is
    or as [Q] allows. *)
Definition makes {A} (Q : list string → node → Prop) (m : M OS A) : Prop :=
  ∀ o p n, fs (m o).2 !! p = Some n → fs o !! p = Some n ∨ Q p n.

Section makes.
Context (Q : list string → node → Prop).

Lemma makes_within {A} (m : M OS A) : within (λ _, False) m → makes Q m.
Proof. intros Hm o p n. rewrite within_none_fs by done. by left. Qed.

Lemma makes_bind {A B} (m : M OS A) (f : A → M OS B) :
  makes Q m → (∀ a, makes Q (f a)) → makes Q (m ≫= f).
Proof.
  intros Hm Hf o p n. rewrite bind_split. specialize (Hm o p n).
  destruct (m o) as [[a|e|w] o1]; cbn [snd] in *; [|done..].
  intros [Hp|Hp]%Hf; [by apply Hm|by right].
Qed.

Lemma makes_wrapping {A} f args (m : M OS A) : makes Q m → makes Q (wrapping f args m).
Proof. intros Hm o p n. specialize (Hm o p n). unfold wrapping. by destruct (m o) as [[]]. Qed.

Lemma makes_syscall {A} (m : M OS A) : makes Q m → makes Q (syscall m).
Proof.
  intros Hm o p n. unfold syscall. destruct (faults o (clock o)); [by left|]. apply (Hm (tick o)).
Qed.

Lemma makes_for_each {A} (l : list A) (f : A → M OS unit) :
  (∀ x, makes Q (f x)) → makes Q (for_each l f).
Proof.
  intros Hf. induction l as [|x l IH]; cbn [for_each]; [apply makes_within, within_ret|].
  by apply makes_bind.
Qed.

Lemma makes_put p n : Q p n → makes Q (put_node p n).
Proof.
  intros Hq o p' n'. unfold put_node, modify. cbn. rewrite lookup_insert.
  case_decide as E; [|by left]. destruct E. intros [= <-]. by right.
Qed.

Lemma makes_write p data : (∀ c, Q p (File c)) → makes Q (write_to p data).
Proof.
  intros Hq o p' n'.
  assert (∀ d o1, fs (append_to p d o1) !! p' = Some n' → fs o1 !! p' = Some n' ∨ Q p' n') as Ha.
  { intros d o1. unfold append_to. destruct (fs o1 !! p) as [[|c]|]; [by left| |by left].
    cbn. rewrite lookup_insert. case_decide as E; [|by left]. destruct E. intros [= <-]. by right. }
  unfold write_to. destruct (faults o (clock o)); cbn [snd]; apply (Ha _ (tick o)).
Qed.

Lemma makes_open_excl p : Q p (File "") → makes Q (open_excl p).
Proof.
  intros Hq. apply makes_syscall, makes_bind; [apply makes_within, within_gets|].
  intros [n|]; [apply makes_within, within_fail|].
  apply makes_bind; [apply makes_within, within_check_parent|]. intros _. by apply makes_put.
Qed.

Lemma makes_mkdirs above p :
  (∀ j, j `prefix_of` p → Q (above ++ j) Dir) → makes Q (mkdirs above p).
Proof.
  revert above. induction p as [|c p IH]; intros above Hq; cbn [mkdirs];
    [apply makes_within, within_ret|].
  apply makes_bind; [apply makes_within, within_gets|]. intros n. apply makes_bind.
  - destruct n as [[]|]; [apply makes_within, within_ret|apply makes_within, within_fail|].
    apply makes_syscall, makes_put, Hq. by exists p.
  - intros _. apply IH. intros j Hj. rewrite <- app_assoc. by apply Hq, prefix_cons_alt.
Qed.
End makes.

Lemma prefix_of_app {A} (p l l' : list A) :
  p `prefix_of` l ++ l' → p `prefix_of` l ∨ l `prefix_of` p.
Proof.
  revert l. induction p as [|x p IH]; intros l; [by left; apply prefix_nil|].
  destruct l as [|y l]; [by right; apply prefix_nil|]. cbn. intros Hp.
  pose proof (prefix_cons_inv_1 _ _ _ _ Hp) as ->. apply prefix_cons_inv_2 in Hp.
  destruct (IH l Hp); [left|right]; by apply prefix_cons_alt.
Qed.

(** Where the writable copy is made. *)
Definition copy_path (dst p : list string) (n : node) : Prop :=
  dst `prefix_of` p ∨ n = Dir ∧ p `prefix_of` dst.

Lemma makes_copyDir src dst : makes (copy_path (resolve dst)) (copyDir src dst).
Proof.
  apply makes_bind; [apply makes_mkdirs; intros j Hj; by right|]. intros _.
  apply makes_bind; [apply makes_syscall, makes_within, within_gets|].
  intros [[]|]; [|apply makes_within, within_fail..].
  apply makes_bind; [apply makes_within, within_gets|]. intros l.
  apply makes_for_each. intros [k [|c]]; unfold copy_entry; cbn [fst snd].
  - apply makes_mkdirs. intros j Hj. cbn [app].
    apply prefix_of_app in Hj as [Hj|Hj]; [by right|by left].
  - apply makes_bind; [apply makes_syscall, makes_within, within_ret|]. intros _.
    assert (∀ c, copy_path (resolve dst) (resolve dst ++ k) (File c)) as Hf
      by (intros c'; left; by apply prefix_app_r).
    apply makes_bind; [by apply makes_open_excl|]. intros _. by apply makes_write.
Qed.

Lemma writable_step base o : machine_step o (writableManifestsBase base o).2.
Proof.
  apply mc_copy.
  - by eapply within_env, within_all_writable.
  - intros p n. apply keeps_writable.
  - intros p n Hno Hp. change (copy_path (resolve (writable_dir o)) p n).
    revert Hp. unfold writableManifestsBase. rewrite bind_split. unfold TempDir, Getenv.
    rewrite bind_split. unfold gets at 1. cbn [mret M_ret].
    change (Join [_; "ray-module-manifests"]) with (writable_dir o).
    assert (∀ m : M OS string, makes (copy_path (resolve (writable_dir o))) m →
      fs (m o).2 !! p = Some n → copy_path (resolve (writable_dir o)) p n) as Hgo.
    { intros m Hm Hp. destruct (Hm o p n Hp); [congruence|done]. }
    apply Hgo. apply makes_bind; [apply makes_within, within_attempt, within_Stat|].
    intros [e|u]; [|apply makes_within, within_ret].
    apply makes_bind; [apply makes_wrapping, makes_copyDir|]. intros _. apply makes_within, within_ret.
Qed.

(** *** The cluster *)

Lemma steps_writes s k :
  rtc (write_call (K := K) (U := U) (request_uid (rr s))) (cluster s) k → rtc step s (with_cluster k s).
Proof.
  intros H. assert (∀ k0 uid, rtc (write_call (K := K) (U := U) uid) k0 k → ∀ t,
    request_uid (rr t) = uid → cluster t = k0 → rtc step t (with_cluster k t)) as Hgo; [|by eapply Hgo].
  clear s H. intros k0 uid H. induction H as [k|k k1 k2 H _ IH]; intros t <- <-;
    [by rewrite with_cluster_same|].
  eapply rtc_l; [by apply st_write|]. by apply (IH (with_cluster k1 t)).
Qed.

(** Calls through the client, and the state they leave. *)
Lemma with_client_state {A} (m : M K A) s :
  with_client m s = (Panic "nil pointer dereference: rr.Client", s) ∨
  with_client m s = ((m (cluster s)).1, with_cluster (m (cluster s)).2 s).
Proof.
  unfold with_client. rewrite bind_split. unfold gets. destruct (HasClient (rr s)); [right|by left].
  unfold on_cluster, zoom. by destruct (m (cluster s)).
Qed.

Lemma steps_with_client {A} s (m : M K A) :
  rtc (write_call (K := K) (U := U) (request_uid (rr s))) (cluster s) (m (cluster s)).2 →
  steps_from s (with_client m).
Proof.
  intros H. unfold steps_from. destruct (with_client_state m s) as [-> | ->]; [done|].
  by apply steps_writes.
Qed.

Lemma steps_call {A} s (f : K → A * K) :
  write_call (K := K) (U := U) (request_uid (rr s)) (cluster s) (f (cluster s)).2 →
  steps_from s (with_client (call f)).
Proof.
  intros H. apply steps_with_client, rtc_once. unfold call. by destruct (f (cluster s)).
Qed.

(** The deletion of the operands. *)
Definition writes {A} (uid : string) (m : M K A) : Prop :=
  ∀ k, rtc (write_call (K := K) (U := U) uid) k (m k).2.

Lemma writes_bind {A B} uid (m : M K A) (f : A → M K B) :
  writes uid m → (∀ a, writes uid (f a)) → writes uid (m ≫= f).
Proof.
  intros Hm Hf k. rewrite bind_split. specialize (Hm k). destruct (m k) as [[a|e|w] k'];
    [by etrans; [exact Hm|apply Hf]|done..].
Qed.

Lemma writes_for_each {A} uid (l : list A) (f : A → M K unit) :
  (∀ x, writes uid (f x)) → writes uid (for_each l f).
Proof.
  intros Hf. induction l as [|x l IH]; cbn [for_each]; [intros k; apply rtc_refl|].
  apply writes_bind; [apply Hf|]. by intros _.
Qed.

Lemma writes_reads {A} uid (m : M K A) : (∀ k, (m k).2 = k) → writes uid m.
Proof. intros Hm k. by rewrite Hm. Qed.

Lemma writes_delete_item uid i : uid ≠ "" → writes uid (delete_item (U := U) uid i).
Proof.
  intros Hu. unfold delete_item. destruct i as [o|]; [|by apply writes_reads].
  destruct (negb (ownedByUID o uid) && negb (labeledOperand o)) eqn:E; [by apply writes_reads|].
  apply writes_bind.
  - intros k. unfold call. destruct (Delete o Background k) as [e k'] eqn:Ed. cbn.
    replace k' with (Delete o Background k).2 by by rewrite Ed.
    apply rtc_once, wr_delete_operand; [done|].
    destruct (ownedByUID o uid); [by left|]. destruct (labeledOperand o); [by right|done].
  - intros [e|]; [case_match|]; by apply writes_reads.
Qed.

Lemma writes_delete_lists uid ns : uid ≠ "" → writes uid (delete_lists (U := U) uid ns).
Proof.
  intros Hu. assert (∀ l inns, writes uid (deleteOwnedFromList (U := U) uid l inns)) as Hl.
  { intros l inns. unfold deleteOwnedFromList. apply writes_bind; [by apply writes_reads|].
    intros [e|ol]; [case_match; by apply writes_reads|].
    destruct (ExtractList ol); [by apply writes_reads|].
    apply writes_for_each. intros i. by apply writes_delete_item. }
  unfold delete_lists. apply writes_bind.
  - case_match; [by apply writes_reads|]. apply writes_for_each. auto.
  - intros _. apply writes_for_each. auto.
Qed.

Lemma steps_operands s : steps_from s deleteOwnedOperands.
Proof.
  unfold deleteOwnedOperands. apply steps_read; [apply reads_gets|]. intros r [= <-].
  destruct (HasClient (rr s)); [|by apply steps_reads]. cbn [negb].
  destruct (Instance_ (rr s)) as [[ray|]|] eqn:Hi; [|by apply steps_reads..].
  destruct (String.eqb_spec (UID (ray_meta ray)) "") as [|Hu]; [by apply steps_reads|].
  apply steps_with_client. unfold request_uid. rewrite Hi. by apply writes_delete_lists.
Qed.
End parts.

#[export] Hint Resolve reads_the_ray : steps.

(** ** The actions *)

(** The kustomize engine reads: it works on the machine without writing to it. *)
Class ReadingEngine (K U : Type) {FW : Framework K U} : Prop :=
  engine_reads path ns : within (λ _, False) (Engine_Render (K := K) (U := U) path ns).

Section actions.
Context {K U : Type} {KA : KubeAPI K} {RS : RoleStore K} {UN : Unstructured U} {FW : Framework K U}
  {RE : ReadingEngine K U} {SV : Semver} {MR : MapRange}.
Implicit Types s : State K U.

Lemma steps_managementState s : steps_from s managementStateAction.
Proof.
  unfold managementStateAction. apply steps_bind; [apply steps_ext_init|]. intros _ s1 _.
  apply steps_read; [apply reads_the_ray|]. intros ray _. case_match; [|apply steps_ext_removed].
  apply steps_bind; [apply steps_ext_removed|]. intros _ s2 _. apply steps_request, rq_generated.
Qed.

Lemma steps_releases base s : steps_from s (releasesAction base).
Proof.
  unfold releasesAction. apply steps_read; [apply reads_the_ray|]. intros _ _.
  apply steps_bind; [apply steps_os_reads, within_resolve|]. intros v s1 _.
  apply steps_read; [apply reads_the_ray|]. intros ray H%the_ray_inv. by apply steps_set_status.
Qed.

Lemma steps_manifestInit s : steps_from s manifestInitAction.
Proof.
  unfold manifestInitAction. apply steps_read; [apply reads_gets|]. intros r _. case_match.
  - unfold steps_from. rewrite modify_rr_eq.
    eapply rtc_l; [apply st_request, rq_manifests|]. apply rtc_once.
    apply (st_request (with_rr _ s) (set_Resources [] (set_Manifests [] (rr s)))), rq_resources.
  - apply steps_request, rq_manifests.
Qed.

Lemma steps_writable base s : steps_from s (on_os (writableManifestsBase base)).
Proof.
  apply steps_os, writable_step.
Qed.

Lemma applied_step cp {images extras o r o'} :
  overlay_dir o = resolve cp → applied cp images extras o r o' → machine_step o o'.
Proof.
  intros Hcp [He H]. apply mc_params; [done|]. rewrite Hcp. intros p Hp Ht.
  destruct r; [|by apply H|done].
  destruct H as [[_ ->]|(c & ls & m & _ & _ & _ & [[_ ->]|(es & _ & ->)])]; [done..|].
  by rewrite lookup_insert_ne.
Qed.

Lemma steps_imageParams base s : steps_from s (applyImageParamsAction base).
Proof.
  unfold applyImageParamsAction. apply steps_read; [apply reads_gets|]. intros r _.
  case_match; [by apply steps_reads|]. apply steps_bind; [apply steps_writable|].
  intros w s1 Hw. rewrite on_os_eq in Hw. injection Hw as Hw Hs1.
  pose proof (within_env _ _ (os s) (within_all_writable base)) as He1.
  destruct (writableManifestsBase base (os s)) as [[w'|e|p] o1] eqn:Ew; [|done..].
  cbn in Hw, He1. injection Hw as ->. pose proof (writable_Ok _ _ _ _ Ew) as ->.
  assert (os s1 = o1) as Ho1 by by subst s1.
  assert (env (os s1) = env (os s)) as Henv by congruence.
  set (cp := Join _) in *.
  assert (cp ≠ "") as Hcp by apply overlay_cp.
  assert (resolve cp = overlay_dir (os s)) as Hr by apply overlay_cp.
  apply steps_bind; [apply steps_ext_init|]. intros [] s2 E2.
  apply steps_bind; [apply steps_ext_writable|]. intros [] s3 E3.
  apply steps_read; [apply reads_the_ray|]. intros ray _.
  assert (os s3 = os s1) as Ho3.
  { transitivity (os s2).
    - unfold on_rr, zoom, ext_set in E3. by destruct (Extensions (rr s2)); simplify_eq.
    - unfold on_rr, zoom, ext_init, modify in E2. by simplify_eq. }
  assert (overlay_dir (os s3) = resolve cp) as Hd3 by (rewrite Hr; apply overlay_dir_env; congruence).
  set (ns := ApplicationsNamespace (ray_spec ray)).
  destruct (applyParams cp imageParamMap [{["namespace" := ns]}] (os s3)) as [ra o4] eqn:Ea.
  pose proof (applyParams_run _ _ _ _ _ _ Hcp Ea) as Happ. pose proof (proj1 Happ) as Hea.
  apply steps_bind; [apply steps_os; rewrite Ea; by apply (applied_step cp Hd3 Happ)|].
  intros [] s5 E5. rewrite on_os_eq, Ea in E5. injection E5 as _ <-.
  apply steps_os. cbn [os].
  destruct (within_setOverlayNamespace cp ns o4) as (He4 & _ & _ & Hk4).
  apply mc_kustomization; [done|]. rewrite (overlay_dir_env _ _ Hea), Hd3.
  intros p Hp. by apply Hk4.
Qed.

Lemma steps_render base s : steps_from s (RenderKustomize base namespaceFn).
Proof.
  unfold RenderKustomize. apply steps_read; [apply reads_gets|]. intros r _.
  case_match; [by apply steps_reads|].
  apply steps_read; [apply (reads_on_rr namespaceFn)|]. intros ns _.
  apply steps_bind; [|intros; apply steps_request, rq_generated].
  apply steps_for_each. intros t mi. unfold render_manifest.
  apply steps_bind; [apply steps_os_reads, within_wrapping, engine_reads|].
  intros us t1 _. apply steps_request, rq_resources.
Qed.

Lemma reads_certManager : reads (K := K) (U := U) certManagerRequirementAction.
Proof.
  unfold certManagerRequirementAction. apply reads_bind; [apply reads_gets|]. intros r.
  case_match; [apply reads_ret|]. generalize (requiredCertManagerGVKs (Resources r)).
  intros l. induction l as [|g l IH]; cbn [for_each]; [apply reads_ret|].
  apply reads_bind; [|by intros _]. unfold check_crd. apply reads_bind; [|intros []; done].
  apply reads_wrapping. intros s.
  destruct (with_client_state (λ k, of_sum (HasCRD g k) k) s) as [-> | ->]; [done|].
  cbn. destruct (HasCRD g (cluster s)); cbn; apply with_cluster_same.
Qed.

Lemma steps_filter s : steps_from s filterPlatformResources.
Proof.
  unfold filterPlatformResources. apply steps_bind.
  - unfold steps_from, check_once. rewrite bind_split. unfold gets at 1.
    destruct (once_done (filter_cache s)) eqn:Ho; [done|].
    destruct s as [r k o c]. cbn in *. apply rtc_once. by apply (st_lookup (MkState r k o c)).
  - intros _ s1 _. apply steps_read; [apply reads_gets|]. intros c _.
    case_match; [by apply steps_reads|]. apply steps_request, rq_resources.
Qed.

Lemma steps_applyRole s : steps_from s applyNotebookClusterRole.
Proof.
  unfold applyNotebookClusterRole. apply steps_bind; [apply steps_call, wr_apply_role|].
  intros [e|] s1 _; by apply steps_reads.
Qed.

(** What is called on the role concerns the one that was read. *)
Lemma steps_clear_owners c s :
  Name (cr_meta c) = notebookClusterRoleName →
  steps_from s (clear_owners c) ∧
  ∀ c' s', clear_owners c s = (Ok c', s') → Name (cr_meta c') = notebookClusterRoleName.
Proof.
  intros Hn. unfold clear_owners. destruct (OwnerReferences (cr_meta c)) eqn:Ho.
  { split; [by apply steps_reads|]. by intros c' s' [= <- _]. }
  set (c1 := set_cr_meta _ c). split.
  - apply steps_bind; [by apply steps_call, wr_disown_role|].
    intros [e|c'] s1 _; [case_match|]; by apply steps_reads.
  - intros c' s' (r & s1 & Hc & Hr)%bind_Ok_inv.
    destruct (with_client_state (call (UpdateClusterRole c1)) s) as [E|E]; rewrite E in Hc; [done|].
    unfold call in Hc. destruct (UpdateClusterRole c1 (cluster s)) as [r1 k1] eqn:Eu. cbn in Hc.
    simplify_eq. destruct r as [e|c2].
    + case_match; [|done]. unfold mret, M_ret in Hr. by simplify_eq.
    + unfold mret, M_ret in Hr. simplify_eq. apply update_role in Eu as [(Hn' & _) _]. by rewrite <- Hn'.
Qed.

Lemma steps_deleteRole s : steps_from s deleteNotebookClusterRole.
Proof.
  unfold deleteNotebookClusterRole. apply steps_read; [apply (reads_with_client (λ k, Ok _))|].
  intros [e|c] Hg%with_client_inv; [case_match; by apply steps_reads|].
  symmetry in Hg. apply get_role in Hg as [_ Hn].
  destruct (steps_clear_owners c s Hn) as [Hs Hc].
  apply steps_bind; [done|]. intros c' s1 E1. apply Hc in E1.
  apply steps_bind; [by apply steps_call, wr_delete_role|].
  intros [e|] s2 _; [case_match|]; by apply steps_reads.
Qed.

Lemma steps_notebook s : steps_from s notebookClusterRoleAction.
Proof.
  unfold notebookClusterRoleAction. apply steps_read; [apply reads_gets|]. intros r _.
  case_match; [apply steps_deleteRole|apply steps_applyRole].
Qed.

Lemma steps_deployments s : steps_from s (deploymentStatusAction namespaceFn).
Proof.
  unfold deploymentStatusAction. apply steps_read; [apply reads_gets|]. intros r _.
  case_match; [apply steps_update_status|apply steps_framework, fw_deployments].
Qed.

Lemma steps_distribution base s : steps_from s (distributionAction base).
Proof.
  unfold distributionAction. apply steps_read; [apply reads_conditions|]. intros cs _.
  case_match; [by apply steps_reads|].
  apply steps_read; [apply reads_the_ray|]. intros ray Hi%the_ray_inv.
  apply steps_read.
  { unfold readPlatformDistribution. case_match; [apply reads_ret|].
    apply reads_bind; [apply (reads_with_client (λ k, Ok _))|]. read_only. }
  intros [d st] _. destruct st; [| |by apply steps_reads].
  all: case_match; [by apply steps_reads|]; apply steps_read; [apply reads_ret|]; intros _ _;
    by apply steps_set_status.
Qed.

Lemma steps_platformRelease s : steps_from s platformReleaseAction.
Proof.
  unfold platformReleaseAction. apply steps_read; [apply reads_gets|]. intros r _.
  case_match; [by apply steps_reads|]. apply steps_read; [apply reads_conditions|]. intros cs _.
  case_match; [by apply steps_reads|].
  apply steps_read; [apply reads_the_ray|]. intros ray Hi%the_ray_inv.
  apply steps_read.
  { apply reads_wrapping. unfold readPlatformVersion. case_match; [apply reads_ret|].
    apply reads_bind; [apply (reads_with_client (λ k, Ok _))|]. read_only. }
  intros v _. case_match; [by apply steps_reads|]. by apply steps_set_status.
Qed.

Lemma steps_degraded s : steps_from s degradedAction.
Proof.
  unfold degradedAction. apply steps_read; [apply reads_generation|]. intros. apply steps_update_status.
Qed.

Lemma steps_observed s : steps_from s observedGenerationAction.
Proof.
  unfold observedGenerationAction. apply steps_read; [apply reads_generation|].
  intros. apply steps_update_status.
Qed.

Lemma steps_gc s : steps_from s (reconcileGCAction namespaceFn).
Proof.
  unfold reconcileGCAction. apply steps_read; [apply reads_gets|]. intros r _.
  case_match; [|apply steps_framework, fw_collect_owned].
  apply steps_bind; [apply steps_operands|]. intros _ s1 _. apply steps_framework, fw_collect_all.
Qed.

Lemma steps_wait s : steps_from s waitForNamespace.
Proof.
  unfold waitForNamespace. apply steps_read; [apply reads_the_ray|]. intros ray Hi%the_ray_inv.
  case_match; [by apply steps_reads|]. destruct (RemoveFinalizer _ _) as [f updated].
  set (ray1 := set_ray_meta _ ray).
  apply steps_bind; [by apply steps_request, rq_finalizers|]. intros [] s1 [= <-].
  destruct updated; [|by apply steps_reads]. unfold steps_from. rewrite bind_split.
  set (s1 := MkState _ _ _ _).
  destruct (with_client_state (call (UpdateRay ray1)) s1) as [-> | ->]; [done|].
  unfold call. cbn [cluster s1]. pose proof (st_update_resource s1 ray1 eq_refl) as Hst.
  cbn [cluster s1 os filter_cache rr] in Hst.
  destruct (UpdateRay ray1 (cluster s)) as [[e|ray'] k']; cbn [fst snd refreshed] in *.
  - apply rtc_once. by case_match.
  - rewrite bind_split, modify_rr_eq. by apply rtc_once.
Qed.

Lemma steps_cleanup s : steps_from s (deletionCleanupAction namespaceFn).
Proof.
  unfold deletionCleanupAction. apply steps_read; [apply (reads_on_rr namespaceFn)|]. intros ns _.
  case_match; [by apply steps_reads|]. apply steps_bind; [apply steps_deleteRole|]. intros _ s1 _.
  apply steps_bind; [apply steps_request, rq_generated|]. intros _ s2 _.
  apply steps_bind; [apply steps_framework, fw_collect_all|]. intros _ s3 _. apply steps_operands.
Qed.

Lemma steps_run {RC : Reconciler K U} (l : list (Action K U)) :
  (∀ a s, a ∈ l → steps_from s a) → ∀ s, steps_from s (run_actions l).
Proof.
  induction l as [|a l IH]; intros Hl s; unfold steps_from; [by rewrite run_actions_nil|].
  rewrite run_actions_cons. apply steps_bind; [apply Hl, list_elem_of_here|].
  intros _ s' _. apply IH. intros b t Hb. by apply Hl, list_elem_of_further.
Qed.

Lemma steps_pass {RC : Reconciler K U} p base s :
  steps_from s (run_actions (su_Actions (SetupWithManager p base))).
Proof.
  apply steps_run. intros a t. cbn [SetupWithManager su_Actions prepare_actions report_actions app].
  intros Ha. repeat (apply elem_of_cons in Ha as [->|Ha]); [..|by apply elem_of_nil in Ha].
  - apply steps_managementState.
  - apply steps_releases.
  - apply steps_manifestInit.
  - apply steps_imageParams.
  - apply steps_render.
  - apply steps_reads, reads_certManager.
  - apply steps_filter.
  - apply steps_notebook.
  - apply steps_framework, fw_deploy.
  - apply steps_deployments.
  - apply steps_distribution.
  - apply steps_platformRelease.
  - apply steps_degraded.
  - apply steps_observed.
  - apply steps_gc.
Qed.
End actions.

(** C9: the code refines the transition system.  From every state and whatever
    the outcome, a pass of the pipeline, the wait for a namespace and the
    finalizer are sequences of its steps.  On the cluster they make no write but
    applying, disowning and deleting the one role of the notebooks, deleting
    objects that the resource owns or that carry the label of the module, and
    updating the resource itself, besides the actions of the framework with the
    options the pipeline gives them.  On the machine they make the writable copy,
    which changes nothing that exists and adds nothing outside of the directory of
    the copy but the directories above it, and then change no path but the
    parameter file of the overlay, its temporary files and its kustomization; the
    engine of kustomize is assumed to read only. *)
Theorem module_refines_steps {K U} {KA : KubeAPI K} {RS : RoleStore K} {UN : Unstructured U}
    {FW : Framework K U} {RE : ReadingEngine K U} {SV : Semver} {MR : MapRange}
    {RC : Reconciler K U} p base (s : State K U) :
  let su := SetupWithManager p base in
  rtc step s (run_actions (su_Actions su) s).2 ∧
  rtc step s (su_PreApply su s).2 ∧
  rtc step s (su_Finalizer su s).2.
Proof.
  intros su. split_and!; [apply steps_pass|apply steps_wait|apply steps_cleanup].
Qed.

#[export] Instance fake_reading rendered : ReadingEngine Fake Obj (FW := fake_framework rendered).
Proof. intros path ns. apply within_ret. Qed.

Lemma module_refines_steps_witness :
  rtc (step (FW := fake_framework (λ _, rendered_sample))) (pipeline_state Removed "apps" empty_fake)
    (run_actions (su_Actions pipeline_setup) (pipeline_state Removed "apps" empty_fake)).2.
Proof.
  exact (proj1 (module_refines_steps (FW := fake_framework (λ _, rendered_sample)) (SV := any_version)
    (MR := canonical_range) (λ _, false) "/opt/manifests"
    (pipeline_state Removed "apps" empty_fake))).
Defined.

(** ** Histories

    What is asked of the actions of the framework besides: they leave the files,
    the cache of the filter and the extensions of the request. *)
Class FrameworkFrame (K U : Type) {KA : KubeAPI K} {FW : Framework K U} : Prop :=
  framework_frame (a : Action K U) s : framework_action a →
    env (os (a s).2) = env (os s) ∧ fs (os (a s).2) = fs (os s) ∧
    filter_cache (a s).2 = filter_cache s ∧ Extensions (rr (a s).2) = Extensions (rr s).

#[export] Instance fake_frame rendered : FrameworkFrame Fake Obj (FW := fake_framework rendered).
Proof. by intros a s []. Qed.

Section history.
Context {K U : Type} {KA : KubeAPI K} {RS : RoleStore K} {UN : Unstructured U} {FW : Framework K U}
  {RE : ReadingEngine K U} {FF : FrameworkFrame K U} {SV : Semver} {MR : MapRange}
  {RC : Reconciler K U}.
Implicit Types s : State K U.
Context (su : Setup K U).

(** The life of the process: runs of what the framework was given, on requests
    without extensions; single steps of them, when something else happens in
    between; whatever others do to the cluster; and whichever calls of the
    machine will fail from now on.  A restart forgets the cache of the filter. *)
Inductive event : State K U → State K U → Prop :=
  | ev_pass s r : Extensions r = None → event s (run_actions (su_Actions su) (with_rr r s)).2
  | ev_wait s r : Extensions r = None → event s (su_PreApply su (with_rr r s)).2
  | ev_finalize s r : Extensions r = None → event s (su_Finalizer su (with_rr r s)).2
  | ev_partial s s' : step s s' → event s s'
  | ev_others s k : event s (with_cluster k s)
  | ev_machine s o : fs o = fs (os s) → env o = env (os s) → event s (with_os o s).

Inductive event_or_restart : State K U → State K U → Prop :=
  | er_event s s' : event s s' → event_or_restart s s'
  | er_restart s : event_or_restart s (with_filter (Build_FilterCache false false) s).

(** A request whose extensions hold values of their types. *)
Definition typed (r : Request U) : Prop :=
  (∀ v, ext_lookup ExtKeyRemoved r = Some v → ∃ b, v = AnyBool b) ∧
  (∀ v, ext_lookup extKeyWritableManifests r = Some v → ∃ t, v = AnyString t).

Lemma typed_same r r' : Extensions r' = Extensions r → typed r → typed r'.
Proof. unfold typed, ext_lookup. by intros ->. Qed.

Lemma typed_insert r m k v :
  Extensions r = Some m → typed r →
  (k = ExtKeyRemoved → ∃ b, v = AnyBool b) → (k = extKeyWritableManifests → ∃ t, v = AnyString t) →
  typed (set_Extensions (Some (<[k := v]> m)) r).
Proof.
  intros Hm [H1 H2] Hb Ht. unfold typed, ext_lookup in *. rewrite Hm in *. cbn in *.
  split; intros w; rewrite lookup_insert; case_decide as Hk.
  - intros [= <-]. by apply Hb.
  - apply H1.
  - intros [= <-]. by apply Ht.
  - apply H2.
Qed.

Lemma typed_step s s' : step s s' → typed (rr s) → typed (rr s').
Proof.
  intros Hs Ht. destruct Hs as [s r Hr| | | |s ray Hi|s a Ha]; try exact Ht.
  - cbn. destruct Hr as [r He|r m b He|r m t He| | | | | |]; try by eapply typed_same.
    + eapply typed_insert; [done..|by eexists|done].
    + eapply typed_insert; [done..|by eexists].
  - cbn. destruct (UpdateRay _ _).1; [done|]. by eapply typed_same.
  - destruct (framework_frame a s Ha) as (_ & _ & _ & He). by eapply typed_same.
Qed.

(** What a step does to the files. *)
Definition files_kept s s' : Prop :=
  env (os s') = env (os s) ∧ untouched (overlay_dir (os s)) (os s) (os s').

#[export] Instance files_kept_preorder : PreOrder files_kept.
Proof.
  split; [intros s; split; [done|by intros k n]|]. intros s1 s2 s3 [E1 H1] [E2 H2]. split; [congruence|].
  eapply untouched_trans; [exact H1|]. by rewrite <- (overlay_dir_env _ _ E1).
Qed.

Lemma files_kept_same s s' : env (os s') = env (os s) → fs (os s') = fs (os s) → files_kept s s'.
Proof. intros He Hf. split; [done|]. intros k n Hk _. by rewrite Hf. Qed.

Lemma files_kept_machine s o : machine_step (os s) o → files_kept s (with_os o s).
Proof.
  intros [o' He Hf|o' He Hk _|o' He Hk|o' He Hk]; (split; [done|]); intros p n Hp Hd.
  - cbn. by rewrite Hf.
  - by apply Hk.
  - cbn. rewrite Hk; [done|..]; intros; intros ->; apply Hd; by apply prefix_app_r.
  - cbn. rewrite Hk; [done|]. intros ->. apply Hd. by apply prefix_app_r.
Qed.

Lemma files_kept_step s s' : step s s' → files_kept s s'.
Proof.
  intros [t r _|t o Hm|t _|t k _|t ray _|t a Ha]; try by apply files_kept_same.
  { by apply files_kept_machine. }
  destruct (framework_frame a t Ha) as (He & Hf & _). by apply files_kept_same.
Qed.

(** Once the cluster was asked for the constraints, the answer stays. *)
Definition answer_kept s s' : Prop :=
  once_done (filter_cache s) = true → filter_cache s' = filter_cache s.

#[export] Instance answer_kept_preorder : PreOrder answer_kept.
Proof.
  split; [by intros s Hd|]. intros s1 s2 s3 H1 H2 Hd. rewrite H2; [by apply H1|]. by rewrite H1.
Qed.

Lemma answer_kept_step s s' : step s s' → answer_kept s s'.
Proof.
  intros [t r _|t o _|t Hd|t k _|t ray _|t a Ha] Ho; try done; [congruence|].
  by destruct (framework_frame a t Ha) as (_ & _ & Hf & _).
Qed.

(** A preorder that holds of every step holds of every sequence of them. *)
Lemma rtc_preorder {A} (P R : A → A → Prop) `{!PreOrder R} :
  (∀ x y, P x y → R x y) → ∀ x y, rtc P x y → R x y.
Proof. intros HPR x y H. induction H as [x|x y z Hxy _ IH]; [done|]. by etrans; [apply HPR|]. Qed.

(** A preorder that steps and the changes of others keep is kept by events, for
    the setup of the module. *)
Lemma event_keeps (R : State K U → State K U → Prop) `{!PreOrder R} p base :
  su = SetupWithManager p base → (∀ s s', step s s' → R s s') →
  (∀ s r, R s (with_rr r s)) → (∀ s k, R s (with_cluster k s)) →
  (∀ s o, fs o = fs (os s) → env o = env (os s) → R s (with_os o s)) →
  ∀ s s', event s s' → R s s'.
Proof.
  intros Hsu Hst Hr Hk Ho. pose proof (rtc_preorder step R Hst) as Hrtc.
  intros s s' [t r _|t r _|t r _|t t' Hs|t k|t o Hf He]; auto; (etrans; [apply (Hr t r)|]); apply Hrtc; rewrite Hsu.
  - apply steps_pass.
  - apply steps_wait.
  - apply steps_cleanup.
Qed.
End history.

(** C12: the files, along every history of the process.  Whatever passes, waits
    and finalizers run, on which requests, in which order and with which
    outcome, whatever others do to the cluster in between, even between two
    steps of a run, whichever system calls fail, and however often the process is
    restarted: the environment is the one it started with, and every file and
    directory that existed outside of the overlay of the writable copy is as it
    was, the manifests of the image among them. *)
Theorem history_of_files {K U} {KA : KubeAPI K} {RS : RoleStore K} {UN : Unstructured U}
    {FW : Framework K U} {RE : ReadingEngine K U} {FF : FrameworkFrame K U} {SV : Semver}
    {MR : MapRange} {RC : Reconciler K U} p base (s s' : State K U) :
  rtc (event_or_restart (SetupWithManager p base)) s s' →
  env (os s') = env (os s) ∧ untouched (overlay_dir (os s)) (os s) (os s').
Proof.
  apply (rtc_preorder _ files_kept). intros t t' [u u' He|u]; [|by apply files_kept_same].
  revert He. apply (event_keeps _ files_kept p base eq_refl); [apply files_kept_step|..];
    intros; by apply files_kept_same.
Qed.

(** C34: the decision about security context constraints, along every history
    without a restart: once the cluster was asked, every later run filters with
    the same answer, whatever happens to the cluster, until the process is
    restarted. *)
Theorem history_of_caches {K U} {KA : KubeAPI K} {RS : RoleStore K} {UN : Unstructured U}
    {FW : Framework K U} {RE : ReadingEngine K U} {FF : FrameworkFrame K U} {SV : Semver}
    {MR : MapRange} {RC : Reconciler K U} p base (s s' : State K U) :
  rtc (event (SetupWithManager p base)) s s' →
  once_done (filter_cache s) = true → filter_cache s' = filter_cache s.
Proof.
  apply (rtc_preorder _ answer_kept).
  by apply (event_keeps _ answer_kept p base eq_refl); [apply answer_kept_step|..].
Qed.

(** C27: the extensions of a request are typed.  The map holds values of any type;
    along every run of the module on a request, up to whatever outcome and with
    whatever others do to the cluster between its steps, the flag of the removal
    is a boolean and the directory of the manifests a string wherever they are
    present: no reader of them ever falls back because of a wrong type. *)
Theorem extensions_are_typed {K U} {KA : KubeAPI K} {RS : RoleStore K} {UN : Unstructured U}
    {FW : Framework K U} {RE : ReadingEngine K U} {FF : FrameworkFrame K U} {SV : Semver}
    {MR : MapRange} {RC : Reconciler K U} p base (s s' : State K U) :
  rtc (event (SetupWithManager p base)) s s' → typed (rr s) → typed (rr s').
Proof.
  intros H. induction H as [t|t1 t2 t3 He _ IH]; [done|]. intros Ht. apply IH. clear IH.
  assert (∀ t t', rtc step t t' → typed (rr t) → typed (rr t')) as Hst.
  { intros t t' Hs. induction Hs as [u|u v w Huv _ IH]; [done|]. intros. by apply IH, (typed_step u v). }
  assert (∀ r : Request U, Extensions r = None → typed r) as Hnone.
  { intros r Hr. unfold typed, ext_lookup. by rewrite Hr. }
  destruct He as [t r Hr|t r Hr|t r Hr|t t' Hs|t k|t o _ _]; try done.
  - eapply Hst; [apply steps_pass|by apply Hnone].
  - eapply Hst; [apply steps_wait|by apply Hnone].
  - eapply Hst; [apply steps_cleanup|by apply Hnone].
  - by apply (typed_step t t').
Qed.

(** *** A history: a pass, a change of the cluster by others, and a finalizer *)

Definition bare_request : Request Obj :=
  set_Extensions None (sample_request (sample_ray Managed "apps")).

Definition history_state : State Fake Obj :=
  MkState bare_request empty_fake (boot settle_tree settle_env) (Build_FilterCache false false).

Definition history_setup : Setup Fake Obj :=
  SetupWithManager (FW := fake_framework (λ _, rendered_sample)) (SV := any_version)
    (MR := canonical_range) (λ _, false) "/m".

Definition after_pass : State Fake Obj :=
  (run_actions (su_Actions history_setup) (with_rr bare_request history_state)).2.

Definition after_others : State Fake Obj :=
  with_cluster (MkFake None ∅ ∅ ∅ [sccGVK] None) after_pass.

Definition after_cleanup : State Fake Obj :=
  (su_Finalizer history_setup (with_rr bare_request after_others)).2.

Abbreviation sample_event :=
  (event (FW := fake_framework (λ _, rendered_sample)) history_setup) (only parsing).

Lemma sample_history : rtc sample_event after_pass after_cleanup.
Proof.
  eapply rtc_l; [apply (ev_others (FW := fake_framework (λ _, rendered_sample)) history_setup after_pass)|].
  apply rtc_once. by apply (ev_finalize (FW := fake_framework (λ _, rendered_sample)) history_setup).
Defined.

Lemma sample_beginning : sample_event history_state after_pass.
Proof. by apply (ev_pass (FW := fake_framework (λ _, rendered_sample)) history_setup). Defined.

Lemma history_of_files_witness :
  untouched (overlay_dir (os history_state)) (os history_state) (os after_pass) ∧
  fs (os after_pass) !! ["m"; ManifestPath; ManifestOverlay; "kustomization.yaml"] =
    fs (os history_state) !! ["m"; ManifestPath; ManifestOverlay; "kustomization.yaml"].
Proof.
  split; [|vm_compute; reflexivity].
  refine (proj2 (history_of_files (FW := fake_framework (λ _, rendered_sample)) (SV := any_version)
    (MR := canonical_range) (λ _, false) "/m" history_state after_pass _)).
  apply rtc_once, er_event, sample_beginning.
Defined.

Lemma history_of_caches_witness :
  filter_cache after_cleanup = filter_cache after_pass ∧
  filter_cache after_pass = Build_FilterCache true false.
Proof.
  split; [|vm_compute; reflexivity].
  refine (history_of_caches (FW := fake_framework (λ _, rendered_sample)) (SV := any_version)
    (MR := canonical_range) (λ _, false) "/m" after_pass after_cleanup sample_history _).
  vm_compute. reflexivity.
Defined.

Lemma extensions_are_typed_witness :
  typed (rr after_pass) ∧
  ext_lookup extKeyWritableManifests (rr after_pass) = Some (AnyString "/tmp/ray-module-manifests").
Proof.
  split; [|vm_compute; reflexivity].
  refine (extensions_are_typed (FW := fake_framework (λ _, rendered_sample)) (SV := any_version)
    (MR := canonical_range) (λ _, false) "/m" history_state after_pass
    (rtc_once _ _ sample_beginning) _).
  split; intros v Hv; vm_compute in Hv; discriminate Hv.
Defined.
