(* ===== verification/Reports.v ===== *)
(** * Reports: what a pass that fails may say

    The generation the status reports is what the platform reads to know whether
    the module has caught up.  It is written by the last status action; here the
    actions are shown to keep it on every outcome, so that no failure of any call
    lets the module report a generation that it did not deploy. *)
From S2P Require Import Prelude GoStrings OS API Kube Fake ParamsFile Overlay Params Settle.
From S2P Require Import PlatformConfig Releases Status Render PlatformFilter Dependencies NotebookRBAC.
From S2P Require Import OwnedGC Controller Transitions.

Section quiet.
Context {K U : Type}.
Implicit Types (s : State K U) (r : Request U) (ray : Ray).

(** The identity, the specification and the generation that is reported are kept. *)
Definition same_claim ray ray' : Prop :=
  ray_meta ray' = ray_meta ray ∧ ray_spec ray' = ray_spec ray ∧
  ObservedGeneration (GetStatus ray') = ObservedGeneration (GetStatus ray).

Definition unclaimed r r' : Prop :=
  HasClient r' = HasClient r ∧
  ∀ ray, Instance_ r = Some (ARay ray) → ∃ ray', Instance_ r' = Some (ARay ray') ∧ same_claim ray ray'.

#[export] Instance unclaimed_preorder : PreOrder unclaimed.
Proof.
  split.
  - intros r. split; [done|]. intros ray Hi. by exists ray.
  - intros r1 r2 r3 [Hc1 H1] [Hc2 H2]. split; [congruence|]. intros ray Hi.
    destruct (H1 ray Hi) as (ray1 & Hi1 & M1 & S1 & G1).
    destruct (H2 ray1 Hi1) as (ray2 & Hi2 & M2 & S2 & G2).
    exists ray2. split; [done|]. split_and!; congruence.
Qed.

Lemma unclaimed_set_ray r ray ray' :
  Instance_ r = Some (ARay ray) → same_claim ray ray' → unclaimed r (set_ray ray' r).
Proof. intros Hi Hs. split; [done|]. intros ray0 Hi0. exists ray'. split; [done|]. congruence. Qed.

Lemma unclaimed_wf s s' : well_formed s → unclaimed (rr s) (rr s') → well_formed s'.
Proof.
  intros [Hc [ray Hi]] [Hc' H]. split; [congruence|]. destruct (H ray Hi) as (ray' & ? & _). by exists ray'.
Qed.

(** The computation does not touch what is claimed, on any outcome. *)
Definition quiet {A} (m : M (State K U) A) : Prop :=
  ∀ s, well_formed s → unclaimed (rr s) (rr (m s).2).

Lemma quiet_same {A} (m : M (State K U) A) : (∀ s, rr (m s).2 = rr s) → quiet m.
Proof. intros Hm s _. by rewrite Hm. Qed.

Lemma quiet_ret {A} (a : A) : quiet (mret a).
Proof. by apply quiet_same. Qed.

Lemma quiet_fail {A} e : quiet (@fail _ A e).
Proof. by apply quiet_same. Qed.

Lemma quiet_gets {A} (f : State K U → A) : quiet (gets f).
Proof. by apply quiet_same. Qed.

Lemma quiet_reads {A} (m : M (State K U) A) : reads m → quiet m.
Proof. intros Hm. apply quiet_same. intros s. by rewrite Hm. Qed.

Lemma quiet_bind {A B} (m : M (State K U) A) (f : A → M (State K U) B) :
  quiet m → (∀ a, quiet (f a)) → quiet (m ≫= f).
Proof.
  intros Hm Hf s Hs. pose proof (Hm s Hs) as H. rewrite bind_split.
  destruct (m s) as [[a|e|w] s1]; [|done..]. cbn [snd] in H.
  etransitivity; [exact H|]. apply Hf. by eapply unclaimed_wf.
Qed.

Lemma quiet_wrapping {A} f args (m : M (State K U) A) : quiet m → quiet (wrapping f args m).
Proof. intros Hm s Hs. specialize (Hm s Hs). unfold wrapping. by destruct (m s) as [[]]. Qed.

Lemma quiet_for_each {A} (l : list A) (f : A → Action K U) : (∀ x, quiet (f x)) → quiet (for_each l f).
Proof. intros Hf. induction l as [|x l IH]; [apply quiet_ret|]. by apply quiet_bind. Qed.

Lemma quiet_on_os {A} (m : M OS A) : quiet (on_os m).
Proof. apply quiet_same. intros s. by rewrite on_os_eq. Qed.

Lemma quiet_with_client {A} (m : M K A) : quiet (with_client m).
Proof.
  intros s [Hc _]. rewrite with_client_eq by done. unfold on_cluster, zoom.
  by destruct (m (cluster s)).
Qed.

(** A change of the request that leaves its instance. *)
Definition spares (f : Request U → Request U) : Prop :=
  ∀ r, HasClient (f r) = HasClient r ∧ Instance_ (f r) = Instance_ r.

Lemma unclaimed_spared r r' : HasClient r' = HasClient r → Instance_ r' = Instance_ r → unclaimed r r'.
Proof. intros Hc Hi. split; [done|]. intros ray Hr. exists ray. by rewrite Hi. Qed.

Lemma quiet_modify f : spares f → quiet (modify_rr f).
Proof. intros Hf s _. destruct (Hf (rr s)). by apply unclaimed_spared. Qed.

Lemma quiet_ext_init : quiet (on_rr ext_init).
Proof. apply quiet_modify. intros r. by destruct (Extensions r). Qed.

Lemma quiet_ext_set k v : quiet (on_rr (ext_set k v)).
Proof.
  intros s _. unfold on_rr, zoom, ext_set. destruct (Extensions (rr s)); [|done]. by apply unclaimed_spared.
Qed.

Lemma quiet_update_conditions f : quiet (on_rr (update_conditions f)).
Proof.
  intros s [_ [ray Hi]]. unfold on_rr, zoom, update_conditions, update_status. rewrite Hi. cbn.
  by apply unclaimed_set_ray with ray.
Qed.
End quiet.

Create HintDb quiet.
#[export] Hint Resolve quiet_ret quiet_fail quiet_gets quiet_on_os quiet_with_client quiet_ext_init
  quiet_ext_set quiet_update_conditions quiet_reads reads_the_ray reads_conditions reads_generation : quiet.

(** Decomposes a goal [quiet m] along the operations of [m]. *)
Ltac hush :=
  repeat first
    [ progress intros
    | solve [eauto 3 with quiet]
    | apply quiet_bind | apply quiet_wrapping | apply quiet_for_each
    | apply quiet_modify; done
    | case_match ].

(** ** The actions *)

Section actions.
Context {K U : Type} {KA : KubeAPI K} {RS : RoleStore K} {OS : ObjectStore K} {UN : Unstructured U}
  {FW : Framework K U} {FL : FrameworkLaws K U} {RL : RequestLaws K U} {SV : Semver} {MR : MapRange}
  {RC : Reconciler K U}.
Implicit Types (s : State K U) (ray : Ray).

Lemma quiet_managementState : quiet (K := K) (U := U) managementStateAction.
Proof. unfold managementStateAction. hush. Qed.

Lemma quiet_releases base : quiet (K := K) (U := U) (releasesAction base).
Proof.
  intros s [_ [ray Hi]]. destruct (releasesAction_run base s ray Hi) as (l & o' & _ & _ & ->).
  by apply unclaimed_set_ray with ray.
Qed.

Lemma quiet_manifestInit : quiet (K := K) (U := U) manifestInitAction.
Proof. unfold manifestInitAction. hush. Qed.

Lemma quiet_imageParams base : quiet (K := K) (U := U) (applyImageParamsAction base).
Proof. unfold applyImageParamsAction. hush. Qed.

Lemma quiet_render base : quiet (K := K) (U := U) (RenderKustomize base namespaceFn).
Proof.
  assert (quiet (K := K) (U := U) (on_rr (get_with namespaceFn))) as Hns
    by (apply quiet_same; by intros []).
  assert (∀ b ns m, quiet (K := K) (U := U) (render_manifest b ns m)) as Hr
    by (unfold render_manifest; hush).
  unfold RenderKustomize. hush; done.
Qed.

Lemma quiet_filter : quiet (K := K) (U := U) filterPlatformResources.
Proof.
  unfold filterPlatformResources. apply quiet_bind.
  - apply quiet_same. intros s. unfold check_once. rewrite bind_split. unfold gets at 1.
    by destruct (once_done (filter_cache s)); destruct s.
  - hush.
Qed.

Lemma quiet_notebook : quiet (K := K) (U := U) notebookClusterRoleAction.
Proof.
  unfold notebookClusterRoleAction, applyNotebookClusterRole, deleteNotebookClusterRole, clear_owners.
  hush.
Qed.

Lemma quiet_request (a : Action K U) : (∀ s, keeps_request (rr s) (rr (a s).2)) → quiet a.
Proof.
  intros Ha s _. destruct (Ha s) as (Hc & _ & _ & Hi). split; [done|]. intros ray Hr.
  destruct (Hi ray Hr) as [cs Hcs]. by exists (SetConditions cs ray).
Qed.

Lemma quiet_deployments : quiet (K := K) (U := U) (deploymentStatusAction namespaceFn).
Proof.
  unfold deploymentStatusAction. hush. apply quiet_request. intros s. apply deployments_keeps.
Qed.

Lemma quiet_distribution base : quiet (K := K) (U := U) (distributionAction base).
Proof.
  intros s [_ [ray Hi]]. rewrite (distributionAction_run base s ray Hi).
  destruct (available _); [|done]. destruct (readPlatformDistribution _ s) as [[[d st]|e|w] s'];
    [|done..]. by apply unclaimed_set_ray with ray.
Qed.

Lemma quiet_platformRelease : quiet (K := K) (U := U) platformReleaseAction.
Proof.
  intros s [Hc [ray Hi]]. rewrite (platformReleaseAction_run s ray Hc Hi).
  destruct (_ || _); [done|]. destruct (handshake _ _) as [e|v]; [done|].
  destruct (String.eqb v ""); [done|]. by apply unclaimed_set_ray with ray.
Qed.

Lemma quiet_degraded : quiet (K := K) (U := U) degradedAction.
Proof. unfold degradedAction. hush. Qed.

Lemma quiet_collection : quiet (K := K) (U := U) (reconcileGCAction namespaceFn).
Proof.
  assert (∀ opts, quiet (K := K) (GC_NewAction (U := U) namespaceFn opts)) as Hgc.
  { intros opts. apply quiet_same. intros s. apply gc_request. }
  unfold reconcileGCAction. apply quiet_bind; [apply quiet_gets|]. intros r. case_match; [|apply Hgc].
  apply quiet_bind; [|intros _; apply Hgc]. apply quiet_same. intros s.
  by destruct (operands_run s) as (r' & k & -> & _).
Qed.

Lemma quiet_run (l : list (Action K U)) : Forall quiet l → quiet (run_actions l).
Proof.
  intros H. induction H as [|a l Ha _ IH]; intros s Hs; [by rewrite run_actions_nil|].
  rewrite run_actions_cons. by apply quiet_bind.
Qed.

(** Everything a pass does before the generation is reported. *)
Definition working_actions (base : string) : list (Action K U) :=
  prepare_actions base ++
  [deployAction; deploymentStatusAction namespaceFn; distributionAction base; platformReleaseAction;
   degradedAction].

Lemma quiet_working base : quiet (run_actions (working_actions base)).
Proof.
  apply quiet_run. unfold working_actions, prepare_actions. cbn [app].
  assert (quiet (K := K) (U := U) deployAction) as Hd
    by (apply quiet_request; intros s; apply deploy_keeps).
  assert (quiet (K := K) (U := U) certManagerRequirementAction) as Hc
    by apply quiet_reads, reads_certManager.
  do 13 (apply Forall_cons_2; [first [exact Hd | exact Hc | apply quiet_managementState
    | apply quiet_releases | apply quiet_manifestInit | apply quiet_imageParams | apply quiet_render
    | apply quiet_filter | apply quiet_notebook | apply quiet_deployments | apply quiet_distribution
    | apply quiet_platformRelease | apply quiet_degraded]|]).
  apply Forall_nil_2.
Qed.

Lemma pass_split p base s :
  run_actions (su_Actions (SetupWithManager p base)) s =
  (run_actions (working_actions base) ;; observedGenerationAction ;;
   run_actions [reconcileGCAction namespaceFn]) s.
Proof.
  cbn [SetupWithManager su_Actions].
  change (prepare_actions base ++ deployAction :: report_actions base) with
    (working_actions base ++ [observedGenerationAction; reconcileGCAction (K := K) (U := U) namespaceFn]).
  rewrite run_actions_app, !bind_split. destruct (run_actions (working_actions base) s) as [[[]|e|w] s1];
    [|done..]. by rewrite run_actions_cons, !bind_split.
Qed.

Lemma observed_run s ray :
  Instance_ (rr s) = Some (ARay ray) →
  observedGenerationAction s = (Ok tt, with_ray (SetStatus (SetObservedGeneration
    (Generation (ray_meta ray)) (GetStatus ray)) ray) s).
Proof.
  intros Hi. destruct s as [r k o fc]. unfold observedGenerationAction, on_rr, zoom, instance_generation,
    update_status. run. cbn in Hi. rewrite Hi. cbn. rewrite Hi. reflexivity.
Qed.
End actions.

(** C7: the generation that is reported is earned.  On every outcome of a pass, over
    a managed or a removed module, the metadata and the specification of the
    resource are as they were, and the generation observed is either the one that
    was reported before, or the one of the resource, and then everything but the
    last collection succeeded: the preparation, the deployment of what it prepared,
    and the reports on the deployments, the distribution and the releases.  A pass
    that succeeds always reports the generation of the resource. *)
Theorem generation_is_earned {K U} {KA : KubeAPI K} {RS : RoleStore K} {OS : ObjectStore K}
    {UN : Unstructured U} {FW : Framework K U} {FL : FrameworkLaws K U} {RL : RequestLaws K U}
    {SV : Semver} {MR : MapRange} {RC : Reconciler K U} p base (s : State K U) ray :
  well_formed s → Instance_ (rr s) = Some (ARay ray) →
  let '(r, s') := run_actions (su_Actions (SetupWithManager p base)) s in
  ∃ ray', Instance_ (rr s') = Some (ARay ray') ∧
    ray_meta ray' = ray_meta ray ∧ ray_spec ray' = ray_spec ray ∧
    let observed := ObservedGeneration (GetStatus ray') in
    (r = Ok tt → observed = Generation (ray_meta ray)) ∧
    (observed = ObservedGeneration (GetStatus ray) ∨
     observed = Generation (ray_meta ray) ∧ ∃ t1 t2 t3,
       run_actions (prepare_actions base) s = (Ok tt, t1) ∧ deployAction t1 = (Ok tt, t2) ∧
       run_actions [deploymentStatusAction namespaceFn; distributionAction base;
                    platformReleaseAction; degradedAction] t2 = (Ok tt, t3)).
Proof.
  intros Hwf Hi. rewrite pass_split, bind_split. pose proof (quiet_working base s Hwf) as [Hc Hq].
  destruct (Hq ray Hi) as (ray1 & Hi1 & Hm & Hs & Hg).
  destruct (run_actions (working_actions base) s) as [[[]|e|w] s1] eqn:E; cbn [snd] in *;
    [|exists ray1; split_and!; [done..|by left]|exists ray1; split_and!; [done..|by left]].
  rewrite bind_split, (observed_run s1 ray1 Hi1). set (ray2 := SetStatus _ ray1). set (s2 := with_ray ray2 s1).
  assert (well_formed s2) as Hwf2.
  { split; [|by exists ray2]. destruct Hwf as [Hc0 _]. cbn. congruence. }
  assert (quiet (run_actions [reconcileGCAction (K := K) (U := U) namespaceFn])) as Hgc
    by (apply quiet_run, Forall_cons_2; [apply quiet_collection|apply Forall_nil_2]).
  destruct (Hgc s2 Hwf2) as [_ H2]. destruct (H2 ray2 eq_refl) as (ray' & Hi' & Hm' & Hs' & Hg').
  destruct (run_actions [reconcileGCAction namespaceFn] s2) as [r s'].
  exists ray'. cbn [snd] in Hi'. rewrite Hm', Hs', Hg'. cbn. rewrite Hm.
  split_and!; [done..|]. right. split; [done|].
  unfold working_actions in E. rewrite run_actions_app in E.
  apply bind_Ok_inv in E as ([] & t1 & E1 & (t2 & E2 & E3)%run_cons_Ok). by exists t1, t2, s1.
Qed.

(** ** A run *)

(** The API server is not there: nothing is deployed, and nothing is claimed. *)
Definition outage_state : State Fake Obj :=
  sample_state (sample_ray Managed "apps") (MkFake None ∅ ∅ ∅ [] (Some "connection refused"))
    (boot settle_tree settle_env).

Definition outage_pass : res unit * State Fake Obj :=
  run_actions (su_Actions (SetupWithManager (FW := fake_framework (λ _, rendered_sample))
    (SV := any_version) (MR := canonical_range) (λ _, false) "/m")) outage_state.

Example outage_pass_fails :
  outage_pass.1 = Err (Wrapf "apply notebook ClusterRole %q: %w" ["ray"]
    (EApi (unavailable "connection refused"))).
Proof. vm_compute. reflexivity. Qed.

Lemma generation_is_earned_witness :
  ∃ ray', Instance_ (rr outage_pass.2) = Some (ARay ray') ∧ ObservedGeneration (GetStatus ray') = 0%Z.
Proof.
  pose proof (generation_is_earned (FW := fake_framework (λ _, rendered_sample)) (SV := any_version)
    (MR := canonical_range) (λ _, false) "/m" outage_state (sample_ray Managed "apps")) as H.
  fold outage_pass in H.
  assert (match Instance_ (rr outage_pass.2) with
          | Some (ARay ray) => ObservedGeneration (GetStatus ray) | _ => 0%Z end = 0%Z) as H0
    by (vm_compute; reflexivity).
  destruct outage_pass as [r s']. destruct H as (ray' & Hi & _); [split; [reflexivity|by eexists]|reflexivity|].
  exists ray'. cbn [snd] in *. rewrite Hi in H0. split; [exact Hi|exact H0].
Defined.
