(* ===== verification/Convergence.v ===== *)
(** * Convergence: a second pass over a managed module

    The framework runs the pipeline again and again.  Here two passes that
    completed are compared: when nothing that the module reads changed in between,
    the second pass hands the same resources to the deployment, leaves every file
    as it is, and reports the same releases, distribution and generation. *)
From S2P Require Import Prelude GoStrings OS API Kube Fake ParamsFile Overlay Params Settle Crash.
From S2P Require Import Progress PlatformConfig Releases Status Render PlatformFilter Dependencies.
From S2P Require Import NotebookRBAC OwnedGC Controller Liveness Transitions.

(** ** What is asked of the code that is called

    Writing a role, deploying and asking for the deployments do not change the
    ConfigMap of the platform; rendering the same files gives the same objects. *)
Class ConfigFrame (K U : Type) {KA : KubeAPI K} {FW : Framework K U} : Prop := {
  apply_config ns c f (k : K) : platform_config ns (CreateOrUpdate c f k).2 = platform_config ns k;
  deploy_config ns (s : State K U) :
    platform_config ns (cluster (deployAction s).2) = platform_config ns (cluster s);
  deployments_config ns (s : State K U) :
    platform_config ns (cluster (Deployments_NewAction namespaceFn s).2) = platform_config ns (cluster s);
}.

Class DeterministicEngine (K U : Type) {FW : Framework K U} : Prop :=
  engine_again path ns o o' : healthy o → healthy o' → fs o' = fs o → env o' = env o →
    (Engine_Render (K := K) (U := U) path ns o').1 = (Engine_Render (K := K) (U := U) path ns o).1.

#[export] Instance fake_config rendered : ConfigFrame Fake Obj (FW := fake_framework rendered).
Proof.
  split; [|done..]. intros ns c f k. unfold platform_config.
  cbn [fake_api CreateOrUpdate GetConfigMap]. unfold fk_create_or_update.
  destruct (fk_down k) eqn:Hd; [done|]. case_match; cbn; by rewrite ?Hd.
Qed.

#[export] Instance fake_engine rendered : DeterministicEngine Fake Obj (FW := fake_framework rendered).
Proof. done. Qed.

(** ** The version of the module, as a function *)

(** The image that the parameter file of the manifests names. *)
Definition default_text (base : string) (f : gmap (list string) node) : string :=
  if String.eqb base "" then ""
  else match f !! resolve (params_env base) with
       | Some (File c) =>
           match scan_lines c with
           | (ls, None) => default "" (parse_lines ls !! KubeRayImageParam)
           | _ => ""
           end
       | _ => ""
       end.

Definition module_version (base : string) (o : OS) : string :=
  let w := image_tag (related_image o) in
  if String.eqb w "" then image_tag (default_text base (fs o)) else w.

Lemma default_text_image base f :
  default_image base f (default_text base f) ∨
  default_text base f = "" ∧ ∀ i, ¬ default_image base f i.
Proof.
  unfold default_image, default_text. destruct (String.eqb_spec base "") as [->|Hb].
  { right. split; [done|]. by intros i [? _]. }
  destruct (f !! _) as [[|c]|].
  1, 3: right; split; [done|]; by intros i (_ & c & ls & [=] & _).
  destruct (scan_lines c) as [ls [e|]] eqn:Hs.
  { right. split; [done|]. intros i (_ & c' & ls' & [= <-] & Hs' & _). by rewrite Hs in Hs'. }
  left. split; [done|]. by exists c, ls.
Qed.

Lemma module_version_run base o :
  healthy o → ∃ o', resolveKubeRayVersion base o = (Ok (module_version base o), o').
Proof.
  intros Hh. destruct (resolveKubeRayVersion_run base o) as (v & o' & E & _ & _ & H1 & H2 & H3).
  exists o'. rewrite E. repeat f_equal. unfold module_version.
  destruct (String.eqb_spec (image_tag (related_image o)) "") as [Hw|Hw]; [|by apply H1].
  destruct (default_text_image base (fs o)) as [Hi|[-> Hno]]; [by apply H3|].
  destruct (H2 Hw) as [->|(i & Hi & _)]; [done|by destruct (Hno i)].
Qed.

(** ** The overlay, again *)

Section overlay.
Context {MR : MapRange}.

Lemma source_wf base ns o :
  healthy o → ready base o → overlay_wf (overlay_source base o) ns o →
  overlay_wf (overlay_dir o) ns (writableManifestsBase base o).2.
Proof.
  intros Hh Hready [Hp Hk].
  destruct (writable_ready base o Hh Hready) as (f & (o1 & E & Hf & He & _) & Hcopy).
  rewrite E. cbn [snd]. unfold overlay_wf. rewrite Hf, He. unfold overlay_dir, overlay_source in *.
  rewrite <- !app_assoc in *. by rewrite !Hcopy.
Qed.

Lemma overlay_again base ns o o1 o2 w :
  healthy o → ready base o → ns = "" ∨ clean_namespace ns = true →
  overlay_wf (overlay_source base o) ns o → write_overlay base ns o = (Ok w, o1) →
  healthy o2 → fs o2 = fs o1 → env o2 = env o →
  fs (write_overlay base ns o2).2 = fs o1.
Proof.
  intros Hh Hready Hns Hwf E Hh2 Hf He.
  destruct (write_overlay_leaves base ns o w o1 Hns (source_wf _ _ _ Hh Hready Hwf) E) as [Hd [Hp Hk]].
  pose proof (within_all_write_overlay base ns o) as (He1 & _). rewrite E in He1. cbn [snd] in He1.
  assert (writable_dir o2 = writable_dir o) as Hwd by (unfold writable_dir; by rewrite He).
  destruct (write_overlay_again base ns o2 Hh2) as (o3 & E2 & Hf3).
  { by rewrite Hwd, Hf. }
  { rewrite Hwd. split.
    - eapply params_settled_same; [by rewrite Hf|by rewrite He, He1|exact Hp].
    - eapply namespace_settled_same; [by rewrite Hf|exact Hk]. }
  by rewrite E2, <- Hf.
Qed.
End overlay.

(** ** A completed pass, exactly *)

Section pass.
Context {K U : Type} {KA : KubeAPI K} {RS : RoleStore K} {OS : ObjectStore K}
  {UN : Unstructured U} {UL : UnstructuredLaws U} {FW : Framework K U} {FL : FrameworkLaws K U}
  {RL : RequestLaws K U} {RE : ReadingEngine K U} {FF : FrameworkFrame K U} {CF : ConfigFrame K U}
  {SV : Semver} {MR : MapRange} {RC : Reconciler K U}.
Implicit Types (s t : State K U) (ray : Ray).

(** The actions up to the overlay. *)
Lemma request_exact base s s' ray :
  Instance_ (rr s) = Some (ARay ray) → ManagementState (ray_spec ray) ≠ Removed →
  run_actions [managementStateAction; releasesAction base; manifestInitAction;
               applyImageParamsAction base] s = (Ok tt, s') →
  ∃ v o1, resolveKubeRayVersion base (os s) = (Ok v, o1) ∧
    write_overlay base (ApplicationsNamespace (ray_spec ray)) o1 = (Ok (writable_dir (os s)), os s') ∧
    Instance_ (rr s') = Some (ARay (SetReleaseStatus (desiredModuleReleases v) ray)) ∧
    render_base base (rr s') = writable_dir (os s).
Proof.
  intros Hi Hm Hrun.
  apply run_cons_Ok in Hrun as (s1 & E1 & Hrun).
  rewrite (managementState_run s ray Hi), (proj2 (String.eqb_neq _ _) Hm) in E1.
  injection E1 as <-. set (s1 := MkState _ _ _ _) in Hrun.
  assert (removed (rr s1) = false) as Hr1.
  { unfold removed, ext_lookup. cbn. by rewrite lookup_insert_eq. }
  apply run_cons_Ok in Hrun as (s2 & E2 & Hrun).
  destruct (resolved_kuberay_releases base (os s)) as (v & o1 & Ev & _).
  pose proof (within_resolve base (os s)) as (He & _). rewrite Ev in He. cbn [snd] in He.
  unfold releasesAction in E2. rewrite (bind_Ok _ _ _ _ _ (on_rr_the_ray s1 ray Hi)) in E2.
  rewrite bind_split, on_os_eq in E2. change (os s1) with (os s) in E2. rewrite Ev in E2.
  cbn [fst snd] in E2. rewrite (bind_Ok _ _ _ _ _ (on_rr_the_ray (with_os o1 s1) ray Hi)) in E2.
  rewrite modify_rr_eq in E2. injection E2 as <-.
  set (ray2 := SetReleaseStatus (desiredModuleReleases v) ray) in *. set (s2 := MkState _ _ _ _) in Hrun.
  apply run_cons_Ok in Hrun as (s3 & E3 & Hrun).
  unfold manifestInitAction, mbind, M_bind, gets in E3.
  change (removed (rr s2)) with (removed (rr s1)) in E3. rewrite Hr1, modify_rr_eq in E3.
  injection E3 as <-. set (s3 := MkState _ _ _ _) in Hrun.
  apply run_cons_Ok in Hrun as (s4 & E4 & Hrun).
  rewrite run_actions_nil in Hrun. injection Hrun as ->.
  pose proof (applyImageParamsAction_run base s3 ray2 eq_refl Hr1) as H4. rewrite E4 in H4.
  change (os s3) with o1 in H4. change (ray_spec ray2) with (ray_spec ray) in H4.
  assert (writable_dir o1 = writable_dir (os s)) as Hwd by (unfold writable_dir; by rewrite He).
  destruct (write_overlay base _ o1) as [[w|e|p] o4] eqn:Ew; [|naive_solver..].
  destruct H4 as (_ & _ & <- & _ & _ & Hrr).
  destruct (write_overlay_Ok _ _ _ _ _ Ew) as (? & ? & _ & _ & _ & ->). rewrite Hwd in Ew.
  exists v, o1. rewrite Hrr. split_and!; [done..|].
  unfold render_base, image_params_rr, ext_lookup. cbn [Extensions set_Extensions mbind option_bind].
  rewrite lookup_insert_eq, Hwd. destruct (String.eqb_spec (writable_dir (os s)) "") as [E|]; [|done].
  pose proof (writable_dir_ne (os s)) as Hn. by rewrite E in Hn.
Qed.

(** Rendering the one manifest. *)
Lemma render_inv base s s' ns :
  namespaceFn (rr s) = Ok ns → Manifests (rr s) = [module_manifest] → Resources (rr s) = [] →
  RenderKustomize base namespaceFn s = (Ok tt, s') →
  ∃ us o', Engine_Render (K := K) (manifest_path (render_base base (rr s)) module_manifest) ns (os s)
             = (Ok us, o') ∧
    s' = MkState (set_Generated true (set_Resources (prepare (K := K) ns us) (rr s)))
           (cluster s) o' (filter_cache s).
Proof.
  intros Hns Hm Hres E.
  destruct (Engine_Render _ ns (os s)) as [[us|e|w] o'] eqn:Eu.
  { rewrite (render_one base s ns us o' Hns Hm Hres Eu) in E. injection E as <-. by exists us, o'. }
  all: exfalso; unfold RenderKustomize in E; rewrite bind_split in E; unfold gets at 1 in E;
    rewrite Hm in E;
    assert (on_rr (get_with namespaceFn) s = (Ok ns, s)) as Hg
      by (destruct s; unfold on_rr, zoom, get_with; cbn in *; by rewrite Hns);
    rewrite (bind_Ok _ _ _ _ _ Hg) in E; cbn [for_each] in E; unfold render_manifest in E;
    rewrite bind_split, bind_split, bind_split, on_os_eq in E; unfold wrapping in E;
    by rewrite Eu in E.
Qed.

(** The actions between the overlay and the deployment. *)
Lemma resources_exact base s s' ray :
  HasClient (rr s) = true → Instance_ (rr s) = Some (ARay ray) → removed (rr s) = false →
  Resources (rr s) = [] → Manifests (rr s) = [module_manifest] →
  run_actions [RenderKustomize base namespaceFn; certManagerRequirementAction;
               filterPlatformResources; notebookClusterRoleAction] s = (Ok tt, s') →
  let ns := ApplicationsNamespace (ray_spec ray) in
  ∃ us, Engine_Render (K := K) (manifest_path (render_base base (rr s)) module_manifest) ns (os s)
          = (Ok us, os s') ∧
    Resources (rr s') = (if scc_known s then prepare (K := K) ns us
                         else keep_non_scc (prepare (K := K) ns us)) ∧
    filter_cache s' = Build_FilterCache true (scc_known s) ∧
    ∀ n, platform_config n (cluster s') = platform_config n (cluster s).
Proof.
  intros Hc Hi Hr Hres Hm Hrun ns.
  apply run_cons_Ok in Hrun as (s5 & E5 & Hrun).
  destruct (render_inv base s s5 ns (namespaceFn_ok _ ray Hi) Hm Hres E5) as (us & o' & Eu & ->).
  set (s5 := MkState _ _ _ _) in *.
  apply run_cons_Ok in Hrun as (s6 & E6 & Hrun).
  pose proof (dependencies_run s5 Hc) as H6. rewrite E6 in H6. destruct H6 as [-> _].
  apply run_cons_Ok in Hrun as (s7 & E7 & Hrun).
  rewrite filterPlatformResources_run in E7. injection E7 as <-.
  change (scc_known s5) with (scc_known s) in Hrun. set (s7 := MkState _ _ _ _) in Hrun.
  apply run_cons_Ok in Hrun as (s8 & E8 & Hrun). rewrite run_actions_nil in Hrun. injection Hrun as ->.
  assert (HasClient (rr s7) = true ∧ removed (rr s7) = false) as [Hc7 Hr7].
  { unfold s7. cbn [rr]. by destruct (scc_known s). }
  unfold notebookClusterRoleAction in E8. rewrite bind_split in E8. unfold gets in E8. rewrite Hr7 in E8.
  unfold applyNotebookClusterRole in E8. cbv zeta in E8.
  rewrite bind_split, with_client_call in E8 by done.
  destruct (CreateOrUpdate _ _ (cluster s7)).1; [done|]. injection E8 as <-.
  exists us. cbn [os rr cluster filter_cache]. split_and!; [done| |done|].
  - unfold s7. cbn [rr]. by destruct (scc_known s).
  - intros n. by rewrite apply_config.
Qed.

Lemma prepare_exact base s s' ray :
  well_formed s → Instance_ (rr s) = Some (ARay ray) →
  ManagementState (ray_spec ray) ≠ Removed → Resources (rr s) = [] →
  run_actions (prepare_actions base) s = (Ok tt, s') →
  let ns := ApplicationsNamespace (ray_spec ray) in
  ∃ v o1 o4 us, resolveKubeRayVersion base (os s) = (Ok v, o1) ∧
    write_overlay base ns o1 = (Ok (writable_dir (os s)), o4) ∧
    Engine_Render (K := K) (module_path (os s)) ns o4 = (Ok us, os s') ∧
    Resources (rr s') = (if scc_known s then prepare (K := K) ns us
                         else keep_non_scc (prepare (K := K) ns us)) ∧
    Instance_ (rr s') = Some (ARay (SetReleaseStatus (desiredModuleReleases v) ray)) ∧
    HasClient (rr s') = true ∧ removed (rr s') = false ∧
    filter_cache s' = Build_FilterCache true (scc_known s) ∧
    ∀ n, platform_config n (cluster s') = platform_config n (cluster s).
Proof.
  intros [Hc _] Hi Hm Hres Hrun ns.
  change (prepare_actions base) with
    ([managementStateAction; releasesAction base; manifestInitAction; applyImageParamsAction base] ++
     [RenderKustomize base namespaceFn; certManagerRequirementAction (K := K) (U := U);
      filterPlatformResources; notebookClusterRoleAction]) in Hrun.
  rewrite run_actions_app in Hrun. apply bind_Ok_inv in Hrun as ([] & s4 & E1 & E2).
  destruct (request_exact base s s4 ray Hi Hm E1) as (v & o1 & Hv & Hw & Hi4 & Hb).
  destruct (request_run base s s4 ray Hc Hi Hm Hres E1) as
    (_ & _ & _ & Hc4 & Hr4 & Hres4 & Hm4 & Hk4 & Hf4).
  destruct (resources_exact base s4 s' _ Hc4 Hi4 Hr4 Hres4 Hm4 E2) as (us & Hu & Hres' & Hf' & Hk').
  destruct (resources_run base s4 s' _ Hc4 Hi4 Hr4 Hres4) as (Hi' & Hr' & _ & _ & _ & _ & Hc');
    [by rewrite Hm4|done|].
  assert (scc_known s4 = scc_known s) as Hs by (unfold scc_known; by rewrite Hf4, Hk4).
  rewrite Hb in Hu. rewrite Hs in Hres', Hf'. rewrite Hk4 in Hk'.
  by exists v, o1, (os s4), us.
Qed.

(** ** What a pass reports

    From the state after the framework looked at the deployments. *)
Definition next_distribution t ray : Distribution :=
  let old := ray_Distribution (ray_status ray) in
  if available (K := K) (U := U) (GetConditions ray)
  then match (readPlatformDistribution (ApplicationsNamespace (ray_spec ray)) t).1 with
       | Ok (d, st) => aligned old d st
       | _ => old
       end
  else old.

Definition next_releases t ray : ComponentReleaseStatus :=
  let old := GetReleaseStatus ray in
  if available (K := K) (U := U) (GetConditions ray)
  then match handshake (ApplicationsNamespace (ray_spec ray)) (cluster t) with
       | inr v => if String.eqb v "" then old else SetPlatformRelease (K := K) (U := U) v old
       | inl _ => old
       end
  else old.

Definition next_status ray : Status :=
  let g := Generation (ray_meta ray) in
  Build_Status (Phase (GetStatus ray)) g
    (MarkFalse (K := K) (U := U) ConditionDegraded
       [WithReason "AsExpected"; WithMessage "Module is operating normally"; WithObservedGeneration g]
       (Conditions (GetStatus ray))).

Definition next_ray t ray : Ray :=
  SetStatus (next_status ray) (SetReleaseStatus (next_releases t ray)
    (SetDistribution (next_distribution t ray) ray)).

Lemma status_exact base s s' ray :
  HasClient (rr s) = true → removed (rr s) = false → Instance_ (rr s) = Some (ARay ray) →
  run_actions [distributionAction base; platformReleaseAction; degradedAction;
               observedGenerationAction] s = (Ok tt, s') →
  s' = with_ray (next_ray s ray) s.
Proof.
  intros Hc Hr Hi Hrun.
  apply run_cons_Ok in Hrun as (s1 & E1 & Hrun).
  assert (s1 = with_ray (SetDistribution (next_distribution s ray) ray) s) as ->.
  { rewrite (distributionAction_run base s ray Hi) in E1. unfold next_distribution.
    destruct (available _); [|injection E1 as <-; by rewrite SetDistribution_same, set_ray_same].
    destruct (readPlatformDistribution _ s) as [[[d st]|e|w] s0]; by simplify_eq/=. }
  set (ray1 := SetDistribution _ ray) in *. set (s1 := with_ray ray1 s) in *.
  apply run_cons_Ok in Hrun as (s2 & E2 & Hrun).
  assert (s2 = with_ray (SetReleaseStatus (next_releases s ray) ray1) s1) as ->.
  { rewrite (platformReleaseAction_run s1 ray1 Hc eq_refl) in E2.
    change (removed (rr s1)) with (removed (rr s)) in E2. rewrite Hr in E2.
    change (GetConditions ray1) with (GetConditions ray) in E2.
    change (ApplicationsNamespace (ray_spec ray1)) with (ApplicationsNamespace (ray_spec ray)) in E2.
    change (cluster s1) with (cluster s) in E2. unfold next_releases.
    destruct (available _); cbn [negb orb] in E2; [|by injection E2 as <-].
    destruct (handshake _ _) as [e|v]; [done|]. by destruct (String.eqb v ""); injection E2 as <-. }
  set (ray2 := SetReleaseStatus _ ray1) in *. set (s2 := with_ray ray2 s1) in *.
  pose proof (health_pass s2 ray2 eq_refl) as E3. cbv zeta in E3. rewrite bind_split in E3.
  apply run_cons_Ok in Hrun as (s3 & Ea & Hrun). rewrite Ea in E3.
  apply run_cons_Ok in Hrun as (s4 & Eb & Hrun). rewrite Eb in E3. injection E3 as ->.
  rewrite run_actions_nil in Hrun. by injection Hrun as <-.
Qed.

(** The actions after the deployment. *)
Lemma report_exact base s s' ray :
  HasClient (rr s) = true → removed (rr s) = false → Instance_ (rr s) = Some (ARay ray) →
  run_actions (report_actions base) s = (Ok tt, s') →
  ∃ t cs, Deployments_NewAction namespaceFn s = (Ok tt, t) ∧ HasClient (rr t) = true ∧
    let ray' := next_ray t (SetConditions cs ray) in
    GC_NewAction namespaceFn [WithDeletePropagationPolicy Background] (with_ray ray' t) = (Ok tt, s') ∧
    Instance_ (rr s') = Some (ARay ray').
Proof.
  intros Hc Hr Hi Hrun.
  change (report_actions base) with
    (deploymentStatusAction namespaceFn ::
     [distributionAction base; platformReleaseAction; degradedAction; observedGenerationAction] ++
     [reconcileGCAction (K := K) (U := U) namespaceFn]) in Hrun.
  apply run_cons_Ok in Hrun as (t & E1 & Hrun). unfold deploymentStatusAction in E1.
  rewrite bind_split in E1. unfold gets in E1. rewrite Hr in E1.
  pose proof (deployments_keeps namespaceFn s) as (Hc1 & He1 & _ & Hi1). rewrite E1 in Hc1, He1, Hi1.
  cbn [snd] in *. destruct (Hi1 ray Hi) as [cs Hcs]. rewrite Hc in Hc1.
  assert (removed (rr t) = false) as Hrt.
  { rewrite <- Hr. apply removed_lookup. unfold ext_lookup. by rewrite He1. }
  rewrite run_actions_app in Hrun. apply bind_Ok_inv in Hrun as ([] & s2 & E2 & Hrun).
  apply (status_exact base t s2 _ Hc1 Hrt Hcs) in E2 as ->. set (ray' := next_ray _ _) in *.
  apply run_cons_Ok in Hrun as (s3 & E3 & Hrun). rewrite run_actions_nil in Hrun. injection Hrun as <-.
  unfold reconcileGCAction in E3. rewrite bind_split in E3. unfold gets in E3.
  change (removed (rr (with_ray ray' t))) with (removed (rr t)) in E3. rewrite Hrt in E3.
  exists t, cs. split_and!; [done..|].
  pose proof (gc_request namespaceFn [WithDeletePropagationPolicy Background] (with_ray ray' t)) as H.
  rewrite E3 in H. cbn [snd] in H. by rewrite H.
Qed.

(** What is handed to the deployment by the actions before it. *)
Definition handed (base : string) s : list U := Resources (rr (run_actions (prepare_actions base) s).2).

(** A request for the resource as the framework makes it. *)
Definition fresh s ray : Prop :=
  well_formed s ∧ Instance_ (rr s) = Some (ARay ray) ∧ Resources (rr s) = [].

Lemma pass_exact p base s s' ray :
  fresh s ray → ManagementState (ray_spec ray) ≠ Removed →
  run_actions (su_Actions (SetupWithManager p base)) s = (Ok tt, s') →
  let ns := ApplicationsNamespace (ray_spec ray) in
  ∃ v o1 o4 us t cs, resolveKubeRayVersion base (os s) = (Ok v, o1) ∧
    write_overlay base ns o1 = (Ok (writable_dir (os s)), o4) ∧
    (Engine_Render (K := K) (module_path (os s)) ns o4).1 = Ok us ∧
    handed base s = (if scc_known s then prepare (K := K) ns us
                     else keep_non_scc (prepare (K := K) ns us)) ∧
    HasClient (rr t) = true ∧ platform_config ns (cluster t) = platform_config ns (cluster s) ∧
    Instance_ (rr s') =
      Some (ARay (next_ray t (SetConditions cs (SetReleaseStatus (desiredModuleReleases v) ray)))) ∧
    fs (os s') = fs o4 ∧ filter_cache s' = Build_FilterCache true (scc_known s).
Proof.
  intros (Hwf & Hi & Hres) Hm Hrun ns. cbn [SetupWithManager su_Actions] in Hrun.
  rewrite run_actions_app in Hrun. apply bind_Ok_inv in Hrun as ([] & t1 & E1 & Hrun).
  destruct (prepare_exact base s t1 ray Hwf Hi Hm Hres E1) as
    (v & o1 & o4 & us & Hv & Hw & Hu & Hres1 & Hi1 & Hc1 & Hr1 & Hf1 & Hk1).
  pose proof (within_none_fs _ o4 (engine_reads (K := K) (U := U) (module_path (os s)) ns)) as Hfs.
  fold ns in Hu. rewrite Hu in Hfs. cbn [snd] in Hfs.
  apply run_cons_Ok in Hrun as (t2 & E2 & Hrun).
  pose proof (deploy_keeps [WithFieldOwner FieldOwner; WithPartOfLabelDefault ComponentName;
    WithApplyOrder] t1) as (Hc2 & He2 & _ & Hi2). fold deployAction in Hc2, He2, Hi2.
  destruct (framework_frame deployAction t1 fw_deploy) as (_ & Hf2 & Hca2 & _).
  pose proof (deploy_config ns t1) as Hk2. rewrite E2 in Hc2, He2, Hi2, Hf2, Hca2, Hk2.
  cbn [snd] in *. destruct (Hi2 _ Hi1) as [cs Hcs]. rewrite Hc1 in Hc2.
  assert (removed (rr t2) = false) as Hr2.
  { rewrite <- Hr1. apply removed_lookup. unfold ext_lookup. by rewrite He2. }
  destruct (report_exact base t2 s' _ Hc2 Hr2 Hcs Hrun) as (t & cs' & E3 & Hct & E4 & Hi').
  destruct (framework_frame _ t2 fw_deployments) as (_ & Hf3 & Hca3 & _).
  pose proof (deployments_config ns t2) as Hk3. rewrite E3 in Hf3, Hca3, Hk3.
  set (t' := with_ray _ t) in E4.
  destruct (framework_frame _ t' fw_collect_owned) as (_ & Hf4 & Hca4 & _). rewrite E4 in Hf4, Hca4.
  change (os t') with (os t) in Hf4. change (filter_cache t') with (filter_cache t) in Hca4.
  cbn [snd] in *. exists v, o1, o4, us, t, cs'.
  split_and!; [done|done|by rewrite Hu|unfold handed; by rewrite E1|done| |done|congruence|congruence].
  by rewrite Hk3, Hk2, Hk1.
Qed.

(** The image that the manifests name is not in the overlay that passes write. *)
Definition image_declared (base : string) (o : OS.OS) : Prop :=
  is_Some (fs o !! resolve (params_env base)) ∧
  ¬ overlay_dir o `prefix_of` resolve (params_env base).

Lemma files_after p base s :
  let s' := (run_actions (su_Actions (SetupWithManager p base)) s).2 in
  env (os s') = env (os s) ∧ untouched (overlay_dir (os s)) (os s) (os s').
Proof. apply (rtc_preorder step files_kept files_kept_step), steps_pass. Qed.

Lemma version_again base (o o' : OS.OS) :
  image_declared base o → untouched (overlay_dir o) o o' → env o' = env o →
  module_version base o' = module_version base o.
Proof.
  intros [[n Hn] Hp] Hu He. unfold module_version, related_image, default_text. rewrite He.
  by rewrite (Hu _ _ Hn Hp), Hn.
Qed.

(** ** Two passes *)

Lemma next_available t ray :
  available (K := K) (U := U) (GetConditions (next_ray t ray)) =
  available (K := K) (U := U) (GetConditions ray).
Proof. unfold available. apply (true_kept (K := K) (U := U)). done. Qed.

(** Resources for which the same is read, over clusters that declare the same. *)
Definition same_reading t t' ray ray' : Prop :=
  HasClient (rr t') = HasClient (rr t) ∧ ray_spec ray' = ray_spec ray ∧
  available (K := K) (U := U) (GetConditions ray') = available (K := K) (U := U) (GetConditions ray) ∧
  let ns := ApplicationsNamespace (ray_spec ray) in
  platform_config ns (cluster t') = platform_config ns (cluster t).

Lemma distribution_again t t' ray ray' :
  same_reading t t' ray ray' →
  ray_Distribution (ray_status ray') = next_distribution t ray →
  next_distribution t' ray' = next_distribution t ray.
Proof.
  intros (Hc & Hs & Ha & Hk) Hd. cbv zeta in Hk. unfold next_distribution at 1. rewrite Hd, Ha, Hs.
  rewrite (readPlatformDistribution_config t' t _ Hk Hc). unfold next_distribution.
  destruct (available (K := K) (U := U) (GetConditions ray)); [|done].
  by destruct (readPlatformDistribution _ t).1 as [[d []]| |].
Qed.

Lemma releases_again t t' ray ray' :
  same_reading t t' ray ray' → GetReleaseStatus ray' = GetReleaseStatus ray →
  next_releases t' ray' = next_releases t ray.
Proof.
  intros (_ & Hs & Ha & Hk) Hl. cbv zeta in Hk. unfold next_releases. rewrite Ha, Hs, Hl.
  unfold handshake. by rewrite Hk.
Qed.

(** What two statuses must agree on for the module to have settled. *)
Definition same_report ray ray' : Prop :=
  ray_spec ray' = ray_spec ray ∧ GetReleaseStatus ray' = GetReleaseStatus ray ∧
  ray_Distribution (ray_status ray') = ray_Distribution (ray_status ray) ∧
  ObservedGeneration (GetStatus ray') = ObservedGeneration (GetStatus ray).

(** The resource as it is stored after a pass: with the specification, the
    generation and the distribution, whatever became of the rest. *)
Definition stored ray ray' : Prop :=
  ray_spec ray' = ray_spec ray ∧ Generation (ray_meta ray') = Generation (ray_meta ray) ∧
  ray_Distribution (ray_status ray') = ray_Distribution (ray_status ray).

Lemma report_again t t' ray ray' :
  same_reading t t' ray ray' → GetReleaseStatus ray' = GetReleaseStatus ray →
  stored (next_ray t ray) ray' → same_report (next_ray t ray) (next_ray t' ray').
Proof.
  intros Hr Hl (Hs & Hg & Hd). split_and!; [done|by apply releases_again|by apply distribution_again|].
  cbn. by rewrite Hg.
Qed.

(** The machine and the resources, in two passes. *)
Lemma files_again p base s s1 s2 s3 ray ray2 {DE : DeterministicEngine K U} :
  let ns := ApplicationsNamespace (ray_spec ray) in
  fresh s ray → ManagementState (ray_spec ray) ≠ Removed → healthy (os s) → ready base (os s) →
  ns = "" ∨ clean_namespace ns = true → overlay_wf (overlay_source base (os s)) ns (os s) →
  run_actions (su_Actions (SetupWithManager p base)) s = (Ok tt, s1) →
  fresh s2 ray2 → ray_spec ray2 = ray_spec ray → healthy (os s2) →
  fs (os s2) = fs (os s1) → env (os s2) = env (os s1) → filter_cache s2 = filter_cache s1 →
  run_actions (su_Actions (SetupWithManager p base)) s2 = (Ok tt, s3) →
  fs (os s3) = fs (os s1) ∧ handed base s2 = handed base s.
Proof.
  intros ns Hf1 Hm Hh Hready Hns Hwf E1 Hf2 Hspec Hh2 Hfs He Hca E2.
  destruct (pass_exact p base s s1 ray Hf1 Hm E1) as
    (v & o1 & o4 & us & _ & _ & Hv & Hw & Hu & Hres & _ & _ & _ & Hfs1 & Hca1).
  assert (ManagementState (ray_spec ray2) ≠ Removed) as Hm2 by by rewrite Hspec.
  destruct (pass_exact p base s2 s3 ray2 Hf2 Hm2 E2) as
    (v' & p1 & p4 & us' & _ & _ & Hv' & Hw' & Hu' & Hres' & _ & _ & _ & Hfs3 & _).
  rewrite Hspec in Hw', Hu', Hres'. fold ns in Hw, Hu, Hres, Hw', Hu', Hres'.
  destruct (files_after p base s) as [Henv _]. rewrite E1 in Henv. cbn [snd] in Henv.
  rewrite Henv in He.
  pose proof (within_resolve base (os s)) as (Ho1 & Hfl1 & Hr1 & _).
  pose proof (within_none_fs _ (os s) (within_resolve base)) as Hfo1. rewrite Hv in Ho1, Hfl1, Hr1, Hfo1.
  pose proof (within_resolve base (os s2)) as (Hp1 & Hflp1 & _).
  pose proof (within_none_fs _ (os s2) (within_resolve base)) as Hfp1. rewrite Hv' in Hp1, Hflp1, Hfp1.
  pose proof (within_all_write_overlay base ns o1) as (Ho4 & Hfl4 & _). rewrite Hw in Ho4, Hfl4.
  pose proof (within_all_write_overlay base ns p1) as (Hp4 & Hflp4 & _). rewrite Hw' in Hp4, Hflp4.
  cbn [snd] in *.
  assert (same_machine (os s) o1) as Hsame by done.
  assert (fs p4 = fs o4) as Hfs4.
  { change p4 with (Ok (writable_dir (os s2)), p4).2. rewrite <- Hw'.
    apply (overlay_again base ns o1 o4 p1 (writable_dir (os s)));
      [intros n; by rewrite Hfl1|by apply (ready_same base (os s))|done| |done
      |intros n; by rewrite Hflp1|congruence|congruence].
    unfold overlay_wf, overlay_source, copy_source, writable_dir in *. by rewrite Hfo1, Ho1. }
  split; [congruence|].
  assert (us' = us) as ->.
  { assert (module_path (os s2) = module_path (os s)) as Hmp.
    { unfold module_path, writable_dir. by rewrite He. }
    assert (healthy o4) as Hh4 by (intros n; rewrite Hfl4, Hfl1; apply Hh).
    assert (healthy p4) as Hhp4 by (intros n; rewrite Hflp4, Hflp1; apply Hh2).
    pose proof (engine_again (K := K) (U := U) (module_path (os s)) ns o4 p4 Hh4 Hhp4 Hfs4) as Heng.
    rewrite Hmp, Heng, Hu in Hu'; [by injection Hu'|congruence]. }
  rewrite Hres, Hres'. unfold scc_known at 1. by rewrite Hca, Hca1.
Qed.
End pass.

(** C8: the module converges.  Take a pass over a managed module that completed, on
    a machine whose calls do not fail and that is [ready], with an overlay whose
    parameters fit a line and whose namespace keys, if any, the expression matches
    ([overlay_wf]), an applications namespace that is empty or without white space
    and dollar signs, and manifests that name their image outside of the overlay
    ([image_declared]).  A second pass that completes, on a machine whose calls do
    not fail either, in the same process or with the same answer of the platform
    filter, over the same files and environment, with the specification, the
    generation and the distribution of the resource as the first pass left them, the
    same ConfigMap of the platform, and the deployments as available as they were,
    does nothing new: the same resources are handed to the deployment, in the same
    order, every file is as it was, and the status reports the same releases and
    the same distribution for the same generation.  The rest of the cluster and of
    the resource may have changed in every way. *)
Theorem second_pass_settles {K U} {KA : KubeAPI K} {RS : RoleStore K} {OS : ObjectStore K}
    {UN : Unstructured U} {UL : UnstructuredLaws U} {FW : Framework K U} {FL : FrameworkLaws K U}
    {RL : RequestLaws K U} {RE : ReadingEngine K U} {DE : DeterministicEngine K U}
    {FF : FrameworkFrame K U} {CF : ConfigFrame K U} {SV : Semver} {MR : MapRange}
    {RC : Reconciler K U} p base (s s1 s2 s3 : State K U) ray ray1 ray2 ray3 :
  let ns := ApplicationsNamespace (ray_spec ray) in
  let pass := run_actions (su_Actions (SetupWithManager p base)) in
  fresh s ray → ManagementState (ray_spec ray) ≠ Removed → healthy (os s) → ready base (os s) →
  ns = "" ∨ clean_namespace ns = true → overlay_wf (overlay_source base (os s)) ns (os s) →
  image_declared base (os s) →
  pass s = (Ok tt, s1) → Instance_ (rr s1) = Some (ARay ray1) →
  fresh s2 ray2 → stored ray1 ray2 → healthy (os s2) →
  fs (os s2) = fs (os s1) → env (os s2) = env (os s1) → filter_cache s2 = filter_cache s1 →
  platform_config ns (cluster s2) = platform_config ns (cluster s) →
  pass s2 = (Ok tt, s3) → Instance_ (rr s3) = Some (ARay ray3) →
  available (K := K) (U := U) (GetConditions ray3) = available (K := K) (U := U) (GetConditions ray1) →
  fs (os s3) = fs (os s1) ∧ handed base s2 = handed base s ∧ same_report ray1 ray3.
Proof.
  intros ns pass Hf1 Hm Hh Hready Hns Hwf Himg E1 Hi1 Hf2 Hst Hh2 Hfs He Hca Hcfg E2 Hi3 Hav.
  destruct (files_after p base s) as [Henv Hu]. unfold pass in E1. rewrite E1 in Henv, Hu.
  cbn [snd] in Henv, Hu.
  destruct (pass_exact p base s s1 ray Hf1 Hm E1) as
    (v & o1 & _ & _ & t & cs & Hv & _ & _ & _ & Hct & Hkt & Hi1' & _).
  rewrite Hi1' in Hi1. injection Hi1 as <-. set (x := SetConditions cs _) in *.
  assert (ray_spec ray2 = ray_spec ray) as Hspec by apply Hst.
  assert (ManagementState (ray_spec ray2) ≠ Removed) as Hm2 by by rewrite Hspec.
  destruct (pass_exact p base s2 s3 ray2 Hf2 Hm2 E2) as
    (v' & p1 & _ & _ & t' & cs' & Hv' & _ & _ & _ & Hct' & Hkt' & Hi3' & _).
  rewrite Hi3' in Hi3. injection Hi3 as <-. set (y := SetConditions cs' _) in *.
  rewrite Hspec in Hkt'. fold ns in Hkt, Hkt'.
  assert (v' = v) as ->.
  { destruct (module_version_run base (os s) Hh) as [o' Eo], (module_version_run base (os s2) Hh2) as [o2 Eo2].
    rewrite Eo in Hv. rewrite Eo2 in Hv'. injection Hv as <- _. injection Hv' as <- _.
    apply version_again; [done| |congruence]. intros k n Hk Hp. rewrite Hfs. by apply Hu. }
  destruct (files_again p base s s1 s2 s3 ray ray2) as [Hfiles Hhanded]; try done.
  split_and!; [done|done|].
  rewrite !next_available in Hav.
  apply (report_again t t' x y); [|done|].
  - split_and!; [congruence|done|done|].
    change (platform_config ns (cluster t') = platform_config ns (cluster t)). by rewrite Hkt', Hkt.
  - exact Hst.
Qed.

(** ** Runs *)

Definition settling_pass (s : State Fake Obj) : res unit * State Fake Obj :=
  run_actions (su_Actions (SetupWithManager (FW := fake_framework (λ _, rendered_sample))
    (SV := any_version) (MR := canonical_range) (λ _, false) "/m")) s.

Definition instance_of (s : State Fake Obj) : Ray :=
  match Instance_ (rr s) with Some (ARay ray) => ray | _ => sample_ray Removed "" end.

(** The next request for the resource, in the same process. *)
Definition next_request (s : State Fake Obj) : State Fake Obj :=
  MkState (sample_request (instance_of s)) (cluster s) (os s) (filter_cache s).

Lemma next_fresh s : fresh (next_request s) (instance_of s).
Proof. split_and!; [split; [reflexivity|by eexists]|reflexivity..]. Qed.

Lemma next_kept s :
  fs (os (next_request s)) = fs (os s) ∧ env (os (next_request s)) = env (os s) ∧
  filter_cache (next_request s) = filter_cache s.
Proof. done. Qed.

Lemma stored_same ray : stored ray ray.
Proof. done. Qed.

Definition first_pass : res unit * State Fake Obj := settling_pass (settle_state fresh_os).
Definition second_pass : res unit * State Fake Obj := settling_pass (next_request first_pass.2).

Example first_pass_writes :
  fs (os first_pass.2) !! ["tmp"; "ray-module-manifests"; ManifestPath; ManifestOverlay; "kustomization.yaml"] =
    Some (File (unlines ["kind: Kustomization"; "namespace: apps"; "resources:"; "- a.yaml"])).
Proof. vm_compute. reflexivity. Qed.

Lemma settle_tree_overlay_wf : overlay_wf (overlay_source "/m" fresh_os) "apps" fresh_os.
Proof.
  split.
  - intros c Hc. vm_compute in Hc. injection Hc as <-.
    match goal with |- Forall _ ?l => assert (bool_decide (Forall wf_entry l) = true) as Hb end.
    { vm_compute. reflexivity. }
    by apply bool_decide_eq_true in Hb.
  - intros data Hd. left. vm_compute in Hd. injection Hd as <-. vm_compute. reflexivity.
Qed.

Lemma settle_tree_declared : image_declared "/m" fresh_os.
Proof.
  split; [by eexists|]. intros Hp.
  assert (bool_decide (overlay_dir fresh_os `prefix_of` resolve (params_env "/m")) = false) as Hb
    by (vm_compute; reflexivity).
  by apply bool_decide_eq_false in Hb.
Qed.

Lemma second_pass_settles_witness :
  fs (os second_pass.2) = fs (os first_pass.2) ∧
  same_report (instance_of first_pass.2) (instance_of second_pass.2).
Proof.
  assert (first_pass.1 = Ok tt) as E1 by (vm_compute; reflexivity).
  assert (second_pass.1 = Ok tt) as E2 by (vm_compute; reflexivity).
  destruct (second_pass_settles (FW := fake_framework (λ _, rendered_sample)) (SV := any_version)
    (MR := canonical_range) (λ _, false) "/m" (settle_state fresh_os) first_pass.2
    (next_request first_pass.2) second_pass.2 (sample_ray Managed "apps") (instance_of first_pass.2)
    (instance_of first_pass.2) (instance_of second_pass.2)) as (H1 & _ & H3).
  - split_and!; [split; [reflexivity|by eexists]|reflexivity..].
  - discriminate.
  - intros n. reflexivity.
  - exact fresh_os_ready.
  - right. vm_compute. reflexivity.
  - exact settle_tree_overlay_wf.
  - exact settle_tree_declared.
  - exact (pair_run _ _ E1).
  - vm_compute. reflexivity.
  - apply next_fresh.
  - apply stored_same.
  - intros n. vm_compute. reflexivity.
  - apply next_kept.
  - apply next_kept.
  - apply next_kept.
  - vm_compute. reflexivity.
  - exact (pair_run _ _ E2).
  - vm_compute. reflexivity.
  - vm_compute. reflexivity.
  - split; [exact H1|exact H3].
Defined.
