(* ===== verification/Following.v ===== *)
(** * Following the platform: from an event to the status

    The parts composed along one path: the platform changes its ConfigMap, the
    watch that [SetupWithManager] registers turns the event into a request, and
    the pass over that request runs to its end and reports what is declared.  The
    report is stated as a function of the declaration, the manifests and the
    environment, and not by the actions that compute it. *)
From S2P Require Import Prelude GoStrings OS API Kube Fake ParamsFile Overlay Params Settle Crash.
From S2P Require Import Progress PlatformConfig Releases Status Render PlatformFilter Dependencies.
From S2P Require Import NotebookRBAC OwnedGC Controller Liveness Transitions Convergence.

(** ** What the platform declares *)

(** The data of a ConfigMap, if there is one. *)
Definition data_of {K} {KA : KubeAPI K} (ns n : string) (k : K) : option (option (gmap string string)) :=
  match GetConfigMap ns n k with inr cm => Some (cm_Data cm) | inl _ => None end.

(** The API server answered: there is one, or there is none. *)
Definition answered {K} {KA : KubeAPI K} (ns n : string) (k : K) : Prop :=
  ∀ e, GetConfigMap ns n k = inl e → IsNotFound e = true.

(** A watch: the events between two clusters.  When the answer about a ConfigMap
    changed, there is an event about it. *)
Class Watch (K : Type) {KA : KubeAPI K} := {
  events : K → K → list ObjectMeta;
  events_complete ns n k k' : answered ns n k → answered ns n k' →
    data_of ns n k ≠ data_of ns n k' →
    ∃ obj, obj ∈ events k k' ∧ Namespace obj = ns ∧ Name obj = n;
}.

#[export] Instance acceptable_dec {SV : Semver} v : Decision (acceptable v).
Proof. unfold acceptable. apply _. Defined.

Definition standalone : Distribution := Build_Distribution "Standalone" "0.0.0".

(** The distribution that a declaration stands for, from the one that was reported. *)
Definition declared_distribution {SV : Semver} (old : Distribution)
    (c : option (option (gmap string string))) : Distribution :=
  match c with
  | None => standalone
  | Some data =>
      let name := map_get PlatformNameKey data in
      let version := map_get PlatformVersionKey data in
      if decide (name = "" ∧ version = "") then standalone
      else if decide (version = "" ∨ acceptable version)
           then Build_Distribution (if decide (name = "") then "Standalone" else name) version
           else old
  end.

Definition declared_version (c : option (option (gmap string string))) : string :=
  match c with None => "" | Some data => map_get PlatformHandshakeKey data end.

(** * Properties *)

Section following.
Context {K U : Type} {KA : KubeAPI K} {FW : Framework K U} {SV : Semver}.
Implicit Types (s t : State K U) (ray : Ray).

Definition declaration (ns : string) (k : K) : option (option (gmap string string)) :=
  data_of ns PlatformConfigMapName k.

(** The releases, of the module alone and with the version of the platform. *)
Definition declared_releases (own : ComponentReleaseStatus)
    (c : option (option (gmap string string))) : ComponentReleaseStatus :=
  if decide (declared_version c = "") then own
  else SetPlatformRelease (K := K) (U := U) (declared_version c) own.

(** What the status says after a pass from [s] over [ray]. *)
Definition follows (base : string) s ray ray' : Prop :=
  let c := declaration (ApplicationsNamespace (ray_spec ray)) (cluster s) in
  let own := desiredModuleReleases (module_version base (os s)) in
  let old := ray_Distribution (ray_status ray) in
  let up := available (K := K) (U := U) (GetConditions ray') in
  ray_meta ray' = ray_meta ray ∧ ray_spec ray' = ray_spec ray ∧
  ObservedGeneration (GetStatus ray') = Generation (ray_meta ray) ∧
  (∃ cs, GetConditions ray' = MarkFalse (K := K) (U := U) ConditionDegraded
     [WithReason "AsExpected"; WithMessage "Module is operating normally";
      WithObservedGeneration (Generation (ray_meta ray))] cs) ∧
  ray_Distribution (ray_status ray') = (if up then declared_distribution old c else old) ∧
  GetReleaseStatus ray' = (if up then declared_releases own c else own).

Lemma next_distribution_declared t ray :
  let ns := ApplicationsNamespace (ray_spec ray) in
  HasClient (rr t) = true → ns ≠ "" → answered ns PlatformConfigMapName (cluster t) →
  next_distribution t ray =
    if available (K := K) (U := U) (GetConditions ray)
    then declared_distribution (ray_Distribution (ray_status ray)) (declaration ns (cluster t))
    else ray_Distribution (ray_status ray).
Proof.
  intros ns Hc Hns Ha. unfold next_distribution. fold ns. destruct (available _); [|done].
  unfold declaration, data_of. destruct (GetConfigMap ns PlatformConfigMapName (cluster t)) as [e|cm] eqn:E.
  - unfold readPlatformDistribution. destruct (String.eqb_spec ns ""); [done|].
    rewrite (bind_Ok _ _ _ _ _ (with_client_gets _ t Hc)), E, (Ha e E). reflexivity.
  - destruct (readPlatformDistribution_cm t ns cm Hc Hns E) as (d & st & -> & H1 & H2 & H3).
    cbn [fst declared_distribution]. destruct st; cbn [aligned].
    + by rewrite decide_True by (by apply H1).
    + rewrite decide_False by naive_solver.
      rewrite decide_True.
      * destruct (H3 eq_refl) as [Hn Hv]. destruct d as [n v]. cbn in Hn, Hv. subst.
        destruct (String.eqb_spec (map_get PlatformNameKey (cm_Data cm)) ""); by case_decide.
      * destruct (decide (map_get PlatformVersionKey (cm_Data cm) = "")); [by left|right].
        destruct (decide (acceptable (map_get PlatformVersionKey (cm_Data cm)))); naive_solver.
    + destruct H2 as [H2 _]. specialize (H2 eq_refl). by rewrite !decide_False by naive_solver.
Qed.

Lemma next_releases_declared t ray :
  let ns := ApplicationsNamespace (ray_spec ray) in
  ns ≠ "" → answered ns PlatformConfigMapName (cluster t) →
  next_releases t ray =
    if available (K := K) (U := U) (GetConditions ray)
    then declared_releases (GetReleaseStatus ray) (declaration ns (cluster t))
    else GetReleaseStatus ray.
Proof.
  intros ns Hns Ha. unfold next_releases. fold ns. destruct (available _); [|done].
  unfold handshake, declared_releases, declared_version, declaration, data_of, platform_config.
  destruct (String.eqb_spec ns ""); [done|].
  destruct (GetConfigMap ns PlatformConfigMapName (cluster t)) as [e|cm] eqn:E.
  - by rewrite (Ha e E).
  - destruct (String.eqb_spec (map_get PlatformHandshakeKey (cm_Data cm)) ""); by case_decide.
Qed.

(** An event about the ConfigMap of the platform asks for a pass over the resource. *)
Lemma event_mapped {UN : Unstructured U} {MR : MapRange} p base obj (k : K) ray :
  let su := SetupWithManager (U := U) p base in
  GetRay InstanceName k = inr ray → ApplicationsNamespace (ray_spec ray) ≠ "" →
  Name obj = PlatformConfigMapName → Namespace obj = ApplicationsNamespace (ray_spec ray) →
  su_WatchPredicate su obj = true ∧
  su_WatchMapper su obj k = (Ok [Build_NamespacedName "" (su_InstanceName su)], k).
Proof.
  intros su Hg Hns Hn Hs. cbn [su SetupWithManager su_WatchPredicate su_WatchMapper su_InstanceName].
  unfold platformConfigPredicate, platformConfigMapper. rewrite Hn, String.eqb_refl. split; [done|].
  cbn [negb]. rewrite bind_split. unfold gets. rewrite Hg, Hs, String.eqb_refl.
  by destruct (String.eqb_spec (ApplicationsNamespace (ray_spec ray)) "").
Qed.
End following.

Section reported.
Context {K U : Type} {KA : KubeAPI K} {RS : RoleStore K} {OS : ObjectStore K}
  {UN : Unstructured U} {UL : UnstructuredLaws U} {FW : Framework K U} {FL : FrameworkLaws K U}
  {RL : RequestLaws K U} {RE : ReadingEngine K U} {FF : FrameworkFrame K U} {CF : ConfigFrame K U}
  {SV : Semver} {MR : MapRange} {RC : Reconciler K U}.
Implicit Types (s t : State K U) (ray : Ray).

(** What a pass from [s] deploys, over the files [f] it leaves. *)
Definition deploys (base : string) s ray (f : gmap (list string) node) : Prop :=
  let ns := ApplicationsNamespace (ray_spec ray) in
  ∃ us o t1 t2, healthy o ∧ fs o = f ∧
    (Engine_Render (K := K) (U := U) (module_path (os s)) ns o).1 = Ok us ∧
    run_actions (prepare_actions base) s = (Ok tt, t1) ∧ deployAction t1 = (Ok tt, t2) ∧
    Resources (rr t1) = (if scc_known s then prepare (K := K) ns us
                         else keep_non_scc (prepare (K := K) ns us)).

(** A pass that completed wrote the overlay, deployed what it renders to, and
    reports what is declared. *)
Lemma pass_outcome p base s s' ray :
  fresh s ray → ManagementState (ray_spec ray) ≠ Removed → healthy (os s) → ready base (os s) →
  let ns := ApplicationsNamespace (ray_spec ray) in
  ns ≠ "" → answered ns PlatformConfigMapName (cluster s) →
  run_actions (su_Actions (SetupWithManager p base)) s = (Ok tt, s') →
  overlay_set base ns (os s) (fs (os s')) ∧ deploys base s ray (fs (os s')) ∧
  ∃ ray', Instance_ (rr s') = Some (ARay ray') ∧ follows base s ray ray'.
Proof.
  intros Hf Hm Hh Hready ns Hns Ha Hrun.
  destruct (pass_exact p base s s' ray Hf Hm Hrun) as
    (v & o1 & o4 & us & t & cs & Hv & Hw & Hu & Hres & Hct & Hkt & Hi & Hfs & _).
  destruct (module_version_run base (os s) Hh) as [o' Eo]. rewrite Eo in Hv. injection Hv as <- <-.
  pose proof (within_resolve base (os s)) as (He1 & Hfl1 & Hr1 & _).
  pose proof (within_none_fs _ (os s) (within_resolve base)) as Hf1.
  rewrite Eo in He1, Hfl1, Hr1, Hf1. cbn [snd] in *.
  assert (healthy o') as Hh1 by (intros n; rewrite Hfl1; apply Hh).
  destruct (write_overlay_runs base ns o' Hh1) as (f & (o5 & E5 & Hf5 & _ & _ & Hh5) & Hset).
  { by apply (ready_same base (os s)). }
  fold ns in Hw. rewrite Hw in E5. injection E5 as _ <-. split; [|split].
  - rewrite Hfs, Hf5. by apply (overlay_set_same base ns (os s) o').
  - pose proof Hrun as Hrun1. cbn [SetupWithManager su_Actions] in Hrun1.
    rewrite run_actions_app in Hrun1. apply bind_Ok_inv in Hrun1 as ([] & t1 & E1 & Hrun1).
    apply run_cons_Ok in Hrun1 as (t2 & E2 & _). unfold handed in Hres. rewrite E1 in Hres.
    by exists us, o4, t1, t2.
  - unfold platform_config in Hkt. fold ns in Hkt.
    set (x := SetConditions cs _) in Hi.
    assert (answered ns PlatformConfigMapName (cluster t)) as Hat by (unfold answered; by rewrite Hkt).
    assert (declaration ns (cluster t) = declaration ns (cluster s)) as Hd
      by (unfold declaration, data_of; by rewrite Hkt).
    exists (next_ray t x). split; [done|]. unfold follows. fold ns. rewrite <- Hd, next_available.
    split_and!; [done..|by eexists| |].
    + exact (next_distribution_declared t x Hct Hns Hat).
    + exact (next_releases_declared t x Hns Hat).
Qed.
End reported.

(** C3: a pass over a managed module completes, and its outcome is a function of
    what it reads.  The hypotheses: the request is fresh and the module managed,
    its applications namespace is set; the machine's calls do not fail and it is
    [ready] (the overlay can be written, and copied first if it never was); the API
    server and the framework serve the calls; and the manifests, once the module
    has prepared them, can be rendered, to objects whose kinds of cert-manager, if
    they have any, are installed on the cluster (without these the pass ends in
    the error of the requirement).  Then, whatever else the cluster holds, the pass runs to its
    end; the writable copy holds the manifests with the parameters and the
    namespace set; exactly the objects that it renders to were deployed, moved to
    the namespace and labelled, without the security context constraints where they
    are not served; and the status says what the manifests, the environment and
    the platform declare. *)
Theorem managed_pass_outcome {K U} {KA : KubeAPI K} {SA : ServingAPI K} {RS : RoleStore K}
    {OS : ObjectStore K} {UN : Unstructured U} {UL : UnstructuredLaws U} {FW : Framework K U}
    {SF : ServingFramework K U} {FL : FrameworkLaws K U} {RL : RequestLaws K U}
    {RE : ReadingEngine K U} {FF : FrameworkFrame K U} {CF : ConfigFrame K U} {SV : Semver}
    {MR : MapRange} {RC : Reconciler K U} p base (s : State K U) ray :
  let ns := ApplicationsNamespace (ray_spec ray) in
  fresh s ray → ManagementState (ray_spec ray) ≠ Removed → ns ≠ "" →
  healthy (os s) → ready base (os s) → serving (cluster s) → renders base ns (os s) (cluster s) →
  ∃ s' ray', run_actions (su_Actions (SetupWithManager p base)) s = (Ok tt, s') ∧
    overlay_set base ns (os s) (fs (os s')) ∧ deploys base s ray (fs (os s')) ∧
    Instance_ (rr s') = Some (ARay ray') ∧ follows base s ray ray'.
Proof.
  intros ns Hf Hm Hns Hh Hready Hs Hr. pose proof Hf as (Hwf & Hi & Hres).
  destruct (managed_pass_served p base s ray Hwf Hi Hm Hres Hh Hready Hs Hr) as (s' & E).
  destruct (pass_outcome p base s s' ray Hf Hm Hh Hready Hns) as (H1 & H2 & ray' & H3 & H4); [|done|].
  - intros e. by apply serving_config.
  - by exists s', ray'.
Qed.

(** C5: the module follows the platform, from a change to the status.  With an API
    server that answers before and after it: when the declaration of the platform
    in the applications namespace of the module, which has one, is changed, added
    or removed, some event passes the predicate of the watch and is mapped to a
    request for the module's resource.  The pass over that request, if it is
    fresh and the module managed, the machine healthy and [ready], the manifests
    can be rendered and the kinds of cert-manager they need are installed, runs to
    its end, and reports the generation it saw and the releases
    of the manifests and the environment.  If the deployments are available after
    it, it also reports what is now declared: the version the platform hands over,
    and its distribution, which is the standalone one without a declaration and the
    old one if the declared version is invalid; if they are not, the distribution
    stays the old one and no release of the platform is added. *)
Theorem platform_change_is_followed {K U} {KA : KubeAPI K} {WA : Watch K} {SA : ServingAPI K}
    {RS : RoleStore K} {OS : ObjectStore K} {UN : Unstructured U} {UL : UnstructuredLaws U}
    {FW : Framework K U} {SF : ServingFramework K U} {FL : FrameworkLaws K U} {RL : RequestLaws K U}
    {RE : ReadingEngine K U} {FF : FrameworkFrame K U} {CF : ConfigFrame K U} {SV : Semver}
    {MR : MapRange} {RC : Reconciler K U} p base (k : K) (s : State K U) ray :
  let su := SetupWithManager (K := K) (U := U) p base in
  let ns := ApplicationsNamespace (ray_spec ray) in
  serving k → serving (cluster s) → declaration ns k ≠ declaration ns (cluster s) →
  GetRay InstanceName (cluster s) = inr ray → ns ≠ "" →
  (∃ obj, obj ∈ events k (cluster s) ∧ su_WatchPredicate su obj = true ∧
     su_WatchMapper su obj (cluster s) =
       (Ok [Build_NamespacedName "" (su_InstanceName su)], cluster s)) ∧
  (fresh s ray → ManagementState (ray_spec ray) ≠ Removed → healthy (os s) → ready base (os s) →
   renders base ns (os s) (cluster s) →
   ∃ s' ray', run_actions (su_Actions su) s = (Ok tt, s') ∧
     Instance_ (rr s') = Some (ARay ray') ∧ follows base s ray ray').
Proof.
  intros su ns Hs1 Hs2 Hd Hg Hns.
  assert (∀ k, serving k → answered ns PlatformConfigMapName k) as Ha.
  { intros k' Hk e. by apply serving_config. }
  split.
  - destruct (events_complete ns PlatformConfigMapName k (cluster s)) as (obj & Hobj & Hon & Hn); auto.
    exists obj. split; [done|]. by apply (event_mapped p base obj (cluster s) ray).
  - intros Hf Hm Hh Hready Hr. pose proof Hf as (Hwf & Hi & Hres).
    destruct (managed_pass_served p base s ray Hwf Hi Hm Hres Hh Hready Hs2 Hr) as (s' & E).
    destruct (pass_outcome p base s s' ray Hf Hm Hh Hready Hns (Ha _ Hs2) E) as (_ & _ & ray' & Hi' & Hfo).
    by exists s', ray'.
Qed.

(** ** Runs *)

(** A watch of the cluster in memory. *)
Definition map_changed (k k' : Fake) (i : string * string) : Prop :=
  data_of i.1 i.2 k ≠ data_of i.1 i.2 k'.

#[export] Instance map_changed_dec k k' i : Decision (map_changed k k' i).
Proof. unfold map_changed. apply _. Defined.

Definition map_meta (i : string * string) : ObjectMeta := Build_ObjectMeta i.2 i.1 "" None [] [] 1 None.

#[export] Instance fake_watch : Watch Fake.
Proof.
  refine {| events := λ k k', map map_meta (base.filter (map_changed k k')
    (elements (dom (fk_maps k) ∪ dom (fk_maps k')))) |}.
  intros ns n k k' Ha Ha' Hd. exists (map_meta (ns, n)). split; [|done].
  apply list_elem_of_fmap. exists (ns, n). split; [done|]. apply list_elem_of_filter. split; [done|].
  apply elem_of_elements, elem_of_union. rewrite !elem_of_dom.
  destruct (fk_maps k !! (ns, n)) as [cm|] eqn:E; [left; by eexists|].
  destruct (fk_maps k' !! (ns, n)) as [cm|] eqn:E'; [right; by eexists|]. destruct Hd.
  unfold answered in Ha, Ha'. unfold data_of. cbn [fake_api GetConfigMap] in *. rewrite E in Ha |- *.
  rewrite E' in Ha' |- *. unfold guarded in *.
  destruct (fk_down k); [specialize (Ha _ eq_refl); discriminate|].
  destruct (fk_down k'); [specialize (Ha' _ eq_refl); discriminate|]. done.
Defined.

(** A module that runs, on a platform that is being upgraded. *)
Definition running_ray : Ray :=
  SetDistribution (Build_Distribution "Standalone" "0.0.0")
    (SetConditions [Build_Condition ConditionDeploymentsAvailable "True" "" "" 0]
      (sample_ray Managed "apps")).

Definition platform_map (name version handed_over : string) : ConfigMap :=
  Build_ConfigMap (meta_named PlatformConfigMapName)
    (Some (<[PlatformNameKey := name]> (<[PlatformVersionKey := version]>
       {[PlatformHandshakeKey := handed_over]}))).

Definition on_platform (maps : gmap (string * string) ConfigMap) : Fake :=
  MkFake (Some running_ray) maps ∅ ∅ [] None.

Definition upgraded : Fake :=
  on_platform {[("apps", PlatformConfigMapName) := platform_map "ODH" "v3.5.1" "3.5.1"]}.

Definition upgraded_state : State Fake Obj := sample_state running_ray upgraded fresh_os.
Definition upgraded_pass : res unit * State Fake Obj := settling_pass upgraded_state.

Example upgraded_status :
  (ray_Distribution (ray_status (instance_of upgraded_pass.2)),
   GetReleaseStatus (instance_of upgraded_pass.2)) =
  (Build_Distribution "ODH" "v3.5.1",
   [Build_ComponentRelease KubeRayReleaseName "v1" KubeRayRepoURL;
    Build_ComponentRelease "Platform" "3.5.1" ""]).
Proof. vm_compute. reflexivity. Qed.

Lemma declaration_changed : declaration "apps" (on_platform ∅) ≠ declaration "apps" upgraded.
Proof. discriminate. Qed.

Lemma platform_change_is_followed_witness :
  (∃ obj, obj ∈ events (on_platform ∅) upgraded ∧
     platformConfigMapper obj upgraded = (Ok [the_request], upgraded)) ∧
  ∃ s' ray', settling_pass upgraded_state = (Ok tt, s') ∧ Instance_ (rr s') = Some (ARay ray') ∧
    follows (FW := fake_framework (λ _, rendered_sample)) (SV := any_version) "/m"
      upgraded_state running_ray ray'.
Proof.
  destruct (platform_change_is_followed (FW := fake_framework (λ _, rendered_sample))
    (SV := any_version) (MR := canonical_range) (λ _, false) "/m" (on_platform ∅) upgraded_state
    running_ray) as [(obj & H1 & _ & H2) H3];
    [reflexivity|reflexivity|exact declaration_changed|reflexivity|discriminate|].
  split; [exists obj; split; [exact H1|exact H2]|].
  destruct H3 as (s' & ray' & E & Hi & Hf);
    [split_and!; [split; [reflexivity|by eexists]|reflexivity..]|discriminate|intros n; reflexivity
    |exact fresh_os_ready|apply sample_renders|].
  exists s', ray'. split_and!; [exact E|exact Hi|exact Hf].
Defined.

Lemma managed_pass_outcome_witness :
  ∃ s' ray', settling_pass upgraded_state = (Ok tt, s') ∧ Instance_ (rr s') = Some (ARay ray') ∧
    deploys (FW := fake_framework (λ _, rendered_sample)) (MR := canonical_range) "/m" upgraded_state running_ray (fs (os s')) ∧
    follows (FW := fake_framework (λ _, rendered_sample)) (SV := any_version) "/m"
      upgraded_state running_ray ray'.
Proof.
  destruct (managed_pass_outcome (FW := fake_framework (λ _, rendered_sample)) (SV := any_version)
    (MR := canonical_range) (λ _, false) "/m" upgraded_state running_ray)
    as (s' & ray' & E & _ & Hd & Hi & Hf);
    [split_and!; [split; [reflexivity|by eexists]|reflexivity..]|discriminate|discriminate
    |intros n; reflexivity|exact fresh_os_ready|reflexivity|apply sample_renders|].
  exists s', ray'. split_and!; [exact E|exact Hi|exact Hd|exact Hf].
Defined.
