(* ===== verification/Lifecycle.v ===== *)
(** * The life of an operand: what was deployed is found again

    The rendering labels every object, the framework stores what it is handed,
    and the collection of [owned_gc.go] looks for the label: here the three are
    composed.  Every object of a collected kind that a pass over a managed module
    handed to the deployment is an operand on the cluster, and is gone after the
    module was removed or its resource deleted, owner references or not. *)
From S2P Require Import Prelude GoStrings OS API Kube Fake ParamsFile Overlay Params Settle Crash.
From S2P Require Import Progress PlatformConfig Releases Status Render PlatformFilter Dependencies.
From S2P Require Import NotebookRBAC OwnedGC Controller.

(** ** The kinds of the lists *)

Definition item_kind (l : ListKind) : GroupVersionKind :=
  match l with
  | DeploymentList => GVK "apps" "v1" "Deployment"
  | ConfigMapList => GVK "" "v1" "ConfigMap"
  | ServiceList => GVK "" "v1" "Service"
  | ServiceAccountList => GVK "" "v1" "ServiceAccount"
  | MutatingWebhookConfigurationList =>
      GVK "admissionregistration.k8s.io" "v1" "MutatingWebhookConfiguration"
  | ClusterRoleList => GVK "rbac.authorization.k8s.io" "v1" "ClusterRole"
  | ClusterRoleBindingList => GVK "rbac.authorization.k8s.io" "v1" "ClusterRoleBinding"
  end.

#[export] Instance item_kind_inj : Inj (=) (=) item_kind.
Proof. by intros [] [] [=]. Qed.

(** Every kind is in one of the two lists of [owned_gc.go]. *)
Lemma listed_kinds l : l ∈ namespacedOwnedLists ∨ l ∈ clusterOwnedLists.
Proof.
  unfold namespacedOwnedLists, clusterOwnedLists. rewrite !elem_of_cons. destruct l; tauto.
Qed.

(** ** What is asked of the deployment

    Server-side apply: after a deployment that succeeded, each object of these
    kinds is stored under its identity, with the labels that the resources of
    that identity agree on; a namespaced one had a namespace. *)
Definition label_of {U} {UN : Unstructured U} (key : string) (u : U) : option string :=
  GetLabels u ≫= (.!! key).

Class Deploys (K U : Type) {KA : KubeAPI K} {OS : ObjectStore K} {UN : Unstructured U}
    {FW : Framework K U} := {
  GetName : U → string;
  deploy_stores opts (s s' : State K U) u l :
    Deploy_NewAction opts s = (Ok tt, s') → u ∈ Resources (rr s) → GVKOf u = item_kind l →
    (l ∈ namespacedOwnedLists → GetNamespace u ≠ "") ∧
    ∃ o, stored (cluster s') o ∧ identity o = (l, GetNamespace u, GetName u) ∧
      ∀ key v, (∀ u', u' ∈ Resources (rr s) → GVKOf u' = GVKOf u →
                  GetNamespace u' = GetNamespace u → GetName u' = GetName u →
                  label_of key u' = Some v) →
        (Labels (obj_meta o)) ≫= (.!! key) = Some v;
  kind_of_gvk u l : GVKOf u = item_kind l → GetKind u = gvk_Kind (GVKOf u);
}.

(** * Properties *)

Section lifecycle.
Context {K U : Type} {KA : KubeAPI K} {RS : RoleStore K} {OS : ObjectStore K}
  {UN : Unstructured U} {UL : UnstructuredLaws U} {FW : Framework K U} {DP : Deploys K U}.
Implicit Types (s : State K U) (k : K) (u : U) (ray : Ray).

(** The identity under which a resource is deployed. *)
Definition deployed_as u l : ListKind * string * string := (l, GetNamespace u, GetName u).

(** Every resource of a collected kind is stored, as an operand of the resource. *)
Definition all_operands ray (handed : list U) k : Prop :=
  ∀ u l, u ∈ handed → GVKOf u = item_kind l →
  ∃ o, stored k o ∧ identity o = deployed_as u l ∧ labeledOperand (K := K) (U := U) o = true ∧
    operand (K := K) (U := U) (UID (ray_meta ray)) (ApplicationsNamespace (ray_spec ray)) o.

Lemma operand_listed uid ns o :
  labeledOperand (K := K) (U := U) o = true → ns ≠ "" →
  (obj_list o ∈ namespacedOwnedLists → Namespace (obj_meta o) = ns) →
  operand (K := K) (U := U) uid ns o.
Proof.
  intros Hl Hns Hn. split; [unfold is_operand; by rewrite Hl, orb_true_r|].
  destruct (listed_kinds (obj_list o)); [right|left]; auto.
Qed.

Lemma kind_no_crd u l : GVKOf u = item_kind l → GetKind u ≠ "CustomResourceDefinition".
Proof. intros E. rewrite (kind_of_gvk u l E), E. by destruct l. Qed.

(** What the preparation guarantees is what the collection looks for. *)
Lemma deployed_operands k0 sccs ray s s' :
  let ns := ApplicationsNamespace (ray_spec ray) in
  ns ≠ "" → Forall (deployable ns k0 sccs) (Resources (rr s)) →
  deployAction s = (Ok tt, s') → all_operands ray (Resources (rr s)) (cluster s').
Proof.
  intros ns Hns Hall E u l Hu Hk. rewrite Forall_forall in Hall.
  destruct (deploy_stores _ s s' u l E Hu Hk) as (Hnamed & o & Ho & Hid & Hlab).
  exists o. assert (labeledOperand (K := K) (U := U) o = true) as Hl.
  { specialize (Hlab (DefaultPartOfLabelKey (K := K) (U := U)) ComponentName).
    unfold labeledOperand, map_get. destruct (Labels (obj_meta o)) as [m|]; cbn in Hlab |- *.
    - rewrite Hlab; [apply String.eqb_refl|]. intros u' Hu' Hg _ _.
      destruct (Hall u' Hu') as (_ & Hc & _). destruct Hc as (ls & Hls & Hv).
      { apply (kind_no_crd u' l). by rewrite Hg. }
      unfold label_of. by rewrite Hls.
    - discriminate Hlab. intros u' Hu' Hg _ _.
      destruct (Hall u' Hu') as (_ & Hc & _). destruct Hc as (ls & Hls & Hv).
      { apply (kind_no_crd u' l). by rewrite Hg. }
      unfold label_of. by rewrite Hls. }
  split_and!; [done..|]. apply operand_listed; [done..|].
  injection Hid as Hkind Hnamespace _. rewrite Hkind, Hnamespace. intros Hin.
  destruct (Hall u Hu) as ([Hemp|[?|?]] & _); [by destruct (Hnamed Hin)|done..].
Qed.

(** A removal: a pass over the removed module, or the finalizer, that succeeded. *)
Definition removal {SV : Semver} {MR : MapRange} {RC : Reconciler K U} p base ray s s' : Prop :=
  let su := SetupWithManager p base in
  ManagementState (ray_spec ray) = Removed ∧ run_actions (su_Actions su) s = (Ok tt, s') ∨
  su_Finalizer su s = (Ok tt, s').

Lemma removal_leaves_nothing {FL : FrameworkLaws K U} {SV : Semver} {MR : MapRange}
    {RC : Reconciler K U} p base ray s s' :
  well_formed s → Instance_ (rr s) = Some (ARay ray) → UID (ray_meta ray) ≠ "" →
  ApplicationsNamespace (ray_spec ray) ≠ "" → removal p base ray s s' →
  listed_kinds_gone (U := U) ray (cluster s').
Proof.
  intros Hwf Hi Hu Hns [[Hm E]|E].
  - pose proof (removed_pass_run p base s ray Hwf Hi Hm Hu) as H. rewrite E in H. by apply H.
  - destruct Hwf as [Hc _]. by apply (deletionCleanup_run s s' (Ok tt) ray Hc Hi Hu E).
Qed.
End lifecycle.

(** The resource that a pass reads, of the object as it is stored. *)
Definition decodes (o : Admission.stored) (ray : Ray) : Prop :=
  Admission.namespace o = ApplicationsNamespace (ray_spec ray).

(** C6: the life of an operand.  A pass over a managed module that completed
    deployed its resources, and right after the deployment each one of a collected
    kind is an operand on the cluster: stored under its identity, labelled, and
    in the namespace the collection lists.  From then on, whatever happens to the
    cluster and to the owner references, and however often the resource is updated
    under the rules of its definition, which keep it in that namespace, take any
    removal that succeeds, by a pass over the removed module or by the finalizer.
    An object of that identity that is still stored after it waits for its
    finalizers, or is no operand any more: it neither has the label nor is owned
    by the resource. *)
Theorem operands_are_removed {K U} {KA : KubeAPI K} {RS : RoleStore K} {OS : ObjectStore K}
    {UN : Unstructured U} {UL : UnstructuredLaws U} {FW : Framework K U} {DP : Deploys K U}
    {FL : FrameworkLaws K U} {RL : RequestLaws K U} {SV : Semver} {MR : MapRange}
    {RC : Reconciler K U} p base (s s' : State K U) ray :
  well_formed s → Instance_ (rr s) = Some (ARay ray) →
  ManagementState (ray_spec ray) ≠ Removed → Resources (rr s) = [] →
  ApplicationsNamespace (ray_spec ray) ≠ "" →
  run_actions (su_Actions (SetupWithManager p base)) s = (Ok tt, s') →
  ∃ t1 t2, run_actions (prepare_actions base) s = (Ok tt, t1) ∧ deployAction t1 = (Ok tt, t2) ∧
    all_operands ray (Resources (rr t1)) (cluster t2) ∧
    ∀ (s2 s3 : State K U) ray2 o1 o2,
      well_formed s2 → Instance_ (rr s2) = Some (ARay ray2) → UID (ray_meta ray2) ≠ "" →
      decodes o1 ray → Admission.updates o1 o2 → decodes o2 ray2 → removal p base ray2 s2 s3 →
      ∀ u l o, u ∈ Resources (rr t1) → GVKOf u = item_kind l →
        stored (cluster s3) o → identity o = deployed_as u l →
        terminating o ∨
        (labeledOperand (K := K) (U := U) o = false ∧ ownedByUID o (UID (ray_meta ray2)) = false).
Proof.
  intros Hwf Hi Hm Hres Hns Hrun.
  destruct (managed_pass_run p base s s' ray Hwf Hi Hm Hres Hrun) as
    (t1 & t2 & _ & _ & _ & E1 & Hall & _ & E & _).
  pose proof (deployed_operands _ _ _ t1 t2 Hns Hall E) as Hops.
  exists t1, t2. split_and!; [done..|].
  intros s2 s3 ray2 x1 x2 Hwf2 Hi2 Hu2 Hx1 Hupd Hx2 Hr u l o Hu Hk Ho Hid.
  assert (ApplicationsNamespace (ray_spec ray2) = ApplicationsNamespace (ray_spec ray)) as Hns2.
  { rewrite <- Hx1, <- Hx2. apply namespace_kept; [by rewrite Hx1|done]. }
  destruct (Hops u l Hu Hk) as (o1 & Ho1 & Hid1 & _ & [_ Hin1]).
  destruct (removal_leaves_nothing p base ray2 s2 s3) as [_ Hclean]; [done..|by rewrite Hns2|done|].
  destruct (is_operand (K := K) (U := U) (UID (ray_meta ray2)) o) eqn:Hop.
  - left. apply Hclean; [done|]. rewrite Hns2. split; [done|].
    assert (identity o = identity o1) as Heq by congruence. injection Heq as Hk2 Hn2 _.
    by rewrite Hk2, Hn2.
  - right. by apply orb_false_iff in Hop as [-> ->].
Qed.

(** ** A framework that deploys, in memory *)

Definition listed_as (g : GroupVersionKind) : option ListKind :=
  snd <$> list_find (λ l, item_kind l = g) (namespacedOwnedLists ++ clusterOwnedLists).

Lemma listed_as_iff g l : listed_as g = Some l ↔ g = item_kind l.
Proof.
  unfold listed_as. split.
  - intros ([i l'] & (_ & <- & _)%list_find_Some & [= ->])%fmap_Some. done.
  - intros ->. by destruct l.
Qed.

Definition identity_of (u : Obj) : option (ListKind * string * string) :=
  (λ l, (l, o_namespace u, o_name u)) <$> listed_as (o_gvk u).

Definition deployed_object (l : ListKind) (u : Obj) : Object :=
  Build_Object l (Build_ObjectMeta (o_name u) (o_namespace u) "" (o_labels u) [] [] 1 None).

Definition apply_object (u : Obj) : Action Fake Obj :=
  match identity_of u with
  | None => mret tt
  | Some (l, ns, n) =>
      if decide (l ∈ namespacedOwnedLists ∧ ns = "") then fail (ELib "a namespace is required")
      else on_cluster (modify (λ k, fk_set_objects (<[(l, ns, n) := deployed_object l u]> (fk_objects k)) k))
  end.

Definition deploy_objects : Action Fake Obj :=
  r ← gets rr; for_each (Resources r) apply_object.

Definition deploying_framework (rendered : string → list Obj) : Framework Fake Obj := {|
  MarkTrue := mark "True";
  MarkFalse := mark "False";
  IsStatusConditionTrue := condition_true;
  SetPlatformRelease := platform_release;
  GC_NewAction := λ _ _, (mret tt : Action Fake Obj);
  Deploy_NewAction := λ _, deploy_objects;
  Deployments_NewAction := λ _, (mret tt : Action Fake Obj);
  Engine_Render := λ path _, mret (rendered path);
  DefaultPartOfLabelKey := "platform.opendatahub.io/part-of";
  ConditionTypeProvisioningSucceeded := "ProvisioningSucceeded";
|}.

(** What one object of a collected kind does. *)
Lemma apply_object_run u i (s s' : State Fake Obj) :
  identity_of u = Some i → apply_object u s = (Ok tt, s') →
  (i.1.1 ∈ namespacedOwnedLists → o_namespace u ≠ "") ∧
  rr s' = rr s ∧ fk_objects (cluster s') = <[i := deployed_object i.1.1 u]> (fk_objects (cluster s)).
Proof.
  intros Hi. unfold apply_object. rewrite Hi. destruct i as [[l ns] n].
  apply fmap_Some in Hi as (l' & _ & [= <- -> ->]). case_decide as Hd; [done|].
  intros [= <-]. cbn. split_and!; [|done..]. intros Hl Hns. by destruct Hd.
Qed.

Lemma apply_objects_run us (s s' : State Fake Obj) :
  for_each us apply_object s = (Ok tt, s') →
  rr s' = rr s ∧
  (∀ u i, u ∈ us → identity_of u = Some i → i.1.1 ∈ namespacedOwnedLists → o_namespace u ≠ "") ∧
  ∀ i, (fk_objects (cluster s') !! i = fk_objects (cluster s) !! i ∧
        ∀ u, u ∈ us → identity_of u ≠ Some i) ∨
       ∃ u, u ∈ us ∧ identity_of u = Some i ∧
            fk_objects (cluster s') !! i = Some (deployed_object i.1.1 u).
Proof.
  revert s. induction us as [|u us IH]; intros s; cbn [for_each].
  { intros [= <-]. split_and!; [done|by intros ? ? ?%elem_of_nil|]. intros i. left. split; [done|].
    by intros ? ?%elem_of_nil. }
  intros ([] & s1 & E1 & E2)%bind_Ok_inv. destruct (IH s1 E2) as (Hr2 & Hn2 & H2). clear IH E2.
  destruct (identity_of u) as [j|] eqn:Hj.
  - destruct (apply_object_run u j s s1 Hj E1) as (Hn1 & Hr1 & H1).
    split_and!; [congruence|intros v i [->|Hv]%elem_of_cons Hi; [naive_solver|eauto]|].
    intros i. destruct (H2 i) as [[Hk Hno]|(v & Hv & Hi & Hk)];
      [|right; exists v; split_and!; [by apply list_elem_of_further|done..]].
    destruct (decide (j = i)) as [->|Hne].
    + right. exists u. split_and!; [apply list_elem_of_here|done|].
      by rewrite Hk, H1, lookup_insert_eq.
    + left. rewrite Hk, H1, lookup_insert_ne by done. split; [done|].
      intros v [->|Hv]%elem_of_cons; [congruence|auto].
  - unfold apply_object in E1. rewrite Hj in E1. injection E1 as <-.
    split_and!; [done|intros v i [->|Hv]%elem_of_cons Hi; [congruence|eauto]|].
    intros i. destruct (H2 i) as [[Hk Hno]|(v & Hv & Hi & Hk)].
    + left. split; [done|]. intros v [->|Hv]%elem_of_cons; [congruence|auto].
    + right. exists v. split_and!; [by apply list_elem_of_further|done..].
Qed.

Lemma apply_objects_request us (s : State Fake Obj) : rr (for_each us apply_object s).2 = rr s.
Proof.
  revert s. induction us as [|u us IH]; intros s; [done|]. cbn [for_each]. rewrite bind_split.
  assert (rr (apply_object u s).2 = rr s) as Hr.
  { unfold apply_object. destruct (identity_of u) as [[[l ns] n]|]; [|done]. by case_decide. }
  destruct (apply_object u s) as [[[]|e|w] s1]; cbn [snd] in Hr; [|done..]. by rewrite IH.
Qed.

#[export] Instance deploying rendered : Deploys Fake Obj (FW := deploying_framework rendered).
Proof.
  refine {| GetName := o_name |}; [|done].
  intros opts s s' u l E Hu Hk. apply listed_as_iff in Hk.
  assert (identity_of u = Some (l, o_namespace u, o_name u)) as Hi by (unfold identity_of; by rewrite (Hk : listed_as (o_gvk u) = _)).
  destruct (apply_objects_run _ s s' E) as (_ & Hn & H). split; [by apply (Hn u _ Hu Hi)|].
  destruct (H (l, o_namespace u, o_name u)) as [[_ Hno]|(v & Hv & Hiv & Ho)]; [by destruct (Hno u Hu)|].
  apply fmap_Some in Hiv as (l' & Hl' & Heq). injection Heq as <- Hns Hname.
  exists (deployed_object l v). split_and!.
  - unfold stored, fake_objects. apply fk_object_eq. split; [|done].
    rewrite Hns, Hname in Ho. exact Ho.
  - unfold identity. cbn. congruence.
  - intros key x Hall. apply (Hall v); [done| |done..].
    apply listed_as_iff in Hl', Hk. exact (eq_trans Hl' (eq_sym Hk)).
Defined.

#[export] Instance deploying_laws rendered :
  FrameworkLaws Fake Obj (FW := deploying_framework rendered).
Proof.
  pose proof (fake_framework_laws rendered) as FL.
  split; [apply FL|apply FL| |apply FL|apply FL|apply FL|apply FL|apply FL].
  intros opts s Hs. cbn [deploying_framework Deploy_NewAction]. unfold deploy_objects.
  rewrite bind_split. unfold gets. by rewrite Hs.
Qed.

#[export] Instance deploying_requests rendered :
  RequestLaws Fake Obj (FW := deploying_framework rendered).
Proof.
  pose proof (fake_request_laws rendered) as RL. split; [|apply RL]. intros opts s.
  pose proof (apply_objects_request (Resources (rr s)) s) as Hr.
  assert (rr (Deploy_NewAction (Framework := deploying_framework rendered) opts s).2 = rr s) as ->
    by exact Hr.
  apply (deploy_keeps (FW := fake_framework rendered) opts s).
Qed.

(** A deployment, an owner reference that another controller dropped, and the
    removal of the module. *)
Definition deploying_pass (s : State Fake Obj) : res unit * State Fake Obj :=
  run_actions (su_Actions (SetupWithManager (FW := deploying_framework (λ _, rendered_sample))
    (SV := any_version) (MR := canonical_range) (λ _, false) "/m")) s.

Definition deployed_pass : res unit * State Fake Obj := deploying_pass (settle_state fresh_os).

Definition removing_state : State Fake Obj :=
  sample_state (sample_ray Removed "apps") (cluster deployed_pass.2) (boot ∅ ∅).

Definition removing_pass : res unit * State Fake Obj := deploying_pass removing_state.

Definition stored_names (s : State Fake Obj) : list (string * string) :=
  map (λ e, (e.1.1.2, e.1.2)) (map_to_list (fk_objects (cluster s))).

Example operands_come_and_go :
  (stored_names deployed_pass.2, stored_names removing_pass.2) =
  ([("apps", "kuberay-operator"); ("", "kuberay-operator")], []).
Proof. vm_compute. reflexivity. Qed.

Lemma operands_are_removed_witness :
  ∃ t1 t2, deployAction (FW := deploying_framework (λ _, rendered_sample)) t1 = (Ok tt, t2) ∧
    ∀ u l o, u ∈ Resources (rr t1) → GVKOf u = item_kind l →
      stored (cluster removing_pass.2) o →
      identity o = deployed_as (FW := deploying_framework (λ _, rendered_sample)) u l →
      terminating o ∨
      (labeledOperand (FW := deploying_framework (λ _, rendered_sample)) o = false ∧
       ownedByUID o "uid-1" = false).
Proof.
  assert (deployed_pass.1 = Ok tt) as E1 by (vm_compute; reflexivity).
  assert (removing_pass.1 = Ok tt) as E2 by (vm_compute; reflexivity).
  destruct (operands_are_removed (FW := deploying_framework (λ _, rendered_sample)) (SV := any_version)
    (MR := canonical_range) (λ _, false) "/m" (settle_state fresh_os) deployed_pass.2
    (sample_ray Managed "apps")) as (t1 & t2 & _ & E & _ & H);
    [split; [reflexivity|by eexists]|reflexivity|discriminate|reflexivity|discriminate
    |exact (pair_run _ _ E1)|].
  exists t1, t2. split; [exact E|].
  set (o := Admission.Build_stored "default-ray" (Some (Some "apps"))).
  apply (H removing_state removing_pass.2 (sample_ray Removed "apps") o o);
    [split; [reflexivity|by eexists]|reflexivity|discriminate|reflexivity|constructor|reflexivity|].
  left. split; [reflexivity|exact (pair_run _ _ E2)].
Defined.
