(* ===== verification/Shipped.v ===== *)
(** * The overlay that is shipped

    The texts of [opt/manifests/odh/kuberay/openshift/params.env] and
    [kustomization.yaml] (those of the [rhoai] tree are the same): what the module
    makes of them, and that they meet what the theorems on the overlay ask of the
    files they start from. *)
From S2P Require Import Prelude GoStrings OS API Kube ParamsFile Overlay Params Settle Progress.
From S2P Require Import Releases Convergence.

Definition quote : ascii := "034".

Definition params_env_lines : list string :=
  ["namespace=opendatahub";
   "odh-kuberay-operator-controller-image=quay.io/opendatahub/kuberay-operator:v1.7.1";
   "odh-kube-rbac-proxy-image=quay.io/opendatahub/odh-kube-rbac-proxy:odh-stable"].

(** The kustomization, before and after the line of its namespace. *)
Definition lines_before : list string :=
  ["apiVersion: kustomize.config.k8s.io/v1beta1"; "kind: Kustomization"; ""].

Definition lines_after : list string :=
  [""; "configMapGenerator:"; "- name: ray-config"; "  envs:"; "    - params.env"; "";
   "configurations:"; "  - params.yaml"; ""; "vars:"; "- name: namespace"; "  objref:";
   "    kind: ConfigMap"; "    name: ray-config"; "    apiVersion: v1"; "  fieldref:";
   "    fieldpath: data.namespace"; "- name: image"; "  objref:"; "    kind: ConfigMap";
   "    name: ray-config"; "    apiVersion: v1"; "  fieldref:";
   "    fieldpath: data.odh-kuberay-operator-controller-image";
   "- name: odh-kube-rbac-proxy-image"; "  objref:"; "    kind: ConfigMap";
   "    name: ray-config"; "    apiVersion: v1"; "  fieldref:";
   "    fieldpath: data.odh-kube-rbac-proxy-image"; ""; "resources:"; "- ray_operator_scc.yaml";
   "- ../default"; "- ../network-policy"; "- webhook.yaml"; "- certmanager.yaml"; "- rbac/tls";
   ""; "commonLabels:"; "  app.kubernetes.io/name: kuberay";
   "  app.kubernetes.io/component: kuberay-operator"; "  app.kubernetes.io/part-of: ray";
   "  app.opendatahub.io/ray: " +:+ String quote ("true" +:+ String quote ("")); ""; "patches:";
   "- path: webhook-deployment-patch.yaml"; "- path: kuberay-operator-image-patch.yaml";
   "  target:"; "    group: apps"; "    version: v1"; "    kind: Deployment";
   "    name: kuberay-operator"; "- path: gateway-env-patch.yaml"; "  target:";
   "    group: apps"; "    version: v1"; "    kind: Deployment"; "    name: kuberay-operator";
   "- path: tls-metrics-patch.yaml"; "  target:"; "    group: apps"; "    version: v1";
   "    kind: Deployment"; "    name: kuberay-operator"; "- path: feature-gates-patch.yaml";
   "  target:"; "    group: apps"; "    version: v1"; "    kind: Deployment";
   "    name: kuberay-operator"; "- path: tls-service-json-patch.yaml"; "  target:";
   "    version: v1"; "    kind: Service"; "    name: kuberay-operator"].

Definition shipped_params : string := unlines params_env_lines.

Definition shipped_kustomization : string :=
  unlines (lines_before ++ ["namespace: opendatahub"] ++ lines_after).

(** * Properties *)

(** ** The kustomization *)

(** Setting a namespace changes the value of one line of the kustomization, and
    leaves every other byte of it; the words [namespace] that follow are not at
    the beginning of a line. *)
Theorem shipped_kustomization_updated ns :
  clean_namespace ns = true →
  updated shipped_kustomization ns = unlines (lines_before ++ ["namespace: " +:+ ns] ++ lines_after).
Proof.
  intros Hns. apply (updated_line lines_before lines_after "opendatahub" ns); [done|done|..].
  all: apply Forall_forall; intros p Hp; apply list_elem_of_In in Hp; revert p Hp;
    apply forallb_forall; vm_compute; reflexivity.
Qed.

Lemma shipped_kustomization_updated_witness :
  updated shipped_kustomization "redhat-ods-applications" =
  unlines (lines_before ++ ["namespace: redhat-ods-applications"] ++ lines_after).
Proof. apply shipped_kustomization_updated. reflexivity. Defined.

(** ** The parameters *)

Definition shipped_map : gmap string string :=
  list_to_map
    [("namespace", "opendatahub");
     ("odh-kuberay-operator-controller-image", "quay.io/opendatahub/kuberay-operator:v1.7.1");
     ("odh-kube-rbac-proxy-image", "quay.io/opendatahub/odh-kube-rbac-proxy:odh-stable")].

Lemma shipped_params_read :
  scan_lines shipped_params = (params_env_lines, None) ∧ parse_lines params_env_lines = shipped_map.
Proof. split; vm_compute; reflexivity. Qed.

(** A value that a line of the file carries, with the longest of the keys. *)
Definition carried (v : string) : Prop :=
  no_char LF v = true ∧ ends_with CR v = false ∧ (Z.of_nat (String.length v) < MaxScanTokenSize - 64)%Z.

Lemma carried_entry k v : k ∈ dom shipped_map → carried v → wf_entry (k, v).
Proof.
  intros Hk (Hl & Hc & Hn).
  assert (∀ j, j ∈ dom shipped_map →
            no_char "=" j = true ∧ no_char LF j = true ∧ (String.length j ≤ 60)) as Hkeys.
  { intros j Hj. unfold shipped_map in Hj. rewrite dom_list_to_map in Hj. cbn in Hj.
    rewrite !elem_of_union, !elem_of_singleton in Hj.
    destruct Hj as [->|[->|[->|Hj]]]; [..|by apply elem_of_empty in Hj]; (split_and!; [done|done|cbn; lia]). }
  destruct (Hkeys k Hk) as (H1 & H2 & H3). split_and!; cbn [fst snd]; try done.
  unfold line_fits, param_line. cbn [fst snd]. rewrite str_app_length. cbn [String.length]. lia.
Qed.

(** The overlay as it is shipped meets what the theorems on the overlay ask, for
    every clean namespace and every environment whose images fit a line. *)
Theorem shipped_overlay_wf ov ns o :
  fs o !! (ov ++ ["params.env"]) = Some (File shipped_params) →
  fs o !! (ov ++ ["kustomization.yaml"]) = Some (File shipped_kustomization) →
  carried ns → (∀ name v, env o !! name = Some v → carried v) →
  overlay_wf ov ns o.
Proof.
  intros Hp Hk Hns He. split; [|intros data Hd; rewrite Hk in Hd; injection Hd as <-; left; vm_compute; reflexivity].
  intros c Hc. rewrite Hp in Hc. injection Hc as <-. destruct shipped_params_read as [H1 H2].
  rewrite H1. cbn [fst]. rewrite H2. apply Forall_forall. intros [k v] Hkv%elem_of_map_to_list.
  unfold overridden in Hkv. cbn [fold_left] in Hkv.
  rewrite with_extra_lookup, with_images_lookup in Hkv.
  assert (k ∈ dom shipped_map ∧
          (v = ns ∨ ∃ old, shipped_map !! k = Some old ∧ v = image_value (env o) imageParamMap k old))
    as [Hdom Hv].
  { destruct (decide (k = "namespace")) as [->|Hne].
    - split; [apply elem_of_dom; by eexists|]. rewrite lookup_singleton_eq in Hkv.
      destruct (shipped_map !! "namespace") as [old|]; cbn in Hkv; case_match; naive_solver.
    - rewrite lookup_singleton_ne in Hkv by done. cbn in Hkv.
      apply fmap_Some in Hkv as (old & Hold & ->).
      split; [by apply elem_of_dom; eexists|right; by exists old]. }
  apply carried_entry; [done|]. destruct Hv as [->|(old & Hold & ->)]; [done|].
  unfold image_value.
  assert (carried old) as Hc.
  { apply elem_of_list_to_map_2 in Hold. rewrite !elem_of_cons, elem_of_nil in Hold.
    destruct Hold as [[= _ ->]|[[= _ ->]|[[= _ ->]|[]]]]; by split_and!. }
  destruct (imageParamMap !! k) as [name|]; [|done].
  destruct (env o !! name) as [w|] eqn:Hw; cbn [from_option id]; [|exact Hc].
  destruct (String.eqb w ""); [done|]. by apply (He name).
Qed.

Lemma shipped_overlay_wf_witness :
  let ov := ["tmp"; "o"] in
  overlay_wf ov "apps" (boot (<[ov ++ ["params.env"] := File shipped_params]>
    {[ov ++ ["kustomization.yaml"] := File shipped_kustomization]}) settle_env).
Proof.
  apply shipped_overlay_wf; [reflexivity|reflexivity|by split_and!|].
  intros name v Hv. cbn [boot env] in Hv. unfold settle_env in Hv.
  apply lookup_singleton_Some in Hv as [_ <-]. by split_and!.
Defined.

(** ** The version *)

(** Without an image from the platform that has a tag, the module reports the
    version that is shipped, 1.7.1, from any place the manifests are in. *)
Theorem shipped_version base o :
  base ≠ "" → fs o !! resolve (params_env base) = Some (File shipped_params) →
  image_tag (related_image o) = "" → healthy o →
  ∃ o', resolveKubeRayVersion base o = (Ok "v1.7.1", o').
Proof.
  intros Hb Hf Hr Hh. destruct (module_version_run base o Hh) as [o' ->]. exists o'.
  unfold module_version, default_text. rewrite Hr, Hf. cbn [String.eqb].
  destruct (String.eqb_spec base ""); [done|]. destruct shipped_params_read as [-> ->].
  reflexivity.
Qed.

Lemma shipped_version_witness :
  ∃ o', resolveKubeRayVersion "/m"
    (boot {[["m"; ManifestPath; ManifestOverlay; "params.env"] := File shipped_params]} ∅) = (Ok "v1.7.1", o').
Proof. apply shipped_version; [discriminate|reflexivity|reflexivity|intros n; reflexivity]. Defined.
