(* ===== verification/Manager.v ===== *)
(** * The process: [cmd/main.go]

    The flags, the TLS options of the servers, the construction of the manager
    and the order of the startup.  The manager, the TLS library and the cluster
    client are parameters: what the program does with them is a log of the calls
    it makes, each of which can fail. *)
From S2P Require Import Prelude GoStrings API.

(** ** Flags *)

Record managerConfig := Config {
  metricsAddr : string;
  probeAddr : string;
  enableLeaderElection : bool;
  secureMetrics : bool;
  enableHTTP2 : bool;
  metricsCertPath : string;
  metricsCertName : string;
  metricsCertKey : string;
  webhookCertPath : string;
  webhookCertName : string;
  webhookCertKey : string;
}.

#[export] Instance managerConfig_eq_dec : EqDecision managerConfig.
Proof. solve_decision. Defined.

(** The values the flags have when they are registered. *)
Definition default_config : managerConfig := {|
  metricsAddr := "0"; probeAddr := ":8081"; enableLeaderElection := false;
  secureMetrics := true; enableHTTP2 := false;
  metricsCertPath := ""; metricsCertName := "tls.crt"; metricsCertKey := "tls.key";
  webhookCertPath := ""; webhookCertName := "tls.crt"; webhookCertKey := "tls.key";
|}.

(** A variable bound to a flag, and how it is set. *)
Inductive binding :=
  | StringVar (set : string → managerConfig → managerConfig)
  | BoolVar (set : bool → managerConfig → managerConfig).

Definition flags : list (string * binding) :=
  [("metrics-bind-address", StringVar (λ v '(Config _ pa le sm h2 mp mn mk wp wn wk),
      Config v pa le sm h2 mp mn mk wp wn wk));
   ("health-probe-bind-address", StringVar (λ v '(Config ma _ le sm h2 mp mn mk wp wn wk),
      Config ma v le sm h2 mp mn mk wp wn wk));
   ("leader-elect", BoolVar (λ v '(Config ma pa _ sm h2 mp mn mk wp wn wk),
      Config ma pa v sm h2 mp mn mk wp wn wk));
   ("metrics-secure", BoolVar (λ v '(Config ma pa le _ h2 mp mn mk wp wn wk),
      Config ma pa le v h2 mp mn mk wp wn wk));
   ("webhook-cert-path", StringVar (λ v '(Config ma pa le sm h2 mp mn mk _ wn wk),
      Config ma pa le sm h2 mp mn mk v wn wk));
   ("webhook-cert-name", StringVar (λ v '(Config ma pa le sm h2 mp mn mk wp _ wk),
      Config ma pa le sm h2 mp mn mk wp v wk));
   ("webhook-cert-key", StringVar (λ v '(Config ma pa le sm h2 mp mn mk wp wn _),
      Config ma pa le sm h2 mp mn mk wp wn v));
   ("metrics-cert-path", StringVar (λ v '(Config ma pa le sm h2 _ mn mk wp wn wk),
      Config ma pa le sm h2 v mn mk wp wn wk));
   ("metrics-cert-name", StringVar (λ v '(Config ma pa le sm h2 mp _ mk wp wn wk),
      Config ma pa le sm h2 mp v mk wp wn wk));
   ("metrics-cert-key", StringVar (λ v '(Config ma pa le sm h2 mp mn _ wp wn wk),
      Config ma pa le sm h2 mp mn v wp wn wk));
   ("enable-http2", BoolVar (λ v '(Config ma pa le sm _ mp mn mk wp wn wk),
      Config ma pa le sm v mp mn mk wp wn wk))].

(** [strconv.ParseBool] *)
Definition ParseBool (s : string) : option bool :=
  if existsb (String.eqb s) ["1"; "t"; "T"; "TRUE"; "true"; "True"] then Some true
  else if existsb (String.eqb s) ["0"; "f"; "F"; "FALSE"; "false"; "False"] then Some false
  else None.

(** The flags other packages bind: whether the flag is boolean, and whether it
    accepts a value. *)
Class OtherFlags := other_flag : string → option (bool * (string → bool)).

Inductive flag_error :=
  | BadSyntax (s : string)
  | NotDefined (name : string)
  | ErrHelp
  | InvalidValue (name value : string)
  | NeedsArgument (name : string).

(** The flag an argument names, and its value when it holds one; [None] when the
    flags end there. *)
Definition split_flag (s : string) : option (flag_error + string * option string) :=
  match s with
  | String "-" (String "-" EmptyString) => None
  | String "-" (String c rest) =>
      let name := if Ascii.eqb c "-" then rest else String c rest in
      Some match name with
           | EmptyString => inl (BadSyntax s)
           | String a tl =>
               if Ascii.eqb a "-" || Ascii.eqb a "=" then inl (BadSyntax s)
               else match Cut tl "=" with
                    | Some (n, v) => inr (String a n, Some v)
                    | None => inr (name, None)
                    end
           end
  | _ => None
  end.

Section flags.
Context {OF : OtherFlags}.

(** Setting a flag: the variable of a flag of this program, or the check of
    another package's. *)
Definition lookup_flag (name : string)
    : option (bool * (string → managerConfig → option managerConfig)) :=
  match list_find (λ f, f.1 = name) flags with
  | Some (_, (_, StringVar set)) => Some (false, λ v c, Some (set v c))
  | Some (_, (_, BoolVar set)) => Some (true, λ v c, b ← ParseBool v; Some (set b c))
  | None =>
      f ← other_flag name;
      Some (f.1, λ v c, if (f.2 : string → bool) v then Some c else None)
  end.

Fixpoint parse_args (args : list string) (c : managerConfig) : flag_error + managerConfig :=
  match args with
  | [] => inr c
  | s :: args' =>
      match split_flag s with
      | None => inr c
      | Some (inl e) => inl e
      | Some (inr (name, value)) =>
          match lookup_flag name with
          | None => if String.eqb name "help" || String.eqb name "h" then inl ErrHelp
                    else inl (NotDefined name)
          | Some (true, set) =>
              let v := default "true" value in
              match set v c with
              | Some c' => parse_args args' c'
              | None => inl (InvalidValue name v)
              end
          | Some (false, set) =>
              match value, args' with
              | Some v, _ =>
                  match set v c with
                  | Some c' => parse_args args' c'
                  | None => inl (InvalidValue name v)
                  end
              | None, v :: args'' =>
                  match set v c with
                  | Some c' => parse_args args'' c'
                  | None => inl (InvalidValue name v)
                  end
              | None, [] => inl (NeedsArgument name)
              end
          end
      end
  end.

Definition parseFlags (args : list string) : flag_error + managerConfig :=
  parse_args args default_config.
End flags.

(** ** The TLS options *)

Record LoadResult (Profile Policy : Type) := {
  Spec : Profile;
  AdherencePolicy : Policy;
  UsedFallback : bool;
  Watchable : bool;
}.
Arguments Spec {Profile Policy}.
Arguments AdherencePolicy {Profile Policy}.
Arguments Watchable {Profile Policy}.

(** The TLS library of the platform and its helpers: [tls.Config] is [C]. *)
Class TLSLibrary (Profile Policy C : Type) := {
  ShouldHonorClusterTLSProfile : Policy → bool;
  IntermediateProfile : Profile;
  ConfigFromProfileWithError : Profile → error + ((C → C) * list string);
  SetNextProtos : list string → C → C;
  NextProtos : C → list string;
  HTTP2NextProtos : list string;
  HTTP1NextProtos : list string;
}.

(** [SetNextProtos] sets the protocols it is given. *)
Class TLSLaws (Profile Policy C : Type) `{TLSLibrary Profile Policy C} : Prop :=
  next_protos ps c : NextProtos (SetNextProtos ps c) = ps.

Section tls.
Context {Profile Policy C : Type} {TL : TLSLibrary Profile Policy C}.

(** The profile in force. *)
Definition tls_profile (result : LoadResult Profile Policy) : Profile :=
  if ShouldHonorClusterTLSProfile (AdherencePolicy result) then Spec result
  else IntermediateProfile (Policy := Policy) (C := C).

(** [load] is what [tlspkg.LoadWithAdherence] returned. *)
Definition managerTLSOptions (load : LoadResult Profile Policy * option error)
    (enableHTTP2 : bool) : error + list (C → C) :=
  let '(result, err) := load in
  match err with
  | Some e => inl (Wrapf "unable to load APIServer TLS profile: %w" [] e)
  | None =>
      match ConfigFromProfileWithError (Policy := Policy) (tls_profile result) with
      | inl e => inl (Wrapf "building TLS options from profile: %w" [] e)
      | inr (tlsConfigFn, _) =>
          let nextProtos := SetNextProtos (Policy := Policy) (Profile := Profile)
            (if enableHTTP2 then HTTP2NextProtos (Profile := Profile) (Policy := Policy) (C := C)
             else HTTP1NextProtos (Profile := Profile) (Policy := Policy) (C := C)) in
          inr [tlsConfigFn; nextProtos]
      end
  end.
End tls.

(** ** The options of the manager *)

Record WebhookOptions (C : Type) := {
  wh_TLSOpts : list (C → C);
  wh_CertDir : string;
  wh_CertName : string;
  wh_KeyName : string;
}.
Arguments wh_TLSOpts {C}.

Record MetricsOptions (C : Type) := {
  me_BindAddress : string;
  me_SecureServing : bool;
  me_TLSOpts : list (C → C);
  me_FilterProvider : bool; (** [filters.WithAuthenticationAndAuthorization] *)
  me_CertDir : string;
  me_CertName : string;
  me_KeyName : string;
}.
Arguments me_TLSOpts {C}.
Arguments me_SecureServing {C}.
Arguments me_FilterProvider {C}.

Record ManagerOptions (C : Type) := {
  mo_Metrics : MetricsOptions C;
  mo_WebhookServer : WebhookOptions C;
  mo_HealthProbeBindAddress : string;
  mo_LeaderElection : bool;
  mo_LeaderElectionID : string;
}.
Arguments mo_Metrics {C}.
Arguments mo_WebhookServer {C}.

Section options.
Context {C : Type}.

Definition setupWebhookServer (cfg : managerConfig) (tlsOpts : list (C → C)) : WebhookOptions C :=
  if String.eqb (webhookCertPath cfg) "" then
    {| wh_TLSOpts := tlsOpts; wh_CertDir := ""; wh_CertName := ""; wh_KeyName := "" |}
  else
    {| wh_TLSOpts := tlsOpts; wh_CertDir := webhookCertPath cfg;
       wh_CertName := webhookCertName cfg; wh_KeyName := webhookCertKey cfg |}.

Definition setupMetricsOptions (cfg : managerConfig) (tlsOpts : list (C → C)) : MetricsOptions C :=
  let certs := negb (String.eqb (metricsCertPath cfg) "") in
  {| me_BindAddress := metricsAddr cfg;
     me_SecureServing := secureMetrics cfg;
     me_TLSOpts := tlsOpts;
     me_FilterProvider := secureMetrics cfg;
     me_CertDir := if certs then metricsCertPath cfg else "";
     me_CertName := if certs then metricsCertName cfg else "";
     me_KeyName := if certs then metricsCertKey cfg else "" |}.

Definition manager_options (cfg : managerConfig) (tlsOpts : list (C → C)) : ManagerOptions C := {|
  mo_Metrics := setupMetricsOptions cfg tlsOpts;
  mo_WebhookServer := setupWebhookServer cfg tlsOpts;
  mo_HealthProbeBindAddress := probeAddr cfg;
  mo_LeaderElection := enableLeaderElection cfg;
  mo_LeaderElectionID := "0dc2a3f5.platform.opendatahub.io";
|}.
End options.

(** ** The startup

    Contexts are numbered: [0] is the one of the signal handler.  A cancellation
    is recorded; it reaches the contexts derived from the one cancelled. *)
Definition Ctx := nat.

(** The function [context.WithCancel] returns with a context. *)
Inductive CancelFunc := CancelContext (c : Ctx).

(** [tlspkg.SecurityProfileWatcher]: what it compares with, and its callbacks. *)
Record SecurityProfileWatcher (Profile Policy : Type) := {
  InitialTLSProfileSpec : Profile;
  InitialTLSAdherencePolicy : Policy;
  OnProfileChange : CancelFunc;
  OnAdherencePolicyChange : CancelFunc;
}.
Arguments OnProfileChange {Profile Policy}.
Arguments OnAdherencePolicyChange {Profile Policy}.

Inductive Call (Profile Policy C : Type) :=
  | ClientNew (timeout : Z)
  | LoadWithAdherence (timeout : Z)
  | NewManager (opts : ManagerOptions C)
  | SetupController (ctx : Ctx) (manifestsBasePath : string)
  | AddHealthzCheck (name : string)
  | AddReadyzCheck (name : string)
  | WatcherSetup (watcher : SecurityProfileWatcher Profile Policy)
  | Start (ctx : Ctx)
  | Exit (code : Z).
Arguments ClientNew {Profile Policy C}.
Arguments LoadWithAdherence {Profile Policy C}.
Arguments NewManager {Profile Policy C}.
Arguments SetupController {Profile Policy C}.
Arguments AddHealthzCheck {Profile Policy C}.
Arguments AddReadyzCheck {Profile Policy C}.
Arguments WatcherSetup {Profile Policy C}.
Arguments Start {Profile Policy C}.
Arguments Exit {Profile Policy C}.

Record World (Profile Policy C : Type) := {
  log : list (Call Profile Policy C);
  answers : nat → option error;   (** what the n-th call returns *)
  parents : gmap Ctx Ctx;         (** the contexts made by [WithCancel] *)
  cancelled : list Ctx;
}.
Arguments Build_World {Profile Policy C}.
Arguments log {Profile Policy C}.
Arguments answers {Profile Policy C}.
Arguments parents {Profile Policy C}.
Arguments cancelled {Profile Policy C}.

Section startup.
Context {Profile Policy C : Type} {TL : TLSLibrary Profile Policy C}.
Local Abbreviation W := (World Profile Policy C).

Definition record_call (c : Call Profile Policy C) (w : W) : W :=
  Build_World (log w ++ [c]) (answers w) (parents w) (cancelled w).

(** A call of the environment, with its answer. *)
Definition perform (c : Call Profile Policy C) : M W (option error) := λ w,
  (Ok (answers w (length (log w))), record_call c w).

(** [os.Exit(1)] after the error was logged. *)
Definition exit_1 {A} (e : error) : M W A := λ w, (Err e, record_call (Exit 1) w).

Definition must (c : Call Profile Policy C) : M W unit :=
  err ← perform c;
  match err with Some e => exit_1 e | None => mret tt end.

(** [context.WithCancel]: a new context, and the function that cancels it. *)
Definition cancel (f : CancelFunc) (w : W) : W :=
  let '(CancelContext c) := f in
  Build_World (log w) (answers w) (parents w) (c :: cancelled w).

Definition WithCancel (parent : Ctx) : M W (Ctx * CancelFunc) := λ w,
  let c := S (size (parents w)) in
  (Ok (c, CancelContext c), Build_World (log w) (answers w) (<[c := parent]> (parents w)) (cancelled w)).

Definition newTLSProfileWatcher (load : LoadResult Profile Policy) (cancel_fn : CancelFunc)
    : SecurityProfileWatcher Profile Policy := {|
  InitialTLSProfileSpec := Spec load;
  InitialTLSAdherencePolicy := AdherencePolicy load;
  OnProfileChange := cancel_fn;
  OnAdherencePolicyChange := cancel_fn;
|}.

Definition registerTLSProfileWatcher (ctx : Ctx) (load : LoadResult Profile Policy) : M W Ctx :=
  c ← WithCancel ctx;
  let '(watcherCtx, cancel_fn) := c in
  err ← perform (WatcherSetup (newTLSProfileWatcher load cancel_fn));
  match err with
  | Some e => modify (cancel cancel_fn) ;; exit_1 e
  | None => mret watcherCtx
  end.

Definition setupManager (cfg : managerConfig) (tlsOpts : list (C → C)) : M W unit :=
  must (NewManager (manager_options cfg tlsOpts)).

Definition registerControllers (ctx : Ctx) : M W unit := must (SetupController ctx ManifestsBasePath).

Definition registerHealthChecks : M W unit :=
  must (AddHealthzCheck "healthz") ;; must (AddReadyzCheck "readyz").

(** [cfg] are the flags, [loaded] what the load of the TLS settings returns
    when it does not fail. *)
Definition main (cfg : managerConfig) (loaded : LoadResult Profile Policy) : M W unit :=
  let ctx := O in
  must (ClientNew 10) ;;
  err ← perform (LoadWithAdherence 10);
  match managerTLSOptions (loaded, err) (enableHTTP2 cfg) with
  | inl e => exit_1 e
  | inr tlsOpts =>
      setupManager cfg tlsOpts ;;
      registerControllers ctx ;;
      registerHealthChecks ;;
      ctx ← (if Watchable loaded then registerTLSProfileWatcher ctx loaded else mret ctx);
      must (Start ctx)
  end.
End startup.

(** * Properties *)

(** ** Flags *)

Definition bool_value (b : bool) : string := if b then "true" else "false".

(** The command line that asks for a configuration. *)
Definition command_line (c : managerConfig) : list string :=
  ["--metrics-bind-address=" +:+ metricsAddr c;
   "--health-probe-bind-address"; probeAddr c;
   "--leader-elect=" +:+ bool_value (enableLeaderElection c);
   "-metrics-secure=" +:+ bool_value (secureMetrics c);
   "--webhook-cert-path=" +:+ webhookCertPath c;
   "-webhook-cert-name"; webhookCertName c;
   "--webhook-cert-key=" +:+ webhookCertKey c;
   "--metrics-cert-path=" +:+ metricsCertPath c;
   "-metrics-cert-name=" +:+ metricsCertName c;
   "--metrics-cert-key"; metricsCertKey c;
   "--enable-http2=" +:+ bool_value (enableHTTP2 c)].

(** Every configuration can be asked for on the command line, and is read back
    as it is: whatever the values, which may hold equals signs, dashes or nothing
    at all, whatever flags other packages bind, and after any configuration. *)
Theorem parse_command_line {OF : OtherFlags} c :
  parseFlags (command_line c) = inr c.
Proof.
  destruct c as [ma pa le sm h2 mp mn mk wp wn wk]. unfold parseFlags, command_line.
  destruct le, sm, h2; vm_compute; reflexivity.
Qed.

(** An argument that names a flag. *)
Definition names (args : list string) (f : string) : Prop :=
  ∃ s v, s ∈ args ∧ split_flag s = Some (inr (f, v)).

Lemma names_cons s args f : names args f → names (s :: args) f.
Proof. intros (t & v & Ht & Hv). exists t, v. split; [by apply list_elem_of_further|done]. Qed.

Lemma names_here s args f v : split_flag s = Some (inr (f, v)) → names (s :: args) f.
Proof. intros Hs. exists s, v. split; [apply list_elem_of_here|done]. Qed.

Section parsing.
Context {OF : OtherFlags}.

(** A property of the configuration that only some flags can change. *)
Lemma parse_args_keeps {A} (get : managerConfig → A) (f : string) :
  (∀ g b set, g ≠ f → lookup_flag g = Some (b, set) →
     ∀ v c c', set v c = Some c' → get c' = get c) →
  ∀ n args c c', length args ≤ n → parse_args args c = inr c' → get c' = get c ∨ names args f.
Proof.
  intros Hget n. induction n as [|n IH]; intros [|s args] c c' Hn Hp; cbn in Hn; try lia;
    cbn [parse_args] in Hp; try (left; by injection Hp as ->).
  destruct (split_flag s) as [[e|[name value]]|] eqn:Es; [done| |left; by injection Hp as ->].
  destruct (decide (name = f)) as [->|Hne]; [right; by eapply names_here|].
  destruct (lookup_flag name) as [[[] set]|] eqn:El; [..|by destruct (_ || _)].
  - destruct (set _ c) as [c1|] eqn:Ec; [|done].
    destruct (IH args c1 c') as [H|H]; [lia|done| |right; by apply names_cons].
    left. rewrite H. by eapply Hget.
  - destruct value as [v|].
    + destruct (set _ c) as [c1|] eqn:Ec; [|done].
      destruct (IH args c1 c') as [H|H]; [lia|done| |right; by apply names_cons].
      left. rewrite H. by eapply Hget.
    + destruct args as [|v args]; [done|]. destruct (set _ c) as [c1|] eqn:Ec; [|done]. cbn in Hn.
      destruct (IH args c1 c') as [H|H]; [lia|done| |right; by do 2 apply names_cons].
      left. rewrite H. by eapply Hget.
Qed.

(** The flags that are looked up, one by one. *)
Lemma lookup_flag_cases g b set :
  lookup_flag g = Some (b, set) →
  (∃ f, (g, StringVar f) ∈ flags ∧ ∀ v c, set v c = Some (f v c)) ∨
  (∃ f, (g, BoolVar f) ∈ flags ∧ ∀ v c, set v c = (w ← ParseBool v; Some (f w c))) ∨
  (∀ v c c', set v c = Some c' → c' = c).
Proof.
  unfold lookup_flag. destruct (list_find _ flags) as [[i [g' [f|f]]]|] eqn:E.
  - apply list_find_Some in E as (Hi & Hg & _). cbn in Hg. subst g'. intros [= <- <-].
    left. exists f. split; [by eapply list_elem_of_lookup_2|done].
  - apply list_find_Some in E as (Hi & Hg & _). cbn in Hg. subst g'. intros [= <- <-].
    right. left. exists f. split; [by eapply list_elem_of_lookup_2|done].
  - intros (o & _ & [= <- <-])%bind_Some. right. right. intros v c c'.
    by destruct (o.2 v); intros; simplify_eq.
Qed.
End parsing.

(** [get] is changed by the flag [f] only, by inspection of the flags. *)
Ltac inspect_flags :=
  intros g b set Hne Hl v c c' Hs;
  destruct (lookup_flag_cases _ _ _ Hl) as [(f & Hin & Hf)|[(f & Hin & Hf)|Hf]];
  [rewrite Hf in Hs; injection Hs as <-
  |rewrite Hf in Hs; apply bind_Some in Hs as (w & _ & Hs); injection Hs as <-
  |by rewrite (Hf _ _ _ Hs)];
  unfold flags in Hin; repeat (apply elem_of_cons in Hin as [Hin|Hin]);
  try (by apply elem_of_nil in Hin); try discriminate; injection Hin as -> ->; destruct c; done.

Section security.
Context {OF : OtherFlags}.

Lemma http2_flag g b set : g ≠ "enable-http2" → lookup_flag g = Some (b, set) →
  ∀ v c c', set v c = Some c' → enableHTTP2 c' = enableHTTP2 c.
Proof. revert g b set. inspect_flags. Qed.

Lemma secure_flag g b set : g ≠ "metrics-secure" → lookup_flag g = Some (b, set) →
  ∀ v c c', set v c = Some c' → secureMetrics c' = secureMetrics c.
Proof. revert g b set. inspect_flags. Qed.

Lemma address_flag g b set : g ≠ "metrics-bind-address" → lookup_flag g = Some (b, set) →
  ∀ v c c', set v c = Some c' → metricsAddr c' = metricsAddr c.
Proof. revert g b set. inspect_flags. Qed.
End security.

(** C39: the servers are secure unless asked otherwise.  On every command line that
    is accepted, HTTP/2 is enabled only if an argument names that flag, the
    metrics are served without TLS and authorization only if an argument names
    that one, and the metrics endpoint is bound only if its address was given. *)
Theorem parseFlags_secure {OF : OtherFlags} args c :
  parseFlags args = inr c →
  (enableHTTP2 c = true → names args "enable-http2") ∧
  (me_SecureServing (setupMetricsOptions (C := unit) c []) &&
     me_FilterProvider (setupMetricsOptions (C := unit) c []) = false → names args "metrics-secure") ∧
  (metricsAddr c ≠ "0" → names args "metrics-bind-address").
Proof.
  intros Hp. unfold parseFlags in Hp. split_and!; intros Hc.
  - destruct (parse_args_keeps enableHTTP2 _ http2_flag _ _ _ _ (le_n _) Hp) as [H|H]; [|done].
    rewrite H in Hc. done.
  - destruct (parse_args_keeps secureMetrics _ secure_flag _ _ _ _ (le_n _) Hp) as [H|H]; [|done].
    cbn in Hc. rewrite H in Hc. done.
  - destruct (parse_args_keeps metricsAddr _ address_flag _ _ _ _ (le_n _) Hp) as [H|H]; [|done].
    by rewrite H in Hc.
Qed.

Definition no_other_flags : OtherFlags := λ _, None.

Lemma parseFlags_secure_witness :
  names ["--leader-elect"; "--enable-http2"] "enable-http2".
Proof.
  apply (parseFlags_secure (OF := no_other_flags) ["--leader-elect"; "--enable-http2"]
    (Config "0" ":8081" true true true "" "tls.crt" "tls.key" "" "tls.crt" "tls.key"));
    vm_compute; reflexivity.
Defined.

(** ** TLS *)

(** [tls.Config] after the options were applied, in their order. *)
Definition apply_options {C} (opts : list (C → C)) (c : C) : C := fold_left (λ c f, f c) opts c.

Section tls_facts.
Context {Profile Policy C : Type} {TL : TLSLibrary Profile Policy C}.

(** The protocols asked for. *)
Definition protocols (h2 : bool) : list string :=
  if h2 then HTTP2NextProtos (Profile := Profile) (Policy := Policy) (C := C)
  else HTTP1NextProtos (Profile := Profile) (Policy := Policy) (C := C).

Lemma managerTLSOptions_inr (load : LoadResult Profile Policy) err h2 opts :
  managerTLSOptions (load, err) h2 = inr opts ↔
  err = None ∧ ∃ f u,
    ConfigFromProfileWithError (Policy := Policy) (tls_profile load) = inr (f, u) ∧
    opts = [f; SetNextProtos (Profile := Profile) (Policy := Policy) (protocols h2)].
Proof.
  unfold managerTLSOptions. destruct err as [e|]; [split; [done|by intros [? _]]|].
  destruct (ConfigFromProfileWithError (tls_profile load)) as [e|[f u]].
  - split; [done|]. by intros (_ & f & u & ? & _).
  - split; [intros [= <-]; eauto 10|]. by intros (_ & f' & u' & [= <- <-] & ->).
Qed.
End tls_facts.

(** C38: the TLS options fail closed and never enable HTTP/2 unasked.  There are
    options exactly when the settings of the cluster could be loaded and the
    profile in force can be turned into a configuration; that profile is the
    cluster's if the adherence policy says to honor it, the intermediate one if
    not; and on every configuration of a server the options apply it, and leave
    as protocols those of HTTP/1 unless HTTP/2 was asked for, whatever the profile
    negotiates. *)
Theorem managerTLSOptions_spec {Profile Policy C} {TL : TLSLibrary Profile Policy C}
    {LA : TLSLaws Profile Policy C} (load : LoadResult Profile Policy) err h2 :
  let profile :=
    if ShouldHonorClusterTLSProfile (Profile := Profile) (C := C) (AdherencePolicy load)
    then Spec load else IntermediateProfile (Policy := Policy) (C := C) in
  match managerTLSOptions (load, err) h2 with
  | inl _ => err ≠ None ∨
      ∃ e, ConfigFromProfileWithError (Policy := Policy) (C := C) profile = inl e
  | inr opts => err = None ∧
      ∃ f u, ConfigFromProfileWithError (Policy := Policy) profile = inr (f, u) ∧
        ∀ c, NextProtos (Profile := Profile) (Policy := Policy) (apply_options opts c)
               = protocols (Profile := Profile) (Policy := Policy) (C := C) h2 ∧
             ∃ ps, apply_options opts c
               = SetNextProtos (Profile := Profile) (Policy := Policy) ps (f c)
  end.
Proof.
  intros profile. change profile with (tls_profile (C := C) load). clear profile.
  destruct (managerTLSOptions (load, err) h2) as [e|opts] eqn:E.
  - unfold managerTLSOptions in E. destruct err; [by left|]. right.
    destruct (ConfigFromProfileWithError _) as [e'|[f u]]; [eauto|done].
  - apply managerTLSOptions_inr in E as (-> & f & u & Hf & ->). split; [done|].
    exists f, u. split; [done|]. intros c. split; [apply next_protos|]. by eexists.
Qed.

(** ** The startup *)

Section startup_facts.
Context {Profile Policy C : Type} {TL : TLSLibrary Profile Policy C}.
Implicit Types (w : World Profile Policy C) (load : LoadResult Profile Policy).

(** The context the manager is started with. *)
Definition start_ctx load : Ctx := if Watchable load then 1 else 0.

(** The calls of a startup that succeeds, with these options of the manager. *)
Definition startup_log load (opts : ManagerOptions C) : list (Call Profile Policy C) :=
  [ClientNew 10; LoadWithAdherence 10; NewManager opts; SetupController 0 ManifestsBasePath;
   AddHealthzCheck "healthz"; AddReadyzCheck "readyz"] ++
  (if Watchable load then
     [WatcherSetup {| InitialTLSProfileSpec := Spec load;
                      InitialTLSAdherencePolicy := AdherencePolicy load;
                      OnProfileChange := CancelContext 1;
                      OnAdherencePolicyChange := CancelContext 1 |}]
   else []) ++
  [Start (start_ctx load)].

(** What the options of a manager must be for a configuration, field by field. *)
Record configured (cfg : managerConfig) (tlsOpts : list (C → C)) (o : ManagerOptions C) : Prop := {
  cf_metrics_tls : me_TLSOpts (mo_Metrics o) = tlsOpts;
  cf_webhook_tls : wh_TLSOpts (mo_WebhookServer o) = tlsOpts;
  cf_metrics_address : me_BindAddress _ (mo_Metrics o) = metricsAddr cfg;
  cf_metrics_secure : me_SecureServing (mo_Metrics o) = secureMetrics cfg;
  cf_metrics_filter : me_FilterProvider (mo_Metrics o) = secureMetrics cfg;
  cf_metrics_certs :
    (me_CertDir _ (mo_Metrics o), me_CertName _ (mo_Metrics o), me_KeyName _ (mo_Metrics o)) =
    if decide (metricsCertPath cfg = "") then ("", "", "")
    else (metricsCertPath cfg, metricsCertName cfg, metricsCertKey cfg);
  cf_webhook_certs :
    (wh_CertDir _ (mo_WebhookServer o), wh_CertName _ (mo_WebhookServer o),
     wh_KeyName _ (mo_WebhookServer o)) =
    if decide (webhookCertPath cfg = "") then ("", "", "")
    else (webhookCertPath cfg, webhookCertName cfg, webhookCertKey cfg);
  cf_probe_address : mo_HealthProbeBindAddress _ o = probeAddr cfg;
  cf_leader_election : mo_LeaderElection _ o = enableLeaderElection cfg;
}.

Lemma manager_options_configured cfg tlsOpts : configured cfg tlsOpts (manager_options cfg tlsOpts).
Proof.
  unfold manager_options, setupMetricsOptions, setupWebhookServer.
  destruct (String.eqb_spec (metricsCertPath cfg) "") as [Hm|Hm],
    (String.eqb_spec (webhookCertPath cfg) "") as [Hw|Hw];
    split; cbn; try done; by rewrite ?(decide_True _ _ Hm), ?(decide_True _ _ Hw),
      ?(decide_False _ _ Hm), ?(decide_False _ _ Hw).
Qed.

(** A world that has just begun, whose calls answer with [ans]. *)
Definition new_world (ans : nat → option error) : World Profile Policy C :=
  Build_World [] ans ∅ [].

Definition tls_options (cfg : managerConfig) load (err : option error) : list (C → C) :=
  match managerTLSOptions (load, err) (enableHTTP2 cfg) with inr o => o | inl _ => [] end.

(** A context is done when it or one it derives from was cancelled. *)
Inductive is_done w : Ctx → Prop :=
  | done_cancelled c : c ∈ cancelled w → is_done w c
  | done_parent c p : parents w !! c = Some p → is_done w p → is_done w c.

(** The first of the calls that fails stops the program. *)
Definition stopped_at (ans : nat → option error) (calls : list (Call Profile Policy C)) w (n : nat) : Prop :=
  log w = take (S n) calls ++ [Exit 1] ∧ ∀ i, i < n → ans i = None.
End startup_facts.

#[local] Arguments managerTLSOptions : simpl never.

(** [∀ i, i < n → ans i = None], from the answers at each [i]. *)
Ltac clear_answers :=
  intros i Hi; do 8 (destruct i as [|i]; [first [assumption | cbn in Hi; lia]|]); cbn in Hi; lia.

Ltac stopped :=
  split; [split; [done|clear_answers]|split; [left; eexists; eassumption|first [lia | by eexists]]].

Lemma main_log {Profile Policy C} {TL : TLSLibrary Profile Policy C}
    (cfg : managerConfig) (load : LoadResult Profile Policy) ans :
  let '(r, w) := main cfg load (new_world ans) in
  let calls := startup_log load (manager_options cfg (tls_options cfg load None)) in
  match r with
  | Ok _ => log w = calls ∧ (∀ i, i < length calls → ans i = None) ∧
            ∃ t, managerTLSOptions (load, None) (enableHTTP2 cfg) = inr t
  | Err _ => ∃ n, stopped_at ans calls w n ∧
      (is_Some (ans n) ∨ n = 1 ∧ ∃ e, managerTLSOptions (load, ans 1) (enableHTTP2 cfg) = inl e) ∧
      (1 < n → ∃ t, managerTLSOptions (load, None) (enableHTTP2 cfg) = inr t)
  | Panic _ => False
  end.
Proof.
  unfold main, must, perform, exit_1, setupManager, registerControllers, registerHealthChecks, must,
    registerTLSProfileWatcher, perform, WithCancel, exit_1, newTLSProfileWatcher, startup_log, start_ctx,
    newTLSProfileWatcher. run.
  destruct (ans 0) eqn:E0; cbn; [by exists 0; stopped|].
  destruct (managerTLSOptions (load, ans 1) (enableHTTP2 cfg)) as [e|o] eqn:Et; cbn.
  { exists 1. split; [split; [done|clear_answers]|]. split; [right; eauto|lia]. }
  assert (ans 1 = None) as E1.
  { destruct (ans 1); [|done]. done. }
  rewrite E1 in Et. unfold tls_options. rewrite Et.
  destruct (ans 2) eqn:E2; cbn; [by exists 2; stopped|].
  destruct (ans 3) eqn:E3; cbn; [by exists 3; stopped|].
  destruct (ans 4) eqn:E4; cbn; [by exists 4; stopped|].
  destruct (ans 5) eqn:E5; cbn; [by exists 5; stopped|].
  destruct (Watchable load); cbn.
  - destruct (ans 6) eqn:E6; cbn; [by exists 6; stopped|].
    destruct (ans 7) eqn:E7; cbn; [by exists 7; stopped|].
    split; [done|]. split; [clear_answers|eauto].
  - destruct (ans 6) eqn:E6; cbn; [by exists 6; stopped|].
    split; [done|]. split; [clear_answers|eauto].
Qed.

(** A manager is made only with the options of the configuration. *)
Lemma startup_managers {Profile Policy C} {TL : TLSLibrary Profile Policy C}
    (load : LoadResult Profile Policy) (o o' : ManagerOptions C) :
  NewManager o' ∈ startup_log load o → o' = o.
Proof.
  unfold startup_log. intros Hin.
  repeat (apply elem_of_cons in Hin as [Hin|Hin]; [by simplify_eq|]).
  destruct (Watchable load); repeat (apply elem_of_cons in Hin as [Hin|Hin]; [by simplify_eq|]);
    by apply elem_of_nil in Hin.
Qed.

(** C37: the startup, for every configuration, every TLS setting and every pattern
    of failing calls.  Whatever the outcome, every manager that is made has on
    both of its servers, the webhooks' and the metrics', exactly the TLS options
    that the settings of the cluster gave, its other options are the flags', field
    by field, and the metrics are filtered exactly when they are served securely;
    without TLS options no manager is made.  If the program runs its manager to
    the end, every call succeeded, and they were: the client, the load of the TLS
    settings, that manager, the controller, the two health checks, the watcher,
    with the settings that were loaded, exactly if they can be watched, and the
    start.  Otherwise the calls are those up to the first that failed, or to the
    load if its settings give no TLS options, followed by an exit with status 1. *)
Theorem main_spec {Profile Policy C} {TL : TLSLibrary Profile Policy C}
    (cfg : managerConfig) (load : LoadResult Profile Policy) ans :
  let '(r, w) := main cfg load (new_world ans) in
  (∀ o, NewManager o ∈ log w →
     ∃ t, managerTLSOptions (load, None) (enableHTTP2 cfg) = inr t ∧ configured cfg t o) ∧
  ∃ o, let calls := startup_log load o in
  match r with
  | Ok _ => log w = calls ∧ (∀ i, i < length calls → ans i = None)
  | Err _ => ∃ n, stopped_at ans calls w n ∧
      (is_Some (ans n) ∨ n = 1 ∧ ∃ e, managerTLSOptions (load, ans 1) (enableHTTP2 cfg) = inl e)
  | Panic _ => False
  end.
Proof.
  pose proof (main_log cfg load ans) as H. destruct (main cfg load (new_world ans)) as [r w].
  set (o0 := manager_options cfg (tls_options cfg load None)) in H. cbv zeta in H.
  assert (∀ t, managerTLSOptions (load, None) (enableHTTP2 cfg) = inr t → configured cfg t o0) as Hcf.
  { intros t Ht. unfold o0, tls_options. rewrite Ht. apply manager_options_configured. }
  destruct r as [u|e|p]; [|destruct H as (n & [Hl Ha] & Hn & Ht)|done].
  - destruct H as (Hl & Ha & t & Ht). split; [|by exists o0]. rewrite Hl. intros o ->%startup_managers. eauto.
  - split; [|exists o0, n; by split]. rewrite Hl. intros o [Ho|Ho]%elem_of_app.
    + assert (1 < n) as [t Hn1]%Ht.
      { destruct n as [|[|n]]; [..|lia]; cbn in Ho;
          repeat (apply elem_of_cons in Ho as [Ho|Ho]; [discriminate|]); by apply elem_of_nil in Ho. }
      exists t. split; [done|].
      assert (NewManager o ∈ startup_log load o0) as ->%startup_managers; [|by apply Hcf].
      rewrite <- (take_drop (S n) (startup_log load o0)). apply elem_of_app. by left.
    + by apply elem_of_cons in Ho as [|?%elem_of_nil].
Qed.

Lemma main_world {Profile Policy C} {TL : TLSLibrary Profile Policy C}
    (cfg : managerConfig) (load : LoadResult Profile Policy) ans u w :
  main cfg load (new_world ans) = (Ok u, w) →
  cancelled w = [] ∧ parents w = (if Watchable load then {[1 := 0]} else ∅).
Proof.
  unfold main, must, perform, exit_1, setupManager, registerControllers, registerHealthChecks, must,
    registerTLSProfileWatcher, perform, WithCancel, exit_1. run.
  destruct (ans 0); cbn; [done|].
  destruct (managerTLSOptions (load, ans 1) (enableHTTP2 cfg)); cbn; [done|].
  destruct (ans 2); cbn; [done|]. destruct (ans 3); cbn; [done|].
  destruct (ans 4); cbn; [done|]. destruct (ans 5); cbn; [done|].
  destruct (Watchable load); cbn.
  - destruct (ans 6); cbn; [done|]. destruct (ans 7); cbn; [done|]. by intros [= _ <-].
  - destruct (ans 6); cbn; [done|]. by intros [= _ <-].
Qed.

(** C30: a change of the TLS settings restarts the process and does not kill it.
    When the manager was started with a watcher, either callback of that watcher
    ends the context the manager runs on, which was not ended, and not the context
    of the signal handler, from which it derives: a signal still ends both. *)
Theorem watcher_restarts {Profile Policy C} {TL : TLSLibrary Profile Policy C}
    (cfg : managerConfig) (load : LoadResult Profile Policy) ans u w :
  main cfg load (new_world ans) = (Ok u, w) → Watchable load = true →
  ∃ watcher ctx, WatcherSetup watcher ∈ log w ∧ last (log w) = Some (Start ctx) ∧
    ¬ is_done w ctx ∧
    (∀ cb, cb = OnProfileChange watcher ∨ cb = OnAdherencePolicyChange watcher →
       is_done (cancel cb w) ctx ∧ ¬ is_done (cancel cb w) 0) ∧
    is_done (cancel (CancelContext 0) w) ctx.
Proof.
  intros Hrun Hw. pose proof (main_world _ _ _ _ _ Hrun) as [Hc Hp]. rewrite Hw in Hp.
  pose proof (main_log cfg load ans) as H. rewrite Hrun in H. destruct H as (Hl & _).
  unfold startup_log, start_ctx in Hl. rewrite Hw in Hl.
  exists (newTLSProfileWatcher load (CancelContext 1)), 1. rewrite Hl. split_and!.
  - cbn. do 6 apply list_elem_of_further. apply list_elem_of_here.
  - done.
  - intros Hd. inversion Hd as [c Hin|c p Hin Hd']; subst; [rewrite Hc in Hin; by apply elem_of_nil in Hin|].
    rewrite Hp, lookup_singleton_eq in Hin. injection Hin as <-.
    inversion Hd' as [c Hin|c p Hin _]; subst; [rewrite Hc in Hin; by apply elem_of_nil in Hin|].
    by rewrite Hp, lookup_singleton_ne in Hin.
  - intros cb Hcb. assert (cb = CancelContext 1) as -> by by destruct Hcb.
    split; [apply done_cancelled, list_elem_of_here|].
    intros Hd. inversion Hd as [c Hin|c p Hin _]; subst; cbn in Hin.
    + rewrite Hc in Hin. by apply elem_of_cons in Hin as [|?%elem_of_nil].
    + by rewrite Hp, lookup_singleton_ne in Hin.
  - apply (done_parent _ 1 0); [cbn; by rewrite Hp, lookup_singleton_eq|].
    apply done_cancelled, list_elem_of_here.
Qed.

(** A TLS library for the examples: a configuration is its list of protocols. *)
Definition toy_tls : TLSLibrary unit bool (list string) := {|
  ShouldHonorClusterTLSProfile := λ b, b;
  IntermediateProfile := tt;
  ConfigFromProfileWithError := λ _, inr (λ _, ["h2"; "http/1.1"], []);
  SetNextProtos := λ ps _, ps;
  NextProtos := id;
  HTTP2NextProtos := ["h2"; "http/1.1"];
  HTTP1NextProtos := ["http/1.1"];
|}.

Definition sample_load : LoadResult unit bool :=
  {| Spec := tt; AdherencePolicy := true; UsedFallback := false; Watchable := true |}.

Definition sample_main : res unit * World unit bool (list string) :=
  main (TL := toy_tls) default_config sample_load (new_world (λ _, None)).

Lemma watcher_restarts_witness :
  ∃ watcher ctx, WatcherSetup watcher ∈ log sample_main.2 ∧ last (log sample_main.2) = Some (Start ctx).
Proof.
  destruct (watcher_restarts (TL := toy_tls) default_config sample_load (λ _, None) tt sample_main.2)
    as (watcher & ctx & H1 & H2 & _); [vm_compute; reflexivity|reflexivity|].
  exists watcher, ctx. split; [exact H1|exact H2].
Defined.

#[export] Instance toy_tls_laws : TLSLaws unit bool (list string) (H := toy_tls).
Proof. done. Qed.

Lemma managerTLSOptions_spec_witness :
  ∃ opts, managerTLSOptions (TL := toy_tls) (sample_load, None) false = inr opts ∧
    NextProtos (TLSLibrary := toy_tls) (apply_options opts []) = ["http/1.1"].
Proof.
  pose proof (managerTLSOptions_spec (TL := toy_tls) sample_load None false) as H.
  destruct (managerTLSOptions (sample_load, None) false) as [e|opts] eqn:E.
  - exfalso. vm_compute in E. discriminate.
  - exists opts. split; [reflexivity|]. destruct H as (_ & f & u & _ & Hc). exact (proj1 (Hc [])).
Defined.
