(* ===== verification/UnitTests.v ===== *)
(** * The unit tests of the module, run on the model

    The Go tests of [internal/controller/*_test.go] and [cmd/main_test.go] whose
    subject is modelled, under the names they have there: the same inputs, and
    what the test asserts as an equation that evaluates.  A definition that
    drifted from the code would fail the test the code passes.  The cluster is
    the one in memory, as the tests use the fake client; the code that the tests
    reach in other libraries (semantic versions, TLS profiles) is a stub that
    answers for their inputs. *)
From S2P Require Import Prelude GoStrings OS API Kube Fake ParamsFile Overlay Params Settle.
From S2P Require Import PlatformConfig Releases Status Render PlatformFilter Dependencies NotebookRBAC.
From S2P Require Import OwnedGC Controller Shipped Manager.

(** ** Fixtures *)

Definition rhoai := "redhat-ods-applications".
Definition testDistributionVersion := "2.20.0".
Definition testPlatformVersion := "3.5.1".
Definition testManifestsPath := "/opt/manifests".

(** [semver.NewVersion] on the versions of the tests. *)
Definition numeric : Semver := λ v,
  match v with
  | String c _ => if (48 <=? Ascii.nat_of_ascii c) && (Ascii.nat_of_ascii c <=? 57) then None
                  else Some (ELib "Invalid Semantic Version")
  | EmptyString => Some (ELib "Invalid Semantic Version")
  end.

Definition framework : Framework Fake Obj := fake_framework (λ _, []).

Definition available_condition : Condition := Build_Condition ConditionDeploymentsAvailable "True" "" "" 0.

Definition test_ray (uid ns : string) (g : Z) (cs : list Condition) (d : Distribution) : Ray :=
  Build_Ray (Build_ObjectMeta InstanceName "" uid None [] [] g None) (Build_RaySpec "" ns)
    (Build_RayStatus (Build_Status "" 0 cs) [] d).

Definition plain_ray (ns : string) : Ray := test_ray "" ns 0 [] (Build_Distribution "" "").
Definition available_ray (d : Distribution) : Ray := test_ray "" rhoai 0 [available_condition] d.

(** [&types.ReconciliationRequest{Instance: ray, Client: cli}]: no map of extensions. *)
Definition test_state (ray : Ray) (k : Fake) : State Fake Obj :=
  MkState (Build_Request true (Some (ARay ray)) None false [] []) k (boot ∅ ∅) (Build_FilterCache false false).

Definition meta_in (ns n : string) : ObjectMeta := Build_ObjectMeta n ns "" None [] [] 0 None.

Definition with_map (data : gmap string string) : Fake :=
  MkFake None {[(rhoai, PlatformConfigMapName) :=
                  Build_ConfigMap (meta_in rhoai PlatformConfigMapName) (Some data)]} ∅ ∅ [] None.

Definition status_of {A} (r : A * State Fake Obj) : option (Distribution * ComponentReleaseStatus) :=
  match Instance_ (rr r.2) with
  | Some (ARay ray) => Some (ray_Distribution (ray_status ray), GetReleaseStatus ray)
  | _ => None
  end.

(** ** [configmap_test.go] *)

Example TestValidateReleaseVersion :
  let valid v := bool_decide (validateReleaseVersion (SV := numeric) v = None) in
  map valid [testDistributionVersion; "v2.20.0"; "not-a-semver"; String.concat "" (repeat "1" 65)] =
  [true; true; false; false].
Proof. vm_compute. reflexivity. Qed.

Definition ray_cluster : Fake := MkFake (Some (plain_ray rhoai)) ∅ ∅ ∅ [] None.

Example TestPlatformConfigMapper :
  (platformConfigMapper (meta_in rhoai PlatformConfigMapName) ray_cluster).1 =
    Ok [Build_NamespacedName "" InstanceName] ∧
  (platformConfigMapper (meta_in "other-namespace" PlatformConfigMapName) ray_cluster).1 = Ok [] ∧
  (platformConfigMapper (meta_in rhoai "unrelated") ray_cluster).1 = Ok [].
Proof. split_and!; reflexivity. Qed.

Example TestPlatformConfigMapperNoRayCR :
  (platformConfigMapper (meta_in rhoai PlatformConfigMapName) empty_fake).1 = Ok [].
Proof. reflexivity. Qed.

Definition read_distribution (ns : string) (k : Fake) : res (Distribution * distributionReadStatus) :=
  (readPlatformDistribution (SV := numeric) ns (test_state (plain_ray ns) k)).1.

Definition platform_data (name version : string) : gmap string string :=
  <[PlatformNameKey := name]> {[PlatformVersionKey := version]}.

Example TestReadPlatformDistributionMissingConfigMap :
  read_distribution rhoai empty_fake = Ok (no_distribution, distributionAbsent).
Proof. reflexivity. Qed.

Example TestReadPlatformDistributionFromConfigMap :
  read_distribution rhoai (with_map (platform_data "OpenDataHub" testDistributionVersion)) =
  Ok (Build_Distribution "OpenDataHub" "2.20.0", distributionOK).
Proof. vm_compute. reflexivity. Qed.

Example TestReadPlatformDistributionInvalidVersion :
  read_distribution rhoai (with_map (platform_data "OpenDataHub" "not-a-semver")) =
  Ok (no_distribution, distributionInvalid).
Proof. vm_compute. reflexivity. Qed.

Example TestReadPlatformDistributionEmptyNamespace :
  read_distribution "" empty_fake = Ok (no_distribution, distributionAbsent).
Proof. reflexivity. Qed.

Example TestReadPlatformDistributionDefaultsName :
  read_distribution rhoai (with_map {[PlatformVersionKey := testPlatformVersion]}) =
  Ok (Build_Distribution StandaloneDistributionName "3.5.1", distributionOK).
Proof. vm_compute. reflexivity. Qed.

Example TestReadPlatformVersion :
  (readPlatformVersion rhoai
     (test_state (plain_ray rhoai) (with_map {[PlatformHandshakeKey := testPlatformVersion]}))).1 =
  Ok "3.5.1".
Proof. vm_compute. reflexivity. Qed.

Example TestStandaloneDistribution :
  standaloneDistribution "v1.7.1" = Build_Distribution "Standalone" "v1.7.1" ∧
  dist_Version (standaloneDistribution "") = "0.0.0".
Proof. done. Qed.

Example TestPlatformConfigPredicate :
  platformConfigPredicate (meta_in "" PlatformConfigMapName) = true ∧
  platformConfigPredicate (meta_in "" "other") = false.
Proof. done. Qed.

Example TestDesiredModuleReleases :
  desiredModuleReleases "1.4.0" = [Build_ComponentRelease KubeRayReleaseName "1.4.0" KubeRayRepoURL] ∧
  desiredModuleReleases "" = [].
Proof. done. Qed.

Example TestKubeRayVersionFromImage :
  map (λ image, (kubeRayVersionFromImage image ()).1)
    ["quay.io/opendatahub/kuberay-operator:v1.7.1"; "registry.redhat.io/kuberay:v2.0";
     "quay.io/opendatahub/kuberay-operator@sha256:abc";
     "quay.io/opendatahub/kuberay-operator:v1.7.1@sha256:abc"; ""] =
  [Ok "v1.7.1"; Ok "v2.0"; Ok ""; Ok "v1.7.1"; Ok ""].
Proof. vm_compute. reflexivity. Qed.

(** The manifests of the repository, under an environment with this image. *)
Definition manifests_os (related : string) : OS :=
  boot {[resolve (params_env testManifestsPath) := File shipped_params]}
    {["RELATED_IMAGE_ODH_KUBERAY_OPERATOR_CONTROLLER_IMAGE" := related]}.

Example TestResolveKubeRayImagePrefersRelatedImage :
  (resolveKubeRayImage testManifestsPath (manifests_os "registry.redhat.io/kuberay:v2.0")).1 =
  Ok "registry.redhat.io/kuberay:v2.0".
Proof. vm_compute. reflexivity. Qed.

Example TestResolveKubeRayImageFallsBackToParams :
  (resolveKubeRayImage testManifestsPath (manifests_os "")).1 =
  Ok "quay.io/opendatahub/kuberay-operator:v1.7.1".
Proof. vm_compute. reflexivity. Qed.

Example TestResolveKubeRayVersionDigestOnlyFallback :
  (resolveKubeRayVersion testManifestsPath
     (manifests_os "registry.redhat.io/rhoai/odh-kuberay-operator-controller-rhel9@sha256:abc123")).1 =
  Ok "v1.7.1".
Proof. vm_compute. reflexivity. Qed.

Example TestResolveKubeRayVersionTaggedImage :
  (resolveKubeRayVersion testManifestsPath (manifests_os "registry.redhat.io/rhoai/kuberay:v2.0.0")).1 =
  Ok "v2.0.0".
Proof. vm_compute. reflexivity. Qed.

(** ** [status_test.go] *)

Definition test_status (r : res unit * State Fake Obj) : option Status :=
  match r.1, Instance_ (rr r.2) with Ok _, Some (ARay ray) => Some (GetStatus ray) | _, _ => None end.

Example TestObservedGenerationAction :
  ObservedGeneration <$> test_status (observedGenerationAction
    (test_state (test_ray "" "" 7 [] (Build_Distribution "" "")) empty_fake)) = Some 7%Z.
Proof. vm_compute. reflexivity. Qed.

Example TestDegradedAction :
  Conditions <$> test_status (degradedAction (FW := framework)
    (test_state (test_ray "" "" 3 [] (Build_Distribution "" "")) empty_fake)) =
  Some [Build_Condition ConditionDegraded "False" "AsExpected" "Module is operating normally" 3].
Proof. vm_compute. reflexivity. Qed.

(** [Degraded] does not count for the readiness: the two conditions it is
    aggregated from stay true. *)
Example TestReadyIndependentOfDegraded :
  (λ st, map (λ t, condition_true t (Conditions st)) (su_Conditions (SetupWithManager (FW := framework)
     (SV := numeric) (MR := canonical_range) (λ _, false) testManifestsPath))) <$>
  test_status (degradedAction (FW := framework)
    (test_state (test_ray "" "" 3 [Build_Condition "ProvisioningSucceeded" "True" "" "" 0;
       available_condition] (Build_Distribution "" "")) empty_fake)) = Some [true; true].
Proof. vm_compute. reflexivity. Qed.

Definition run_distribution_test (base : string) (ray : Ray) (k : Fake) : option Distribution :=
  fst <$> status_of (distributionAction (SV := numeric) (FW := framework) base (test_state ray k)).

Definition kept : Distribution := Build_Distribution "kept" "1.0.0".

Example TestDistributionActionWaitsForDeployments :
  run_distribution_test "" (test_ray "" rhoai 0 [] kept) empty_fake = Some kept.
Proof. vm_compute. reflexivity. Qed.

Example TestDistributionActionStandaloneWhenConfigMapAbsent :
  run_distribution_test testManifestsPath (available_ray (Build_Distribution "" "")) empty_fake =
  Some (Build_Distribution "Standalone" "0.0.0").
Proof. vm_compute. reflexivity. Qed.

Example TestDistributionActionFromConfigMap :
  run_distribution_test "" (available_ray (Build_Distribution "" ""))
    (with_map (platform_data "SelfManagedRHOAI" testPlatformVersion)) =
  Some (Build_Distribution "SelfManagedRHOAI" "3.5.1").
Proof. vm_compute. reflexivity. Qed.

Example TestDistributionActionSkipsInvalidVersion :
  run_distribution_test "" (available_ray kept) (with_map (platform_data "OpenDataHub" "not-a-semver")) =
  Some kept.
Proof. vm_compute. reflexivity. Qed.

Example TestPlatformReleaseActionAfterDeploymentsAvailable :
  snd <$> status_of (platformReleaseAction (FW := framework)
    (test_state (available_ray kept) (with_map {[PlatformHandshakeKey := testPlatformVersion]}))) =
  Some [Build_ComponentRelease "Platform" "3.5.1" ""].
Proof. vm_compute. reflexivity. Qed.

(** ** [owned_gc_test.go] *)

Definition owned_by_ray : OwnerReference := Build_OwnerReference "Ray" InstanceName "ray-uid".

Definition deployment (n : string) (labels : option (gmap string string)) (owners : list OwnerReference)
    : Object :=
  Build_Object DeploymentList (Build_ObjectMeta n "apps" "" labels owners [] 0 None).

Definition gc_test (objects : list Object) : res unit * list (option Object) :=
  let r := deleteOwnedOperands (FW := framework)
    (test_state (test_ray "ray-uid" "apps" 0 [] kept) (put_objects objects empty_fake)) in
  (r.1, map (λ o, fk_object (identity o) (cluster r.2)) objects).

Example TestDeleteOwnedOperandsRemovesOwnedDeployment :
  gc_test [deployment "kuberay-operator" None [owned_by_ray]; deployment "other" None []] =
  (Ok tt, [None; Some (deployment "other" None [])]).
Proof. vm_compute. reflexivity. Qed.

Example TestDeleteOwnedOperandsRemovesLabeledDeploymentWithoutOwner :
  gc_test [deployment "kuberay-operator" (Some {["platform.opendatahub.io/part-of" := ComponentName]}) []] =
  (Ok tt, [None]).
Proof. vm_compute. reflexivity. Qed.

Example TestOwnedByUID :
  let dep owners := deployment "" None owners in
  ownedByUID (dep []) "x" = false ∧
  ownedByUID (dep [Build_OwnerReference "" "" "x"]) "x" = true ∧
  ownedByUID (dep [Build_OwnerReference "" "" "x"]) "y" = false.
Proof. done. Qed.

(** ** [platform_filter_test.go] *)

Definition makeResource (group kind name : string) : Obj := MkObj (GVK group "v1" kind) name "" None.

Definition openshift_resources : list Obj :=
  [makeResource "apps" "Deployment" "kuberay-operator";
   makeResource "security.openshift.io" "SecurityContextConstraints" "run-as-ray-user";
   makeResource "" "ConfigMap" "ray-config"].

Definition filter_test (known : list GroupVersionKind) (resources : list Obj) : res unit * list string :=
  let r := filterPlatformResources
    (MkState (Build_Request true None None false [] resources) (MkFake None ∅ ∅ ∅ known None)
       (boot ∅ ∅) (Build_FilterCache false false)) in
  (r.1, map GetKind (Resources (rr r.2))).

Example TestFilterPlatformResources_NoSCCAPI :
  filter_test [] openshift_resources = (Ok tt, ["Deployment"; "ConfigMap"]).
Proof. vm_compute. reflexivity. Qed.

Example TestFilterPlatformResources_WithSCCAPI :
  filter_test [GVK "security.openshift.io" "v1" "SecurityContextConstraints"] openshift_resources =
  (Ok tt, ["Deployment"; "SecurityContextConstraints"; "ConfigMap"]).
Proof. vm_compute. reflexivity. Qed.

Example TestFilterPlatformResources_EmptyResources : filter_test [] [] = (Ok tt, []).
Proof. vm_compute. reflexivity. Qed.

(** ** [params_test.go] *)

Definition dir_with (file content : string) (e : gmap string string) : OS :=
  boot (<[["d"; file] := File content]> (<[["d"] := Dir]> {[[] := Dir]})) e.

(** The parameters read back after [applyParams] succeeded. *)
Definition params_test (images : gmap string string) (extras : list (gmap string string)) (o : OS)
    : option (list (option string)) :=
  match applyParams (H := canonical_range) "/d" images extras o with
  | (Ok _, o') =>
      match (parseParams "/d/params.env" o').1 with
      | Ok m => Some (map (m !!.) ["namespace"; "odh-kuberay-operator-controller-image";
                                   "odh-kube-rbac-proxy-image"])
      | _ => None
      end
  | _ => None
  end.

Definition default_params : string :=
  unlines ["namespace=opendatahub"; "odh-kuberay-operator-controller-image=quay.io/default:v1"].

Example TestApplyParams_OverridesNamespace :
  params_test ∅ [{["namespace" := "my-ns"]}] (dir_with "params.env" default_params ∅) =
  Some [Some "my-ns"; Some "quay.io/default:v1"; None].
Proof. vm_compute. reflexivity. Qed.

Example TestApplyParams_EnvVarOverride :
  params_test imageParamMap []
    (dir_with "params.env" (default_params +:+ unlines ["odh-kube-rbac-proxy-image=quay.io/proxy:old"])
       (<["RELATED_IMAGE_ODH_KUBERAY_OPERATOR_CONTROLLER_IMAGE" := "registry.redhat.io/kuberay:v2.0"]>
          {["RELATED_IMAGE_ODH_KUBE_RBAC_PROXY_IMAGE" := "registry.redhat.io/proxy:v2.0"]})) =
  Some [Some "opendatahub"; Some "registry.redhat.io/kuberay:v2.0"; Some "registry.redhat.io/proxy:v2.0"].
Proof. vm_compute. reflexivity. Qed.

(** The test reads the namespace back; here the file is also the same, byte for byte. *)
Example TestApplyParams_NoOpWhenUnchanged :
  let o := dir_with "params.env" default_params ∅ in
  let extra := [{["namespace" := "opendatahub"]}] in
  (params_test imageParamMap extra o,
   fs (applyParams (H := canonical_range) "/d" imageParamMap extra o).2 !! ["d"; "params.env"]) =
  (Some [Some "opendatahub"; Some "quay.io/default:v1"; None], Some (File default_params)).
Proof. vm_compute. reflexivity. Qed.

Example TestApplyParams_MissingFileReturnsNil :
  (applyParams (H := canonical_range) "/d" imageParamMap []
     (boot (<[["d"] := Dir]> {[[] := Dir]}) ∅)).1 = Ok tt.
Proof. vm_compute. reflexivity. Qed.

Definition read_only_source : OS :=
  boot (list_to_map [([], Dir); (["tmp"], Dir); (["base"], Dir); (["base"; "kuberay"], Dir);
    (["base"; "kuberay"; "openshift"], Dir);
    (["base"; "kuberay"; "openshift"; "params.env"], File default_params)]) ∅.

(** The copy is changed, the source is not. *)
Example TestWritableManifestsBase_DoesNotMutateReadOnlySource :
  let r := (dst ← writableManifestsBase "/base";
            let overlay := Join [dst; "kuberay"; "openshift"] in
            applyParams (H := canonical_range) overlay ∅ [{["namespace" := "ray-module-test"]}] ;;
            gotCopy ← parseParams (Join [overlay; "params.env"]);
            mret (gotCopy !! "namespace")) read_only_source in
  (r.1, fs r.2 !! ["base"; "kuberay"; "openshift"; "params.env"]) =
  (Ok (Some "ray-module-test"), Some (File default_params)).
Proof. vm_compute. reflexivity. Qed.

Example TestSetOverlayNamespace_RewritesHardcodedNamespace :
  let head := ["apiVersion: kustomize.config.k8s.io/v1beta1"; "kind: Kustomization"] in
  let r := setOverlayNamespace "/d" "ray-module-test"
    (dir_with "kustomization.yaml" (unlines (head ++ ["namespace: redhat-ods-applications"])) ∅) in
  (r.1, fs r.2 !! ["d"; "kustomization.yaml"]) =
  (Ok tt, Some (File (unlines (head ++ ["namespace: ray-module-test"])))).
Proof. vm_compute. reflexivity. Qed.

(** ** [dependencies_test.go] *)

Definition issuer : Obj := MkObj (GVK "cert-manager.io" "v1" "Issuer") "" "" None.
Definition certificate : Obj := MkObj (GVK "cert-manager.io" "v1" "Certificate") "" "" None.

Example TestRequiredCertManagerGVKs : requiredCertManagerGVKs [issuer] = take 1 certManagerGVKs.
Proof. vm_compute. reflexivity. Qed.

(** Only the definition of issuers is installed. *)
Example TestCertManagerRequirementAction :
  (certManagerRequirementAction (MkState
     (Build_Request true None (Some {[ExtKeyRemoved := AnyBool false]}) false [] [issuer; certificate])
     (MkFake None ∅ ∅ ∅ [GVK "cert-manager.io" "v1" "Issuer"] None) (boot ∅ ∅)
     (Build_FilterCache false false))).1 =
  Err (Errorf "cert-manager is required by the Ray module: %s CRD is not installed"
         ["cert-manager.io/v1, Kind=Certificate"]).
Proof. vm_compute. reflexivity. Qed.

(** ** [render_test.go] *)

Example TestForceNamespacedResources_OverridesHardcodedNamespace :
  map GetNamespace (forceNamespacedResources "ray-module-test"
    [MkObj (GVK "apps" "v1" "Deployment") "kuberay-operator" "redhat-ods-applications" None;
     MkObj (GVK "rbac.authorization.k8s.io" "v1" "ClusterRole") "kuberay-operator" "" None]) =
  ["ray-module-test"; ""].
Proof. vm_compute. reflexivity. Qed.

Example TestStampPartOfLabels :
  map (λ u, (GetLabels u ≫= (.!! "platform.opendatahub.io/part-of"), GetLabels u ≫= (.!! "app")))
    (stampPartOfLabels (FW := framework)
       [MkObj (GVK "apps" "v1" "Deployment") "kuberay-operator" "" (Some {["app" := "kuberay-operator"]});
        MkObj (GVK "apiextensions.k8s.io" "v1" "CustomResourceDefinition") "fakes.lifecycle.ray.test.io"
          "" None]) =
  [(Some ComponentName, Some "kuberay-operator"); (None, None)].
Proof. vm_compute. reflexivity. Qed.

(** ** [notebook_rbac_test.go] *)

Example TestNotebookClusterRole :
  let cr := notebookClusterRole (FW := framework) in
  (Name (cr_meta cr), Namespace (cr_meta cr), cr_Kind cr, cr_APIVersion cr,
   map_get "platform.opendatahub.io/part-of" (Labels (cr_meta cr))) =
    (notebookClusterRoleName, "", "ClusterRole", "rbac.authorization.k8s.io/v1", ComponentName) ∧
  map PolicyResources (cr_Rules cr) =
    [["rayjobs"]; ["rayjobs/status"]; ["rayclusters"]; ["rayclusters/status"]; ["secrets"]] ∧
  (λ r, (APIGroups r, Verbs r)) <$> (cr_Rules cr !! 0) =
    Some (["ray.io"], ["get"; "list"; "create"; "patch"; "delete"]) ∧
  Verbs <$> (cr_Rules cr !! 2) = Some ["get"; "list"] ∧
  (λ r, (APIGroups r, Verbs r)) <$> (cr_Rules cr !! 4) = Some ([""], ["create"]).
Proof. by split_and!. Qed.

(** ** [ray_controller_test.go]: a module that was removed

    The deployment, the webhook and a stray ConfigMap with the label are deleted,
    the resource keeps its finalizer, and its condition says why. *)
Definition webhookName := "kuberay-mutating-webhook-configuration".

Definition labelled (l : ListKind) (ns n : string) : Object :=
  Build_Object l (Build_ObjectMeta n ns "" (Some {["platform.opendatahub.io/part-of" := "ray"]}) [] [] 0 None).

Definition removed_cluster : Fake :=
  put_objects [labelled DeploymentList "test-ray-ns" "kuberay-operator";
               labelled MutatingWebhookConfigurationList "" webhookName;
               labelled ConfigMapList "test-ray-ns" "stray-part-of-ray"] empty_fake.

Definition removed_test : res unit * State Fake Obj :=
  run_actions (su_Actions (SetupWithManager (FW := framework) (SV := numeric) (MR := canonical_range)
    (λ _, false) testManifestsPath))
    (sample_state (sample_ray Removed "test-ray-ns") removed_cluster (boot ∅ ∅)).

Example should_delete_operands_and_report_RemovedComponent :
  (removed_test.1, map_to_list (fk_objects (cluster removed_test.2)),
   match Instance_ (rr removed_test.2) with
   | Some (ARay ray) => (Finalizers (ray_meta ray),
       map (λ c, (cond_Status c, cond_Reason c))
         (base.filter (λ c, cond_Type c = ConditionDeploymentsAvailable) (GetConditions ray)))
   | _ => ([], [])
   end) =
  (Ok tt, [], ([FinalizerName], [("True", "RemovedComponent")])).
Proof. vm_compute. reflexivity. Qed.

(** ** [cmd/main_test.go] *)

(** The profiles of the table, and what the library makes of them: a minimum
    version and the protocols, which it sets to both. *)
Inductive TestProfile := Intermediate | Modern | Old | Unusable.

Record TestConfig := { MinVersion : string; Protocols : list string }.

Definition converted (p : TestProfile) : error + ((TestConfig → TestConfig) * list string) :=
  match p with
  | Intermediate => inr (λ _, Build_TestConfig "1.2" ["h2"; "http/1.1"], [])
  | Modern => inr (λ _, Build_TestConfig "1.3" ["h2"; "http/1.1"], [])
  | Old => inr (λ _, Build_TestConfig "1.0" ["h2"; "http/1.1"], [])
  | Unusable => inl (ELib "no usable cipher suites")
  end.

Definition test_tls : TLSLibrary TestProfile string TestConfig := {|
  ShouldHonorClusterTLSProfile := λ p,
    negb (existsb (String.eqb p) [""; "NoOpinion"; "LegacyAdheringComponentsOnly"]);
  IntermediateProfile := Intermediate;
  ConfigFromProfileWithError := converted;
  SetNextProtos := λ ps c, Build_TestConfig (MinVersion c) ps;
  NextProtos := Protocols;
  HTTP2NextProtos := ["h2"; "http/1.1"];
  HTTP1NextProtos := ["http/1.1"];
|}.

(** The minimum version and the protocols of the server; [None] for an error. *)
Definition tls_test (e : TestProfile * string * option error * bool) : option (string * list string) :=
  let '(profile, adherence, err, h2) := e in
  match managerTLSOptions (TL := test_tls)
          ({| Spec := profile; AdherencePolicy := adherence; UsedFallback := false; Watchable := true |}, err) h2 with
  | inl _ => None
  | inr opts =>
      let c := apply_options opts (Build_TestConfig "" []) in Some (MinVersion c, Protocols c)
  end.

Definition strict := "StrictAllComponents".

Example TestManagerTLSOptions :
  map tls_test
    [(Intermediate, strict, None, false); (Intermediate, strict, None, true);
     (Modern, strict, None, false); (Old, strict, None, false); (Unusable, strict, None, false);
     (Unusable, "NoOpinion", None, false); (Modern, "NoOpinion", None, false);
     (Modern, "LegacyAdheringComponentsOnly", None, false);
     (Modern, "MisconfiguredFutureValue", None, false); (Modern, "", None, false);
     (Intermediate, "", Some (EApi forbidden), false)] =
  [Some ("1.2", ["http/1.1"]); Some ("1.2", ["h2"; "http/1.1"]);
   Some ("1.3", ["http/1.1"]); Some ("1.0", ["http/1.1"]); None;
   Some ("1.2", ["http/1.1"]); Some ("1.2", ["http/1.1"]); Some ("1.2", ["http/1.1"]);
   Some ("1.3", ["http/1.1"]); Some ("1.2", ["http/1.1"]); None].
Proof. vm_compute. reflexivity. Qed.

(** A watcher over the context 1, which derives from the background context 0. *)
Definition test_watcher (adherence : string) : SecurityProfileWatcher TestProfile string :=
  newTLSProfileWatcher
    {| Spec := Intermediate; AdherencePolicy := adherence; UsedFallback := false; Watchable := true |}
    (CancelContext 1).

Definition after_callback (cb : CancelFunc) : World TestProfile string TestConfig :=
  cancel cb (Build_World [] (λ _, None) {[1 := 0]} []).

Example TestTLSProfileWatcherReloadsOnAdherenceOnlyChange :
  let w := test_watcher "LegacyAdheringComponentsOnly" in
  InitialTLSProfileSpec _ _ w = Intermediate ∧
  InitialTLSAdherencePolicy _ _ w = "LegacyAdheringComponentsOnly" ∧
  cancelled (after_callback (OnAdherencePolicyChange w)) = [1].
Proof. by split_and!. Qed.

Example TestTLSProfileWatcherReloadsOnProfileChange :
  cancelled (after_callback (OnProfileChange (test_watcher strict))) = [1].
Proof. done. Qed.
