(* ===== verification/TestUtils.v ===== *)
(** * The helpers of the end-to-end tests: [test/utils/utils.go]

    The functions of the file that compute: the lines of a command's output, the
    check for the definitions of cert-manager, and the uncommenting of a piece of
    a file.  Those that run a command take its outcome. *)
From S2P Require Import Prelude GoStrings OS.

(** ** The code *)

Definition GetNonEmptyLines (output : string) : list string :=
  base.filter (λ element, element ≠ "") (split_on LF output).

(** [strings.Index(s, t)] *)
Fixpoint str_index (s t : string) : Z :=
  if String.prefix t s then 0
  else match s with
       | EmptyString => -1
       | String _ s' => let r := str_index s' t in if (r <? 0)%Z then -1 else r + 1
       end%Z.

(** [strings.Contains(s, t)] *)
Definition str_contains (s t : string) : bool := (0 <=? str_index s t)%Z.

Definition certManagerCRDs : list string :=
  ["certificates.cert-manager.io"; "issuers.cert-manager.io"; "clusterissuers.cert-manager.io";
   "certificaterequests.cert-manager.io"; "orders.acme.cert-manager.io";
   "challenges.acme.cert-manager.io"].

(** [crds] is the outcome of [kubectl get crds]. *)
Definition IsCertManagerCRDsInstalled (crds : error + string) : bool :=
  match crds with
  | inl _ => false
  | inr output =>
      let crdList := GetNonEmptyLines output in
      existsb (λ crd, existsb (λ line, str_contains line crd) crdList) certManagerCRDs
  end.

(** The lines of the target, one after the other, as the scanner reports them;
    the error of the scanner is not looked at. *)
Definition uncommented (target prefix : string) : option string :=
  match (scan_lines target).1 with
  | [] => None
  | lines => Some (join_with LF (map (λ line, TrimPrefix line prefix) lines))
  end.

Definition UncommentCode (filename target prefix : string) : M OS unit :=
  content ← wrapping "failed to read file %q: %w" [filename] (ReadFile filename);
  let idx := str_index content target in
  if (idx <? 0)%Z then fail (Errorf "unable to find the code %q to be uncommented" [target])
  else
    before ← slice content 0 idx;
    match uncommented target prefix with
    | None => mret tt
    | Some out =>
        after ← slice content (idx + Z.of_nat (String.length target))
                  (Z.of_nat (String.length content));
        wrapping "failed to write file %q: %w" [filename]
          (WriteFile filename (before +:+ out +:+ after))
    end.

(** * Properties *)

Lemma str_index_bounds s t : str_index s t = (-1)%Z ∨
  ∃ b a, s = b +:+ t +:+ a ∧ str_index s t = Z.of_nat (String.length b).
Proof.
  induction s as [|c s IH].
  - cbn [str_index]. destruct (String.prefix t "") eqn:E; [|by left]. right.
    exists "", "". split; [|done]. rewrite (prefix_split _ _ E) at 1. by destruct (String.length t).
  - cbn [str_index]. destruct (String.prefix t (String c s)) eqn:E.
    + right. eexists "", _. split; [exact (prefix_split _ _ E)|done].
    + destruct IH as [IH|(b & a & Hs & IH)]; rewrite IH; [by left|]. right.
      exists (String c b), a. rewrite Hs. split; [done|]. cbn [String.length].
      destruct (Z.ltb_spec (Z.of_nat (String.length b)) 0); lia.
Qed.

Lemma str_index_neg s t : (str_index s t < 0)%Z → ∀ b a, s ≠ b +:+ t +:+ a.
Proof.
  induction s as [|c s IH]; cbn [str_index]; intros Hi b a Hs.
  - destruct b; [|done]. cbn [String.append] in Hs. rewrite Hs, prefix_app in Hi. lia.
  - destruct (String.prefix t (String c s)) eqn:E; [lia|]. destruct b as [|d b].
    + cbn [String.append] in Hs. by rewrite Hs, prefix_app in E.
    + injection Hs as -> Hs. apply (IH ltac:(destruct (Z.ltb_spec (str_index s t) 0); lia) b a Hs).
Qed.

Lemma str_contains_iff s t : str_contains s t = true ↔ ∃ b a, s = b +:+ t +:+ a.
Proof.
  unfold str_contains. rewrite Z.leb_le. split.
  - intros H. destruct (str_index_bounds s t) as [E|(b & a & Hs & _)]; [lia|eauto].
  - intros (b & a & Hs). destruct (Z.leb_spec 0 (str_index s t)) as [|Hn]; [done|].
    by destruct (str_index_neg s t Hn b a).
Qed.

(** *** Uncommenting *)

(** The lines of a target: without line feeds, and without a carriage return at
    their end, which the scanner drops. *)
Definition target_line (p : string) : Prop := no_char LF p = true ∧ ends_with CR p = false.

Lemma scan_pieces_app l k :
  Forall target_line l → Forall line_fits l → k ≠ [] →
  (scan_pieces (l ++ k)).1 = l ++ (scan_pieces k).1.
Proof.
  intros Hl Hf Hk. induction Hl as [|p l Hp _ IH]; [done|]. apply Forall_cons in Hf as [Hp' Hf].
  cbn [app]. rewrite scan_pieces_cons. unfold line_fits in Hp'. rewrite (proj2 (Z.leb_gt _ _)) by done.
  rewrite bool_decide_eq_false_2 by (by destruct l). rewrite andb_false_r. cbn [fst].
  by rewrite (IH Hf), drop_cr_id by apply Hp.
Qed.

Lemma lines_no_lf l : Forall target_line l → Forall (λ p, no_char LF p = true) l.
Proof. intros Hl. apply (Forall_impl _ _ _ Hl). by intros p []. Qed.

(** A target of ordinary lines is scanned into them. *)
Lemma scan_target l p :
  Forall target_line (l ++ [p]) → Forall line_fits (l ++ [p]) → p ≠ "" →
  (scan_lines (join_with LF (l ++ [p]))).1 = l ++ [p].
Proof.
  intros Hl Hf Hp. unfold scan_lines.
  rewrite split_on_join by (first [by destruct l|by apply lines_no_lf]).
  apply Forall_app in Hl as [Hl [Hpl _]%Forall_cons], Hf as [Hf [Hpf _]%Forall_cons].
  rewrite scan_pieces_app by done. f_equal. rewrite scan_pieces_cons.
  unfold line_fits in Hpf. rewrite (proj2 (Z.leb_gt _ _)) by done.
  rewrite (proj2 (String.eqb_neq _ _) Hp). cbn. by rewrite drop_cr_id by apply Hpl.
Qed.

(** A line that does not fit ends the scan. *)
Lemma scan_target_long l p k :
  Forall target_line l → Forall line_fits l → ¬ line_fits p →
  Forall (λ p, no_char LF p = true) (p :: k) →
  (scan_lines (join_with LF (l ++ p :: k))).1 = l.
Proof.
  intros Hl Hf Hp Hk. unfold scan_lines.
  rewrite split_on_join by (first [by destruct l|apply Forall_app; auto using lines_no_lf]).
  rewrite scan_pieces_app by done. rewrite scan_pieces_cons.
  unfold line_fits in Hp. rewrite (proj2 (Z.leb_le _ _)) by lia. apply app_nil_r.
Qed.

(** What is written when the target is found. *)
Lemma UncommentCode_run filename target prefix o b a out o' :
  fs o !! resolve filename = Some (File (b +:+ target +:+ a)) →
  str_index (b +:+ target +:+ a) target = Z.of_nat (String.length b) →
  uncommented target prefix = Some out →
  UncommentCode filename target prefix o = (Ok tt, o') →
  fs o' = <[resolve filename := File (b +:+ out +:+ a)]> (fs o).
Proof.
  intros Hf Hi Ho Hrun. unfold UncommentCode in Hrun.
  apply bind_Ok_inv in Hrun as (content & o1 & Hr & Hrun).
  unfold wrapping in Hr. destruct (ReadFile filename o) as [[c|e|w] o2] eqn:E; [|done..].
  injection Hr as -> ->. pose proof (ReadFile_Ok _ _ _ _ E) as Hc. rewrite Hf in Hc. injection Hc as <-.
  pose proof (within_none_fs _ o (within_ReadFile _ filename)) as Hfs. rewrite E in Hfs. cbn in Hfs.
  rewrite Hi, Ho in Hrun. rewrite (proj2 (Z.ltb_ge _ _)) in Hrun by lia.
  rewrite bind_split, slice_to_ok, Nat2Z.id, str_take_app in Hrun
    by (rewrite !str_app_length; lia).
  rewrite bind_split, slice_from_ok in Hrun by (rewrite !str_app_length; lia).
  replace (str_drop _ _) with a in Hrun; last first.
  { replace (Z.to_nat _) with (String.length (b +:+ target)) by (rewrite str_app_length; lia).
    by rewrite str_app_assoc, str_drop_app. }
  unfold wrapping in Hrun. destruct (WriteFile _ _ o1) as [[u|e|w] o3] eqn:Ew; [|done..].
  injection Hrun as -> ->. rewrite <- Hfs in Hf.
  rewrite (WriteFile_Ok _ _ _ _ _ _ Hf Ew). by rewrite Hfs.
Qed.

(** Where the target is found its slices are within bounds. *)
Lemma str_index_slices content target : (0 ≤ str_index content target)%Z →
  (str_index content target + Z.of_nat (String.length target)
     ≤ Z.of_nat (String.length content))%Z.
Proof.
  intros H. destruct (str_index_bounds content target) as [E|(b & a & Hs & E)]; [lia|].
  rewrite E, Hs, !str_app_length. lia.
Qed.

(** Whatever the file, the target and the failing calls, [UncommentCode] takes no
    slice out of bounds, touches no other file, and leaves the file as it was
    when it does not hold the target. *)
Theorem UncommentCode_bounds filename target prefix o :
  let '(r, o') := UncommentCode filename target prefix o in
  (∀ w, r ≠ Panic w) ∧ (∀ k, k ≠ resolve filename → fs o' !! k = fs o !! k) ∧
  (∀ c, fs o !! resolve filename = Some (File c) → (∀ b a, c ≠ b +:+ target +:+ a) →
     fs o' = fs o).
Proof.
  unfold UncommentCode. rewrite bind_split. unfold wrapping at 1.
  pose proof (within_none_fs _ o (within_ReadFile _ filename)) as F.
  destruct (ReadFile filename o) as [[c|e|w] o1] eqn:E; cbn in F;
    [|cbn; by rewrite F|by destruct (safe_not_Panic _ _ _ _ (safe_ReadFile filename) E)].
  apply ReadFile_Ok in E.
  destruct (Z.ltb_spec (str_index c target) 0) as [Hi|Hi]; [cbn; by rewrite F|].
  pose proof (str_index_slices c target Hi) as Hs.
  rewrite bind_split, slice_to_ok by lia.
  assert (∀ c', fs o !! resolve filename = Some (File c') → (∀ b a, c' ≠ b +:+ target +:+ a) → False)
    as Hno.
  { intros c' Hc'. rewrite E in Hc'. injection Hc' as <-. intros Hne.
    destruct (str_index_bounds c target) as [|(b & a & Hc & _)]; [lia|by apply (Hne b a)]. }
  destruct (uncommented target prefix) as [out|]; [|cbn; by rewrite F].
  rewrite bind_split, slice_from_ok by lia. set (data := _ +:+ _).
  destruct (within_WriteFile (eq (resolve filename)) filename data eq_refl o1) as (_ & _ & _ & Hk).
  pose proof (safe_WriteFile filename data o1) as Hw. unfold wrapping.
  destruct (WriteFile filename data o1) as [[u|e|w] o2]; cbn in Hk, Hw; [..|done];
    (split_and!; [done|intros k Hne; rewrite Hk, F by congruence; done|]);
    intros c' Hc' Hne; by destruct (Hno c' Hc' Hne).
Qed.

(** Uncommenting a piece of a file.  When the target is made of lines that
    fit the scanner, and does not end in a line end, a success means that its
    first occurrence in the file was replaced by its lines without the prefix,
    that the text before and after it is as it was, and that no other file was
    touched. *)
Theorem UncommentCode_spec filename l p prefix o b a o' :
  let target := join_with LF (l ++ [p]) in
  Forall target_line (l ++ [p]) → Forall line_fits (l ++ [p]) → p ≠ "" →
  fs o !! resolve filename = Some (File (b +:+ target +:+ a)) →
  str_index (b +:+ target +:+ a) target = Z.of_nat (String.length b) →
  UncommentCode filename target prefix o = (Ok tt, o') →
  fs o' = <[resolve filename :=
    File (b +:+ join_with LF (map (λ q, TrimPrefix q prefix) (l ++ [p])) +:+ a)]> (fs o).
Proof.
  intros target Hl Hf Hp Hfile Hi. apply (UncommentCode_run _ _ _ _ _ _ _ _ Hfile Hi).
  unfold uncommented, target. rewrite scan_target by done. by destruct l.
Qed.

Definition code_os : OS :=
  boot (list_to_map [([], Dir); (["k.yaml"], File (bytes [97; 10; 35; 98; 10; 35; 99; 10; 100]))]) ∅.

Definition code_run : res unit * OS :=
  UncommentCode "/k.yaml" (bytes [35; 98; 10; 35; 99]) "#" code_os.

Lemma UncommentCode_spec_witness :
  fs code_run.2 = <[["k.yaml"] := File (bytes [97; 10; 98; 10; 99; 10; 100])]> (fs code_os).
Proof.
  refine (UncommentCode_spec "/k.yaml" ["#b"] "#c" "#" code_os (bytes [97; 10]) (bytes [10; 100])
    code_run.2 _ _ _ _ _ _).
  - repeat constructor.
  - repeat constructor.
  - discriminate.
  - vm_compute. reflexivity.
  - vm_compute. reflexivity.
  - vm_compute. reflexivity.
Defined.

(** A line that is too long truncates the code.  When a line of the target
    does not fit the scanner's buffer, the error of the scanner is dropped: a
    success means that the file was rewritten without that line and without
    every line of the target after it, commented or not. *)
Theorem UncommentCode_truncates filename l p k prefix o b a o' :
  let target := join_with LF (l ++ p :: k) in
  l ≠ [] → Forall target_line l → Forall line_fits l → ¬ line_fits p →
  Forall (λ q, no_char LF q = true) (p :: k) →
  fs o !! resolve filename = Some (File (b +:+ target +:+ a)) →
  str_index (b +:+ target +:+ a) target = Z.of_nat (String.length b) →
  UncommentCode filename target prefix o = (Ok tt, o') →
  fs o' = <[resolve filename :=
    File (b +:+ join_with LF (map (λ q, TrimPrefix q prefix) l) +:+ a)]> (fs o).
Proof.
  intros target Hne Hl Hf Hp Hk Hfile Hi. apply (UncommentCode_run _ _ _ _ _ _ _ _ Hfile Hi).
  unfold uncommented, target. rewrite scan_target_long by done. by destruct l.
Qed.

(** *** The other helpers *)

Lemma split_piece_in s p : p ∈ split_on LF s → ∃ b a, s = b +:+ p +:+ a.
Proof.
  revert p. induction s as [|c s IH]; intros p; cbn [split_on].
  - intros [->|[]%elem_of_nil]%elem_of_cons. by exists "", "".
  - destruct (Ascii.eqb c LF).
    + intros [->|Hp]%elem_of_cons; [by exists "", (String c s)|].
      destruct (IH p Hp) as (b & a & ->). by exists (String c b), a.
    + destruct (split_on LF s) as [|q qs] eqn:E; [by intros []%elem_of_nil|].
      intros [->|Hp]%elem_of_cons.
      * assert (∃ a, s = q +:+ a) as [a ->].
        { clear IH. revert q qs E. induction s as [|d s IHs]; intros q qs; cbn [split_on].
          - intros [= <- _]. by exists "".
          - destruct (Ascii.eqb d LF); [intros [= <- _]; by eexists|].
            destruct (split_on LF s) as [|q' qs'] eqn:E'; [done|]. intros [= <- <-].
            destruct (IHs _ _ eq_refl) as [a ->]. by exists a. }
        by exists "", a.
      * destruct (IH p) as (b & a & ->); [by apply list_elem_of_further|]. by exists (String c b), a.
Qed.

(** A text without line feeds that is in the output is in one of its lines. *)
Lemma split_piece_holds b t a :
  no_char LF t = true → t ≠ "" →
  ∃ p x y, p ∈ split_on LF (b +:+ t +:+ a) ∧ p ≠ "" ∧ p = x +:+ t +:+ y.
Proof.
  intros Ht Hne. induction b as [|c b (p & x & y & Hp & Hpne & Hx)].
  - cbn [String.append]. clear -Ht Hne. induction t as [|c t IH]; [done|].
    apply no_char_cons in Ht as [Hc Ht]. cbn [String.append split_on].
    rewrite (proj2 (Ascii.eqb_neq _ _) Hc). destruct (decide (t = "")) as [->|Hte].
    + cbn [String.append]. pose proof (split_on_nonempty LF a).
      destruct (split_on LF a) as [|q qs]; [done|].
      exists (String c q), "", q. split; [apply list_elem_of_here|done].
    + assert (∃ q qs, split_on LF (t +:+ a) = (t +:+ q) :: qs) as (q & qs & ->).
      { clear IH Hte Hne. induction t as [|d t IH].
        - pose proof (split_on_nonempty LF a). destruct (split_on LF a) as [|q qs] eqn:E; [done|].
          exists q, qs. done.
        - apply no_char_cons in Ht as [Hd Ht]. cbn [String.append split_on].
          rewrite (proj2 (Ascii.eqb_neq _ _) Hd). destruct (IH Ht) as (q & qs & ->). by exists q, qs. }
      exists (String c (t +:+ q)), "", q. split; [apply list_elem_of_here|done].
  - cbn [String.append split_on]. destruct (Ascii.eqb c LF).
    + exists p, x, y. split; [by apply list_elem_of_further|done].
    + destruct (split_on LF (b +:+ t +:+ a)) as [|q qs]; [by apply elem_of_nil in Hp|].
      apply elem_of_cons in Hp as [<-|Hp].
      * exists (String c p), (String c x), y. split; [apply list_elem_of_here|]. by rewrite Hx.
      * exists p, x, y. split; [by apply list_elem_of_further|done].
Qed.

(** Cert-manager is said to be installed exactly when the command succeeded
    and the name of one of its definitions is somewhere in the output: splitting
    the output into lines, and dropping the empty ones, loses no mention. *)
Theorem IsCertManagerCRDsInstalled_iff crds :
  IsCertManagerCRDsInstalled crds = true ↔
  ∃ b crd a, crd ∈ certManagerCRDs ∧ crds = inr (b +:+ crd +:+ a).
Proof.
  unfold IsCertManagerCRDsInstalled, GetNonEmptyLines.
  destruct crds as [e|output]; [split; [done|naive_solver]|].
  rewrite existsb_exists. setoid_rewrite existsb_exists. setoid_rewrite <- list_elem_of_In.
  setoid_rewrite list_elem_of_filter. setoid_rewrite str_contains_iff. split.
  - intros (crd & Hcrd & line & [_ Hline] & b & a & ->).
    destruct (split_piece_in _ _ Hline) as (b' & a' & ->).
    exists (b' +:+ b), crd, (a +:+ a'). split; [done|]. by rewrite <- !str_app_assoc.
  - intros (b & crd & a & Hcrd & [= ->]). exists crd. split; [done|].
    destruct (split_piece_holds b crd a) as (p & x & y & Hp & Hne & ->); [| |eauto 10].
    all: unfold certManagerCRDs in Hcrd;
      repeat (apply elem_of_cons in Hcrd as [->|Hcrd]; [done|]); by apply elem_of_nil in Hcrd.
Qed.
