(* ===== verification/TestCommands.v ===== *)
(** * The commands of the end-to-end tests: [test/utils/utils.go]

    The helpers that run [kubectl] and [kind].  The host keeps the working
    directory and the log of the commands that were executed; what a command
    answers, and whether the directory can be read and changed, are parameters of
    the state: they can be anything, at every call. *)
From S2P Require Import Prelude GoStrings OS TestUtils.

(** ** The host *)

Record Cmd := { cmd_Args : list string; cmd_Dir : string; cmd_Env : list string }.

Record Host := MkHost {
  cwd : string;
  environ : list string; (** [key=value] *)
  executed : list Cmd;   (** oldest first *)
  warnings : list error; (** what [warnError] printed *)
  getwd_error : nat → option error;     (** by the number of commands executed *)
  chdir_error : nat → string → option error;
  answer : nat → Cmd → string * option error;
}.

Definition set_cwd (d : string) (h : Host) : Host :=
  MkHost d (environ h) (executed h) (warnings h) (getwd_error h) (chdir_error h) (answer h).

Definition add_executed (c : Cmd) (h : Host) : Host :=
  MkHost (cwd h) (environ h) (executed h ++ [c]) (warnings h)
    (getwd_error h) (chdir_error h) (answer h).

Definition add_warning (e : error) (h : Host) : Host :=
  MkHost (cwd h) (environ h) (executed h) (warnings h ++ [e])
    (getwd_error h) (chdir_error h) (answer h).

(** [os.Getwd], which returns an empty directory with its error. *)
Definition Getwd : M Host (string * option error) := gets (λ h,
  match getwd_error h (length (executed h)) with
  | Some e => ("", Some e)
  | None => (cwd h, None)
  end).

Definition Chdir (d : string) : M Host (option error) := λ h,
  match chdir_error h (length (executed h)) d with
  | Some e => (Ok (Some e), h)
  | None => (Ok None, set_cwd d h)
  end.

Definition CombinedOutput (c : Cmd) : M Host (string * option error) := λ h,
  (Ok (answer h (length (executed h)) c), add_executed c h).

(** [os.LookupEnv]: of a variable that is there twice, the first. *)
Definition binding (k entry : string) : option string :=
  match Cut entry "=" with
  | Some (k', v) => if String.eqb k' k then Some v else None
  | None => None
  end.

Definition LookupEnv (k : string) : M Host (option string) :=
  gets (λ h, head (omap (binding k) (environ h))).

(** [exec.Command] *)
Definition Command (name : string) (args : list string) : Cmd := Build_Cmd (name :: args) "" [].

(** [strings.ReplaceAll(s, old, new)], of an [old] that is not empty.  [skip]
    bytes belong to the last match. *)
Fixpoint str_replace (old new : string) (skip : nat) (s : string) : string :=
  match s with
  | EmptyString => EmptyString
  | String a s' =>
      match skip with
      | S skip' => str_replace old new skip' s'
      | O => if String.prefix old s
             then new +:+ str_replace old new (String.length old - 1) s'
             else String a (str_replace old new 0 s')
      end
  end.

(** ** The code *)

Definition warnError (err : error) : M Host unit := modify (add_warning err).

Definition GetProjectDir : M Host (string * option error) :=
  '(wd, err) ← Getwd;
  match err with
  | Some e => mret (wd, Some (Wrapf "failed to get current working directory: %w" [] e))
  | None => mret (str_replace "/test/e2e" "" 0 wd, None)
  end.

(** The output is returned with the error. *)
Definition Run (cmd : Cmd) : M Host (string * option error) :=
  '(dir, _) ← GetProjectDir;
  let cmd := Build_Cmd (cmd_Args cmd) dir (cmd_Env cmd) in
  Chdir (cmd_Dir cmd) ;; (* the error is printed *)
  e ← gets environ;
  let cmd := Build_Cmd (cmd_Args cmd) (cmd_Dir cmd) (e ++ ["GO111MODULE=on"]) in
  let command := join_with " " (cmd_Args cmd) in
  '(output, err) ← CombinedOutput cmd;
  match err with
  | Some e => mret (output, Some (Wrapf "%q failed with error %q: %w" [command; output] e))
  | None => mret (output, None)
  end.

Definition certmanagerVersion := "v1.20.2".
Definition certmanagerURL : string :=
  "https://github.com/cert-manager/cert-manager/releases/download/" +:+ certmanagerVersion
    +:+ "/cert-manager.yaml".

Definition kubeSystemLeases : list string :=
  ["cert-manager-cainjector-leader-election"; "cert-manager-controller"].

(** A command whose failure is a warning. *)
Definition run_or_warn (cmd : Cmd) : M Host unit :=
  '(_, err) ← Run cmd;
  match err with Some e => warnError e | None => mret tt end.

Definition delete_lease (lease : string) : Cmd :=
  Command "kubectl" ["delete"; "lease"; lease; "-n"; "kube-system"; "--ignore-not-found"; "--force";
                     "--grace-period=0"].

Definition UninstallCertManager : M Host unit :=
  run_or_warn (Command "kubectl" ["delete"; "-f"; certmanagerURL]) ;;
  for_each kubeSystemLeases (λ lease, run_or_warn (delete_lease lease)).

Definition wait_for_webhook : Cmd :=
  Command "kubectl" ["wait"; "deployment.apps/cert-manager-webhook"; "--for"; "condition=Available";
                     "--namespace"; "cert-manager"; "--timeout"; "5m"].

Definition apply_cert_manager : Cmd := Command "kubectl" ["apply"; "-f"; certmanagerURL].

Definition InstallCertManager : M Host (option error) :=
  '(_, err) ← Run apply_cert_manager;
  match err with
  | Some e => mret (Some e)
  | None => '(_, err) ← Run wait_for_webhook; mret err
  end.

(** [IsCertManagerCRDsInstalled], the command included. *)
Definition CheckCertManagerCRDs : M Host bool :=
  '(output, err) ← Run (Command "kubectl" ["get"; "crds"]);
  mret (IsCertManagerCRDsInstalled (match err with Some e => inl e | None => inr output end)).

Definition defaultKindBinary := "kind".
Definition defaultKindCluster := "kind".

Definition LoadImageToKindClusterWithName (name : string) : M Host (option error) :=
  v ← LookupEnv "KIND_CLUSTER";
  let cluster := default defaultKindCluster v in
  let kindOptions := ["load"; "docker-image"; name; "--name"; cluster] in
  v ← LookupEnv "KIND";
  let kindBinary := default defaultKindBinary v in
  '(_, err) ← Run (Command kindBinary kindOptions);
  mret err.

(** * Properties *)

(** What [Run] makes of a command on a host. *)
Definition project_dir (h : Host) : string :=
  match getwd_error h (length (executed h)) with
  | Some _ => ""
  | None => str_replace "/test/e2e" "" 0 (cwd h)
  end.

Definition prepared (cmd : Cmd) (h : Host) : Cmd :=
  Build_Cmd (cmd_Args cmd) (project_dir h) (environ h ++ ["GO111MODULE=on"]).

(** The host after the attempt to change to the project. *)
Definition moved (h : Host) : Host :=
  match chdir_error h (length (executed h)) (project_dir h) with
  | Some _ => h
  | None => set_cwd (project_dir h) h
  end.

Definition outcome (cmd : Cmd) (h : Host) : string * option error :=
  let '(output, err) := answer h (length (executed h)) (prepared cmd h) in
  (output, (λ e, Wrapf "%q failed with error %q: %w" [join_with " " (cmd_Args cmd); output] e) <$> err).

(** [Run] always runs its command, once. *)
Lemma Run_run cmd h : Run cmd h = (Ok (outcome cmd h), add_executed (prepared cmd h) (moved h)).
Proof.
  assert (GetProjectDir h = (Ok (project_dir h, match getwd_error h (length (executed h)) with
    | Some e => Some (Wrapf "failed to get current working directory: %w" [] e) | None => None end), h)) as Hd.
  { unfold GetProjectDir, Getwd, project_dir. rewrite bind_split. unfold gets.
    by destruct (getwd_error h _). }
  unfold Run. rewrite (bind_Ok _ _ _ _ _ Hd). cbn [cmd_Args cmd_Dir].
  set (d := project_dir h). assert (∃ r, Chdir d h = (Ok r, moved h)) as [r Hc].
  { unfold Chdir, moved. fold d. destruct (chdir_error h _ d); by eexists. }
  rewrite (bind_Ok _ _ _ _ _ Hc). rewrite bind_split. unfold gets.
  assert (environ (moved h) = environ h) as -> by (unfold moved; by destruct (chdir_error h _ _)).
  rewrite bind_split. unfold CombinedOutput. fold (prepared cmd h).
  assert (answer (moved h) (length (executed (moved h))) = answer h (length (executed h))) as ->
    by (unfold moved; by destruct (chdir_error h _ _)).
  unfold outcome, prepared. fold d. by destruct (answer h _ _) as [output [e|]].
Qed.

Lemma moved_executed h : executed (moved h) = executed h.
Proof. unfold moved. by destruct (chdir_error h _ _). Qed.

(** The commands that were executed, by their words. *)
Definition history (h : Host) : list (list string) := map cmd_Args (executed h).

Lemma Run_history cmd h : history (add_executed (prepared cmd h) (moved h)) = history h ++ [cmd_Args cmd].
Proof. unfold history. cbn. by rewrite moved_executed, map_app. Qed.

Lemma run_or_warn_run cmd h :
  ∃ h', run_or_warn cmd h = (Ok tt, h') ∧ history h' = history h ++ [cmd_Args cmd] ∧
    warnings h' = warnings h ++ option_list (outcome cmd h).2.
Proof.
  unfold run_or_warn. rewrite (bind_Ok _ _ _ _ _ (Run_run cmd h)).
  destruct (outcome cmd h) as [output [e|]]; cbn [snd option_list].
  - eexists. split; [done|]. split; [apply (Run_history cmd h)|].
    cbn. unfold moved. by destruct (chdir_error h _ _).
  - eexists. split; [done|]. split; [apply Run_history|].
    rewrite app_nil_r. cbn. unfold moved. by destruct (chdir_error h _ _).
Qed.

Lemma run_all_or_warn {A} (f : A → Cmd) l h :
  ∃ h', for_each l (λ x, run_or_warn (f x)) h = (Ok tt, h') ∧
    history h' = history h ++ map (λ x, cmd_Args (f x)) l.
Proof.
  revert h. induction l as [|x l IH]; intros h; cbn [for_each map].
  - exists h. by rewrite app_nil_r.
  - destruct (run_or_warn_run (f x) h) as (h1 & E1 & H1 & _).
    destruct (IH h1) as (h2 & E2 & H2). exists h2.
    rewrite (bind_Ok _ _ _ _ _ E1). split; [done|]. by rewrite H2, H1, <- app_assoc.
Qed.

(** The commands of cert-manager, on every host, whatever fails.  Removing
    it always runs its three deletions, in their order, and reports no error;
    installing it waits for the webhook exactly when the bundle was applied, and
    returns the error of the command that failed.  Failing to find or to enter
    the directory of the project stops neither. *)
Theorem cert_manager_commands h :
  (∃ h', UninstallCertManager h = (Ok tt, h') ∧
     history h' = history h ++
       [["kubectl"; "delete"; "-f"; certmanagerURL];
        cmd_Args (delete_lease "cert-manager-cainjector-leader-election");
        cmd_Args (delete_lease "cert-manager-controller")]) ∧
  (∃ r h', InstallCertManager h = (Ok r, h') ∧
     match (outcome apply_cert_manager h).2 with
     | Some e => r = Some e ∧ history h' = history h ++ [cmd_Args apply_cert_manager]
     | None => history h' = history h ++ [cmd_Args apply_cert_manager; cmd_Args wait_for_webhook]
     end).
Proof.
  split.
  - unfold UninstallCertManager.
    destruct (run_or_warn_run (Command "kubectl" ["delete"; "-f"; certmanagerURL]) h) as (h1 & E1 & H1 & _).
    destruct (run_all_or_warn delete_lease kubeSystemLeases h1) as (h2 & E2 & H2).
    exists h2. rewrite (bind_Ok _ _ _ _ _ E1). split; [done|]. by rewrite H2, H1, <- app_assoc.
  - unfold InstallCertManager. rewrite (bind_Ok _ _ _ _ _ (Run_run apply_cert_manager h)).
    pose proof (Run_history apply_cert_manager h) as H1. set (h1 := add_executed _ _) in *.
    destruct (outcome apply_cert_manager h) as [output [e|]]; cbn [snd].
    + by exists (Some e), h1.
    + rewrite (bind_Ok _ _ _ _ _ (Run_run wait_for_webhook h1)).
      pose proof (Run_history wait_for_webhook h1) as H2.
      destruct (outcome wait_for_webhook h1) as [output' err].
      eexists _, _. split; [done|]. by rewrite H2, H1, <- app_assoc.
Qed.

(** ** The directory of the project *)

Lemma str_replace_none old new s :
  (∀ b a, s ≠ b +:+ old +:+ a) → str_replace old new 0 s = s.
Proof.
  induction s as [|c s IH]; intros Hno; [done|]. cbn [str_replace].
  destruct (String.prefix old (String c s)) eqn:E.
  - destruct (Hno "" _ (prefix_split _ _ E)).
  - f_equal. apply IH. intros b a ->. by destruct (Hno (String c b) a).
Qed.

Lemma str_replace_skip old new s t :
  str_replace old new (String.length s) (s +:+ t) = str_replace old new 0 t.
Proof. induction s as [|c s IH]; [by destruct t|]. cbn. apply IH. Qed.

(** No occurrence of the suffix begins in what is before it. *)
Lemma e2e_no_overlap q :
  q ≠ "" → String.prefix "/test/e2e" (q +:+ "/test/e2e") = true → ∃ a, q = "/test/e2e" +:+ a.
Proof.
  intros Hne H. destruct q as [|c q]; [done|].
  do 8 (destruct q as [|? q];
    [exfalso; cbn [String.append] in H; rewrite !prefix_cons in H; cbn in H;
     rewrite ?andb_false_r in H; discriminate|]).
  exists q. cbn [String.append] in H. rewrite !prefix_cons in H.
  repeat (apply andb_true_iff in H as [?%Ascii.eqb_eq H]). by subst.
Qed.

(** A test that runs in its own directory finds the project, for a checkout whose
    path does not hold the name of that directory. *)
Theorem project_dir_of_tests h p :
  getwd_error h (length (executed h)) = None → cwd h = p +:+ "/test/e2e" →
  (∀ b a, p ≠ b +:+ "/test/e2e" +:+ a) → GetProjectDir h = (Ok (p, None), h).
Proof.
  intros Hg Hc Hp. unfold GetProjectDir, Getwd. rewrite bind_split. unfold gets. rewrite Hg.
  unfold mret, M_ret. do 3 f_equal. rewrite Hc. clear Hg Hc.
  induction p as [|c p IH]; [done|]. cbn [String.append str_replace].
  destruct (String.prefix "/test/e2e" (String c (p +:+ "/test/e2e"))) eqn:E.
  - destruct (e2e_no_overlap (String c p) ltac:(done) E) as [a Ha]. by destruct (Hp "" a).
  - f_equal. apply IH. intros b a ->. by destruct (Hp (String c b) a).
Qed.

(** Every occurrence is removed, those in the path of the checkout included. *)
Example checkout_path_is_cut :
  str_replace "/test/e2e" "" 0 "/work/test/e2e-operator/test/e2e" = "/work-operator".
Proof. reflexivity. Qed.

Definition sample_host : Host :=
  MkHost "/src/test/e2e" ["PATH=/bin"; "KIND_CLUSTER=dev"] [] [] (λ _, None) (λ _ _, None)
    (λ n _, if Nat.eqb n 0 then ("", Some (ELib "exit status 1")) else ("", None)).

Lemma project_dir_of_tests_witness :
  GetProjectDir sample_host = (Ok ("/src", None), sample_host).
Proof.
  apply (project_dir_of_tests sample_host "/src"); [done..|].
  intros b a H. apply (f_equal String.length) in H. rewrite !str_app_length in H. cbn in H. lia.
Defined.

Example uninstall_ex :
  warnings (UninstallCertManager sample_host).2 =
    [Wrapf "%q failed with error %q: %w" [join_with " " ["kubectl"; "delete"; "-f"; certmanagerURL]; ""]
       (ELib "exit status 1")] ∧
  cwd (UninstallCertManager sample_host).2 = "/src".
Proof. vm_compute. by split. Qed.

(** A variable that is set decides, also when it is empty. *)
Example load_ex :
  history (LoadImageToKindClusterWithName "img" sample_host).2 =
    [["kind"; "load"; "docker-image"; "img"; "--name"; "dev"]] ∧
  LookupEnv "KIND" (MkHost "" ["KIND="] [] [] (λ _, None) (λ _ _, None) (λ _ _, ("", None))) =
    (Ok (Some ""), MkHost "" ["KIND="] [] [] (λ _, None) (λ _ _, None) (λ _ _, ("", None))).
Proof. by split. Qed.
